(* ===== verification/_CoqProject ===== *)
-Q . S2P
Prelude.v
KList.v
Mm.v
Utils.v
Io.v
Fs.v
KState.v
Sched.v
Sem.v
Devices.v
Sys.v
Interrupt.v
Libc.v
Monitor.v
Reader.v
Start.v
Build.v
MonitorFacts.v
Queues.v
SchedFacts.v
SemFacts.v
Quiet.v
KernelInv.v
ExitFacts.v
ForkFacts.v
Boot.v
FsFacts.v
FsOps.v
UtilsFacts.v
FileFacts.v
CreateFacts.v
WriteFacts.v
ReadFacts.v
Kernel.v
States.v
KernelProps.v
SemProps.v
MemProps.v
TextProps.v
EntryProps.v
KeyFacts.v
KeyServe.v
KeyLine.v
KeyProps.v
MonitorProps.v
FsProps.v
FileProps.v
LibcProps.v
BuildProps.v
StartFacts.v
StartProps.v
Framed.v
Timing.v
RoundRobin.v
Frames.v
Confine.v
Flushed.v
Typed.v
FdFacts.v
ReachProps.v
Window.v
OpenFacts.v
FileSession.v
FdProps.v
