(* ===== verification/Prelude.v ===== *)
(** * A verification of the ZeOS teaching kernel and of the system call monitor

    The repository holds two programs.

    [src/zeos] is a small 32 bit kernel: ten tasks, round robin scheduling with
    a quantum, paging with one page table whose data entries are rewritten at
    every switch, counting semaphores, a keyboard with a circular buffer and a
    queue of readers, a text screen, a RAM disk with a chained allocation table
    and a directory of ten entries.  Its entry points are the handlers of
    [entry.S]: system calls (int 0x80), the clock, the keyboard, exceptions.

    [src/kernel-module] is a pair of Linux modules: a monitor that replaces five
    system calls by traps that count and time them ([syscalls_mon.c]), and a
    character device that hands out the counts ([syscalls_mon_reader.c]).

    ** How the code is modelled

    A C function is a computation of the monad [M S] of this file: it takes the
    state it works on and gives an [outcome].  [Ret] is a return; [Fault] what C
    leaves undefined (an index out of an array, a null pointer, an address that
    is not mapped); [Diverged] a loop that used up its fuel; [Halted] a
    [while(1)] that ends the kernel; [Switched] the end of a path of the kernel
    that resumes another process.  A program is proved correct with [wp m s Q X]:
    from [s], [m] neither faults nor diverges, [Q] holds where it returns and [X]
    where it switches; [returns] is [wp] without a switch.  So every such
    theorem is one of termination and of memory safety too.  Fuels are bounds
    proved sufficient: the length of the address space for strings, the number
    of blocks for chains of blocks, the trip count of a [for].

    A global variable is a field of a record, reached through a [lens]; a member
    of an array of structures is updated in a list.  Integers are [Z] with the
    wrap around of their C type ([s32], [u32], [u16], [u8], [u64]) at every
    operation that can overflow.  Pointers into known arrays are indices
    ([struct virtual *] is an index of [fdt], [NULL] is [None]); intrusive list
    nodes are the constructors of [KList.node] in a heap of [next] and [prev].
    User memory is physical memory seen through the page table; the set of pages
    whose entries changed since the TLB was flushed is part of the state.

    ** The files of the model

    - [Prelude]: the monad, lenses, arrays, loops, the rules of [wp], reachability.
    - [KList] ([include/list.h]): the doubly linked lists, as pointers.
    - [Mm] ([mm.c], copy routines of [utils.c]): frames, page table, translation.
    - [Utils] ([utils.c], [stdio.c]): strings, decimal numbers, pointer checks.
    - [Io] ([io.c]): the screen.
    - [Fs] ([filesystem.c], [sys_release_file]): disk, FAT, directory, open files.
    - [KState] ([include/sched.h], [include/keyboard.h]): the state of the kernel.
    - [Sched] ([sched.c]): initialisation, context switch, round robin.
    - [Sem] ([sys.c]): the semaphores.
    - [Devices] ([devices.c]): console, keyboard, regular files.
    - [Sys] ([sys.c]): the other system calls.
    - [Interrupt] ([interrupt.c], [entry.S], [system.c]): descriptor table,
      exceptions, clock, keyboard, dispatch of system calls; [boot] is what [main]
      does to the kernel, the start of the step relation.
    - [Start] ([system.c], [hardware.c], [mm.c]): the whole [main], on a machine
      with segment registers and descriptors, up to the user program.
    - [Libc] ([libc.c], [stdio.c]): the library of the user programs: a wrapper is
      a call of the handler of int 0x80, then the convention of [errno]; [perror].
    - [Monitor] ([syscalls_mon.c]), [Reader] ([syscalls_mon_reader.c]).
    - [Build] ([build.c]): the tool that writes the image the machine boots.

    ** The files of the proofs

    - [Queues]: the invariant of the queues ([qinv]): lists well formed, disjoint,
      holding exactly the tasks alive; [SchedFacts], [SemFacts]: the scheduler and
      the semaphores against it; [Quiet], [KernelInv]: the operations that do not
      touch it, and its preservation by every entry point.
    - [ExitFacts], [ForkFacts]: the end and the creation of a process.
    - [Boot], [States]: the state after [boot], and concrete states in which
      hypotheses hold.
    - [FsFacts], [FsOps], [FileFacts], [CreateFacts]: chains of blocks, the
      invariant of the file system ([fs_ok]: every block is in the free chain or
      in the chain of one file), its initialisation, creation and removal of files.
    - [StartFacts]: the initialisation succeeds wherever the linker put the task
      structures, and the address of every byte after it.
    - [WriteFacts], [ReadFacts]: the loops of [sys_write_file] and [sys_read_file]
      against the [contents] of a file, the list of its bytes.
    - [Framed]: what most routines leave alone.  An invariant declares what it
      looks at by an instance of one of two classes, [framed] (frames, open files,
      descriptors) and the weaker [durable] (also the running process, its data
      pages, the TLB, quanta and slice, and that the copy of the keyboard, which maps
      pages and flushes, keeps it); each routine is proved to keep every instance once,
      and [stays] collects what an invariant adds to survive every step.
    - The invariants of that kind, each from [boot] on.  [Timing] ([timed]): the
      slice and the quanta are [int]s that are not negative, and the quantum of a
      live process is positive.  [Frames] ([isolated]): no two live processes
      share a frame, and none has one of the frames mapped for process 0 at boot.
      [Confine] ([at_home]): the data pages are mapped to frames of the running
      process.  [Flushed] ([flushed]): no entry of the page table was changed since
      the TLB was flushed.  [Typed] ([typed]): a descriptor is null or names an open file,
      which names an entry of the directory.
    - [RoundRobin]: the ticks of the clock a runnable process has to wait, as a
      measure that every tick lowers by one, and the theorem.
    - [FdFacts], [OpenFacts]: [sys_dup], [sys_close] and [sys_open] on every branch
      against [typed]; [FileSession]: the calls in sequence on one file.
    - [ReachProps]: theorems that need all these invariants together ([sound]);
      [Window]: that the pages mapped for a read from the keyboard stay mapped and
      writable whatever clock interrupts and stores follow.
    - [KeyFacts], [KeyServe], [KeyLine]: delivering characters to another process
      through pages mapped for the occasion, a key for a process that waits, and
      a line typed for it.
    - [UtilsFacts], [MonitorFacts], [Kernel]: strings and numerals; the monitor;
      the step relation of the kernel and the clock interrupt.
    - [KernelProps], [SemProps], [MemProps], [TextProps], [EntryProps],
      [KeyProps], [MonitorProps], [FsProps], [FileProps], [LibcProps], [BuildProps],
      [StartProps], [FdProps]: the theorems, each with an instance at a concrete state.

    ** The theorems

    Processes: the invariant of every reachable state; that no two live processes
    ever own the same frame; that the page table, which the TLB agrees with, lets a
    process store to its data pages, and such a store changes
    one byte of a frame in use that no other live process records; that a system
    call that follows no pointer of the user comes to its end in every reachable
    state, whatever its number and arguments; the clock interrupt, [schedule], [task_switch], [sys_fork], [sys_exit] on all
    their paths, [sys_fork] and the progress of the queue from every reachable
    state: how long a runnable process waits for its turn, to the tick.  Three
    errors of the code: exit with one process left, the frames of process 0, and
    the 20 pages of a process that stay mapped after it read from the keyboard,
    which every process that runs next can write.
    Semaphores: the four system calls, and first come first served wake ups.
    Memory: allocation of frames, mapping, copying, and the checks on user
    pointers, which are weaker than they mean to be.  Text: [strlen], [strcmp],
    [itoa], the cursor, the clock on the screen.  Entry: the descriptor table,
    unknown system calls, the keyboard interrupt.  Keyboard: a read from it on
    every path, and that the characters of the keys reach the process that waits
    for them, through as many full buffers as it takes.  Monitor: what a trap returns
    and counts, for any original routines that leave the existing records alone -
    a [clone] that makes a process, with a record not yet its own, included -
    and that the counts add up whatever the processes call;
    loading and unloading, exclusive use of the device.  Files: allocation of
    blocks with its rollback, creation and removal; an appending write refines
    appending to the list of bytes of the file, a read gives a part of that list,
    and the two compose to a round trip.  Descriptors: they never dangle in a
    reachable state; [sys_dup], [sys_close] and [sys_open] on all their paths,
    the ones that are undefined (a creation on a full disk, in a full directory, or
    with a name of ten characters) included; how an open file
    whose references were not counted is taken over by another; and a program that
    creates, writes, closes, opens and reads a file, which gets back exactly the
    bytes the write reported.  Library: the convention of [errno].
    Image: where the sizes, the kernel and the user program are, and, from there
    on, that [main] arrives at the user program, which is where it was linked.

    ** Bounds

    All array sizes, limits and error numbers are those of the headers.  The
    addresses the linker chooses - of [task], of the page table, of the entry
    points - are arguments of [boot] and [main].

    ** Not modelled

    Accesses to memory look at the entry the page table holds and at its present
    bit.  The user and write bits are not checked by [translate]; that they are set
    is part of the theorems about stores of user code.  A translation still in
    the TLB while the kernel copies through pages it has just remapped without a
    flush (the window of [sys_fork] and of [copy_from_circ_buffer]) is recorded in
    [stale] but does not mislead the copy, as it could on a machine.  System calls
    and page faults of a process that is dead but left running, and any once the
    2^31 pids are used up, are no steps of [kstep].  The error code the CPU pushes
    for a page fault is not on the modelled stack.

    The boot sector (real mode assembly that loads the image with BIOS calls), but
    for its table of segments; the macros of [asm.h]; the user programs: [user.c]
    only loops after a routine of a library whose source is not in the
    repository, the test programs of the modules are menus for a terminal.  The C
    that is left beside these is comments, code that is commented out,
    declarations of routines modelled where they are defined, and macros nothing
    uses.  Of the registers saved at entry, all but the result register; the memory the
    variables of the kernel occupy, which are fields of the state and not bytes.
    Of Linux only what the modules use is there, as parameters: process table,
    original system calls (one runs to its end before another process does),
    reference counter of the module, device registration,
    [copy_to_user]; its log is a list of formats and numbers.  Of the host of the
    builder only the results of its system calls are there; its progress messages
    are left out. *)
From stdpp Require Export prelude gmap.
From stdpp Require Export strings.
From stdpp Require Export list.

#[global] Open Scope Z_scope.
#[export] Set Warnings "-clear-no-such-hyp".

(** ** Machine integers: the i386 [int], [unsigned int], [Word], [Byte]. *)

Definition wrap_u (w z : Z) : Z := z mod 2 ^ w.
Definition wrap_s (w z : Z) : Z := (z + 2 ^ (w - 1)) mod 2 ^ w - 2 ^ (w - 1).
Definition u32 (z : Z) : Z := wrap_u 32 z.
Definition u16 (z : Z) : Z := wrap_u 16 z.
Definition u8 (z : Z) : Z := wrap_u 8 z.
Definition s32 (z : Z) : Z := wrap_s 32 z.
Definition INT_MIN : Z := - 2 ^ 31.
Definition INT_MAX : Z := 2 ^ 31 - 1.

Lemma s32_small z : INT_MIN ≤ z ≤ INT_MAX → s32 z = z.
Proof.
  unfold INT_MIN, INT_MAX, s32, wrap_s. intros ?.
  rewrite Z.mod_small; lia.
Qed.

Lemma s32_range z : INT_MIN ≤ s32 z ≤ INT_MAX.
Proof.
  unfold INT_MIN, INT_MAX, s32, wrap_s.
  pose proof (Z.mod_pos_bound (z + 2 ^ (32 - 1)) (2 ^ 32)). lia.
Qed.

Lemma u32_small z : 0 ≤ z < 2 ^ 32 → u32 z = z.
Proof. intros ?. by apply Z.mod_small. Qed.

Lemma u32_range z : 0 ≤ u32 z < 2 ^ 32.
Proof. apply Z.mod_pos_bound. lia. Qed.

Lemma u8_small z : 0 ≤ z < 256 → u8 z = z.
Proof. intros ?. by apply Z.mod_small. Qed.

Lemma u8_range z : 0 ≤ u8 z < 256.
Proof. apply (Z.mod_pos_bound z 256). lia. Qed.

(** ** Outcomes of a C function running in the kernel.

    [Ret a s]: the function returned [a] in state [s].  [Switched s]: control
    left the call chain for good through the [IRET] of [task_switch].
    [Halted s]: an exception routine entered its [while(1)].  [Diverged]: a
    data dependent loop ran out of fuel.  [Fault]: undefined behaviour, that
    is an access outside an array, through a null pointer or to an unmapped
    page. *)

Inductive outcome (S A : Type) : Type :=
| Ret (a : A) (s : S)
| Switched (s : S)
| Halted (s : S)
| Diverged
| Fault.
Arguments Ret {S A} a s.
Arguments Switched {S A} s.
Arguments Halted {S A} s.
Arguments Diverged {S A}.
Arguments Fault {S A}.

Definition M (S A : Type) : Type := S → outcome S A.

Section Monad.
Context {S : Type}.

Definition ret {A} (a : A) : M S A := λ s, Ret a s.
Definition bind {A B} (m : M S A) (k : A → M S B) : M S B := λ s,
  match m s with
  | Ret a s' => k a s'
  | Switched s' => Switched s'
  | Halted s' => Halted s'
  | Diverged => Diverged
  | Fault => Fault
  end.
Definition fault {A} : M S A := λ _, Fault.
Definition diverge {A} : M S A := λ _, Diverged.
Definition halt {A} : M S A := λ s, Halted s.
Definition switched {A} : M S A := λ s, Switched s.
End Monad.

Declare Scope kernel_scope.
Delimit Scope kernel_scope with K.
#[global] Open Scope kernel_scope.
Notation "'let!' x := m 'in' k" := (bind m (λ x, k))
  (at level 10, x binder, m at level 200, k at level 200) : kernel_scope.
Notation "m ;; k" := (bind m (λ _, k))
  (at level 100, k at level 200, right associativity) : kernel_scope.

(** ** Fields of a state, as lenses. *)

Record lens (S T : Type) : Type := Lens { view : S → T; update : T → S → S }.
Arguments Lens {S T} _ _.
Arguments view {S T} _ _.
Arguments update {S T} _ _ _.

Class LensLaws {S T} (l : lens S T) : Prop := {
  view_update : ∀ t s, view l (update l t s) = t;
  update_view : ∀ s, update l (view l s) s = s;
  update_update : ∀ t t' s, update l t (update l t' s) = update l t s;
}.

Definition compose {S T U} (l : lens S T) (m : lens T U) : lens S U :=
  Lens (λ s, view m (view l s)) (λ u s, update l (update m u (view l s)) s).
Notation "l ▷ m" := (compose l m) (at level 40, left associativity) : kernel_scope.

#[export] Instance compose_laws {S T U} (l : lens S T) (m : lens T U) :
  LensLaws l → LensLaws m → LensLaws (l ▷ m).
Proof.
  intros Hl Hm. split; simpl; intros.
  - by rewrite !view_update.
  - by rewrite !update_view.
  - by rewrite !view_update, !update_update.
Qed.

(** ** C arrays: lists indexed by an [int], every access bounds checked. *)

Definition zlookup {A} (l : list A) (i : Z) : option A :=
  if decide (0 ≤ i) then l !! Z.to_nat i else None.
Definition zinsert {A} (i : Z) (a : A) (l : list A) : list A :=
  if decide (0 ≤ i) then <[Z.to_nat i := a]> l else l.
Definition zlen {A} (l : list A) : Z := Z.of_nat (length l).

Section Arrays.
Context {A : Type}.
Implicit Types (l : list A) (i j : Z) (a : A).

Lemma zlookup_Some_range l i a : zlookup l i = Some a → 0 ≤ i < zlen l.
Proof.
  unfold zlookup, zlen. case_decide; [|done].
  intros ?%lookup_lt_Some. lia.
Qed.

Lemma zlookup_range l i : 0 ≤ i < zlen l → ∃ a, zlookup l i = Some a.
Proof.
  unfold zlookup, zlen. intros [? ?]. rewrite decide_True by lia.
  destruct (lookup_lt_is_Some_2 l (Z.to_nat i)) as [a ?]; [lia | by exists a].
Qed.

Lemma zlookup_None l i : ¬ (0 ≤ i < zlen l) → zlookup l i = None.
Proof.
  unfold zlookup, zlen. intros ?. case_decide; [|done].
  apply lookup_ge_None_2. lia.
Qed.

Lemma zlookup_nat l (n : nat) : zlookup l (Z.of_nat n) = l !! n.
Proof. unfold zlookup. rewrite decide_True by lia. by rewrite Nat2Z.id. Qed.

Lemma zlen_zinsert l i a : zlen (zinsert i a l) = zlen l.
Proof. unfold zlen, zinsert. case_decide; [|done]. by rewrite length_insert. Qed.

Lemma zlookup_zinsert_eq l i a : 0 ≤ i < zlen l → zlookup (zinsert i a l) i = Some a.
Proof.
  unfold zlookup, zinsert, zlen. intros ?. rewrite !decide_True by lia.
  apply list_lookup_insert_eq. lia.
Qed.

Lemma zlookup_zinsert_ne l i j a : i ≠ j → zlookup (zinsert i a l) j = zlookup l j.
Proof.
  unfold zlookup, zinsert. intros ?. repeat case_decide; try done.
  apply list_lookup_insert_ne. lia.
Qed.

Lemma zinsert_zinsert_eq l i a a' : zinsert i a (zinsert i a' l) = zinsert i a l.
Proof. unfold zinsert. case_decide; [|done]. by rewrite list_insert_insert_eq. Qed.

Lemma zlookup_fmap {B} (f : A → B) l i : zlookup (f <$> l) i = f <$> zlookup l i.
Proof. unfold zlookup. case_decide; [|done]. apply list_lookup_fmap. Qed.

Lemma zinsert_fmap {B} (f : A → B) l i a : f <$> zinsert i a l = zinsert i (f a) (f <$> l).
Proof. unfold zinsert. case_decide; [|done]. apply list_fmap_insert. Qed.

Lemma zlen_fmap {B} (f : A → B) l : zlen (f <$> l) = zlen l.
Proof. unfold zlen. by rewrite length_fmap. Qed.

Lemma zlookup_zinsert l i j a :
  0 ≤ i < zlen l → zlookup (zinsert i a l) j = if decide (i = j) then Some a else zlookup l j.
Proof.
  intros. case_decide; subst; [by apply zlookup_zinsert_eq | by apply zlookup_zinsert_ne].
Qed.

Lemma zlookup_zinsert_Some l i j a b :
  zlookup (zinsert i a l) j = Some b → i = j ∧ b = a ∨ i ≠ j ∧ zlookup l j = Some b.
Proof.
  destruct (decide (i = j)) as [->|Hne]; [|rewrite zlookup_zinsert_ne by done; by right].
  intros Hb. left. pose proof (zlookup_Some_range _ _ _ Hb) as Hr. rewrite zlen_zinsert in Hr.
  rewrite zlookup_zinsert_eq in Hb by done. by injection Hb as <-.
Qed.

Lemma zlookup_elem l i a : zlookup l i = Some a → a ∈ l.
Proof. unfold zlookup. case_decide; [|done]. apply list_elem_of_lookup_2. Qed.

Lemma zlookup_of_elem l a : a ∈ l → ∃ i, zlookup l i = Some a.
Proof.
  intros [n Hn]%list_elem_of_lookup. exists (Z.of_nat n). by rewrite zlookup_nat.
Qed.

Lemma zinsert_id l i a : zlookup l i = Some a → zinsert i a l = l.
Proof. unfold zlookup, zinsert. case_decide; [|done]. by apply list_insert_id. Qed.

Lemma zlookup_ext (l l' : list A) :
  zlen l = zlen l' → (∀ i, 0 ≤ i < zlen l' → zlookup l i = zlookup l' i) → l = l'.
Proof.
  unfold zlen. intros Hlen H. apply list_eq. intros i. destruct (decide (i < length l')%nat).
  - specialize (H (Z.of_nat i) ltac:(lia)). by rewrite !zlookup_nat in H.
  - rewrite !lookup_ge_None_2 by lia. done.
Qed.

Lemma zlookup_snoc l a i : zlookup (l ++ [a]) i = if decide (i = zlen l) then Some a else zlookup l i.
Proof.
  unfold zlookup, zlen. repeat case_decide; subst; try done; try lia.
  - by rewrite Nat2Z.id, list_lookup_middle.
  - destruct (decide (Z.to_nat i < length l)%nat); [by rewrite lookup_app_l by lia|].
    rewrite !lookup_ge_None_2; rewrite ?length_app; simpl; lia || done.
Qed.
End Arrays.

(** The characters of a string literal, without the terminating null. *)
Definition chars (s : string) : list Z :=
  map (λ a, Z.of_N (Ascii.N_of_ascii a)) (String.list_ascii_of_string s).

(** ** Primitive actions. *)

Section Actions.
Context {S : Type}.

Definition get {T} (l : lens S T) : M S T := λ s, Ret (view l s) s.
Definition put {T} (l : lens S T) (t : T) : M S unit := λ s, Ret () (update l t s).
Definition modify {T} (l : lens S T) (f : T → T) : M S unit :=
  let! t := get l in put l (f t).
Definition of_option {A} (o : option A) : M S A :=
  match o with Some a => ret a | None => fault end.
Definition aget {A} (l : lens S (list A)) (i : Z) : M S A :=
  let! t := get l in of_option (zlookup t i).
Definition aset {A} (l : lens S (list A)) (i : Z) (a : A) : M S unit :=
  let! t := get l in
  let! _ := of_option (zlookup t i) in
  put l (zinsert i a t).
Definition amodify {A} (l : lens S (list A)) (i : Z) (f : A → A) : M S unit :=
  let! a := aget l i in aset l i (f a).
End Actions.

(** Running an action of a component on a state that contains it. *)
Definition zoom {S T A} (l : lens S T) (m : M T A) : M S A := λ s,
  match m (view l s) with
  | Ret a t => Ret a (update l t s)
  | Switched t => Switched (update l t s)
  | Halted t => Halted (update l t s)
  | Diverged => Diverged
  | Fault => Fault
  end.

(** ** Loops. *)

Section Loops.
Context {S : Type}.

(** [for (i = lo; i < lo + n; i++) body(i)] *)
Fixpoint for_n (n : nat) (i : Z) (body : Z → M S unit) : M S unit :=
  match n with
  | O => ret ()
  | Datatypes.S n => body i;; for_n n (i + 1) body
  end.
Definition for_range (lo hi : Z) (body : Z → M S unit) : M S unit :=
  for_n (Z.to_nat (hi - lo)) lo body.

(** [for (; n iterations left && cond(i); i++);] *)
Fixpoint search_n (n : nat) (i : Z) (cond : Z → M S bool) : M S Z :=
  match n with
  | O => ret i
  | Datatypes.S n =>
      let! b := cond i in
      if (b : bool) then search_n n (i + 1) cond else ret i
  end.
Definition search_range (lo hi : Z) (cond : Z → M S bool) : M S Z :=
  search_n (Z.to_nat (hi - lo)) lo cond.

(** A loop whose body either continues with a new loop state or leaves with
    a result; [fuel] bounds the number of iterations. *)
Fixpoint loop {A B} (fuel : nat) (body : A → M S (A + B)) (a : A) : M S B :=
  match fuel with
  | O => diverge
  | Datatypes.S fuel =>
      let! r := body a in
      match r with inl a' => loop fuel body a' | inr b => ret b end
  end.
End Loops.

(** ** Weakest preconditions.

    [wp m s Q X]: from [s] the action neither faults, diverges nor halts; when
    it returns [a] in [s'], [Q a s'] holds, and when it switches context,
    leaving [s'], [X s'] holds. *)

Definition wp {S A} (m : M S A) (s : S) (Q : A → S → Prop) (X : S → Prop) : Prop :=
  match m s with
  | Ret a s' => Q a s'
  | Switched s' => X s'
  | _ => False
  end.

Section WP.
Context {S : Type}.
Implicit Types (s : S) (X : S → Prop).

Lemma wp_ret {A} (a : A) s Q X : Q a s → wp (ret a) s Q X.
Proof. done. Qed.

Lemma wp_bind {A B} (m : M S A) (k : A → M S B) s Q X :
  wp m s (λ a s', wp (k a) s' Q X) X → wp (bind m k) s Q X.
Proof. unfold wp, bind. by destruct (m s). Qed.

Lemma wp_bind_assoc {A B C} (m : M S A) (f : A → M S B) (g : B → M S C) s Q X :
  wp (bind (bind m f) g) s Q X → wp (bind m (λ a, bind (f a) g)) s Q X.
Proof. unfold wp, bind. by destruct (m s). Qed.

Lemma wp_mono {A} (m : M S A) s (Q Q' : A → S → Prop) (X X' : S → Prop) :
  wp m s Q X → (∀ a s', Q a s' → Q' a s') → (∀ s', X s' → X' s') → wp m s Q' X'.
Proof. unfold wp. destruct (m s); eauto. Qed.

Lemma wp_Ret {A} (m : M S A) s a s' Q X : m s = Ret a s' → Q a s' → wp m s Q X.
Proof. unfold wp. by intros ->. Qed.

Lemma wp_get {T} (l : lens S T) s Q X : Q (view l s) s → wp (get l) s Q X.
Proof. done. Qed.

Lemma wp_put {T} (l : lens S T) t s Q X : Q () (update l t s) → wp (put l t) s Q X.
Proof. done. Qed.

Lemma wp_modify {T} (l : lens S T) f s Q X :
  Q () (update l (f (view l s)) s) → wp (modify l f) s Q X.
Proof. done. Qed.

Lemma wp_of_option {A} (o : option A) a s Q X :
  o = Some a → Q a s → wp (of_option o) s Q X.
Proof. by intros ->. Qed.

Lemma wp_aget {A} (l : lens S (list A)) i a s Q X :
  zlookup (view l s) i = Some a → Q a s → wp (aget l i) s Q X.
Proof. unfold wp, aget, bind, get. by intros ->. Qed.

Lemma wp_aset {A} (l : lens S (list A)) i a s Q X :
  0 ≤ i < zlen (view l s) → Q () (update l (zinsert i a (view l s)) s) →
  wp (aset l i a) s Q X.
Proof.
  intros [b Hb]%zlookup_range. unfold wp, aset, bind, get. by rewrite Hb.
Qed.

Lemma wp_amodify {A} (l : lens S (list A)) i f a s Q X :
  zlookup (view l s) i = Some a →
  Q () (update l (zinsert i (f a) (view l s)) s) →
  wp (amodify l i f) s Q X.
Proof.
  intros Ha HQ. apply wp_bind. eapply wp_aget; [done|].
  apply wp_aset; [by eapply zlookup_Some_range | done].
Qed.

Lemma wp_zoom {T A} (l : lens S T) (m : M T A) s Q X :
  wp m (view l s) (λ a t, Q a (update l t s)) (λ t, X (update l t s)) →
  wp (zoom l m) s Q X.
Proof. unfold wp, zoom. by destruct (m (view l s)). Qed.

(** A component read by an action that does not change it. *)
Lemma wp_zoom_read {T A} (l : lens S T) `{!LensLaws l} (m : M T A) s Q X :
  wp m (view l s) (λ a t, t = view l s ∧ Q a s) (λ _, False) →
  wp (zoom l m) s Q X.
Proof.
  intros Hm. apply wp_zoom. unfold wp in *.
  destruct (m (view l s)) as [a t| | | |]; try done.
  destruct Hm as [-> HQ]. by rewrite update_view.
Qed.

Lemma wp_for_n (I : Z → S → Prop) n lo body s Q X :
  I lo s →
  (∀ i s, lo ≤ i < lo + Z.of_nat n → I i s → wp (body i) s (λ _ s', I (i + 1) s') X) →
  (∀ s, I (lo + Z.of_nat n) s → Q () s) →
  wp (for_n n lo body) s Q X.
Proof.
  revert lo s. induction n as [|n IH]; intros lo s HI Hbody HQ; simpl.
  - apply wp_ret, HQ. by replace (lo + Z.of_nat 0) with lo by lia.
  - apply wp_bind. eapply wp_mono; [apply (Hbody lo s); [lia | done] | | done].
    intros [] s' HI'. apply IH; [done | |].
    + intros i s'' ? ?. apply Hbody; [lia | done].
    + intros s'' HI''. apply HQ.
      by rewrite Nat2Z.inj_succ, <-Z.add_1_l, Z.add_assoc.
Qed.

Lemma wp_for_range (I : Z → S → Prop) lo hi body s Q X :
  lo ≤ hi →
  I lo s →
  (∀ i s, lo ≤ i < hi → I i s → wp (body i) s (λ _ s', I (i + 1) s') X) →
  (∀ s, I hi s → Q () s) →
  wp (for_range lo hi body) s Q X.
Proof.
  intros Hle HI Hbody HQ. apply (wp_for_n I); [done | |].
  - intros i s' ? ?. apply Hbody; [lia | done].
  - intros s''. replace (lo + Z.of_nat (Z.to_nat (hi - lo))) with hi by lia. auto.
Qed.

(** A loop that decreases a variant, with an invariant, needs only a fuel
    above the variant of its first state. *)
Lemma wp_loop_variant {A B} (I : Z → A → S → Prop) n fuel (body : A → M S (A + B)) a s Q X :
  I n a s →
  n < Z.of_nat fuel →
  (∀ n a s, I n a s → 0 ≤ n ∧
     wp (body a) s (λ r s', match r with
                            | inl a' => ∃ n', n' < n ∧ I n' a' s'
                            | inr b => Q b s'
                            end) X) →
  wp (loop fuel body a) s Q X.
Proof.
  intros HI Hn Hbody. revert n a s HI Hn.
  induction fuel as [|fuel IH]; intros n a s HI Hn; simpl.
  { destruct (Hbody n a s HI). lia. }
  apply wp_bind. eapply wp_mono; [apply (Hbody n a s HI) | | done].
  intros [a'|b] s'; [|done]. intros (n' & ? & HI'). eapply IH; [done | lia].
Qed.

Lemma wp_loop {A B} (I : A → S → Prop) (μ : A → Z) fuel (body : A → M S (A + B)) a s Q X :
  I a s →
  μ a < Z.of_nat fuel →
  (∀ a s, I a s → 0 ≤ μ a ∧
     wp (body a) s (λ r s', match r with
                            | inl a' => I a' s' ∧ μ a' < μ a
                            | inr b => Q b s'
                            end) X) →
  wp (loop fuel body a) s Q X.
Proof.
  intros HI Hμ Hbody.
  eapply (wp_loop_variant (λ n a s, I a s ∧ n = μ a)); [done|done|].
  intros n b s' [HI' ->]. destruct (Hbody b s' HI') as [? Hb]. split; [done|].
  eapply wp_mono; [done| |done]. intros [a'|c] s'' ?; naive_solver.
Qed.

(** A search stops at the first index that violates its condition. *)
Lemma wp_search_n (p : Z → bool) n lo cond s Q X :
  (∀ i, lo ≤ i < lo + Z.of_nat n → (∀ j, lo ≤ j < i → p j = true) →
        wp (cond i) s (λ b s', s' = s ∧ b = p i) X) →
  (∀ i, lo ≤ i ≤ lo + Z.of_nat n → (∀ j, lo ≤ j < i → p j = true) →
        (i < lo + Z.of_nat n → p i = false) → Q i s) →
  wp (search_n n lo cond) s Q X.
Proof.
  revert lo. induction n as [|n IH]; intros lo Hc HQ; simpl.
  { apply wp_ret, HQ; lia. }
  apply wp_bind. eapply wp_mono; [apply (Hc lo); lia | | done].
  intros b s' [-> Hb]. destruct b; [|apply wp_ret, HQ; [lia|lia|done]].
  assert (∀ i, (∀ j, lo + 1 ≤ j < i → p j = true) → ∀ j, lo ≤ j < i → p j = true)
    as Hext.
  { intros i Hi j Hj. destruct (decide (j = lo)) as [->|]; [done|]. apply Hi. lia. }
  apply IH; intros i Hi Hpre; [|intros Hstop].
  - apply Hc; [lia | by apply Hext].
  - apply HQ; [lia | by apply Hext |]. intros. apply Hstop. lia.
Qed.

Lemma wp_search_range (p : Z → bool) lo hi cond s Q X :
  lo ≤ hi →
  (∀ i, lo ≤ i < hi → (∀ j, lo ≤ j < i → p j = true) →
        wp (cond i) s (λ b s', s' = s ∧ b = p i) X) →
  (∀ i, lo ≤ i ≤ hi → (∀ j, lo ≤ j < i → p j = true) → (i < hi → p i = false) → Q i s) →
  wp (search_range lo hi cond) s Q X.
Proof.
  intros Hle Hc HQ. apply (wp_search_n p); intros; [apply Hc | apply HQ]; auto with lia.
Qed.
End WP.

(** [returns m s Q]: from [s] the function returns, normally, a result and a
    state that satisfy [Q]. *)
Definition returns {S A} (m : M S A) (s : S) (Q : A → S → Prop) : Prop :=
  ∃ a s', m s = Ret a s' ∧ Q a s'.

Lemma wp_returns {S A} (m : M S A) (s : S) (Q : A → S → Prop) :
  wp m s Q (λ _, False) → returns m s Q.
Proof. unfold wp, returns. destruct (m s) as [a s'| | | |]; [|done..]. by exists a, s'. Qed.

(** [wp] is monotone under any rewriting of its postconditions. *)
#[export] Instance wp_proper {S A} (m : M S A) (s : S) :
  Proper (pointwise_relation A (pointwise_relation S iff) ==>
          pointwise_relation S iff ==> iff) (wp m s).
Proof.
  intros Q Q' HQ X X' HX. unfold wp. destruct (m s); [apply HQ | apply HX | done..].
Qed.

(** ** Partial correctness.

    [wlp] is [wp] without the promise that the action ends well: it says what
    holds when the action returns or switches context.  [respects R m]: [m]
    does not switch context, and the states it leaves are related by [R] to
    the state it started from. *)

Definition wlp {S A} (m : M S A) (s : S) (Q : A → S → Prop) (X : S → Prop) : Prop :=
  match m s with
  | Ret a s' => Q a s'
  | Switched s' => X s'
  | _ => True
  end.

Definition respects {S A} (R : S → S → Prop) (m : M S A) : Prop :=
  ∀ s, match m s with
       | Ret _ s' | Halted s' => R s s'
       | Switched _ => False
       | _ => True
       end.

Section WLP.
Context {S : Type}.
Implicit Types (s : S) (X : S → Prop).

Lemma wp_wlp {A} (m : M S A) s Q X : wp m s Q X → wlp m s Q X.
Proof. unfold wp, wlp. by destruct (m s). Qed.

Lemma wp_wlp_and {A} (m : M S A) s (Q Q' : A → S → Prop) X X' :
  wp m s Q X → wlp m s Q' X' → wp m s (λ a s', Q a s' ∧ Q' a s') (λ s', X s' ∧ X' s').
Proof. unfold wp, wlp. by destruct (m s). Qed.

Lemma wlp_bind {A B} (m : M S A) (k : A → M S B) s Q X :
  wlp m s (λ a s', wlp (k a) s' Q X) X → wlp (bind m k) s Q X.
Proof. unfold wlp, bind. by destruct (m s). Qed.

Lemma wlp_bind_assoc {A B C} (m : M S A) (f : A → M S B) (g : B → M S C) s Q X :
  wlp (bind (bind m f) g) s Q X → wlp (bind m (λ a, bind (f a) g)) s Q X.
Proof. unfold wlp, bind. by destruct (m s). Qed.

Lemma wlp_mono {A} (m : M S A) s (Q Q' : A → S → Prop) (X X' : S → Prop) :
  wlp m s Q X → (∀ a s', Q a s' → Q' a s') → (∀ s', X s' → X' s') → wlp m s Q' X'.
Proof. unfold wlp. destruct (m s); eauto. Qed.

Lemma wlp_ret {A} (a : A) s Q X : Q a s → wlp (ret a) s Q X.
Proof. done. Qed.

Lemma wlp_of_option {A} (o : option A) s (Q : A → S → Prop) X :
  (∀ a, o = Some a → Q a s) → wlp (of_option o) s Q X.
Proof. destruct o; unfold wlp; simpl; auto. Qed.

Lemma wlp_aget {A} (l : lens S (list A)) i s (Q : A → S → Prop) X :
  (∀ a, zlookup (view l s) i = Some a → Q a s) → wlp (aget l i) s Q X.
Proof. unfold wlp, aget, bind, get. destruct (zlookup _ _); simpl; auto. Qed.

Lemma wlp_aset {A} (l : lens S (list A)) i a s (Q : unit → S → Prop) X :
  (0 ≤ i < zlen (view l s) → Q () (update l (zinsert i a (view l s)) s)) →
  wlp (aset l i a) s Q X.
Proof.
  intros HQ. unfold wlp, aset, bind, get.
  destruct (zlookup _ _) eqn:?; simpl; [eauto using zlookup_Some_range | done].
Qed.

Lemma wlp_amodify {A} (l : lens S (list A)) i f s (Q : unit → S → Prop) X :
  (∀ a, zlookup (view l s) i = Some a → Q () (update l (zinsert i (f a) (view l s)) s)) →
  wlp (amodify l i f) s Q X.
Proof.
  intros HQ. apply wlp_bind, wlp_aget. intros a Ha. apply wlp_aset. auto.
Qed.

Lemma wlp_zoom {T A} (l : lens S T) (m : M T A) s Q X :
  wlp m (view l s) (λ a t, Q a (update l t s)) (λ t, X (update l t s)) →
  wlp (zoom l m) s Q X.
Proof. unfold wlp, zoom. by destruct (m (view l s)). Qed.

Lemma wlp_respects {A} (R : S → S → Prop) (m : M S A) s (Q : A → S → Prop) X :
  respects R m → (∀ a s', R s s' → Q a s') → wlp m s Q X.
Proof. intros Hm HQ. unfold wlp. specialize (Hm s). destruct (m s); auto. done. Qed.

Lemma wlp_for_n (I : Z → S → Prop) n lo body s (Q : unit → S → Prop) X :
  I lo s →
  (∀ i s, lo ≤ i < lo + Z.of_nat n → I i s → wlp (body i) s (λ _ s', I (i + 1) s') X) →
  (∀ s, I (lo + Z.of_nat n) s → Q () s) →
  wlp (for_n n lo body) s Q X.
Proof.
  revert lo s. induction n as [|n IH]; intros lo s HI Hbody HQ; simpl.
  - apply wlp_ret, HQ. by replace (lo + Z.of_nat 0) with lo by lia.
  - apply wlp_bind. eapply wlp_mono; [apply (Hbody lo s); [lia | done] | | done].
    intros [] s' HI'. apply IH; [done | |].
    + intros i s'' ? ?. apply Hbody; [lia | done].
    + intros s'' HI''. apply HQ.
      by rewrite Nat2Z.inj_succ, <-Z.add_1_l, Z.add_assoc.
Qed.

Lemma wlp_both {A} (m : M S A) s (Q1 Q2 : A → S → Prop) (X1 X2 : S → Prop) :
  wlp m s Q1 X1 → wlp m s Q2 X2 → wlp m s (λ a s', Q1 a s' ∧ Q2 a s') (λ s', X1 s' ∧ X2 s').
Proof. unfold wlp. destruct (m s); auto. Qed.

Lemma wlp_for_range (I : Z → S → Prop) lo hi body s (Q : unit → S → Prop) X :
  lo ≤ hi →
  I lo s →
  (∀ i s, lo ≤ i < hi → I i s → wlp (body i) s (λ _ s', I (i + 1) s') X) →
  (∀ s, I hi s → Q () s) →
  wlp (for_range lo hi body) s Q X.
Proof.
  intros Hle HI Hbody HQ. apply (wlp_for_n I); [done | |].
  - intros i s' ? ?. apply Hbody; [lia | done].
  - intros s''. replace (lo + Z.of_nat (Z.to_nat (hi - lo))) with hi by lia. auto.
Qed.

Lemma wlp_loop {A B} (I : A → S → Prop) fuel (body : A → M S (A + B)) a s
    (Q : B → S → Prop) X :
  I a s →
  (∀ a s, I a s → wlp (body a) s (λ r s', match r with
                                          | inl a' => I a' s'
                                          | inr b => Q b s'
                                          end) X) →
  wlp (loop fuel body a) s Q X.
Proof.
  intros HI Hbody. revert a s HI. induction fuel as [|fuel IH]; intros a s HI; simpl; [done|].
  apply wlp_bind. eapply wlp_mono; [by apply Hbody| |done]. intros [a'|b] s'; [apply IH|done].
Qed.
End WLP.

Section Respects.
Context {S : Type} (R : S → S → Prop) `{!PreOrder R}.

Lemma respects_ret {A} (a : A) : respects R (ret a).
Proof. intros s. simpl. reflexivity. Qed.

Lemma respects_bind {A B} (m : M S A) (k : A → M S B) :
  respects R m → (∀ a, respects R (k a)) → respects R (bind m k).
Proof.
  intros Hm Hk s. specialize (Hm s). unfold bind. destruct (m s) as [a s'| | | |]; try done.
  specialize (Hk a s'). destruct (k a s'); try done; by etransitivity.
Qed.

Lemma respects_get {T} (l : lens S T) : respects R (get l).
Proof. intros s. simpl. reflexivity. Qed.
Lemma respects_fault {A} : respects R (@fault S A).
Proof. by intros s. Qed.
Lemma respects_diverge {A} : respects R (@diverge S A).
Proof. by intros s. Qed.
Lemma respects_halt {A} : respects R (@halt S A).
Proof. intros s. simpl. reflexivity. Qed.
Lemma respects_of_option {A} (o : option A) : respects R (of_option o).
Proof. destruct o; [apply respects_ret | apply respects_fault]. Qed.
Lemma respects_aget {A} (l : lens S (list A)) i : respects R (aget l i).
Proof. apply respects_bind; [apply respects_get | intros; apply respects_of_option]. Qed.

Lemma respects_put {T} (l : lens S T) t : (∀ s, R s (update l t s)) → respects R (put l t).
Proof. intros H s. simpl. apply H. Qed.
Lemma respects_modify {T} (l : lens S T) f :
  (∀ s, R s (update l (f (view l s)) s)) → respects R (modify l f).
Proof. intros H s. simpl. apply H. Qed.
Lemma respects_aset {A} (l : lens S (list A)) i a :
  (∀ s b, zlookup (view l s) i = Some b → R s (update l (zinsert i a (view l s)) s)) →
  respects R (aset l i a).
Proof.
  intros H s. unfold aset, bind, get. destruct (zlookup _ _) as [b|] eqn:Hb; simpl; [|done].
  by apply (H s b).
Qed.
Lemma respects_amodify {A} (l : lens S (list A)) i f :
  (∀ s a, zlookup (view l s) i = Some a → R s (update l (zinsert i (f a) (view l s)) s)) →
  respects R (amodify l i f).
Proof.
  intros H s. unfold amodify, aset, aget, bind, get.
  destruct (zlookup (view l s) i) as [a|] eqn:Ha; simpl; [|done]. rewrite Ha. simpl. eauto.
Qed.

Lemma respects_zoom {T A} (R' : T → T → Prop) (l : lens S T) (m : M T A) :
  (∀ s t, R' (view l s) t → R s (update l t s)) → respects R' m → respects R (zoom l m).
Proof.
  intros Hl Hm s. specialize (Hm (view l s)). unfold zoom.
  destruct (m (view l s)); auto.
Qed.

Lemma respects_for_n n lo body : (∀ i, respects R (body i)) → respects R (for_n n lo body).
Proof.
  intros Hb. revert lo. induction n as [|n IH]; intros lo; simpl; [apply respects_ret|].
  apply respects_bind; auto.
Qed.
Lemma respects_for_range lo hi body :
  (∀ i, respects R (body i)) → respects R (for_range lo hi body).
Proof. apply respects_for_n. Qed.
Lemma respects_search_n n lo cond : (∀ i, respects R (cond i)) → respects R (search_n n lo cond).
Proof.
  intros Hb. revert lo. induction n as [|n IH]; intros lo; simpl; [apply respects_ret|].
  apply respects_bind; [done|]. intros []; [auto | apply respects_ret].
Qed.
Lemma respects_search_range lo hi cond :
  (∀ i, respects R (cond i)) → respects R (search_range lo hi cond).
Proof. apply respects_search_n. Qed.
Lemma respects_loop {A B} fuel (body : A → M S (A + B)) a :
  (∀ a, respects R (body a)) → respects R (loop fuel body a).
Proof.
  intros Hb. revert a. induction fuel as [|n IH]; intros a; simpl; [apply respects_diverge|].
  apply respects_bind; [done|]. intros []; [auto | apply respects_ret].
Qed.
End Respects.

(** Two states agree on what [π] observes. *)
Definition agree {S V} (π : S → V) (s s' : S) : Prop := π s' = π s.
#[export] Instance agree_preorder {S V} (π : S → V) : PreOrder (agree π).
Proof. unfold agree. split; [done | intros s1 s2 s3; congruence]. Qed.

(** The relation that any change satisfies. *)
Definition anything {S} (s s' : S) : Prop := True.
#[export] Instance anything_preorder {S} : PreOrder (@anything S).
Proof. done. Qed.

(** The executions of a step relation. *)
Inductive star {S} (step : S → S → Prop) : S → S → Prop :=
| star_refl s : star step s s
| star_step s1 s2 s3 : star step s1 s2 → step s2 s3 → star step s1 s3.

Lemma star_trans {S} (step : S → S → Prop) s1 s2 s3 : star step s1 s2 → star step s2 s3 → star step s1 s3.
Proof. intros H12 H23. induction H23 as [s|s s' s'' _ IH Hs]; [done|]. eapply star_step; [by apply IH|done]. Qed.

Lemma star_invariant {S} (step : S → S → Prop) (I : S → Prop) :
  (∀ s s', I s → step s s' → I s') → ∀ s s', star step s s' → I s → I s'.
Proof. intros Hstep s s' Hss. induction Hss; eauto. Qed.

Create HintDb arrays.
Create Rewrite HintDb arrays.
#[export] Hint Rewrite @zlen_zinsert @zinsert_zinsert_eq : arrays.
#[export] Hint Resolve zlookup_Some_range : arrays.

Create HintDb kernel.
Create Rewrite HintDb kernel.
#[export] Hint Rewrite s32_small u32_small u8_small using lia : kernel.

(** Symbolic execution: one step of [wp], and all the deterministic steps. *)
Ltac wp_step :=
  lazymatch goal with
  | |- wp (bind _ _) _ _ _ => apply wp_bind
  | |- wp (ret _) _ _ _ => apply wp_ret
  | |- wp (get _) _ _ _ => apply wp_get
  | |- wp (put _ _) _ _ _ => apply wp_put
  | |- wp (modify _ _) _ _ _ => apply wp_modify
  | |- wp (zoom _ _) _ _ _ => apply wp_zoom
  end.
Ltac wp_steps := repeat wp_step.

Ltac solve_lens := split; [done | by intros [] | done].

(** One syntactic step of a [respects] proof; hints in [respects] close the
    calls of routines that have their own lemma. *)
Create HintDb respects.
Ltac respects_step :=
  lazymatch goal with
  | |- respects _ (bind _ _) => apply respects_bind; [typeclasses eauto | | intros ?]
  | |- respects _ (ret _) => apply respects_ret; exact _
  | |- respects _ (get _) => apply respects_get; exact _
  | |- respects _ (aget _ _) => apply respects_aget; exact _
  | |- respects _ (of_option _) => apply respects_of_option; exact _
  | |- respects _ halt => apply respects_halt; exact _
  | |- respects _ diverge => apply respects_diverge
  | |- respects _ fault => apply respects_fault
  | |- respects _ (for_range _ _ _) => apply respects_for_range; [typeclasses eauto | intros ?]
  | |- respects _ (search_range _ _ _) =>
      apply respects_search_range; [typeclasses eauto | intros ?]
  | |- respects _ (loop _ _ _) => apply respects_loop; [typeclasses eauto | intros ?]
  | |- respects _ (if ?b then _ else _) => destruct b
  | |- respects _ (match ?x with _ => _ end) => destruct x
  | |- respects _ (let _ := _ in _) => cbv zeta
  end.
Ltac respects := repeat first [solve [eauto with respects nocore] | respects_step].

(** Stores, when nothing is asked of them. *)
Section Anything.
Context {S : Type}.
Lemma anything_put {T} (l : lens S T) t : respects anything (put l t).
Proof. by apply respects_put. Qed.
Lemma anything_modify {T} (l : lens S T) f : respects anything (modify l f).
Proof. by apply respects_modify. Qed.
Lemma anything_aset {A} (l : lens S (list A)) i a : respects anything (aset l i a).
Proof. by apply respects_aset. Qed.
Lemma anything_amodify {A} (l : lens S (list A)) i f : respects anything (amodify l i f).
Proof. by apply respects_amodify. Qed.
End Anything.
#[export] Hint Resolve anything_put anything_modify anything_aset anything_amodify : respects.

(** ** Invariants of single actions: wherever [m] stops, returning or switching
    context, [I] still holds.  Unlike [respects] it lets an action use what it
    read from a state that satisfies [I]. *)

Definition preserves {S A} (I : S → Prop) (m : M S A) : Prop :=
  ∀ s, I s → wlp m s (λ _, I) I.

Section Preserves.
Context {S : Type} (I : S → Prop).

Lemma preserves_respects {A} (R : S → S → Prop) (m : M S A) :
  (∀ s s', R s s' → I s → I s') → respects R m → preserves I m.
Proof. intros HR Hm s Hs. eapply wlp_respects; [exact Hm|]. intros a s' H. by eapply HR. Qed.

Lemma preserves_ret {A} (a : A) : preserves I (ret a).
Proof. by intros s Hs. Qed.
Lemma preserves_bind {A B} (m : M S A) (k : A → M S B) :
  preserves I m → (∀ a, preserves I (k a)) → preserves I (bind m k).
Proof.
  intros Hm Hk s Hs. apply wlp_bind. eapply wlp_mono; [by apply Hm| |done].
  intros a s' Hs'. by apply Hk.
Qed.
Lemma preserves_get {T} (l : lens S T) : preserves I (get l).
Proof. by intros s Hs. Qed.
Lemma preserves_fault {A} : preserves I (@fault S A).
Proof. by intros s Hs. Qed.
Lemma preserves_halt {A} : preserves I (@halt S A).
Proof. by intros s Hs. Qed.
Lemma preserves_switched {A} : preserves I (@switched S A).
Proof. by intros s Hs. Qed.
Lemma preserves_of_option {A} (o : option A) : preserves I (of_option o).
Proof. destruct o; by intros s Hs. Qed.
Lemma preserves_aget {A} (l : lens S (list A)) i : preserves I (aget l i).
Proof. apply preserves_bind; [apply preserves_get|intros; apply preserves_of_option]. Qed.

Lemma preserves_zoom {T A} (l : lens S T) (m : M T A) :
  (∀ s t, I s → I (update l t s)) → preserves I (zoom l m).
Proof.
  intros HI s Hs. apply wlp_zoom. unfold wlp. destruct (m (view l s)); auto.
Qed.
Lemma preserves_put {T} (l : lens S T) t : (∀ s, I s → I (update l t s)) → preserves I (put l t).
Proof. intros HI s Hs. by apply HI. Qed.
Lemma preserves_modify {T} (l : lens S T) f :
  (∀ s t, I s → I (update l t s)) → preserves I (modify l f).
Proof. intros HI s Hs. by apply HI. Qed.
Lemma preserves_aset {A} (l : lens S (list A)) i a :
  (∀ s t, I s → I (update l t s)) → preserves I (aset l i a).
Proof. intros HI s Hs. apply wlp_aset. auto. Qed.
Lemma preserves_amodify {A} (l : lens S (list A)) i f :
  (∀ s a, I s → zlookup (view l s) i = Some a → I (update l (zinsert i (f a) (view l s)) s)) →
  preserves I (amodify l i f).
Proof. intros HI s Hs. apply wlp_amodify. auto. Qed.

Lemma preserves_for_range lo hi body :
  (∀ i, lo ≤ i < hi → preserves I (body i)) → preserves I (for_range lo hi body).
Proof.
  intros Hb s Hs. destruct (decide (lo ≤ hi)) as [Hle|Hlt].
  - apply (wlp_for_range (λ _, I)); [done|done| |done]. intros i s' Hi Hs'. by apply Hb.
  - unfold for_range. by replace (Z.to_nat (hi - lo)) with 0%nat by lia.
Qed.
Lemma preserves_search_range lo hi cond :
  (∀ i, preserves I (cond i)) → preserves I (search_range lo hi cond).
Proof.
  intros Hb. unfold search_range. generalize (Z.to_nat (hi - lo)) as n. intros n. revert lo.
  induction n as [|n IH]; intros lo; simpl; [apply preserves_ret|].
  apply preserves_bind; [done|]. intros []; [auto|apply preserves_ret].
Qed.
Lemma preserves_loop {A B} fuel (body : A → M S (A + B)) a :
  (∀ a, preserves I (body a)) → preserves I (loop fuel body a).
Proof.
  intros Hb. revert a. induction fuel as [|n IH]; intros a; simpl; [by intros s Hs|].
  apply preserves_bind; [done|]. intros []; [auto|apply preserves_ret].
Qed.
End Preserves.

(** One syntactic step, as for [respects]. *)
Create HintDb preserves.
Ltac preserves_step :=
  lazymatch goal with
  | |- preserves _ (bind _ _) => apply preserves_bind; [|intros ?]
  | |- preserves _ (ret _) => apply preserves_ret
  | |- preserves _ (get _) => apply preserves_get
  | |- preserves _ (aget _ _) => apply preserves_aget
  | |- preserves _ (of_option _) => apply preserves_of_option
  | |- preserves _ halt => apply preserves_halt
  | |- preserves _ switched => apply preserves_switched
  | |- preserves _ fault => apply preserves_fault
  | |- preserves _ (for_range _ _ _) => apply preserves_for_range; intros ? ?
  | |- preserves _ (search_range _ _ _) => apply preserves_search_range; intros ?
  | |- preserves _ (loop _ _ _) => apply preserves_loop; intros ?
  | |- preserves _ (if ?b then _ else _) => destruct b
  | |- preserves _ (match ?x with _ => _ end) => destruct x
  | |- preserves _ (let _ := _ in _) => cbv zeta
  end.
Ltac preserves := repeat first [solve [eauto with preserves nocore] | preserves_step].

#[global] Arguments loop : simpl never.
#[global] Arguments for_n : simpl never.
#[global] Arguments search_n : simpl never.
