(* ===== verification/KList.v ===== *)
(** * [include/list.h]: the intrusive, circular, doubly linked lists.

    The [struct list_head] objects of the kernel are all static: the heads
    [runqueue], [keyboard_queue] and [sem[i].wait_list], and the member
    [run_list] of every task.  A [node] names one of them, the [links] store
    gives their two pointers, and [None] is the null pointer. *)
From S2P Require Import Prelude.

Inductive node : Type :=
| Runqueue
| KeyboardQueue
| WaitList (n_sem : Z)
| RunList (task : Z).

#[export] Instance node_eq_dec : EqDecision node.
Proof. solve_decision. Defined.

#[export] Instance node_countable : Countable node.
Proof.
  refine (inj_countable'
    (λ n, match n with
          | Runqueue => inl (inl ()) | KeyboardQueue => inl (inr ())
          | WaitList i => inr (inl i) | RunList i => inr (inr i) end)
    (λ e, match e with
          | inl (inl _) => Runqueue | inl (inr _) => KeyboardQueue
          | inr (inl i) => WaitList i | inr (inr i) => RunList i end) _).
  by intros [].
Defined.

Abbreviation ptr := (option node).

Record list_head : Type := ListHead { next : ptr; prev : ptr }.
Abbreviation links := (gmap node list_head).

(** ** The operations. *)

(** Loads and stores through a pointer; a null or unknown one is a fault. *)
Definition load (p : ptr) : M links list_head := λ h,
  match p with
  | Some n => match h !! n with Some c => Ret c h | None => Fault end
  | None => Fault
  end.
Definition store (p : ptr) (f : list_head → list_head) : M links unit :=
  let! c := load p in
  λ h, match p with Some n => Ret () (<[n := f c]> h) | None => Fault end.
Definition set_next (p v : ptr) : M links unit := store p (λ c, ListHead v (prev c)).
Definition set_prev (p v : ptr) : M links unit := store p (λ c, ListHead (next c) v).

Definition INIT_LIST_HEAD (l : ptr) : M links unit :=
  set_next l l;; set_prev l l.

Definition __list_add (new pr nx : ptr) : M links unit :=
  set_prev nx new;;
  set_next new nx;;
  set_prev new pr;;
  set_next pr new.

Definition list_add (new head : ptr) : M links unit :=
  let! c := load head in __list_add new head (next c).

Definition list_add_tail (new head : ptr) : M links unit :=
  let! c := load head in __list_add new (prev c) head.

Definition __list_del (pr nx : ptr) : M links unit :=
  set_prev nx pr;;
  set_next pr nx.

Definition list_del (entry : ptr) : M links unit :=
  let! c := load entry in
  __list_del (prev c) (next c);;
  set_next entry None;;
  set_prev entry None.

Definition list_is_last (l head : ptr) : M links bool :=
  let! c := load l in ret (bool_decide (next c = head)).

Definition list_empty (head : ptr) : M links bool :=
  let! c := load head in ret (bool_decide (next c = head)).

Definition list_first (head : ptr) : M links ptr :=
  let! c := load head in ret (next c).

Definition list_last (head : ptr) : M links ptr :=
  let! c := load head in ret (prev c).

(** ** The abstraction: a well formed circular list is a sequence of nodes. *)

Definition nxt (h : links) (n : node) : ptr := h !! n ≫= next.
Definition prv (h : links) (n : node) : ptr := h !! n ≫= prev.
Definition linked (h : links) (a b : node) : Prop :=
  nxt h a = Some b ∧ prv h b = Some a.

(** [path h a l b]: following [next] from [a] visits [l] and then [b], and
    the [prev] pointers are the way back. *)
Fixpoint path (h : links) (a : node) (l : list node) (b : node) : Prop :=
  match l with
  | [] => linked h a b
  | x :: l => linked h a x ∧ path h x l b
  end.

Definition dlist (h : links) (head : node) (l : list node) : Prop :=
  path h head l head ∧ NoDup (head :: l).

Lemma linked_lookup h a b :
  linked h a b → ∃ ca cb, h !! a = Some ca ∧ h !! b = Some cb ∧
                          next ca = Some b ∧ prev cb = Some a.
Proof.
  unfold linked, nxt, prv. intros [Ha Hb].
  destruct (h !! a) as [ca|]; [|done]. destruct (h !! b) as [cb|]; [|done].
  by exists ca, cb.
Qed.

Lemma path_app h a l1 x l2 b :
  path h a (l1 ++ x :: l2) b ↔ path h a l1 x ∧ path h x l2 b.
Proof. revert a. induction l1 as [|y l1 IH]; intros a; simpl; [done|]. rewrite IH. tauto. Qed.

(** A store changes one pointer of one node. *)
Lemma lookup_store (h : links) n f m :
  <[n := f]> h !! m = if decide (n = m) then Some f else h !! m.
Proof. case_decide; subst; [apply lookup_insert_eq | by apply lookup_insert_ne]. Qed.

Lemma wp_load n c h Q X : h !! n = Some c → Q c h → wp (load (Some n)) h Q X.
Proof. unfold wp, load. by intros ->. Qed.

Lemma wp_set_next n v c h Q X :
  h !! n = Some c → Q () (<[n := ListHead v (prev c)]> h) →
  wp (set_next (Some n) v) h Q X.
Proof. intros ? ?. apply wp_bind. by eapply wp_load. Qed.

Lemma wp_set_prev n v c h Q X :
  h !! n = Some c → Q () (<[n := ListHead (next c) v]> h) →
  wp (set_prev (Some n) v) h Q X.
Proof. intros ? ?. apply wp_bind. by eapply wp_load. Qed.

Lemma path_frame h h' a l b :
  (∀ n, n ∈ a :: l → nxt h' n = nxt h n) →
  (∀ n, n ∈ b :: l → prv h' n = prv h n) →
  path h a l b → path h' a l b.
Proof.
  revert a. induction l as [|x l IH]; intros a Hn Hp; simpl; unfold linked.
  - rewrite Hn, Hp by set_solver. done.
  - rewrite Hn, Hp by set_solver. intros [? ?]. split; [done|].
    apply IH; [set_solver.. | done].
Qed.

Lemma dlist_frame h h' head l :
  (∀ n, n ∈ head :: l → h' !! n = h !! n) → dlist h head l → dlist h' head l.
Proof.
  intros Hh [? ?]. split; [|done].
  eapply path_frame; [..|done]; intros n ?; unfold nxt, prv; rewrite Hh; set_solver.
Qed.

(** Effects of the internal routines on the two pointer functions. *)

(** [splice h a x b h']: [h'] is [h] with [x] spliced between [a] and [b]. *)
Definition splice (h : links) (a x b : node) (h' : links) : Prop :=
  (∀ n, nxt h' n = if decide (n = x) then Some b
                   else if decide (n = a) then Some x else nxt h n) ∧
  (∀ n, prv h' n = if decide (n = x) then Some a
                   else if decide (n = b) then Some x else prv h n) ∧
  (∀ n, n ≠ a → n ≠ x → n ≠ b → h' !! n = h !! n) ∧
  (∀ n, is_Some (h' !! n) ↔ is_Some (h !! n)).

(** [unlink h a x b h']: [h'] is [h] with [x], between [a] and [b], cut out. *)
Definition unlink (h : links) (a x b : node) (h' : links) : Prop :=
  (∀ n, nxt h' n = if decide (n = x) then None
                   else if decide (n = a) then Some b else nxt h n) ∧
  (∀ n, prv h' n = if decide (n = x) then None
                   else if decide (n = b) then Some a else prv h n) ∧
  (∀ n, n ≠ a → n ≠ x → n ≠ b → h' !! n = h !! n) ∧
  (∀ n, is_Some (h' !! n) ↔ is_Some (h !! n)).

Ltac links_update :=
  repeat first [rewrite lookup_store in * | case_decide];
  simplify_option_eq;
  repeat match goal with H : ?h !! ?n = Some _ |- context [?h !! ?n] => rewrite H end;
  simpl; try done; try congruence.

(** Every step of the symbolic execution of a list routine looks a node up in
    the updated store. *)
Ltac links_step :=
  first
    [ eapply wp_set_prev; [links_update; eauto | ]
    | eapply wp_set_next; [links_update; eauto | ]
    | eapply wp_load; [links_update; eauto | ]
    | wp_step ].

Lemma wp___list_add h a x b ca cx cb Q X :
  h !! a = Some ca → h !! x = Some cx → h !! b = Some cb → x ≠ a → x ≠ b →
  (∀ h', splice h a x b h' → Q () h') →
  wp (__list_add (Some x) (Some a) (Some b)) h Q X.
Proof.
  intros Ha Hx Hb Hxa Hxb HQ. unfold __list_add.
  destruct (decide (a = b)) as [->|Hab]; simplify_eq; repeat links_step.
  all: apply HQ; unfold splice, nxt, prv; split_and!; intros; links_update.
Qed.

Lemma wp_list_del h x a b ca cx cb Q X :
  h !! a = Some ca → h !! x = Some cx → h !! b = Some cb →
  prev cx = Some a → next cx = Some b → x ≠ a → x ≠ b →
  (∀ h', unlink h a x b h' → Q () h') →
  wp (list_del (Some x)) h Q X.
Proof.
  intros Ha Hx Hb Hp Hn Hxa Hxb HQ. unfold list_del, __list_del.
  apply wp_bind. eapply wp_load; [done|]. rewrite Hp, Hn.
  destruct (decide (a = b)) as [->|Hab]; simplify_eq; repeat links_step.
  all: apply HQ; unfold unlink, nxt, prv; split_and!; intros; links_update.
Qed.

(** ** The operations on sequences. *)

(** [frame h h' ns]: only the nodes [ns] may differ between the two stores,
    and no node appears or disappears. *)
Definition frame (h h' : links) (ns : list node) : Prop :=
  (∀ n, n ∉ ns → h' !! n = h !! n) ∧ (∀ n, is_Some (h' !! n) ↔ is_Some (h !! n)).

Lemma frame_dlist h h' ns head l :
  frame h h' ns → (∀ n, n ∈ head :: l → n ∉ ns) → dlist h head l → dlist h' head l.
Proof. intros [Hf _] Hd. apply dlist_frame. intros n ?. apply Hf. by apply Hd. Qed.

Lemma frame_trans h1 h2 h3 ns1 ns2 ns :
  frame h1 h2 ns1 → frame h2 h3 ns2 → ns1 ⊆ ns → ns2 ⊆ ns → frame h1 h3 ns.
Proof.
  intros [H1 D1] [H2 D2] ? ?. split.
  - intros n ?. rewrite H2, H1 by set_solver. done.
  - intros n. by rewrite D2.
Qed.

(** The neighbours of a node of a path. *)
Lemma path_last h a l b :
  path h a l b →
  ∃ p, linked h p b ∧ ((l = [] ∧ p = a) ∨ ∃ l', l = l' ++ [p] ∧ path h a l' p).
Proof.
  destruct l as [|y l _] using rev_ind; simpl.
  - intros ?. exists a. auto.
  - intros [? ?]%path_app. exists y. eauto.
Qed.

Lemma path_first h a l b :
  path h a l b →
  ∃ n, linked h a n ∧ ((l = [] ∧ n = b) ∨ ∃ l', l = n :: l' ∧ path h n l' b).
Proof. destruct l as [|y l]; simpl; [|intros []]; eauto 10. Qed.

(** A path none of whose pointers is rewritten by a splice or a cut: the
    store keeps its [next] pointers when its nodes avoid [a] and [x], and its
    [prev] pointers when they avoid [b] and [x]. *)
Definition keeps (h h' : links) (a x b : node) : Prop :=
  (∀ n, n ≠ x → n ≠ a → nxt h' n = nxt h n) ∧
  (∀ n, n ≠ x → n ≠ b → prv h' n = prv h n).

Lemma splice_keeps h h' a x b : splice h a x b h' → keeps h h' a x b.
Proof. intros (Hn & Hp & _). split; intros; rewrite ?Hn, ?Hp; by rewrite !decide_False. Qed.

Lemma unlink_keeps h h' a x b : unlink h a x b h' → keeps h h' a x b.
Proof. intros (Hn & Hp & _). split; intros; rewrite ?Hn, ?Hp; by rewrite !decide_False. Qed.

Lemma keeps_path h h' a x b c l d :
  keeps h h' a x b → x ∉ c :: d :: l → a ∉ c :: l → b ∉ d :: l →
  path h c l d → path h' c l d.
Proof.
  intros [Hn Hp] Hx Ha Hb. apply path_frame; intros n Hin.
  - apply Hn; set_solver.
  - apply Hp; set_solver.
Qed.

Lemma splice_linked h h' a x b :
  splice h a x b h' → x ≠ a → x ≠ b → linked h' a x ∧ linked h' x b.
Proof.
  intros (Hn & Hp & _) ? ?. unfold linked. rewrite !Hn, !Hp.
  repeat case_decide; split_and!; congruence.
Qed.

Lemma unlink_linked h h' a x b : unlink h a x b h' → x ≠ a → x ≠ b → linked h' a b.
Proof.
  intros (Hn & Hp & _) ? ?. unfold linked. rewrite !Hn, !Hp.
  repeat case_decide; split_and!; congruence.
Qed.

(** Inserting at the tail and at the front of a well formed list. *)
Lemma wp_list_add_tail h head x l Q X :
  dlist h head l → is_Some (h !! x) → x ∉ head :: l →
  (∀ h', dlist h' head (l ++ [x]) → frame h h' (x :: head :: l) → Q () h') →
  wp (list_add_tail (Some x) (Some head)) h Q X.
Proof.
  intros [Hpath Hnd] [cx Hx] Hin HQ. unfold list_add_tail.
  destruct (path_last _ _ _ _ Hpath) as (p & Hlk & Hp).
  destruct (linked_lookup _ _ _ Hlk) as (cp & ch & Hcp & Hch & _ & Hprev).
  assert (p ∈ head :: l) as Hpin by (destruct Hp as [[-> ->]|(l' & -> & _)]; set_solver).
  apply wp_bind. eapply wp_load; [done|]. rewrite Hprev.
  eapply wp___list_add; [done..|set_solver|set_solver|]. intros h' Hs.
  pose proof (splice_keeps _ _ _ _ _ Hs) as Hk.
  apply HQ.
  - split; [|by rewrite app_comm_cons, <-Permutation_cons_append, NoDup_cons].
    destruct (splice_linked _ _ _ _ _ Hs) as [L1 L2]; [set_solver..|].
    apply path_app. split; [|done].
    destruct Hp as [[-> ->]|(l' & -> & Hl')]; [done|].
    apply path_app. split; [|done].
    eapply keeps_path; [done|..|done]; [set_solver| |];
      apply NoDup_cons in Hnd as [? (?&?&?)%NoDup_app]; set_solver.
  - destruct Hs as (_ & _ & Hs & ?). split; [|done].
    intros n ?. apply Hs; set_solver.
Qed.

Lemma wp_list_add h head x l Q X :
  dlist h head l → is_Some (h !! x) → x ∉ head :: l →
  (∀ h', dlist h' head (x :: l) → frame h h' (x :: head :: l) → Q () h') →
  wp (list_add (Some x) (Some head)) h Q X.
Proof.
  intros [Hpath Hnd] [cx Hx] Hin HQ. unfold list_add.
  destruct (path_first _ _ _ _ Hpath) as (p & Hlk & Hp).
  destruct (linked_lookup _ _ _ Hlk) as (ch & cp & Hch & Hcp & Hnext & _).
  assert (p ∈ head :: l) as Hpin by (destruct Hp as [[-> ->]|(l' & -> & _)]; set_solver).
  apply wp_bind. eapply wp_load; [done|]. rewrite Hnext.
  eapply wp___list_add; [done..|set_solver|set_solver|]. intros h' Hs.
  pose proof (splice_keeps _ _ _ _ _ Hs) as Hk.
  apply HQ.
  - split; [|rewrite !NoDup_cons in *; split_and!; set_solver].
    destruct (splice_linked _ _ _ _ _ Hs) as [L1 L2]; [set_solver..|].
    split; [done|].
    destruct Hp as [[-> ->]|(l' & -> & Hl')]; [done|].
    split; [done|].
    eapply keeps_path; [done|..|done]; [set_solver| |];
      rewrite !NoDup_cons in Hnd; set_solver.
  - destruct Hs as (_ & _ & Hs & ?). split; [|done].
    intros n ?. apply Hs; set_solver.
Qed.

(** Deleting an entry, wherever it is. *)
Lemma wp_list_del_dlist h head x l1 l2 Q X :
  dlist h head (l1 ++ x :: l2) →
  (∀ h', dlist h' head (l1 ++ l2) → frame h h' (head :: l1 ++ x :: l2) →
         h' !! x = Some (ListHead None None) → Q () h') →
  wp (list_del (Some x)) h Q X.
Proof.
  intros [Hpath Hnd] HQ.
  pose proof Hpath as [Hl1 Hl2]%path_app.
  destruct (path_last _ _ _ _ Hl1) as (p & Lp & Hp).
  destruct (path_first _ _ _ _ Hl2) as (n & Ln & Hn).
  destruct (linked_lookup _ _ _ Lp) as (cp & cx & Hcp & Hcx & _ & Hprev).
  destruct (linked_lookup _ _ _ Ln) as (cx' & cn & Hcx' & Hcn & Hnext & _).
  simplify_eq.
  assert (p ∈ head :: l1) as Hpin by (destruct Hp as [[-> ->]|(? & -> & _)]; set_solver).
  assert (n ∈ head :: l2) as Hnin by (destruct Hn as [[-> ->]|(? & -> & _)]; set_solver).
  apply NoDup_cons in Hnd as [Hh Hnd].
  pose proof Hnd as (Hnd1 & Hd & [Hx Hnd2]%NoDup_cons)%NoDup_app.
  eapply (wp_list_del _ x p n); [done..|set_solver|set_solver|]. intros h' Hu.
  pose proof (unlink_keeps _ _ _ _ _ Hu) as Hk.
  assert (path h' p l2 head) as Hrest.
  { assert (linked h' p n) by (eapply unlink_linked; [done|set_solver..]).
    destruct Hn as [[-> ->]|(l' & -> & Hl')]; [done|]. split; [done|].
    apply NoDup_cons in Hnd2 as [? ?].
    eapply keeps_path; [done|..|done]; set_solver. }
  apply HQ.
  - split; [|apply NoDup_cons; split; [set_solver|]; apply NoDup_app; split_and!; set_solver].
    destruct Hp as [[-> ->]|(l' & -> & Hl')]; [done|].
    rewrite <-app_assoc. apply path_app. split; [|done].
    apply NoDup_app in Hnd1 as (? & ? & ?).
    eapply keeps_path; [done|..|done]; set_solver.
  - destruct Hu as (_ & _ & Hu & ?). split; [|done].
    intros m ?. apply Hu; set_solver.
  - destruct Hu as (Hnx & Hpv & _ & Hdom).
    destruct (proj2 (Hdom x)) as [[nx pv] Hcx']; [eauto|].
    specialize (Hnx x). specialize (Hpv x). unfold nxt, prv in *.
    rewrite decide_True, Hcx' in * by done. simplify_eq/=. done.
Qed.

Lemma wp_list_empty h head l Q X :
  dlist h head l → Q (bool_decide (l = [])) h → wp (list_empty (Some head)) h Q X.
Proof.
  intros [Hpath Hnd] HQ.
  destruct (path_first _ _ _ _ Hpath) as (n & Ln & Hn).
  destruct (linked_lookup _ _ _ Ln) as (ch & cn & Hch & _ & Hnext & _).
  apply wp_bind. eapply wp_load; [done|]. apply wp_ret. rewrite Hnext.
  replace (bool_decide (Some n = Some head)) with (bool_decide (l = [])); [done|].
  apply bool_decide_ext.
  destruct Hn as [[-> ->]|(l' & -> & _)]; split; try done.
  intros [= ->]. rewrite NoDup_cons in Hnd. set_solver.
Qed.

Lemma wp_load_head h head l Q X :
  dlist h head l →
  (∀ c, h !! head = Some c → next c = Some (default head (hd_error l)) →
        prev c = Some (default head (last l)) → Q c h) →
  wp (load (Some head)) h Q X.
Proof.
  intros [Hpath Hnd] HQ.
  destruct (path_first _ _ _ _ Hpath) as (n & Ln & Hn).
  destruct (path_last _ _ _ _ Hpath) as (p & Lp & Hp).
  destruct (linked_lookup _ _ _ Ln) as (c & cn & Hch & _ & Hnext & _).
  destruct (linked_lookup _ _ _ Lp) as (cp & c' & _ & Hch' & _ & Hprev).
  simplify_eq. eapply wp_load; [done|]. apply HQ; [done|..].
  - rewrite Hnext. by destruct Hn as [[-> ->]|(l' & -> & _)].
  - rewrite Hprev. destruct Hp as [[-> ->]|(l' & -> & _)]; [done|]. by rewrite last_snoc.
Qed.

Lemma wp_INIT_LIST_HEAD h n c Q X :
  h !! n = Some c →
  (∀ h', dlist h' n [] → frame h h' [n] → Q () h') →
  wp (INIT_LIST_HEAD (Some n)) h Q X.
Proof.
  intros Hc HQ. unfold INIT_LIST_HEAD. repeat links_step.
  apply HQ.
  - split; [|apply NoDup_singleton]. split; unfold nxt, prv; links_update.
  - split; intros m; [intros ?%not_elem_of_cons|]; links_update; naive_solver.
Qed.
