(* ===== verification/Mm.v ===== *)
(** * [mm.c], [include/mm.h], [include/mm_address.h]: physical frames, the
    page table and the memory a process sees through it, and the copy routines
    of [utils.c]. *)
From S2P Require Import Prelude.

(** ** Constants of [mm_address.h] and [mm.h]. *)

Definition ENTRY_DIR_PAGES : Z := 0.
Definition TOTAL_PAGES : Z := 1024.
Definition NUM_PAG_KERNEL : Z := 256.
Definition L_USER_START : Z := 0x100000.
Definition PAGE_SIZE : Z := 0x1000.
Definition NUM_PAG_CODE : Z := 8.
Definition NUM_PAG_DATA : Z := 20.
Definition PAG_LOG_INIT_CODE_P0 : Z := Z.shiftr L_USER_START 12.
Definition PAG_LOG_INIT_DATA_P0 : Z := PAG_LOG_INIT_CODE_P0 + NUM_PAG_CODE.
Definition FREE_FRAME : Z := 0.
Definition USED_FRAME : Z := 1.
Definition NR_TASKS : Z := 10.

(** ** [page_table_entry]: a 32 bit word with bit fields ([types.h]). *)

(** The field of [width] bits at offset [off] of the word [e]. *)
Definition bits_get (off width e : Z) : Z := Z.land (Z.shiftr e off) (Z.ones width).
Definition bits_set (off width v e : Z) : Z :=
  Z.lor (Z.ldiff e (Z.shiftl (Z.ones width) off))
        (Z.shiftl (Z.land v (Z.ones width)) off).

Definition present (e : Z) : Z := bits_get 0 1 e.
Definition rw (e : Z) : Z := bits_get 1 1 e.
Definition user (e : Z) : Z := bits_get 2 1 e.
Definition pbase_addr (e : Z) : Z := bits_get 12 20 e.
Definition set_present (v e : Z) : Z := bits_set 0 1 v e.
Definition set_rw (v e : Z) : Z := bits_set 1 1 v e.
Definition set_user (v e : Z) : Z := bits_set 2 1 v e.
Definition set_pbase_addr (v e : Z) : Z := bits_set 12 20 v e.

(** ** State. *)

(** [stale] is the set of logical pages whose entry was written since the last
    write to CR3, whose translations the TLB may still hold; [ram] is the
    contents of physical memory. *)
Record mm_state : Type := MkMm {
  phys_mem : list Z;
  pagusr_table : list Z;
  dir_pages : list Z;
  paging : bool;
  stale : gset Z;
  ram : gmap Z Z;
}.

Definition set_phys_mem v m :=
  MkMm v (pagusr_table m) (dir_pages m) (paging m) (stale m) (ram m).
Definition set_pagusr_table v m :=
  MkMm (phys_mem m) v (dir_pages m) (paging m) (stale m) (ram m).
Definition set_dir_pages v m :=
  MkMm (phys_mem m) (pagusr_table m) v (paging m) (stale m) (ram m).
Definition set_paging v m :=
  MkMm (phys_mem m) (pagusr_table m) (dir_pages m) v (stale m) (ram m).
Definition set_stale v m :=
  MkMm (phys_mem m) (pagusr_table m) (dir_pages m) (paging m) v (ram m).
Definition set_ram v m :=
  MkMm (phys_mem m) (pagusr_table m) (dir_pages m) (paging m) (stale m) v.

Definition PhysMem : lens mm_state (list Z) := Lens phys_mem set_phys_mem.
Definition PageTable : lens mm_state (list Z) := Lens pagusr_table set_pagusr_table.
Definition DirPages : lens mm_state (list Z) := Lens dir_pages set_dir_pages.
Definition Paging : lens mm_state bool := Lens paging set_paging.
Definition Stale : lens mm_state (gset Z) := Lens stale set_stale.
Definition Ram : lens mm_state (gmap Z Z) := Lens ram set_ram.

(** Static storage before [init_mm]: zero filled. *)
Definition mm_bss : mm_state :=
  MkMm (replicate (Z.to_nat TOTAL_PAGES) 0) (replicate (Z.to_nat TOTAL_PAGES) 0)
       (replicate (Z.to_nat TOTAL_PAGES) 0) false ∅ ∅.

(** ** Frames. *)

Definition init_frames : M mm_state Z :=
  for_range 0 TOTAL_PAGES (λ i, aset PhysMem i FREE_FRAME);;
  for_range 0 NUM_PAG_KERNEL (λ i, aset PhysMem i USED_FRAME);;
  ret 0.

Definition initialize_P0_frames : M mm_state Z :=
  for_range 0 NUM_PAG_CODE (λ i, aset PhysMem (NUM_PAG_KERNEL + i) USED_FRAME);;
  ret NUM_PAG_KERNEL.

(** Only every second frame is looked at: "there will be holes". *)
Definition alloc_frame : M mm_state Z :=
  loop (Z.to_nat TOTAL_PAGES) (λ i,
    if bool_decide (i < TOTAL_PAGES) then
      let! f := aget PhysMem i in
      if bool_decide (f = FREE_FRAME) then aset PhysMem i USED_FRAME;; ret (inr i)
      else ret (inl (i + 2))
    else ret (inr (-1)))
  NUM_PAG_KERNEL.

(** The parameter is [unsigned int]. *)
Definition free_frame (frame : Z) : M mm_state unit :=
  aset PhysMem (u32 frame) FREE_FRAME.

(** ** The page table. *)

(** A store to an entry, or to one of its bit fields. *)
Definition set_entry (page : Z) (f : Z → Z) : M mm_state unit :=
  amodify PageTable page f;; modify Stale (λ X, {[page]} ∪ X).

Definition del_ss_pag (logical_page : Z) : M mm_state unit :=
  set_entry logical_page (λ _, 0).

Definition set_ss_pag (page frame : Z) : M mm_state unit :=
  set_entry page (λ _, 0);;
  set_entry page (set_pbase_addr frame);;
  set_entry page (set_user 1);;
  set_entry page (set_rw 1);;
  set_entry page (set_present 1).

Definition set_cr3 : M mm_state unit := put Stale ∅.
Definition set_pe_flag : M mm_state unit := put Paging true.

(** The linker places [task] at [task_addr] and [pagusr_table] at
    [table_addr]; a [protected_task_struct] is two pages long. *)
Definition SIZEOF_PROTECTED_TASK : Z := 8192.

Definition init_dir_pages (table_addr : Z) : M mm_state unit :=
  aset DirPages ENTRY_DIR_PAGES 0;;
  amodify DirPages ENTRY_DIR_PAGES (set_pbase_addr (Z.shiftr (u32 table_addr) 12));;
  amodify DirPages ENTRY_DIR_PAGES (set_user 1);;
  amodify DirPages ENTRY_DIR_PAGES (set_rw 1);;
  amodify DirPages ENTRY_DIR_PAGES (set_present 1).

Definition init_table_pages (task_addr : Z) : M mm_state unit :=
  for_range 0 TOTAL_PAGES (λ i, set_entry i (λ _, 0));;
  for_range 0 NUM_PAG_KERNEL (λ i,
    set_entry i (set_pbase_addr i);;
    set_entry i (set_rw 1);;
    set_entry i (set_present 1));;
  for_range 0 NR_TASKS (λ i,
    let page := Z.shiftr (u32 (task_addr + SIZEOF_PROTECTED_TASK * i)) 12 in
    set_entry page (set_pbase_addr page);;
    set_entry page (set_rw 0);;
    set_entry page (set_present 0)).

Definition set_user_pages : M mm_state unit :=
  for_range PAG_LOG_INIT_CODE_P0 PAG_LOG_INIT_DATA_P0 (λ pag,
    let first_ph_page := NUM_PAG_KERNEL + (pag - PAG_LOG_INIT_CODE_P0) in
    set_entry pag (λ _, 0);;
    set_entry pag (set_pbase_addr first_ph_page);;
    set_entry pag (set_user 1);;
    set_entry pag (set_present 1));;
  for_range PAG_LOG_INIT_DATA_P0 (PAG_LOG_INIT_DATA_P0 + NUM_PAG_DATA) (λ pag,
    set_entry pag (λ _, 0);;
    (let! f := alloc_frame in set_entry pag (set_pbase_addr f));;
    set_entry pag (set_user 1);;
    set_entry pag (set_rw 1);;
    set_entry pag (set_present 1)).

Definition init_mm (task_addr table_addr : Z) : M mm_state unit :=
  init_table_pages task_addr;;
  init_frames;;
  init_dir_pages table_addr;;
  set_cr3;;
  set_pe_flag.

(** ** Logical memory: loads and stores through the page table. *)

(** The directory has one present entry, so an address above 4 MB faults; the
    kernel runs with CR0.WP clear, so [rw] does not restrict it.  The user bit
    does not restrict it either: for a store of user code, that both bits are set
    is [user_writable], which the theorems about such stores state.  The entry is
    the one the page table holds now; a translation the TLB may still have cached
    is not looked at, but its page is in [stale] until the TLB is flushed. *)
Definition translate (addr : Z) : M mm_state Z :=
  let! e := aget PageTable (Z.shiftr addr 12) in
  if bool_decide (present e = 1) then ret (pbase_addr e * PAGE_SIZE + addr mod PAGE_SIZE)
  else fault.
Definition load_byte (addr : Z) : M mm_state Z :=
  let! pa := translate addr in
  let! m := get Ram in ret (default 0 (m !! pa)).
Definition store_byte (addr b : Z) : M mm_state unit :=
  let! pa := translate addr in modify Ram (<[pa := b]>).

(** ** [copy_data], [copy_from_user], [copy_to_user] ([utils.c]).

    The three have the same body: double words while more than four bytes
    remain, then bytes.  [rd i] reads byte [i] of the source and [wr i] writes
    byte [i] of the destination; a double word is read before it is written. *)
Section Copy.
Context {S : Type} (rd : Z → M S Z) (wr : Z → Z → M S unit).

Definition copy_dword (off : Z) : M S unit :=
  let! b0 := rd off in
  let! b1 := rd (off + 1) in
  let! b2 := rd (off + 2) in
  let! b3 := rd (off + 3) in
  wr off b0;; wr (off + 1) b1;; wr (off + 2) b2;; wr (off + 3) b3.

Definition copy_data (size : Z) : M S unit :=
  let! '(off, size) :=
    loop (Datatypes.S (Z.to_nat size)) (λ '(off, size),
      if bool_decide (size > 4) then copy_dword off;; ret (inl (off + 4, size - 4))
      else ret (inr (off, size))) (0, size) in
  loop (Datatypes.S (Z.to_nat size)) (λ '(off, size),
    if bool_decide (size > 0) then
      (let! b := rd off in wr off b);; ret (inl (off + 1, size - 1))
    else ret (inr ())) (off, size).

Definition copy_from_user (size : Z) : M S Z := copy_data size;; ret 0.
Definition copy_to_user (size : Z) : M S Z := copy_data size;; ret 0.
End Copy.

(** ** Laws of the lenses and of the bit fields. *)

#[export] Instance PhysMem_laws : LensLaws PhysMem. Proof. solve_lens. Qed.
#[export] Instance PageTable_laws : LensLaws PageTable. Proof. solve_lens. Qed.
#[export] Instance DirPages_laws : LensLaws DirPages. Proof. solve_lens. Qed.
#[export] Instance Paging_laws : LensLaws Paging. Proof. solve_lens. Qed.
#[export] Instance Stale_laws : LensLaws Stale. Proof. solve_lens. Qed.
#[export] Instance Ram_laws : LensLaws Ram. Proof. solve_lens. Qed.

Lemma testbit_field off w v n :
  0 ≤ off → 0 ≤ w → 0 ≤ n →
  Z.testbit (Z.shiftl (Z.land v (Z.ones w)) off) n =
  bool_decide (off ≤ n < off + w) && Z.testbit v (n - off).
Proof.
  intros. rewrite Z.shiftl_spec, Z.land_spec by lia.
  destruct (decide (n < off)).
  { rewrite (Z.testbit_neg_r v), bool_decide_false by lia. done. }
  rewrite Z.testbit_ones by lia. rewrite andb_comm. f_equal.
  case_bool_decide; [apply andb_true_iff | apply andb_false_iff]; lia.
Qed.

Lemma testbit_bits_get off w e n :
  0 ≤ off → 0 ≤ w → 0 ≤ n →
  Z.testbit (bits_get off w e) n = bool_decide (n < w) && Z.testbit e (n + off).
Proof.
  intros. unfold bits_get. rewrite Z.land_spec, Z.shiftr_spec, Z.testbit_ones by lia.
  rewrite andb_comm. f_equal.
  case_bool_decide; [apply andb_true_iff | apply andb_false_iff]; lia.
Qed.

Lemma testbit_bits_set off w v e n :
  0 ≤ off → 0 ≤ w → 0 ≤ n →
  Z.testbit (bits_set off w v e) n =
  if bool_decide (off ≤ n < off + w) then Z.testbit v (n - off) else Z.testbit e n.
Proof.
  intros. unfold bits_set. rewrite Z.lor_spec, Z.ldiff_spec, testbit_field by done.
  replace (Z.shiftl (Z.ones w) off) with (Z.shiftl (Z.land (-1) (Z.ones w)) off)
    by (by rewrite Z.land_m1_l).
  rewrite testbit_field by done.
  case_bool_decide; simpl; [|by rewrite andb_true_r, orb_false_r].
  rewrite Z.bits_m1 by lia. by rewrite andb_false_r.
Qed.

(** A field reads back what was stored in it, truncated to its width, and
    storing in a field leaves the disjoint fields alone. *)
Lemma bits_get_set off w v e :
  0 ≤ off → 0 ≤ w → bits_get off w (bits_set off w v e) = v mod 2 ^ w.
Proof.
  intros. rewrite <-Z.land_ones by done. apply Z.bits_inj'. intros n Hn.
  rewrite testbit_bits_get, testbit_bits_set, Z.land_spec, Z.testbit_ones_nonneg by lia.
  replace (n + off - off) with n by lia.
  destruct (Z.ltb_spec n w); repeat case_bool_decide; try lia; simpl;
    by rewrite ?andb_true_r, ?andb_false_r.
Qed.

Lemma bits_get_set_ne off w off' w' v e :
  0 ≤ off → 0 ≤ w → 0 ≤ off' → 0 ≤ w' → off + w ≤ off' ∨ off' + w' ≤ off →
  bits_get off w (bits_set off' w' v e) = bits_get off w e.
Proof.
  intros. apply Z.bits_inj'. intros n Hn.
  rewrite !testbit_bits_get, testbit_bits_set by lia.
  repeat case_bool_decide; try lia; done.
Qed.

Lemma bits_get_0 off w : bits_get off w 0 = 0.
Proof. unfold bits_get. by rewrite Z.shiftr_0_l. Qed.

Lemma bits_get_bound off w e : 0 ≤ w → 0 ≤ bits_get off w e < 2 ^ w.
Proof.
  intros. unfold bits_get. rewrite Z.land_ones by done. apply Z.mod_pos_bound. lia.
Qed.

Ltac solve_pte :=
  unfold present, rw, user, pbase_addr, set_present, set_rw, set_user, set_pbase_addr;
  repeat first
    [ rewrite bits_get_set by lia
    | rewrite bits_get_set_ne by lia
    | rewrite bits_get_0 ]; try done.

(** The entry of a page a process owns. *)
Definition user_pte (frame : Z) : Z :=
  set_present 1 (set_rw 1 (set_user 1 (set_pbase_addr frame 0))).

Lemma user_pte_present f : present (user_pte f) = 1.
Proof. unfold user_pte. solve_pte. Qed.
Lemma user_pte_rw f : rw (user_pte f) = 1.
Proof. unfold user_pte. solve_pte. Qed.
Lemma user_pte_user f : user (user_pte f) = 1.
Proof. unfold user_pte. solve_pte. Qed.
Lemma user_pte_pbase f : 0 ≤ f < 2 ^ 20 → pbase_addr (user_pte f) = f.
Proof. intros. unfold user_pte. solve_pte. by apply Z.mod_small. Qed.

(** ** Frames. *)

Lemma wp_set_entry page f e m Q X :
  zlookup (pagusr_table m) page = Some e →
  Q () (set_stale ({[page]} ∪ stale m)
         (set_pagusr_table (zinsert page (f e) (pagusr_table m)) m)) →
  wp (set_entry page f) m Q X.
Proof. intros ? ?. apply wp_bind. by eapply wp_amodify. Qed.

Lemma set_entry_set_entry (m : mm_state) page e e' :
  set_stale ({[page]} ∪ ({[page]} ∪ stale m))
    (set_pagusr_table (zinsert page e (zinsert page e' (pagusr_table m)))
      (set_stale ({[page]} ∪ stale m)
        (set_pagusr_table (zinsert page e' (pagusr_table m)) m))) =
  set_stale ({[page]} ∪ stale m) (set_pagusr_table (zinsert page e (pagusr_table m)) m).
Proof.
  unfold set_stale, set_pagusr_table; simpl. f_equal; [apply zinsert_zinsert_eq|set_solver].
Qed.

(** Two successive stores to the same entry are one. *)
Lemma wp_set_entry_again page f e m Q X :
  0 ≤ page < zlen (pagusr_table m) →
  Q () (set_stale ({[page]} ∪ stale m)
         (set_pagusr_table (zinsert page (f e) (pagusr_table m)) m)) →
  wp (set_entry page f)
     (set_stale ({[page]} ∪ stale m)
       (set_pagusr_table (zinsert page e (pagusr_table m)) m)) Q X.
Proof.
  intros ? HQ. eapply wp_set_entry; [by apply zlookup_zinsert_eq|].
  simpl. by rewrite set_entry_set_entry.
Qed.

Lemma wp_set_ss_pag page frame m Q X :
  0 ≤ page < zlen (pagusr_table m) →
  Q () (set_stale ({[page]} ∪ stale m)
         (set_pagusr_table (zinsert page (user_pte frame) (pagusr_table m)) m)) →
  wp (set_ss_pag page frame) m Q X.
Proof.
  intros Hp HQ. destruct (zlookup_range _ _ Hp) as [e He]. unfold set_ss_pag.
  apply wp_bind. eapply wp_set_entry; [done|].
  do 3 (apply wp_bind; apply wp_set_entry_again; [done|]).
  by apply wp_set_entry_again.
Qed.

Lemma wp_del_ss_pag page m Q X :
  0 ≤ page < zlen (pagusr_table m) →
  Q () (set_stale ({[page]} ∪ stale m)
         (set_pagusr_table (zinsert page 0 (pagusr_table m)) m)) →
  wp (del_ss_pag page) m Q X.
Proof.
  intros Hp HQ. destruct (zlookup_range _ _ Hp) as [e He]. by eapply wp_set_entry.
Qed.

(** What a call of [alloc_frame] promises: the first free frame among those it
    looks at, or -1 when there is none. *)
Definition is_alloc_candidate (f : Z) : Prop :=
  NUM_PAG_KERNEL ≤ f < TOTAL_PAGES ∧ Z.Even f.

Inductive alloc_frame_post (m : mm_state) : Z → mm_state → Prop :=
| alloc_found f :
    is_alloc_candidate f →
    zlookup (phys_mem m) f = Some FREE_FRAME →
    (∀ g, is_alloc_candidate g → g < f → zlookup (phys_mem m) g ≠ Some FREE_FRAME) →
    alloc_frame_post m f (set_phys_mem (zinsert f USED_FRAME (phys_mem m)) m)
| alloc_none :
    (∀ g, is_alloc_candidate g → zlookup (phys_mem m) g ≠ Some FREE_FRAME) →
    alloc_frame_post m (-1) m.

Lemma wp_alloc_frame m Q X :
  zlen (phys_mem m) = TOTAL_PAGES →
  (∀ f m', alloc_frame_post m f m' → Q f m') →
  wp alloc_frame m Q X.
Proof.
  intros Hlen HQ. unfold alloc_frame.
  eapply (wp_loop (λ i m', m' = m ∧ NUM_PAG_KERNEL ≤ i ≤ TOTAL_PAGES ∧ Z.Even i ∧
    ∀ g, is_alloc_candidate g → g < i → zlookup (phys_mem m) g ≠ Some FREE_FRAME)
    (λ i, TOTAL_PAGES - i)).
  - split_and!; [done|by unfold NUM_PAG_KERNEL, TOTAL_PAGES|done|by exists 128|].
    intros g [? _] ?. lia.
  - unfold TOTAL_PAGES, NUM_PAG_KERNEL. lia.
  - intros i m' (-> & [Hlo Hhi] & Heven & Hused). split; [lia|].
    case_bool_decide.
    + assert (0 ≤ i) by (unfold NUM_PAG_KERNEL in *; lia).
      destruct (zlookup_range (phys_mem m) i) as [v Hv]; [lia|].
      apply wp_bind. eapply wp_aget; [done|]. case_bool_decide; subst.
      * apply wp_bind, wp_aset; [simpl; lia|]. apply wp_ret, HQ. by constructor.
      * apply wp_ret. destruct Heven as [k ->]. unfold TOTAL_PAGES in *.
        split_and!; [done|lia..|exists (k + 1); lia| |lia].
        intros g Hg Hlt. destruct (decide (g = 2 * k)) as [->|]; [naive_solver|].
        apply Hused; [done|]. destruct Hg as [_ [k' ->]]. lia.
    + apply wp_ret, HQ. constructor. intros g Hg. apply Hused; [done|].
      destruct Hg. lia.
Qed.

Lemma wp_free_frame f m Q X :
  0 ≤ f < zlen (phys_mem m) → zlen (phys_mem m) ≤ 2 ^ 32 →
  Q () (set_phys_mem (zinsert f FREE_FRAME (phys_mem m)) m) →
  wp (free_frame f) m Q X.
Proof.
  intros ? ? HQ. unfold free_frame. rewrite u32_small by lia. by apply wp_aset.
Qed.

(** ** Logical memory. *)

(** The physical address behind a logical one, and the byte it holds. *)
Definition phys_of (m : mm_state) (addr : Z) : option Z :=
  match zlookup (pagusr_table m) (Z.shiftr addr 12) with
  | Some e => if bool_decide (present e = 1)
              then Some (pbase_addr e * PAGE_SIZE + addr mod PAGE_SIZE) else None
  | None => None
  end.
Definition ram_byte (m : mm_state) (pa : Z) : Z := default 0 (ram m !! pa).
Definition byte_at (m : mm_state) (addr : Z) : option Z := ram_byte m <$> phys_of m addr.

Lemma wp_translate m addr pa Q X : phys_of m addr = Some pa → Q pa m → wp (translate addr) m Q X.
Proof.
  unfold phys_of, translate. intros Hpa HQ.
  destruct (zlookup _ _) as [e|] eqn:He; [|done].
  apply wp_bind. eapply wp_aget; [done|].
  case_bool_decide; [|done]. simplify_eq. by apply wp_ret.
Qed.

Lemma wp_load_byte m addr b Q X : byte_at m addr = Some b → Q b m → wp (load_byte addr) m Q X.
Proof.
  unfold byte_at. intros (pa & Hpa & ->)%fmap_Some HQ.
  apply wp_bind. by eapply wp_translate.
Qed.

Lemma wp_store_byte m addr b pa Q X :
  phys_of m addr = Some pa → Q () (set_ram (<[pa := b]> (ram m)) m) →
  wp (store_byte addr b) m Q X.
Proof. intros ? ?. apply wp_bind. by eapply wp_translate. Qed.

Lemma phys_of_set_ram m r addr : phys_of (set_ram r m) addr = phys_of m addr.
Proof. done. Qed.

Lemma ram_byte_insert m pa pa' b :
  ram_byte (set_ram (<[pa := b]> (ram m)) m) pa' = if decide (pa = pa') then b else ram_byte m pa'.
Proof.
  unfold ram_byte; simpl. case_decide; subst; [by rewrite lookup_insert_eq|].
  by rewrite lookup_insert_ne.
Qed.

Lemma shiftr_page p k : 0 ≤ k < PAGE_SIZE → Z.shiftr (PAGE_SIZE * p + k) 12 = p.
Proof.
  unfold PAGE_SIZE. intros. rewrite Z.shiftr_div_pow2 by lia. change (2 ^ 12) with 4096.
  change 0x1000 with 4096. symmetry. by eapply Z.div_unique_pos.
Qed.

Lemma mod_page p k : 0 ≤ k < PAGE_SIZE → (PAGE_SIZE * p + k) mod PAGE_SIZE = k.
Proof. unfold PAGE_SIZE. intros. symmetry. by eapply Z.mod_unique_pos. Qed.

(** Every byte of a page that [user_pte] maps is a byte of its frame. *)
Lemma phys_of_user_page m p f k :
  zlookup (pagusr_table m) p = Some (user_pte f) → 0 ≤ f < 2 ^ 20 → 0 ≤ k < PAGE_SIZE →
  phys_of m (PAGE_SIZE * p + k) = Some (f * PAGE_SIZE + k).
Proof.
  intros Hp ? ?. unfold phys_of. rewrite shiftr_page, Hp by done.
  by rewrite user_pte_present, user_pte_pbase, mod_page.
Qed.

(** ** The copy routines. *)

Section CopyRule.
Context {S : Type} (rd : Z → M S Z) (wr : Z → Z → M S unit).
Context (src : Z → Z) (n : Z) (I : Z → S → Prop) (X : S → Prop).
(** [I k] holds when the first [k] bytes are copied; the bytes from the
    [k]th on can still be read and the [k]th written. *)
Hypothesis read_ok : ∀ k i s, 0 ≤ k ≤ i → i < n → I k s →
  wp (rd i) s (λ b s', b = src i ∧ I k s') X.
Hypothesis write_ok : ∀ i s, 0 ≤ i < n → I i s → wp (wr i (src i)) s (λ _, I (i + 1)) X.

Lemma wp_read k i s Q :
  0 ≤ k ≤ i → i < n → I k s → (∀ s', I k s' → Q (src i) s') → wp (rd i) s Q X.
Proof.
  intros ? ? HI HQ. eapply wp_mono; [by apply (read_ok k i s) | | done].
  intros b s' [-> ?]. auto.
Qed.

Lemma wp_write i s Q :
  0 ≤ i < n → I i s → (∀ u s', I (i + 1) s' → Q u s') → wp (wr i (src i)) s Q X.
Proof. intros ? ? HQ. eapply wp_mono; [by apply write_ok | | done]. auto. Qed.

Lemma wp_copy_dword k s Q :
  0 ≤ k → k + 4 ≤ n → I k s → (∀ u s', I (k + 4) s' → Q u s') →
  wp (copy_dword rd wr k) s Q X.
Proof.
  intros ? ? HI HQ. unfold copy_dword.
  do 4 (apply wp_bind; eapply (wp_read k); [lia..|done|]; clear dependent s; intros s HI).
  apply wp_bind, wp_write; [lia|done|]. clear dependent s; intros [] s HI.
  apply wp_bind, wp_write; [lia|done|]. clear dependent s; intros [] s HI.
  apply wp_bind, wp_write; [lia| |]; [by replace (k + 2) with (k + 1 + 1) by lia|].
  clear dependent s; intros [] s HI.
  apply wp_write; [lia| |]; [by replace (k + 3) with (k + 2 + 1) by lia|].
  clear dependent s; intros [] s HI. apply HQ. by replace (k + 4) with (k + 3 + 1) by lia.
Qed.

Lemma wp_copy_data s Q :
  0 ≤ n → I 0 s → (∀ u s', I n s' → Q u s') → wp (copy_data rd wr n) s Q X.
Proof.
  intros Hn HI HQ. unfold copy_data. apply wp_bind.
  eapply (wp_loop (λ '(k, r) s', 0 ≤ k ∧ 0 ≤ r ∧ k + r = n ∧ I k s') (λ '(_, r), r)).
  { split_and!; done || lia. }
  { simpl. lia. }
  clear dependent s. intros [k r] s (? & ? & ? & HI). split; [done|]. case_bool_decide.
  { apply wp_bind, wp_copy_dword; [lia|lia|done|]. intros u s' ?.
    apply wp_ret. split_and!; done || lia. }
  apply wp_ret.
  eapply (wp_loop (λ '(k, r) s', 0 ≤ k ∧ 0 ≤ r ∧ k + r = n ∧ I k s') (λ '(_, r), r)).
  { split_and!; done || lia. }
  { simpl. lia. }
  clear dependent s k r. intros [k r] s (? & ? & ? & HI). split; [done|].
  case_bool_decide.
  - apply wp_bind, wp_bind. eapply (wp_read k); [lia|lia|done|]. clear dependent s.
    intros s HI. apply wp_write; [lia|done|]. intros u s' ?.
    apply wp_ret. split_and!; done || lia.
  - apply wp_ret. replace r with 0 in * by lia. apply HQ. by replace n with k by lia.
Qed.
End CopyRule.

(** Copying between two ranges of logical memory that map to disjoint physical
    bytes, the destination without aliases. *)
Lemma wp_copy_memory start dest n m (ps pd : Z → Z) Q X :
  0 ≤ n →
  (∀ i, 0 ≤ i < n → phys_of m (start + i) = Some (ps i)) →
  (∀ i, 0 ≤ i < n → phys_of m (dest + i) = Some (pd i)) →
  (∀ i j, 0 ≤ i < n → 0 ≤ j < n → ps i ≠ pd j) →
  (∀ i j, 0 ≤ i < n → 0 ≤ j < n → pd i = pd j → i = j) →
  (∀ r, (∀ i, 0 ≤ i < n → ram_byte (set_ram r m) (pd i) = ram_byte m (ps i)) →
        (∀ pa, (∀ i, 0 ≤ i < n → pa ≠ pd i) → ram_byte (set_ram r m) pa = ram_byte m pa) →
        Q () (set_ram r m)) →
  wp (copy_data (λ i, load_byte (start + i)) (λ i, store_byte (dest + i)) n) m Q X.
Proof.
  intros Hn Hps Hpd Hdisj Hinj HQ.
  pose (I := λ k m', ∃ r, m' = set_ram r m ∧
    (∀ i, 0 ≤ i < k → ram_byte m' (pd i) = ram_byte m (ps i)) ∧
    (∀ pa, (∀ i, 0 ≤ i < k → pa ≠ pd i) → ram_byte m' pa = ram_byte m pa)).
  apply (wp_copy_data _ _ (λ i, ram_byte m (ps i)) n I).
  - intros k i s ? ? (r & -> & Hc & Hu).
    eapply wp_load_byte; [unfold byte_at; rewrite phys_of_set_ram, Hps by lia; done|].
    split; [|by exists r]. apply Hu. intros j ?. apply Hdisj; lia.
  - intros i s ? (r & -> & Hc & Hu).
    eapply wp_store_byte; [rewrite phys_of_set_ram; by apply Hpd|].
    eexists. split; [done|]. split.
    + intros j ?. rewrite ram_byte_insert. case_decide as Hij.
      * by apply Hinj in Hij as ->; [|lia..].
      * apply Hc. destruct (decide (i = j)) as [->|]; [done|lia].
    + intros pa Hpa. rewrite ram_byte_insert, decide_False by (intros <-; by apply (Hpa i); [lia|]).
      apply Hu. intros j ?. apply Hpa. lia.
  - done.
  - exists (ram m). split_and!; [by destruct m|lia|by destruct m].
  - intros [] m' (r & -> & ? & ?). by apply HQ.
Qed.

(** A whole page, from the frame of one logical page to that of another. *)
Lemma wp_copy_page p q f g m Q X :
  zlookup (pagusr_table m) p = Some (user_pte f) → 0 ≤ f < 2 ^ 20 →
  zlookup (pagusr_table m) q = Some (user_pte g) → 0 ≤ g < 2 ^ 20 → f ≠ g →
  (∀ r, (∀ k, 0 ≤ k < PAGE_SIZE →
           ram_byte (set_ram r m) (g * PAGE_SIZE + k) = ram_byte m (f * PAGE_SIZE + k)) →
        (∀ h k, h ≠ g → 0 ≤ k < PAGE_SIZE →
           ram_byte (set_ram r m) (h * PAGE_SIZE + k) = ram_byte m (h * PAGE_SIZE + k)) →
        Q () (set_ram r m)) →
  wp (copy_data (λ i, load_byte (PAGE_SIZE * p + i)) (λ i, store_byte (PAGE_SIZE * q + i))
       PAGE_SIZE) m Q X.
Proof.
  intros Hp ? Hq ? Hfg HQ.
  apply (wp_copy_memory _ _ _ _ (λ k, f * PAGE_SIZE + k) (λ k, g * PAGE_SIZE + k));
    try (intros; by apply phys_of_user_page); unfold PAGE_SIZE in *; try lia.
  intros r Hc Hu. apply HQ; [done|]. intros h k ? ?. apply Hu. lia.
Qed.
