(* ===== verification/Utils.v ===== *)
(** * [utils.c] and [stdio.c]: strings, decimal conversion and the checks on
    user pointers. *)
From S2P Require Import Prelude Mm.

(** ** [strlen], [strcmp], [itoa].

    The arguments are pointers: [rd i] reads the character at index [i] of a
    string, [wr i] writes it.  An address space has 2^22 bytes (see
    [translate]), so a scan of it ends within [STRING_FUEL] steps. *)
Definition STRING_FUEL : nat := Datatypes.S (Z.to_nat (2 ^ 22)).

Section Strings.
Context {S : Type}.

Definition strlen (rd : Z → M S Z) : M S Z :=
  loop STRING_FUEL (λ i,
    let! c := rd i in
    if bool_decide (c ≠ 0) then ret (inl (i + 1)) else ret (inr i)) 0.

Definition strcmp (rd1 rd2 : Z → M S Z) : M S Z :=
  loop STRING_FUEL (λ i,
    let! a := rd1 i in
    let! b := rd2 i in
    if bool_decide (a = b) then
      if bool_decide (a = 0) then ret (inr 0) else ret (inl (i + 1))
    else if bool_decide (u8 a < u8 b) then ret (inr (-1)) else ret (inr 1)) 0.

(** An [int] has at most ten decimal digits. *)
Definition ITOA_FUEL : nat := 32.

Definition itoa (num : Z) (wr : Z → Z → M S unit) : M S unit :=
  let! i := loop ITOA_FUEL (λ '(i, digits),
    if bool_decide (digits > 0) then ret (inl (i + 1, Z.quot digits 10))
    else ret (inr i)) (0, num) in
  loop ITOA_FUEL (λ '(i, num),
    if bool_decide (i > 0) then
      wr (i - 1) (Z.rem num 10 + 48);; ret (inl (i - 1, Z.quot num 10))
    else ret (inr ())) (i, num).
End Strings.

(** ** [check_address] and [access_ok]. *)

(** Every comparison is between [unsigned int]s. *)
Definition check_address (addr size : Z) : Z :=
  let max_bytes := u32 ((NUM_PAG_CODE + NUM_PAG_DATA) * PAGE_SIZE) in
  let min_usr_addr := L_USER_START in
  let max_usr_addr := u32 (L_USER_START + max_bytes) in
  if bool_decide (u32 addr < min_usr_addr) || bool_decide (u32 addr > max_usr_addr)
     || bool_decide (u32 size > max_bytes)
  then 0 else 1.

(** [addr_loc] is [&addr], the address of the parameter on the kernel stack:
    the source takes the address of [addr], and [&&] for [&]. *)
Definition access_ok (addr_loc type addr size : Z) : M mm_state Z :=
  if bool_decide (addr = 0) then ret 0
  else if bool_decide (u32 size < 0) then ret 0
  else if bool_decide (Z.shiftr (s32 addr_loc) 22 > ENTRY_DIR_PAGES) then ret 0
  else if bool_decide (check_address addr size = 0) then ret 0
  else
    let min_page := if bool_decide (u32 addr_loc ≠ 0 ∧ 0x003ff000 ≠ 0) then 1 else 0 in
    let max_page := s32 (Z.shiftr (u32 (min_page + size)) 12) in
    let min_page := Z.shiftr min_page 12 in
    let both (field : Z → Z) : M mm_state bool :=
      let! lo := aget PageTable min_page in
      if bool_decide (field lo = 1) then
        let! hi := aget PageTable max_page in ret (bool_decide (field hi = 1))
      else ret false in
    if bool_decide (type = 0) then
      let! ok := both present in ret (if (ok : bool) then 1 else 0)
    else if bool_decide (type = 1) then
      let! ok := both present in
      if (ok : bool) then let! ok := both rw in ret (if (ok : bool) then 1 else 0)
      else ret 0
    else ret 0.
