(* ===== verification/Io.v ===== *)
(** * [io.c]: the text screen. *)
From S2P Require Import Prelude.

Definition NUM_COLUMNS : Z := 80.
Definition NUM_ROWS : Z := 25.
Definition SCREEN : Z := 0xb8000.

(** The cursor ([Byte x, y]), the words stored in video memory by address, and
    the bytes sent to port 0xe9. *)
Record io_state : Type := MkIo { x : Z; y : Z; video : gmap Z Z; port_e9 : list Z }.

Definition set_x v s := MkIo v (y s) (video s) (port_e9 s).
Definition set_y v s := MkIo (x s) v (video s) (port_e9 s).
Definition set_video v s := MkIo (x s) (y s) v (port_e9 s).
Definition set_port_e9 v s := MkIo (x s) (y s) (video s) v.
Definition CursorX : lens io_state Z := Lens x set_x.
Definition CursorY : lens io_state Z := Lens y set_y.
Definition Video : lens io_state (gmap Z Z) := Lens video set_video.
Definition PortE9 : lens io_state (list Z) := Lens port_e9 set_port_e9.

(** [Byte x, y=15;] *)
Definition io_init : io_state := MkIo 0 15 ∅ [].

Definition cell (col row : Z) : Z := u32 (SCREEN + (row * NUM_COLUMNS + col) * 2).
Definition glyph (c : Z) : Z := Z.lor (u16 (Z.land c 0x00FF)) 0x0200.

Definition printc (c : Z) : M io_state unit :=
  (if bool_decide (c = 10) then
     put CursorX 0;;
     modify CursorY (λ y, u8 (y + 1))
   else
     let ch := glyph c in
     let! cx := get CursorX in
     let! cy := get CursorY in
     let screen := cell cx cy in
     modify CursorX (λ x, u8 (x + 1));;
     (let! cx := get CursorX in
      if bool_decide (NUM_COLUMNS ≤ cx) then
        put CursorX 0;;
        modify CursorY (λ y, u8 (y + 1));;
        let! cy := get CursorY in
        if bool_decide (NUM_ROWS ≤ cy) then put CursorY 0 else ret ()
      else ret ());;
     modify Video (<[screen := ch]>));;
  modify PortE9 (λ l, l ++ [u8 c]).

(** The string is the characters up to the terminating null. *)
Fixpoint printk (s : list Z) : M io_state unit :=
  match s with
  | [] => ret ()
  | c :: s => if bool_decide (c = 0) then ret () else printc c;; printk s
  end.

Definition printc_xy (col row c : Z) : M io_state unit :=
  modify Video (<[cell col row := glyph c]>).

Fixpoint printk_xy (col row : Z) (s : list Z) : M io_state unit :=
  match s with
  | [] => ret ()
  | c :: s => if bool_decide (c = 0) then ret ()
              else printc_xy col row c;; printk_xy (col + 1) row s
  end.

Definition clean_line (row : Z) : M io_state unit :=
  for_range 0 NUM_COLUMNS (λ i, printc_xy i row 0).
