(* ===== verification/Fs.v ===== *)
(** * [filesystem.c], [include/filesystem.h]: the RAM disk, its allocation
    table (ZeOSFat), the directory and the table of open files. *)
From S2P Require Import Prelude Mm Utils.

Definition O_RDONLY : Z := 0x1.
Definition O_WRONLY : Z := 0x2.
Definition O_RDWR : Z := 0x3.
Definition O_CREAT : Z := 0x4.
Definition O_EXCL : Z := 0x8.
Definition MAX_BLOCKS : Z := 80.
Definition BLOCK_SIZE : Z := 256.
Definition MAX_FILES : Z := 10.
Definition MAX_NAME_LENGTH : Z := 10.
Definition MAX_OPEN_FILES : Z := 15.

(** [errno.h] *)
Definition EPERM : Z := 1.
Definition ENOENT : Z := 2.
Definition ESRCH : Z := 3.
Definition EINTR : Z := 4.
Definition EBADF : Z := 9.
Definition EAGAIN : Z := 11.
Definition EACCES : Z := 13.
Definition EFAULT : Z := 14.
Definition EBUSY : Z := 16.
Definition EEXIST : Z := 17.
Definition EINVAL : Z := 22.
Definition ENFILE : Z := 23.
Definition EMFILE : Z := 24.
Definition EFBIG : Z := 27.
Definition ENOSPC : Z := 28.
Definition ENAMETOOLONG : Z := 36.
Definition ENOSYS : Z := 38.
Definition ECHRNG : Z := 44.

(** ** Data. *)

(** The device dependent routines a function pointer can designate; no device
    implements [sys_open_dev] or [sys_close_dev]. *)
Inductive read_routine : Type := Sys_read_keyboard | Sys_read_file.
Inductive write_routine : Type := Sys_write_console | Sys_write_file.
Inductive release_routine : Type := Sys_release_file.
Inductive no_routine : Type := .

#[export] Instance read_routine_eq_dec : EqDecision read_routine.
Proof. solve_decision. Defined.
#[export] Instance write_routine_eq_dec : EqDecision write_routine.
Proof. solve_decision. Defined.
#[export] Instance release_routine_eq_dec : EqDecision release_routine.
Proof. solve_decision. Defined.
#[export] Instance no_routine_eq_dec : EqDecision no_routine.
Proof. intros []. Defined.

(** [None] is the null pointer. *)
Record file_operations : Type := FileOperations {
  sys_open_dev : option no_routine;
  sys_close_dev : option no_routine;
  sys_read_dev : option read_routine;
  sys_write_dev : option write_routine;
  sys_release_dev : option release_routine;
}.
Definition no_operations : file_operations := FileOperations None None None None None.

(** [operations] is the record it points to: [init_dir] sets it to [&ops[i]]
    in entry [i], for good. *)
Record file : Type := File {
  name : list Z;
  access_mode_allow : Z;
  operations : file_operations;
  first_block : Z;
  n_blocks : Z;
  size : Z;
  n_refs : Z;
}.

(** [logic_dev] points into [dir]: its index, or null. *)
Record virtual : Type := Virtual {
  access_mode : Z;
  refs : Z;
  offset : Z;
  logic_dev : option Z;
}.

(** [struct file *]: an entry of [dir], or a small negative number cast to a
    pointer. *)
Inductive file_ptr : Type :=
| DirEntry (i : Z)
| ErrPtr (e : Z).

Record fs_state : Type := MkFs {
  fat : list Z;
  ffb : Z;
  disk : list (list Z);
  dir : list file;
  fdt : list virtual;
}.

Definition set_fat v s := MkFs v (ffb s) (disk s) (dir s) (fdt s).
Definition set_ffb v s := MkFs (fat s) v (disk s) (dir s) (fdt s).
Definition set_disk v s := MkFs (fat s) (ffb s) v (dir s) (fdt s).
Definition set_dir v s := MkFs (fat s) (ffb s) (disk s) v (fdt s).
Definition set_fdt v s := MkFs (fat s) (ffb s) (disk s) (dir s) v.
Definition Fat : lens fs_state (list Z) := Lens fat set_fat.
Definition Ffb : lens fs_state Z := Lens ffb set_ffb.
Definition Disk : lens fs_state (list (list Z)) := Lens disk set_disk.
Definition Dir : lens fs_state (list file) := Lens dir set_dir.
Definition Fdt : lens fs_state (list virtual) := Lens fdt set_fdt.

Definition with_name v f :=
  File v (access_mode_allow f) (operations f) (first_block f) (n_blocks f) (size f) (n_refs f).
Definition with_access_mode_allow v f :=
  File (name f) v (operations f) (first_block f) (n_blocks f) (size f) (n_refs f).
Definition with_operations v f :=
  File (name f) (access_mode_allow f) v (first_block f) (n_blocks f) (size f) (n_refs f).
Definition with_first_block v f :=
  File (name f) (access_mode_allow f) (operations f) v (n_blocks f) (size f) (n_refs f).
Definition with_n_blocks v f :=
  File (name f) (access_mode_allow f) (operations f) (first_block f) v (size f) (n_refs f).
Definition with_size v f :=
  File (name f) (access_mode_allow f) (operations f) (first_block f) (n_blocks f) v (n_refs f).
Definition with_n_refs v f :=
  File (name f) (access_mode_allow f) (operations f) (first_block f) (n_blocks f) (size f) v.

Definition with_access_mode v o := Virtual v (refs o) (offset o) (logic_dev o).
Definition with_refs v o := Virtual (access_mode o) v (offset o) (logic_dev o).
Definition with_offset v o := Virtual (access_mode o) (refs o) v (logic_dev o).
Definition with_logic_dev v o := Virtual (access_mode o) (refs o) (offset o) v.

Definition with_sys_open_dev v o :=
  FileOperations v (sys_close_dev o) (sys_read_dev o) (sys_write_dev o) (sys_release_dev o).
Definition with_sys_close_dev v o :=
  FileOperations (sys_open_dev o) v (sys_read_dev o) (sys_write_dev o) (sys_release_dev o).
Definition with_sys_read_dev v o :=
  FileOperations (sys_open_dev o) (sys_close_dev o) v (sys_write_dev o) (sys_release_dev o).
Definition with_sys_write_dev v o :=
  FileOperations (sys_open_dev o) (sys_close_dev o) (sys_read_dev o) v (sys_release_dev o).
Definition with_sys_release_dev v o :=
  FileOperations (sys_open_dev o) (sys_close_dev o) (sys_read_dev o) (sys_write_dev o) v.

(** Static storage, zero filled. *)
Definition fs_bss : fs_state := MkFs
  (replicate (Z.to_nat MAX_BLOCKS) 0) 0
  (replicate (Z.to_nat MAX_BLOCKS) (replicate (Z.to_nat BLOCK_SIZE) 0))
  (replicate (Z.to_nat MAX_FILES)
    (File (replicate (Z.to_nat MAX_NAME_LENGTH) 0) 0 no_operations 0 0 0 0))
  (replicate (Z.to_nat MAX_OPEN_FILES) (Virtual 0 0 0 None)).

(** Stores to members of [dir[i]], [dir[i].operations], [fdt[i]]. *)
Definition dir_set {A} (setter : A → file → file) (i : Z) (v : A) : M fs_state unit :=
  amodify Dir i (setter v).
Definition op_set {A} (setter : A → file_operations → file_operations) (i : Z) (v : A)
  : M fs_state unit :=
  amodify Dir i (λ f, with_operations (setter v (operations f)) f).
Definition fdt_set {A} (setter : A → virtual → virtual) (i : Z) (v : A) : M fs_state unit :=
  amodify Fdt i (setter v).

(** ** Initialisation. *)

(** [dir[i].name[k] = c] *)
Definition name_set (i k c : Z) : M fs_state unit :=
  let! f := aget Dir i in
  let! _ := of_option (zlookup (name f) k) in
  dir_set with_name i (zinsert k c (name f)).

(** [copy_data(s, dir[i].name, n)], [n] the number of characters of [s]. *)
Definition copy_name (i : Z) (s : list Z) : M fs_state unit :=
  copy_data (λ k, of_option (zlookup s k)) (name_set i) (zlen s).

Definition init_dir : M fs_state unit :=
  for_range 0 MAX_FILES (λ i,
    dir_set with_n_refs i (-1);;
    dir_set with_operations i no_operations);;
  copy_name 0 (chars "KEYBOARD");;
  dir_set with_access_mode_allow 0 O_RDONLY;;
  op_set with_sys_read_dev 0 (Some Sys_read_keyboard);;
  dir_set with_size 0 0;;
  dir_set with_n_refs 0 0;;
  copy_name 1 (chars "DISPLAY");;
  dir_set with_access_mode_allow 1 O_WRONLY;;
  op_set with_sys_write_dev 1 (Some Sys_write_console);;
  dir_set with_size 1 0;;
  dir_set with_n_refs 1 0.

Definition init_fdt : M fs_state unit :=
  for_range 0 MAX_OPEN_FILES (λ i,
    fdt_set with_refs i 0;;
    fdt_set with_access_mode i 0;;
    fdt_set with_offset i 0;;
    fdt_set with_logic_dev i None).

Definition initZeosFat : M fs_state unit :=
  put Ffb 0;;
  for_range 0 (MAX_BLOCKS - 1) (λ i, aset Fat i (i + 1));;
  aset Fat (MAX_BLOCKS - 1) (-1).

Definition disk_set (b j v : Z) : M fs_state unit :=
  let! row := aget Disk b in
  let! _ := of_option (zlookup row j) in
  aset Disk b (zinsert j v row).
Definition disk_get (b j : Z) : M fs_state Z :=
  let! row := aget Disk b in of_option (zlookup row j).

Definition init_disk : M fs_state unit :=
  for_range 0 MAX_BLOCKS (λ i, for_range 0 BLOCK_SIZE (λ j, disk_set i j 0)).

Definition init_filesystem : M fs_state unit :=
  init_dir;; init_fdt;; init_disk;; initZeosFat.

(** ** Blocks.

    A walk along a chain visits at most [MAX_BLOCKS] blocks unless the chain
    is cyclic. *)
Definition FAT_FUEL : nat := Datatypes.S (Z.to_nat MAX_BLOCKS).

Definition balloc (nblocks : Z) : M fs_state Z :=
  let! f := get Ffb in
  if bool_decide (f = -1) || bool_decide (nblocks < 1) then ret (-1)
  else
  let! n := aget Fat f in
  if bool_decide (n = -1) then
    if bool_decide (nblocks = 1) then put Ffb (-1);; ret f else ret (-1)
  else
  let first := f in
  put Ffb n;;
  let! '(prev, tot) := loop FAT_FUEL (λ '(prev, tot),
    if bool_decide (tot = nblocks) then ret (inr (prev, tot))
    else
      let! f := get Ffb in
      let! n := aget Fat f in
      if bool_decide (n = -1) then ret (inr (prev, tot))
      else put Ffb n;; ret (inl (f, tot + 1))) (f, 1) in
  let! f := get Ffb in
  let! n := aget Fat f in
  let finish (prev : Z) : M fs_state Z := aset Fat prev (-1);; ret first in
  if bool_decide (n = -1) then
    if bool_decide (nblocks - tot = 1) then put Ffb (-1);; finish f
    else if bool_decide (nblocks - tot > 1) then put Ffb first;; ret (-1)
    else finish prev
  else finish prev.

(** [for (i = start; fat[i] != -1; i = fat[i]);] *)
Definition chain_end (start : Z) : M fs_state Z :=
  loop FAT_FUEL (λ i,
    let! n := aget Fat i in
    if bool_decide (n = -1) then ret (inr i) else ret (inl n)) start.

Definition freeb (index : Z) : M fs_state Z :=
  let! f := get Ffb in
  if bool_decide (MAX_BLOCKS ≤ index) || bool_decide (index < 0) || bool_decide (index = f)
  then ret (-1)
  else if bool_decide (f = -1) then put Ffb index;; ret 0
  else
    let! i := chain_end f in
    aset Fat i index;;
    ret 0.

Definition add_block (last new : Z) : M fs_state unit :=
  aset Fat last new;;
  aset Fat new (-1).

(** [devices.c]: the release routine of a regular file. *)
Definition sys_release_file (entry : Z) : M fs_state Z :=
  let! f := aget Dir entry in
  freeb (first_block f);;
  dir_set with_n_blocks entry 0;;
  dir_set with_size entry 0;;
  ret 0.

(** ** [create_file].

    The path is read from user memory by [rd], in the state [S] of the kernel
    that holds the file system under [L].  The loop condition reads
    [dir[i].n_refs] before it compares [i] with [MAX_FILES]. *)
Section CreateFile.
Context {S : Type} (L : lens S fs_state) (rd : Z → M S Z).

Definition free_entry : M fs_state Z :=
  loop (Datatypes.S (Datatypes.S (Z.to_nat MAX_FILES))) (λ i,
    let! f := aget Dir i in
    if bool_decide (n_refs f ≠ -1) && bool_decide (i < MAX_FILES)
    then ret (inl (i + 1)) else ret (inr i)) 0.

Definition create_file : M S file_ptr :=
  let! i := zoom L free_entry in
  if bool_decide (i = MAX_FILES) then ret (ErrPtr (- ENFILE))
  else
  let! length := strlen rd in
  if bool_decide (length > MAX_NAME_LENGTH - 1) then ret (ErrPtr (- ENAMETOOLONG))
  else
  let! fblock := zoom L (balloc 1) in
  if bool_decide (fblock < 0) then ret (ErrPtr (- ENOSPC))
  else
  copy_from_user rd (λ k c, zoom L (name_set i k c)) length;;
  zoom L (
    (let! f := aget Dir i in
     let! c := of_option (zlookup (name f) length) in
     if bool_decide (c ≠ 0) then name_set i length 0 else ret ());;
    dir_set with_access_mode_allow i O_RDWR;;
    op_set with_sys_open_dev i None;;
    op_set with_sys_close_dev i None;;
    op_set with_sys_read_dev i (Some Sys_read_file);;
    op_set with_sys_write_dev i (Some Sys_write_file);;
    op_set with_sys_release_dev i (Some Sys_release_file);;
    dir_set with_first_block i fblock;;
    dir_set with_size i 0;;
    dir_set with_n_blocks i 1;;
    dir_set with_n_refs i 0);;
  ret (DirEntry i).
End CreateFile.
