(* ===== verification/KState.v ===== *)
(** * The state of the ZeOS kernel: the globals of [sched.h], [keyboard.h],
    [interrupt.h] and the components that own the rest. *)
From S2P Require Import Prelude KList Mm Io Fs.

Definition KERNEL_STACK_SIZE : Z := 1024.
Definition SEM_MAX_VALUE : Z := 26.
Definition MAX_FDS : Z := 10.
Definition CIRCULAR_SIZE : Z := 5.

(** [struct task_struct] ([sched.h]) and the one word of the kernel stack that
    the C code writes: [stack[KERNEL_STACK_SIZE-10]], where the entry point of
    the system saved [%eax].  [req_size] is the member [size]; the member
    [run_list] is the node [RunList] of the list store. *)
Record task_struct : Type := TaskStruct {
  pid : Z;
  quantum : Z;
  cpu_tics : Z;
  remaining : Z;
  transitions : Z;
  ph_pages : list Z;
  owned_sems : list Z;
  pending_chars : Z;
  req_size : Z;
  buffer : Z;
  file_descriptors : list (option Z);
  saved_eax : Z;
}.

Definition t_pid v t := TaskStruct v (quantum t) (cpu_tics t) (remaining t) (transitions t)
  (ph_pages t) (owned_sems t) (pending_chars t) (req_size t) (buffer t) (file_descriptors t) (saved_eax t).
Definition t_quantum v t := TaskStruct (pid t) v (cpu_tics t) (remaining t) (transitions t)
  (ph_pages t) (owned_sems t) (pending_chars t) (req_size t) (buffer t) (file_descriptors t) (saved_eax t).
Definition t_cpu_tics v t := TaskStruct (pid t) (quantum t) v (remaining t) (transitions t)
  (ph_pages t) (owned_sems t) (pending_chars t) (req_size t) (buffer t) (file_descriptors t) (saved_eax t).
Definition t_remaining v t := TaskStruct (pid t) (quantum t) (cpu_tics t) v (transitions t)
  (ph_pages t) (owned_sems t) (pending_chars t) (req_size t) (buffer t) (file_descriptors t) (saved_eax t).
Definition t_transitions v t := TaskStruct (pid t) (quantum t) (cpu_tics t) (remaining t) v
  (ph_pages t) (owned_sems t) (pending_chars t) (req_size t) (buffer t) (file_descriptors t) (saved_eax t).
Definition t_ph_pages v t := TaskStruct (pid t) (quantum t) (cpu_tics t) (remaining t) (transitions t)
  v (owned_sems t) (pending_chars t) (req_size t) (buffer t) (file_descriptors t) (saved_eax t).
Definition t_owned_sems v t := TaskStruct (pid t) (quantum t) (cpu_tics t) (remaining t) (transitions t)
  (ph_pages t) v (pending_chars t) (req_size t) (buffer t) (file_descriptors t) (saved_eax t).
Definition t_pending_chars v t := TaskStruct (pid t) (quantum t) (cpu_tics t) (remaining t) (transitions t)
  (ph_pages t) (owned_sems t) v (req_size t) (buffer t) (file_descriptors t) (saved_eax t).
Definition t_req_size v t := TaskStruct (pid t) (quantum t) (cpu_tics t) (remaining t) (transitions t)
  (ph_pages t) (owned_sems t) (pending_chars t) v (buffer t) (file_descriptors t) (saved_eax t).
Definition t_buffer v t := TaskStruct (pid t) (quantum t) (cpu_tics t) (remaining t) (transitions t)
  (ph_pages t) (owned_sems t) (pending_chars t) (req_size t) v (file_descriptors t) (saved_eax t).
Definition t_file_descriptors v t := TaskStruct (pid t) (quantum t) (cpu_tics t) (remaining t) (transitions t)
  (ph_pages t) (owned_sems t) (pending_chars t) (req_size t) (buffer t) v (saved_eax t).
Definition t_saved_eax v t := TaskStruct (pid t) (quantum t) (cpu_tics t) (remaining t) (transitions t)
  (ph_pages t) (owned_sems t) (pending_chars t) (req_size t) (buffer t) (file_descriptors t) v.

(** [struct semaphore]; its [wait_list] is the node [WaitList]. *)
Record semaphore : Type := Semaphore { count : Z; init : Z }.
Definition s_count v (s : semaphore) := Semaphore v (init s).
Definition s_init v (s : semaphore) := Semaphore (count s) v.

(** [keyboard.h]; [kbd_p] is the variable [p]. *)
Record kbd_state : Type := MkKbd { circular : list Z; circ_chars : Z; kbd_p : Z; start : Z }.
Definition set_circular v k := MkKbd v (circ_chars k) (kbd_p k) (start k).
Definition set_circ_chars v k := MkKbd (circular k) v (kbd_p k) (start k).
Definition set_kbd_p v k := MkKbd (circular k) (circ_chars k) v (start k).
Definition set_start v k := MkKbd (circular k) (circ_chars k) (kbd_p k) v.

(** The scheduler's variables.  [cur] is the task whose kernel stack [%esp]
    is in; [pid_counter] is the global [pid]; [in_service] says that the
    interrupt controller waits for an end of interrupt; [task_addr] is the
    address the linker gave to [task]. *)
Record sched_state : Type := MkSched {
  cur : Z;
  pid_counter : Z;
  it_is_int : Z;
  left4current : Z;
  tics : Z;
  esp0 : Z;
  in_service : bool;
  task_addr : Z;
}.
Definition set_cur v s := MkSched v (pid_counter s) (it_is_int s) (left4current s)
  (tics s) (esp0 s) (in_service s) (task_addr s).
Definition set_pid_counter v s := MkSched (cur s) v (it_is_int s) (left4current s)
  (tics s) (esp0 s) (in_service s) (task_addr s).
Definition set_it_is_int v s := MkSched (cur s) (pid_counter s) v (left4current s)
  (tics s) (esp0 s) (in_service s) (task_addr s).
Definition set_left4current v s := MkSched (cur s) (pid_counter s) (it_is_int s) v
  (tics s) (esp0 s) (in_service s) (task_addr s).
Definition set_tics v s := MkSched (cur s) (pid_counter s) (it_is_int s) (left4current s)
  v (esp0 s) (in_service s) (task_addr s).
Definition set_esp0 v s := MkSched (cur s) (pid_counter s) (it_is_int s) (left4current s)
  (tics s) v (in_service s) (task_addr s).
Definition set_in_service v s := MkSched (cur s) (pid_counter s) (it_is_int s)
  (left4current s) (tics s) (esp0 s) v (task_addr s).

Record kstate : Type := MkK {
  task : list task_struct;
  sched : sched_state;
  sem : list semaphore;
  lists : links;
  mm : mm_state;
  fs : fs_state;
  kbd : kbd_state;
  io : io_state;
}.
Definition set_task v k := MkK v (sched k) (sem k) (lists k) (mm k) (fs k) (kbd k) (io k).
Definition set_sched v k := MkK (task k) v (sem k) (lists k) (mm k) (fs k) (kbd k) (io k).
Definition set_sem v k := MkK (task k) (sched k) v (lists k) (mm k) (fs k) (kbd k) (io k).
Definition set_lists v k := MkK (task k) (sched k) (sem k) v (mm k) (fs k) (kbd k) (io k).
Definition set_mm v k := MkK (task k) (sched k) (sem k) (lists k) v (fs k) (kbd k) (io k).
Definition set_fs v k := MkK (task k) (sched k) (sem k) (lists k) (mm k) v (kbd k) (io k).
Definition set_kbd v k := MkK (task k) (sched k) (sem k) (lists k) (mm k) (fs k) v (io k).
Definition set_io v k := MkK (task k) (sched k) (sem k) (lists k) (mm k) (fs k) (kbd k) v.

Definition Task : lens kstate (list task_struct) := Lens task set_task.
Definition Sched : lens kstate sched_state := Lens sched set_sched.
Definition Sem : lens kstate (list semaphore) := Lens sem set_sem.
Definition Lists : lens kstate links := Lens lists set_lists.
Definition MM : lens kstate mm_state := Lens mm set_mm.
Definition FS : lens kstate fs_state := Lens fs set_fs.
Definition Kbd : lens kstate kbd_state := Lens kbd set_kbd.
Definition IO : lens kstate io_state := Lens io set_io.

Definition Cur : lens kstate Z := Sched ▷ Lens cur set_cur.
Definition PidCounter : lens kstate Z := Sched ▷ Lens pid_counter set_pid_counter.
Definition ItIsInt : lens kstate Z := Sched ▷ Lens it_is_int set_it_is_int.
Definition Left4current : lens kstate Z := Sched ▷ Lens left4current set_left4current.
Definition Tics : lens kstate Z := Sched ▷ Lens tics set_tics.
Definition Esp0 : lens kstate Z := Sched ▷ Lens esp0 set_esp0.
Definition InService : lens kstate bool := Sched ▷ Lens in_service set_in_service.
Definition Circular : lens kstate (list Z) := Kbd ▷ Lens circular set_circular.
Definition CircChars : lens kstate Z := Kbd ▷ Lens circ_chars set_circ_chars.
Definition KbdP : lens kstate Z := Kbd ▷ Lens kbd_p set_kbd_p.
Definition Start : lens kstate Z := Kbd ▷ Lens start set_start.

Abbreviation K := (M kstate).

(** ** Stores to members, and the current task. *)

Definition task_set {A} (setter : A → task_struct → task_struct) (i : Z) (v : A) : K unit :=
  amodify Task i (setter v).
Definition sem_set {A} (setter : A → semaphore → semaphore) (i : Z) (v : A) : K unit :=
  amodify Sem i (setter v).

(** [current()]: [%esp & 0xfffff000], the page of the running task. *)
Definition current : K Z := get Cur.
Definition cur_task : K task_struct := let! c := current in aget Task c.

(** The address of the union of task [i], and of the end of its stack. *)
Definition union_addr (task_addr i : Z) : Z := u32 (task_addr + SIZEOF_PROTECTED_TASK * i + PAGE_SIZE).
Definition stack_end (task_addr i : Z) : Z := u32 (union_addr task_addr i + 4 * KERNEL_STACK_SIZE).

(** An automatic array: it lives as long as the call. *)
Definition with_local {S T A} (l0 : T) (m : M (S * T) A) : M S A := λ s,
  match m (s, l0) with
  | Ret a (s', _) => Ret a s'
  | Switched (s', _) => Switched s'
  | Halted (s', _) => Halted s'
  | Diverged => Diverged
  | Fault => Fault
  end.
Definition Global {S T} : lens (S * T) S := Lens fst (λ s p, (s, p.2)).
Definition Local_ {S T} : lens (S * T) T := Lens snd (λ t p, (p.1, t)).

(** Static storage at boot; the list nodes exist with null pointers. *)
Definition task_bss : task_struct := TaskStruct 0 0 0 0 0
  (replicate (Z.to_nat NUM_PAG_DATA) 0) (replicate (Z.to_nat SEM_MAX_VALUE) 0) 0 0 0
  (replicate (Z.to_nat MAX_FDS) None) 0.
Definition all_nodes : list node :=
  Runqueue :: KeyboardQueue :: (WaitList <$> seqZ 0 SEM_MAX_VALUE) ++ (RunList <$> seqZ 0 NR_TASKS).
Definition links_bss : links := list_to_map ((λ n, (n, ListHead None None)) <$> all_nodes).
Definition kstate_bss (task_addr : Z) : kstate := MkK
  (replicate (Z.to_nat NR_TASKS) task_bss)
  (MkSched 0 0 0 0 0 0 false task_addr)
  (replicate (Z.to_nat SEM_MAX_VALUE) (Semaphore 0 0))
  links_bss mm_bss fs_bss
  (MkKbd (replicate (Z.to_nat CIRCULAR_SIZE) 0) 0 0 0) io_init.

#[export] Instance Task_laws : LensLaws Task. Proof. solve_lens. Qed.
#[export] Instance Sched_laws : LensLaws Sched. Proof. solve_lens. Qed.
#[export] Instance Sem_laws : LensLaws Sem. Proof. solve_lens. Qed.
#[export] Instance Lists_laws : LensLaws Lists. Proof. solve_lens. Qed.
#[export] Instance MM_laws : LensLaws MM. Proof. solve_lens. Qed.
#[export] Instance FS_laws : LensLaws FS. Proof. solve_lens. Qed.
#[export] Instance Kbd_laws : LensLaws Kbd. Proof. solve_lens. Qed.
#[export] Instance IO_laws : LensLaws IO. Proof. solve_lens. Qed.

(** Actions under an automatic array respect what their global part does. *)
Definition on_global {S T} (R : S → S → Prop) (p p' : S * T) : Prop := R p.1 p'.1.
#[export] Instance on_global_preorder {S T} (R : S → S → Prop) :
  PreOrder R → PreOrder (@on_global S T R).
Proof.
  intros ?. unfold on_global. split; [intros p; reflexivity|].
  intros p1 p2 p3 ? ?. by transitivity p2.1.
Qed.

Section Locals.
Context {S T : Type} (R : S → S → Prop) `{!PreOrder R}.

Lemma respects_with_local {A} (l0 : T) (m : M (S * T) A) :
  respects (on_global R) m → respects R (with_local l0 m).
Proof.
  intros Hm s. specialize (Hm (s, l0)). unfold with_local.
  by destruct (m (s, l0)) as [? []|[]|[]| |].
Qed.
Lemma respects_Global {A} (m : M S A) :
  respects R m → respects (@on_global S T R) (zoom Global m).
Proof. intros Hm. apply (respects_zoom _ R); [done | done]. Qed.
Lemma respects_Local {A} (m : M T A) :
  respects anything m → respects (@on_global S T R) (zoom Local_ m).
Proof.
  apply (respects_zoom _ anything).
  intros s t _. unfold on_global. simpl. reflexivity.
Qed.
End Locals.
