(* ===== verification/Sched.v ===== *)
(** * [sched.c]: processes and the round robin scheduler. *)
From S2P Require Import Prelude KList Mm Io Fs KState.

Definition RunqueueP : ptr := Some Runqueue.
Definition KeyboardQueueP : ptr := Some KeyboardQueue.
Definition WaitListP (n_sem : Z) : ptr := Some (WaitList n_sem).
Definition RunListP (t : Z) : ptr := Some (RunList t).

Definition init_sched : K unit :=
  zoom Lists (INIT_LIST_HEAD RunqueueP);;
  zoom Lists (INIT_LIST_HEAD KeyboardQueueP);;
  put PidCounter 0;;
  put ItIsInt 0;;
  for_range 0 NR_TASKS (λ i, task_set t_pid i (-1)).

(** [l - offsetof(struct task_struct, run_list)]: of a head it is no task. *)
Definition list_head_to_task_struct (l : ptr) : K Z :=
  match l with Some (RunList i) => ret i | _ => fault end.

(** [task[i].owned_sems[j] = v], [task[i].ph_pages[j] = v],
    [task[i].file_descriptors[j] = v] *)
Definition owned_sems_set (i j v : Z) : K unit :=
  let! t := aget Task i in
  let! _ := of_option (zlookup (owned_sems t) j) in
  task_set t_owned_sems i (zinsert j v (owned_sems t)).
Definition ph_pages_set (i j v : Z) : K unit :=
  let! t := aget Task i in
  let! _ := of_option (zlookup (ph_pages t) j) in
  task_set t_ph_pages i (zinsert j v (ph_pages t)).
Definition fd_set (i j : Z) (v : option Z) : K unit :=
  let! t := aget Task i in
  let! _ := of_option (zlookup (file_descriptors t) j) in
  task_set t_file_descriptors i (zinsert j v (file_descriptors t)).

Definition init_task0 : K unit :=
  zoom MM initialize_P0_frames;;
  zoom MM set_user_pages;;
  zoom MM set_cr3;;
  (let! p := get PidCounter in put PidCounter (s32 (p + 1));; task_set t_pid 0 p);;
  task_set t_quantum 0 60;;
  task_set t_cpu_tics 0 0;;
  (let! t := aget Task 0 in task_set t_remaining 0 (quantum t));;
  task_set t_transitions 0 1;;
  (let! t := aget Task 0 in put Left4current (quantum t));;
  for_range 0 NUM_PAG_DATA (λ i, let! f := zoom MM alloc_frame in ph_pages_set 0 i f);;
  for_range 0 SEM_MAX_VALUE (λ i, owned_sems_set 0 i (-1));;
  for_range 3 MAX_FDS (λ i, fd_set 0 i None);;
  zoom FS (
    fdt_set with_refs 0 1;;
    fdt_set with_access_mode 0 O_RDONLY;;
    fdt_set with_offset 0 0;;
    fdt_set with_logic_dev 0 (Some 0);;
    dir_set with_n_refs 0 1;;
    fdt_set with_refs 1 1;;
    fdt_set with_access_mode 1 O_WRONLY;;
    fdt_set with_offset 1 0;;
    fdt_set with_logic_dev 1 (Some 1);;
    dir_set with_n_refs 1 1);;
  fd_set 0 0 (Some 0);;
  fd_set 0 1 (Some 1);;
  fd_set 0 2 (Some 1);;
  zoom Lists (list_add (RunListP 0) RunqueueP).

Definition srch_free_task : K Z :=
  let! i := search_range 0 NR_TASKS (λ i,
    let! t := aget Task i in ret (bool_decide (¬ pid t < 0))) in
  ret (if bool_decide (i < NR_TASKS) then i else -1).

(** An end of interrupt to the interrupt controller. *)
Definition EOI : K unit := put InService false.

(** Never returns: the last instruction is the [IRET] that resumes [t]. *)
Definition task_switch (t : Z) : K unit :=
  (let! v := aget Task t in task_set t_transitions t (s32 (transitions v + 1)));;
  (let! v := aget Task t in put Left4current (quantum v));;
  (let! v := aget Task t in task_set t_remaining t (quantum v));;
  modify Sched (λ s, set_esp0 (stack_end (task_addr s) t) s);;
  loop (Datatypes.S (Z.to_nat NUM_PAG_DATA)) (λ i,
    if bool_decide (i < NUM_PAG_DATA) then
      let! v := aget Task t in
      let! f := of_option (zlookup (ph_pages v) i) in
      if bool_decide (f ≠ -1) then
        zoom MM (set_ss_pag (PAG_LOG_INIT_DATA_P0 + i) (u32 f));; ret (inl (i + 1))
      else ret (inr ())
    else ret (inr ())) 0;;
  zoom MM set_cr3;;
  put Cur t;;
  (let! b := get ItIsInt in
   if bool_decide (b = 1) then EOI;; put ItIsInt 0 else ret ());;
  switched.

Definition schedule (from_int : Z) : K unit :=
  let! old_task := current in
  let! left4 := get Left4current in
  if bool_decide (left4 ≤ 0) then
    let! first := zoom Lists (list_first RunqueueP) in
    let! last := zoom Lists (list_last RunqueueP) in
    if bool_decide (first = last) then
      (let! t := aget Task old_task in put Left4current (quantum t));;
      (let! l := get Left4current in task_set t_remaining old_task l)
    else
      (let! t := aget Task old_task in
       if bool_decide (pid t ≠ -1) then
         zoom Lists (list_del (RunListP old_task));;
         zoom Lists (list_add_tail (RunListP old_task) RunqueueP)
       else ret ());;
      let! first := zoom Lists (list_first RunqueueP) in
      let! new_task := list_head_to_task_struct first in
      put ItIsInt from_int;;
      task_switch new_task
  else ret ().
