(* ===== verification/Sem.v ===== *)
(** * The semaphores of [sys.c]. *)
From S2P Require Import Prelude KList Mm Fs KState Sched.

Definition sys_sem_init (n_sem value : Z) : K Z :=
  if bool_decide (n_sem < 0) || bool_decide (SEM_MAX_VALUE ≤ n_sem) then ret (- EINVAL)
  else
  let! s := aget Sem n_sem in
  if bool_decide (init s = 1) then ret (- EBUSY)
  else
  sem_set s_count n_sem value;;
  sem_set s_init n_sem 1;;
  (let! c := current in owned_sems_set c n_sem 1);;
  zoom Lists (INIT_LIST_HEAD (WaitListP n_sem));;
  ret 0.

(** The semaphore is valid and initialised. *)
Definition sem_valid (n_sem : Z) : K bool :=
  if bool_decide (n_sem < 0) || bool_decide (SEM_MAX_VALUE ≤ n_sem) then ret false
  else let! s := aget Sem n_sem in ret (bool_decide (init s = 1)).

(** [count] is unsigned: it is [<= 0] when it is 0. *)
Definition sys_sem_wait (n_sem : Z) : K Z :=
  let! old_task := current in
  let! t := cur_task in
  if bool_decide (pid t = 0) then ret (- EPERM)
  else
  let! ok := sem_valid n_sem in
  if negb ok then ret (- EINVAL)
  else
  let! s := aget Sem n_sem in
  if bool_decide (count s ≤ 0) then
    zoom Lists (list_del (RunListP old_task));;
    zoom Lists (list_add_tail (RunListP old_task) (WaitListP n_sem));;
    let! first := zoom Lists (list_first RunqueueP) in
    let! new_task := list_head_to_task_struct first in
    put ItIsInt 0;;
    task_switch new_task;;
    ret 0
  else
    sem_set s_count n_sem (u32 (count s - 1));;
    ret 0.

(** Unblocks the first process of the queue; its system call returns [r]. *)
Definition sem_wake (n_sem r : Z) : K unit :=
  let! blocked_task := zoom Lists (list_first (WaitListP n_sem)) in
  zoom Lists (list_del blocked_task);;
  let! blocked := list_head_to_task_struct blocked_task in
  task_set t_saved_eax blocked r;;
  zoom Lists (list_add_tail blocked_task RunqueueP).

Definition sys_sem_signal (n_sem : Z) : K Z :=
  let! ok := sem_valid n_sem in
  if negb ok then ret (- EINVAL)
  else
  let! empty := zoom Lists (list_empty (WaitListP n_sem)) in
  if negb empty then sem_wake n_sem 0;; ret 0
  else
    (let! s := aget Sem n_sem in sem_set s_count n_sem (u32 (count s + 1)));;
    ret 0.

(** At most [NR_TASKS] processes wait. *)
Definition sys_sem_destroy (n_sem : Z) : K Z :=
  let! running := current in
  if bool_decide (n_sem < 0) || bool_decide (SEM_MAX_VALUE ≤ n_sem) then ret (- EINVAL)
  else
  let! s := aget Sem n_sem in
  if bool_decide (init s ≠ 1) then ret (- EINVAL)
  else
  let! t := aget Task running in
  let! own := of_option (zlookup (owned_sems t) n_sem) in
  if bool_decide (own ≠ 1) then ret (- EPERM)
  else
  loop (Datatypes.S (Z.to_nat NR_TASKS)) (λ _,
    let! empty := zoom Lists (list_empty (WaitListP n_sem)) in
    if negb empty then sem_wake n_sem (-1);; ret (inl ()) else ret (inr ())) ();;
  sem_set s_init n_sem 0;;
  owned_sems_set running n_sem (-1);;
  ret 0.
