(* ===== verification/Devices.v ===== *)
(** * [devices.c], [keyboard.h]: the device dependent routines. *)
From S2P Require Import Prelude KList Mm Utils Io Fs KState Sched.

Definition MAX_WRITE_BLOCK : Z := 256.

(** User memory of the current process. *)
Definition uload (addr : Z) : K Z := zoom MM (load_byte addr).
Definition ustore (addr b : Z) : K unit := zoom MM (store_byte addr b).

(** ** The console. *)

Definition sys_write_console (fd buffer size : Z) : K Z :=
  let chunk (from n : Z) : K unit :=
    with_local (replicate (Z.to_nat MAX_WRITE_BLOCK) 0) (
      copy_from_user (λ i, zoom Global (uload (from + i))) (λ i b, aset Local_ i b) n;;
      for_range 0 n (λ j,
        let! c := aget Local_ j in zoom Global (zoom IO (printc c)))) in
  let nloop := Z.quot size MAX_WRITE_BLOCK in
  let out_block := Z.rem size MAX_WRITE_BLOCK in
  let! return_write := loop (Datatypes.S (Z.to_nat nloop)) (λ '(i, return_write),
    if bool_decide (i < nloop) then
      chunk (buffer + i * MAX_WRITE_BLOCK) MAX_WRITE_BLOCK;;
      ret (inl (i + 1, s32 (return_write + MAX_WRITE_BLOCK)))
    else ret (inr return_write)) (0, 0) in
  if bool_decide (out_block ≠ 0) then
    chunk (buffer + (size - out_block)) out_block;;
    ret (s32 (return_write + out_block))
  else ret return_write.

(** ** The keyboard. *)

Definition init_keyboard : K unit :=
  put KbdP 0;; put Start 0;; put CircChars 0.

Definition step_circ_buffer : K unit :=
  let! p := get KbdP in
  if bool_decide (p = CIRCULAR_SIZE - 1) then put KbdP 0 else put KbdP (s32 (p + 1)).

Definition block_into_kbd (t : Z) : K unit :=
  zoom Lists (list_del (RunListP t));;
  zoom Lists (list_add_tail (RunListP t) KeyboardQueueP).

Definition unblock_and_enqueque (t : Z) : K unit :=
  zoom Lists (list_del (RunListP t));;
  zoom Lists (list_add_tail (RunListP t) RunqueueP).

(** Maps the data pages of task [t] after those of the running process. *)
Definition map_after (t : Z) : K unit :=
  for_range 0 NUM_PAG_DATA (λ i,
    let! v := aget Task t in
    let! f := of_option (zlookup (ph_pages v) i) in
    zoom MM (set_ss_pag (PAG_LOG_INIT_DATA_P0 + NUM_PAG_DATA + i) (u32 f))).

Definition copy_from_circ_buffer (blocked size : Z) : K unit :=
  map_after blocked;;
  (let! v := aget Task blocked in
   task_set t_buffer blocked (u32 (buffer v + NUM_PAG_DATA * PAGE_SIZE)));;
  with_local (replicate (Z.to_nat CIRCULAR_SIZE) 0) (
    for_range 0 size (λ i,
      let! st := zoom Global (get Start) in
      let! c := zoom Global (aget Circular (Z.rem (s32 (st + i)) CIRCULAR_SIZE)) in
      aset Local_ i c);;
    let! v := zoom Global (aget Task blocked) in
    copy_to_user (aget Local_) (λ i b, zoom Global (ustore (u32 (buffer v + i)) b)) size);;
  (let! c := current in map_after c);;
  zoom MM set_cr3;;
  (let! v := aget Task blocked in
   task_set t_buffer blocked (u32 (buffer v - NUM_PAG_DATA * PAGE_SIZE))).

Definition sys_read_keyboard (fd buf size : Z) : K Z :=
  let! proc := current in
  (let! n := get CircChars in
   if bool_decide (size > n) then task_set t_pending_chars proc (s32 (size - n))
   else task_set t_pending_chars proc 0);;
  let! t := aget Task proc in
  let! empty := zoom Lists (list_empty KeyboardQueueP) in
  if bool_decide (pending_chars t ≤ 0) && empty then
    copy_from_circ_buffer proc size;;
    modify CircChars (λ n, s32 (n - size));;
    modify Start (λ st, Z.rem (s32 (st + size)) CIRCULAR_SIZE);;
    ret size
  else if bool_decide (pid t ≠ 0) then
    (let! p := get KbdP in put Start p);;
    block_into_kbd proc;;
    task_set t_req_size proc size;;
    task_set t_saved_eax proc size;;
    let! first := zoom Lists (list_first RunqueueP) in
    let! next_proc := list_head_to_task_struct first in
    put ItIsInt 0;;
    task_switch next_proc;;
    ret (- EPERM)
  else ret (- EPERM).

(** ** Regular files. *)

(** [proc->file_descriptors[fd]], dereferenced. *)
Definition open_file_of (fd : Z) : K Z :=
  let! t := cur_task in
  let! p := of_option (zlookup (file_descriptors t) fd) in of_option p.
Definition logic_dev_of (o : Z) : K Z :=
  let! v := zoom FS (aget Fdt o) in of_option (logic_dev v).

(** The write loop on open file [o] of directory entry [d]: [rd i] reads byte
    [i] of the user's buffer.  [Some r] is an early return. *)
Section FileLoops.
Context {S : Type} (L : lens S fs_state).

Definition write_file_step (rd : Z → M S Z) (o d : Z) (st : Z * Z * Z)
  : M S ((Z * Z * Z) + Z) :=
  let '(i, destBlock, destByte) := st in
  let! f := zoom L (aget Dir d) in
  let! '(full, destBlock, destByte) :=
    (if bool_decide (Z.rem (size f) BLOCK_SIZE = 0) && bool_decide (size f ≠ 0) then
       let! newBlock := zoom L (balloc 1) in
       if bool_decide (newBlock = -1) then ret (true, destBlock, destByte)
       else
         zoom L (add_block destBlock newBlock);;
         zoom L (dir_set with_n_blocks d (s32 (n_blocks f + 1)));;
         ret (false, newBlock, 0)
     else ret (false, destBlock, destByte)) in
  if (full : bool) then ret (inr (- ENOSPC))
  else
    let! r := copy_from_user (λ k, rd (i + k)) (λ k b, zoom L (disk_set destBlock (destByte + k) b)) 1 in
    if bool_decide (r ≠ 0) then ret (inr (- EFAULT)) else
    (let! v := zoom L (aget Fdt o) in
     zoom L (fdt_set with_offset o (s32 (offset v + 1)));;
     let! f := zoom L (aget Dir d) in
     if bool_decide (size f < s32 (offset v + 1))
     then zoom L (dir_set with_size d (s32 (size f + 1))) else ret ());;
    ret (inl (i + 1, destBlock, destByte + 1)).

Definition write_file (rd : Z → M S Z) (o d size : Z) : M S Z :=
  let! v := zoom L (aget Fdt o) in
  let! f := zoom L (aget Dir d) in
  let destByte := Z.rem (offset v) BLOCK_SIZE in
  let! destBlock := zoom L (chain_end (first_block f)) in
  loop (Datatypes.S (Z.to_nat size)) (λ '(i, destBlock, destByte),
    if bool_decide (i < size) then write_file_step rd o d (i, destBlock, destByte)
    else ret (inr i)) (0, destBlock, destByte).

Definition read_file_step (wr : Z → Z → M S unit) (o d size : Z) (st : Z * Z * Z)
  : M S ((Z * Z * Z) + Z) :=
  let '(i, block0, byte0) := st in
  let! v := zoom L (aget Fdt o) in
  let! '(stop, block0, byte0) :=
    (if bool_decide (Z.rem byte0 BLOCK_SIZE = 0) && bool_decide (byte0 ≠ 0) then
       if bool_decide (offset v = size) then ret (true, block0, byte0)
       else
         let! n := zoom L (aget Fat block0) in
         if bool_decide (n = -1) then ret (true, block0, byte0) else ret (false, n, 0)
     else ret (false, block0, byte0)) in
  if (stop : bool) then ret (inr i)
  else
    let! c := zoom L (disk_get block0 byte0) in
    wr i c;;
    zoom L (fdt_set with_offset o (s32 (offset v + 1)));;
    ret (inl (i + 1, block0, byte0 + 1)).

Definition read_file (wr : Z → Z → M S unit) (o d size : Z) : M S Z :=
  let! v := zoom L (aget Fdt o) in
  let! f := zoom L (aget Dir d) in
  let nthBlock := Z.quot (offset v) BLOCK_SIZE in
  let byte0 := Z.rem (offset v) BLOCK_SIZE in
  let! '(_, block0) := loop (Datatypes.S (Z.to_nat nthBlock)) (λ '(i, b),
    if bool_decide (i < nthBlock) then
      let! n := zoom L (aget Fat b) in ret (inl (i + 1, n))
    else ret (inr (i, b))) (0, first_block f) in
  loop (Datatypes.S (Z.to_nat size)) (λ '(i, block0, byte0),
    let! v := zoom L (aget Fdt o) in
    let! f := zoom L (aget Dir d) in
    if bool_decide (i < size) && bool_decide (offset v < Fs.size f)
    then read_file_step wr o d size (i, block0, byte0)
    else ret (inr i)) (0, block0, byte0).
End FileLoops.

Definition sys_write_file (fd buffer size : Z) : K Z :=
  let! o := open_file_of fd in
  let! d := logic_dev_of o in
  write_file FS (λ i, uload (buffer + i)) o d size.

Definition sys_read_file (fd buffer size : Z) : K Z :=
  let! o := open_file_of fd in
  let! d := logic_dev_of o in
  read_file FS (λ i b, ustore (buffer + i) b) o d size.
