(* ===== verification/Sys.v ===== *)
(** * [sys.c]: the system calls other than the semaphores. *)
From S2P Require Import Prelude KList Mm Utils Io Fs KState Sched.
From S2P Require Import Sem Devices.

Definition sys_ni_syscall : K Z := ret (- ENOSYS).

(** [access_ok(type, addr, size)] called from the kernel stack of the running
    task: the address of its parameter lies in the page of that task's union. *)
Definition access_ok_k (type addr size : Z) : K Z :=
  let! s := get Sched in
  zoom MM (access_ok (union_addr (task_addr s) (cur s)) type addr size).

(** ** Calls through the pointers of [struct file_operations]. *)

Definition call_read_dev (r : read_routine) (fd buffer size : Z) : K Z :=
  match r with
  | Sys_read_keyboard => sys_read_keyboard fd buffer size
  | Sys_read_file => sys_read_file fd buffer size
  end.
Definition call_write_dev (r : write_routine) (fd buffer size : Z) : K Z :=
  match r with
  | Sys_write_console => sys_write_console fd buffer size
  | Sys_write_file => sys_write_file fd buffer size
  end.
Definition call_release_dev (r : release_routine) (entry : Z) : K Z :=
  match r with Sys_release_file => zoom FS (sys_release_file entry) end.
(** No device has an open or a close routine. *)
Definition call_no_routine (r : option no_routine) : K unit :=
  match r with None => ret () | Some r => match r with end end.

Definition MAX_TRANSFER : Z := NUM_PAG_DATA * PAGE_SIZE - KERNEL_STACK_SIZE.

Definition sys_write (fd buffer size : Z) : K Z :=
  let! current_task := cur_task in
  if bool_decide (fd < 0) || bool_decide (MAX_FDS ≤ fd) then ret (- EBADF) else
  let! p := of_option (zlookup (file_descriptors current_task) fd) in
  match p with
  | None => ret (- EBADF)
  | Some o =>
      if bool_decide (size > MAX_TRANSFER) then ret (- EFBIG)
      else if bool_decide (size < 0) then ret (- EINVAL)
      else
      let! v := zoom FS (aget Fdt o) in
      if bool_decide (access_mode v = O_RDONLY) then ret (- EBADF) else
      let! ok := access_ok_k 1 buffer size in
      if bool_decide (ok < 1) then ret (- EFAULT) else
      let! d := of_option (logic_dev v) in
      let! f := zoom FS (aget Dir d) in
      match sys_write_dev (operations f) with
      | Some r => call_write_dev r fd buffer size
      | None => ret (- EINVAL)
      end
  end.

Definition sys_getpid : K Z := let! t := cur_task in ret (pid t).

(** ** Processes. *)

(** [for(j=(i-1);j>=0;j--) free_frame(frames[j]);] *)
Fixpoint free_frames (frames : list Z) : K unit :=
  match frames with
  | [] => ret ()
  | f :: fs => free_frames fs;; zoom MM (free_frame f)
  end.

(** The allocation loop; [None] is the failure of [alloc_frame]. *)
Definition fork_alloc (parent : Z) : K (option (list Z)) :=
  loop (Datatypes.S (Z.to_nat NUM_PAG_DATA)) (λ frames,
    let i := zlen frames in
    if bool_decide (i < NUM_PAG_DATA) then
      let! t := aget Task parent in
      let! p := of_option (zlookup (ph_pages t) i) in
      if bool_decide (p ≠ -1) then
        let! f := zoom MM alloc_frame in
        if bool_decide (f = -1) then free_frames frames;; ret (inr None)
        else ret (inl (frames ++ [f]))
      else ret (inr (Some frames))
    else ret (inr (Some frames))) [].

(** One iteration of the copy loop: the child's page [j]. *)
Definition fork_copy_page (child : Z) (frames : list Z) (j : Z) : K unit :=
  let! f := of_option (zlookup frames j) in
  let from := PAG_LOG_INIT_DATA_P0 + j in
  let to := PAG_LOG_INIT_DATA_P0 + NUM_PAG_DATA + j in
  zoom MM (set_ss_pag to f);;
  zoom MM (copy_data (λ k, load_byte (PAGE_SIZE * from + k))
                     (λ k, store_byte (PAGE_SIZE * to + k)) PAGE_SIZE);;
  ph_pages_set child j f;;
  zoom MM (del_ss_pag to).

Definition fork_share_fd (child i : Z) : K unit :=
  let! t := aget Task child in
  let! p := of_option (zlookup (file_descriptors t) i) in
  match p with
  | None => ret ()
  | Some o =>
      let! v := zoom FS (aget Fdt o) in
      zoom FS (fdt_set with_refs o (s32 (refs v + 1)));;
      let! d := of_option (logic_dev v) in
      let! f := zoom FS (aget Dir d) in
      zoom FS (dir_set with_n_refs d (s32 (n_refs f + 1)))
  end.

(** [copy_data(current(), &task[child].t, 4096)]: the whole union, its list
    pointers included. *)
Definition copy_task (parent child : Z) : K unit :=
  let! t := aget Task parent in
  aset Task child t;;
  let! c := zoom Lists (load (RunListP parent)) in
  zoom Lists (store (RunListP child) (λ _, c)).

Definition sys_fork : K Z :=
  let! child := srch_free_task in
  if bool_decide (child = -1) then ret (- EAGAIN) else
  let! parent := current in
  copy_task parent child;;
  let! r := fork_alloc parent in
  match r with
  | None => task_set t_pid child (-1);; ret (- EAGAIN)
  | Some frames =>
      for_range 0 (NUM_PAG_DATA `min` (zlen frames + 1)) (fork_copy_page child frames);;
      zoom MM set_cr3;;
      task_set t_saved_eax child 0;;
      (let! p := get PidCounter in put PidCounter (s32 (p + 1));; task_set t_pid child p);;
      (let! t := aget Task parent in task_set t_quantum child (quantum t));;
      task_set t_cpu_tics child 0;;
      task_set t_transitions child 0;;
      (let! t := aget Task child in task_set t_remaining child (quantum t));;
      for_range 0 SEM_MAX_VALUE (λ i, owned_sems_set child i (-1));;
      for_range 0 MAX_FDS (fork_share_fd child);;
      zoom Lists (list_add_tail (RunListP child) RunqueueP);;
      let! p := get PidCounter in
      ret (s32 (p - 1))
  end.

Definition sys_exit : K unit :=
  let! running := current in
  let! t := aget Task running in
  if bool_decide (pid t ≠ 0) then
    for_range 0 SEM_MAX_VALUE (λ i,
      let! t := aget Task running in
      let! own := of_option (zlookup (owned_sems t) i) in
      if bool_decide (own = 1) then sys_sem_destroy i;; ret () else ret ());;
    task_set t_pid running (-1);;
    zoom Lists (list_del (RunListP running));;
    for_range 0 NUM_PAG_DATA (λ i,
      let! t := aget Task running in
      let! f := of_option (zlookup (ph_pages t) i) in
      zoom MM (free_frame f));;
    put Left4current 0;;
    schedule 0
  else ret ().

Definition sys_nice (q : Z) : K Z :=
  let! c := current in
  if bool_decide (q > 0) then
    let! t := aget Task c in
    task_set t_quantum c q;;
    ret (quantum t)
  else ret (- EINVAL).

(** Byte [i] of an array of 32 bit words, in memory order. *)
Definition word_byte (words : list Z) (i : Z) : option Z :=
  (λ w, Z.land (Z.shiftr (u32 w) (8 * (i mod 4))) 255) <$> zlookup words (i / 4).
Definition SIZEOF_STATS : Z := 12.

Definition sys_get_stats (spid st : Z) : K Z :=
  if bool_decide (spid < 0) then ret (- EINVAL) else
  let! ok := access_ok_k 0 st 16 in
  if bool_decide (ok < 1) then ret (- EFAULT) else
  let! i := search_range 0 NR_TASKS (λ i,
    let! t := aget Task i in ret (bool_decide (pid t ≠ spid))) in
  let! t := aget Task i in
  if bool_decide (pid t ≠ spid) then ret (- ESRCH) else
  let stats := [cpu_tics t; transitions t; remaining t] in
  copy_to_user (λ k, of_option (word_byte stats k)) (λ k b, ustore (st + k) b) SIZEOF_STATS.

(** ** Files. *)

(** [for (e = 0; e < MAX_FILES && strcmp(dir[e].name, path); e++);] *)
Definition lookup_path (path : Z) : K Z :=
  search_range 0 MAX_FILES (λ e,
    let! f := zoom FS (aget Dir e) in
    let! r := strcmp (λ k, of_option (zlookup (name f) k)) (λ k, uload (path + k)) in
    ret (bool_decide (r ≠ 0))).

(** Dereferencing an error code cast to a pointer faults. *)
Definition deref_file (p : file_ptr) : K Z :=
  match p with DirEntry i => ret i | ErrPtr _ => fault end.

(** The choice of the file: an error, or the file and the remaining flags.
    [file < 0] compares pointers, which are unsigned: it is never true. *)
Definition open_select (path file_entry flags : Z) : K (Z + file_ptr * Z) :=
  if bool_decide (file_entry = MAX_FILES) then
    if bool_decide (flags < O_CREAT) then ret (inl (- ENOENT))
    else
      let! file := create_file FS (λ k, uload (path + k)) in
      let flags := if bool_decide (O_EXCL ≤ flags) then flags - O_EXCL else flags in
      ret (inr (file, flags - O_CREAT))
  else
    if bool_decide (Z.lor O_EXCL O_CREAT ≤ flags) then ret (inl (- EEXIST))
    else
      ret (inr (DirEntry file_entry,
                if bool_decide (O_CREAT ≤ flags) then flags - O_CREAT else flags)).

Definition ALL_FLAGS : Z :=
  Z.lor O_RDONLY (Z.lor O_WRONLY (Z.lor O_RDWR (Z.lor O_CREAT O_EXCL))).

Definition sys_open (path flags : Z) : K Z :=
  let! proc := current in
  if bool_decide (check_address path 1 = 0) then ret (- EFAULT) else
  if bool_decide (path = 0) then ret (- EFAULT) else
  let! len := strlen (λ k, uload (path + k)) in
  if bool_decide (len > MAX_NAME_LENGTH) then ret (- ENAMETOOLONG) else
  let! fdt_entry := search_range 0 MAX_OPEN_FILES (λ i,
    let! v := zoom FS (aget Fdt i) in ret (bool_decide (refs v > 0))) in
  if bool_decide (fdt_entry = MAX_OPEN_FILES) then ret (- ENFILE) else
  let! t := aget Task proc in
  let! fd := search_range 0 MAX_FDS (λ i,
    let! p := of_option (zlookup (file_descriptors t) i) in
    ret (bool_decide (p ≠ None))) in
  if bool_decide (fd = MAX_FDS) then ret (- EMFILE) else
  if bool_decide (flags < 0) || bool_decide (flags > ALL_FLAGS) then ret (- EINVAL) else
  let! file_entry := lookup_path path in
  let! r := open_select path file_entry flags in
  match r with
  | inl e => ret e
  | inr (file, flags) =>
      let! d := deref_file file in
      let! f := zoom FS (aget Dir d) in
      call_no_routine (sys_open_dev (operations f));;
      if bool_decide (access_mode_allow f ≠ O_RDWR) && bool_decide (flags ≠ access_mode_allow f)
      then ret (- EACCES)
      else
        zoom FS (
          fdt_set with_refs fdt_entry 1;;
          fdt_set with_access_mode fdt_entry flags;;
          fdt_set with_offset fdt_entry 0;;
          fdt_set with_logic_dev fdt_entry (Some d);;
          let! f := aget Dir d in
          dir_set with_n_refs d (s32 (n_refs f + 1)));;
        fd_set proc fd (Some fdt_entry);;
        ret fd
  end.

Definition sys_read (fd buf size : Z) : K Z :=
  let! c := current in
  let! current_task := aget Task c in
  if bool_decide (fd < 0) || bool_decide (MAX_FDS ≤ fd) then ret (- EBADF) else
  let! p := of_option (zlookup (file_descriptors current_task) fd) in
  match p with
  | None => ret (- EBADF)
  | Some o =>
      if bool_decide (size < 0) then ret (- EINVAL)
      else if bool_decide (size > MAX_TRANSFER) then ret (- EFBIG)
      else
      let! v := zoom FS (aget Fdt o) in
      if bool_decide (access_mode v = O_WRONLY) then ret (- EBADF) else
      let! ok := access_ok_k 0 buf size in
      if bool_decide (ok < 1) then ret (- EFAULT) else
      task_set t_req_size c size;;
      task_set t_buffer c buf;;
      let! d := of_option (logic_dev v) in
      let! f := zoom FS (aget Dir d) in
      match sys_read_dev (operations f) with
      | None => ret (- ENOSYS)
      | Some r => call_read_dev r fd buf size
      end
  end.

(** [file_descriptors[fd]] of the running task, when [fd] is open. *)
Definition fd_lookup (fd : Z) : K (option Z) :=
  let! t := cur_task in
  if bool_decide (fd < 0) || bool_decide (MAX_FDS ≤ fd) then ret None
  else of_option (zlookup (file_descriptors t) fd).

Definition sys_dup (fd : Z) : K Z :=
  let! proc := current in
  let! p := fd_lookup fd in
  match p with
  | None => ret (- EBADF)
  | Some o =>
      let! t := aget Task proc in
      let! new_fd := search_range 0 MAX_FDS (λ i,
        let! p := of_option (zlookup (file_descriptors t) i) in
        ret (bool_decide (p ≠ None))) in
      if bool_decide (new_fd = MAX_FDS) then ret (- EMFILE) else
      fd_set proc new_fd (Some o);;
      let! v := zoom FS (aget Fdt o) in
      zoom FS (fdt_set with_refs o (s32 (refs v + 1)));;
      let! d := of_option (logic_dev v) in
      let! f := zoom FS (aget Dir d) in
      zoom FS (dir_set with_n_refs d (s32 (n_refs f + 1)));;
      ret new_fd
  end.

Definition sys_close (fd : Z) : K Z :=
  let! c := current in
  let! p := fd_lookup fd in
  match p with
  | None => ret (- EBADF)
  | Some o =>
      let! v := zoom FS (aget Fdt o) in
      let! d := of_option (logic_dev v) in
      let! f := zoom FS (aget Dir d) in
      call_no_routine (sys_close_dev (operations f));;
      zoom FS (fdt_set with_refs o (s32 (refs v - 1)));;
      zoom FS (dir_set with_n_refs d (s32 (n_refs f - 1)));;
      fd_set c fd None;;
      ret 0
  end.

Definition sys_unlink (path : Z) : K Z :=
  if bool_decide (check_address path 1 = 0) then ret (- EFAULT) else
  let! len := strlen (λ k, uload (path + k)) in
  if bool_decide (len > MAX_NAME_LENGTH) then ret (- ENAMETOOLONG) else
  let! file_entry := lookup_path path in
  if bool_decide (file_entry = MAX_FILES) then ret (- ENOENT) else
  let! f := zoom FS (aget Dir file_entry) in
  if bool_decide (n_refs f = 0) then
    match sys_release_dev (operations f) with
    | Some r => call_release_dev r file_entry;; ret ()
    | None => ret ()
    end;;
    zoom FS (
      op_set with_sys_open_dev file_entry None;;
      op_set with_sys_close_dev file_entry None;;
      op_set with_sys_read_dev file_entry None;;
      op_set with_sys_write_dev file_entry None;;
      op_set with_sys_release_dev file_entry None;;
      dir_set with_n_refs file_entry (-1);;
      name_set file_entry 0 0);;
    ret 0
  else ret (- EBUSY).
