(* ===== verification/Interrupt.v ===== *)
(** * [interrupt.c], [entry.S], [libc.c]: gates, the clock, the keyboard, the
    exceptions and the entry point of the system calls. *)
From S2P Require Import Prelude KList Mm Utils Io Fs KState Sched.
From S2P Require Import Sem Devices Sys.

(** ** Gates ([types.h], [segment.h]). *)

Record Gate : Type := MkGate {
  lowOffset : Z; segmentSelector : Z; gate_flags : Z; highOffset : Z
}.
Definition KERNEL_CS : Z := 0x10.
Definition IDT_ENTRIES : Z := 256.
Definition lowWord (address : Z) : Z := u16 (Z.land address 0xFFFF).
Definition highWord (address : Z) : Z := u16 (Z.land (Z.shiftr address 16) 0xFFFF).

Definition gate (handler maxAccessibleFromPL : Z) : Gate :=
  MkGate (lowWord handler) KERNEL_CS
    (Z.lor (u16 (Z.shiftl maxAccessibleFromPL 13)) 0x8E00) (highWord handler).

Definition setInterruptHandler (vector handler maxPL : Z) : M (list Gate) unit :=
  aset (Lens (λ l, l) (λ l _, l)) vector (gate handler maxPL).
Definition setTrapHandler (vector handler maxPL : Z) : M (list Gate) unit :=
  aset (Lens (λ l, l) (λ l _, l)) vector (gate handler maxPL).

(** The addresses of the assembly entry points are the linker's. *)
Section Idt.
Context (exception_handler : Z → Z).
Context (clock_handler keyboard_handler system_call_handler_addr : Z).

Definition setIdt : M (list Gate) unit :=
  for_range 0 18 (λ v, setInterruptHandler v (exception_handler v) 0);;
  setInterruptHandler 32 clock_handler 0;;
  setInterruptHandler 33 keyboard_handler 0;;
  setTrapHandler 128 system_call_handler_addr 3.
End Idt.

(** ** Exceptions. *)

(** What the routine of each exception says; 14, the page fault, has a routine
    of its own, and 15, reserved by Intel, none. *)
Definition exception_message (vector : Z) : option string :=
  zlookup [
    Some "Exeption n.0: Divide error"; Some "Exeption n.1: Debug"; Some "Exeption n.2: NM1";
    Some "Exeption n.3: Breakpoint"; Some "Exeption n.4: Overflow"; Some "Exeption n.5: Bounds Check";
    Some "Exeption n.6: Invalid Opcode"; Some "Exeption n.7: Device not Available";
    Some "Exeption n.8: Double Fault"; Some "Exeption n.9: Coprocessor Segment Overrun";
    Some "Exeption n.10: Invalid TSS"; Some "Exeption n.11: Segment not Present";
    Some "Exeption n.12: Stack Exception"; Some "Exeption n.13: General protection"; None; None;
    Some "Exeption n.16: Floating Point Error"; Some "Exeption n.17: Alignment check"]%string vector
  ≫= λ m, m.

Definition newline : list Z := [10].

(** A message and [while(1)]. *)
Definition exception_routine (message : string) : K unit :=
  zoom IO (printk (chars message ++ newline));; halt.

Definition page_fault_routine : K unit :=
  let! t := cur_task in
  let pid_fault := pid t in
  zoom IO (printk (chars "PAGE FAULT:" ++ newline ++ chars "The process with PID="));;
  zoom IO (printc (u8 (48 + pid_fault)));;
  zoom IO (printk (chars " generated this exception and has been terminated" ++ newline));;
  if bool_decide (pid_fault ≠ 0) then sys_exit else halt.

(** ** The clock. *)

Definition iniTics : K unit := put Tics (-1).

(** [itoa(digit, &time[k])] *)
Definition time_digit (k digit : Z) : M (list Z) unit :=
  itoa digit (λ i b, aset (Lens (λ l, l) (λ l _, l)) (k + i) (u8 b)).

Definition clock_display : K unit :=
  let! t := get Tics in
  if bool_decide (Z.rem t 18 = 0) then
    let seconds := Z.quot t 18 in
    let minutes := Z.quot seconds 60 in
    let seconds := Z.rem seconds 60 in
    let! minutes :=
      (if bool_decide (minutes > 59) then put Tics 0;; ret 0 else ret minutes) in
    with_local [48; 48; 58; 48; 48; 0] (
      zoom Local_ (
        time_digit 0 (Z.quot minutes 10);;
        time_digit 1 (Z.rem minutes 10);;
        time_digit 3 (Z.quot seconds 10);;
        time_digit 4 (Z.rem seconds 10));;
      let! time := get Local_ in
      zoom Global (zoom IO (printk_xy 72 8 time)))
  else ret ().

Definition clock_routine : K unit :=
  let! old_task := current in
  modify Tics (λ t, s32 (t + 1));;
  modify Left4current (λ l, s32 (l - 1));;
  (let! t := aget Task old_task in task_set t_cpu_tics old_task (s32 (cpu_tics t + 1)));;
  (let! t := aget Task old_task in task_set t_remaining old_task (s32 (remaining t - 1)));;
  schedule 1;;
  clock_display.

(** ** The keyboard. *)

(** Multi-byte character constants keep their last byte. *)
Definition char_map : list Z :=
  [0;0] ++ chars "123456" ++ chars "7890'" ++ [0xA1;0;0]
  ++ chars "qwertyui" ++ chars "op`+" ++ [0;0] ++ chars "as"
  ++ chars "dfghjkl" ++ [0xB1] ++ [0;0xBA;0;0xA7] ++ chars "zxcv"
  ++ chars "bnm,.-" ++ [0] ++ chars "*"
  ++ [0;0;0;0;0;0;0;0] ++ [0;0;0;0;0;0;0] ++ chars "7"
  ++ chars "89-456+1" ++ chars "230" ++ [0;0;0] ++ chars "<" ++ [0]
  ++ [0;0;0;0;0;0;0;0] ++ [0;0].

(** [code] is what [inb(0x60)] reads. *)
Definition keyboard_routine (code : Z) : K unit :=
  let! c := of_option (zlookup char_map (Z.land code 0x7f)) in
  if bool_decide (Z.land code 0x80 = 0) then
    (let! p := get KbdP in aset Circular p c);;
    step_circ_buffer;;
    modify CircChars (λ n, s32 (n + 1));;
    let! empty := zoom Lists (list_empty KeyboardQueueP) in
    if negb empty then
      let! first := zoom Lists (list_first KeyboardQueueP) in
      let! blocked := list_head_to_task_struct first in
      (let! t := aget Task blocked in
       task_set t_pending_chars blocked (s32 (pending_chars t - 1)));;
      let! t := aget Task blocked in
      let! n := get CircChars in
      if bool_decide (pending_chars t ≤ 0) then
        copy_from_circ_buffer blocked (req_size t);;
        put CircChars 0;;
        (let! p := get KbdP in put Start p);;
        unblock_and_enqueque blocked
      else if bool_decide (CIRCULAR_SIZE ≤ n) then
        copy_from_circ_buffer blocked CIRCULAR_SIZE;;
        (let! n := get CircChars in
         let! t := aget Task blocked in
         task_set t_req_size blocked (s32 (req_size t - n)));;
        (let! n := get CircChars in
         let! t := aget Task blocked in
         task_set t_buffer blocked (u32 (buffer t + n)));;
        put CircChars 0;;
        (let! p := get KbdP in put Start p)
      else ret ()
    else zoom IO (printc c)
  else ret ().

(** ** The entry points of [entry.S].

    [SAVE_ALL] pushes the registers; of those only %eax is written by the C
    code.  Hardware interrupts are delivered with the previous one
    acknowledged; the end of interrupt follows the C routine unless that
    switched context.

    For a page fault, as for some other exceptions, the CPU pushes an error code
    first, and the registers are one word lower than where the C code looks for
    %eax.  [SAVE_ALL] here puts it in the one place for every entry: after a page
    fault nothing reads it, as the process is dead.  (Its handler
    drops the code before [IRET].) *)
Definition SAVE_ALL (eax : Z) : K unit := let! c := current in task_set t_saved_eax c eax.
Definition clock_interrupt (eax : Z) : K unit :=
  put InService true;; SAVE_ALL eax;; clock_routine;; EOI.
Definition keyboard_interrupt (eax code : Z) : K unit :=
  put InService true;; SAVE_ALL eax;; keyboard_routine code;; EOI.
Definition page_fault_handler (eax : Z) : K unit := SAVE_ALL eax;; page_fault_routine.
(** The entry points of the other exceptions. *)
Definition exception_handler (vector eax : Z) : K unit :=
  SAVE_ALL eax;;
  match exception_message vector with
  | Some message => exception_routine message
  | None => ret ()
  end.

Definition MINSYSCALL : Z := 0.
Definition MAXSYSCALL : Z := 41.

Section SystemCall.
(** What %eax holds when [sys_exit], a void function, returns. *)
Context (void_eax : Z).

(** The entries of [sys_call_table], applied to %ebx, %ecx, %edx; the [unsigned]
    value of a semaphore and the [int] of [sys_nice] are read at their width. *)
Definition sys_call_table (nr ebx ecx edx : Z) : K Z :=
  if bool_decide (nr = 1) then sys_exit;; ret void_eax
  else if bool_decide (nr = 2) then sys_fork
  else if bool_decide (nr = 3) then sys_read ebx ecx edx
  else if bool_decide (nr = 4) then sys_write ebx ecx edx
  else if bool_decide (nr = 5) then sys_open ebx ecx
  else if bool_decide (nr = 6) then sys_close ebx
  else if bool_decide (nr = 10) then sys_unlink ebx
  else if bool_decide (nr = 20) then sys_getpid
  else if bool_decide (nr = 21) then sys_sem_init ebx (u32 ecx)
  else if bool_decide (nr = 22) then sys_sem_wait ebx
  else if bool_decide (nr = 23) then sys_sem_signal ebx
  else if bool_decide (nr = 24) then sys_sem_destroy ebx
  else if bool_decide (nr = 34) then sys_nice (s32 ebx)
  else if bool_decide (nr = 35) then sys_get_stats ebx ecx
  else if bool_decide (nr = 41) then sys_dup ebx
  else sys_ni_syscall.

(** The result replaces the %eax that [SAVE_ALL] pushed. *)
Definition system_call_handler (eax ebx ecx edx : Z) : K unit :=
  SAVE_ALL eax;;
  if bool_decide (eax < MINSYSCALL) || bool_decide (eax > MAXSYSCALL) then
    let! c := current in task_set t_saved_eax c (- ENOSYS)
  else
    let! r := sys_call_table eax ebx ecx edx in
    let! c := current in task_set t_saved_eax c r.
End SystemCall.

(** [main] ([system.c]) up to the jump to user mode, without the segment
    registers, the copy of the user image and the messages.  Of the task state
    segment only [esp0] changes afterwards. *)
Definition setTSS : K unit := modify Sched (λ s, set_esp0 (stack_end (task_addr s) 0) s).

Definition boot (table_addr : Z) : K unit :=
  let! s := get Sched in
  setTSS;;
  zoom MM (init_mm (task_addr s) table_addr);;
  init_sched;;
  init_keyboard;;
  zoom FS init_filesystem;;
  init_task0;;
  iniTics.
