(* ===== verification/Libc.v ===== *)
(** * [libc.c]: the user library.

    A process sees the kernel through [int $0x80]; the library adds [errno],
    a variable of the process. *)
From S2P Require Import Prelude Mm Utils Fs KState Devices Sys Interrupt.

Definition user_state : Type := kstate * Z.
Definition Kern : lens user_state kstate := Lens fst (λ k u, (k, u.2)).
Definition Errno : lens user_state Z := Lens snd (λ e u, (u.1, e)).

Abbreviation User := (M user_state).

Definition check_errcode (code : Z) : User Z :=
  if bool_decide (code < 0) then put Errno (s32 (- code));; ret (-1) else ret code.

(** The message [perror] writes for an error number. *)
Definition perror_message (errno : Z) : list Z :=
  let say (s : string) : list Z := chars s ++ newline in
  if bool_decide (errno = 1) then say "EPERM: Operation not permitted"
  else if bool_decide (errno = 3) then say "ESRCH: No such process"
  else if bool_decide (errno = 4) then say "EINTR: Interrupted function call"
  else if bool_decide (errno = 9) then say "EBADF: Bad file descriptor"
  else if bool_decide (errno = 11) then say "EAGAIN: Resource busy, try again"
  else if bool_decide (errno = 13) then say "EACCES: Permission denied"
  else if bool_decide (errno = 14) then say "EFAULT: Bad address"
  else if bool_decide (errno = 16) then say "EBUSY: Device or resource busy"
  else if bool_decide (errno = 22) then say "EINVAL: Invalid argument"
  else if bool_decide (errno = 23) then say "ENFILE: Too many open files in system"
  else if bool_decide (errno = 24) then say "EMFILE: Too many open files by the process"
  else if bool_decide (errno = 27) then say "EFBIG: File too large"
  else if bool_decide (errno = 28) then say "ENOSPC: No space left on device"
  else if bool_decide (errno = 36) then say "ENAMETOOLONG: File name too long"
  else if bool_decide (errno = 38) then say "ENOSYS: Function not implemented"
  else if bool_decide (errno = 44) then say "ECHRNG: Channel number out of range"
  else say "Unknown error or no error".

(** ** [stdio.c]: the routines of [utils.c] again, on the memory of the process. *)
Definition stdio_strlen (buffer : Z) : User Z := strlen (λ i, zoom Kern (uload (buffer + i))).
Definition stdio_itoa (num buffer : Z) : User unit := itoa num (λ i c, zoom Kern (ustore (buffer + i) c)).
Definition stdio_strcmp (s1 s2 : Z) : User Z :=
  strcmp (λ i, zoom Kern (uload (s1 + i))) (λ i, zoom Kern (uload (s2 + i))).

Section Wrappers.
(** What [sys_exit] leaves in [%eax] where it returns, the contents of the
    registers a wrapper does not load, and the addresses the linker gave to the
    string literals. *)
Context (void ebx0 ecx0 edx0 : Z) (rodata : list Z → Z).

(** [int $0x80]: the handler, and the [%eax] it restores. *)
Definition int80 (eax ebx ecx edx : Z) : User Z :=
  zoom Kern (
    system_call_handler void eax ebx ecx edx;;
    let! t := cur_task in ret (saved_eax t)).

(** A wrapper loads its arguments and the number of the call, and checks the
    result. *)
Definition call (nr ebx ecx edx : Z) : User Z :=
  let! val := int80 nr ebx ecx edx in check_errcode val.

Definition write (fd buffer size : Z) : User Z := call 4 fd buffer size.
Definition getpid : User Z := int80 20 ebx0 ecx0 edx0.
Definition fork : User Z := call 2 ebx0 ecx0 edx0.
Definition sem_init (n_sem value : Z) : User Z := call 21 n_sem value edx0.
Definition sem_wait (n_sem : Z) : User Z := call 22 n_sem ecx0 edx0.
Definition sem_signal (n_sem : Z) : User Z := call 23 n_sem ecx0 edx0.
Definition sem_destroy (n_sem : Z) : User Z := call 24 n_sem ecx0 edx0.
Definition exit : User unit := int80 1 ebx0 ecx0 edx0;; ret ().
Definition nice (quantum : Z) : User Z := call 34 quantum ecx0 edx0.
Definition get_stats (pid st : Z) : User Z := call 35 pid st edx0.
Definition open (path flags : Z) : User Z := call 5 path flags edx0.
Definition read (fd buffer size : Z) : User Z := call 3 fd buffer size.
Definition close (fd : Z) : User Z := call 6 fd ecx0 edx0.
Definition dup (fd : Z) : User Z := call 41 fd ecx0 edx0.
Definition unlink (path : Z) : User Z := call 10 path ecx0 edx0.

Definition perror : User unit :=
  let! e := get Errno in
  let buffer := rodata (perror_message e) in
  let! n := stdio_strlen buffer in
  write 1 buffer n;; ret ().
End Wrappers.
