(* ===== verification/Monitor.v ===== *)
(** * [kernel-module/syscalls_mon.c]: the monitor of system calls. *)
From S2P Require Import Prelude.

Definition N_CALLS : Z := 5.
Definition OPEN : Z := 0.
Definition CLOSE : Z := 1.
Definition MYWRITE : Z := 2.
Definition CLONE : Z := 3.
Definition LSEEK : Z := 4.

Definition LINUX_EPERM : Z := 1.
Definition LINUX_ESRCH : Z := 3.
Definition LINUX_EACCES : Z := 13.
Definition LINUX_EINVAL : Z := 22.

(** ** Data. *)

Record t_info : Type := TInfo { n_calls : Z; n_calls_ok : Z; n_calls_err : Z; total : Z }.
Definition t_info_zero : t_info := TInfo 0 0 0 0.
Definition with_n_calls v t := TInfo v (n_calls_ok t) (n_calls_err t) (total t).
Definition with_n_calls_ok v t := TInfo (n_calls t) v (n_calls_err t) (total t).
Definition with_n_calls_err v t := TInfo (n_calls t) (n_calls_ok t) v (total t).
Definition with_total v t := TInfo (n_calls t) (n_calls_ok t) (n_calls_err t) v.

(** The extended thread info of a process: [stats] has [N_CALLS + 1] entries,
    and is meaningful when [stats_pid] (the member [pid]) is the process. *)
Record my_thread : Type := MyThread { stats : list t_info; stats_pid : Z }.
Definition with_stats v t := MyThread v (stats_pid t).
Definition with_stats_pid v t := MyThread (stats t) v.

(** What a slot of a system call table designates. *)
Inductive routine : Type :=
| Native (nr : Z)
| LocalTrap (call : Z).

#[export] Instance routine_eq_dec : EqDecision routine.
Proof. solve_decision. Defined.

(** [threads] gives the thread info of every process, by pid; [current] is the
    running one, [tsc] the time stamp counter, [module_refs] the references to
    the module, [klog] the log of Linux: formats as the source spells them, without
    their priority, and arguments. *)
Record mon_state : Type := MkMon {
  sys_call_table : gmap Z routine;
  sys_call_table_original : list routine;
  sys_call_table_local : list routine;
  syscall_info_table : list t_info;
  threads : gmap Z my_thread;
  current : Z;
  pid_init : Z;
  tsc : Z;
  module_refs : Z;
  klog : list (string * list Z);
}.
Definition set_sys_call_table v s := MkMon v (sys_call_table_original s) (sys_call_table_local s)
  (syscall_info_table s) (threads s) (current s) (pid_init s) (tsc s) (module_refs s) (klog s).
Definition set_sys_call_table_original v s := MkMon (sys_call_table s) v (sys_call_table_local s)
  (syscall_info_table s) (threads s) (current s) (pid_init s) (tsc s) (module_refs s) (klog s).
Definition set_sys_call_table_local v s := MkMon (sys_call_table s) (sys_call_table_original s) v
  (syscall_info_table s) (threads s) (current s) (pid_init s) (tsc s) (module_refs s) (klog s).
Definition set_syscall_info_table v s := MkMon (sys_call_table s) (sys_call_table_original s)
  (sys_call_table_local s) v (threads s) (current s) (pid_init s) (tsc s) (module_refs s) (klog s).
Definition set_threads v s := MkMon (sys_call_table s) (sys_call_table_original s)
  (sys_call_table_local s) (syscall_info_table s) v (current s) (pid_init s) (tsc s) (module_refs s) (klog s).
Definition set_pid_init v s := MkMon (sys_call_table s) (sys_call_table_original s)
  (sys_call_table_local s) (syscall_info_table s) (threads s) (current s) v (tsc s) (module_refs s) (klog s).
Definition set_module_refs v s := MkMon (sys_call_table s) (sys_call_table_original s)
  (sys_call_table_local s) (syscall_info_table s) (threads s) (current s) (pid_init s) (tsc s) v (klog s).
Definition set_klog v s := MkMon (sys_call_table s) (sys_call_table_original s) (sys_call_table_local s)
  (syscall_info_table s) (threads s) (current s) (pid_init s) (tsc s) (module_refs s) v.

Definition SysCallTable : lens mon_state (gmap Z routine) := Lens sys_call_table set_sys_call_table.
Definition Original : lens mon_state (list routine) :=
  Lens sys_call_table_original set_sys_call_table_original.
Definition LocalTable : lens mon_state (list routine) :=
  Lens sys_call_table_local set_sys_call_table_local.
Definition InfoTable : lens mon_state (list t_info) :=
  Lens syscall_info_table set_syscall_info_table.
Definition Threads : lens mon_state (gmap Z my_thread) := Lens threads set_threads.
Definition PidInit : lens mon_state Z := Lens pid_init set_pid_init.
Definition ModuleRefs : lens mon_state Z := Lens module_refs set_module_refs.
Definition Klog : lens mon_state (list (string * list Z)) := Lens klog set_klog.

Abbreviation Mon := (M mon_state).

Definition u64 (z : Z) : Z := wrap_u 64 z.

Definition printk (format : string) (args : list Z) : Mon unit :=
  modify Klog (λ l, l ++ [(format, args)]).

(** The 64 bit time stamp counter. *)
Definition proso_get_cycles : Mon Z := λ s, Ret (u64 (tsc s)) s.

(** [t->thread_info] of the process [pid]; without one the pointer is null. *)
Definition thread_of (pid : Z) : Mon my_thread :=
  let! m := get Threads in of_option (m !! pid).
Definition thread_update (pid : Z) (f : my_thread → my_thread) : Mon unit :=
  let! t := thread_of pid in modify Threads (<[pid := f t]>).
Definition find_task_by_pid (pid : Z) : Mon (option Z) :=
  let! m := get Threads in
  ret (match m !! pid with Some _ => Some pid | None => None end).

(** A store to one of the statistics of a process, or of the whole system. *)
Definition stat_update (pid call : Z) (f : t_info → t_info) : Mon unit :=
  let! t := thread_of pid in
  let! i := of_option (zlookup (stats t) call) in
  thread_update pid (with_stats (zinsert call (f i) (stats t))).
Definition info_update (call : Z) (f : t_info → t_info) : Mon unit := amodify InfoTable call f.

(** ** Statistics. *)

(** [pid] is the tag to store, [owner] the process whose thread info it is. *)
Definition reset_stats (pid owner : Z) : Mon unit :=
  thread_update owner (with_stats_pid pid);;
  for_range 0 (N_CALLS + 1) (λ i,
    stat_update owner i (with_n_calls 0);;
    stat_update owner i (with_n_calls_ok 0);;
    stat_update owner i (with_n_calls_err 0);;
    stat_update owner i (with_total 0)).

Definition get_stats (pid call : Z) : Mon (Z + t_info) :=
  if bool_decide (call < 0) || bool_decide (call > N_CALLS) then ret (inl (- LINUX_EINVAL))
  else if bool_decide (pid < 0) then ret (inl (- LINUX_EINVAL))
  else
  let! t := find_task_by_pid pid in
  match t with
  | None => ret (inl (- LINUX_ESRCH))
  | Some p =>
      let! th := thread_of p in
      let! i := of_option (zlookup (stats th) call) in
      ret (inr (TInfo (n_calls i) (n_calls_ok i) (n_calls_err i) (total i)))
  end.

Definition incr_calls (t : t_info) : t_info := with_n_calls (s32 (n_calls t + 1)) t.
Definition incr_ok (t : t_info) : t_info := with_n_calls_ok (s32 (n_calls_ok t + 1)) t.
Definition incr_err (t : t_info) : t_info := with_n_calls_err (s32 (n_calls_err t + 1)) t.
Definition add_total (d : Z) (t : t_info) : t_info := with_total (u64 (total t + d)) t.

(** The three records a call is counted in: the process and the call, the
    system and the call, the process and all its calls. *)
Definition count3 (pid call : Z) (f : t_info → t_info) : Mon unit :=
  stat_update pid call f;;
  info_update call f;;
  stat_update pid N_CALLS f.

(** ** The reports in the log. *)

(** The four lines about one call, of which the first names it. *)
Definition print_call (calls : string) (pidstats : t_info) : Mon unit :=
  printk calls [n_calls pidstats];;
  printk "# OK returned     : %i\n" [n_calls_ok pidstats];;
  printk "# ERR returned    : %i\n" [n_calls_err pidstats];;
  printk "Total exec. time  : %lld\n\n" [total pidstats].

Definition print_total_sys_stats : Mon unit :=
  printk "    -- SysCalls Dumb Monitor --\n" [];;
  printk " Global statistics for System Calls\n" [];;
  printk "    -------------\n\n" [];;
  (let! pidstats := aget InfoTable OPEN in print_call "# OPEN Calls      : %i\n" pidstats);;
  (let! pidstats := aget InfoTable CLOSE in print_call "# CLOSE Calls     : %i\n" pidstats);;
  (let! pidstats := aget InfoTable MYWRITE in print_call "# WRITE Calls     : %i\n" pidstats);;
  (let! pidstats := aget InfoTable CLONE in print_call "# CLONE Calls     : %i\n" pidstats);;
  (let! pidstats := aget InfoTable LSEEK in print_call "# LSEEK Calls     : %i\n" pidstats);;
  printk "    -------------\n" [].

(** [task_pid >= 0] compares a pointer: it is always true. *)
Definition print_stats (pid : Z) : Mon unit :=
  let! task_pid := find_task_by_pid pid in
  printk "    -- SysCalls Dumb Monitor --\n" [];;
  printk "PID               : %i\n" [pid];;
  printk "    -------------\n" [];;
  let! task_pid := of_option task_pid in
  let! th := thread_of task_pid in
  (let! pidstats := of_option (zlookup (stats th) N_CALLS) in
   printk "# TOTAL Calls     : %i\n" [n_calls pidstats];;
   printk "# OK  returned    : %i\n" [n_calls_ok pidstats];;
   printk "# ERR returned    : %i\n" [n_calls_err pidstats];;
   printk "Total exec. time  : %lld\n" [total pidstats]);;
  printk "    -------------\n\n" [];;
  (let! pidstats := of_option (zlookup (stats th) OPEN) in print_call "# OPEN Calls      : %i\n" pidstats);;
  (let! pidstats := of_option (zlookup (stats th) CLOSE) in print_call "# CLOSE Calls     : %i\n" pidstats);;
  (let! pidstats := of_option (zlookup (stats th) MYWRITE) in print_call "# WRITE Calls     : %i\n" pidstats);;
  (let! pidstats := of_option (zlookup (stats th) CLONE) in print_call "# CLONE Calls     : %i\n" pidstats);;
  (let! pidstats := of_option (zlookup (stats th) LSEEK) in print_call "# LSEEK Calls     : %i\n" pidstats);;
  printk "    -------------\n" [].

Section Module.
(** Linux: the numbers of the system calls, the routines behind the original
    table and the reference counter of the module. *)
Context (NR_open NR_close NR_write NR_clone NR_lseek : Z).
Context (native : routine → list Z → Mon Z).
Context (try_module_get module_put : Z → Z).

Definition local_to_sys_index : list Z := [NR_open; NR_close; NR_write; NR_clone; NR_lseek].

(** The common body of the local traps. *)
Definition trap (call : Z) (args : list Z) : Mon Z :=
  modify ModuleRefs try_module_get;;
  let! syscall := aget Original call in
  let! pid := (λ s, Ret (current s) s) : Mon Z in
  (let! t := thread_of pid in
   if bool_decide (pid ≠ stats_pid t) then reset_stats pid pid else ret ());;
  count3 pid call incr_calls;;
  let! start := proso_get_cycles in
  let! r := native syscall args in
  let result := s32 r in
  let! end_ := proso_get_cycles in
  (if bool_decide (0 ≤ result) then count3 pid call incr_ok else count3 pid call incr_err);;
  count3 pid call (add_total (u64 (end_ - start)));;
  modify ModuleRefs module_put;;
  ret result.

Definition sys_open_local (filename flags mode : Z) : Mon Z := trap OPEN [filename; flags; mode].
Definition sys_close_local (fd : Z) : Mon Z := trap CLOSE [fd].
Definition sys_write_local (fd buf count : Z) : Mon Z := trap MYWRITE [fd; buf; count].
Definition sys_clone_local (regs : Z) : Mon Z := trap CLONE [regs].
Definition sys_lseek_local (fd offset origin : Z) : Mon Z := trap LSEEK [fd; offset; origin].

(** ** Interception. *)

Definition set_mon_on_syscall (call_index : Z) : Mon unit :=
  let! nr := of_option (zlookup local_to_sys_index call_index) in
  let! l := aget LocalTable call_index in
  modify SysCallTable (<[nr := l]>).

Definition unset_mon_on_syscall (call_index : Z) : Mon unit :=
  let! nr := of_option (zlookup local_to_sys_index call_index) in
  let! o := aget Original call_index in
  modify SysCallTable (<[nr := o]>).

Definition save_original (call nr : Z) : Mon unit :=
  let! m := get SysCallTable in
  let! r := of_option (m !! nr) in
  aset Original call r.
Definition install (call nr : Z) : Mon unit :=
  let! l := aget LocalTable call in modify SysCallTable (<[nr := l]>).
Definition restore (call nr : Z) : Mon unit :=
  let! o := aget Original call in modify SysCallTable (<[nr := o]>).

Definition syscalls_mon_init : Mon Z :=
  save_original OPEN NR_open;;
  save_original CLOSE NR_close;;
  save_original MYWRITE NR_write;;
  save_original CLONE NR_clone;;
  save_original LSEEK NR_lseek;;
  aset LocalTable OPEN (LocalTrap OPEN);;
  aset LocalTable CLOSE (LocalTrap CLOSE);;
  aset LocalTable MYWRITE (LocalTrap MYWRITE);;
  aset LocalTable CLONE (LocalTrap CLONE);;
  aset LocalTable LSEEK (LocalTrap LSEEK);;
  install OPEN NR_open;;
  install CLOSE NR_close;;
  install MYWRITE NR_write;;
  install CLONE NR_clone;;
  install LSEEK NR_lseek;;
  let! p := get PidInit in
  let! t := find_task_by_pid p in
  let! t :=
    match t with
    | Some t => ret (Some t)
    | None =>
        put PidInit 1;;
        let! t := find_task_by_pid 1 in
        printk "No such process for the specified PID...I'll use default value (1).\n" [];;
        ret t
    end in
  let! owner := of_option t in
  let! p := get PidInit in
  reset_stats p owner;;
  printk "SysCalls Monitor successfully loaded on PID=%i\n" [p];;
  ret 0.

Definition syscalls_mon_exit : Mon unit :=
  restore OPEN NR_open;;
  restore CLOSE NR_close;;
  restore MYWRITE NR_write;;
  restore CLONE NR_clone;;
  restore LSEEK NR_lseek;;
  let! p := get PidInit in
  let! t := find_task_by_pid p in
  match t with
  | None => printk "PID %i doesn't exist anymore. No statistics will be printed.\n" [p]
  | Some _ =>
      printk "Statistics for specified process:\n" [];;
      print_stats p;;
      printk "\n\nGLOBAL Statistics:\n" [];;
      print_total_sys_stats
  end;;
  printk "Syscalls Monitor unloaded.\n" [].

(** What the kernel runs for the system call [nr]. *)
Definition do_syscall (nr : Z) (args : list Z) : Mon Z :=
  let! m := get SysCallTable in
  let! r := of_option (m !! nr) in
  match r with
  | Native _ => native r args
  | LocalTrap call => trap call args
  end.
End Module.
