(* ===== verification/Reader.v ===== *)
(** * [kernel-module/syscalls_mon_reader.c]: the device that reads the
    statistics of the monitor. *)
From S2P Require Import Prelude Monitor.

(** [lock] is 1 while the device is open. *)
Record rd_state : Type := MkRd {
  lock : Z;
  open_pid : Z;
  proc_monitored : Z;
  sysc_monitored : Z;
  registered : bool;
  mon : mon_state;
}.
Definition set_lock v s := MkRd v (open_pid s) (proc_monitored s) (sysc_monitored s) (registered s) (mon s).
Definition set_open_pid v s := MkRd (lock s) v (proc_monitored s) (sysc_monitored s) (registered s) (mon s).
Definition set_proc_monitored v s := MkRd (lock s) (open_pid s) v (sysc_monitored s) (registered s) (mon s).
Definition set_sysc_monitored v s := MkRd (lock s) (open_pid s) (proc_monitored s) v (registered s) (mon s).
Definition set_registered v s := MkRd (lock s) (open_pid s) (proc_monitored s) (sysc_monitored s) v (mon s).
Definition set_mon v s := MkRd (lock s) (open_pid s) (proc_monitored s) (sysc_monitored s) (registered s) v.
Definition Lock : lens rd_state Z := Lens lock set_lock.
Definition OpenPid : lens rd_state Z := Lens open_pid set_open_pid.
Definition ProcMonitored : lens rd_state Z := Lens proc_monitored set_proc_monitored.
Definition SyscMonitored : lens rd_state Z := Lens sysc_monitored set_sysc_monitored.
Definition Registered : lens rd_state bool := Lens registered set_registered.
Definition MonL : lens rd_state mon_state := Lens mon set_mon.

Abbreviation Rd := (M rd_state).

Definition s16 (z : Z) : Z := wrap_s 16 z.

Section Reader.
Context (NR_open NR_close NR_write NR_clone NR_lseek : Z).
(** Linux: the results of [register_chrdev_region], of [cdev_alloc] (whether
    it found memory) and of [cdev_add]. *)
Context (register_chrdev_region : Z) (cdev_alloc : bool) (cdev_add : Z).
(** Linux: [copy_to_user(buffer, from, n)] returns the number of bytes it
    could not copy. *)
Context (copy_to_user : Z → t_info → Z → Z).

Definition set_mon_call (call : Z) : Rd unit :=
  zoom MonL (set_mon_on_syscall NR_open NR_close NR_write NR_clone NR_lseek call).
Definition unset_mon_call (call : Z) : Rd unit :=
  zoom MonL (unset_mon_on_syscall NR_open NR_close NR_write NR_clone NR_lseek call).

Definition syscalls_mon_driver_init : Rd Z :=
  put ProcMonitored 0;;
  put SyscMonitored 0;;
  put OpenPid 1;;
  if bool_decide (register_chrdev_region < 0) then
    zoom MonL (printk "ERROR: register_chrdev_region" []);; ret register_chrdev_region
  else if negb cdev_alloc then
    zoom MonL (printk "ERROR: cdev_alloc" []);; ret (-1)
  else if bool_decide (cdev_add < 0) then
    zoom MonL (printk "ERROR: cdev_add" []);; ret cdev_add
  else
    put Registered true;;
    put Lock 0;;
    zoom MonL (printk "Syscalls Reader Driver successfully loaded.\n" []);;
    ret 0.

Definition syscalls_mon_driver_exit : Rd unit :=
  put Registered false;;
  zoom MonL (printk "Syscalls Reader Driver succesfully unloaded.\n" []).

(** On the i386 the structure is three [int]s and a [long long]. *)
Definition SIZEOF_T_INFO : Z := 20.

(** [s] is a [size_t]: the test [s < 0] never holds. *)
Definition readstats_read_dev (buffer s : Z) : Rd Z :=
  let! pm := get ProcMonitored in
  let! sm := get SyscMonitored in
  let! r := zoom MonL (get_stats pm sm) in
  match r with
  | inl e => ret e
  | inr info =>
      if bool_decide (u32 s < 0) then ret (- LINUX_EINVAL)
      else
        let sz := if bool_decide (u32 s < SIZEOF_T_INFO) then u32 s else SIZEOF_T_INFO in
        ret (copy_to_user buffer info sz)
  end.

(** [t < 0] compares a pointer: it is never true. *)
Definition reset_values (pid : Z) : Rd Z :=
  if bool_decide (pid < 0) then ret (- LINUX_EINVAL)
  else
    let! t := zoom MonL (find_task_by_pid pid) in
    let! owner := of_option t in
    zoom MonL (reset_stats pid owner);;
    ret 0.

Definition complete_reset : Rd unit :=
  let! m := get MonL in
  (fix go (pids : list Z) : Rd unit :=
     match pids with
     | [] => ret ()
     | p :: pids => zoom MonL (reset_stats p p);; go pids
     end) (map_to_list (threads m)).*1.

Definition activate_syscall_mon (call_index : Z) : Rd Z :=
  if bool_decide (N_CALLS ≤ call_index) then ret (- LINUX_EINVAL)
  else
    (if bool_decide (call_index > -1) then set_mon_call call_index
     else for_range 0 N_CALLS set_mon_call);;
    ret 0.

Definition deactivate_syscall_mon (call_index : Z) : Rd Z :=
  if bool_decide (N_CALLS ≤ call_index) then ret (- LINUX_EINVAL)
  else
    (if bool_decide (call_index > -1) then unset_mon_call call_index
     else for_range 0 N_CALLS unset_mon_call);;
    ret 0.

Definition readstats_ioctl_dev (arg1 arg2 : Z) : Rd Z :=
  let argument2 := s32 arg2 in
  if bool_decide (arg1 = 0) then
    if bool_decide (argument2 < 0) then ret (- LINUX_EINVAL)
    else
      let! t := zoom MonL (find_task_by_pid argument2) in
      match t with
      | None => (let! p := get OpenPid in put ProcMonitored p);; ret (- LINUX_ESRCH)
      | Some owner =>
          (let! th := zoom MonL (thread_of owner) in
           if bool_decide (argument2 ≠ stats_pid th)
           then zoom MonL (reset_stats argument2 owner) else ret ());;
          put ProcMonitored argument2;;
          ret 0
      end
  else if bool_decide (arg1 = 1) then
    if bool_decide (argument2 < 0) || bool_decide (N_CALLS ≤ argument2)
    then ret (- LINUX_EINVAL)
    else put SyscMonitored argument2;; ret 0
  else if bool_decide (arg1 = 2) then
    (let! p := get ProcMonitored in reset_values p);; ret 0
  else if bool_decide (arg1 = 3) then complete_reset;; ret 0
  else if bool_decide (arg1 = 4) then
    if bool_decide (N_CALLS ≤ argument2) then ret (- LINUX_EINVAL)
    else activate_syscall_mon argument2;; ret 0
  else if bool_decide (arg1 = 5) then
    if bool_decide (N_CALLS ≤ argument2) then ret (- LINUX_EINVAL)
    else deactivate_syscall_mon argument2;; ret 0
  else ret (- LINUX_EINVAL).

(** [uid] and [pid] are those of the calling process. *)
Definition readstats_open_dev (uid pid : Z) : Rd Z :=
  let! l := get Lock in
  if bool_decide (l ≠ 0) then ret (- LINUX_EPERM)
  else if bool_decide (uid ≠ 0) then ret (- LINUX_EACCES)
  else
    modify Lock (λ l, s16 (l + 1));;
    put OpenPid pid;;
    put ProcMonitored pid;;
    ret 0.

Definition readstats_release_dev : Rd Z :=
  let! l := get Lock in
  if bool_decide (l = 0) then ret (- LINUX_EPERM)
  else
    modify Lock (λ l, s16 (l - 1));;
    put OpenPid 0;;
    ret 0.
End Reader.
