(* ===== verification/Start.v ===== *)
(** * [system.c], [hardware.c], the segments of [mm.c] and [types.h]: from the
    end of the boot sector to user mode.

    The registers are those the privileged routines set; the rest of the machine
    is the state of the kernel. *)
From S2P Require Import Prelude KList Mm Utils Io Fs KState Sched.
From S2P Require Import Devices Interrupt.

(** ** Descriptors, registers, the task state segment ([types.h]). *)

Record Descriptor : Type := MkDescriptor {
  limit : Z; lowBase : Z; midBase : Z; flags1 : Z; flags2 : Z; highBase : Z
}.
Definition with_lowBase v d := MkDescriptor (limit d) v (midBase d) (flags1 d) (flags2 d) (highBase d).
Definition with_midBase v d := MkDescriptor (limit d) (lowBase d) v (flags1 d) (flags2 d) (highBase d).
Definition with_flags1 v d := MkDescriptor (limit d) (lowBase d) (midBase d) v (flags2 d) (highBase d).
Definition with_highBase v d := MkDescriptor (limit d) (lowBase d) (midBase d) (flags1 d) (flags2 d) v.

(** [Register]: the operand of [lgdt] and [lidt]. *)
Record Register : Type := MkRegister { reg_limit : Z; reg_base : Z }.

(** The members of [TSS] but [esp0], which belongs to the scheduler. *)
Record TSS : Type := MkTss {
  PreviousTaskLink : Z; ss0 : Z; esp1 : Z; ss1 : Z; esp2 : Z; ss2 : Z; cr3 : Z; eip : Z;
  eFlags : Z; eax : Z; ecx : Z; edx : Z; ebx : Z; esp : Z; ebp : Z; esi : Z; edi : Z;
  es : Z; cs : Z; ss : Z; ds : Z; fs_sel : Z; gs : Z;
  LDTSegmentSelector : Z; debugTrap : Z; IOMapBaseAddress : Z
}.
Definition tss_bss : TSS := MkTss 0 0 0 0 0 0 0 0 0 0 0 0 0 0 0 0 0 0 0 0 0 0 0 0 0 0.

Definition midByte (address : Z) : Z := u8 (Z.land (Z.shiftr address 16) 0xFF).
Definition highByte (address : Z) : Z := u8 (Z.land (Z.shiftr address 24) 0xFF).
Definition INITIAL_EFLAGS : Z := 0x200.

Definition KERNEL_DS : Z := 0x18.
Definition USER_CS : Z := 0x23.
Definition USER_DS : Z := 0x2B.
Definition KERNEL_TSS : Z := 0x30.
Definition GDT_START : Z := 0x901b3.

Definition KERNEL_START : Z := 0x10000.
Definition PH_USER_START : Z := 0x100000.
Definition USER_ESP : Z := L_USER_START + (NUM_PAG_CODE + NUM_PAG_DATA) * 0x1000 - 16.

(** ** The machine. *)

(** The segment registers hold selectors; [pic_mask] is port 0x21. *)
Record cpu_state : Type := MkCpu {
  c_eflags : Z; c_idtr : Register; c_gdtr : Register; c_ldtr : Z; c_tr : Z;
  c_ds : Z; c_es : Z; c_fs : Z; c_gs : Z; c_ss : Z; c_esp : Z; c_cs : Z; c_eip : Z;
  pic_mask : Z
}.
Definition set_c_eflags v c := MkCpu v (c_idtr c) (c_gdtr c) (c_ldtr c) (c_tr c) (c_ds c) (c_es c)
  (c_fs c) (c_gs c) (c_ss c) (c_esp c) (c_cs c) (c_eip c) (pic_mask c).
Definition set_c_idtr v c := MkCpu (c_eflags c) v (c_gdtr c) (c_ldtr c) (c_tr c) (c_ds c) (c_es c)
  (c_fs c) (c_gs c) (c_ss c) (c_esp c) (c_cs c) (c_eip c) (pic_mask c).
Definition set_c_gdtr v c := MkCpu (c_eflags c) (c_idtr c) v (c_ldtr c) (c_tr c) (c_ds c) (c_es c)
  (c_fs c) (c_gs c) (c_ss c) (c_esp c) (c_cs c) (c_eip c) (pic_mask c).
Definition set_c_ldtr v c := MkCpu (c_eflags c) (c_idtr c) (c_gdtr c) v (c_tr c) (c_ds c) (c_es c)
  (c_fs c) (c_gs c) (c_ss c) (c_esp c) (c_cs c) (c_eip c) (pic_mask c).
Definition set_c_tr v c := MkCpu (c_eflags c) (c_idtr c) (c_gdtr c) (c_ldtr c) v (c_ds c) (c_es c)
  (c_fs c) (c_gs c) (c_ss c) (c_esp c) (c_cs c) (c_eip c) (pic_mask c).
(** [ds], [es], [fs], [gs] *)
Definition set_c_data ds es fs gs c := MkCpu (c_eflags c) (c_idtr c) (c_gdtr c) (c_ldtr c) (c_tr c)
  ds es fs gs (c_ss c) (c_esp c) (c_cs c) (c_eip c) (pic_mask c).
Definition set_c_stack ss esp c := MkCpu (c_eflags c) (c_idtr c) (c_gdtr c) (c_ldtr c) (c_tr c)
  (c_ds c) (c_es c) (c_fs c) (c_gs c) ss esp (c_cs c) (c_eip c) (pic_mask c).
Definition set_c_code cs eip c := MkCpu (c_eflags c) (c_idtr c) (c_gdtr c) (c_ldtr c) (c_tr c)
  (c_ds c) (c_es c) (c_fs c) (c_gs c) (c_ss c) (c_esp c) cs eip (pic_mask c).
Definition set_pic_mask v c := MkCpu (c_eflags c) (c_idtr c) (c_gdtr c) (c_ldtr c) (c_tr c)
  (c_ds c) (c_es c) (c_fs c) (c_gs c) (c_ss c) (c_esp c) (c_cs c) (c_eip c) v.

Record machine : Type := MkMachine {
  cpu : cpu_state;
  gdt : list Descriptor;
  idt : list Gate;
  tss : TSS;
  kernel : kstate;
}.
Definition set_cpu v m := MkMachine v (gdt m) (idt m) (tss m) (kernel m).
Definition set_gdt v m := MkMachine (cpu m) v (idt m) (tss m) (kernel m).
Definition set_idt v m := MkMachine (cpu m) (gdt m) v (tss m) (kernel m).
Definition set_tss v m := MkMachine (cpu m) (gdt m) (idt m) v (kernel m).
Definition set_kernel v m := MkMachine (cpu m) (gdt m) (idt m) (tss m) v.
Definition Cpu : lens machine cpu_state := Lens cpu set_cpu.
Definition Gdt : lens machine (list Descriptor) := Lens gdt set_gdt.
Definition Idt : lens machine (list Gate) := Lens idt set_idt.
Definition Tss : lens machine TSS := Lens tss set_tss.
Definition Kernel : lens machine kstate := Lens kernel set_kernel.

Abbreviation Start := (M machine).

(** The table [bootsect.S] leaves at [GDT_START]. *)
Definition bootsect_gdt : list Descriptor :=
  [ MkDescriptor 0 0 0 0 0 0; MkDescriptor 0 0 0 0 0 0;
    MkDescriptor 0xFFFF 0 0 0x9a 0xcf 0; MkDescriptor 0xFFFF 0 0 0x92 0xcf 0;
    MkDescriptor 0xFFFF 0 0 0xfa 0xcf 0; MkDescriptor 0xFFFF 0 0 0xf2 0xcf 0;
    MkDescriptor 104 0 0 0x89 0 0 ].

(** ** [hardware.c]. *)

Definition get_eflags : Start Z := let! c := get Cpu in ret (c_eflags c).
Definition set_eflags : Start unit := modify Cpu (set_c_eflags 0).
Definition set_idt_reg (idt : Register) : Start unit := modify Cpu (set_c_idtr idt).
Definition set_gdt_reg (gdt : Register) : Start unit := modify Cpu (set_c_gdtr gdt).
Definition set_ldt_reg (ldt : Z) : Start unit := modify Cpu (set_c_ldtr ldt).

(** [ltr] marks the descriptor of the segment as busy. *)
Definition set_task_reg (tr : Z) : Start unit :=
  amodify Gdt (Z.shiftr tr 3) (λ d, with_flags1 (Z.lor (flags1 d) 2) d);;
  modify Cpu (set_c_tr tr).

(** A jump to the next instruction. *)
Definition delay : Start unit := ret ().

(** The mask of the interrupt controller, and [sti]. *)
Definition enable_int : Start unit :=
  modify Cpu (set_pic_mask 0xfc);;
  delay;;
  modify Cpu (λ c, set_c_eflags (Z.lor (c_eflags c) 0x200) c).

(** A load of four bytes, and a store. *)
Definition load_dword (addr : Z) : M mm_state Z :=
  let! b0 := load_byte addr in
  let! b1 := load_byte (addr + 1) in
  let! b2 := load_byte (addr + 2) in
  let! b3 := load_byte (addr + 3) in
  ret (b0 + 256 * b1 + 65536 * b2 + 16777216 * b3).
Definition store_dword (addr v : Z) : M mm_state unit :=
  for_range 0 4 (λ i, store_byte (addr + i) (u8 (Z.shiftr v (8 * i)))).

(** The privilege level of the segment of a selector. *)
Definition dpl (gdt : list Descriptor) (sel : Z) : Z :=
  match zlookup gdt (Z.shiftr sel 3) with Some d => bits_get 5 2 (flags1 d) | None => 0 end.

(** [lret] to an outer level loads the stack too, and clears the data selectors
    of more privileged segments.  [p_rdtr] is [KERNEL_START + 2] as a pointer to
    double words. *)
Definition return_gate (ds ss esp cs eip : Z) : Start unit :=
  modify Cpu (λ c, set_c_data ds ds (c_fs c) (c_gs c) c);;
  (let! rdtr := zoom Kernel (zoom MM (load_dword (KERNEL_START + 4 * 2))) in
   zoom Kernel (zoom MM (store_dword (u32 (esp + 12)) rdtr)));;
  modify Cpu (set_c_code cs eip);;
  modify Cpu (set_c_stack ss esp);;
  let! table := get Gdt in
  let outer (sel : Z) : Z := if bool_decide (dpl table sel < bits_get 0 2 cs) then 0 else sel in
  modify Cpu (λ c, set_c_data (outer (c_ds c)) (outer (c_es c)) (outer (c_fs c)) (outer (c_gs c)) c).

(** ** Segments. *)

Section Main.
(** The addresses the linker chose. *)
Context (exception_handler : Z → Z) (clock_handler keyboard_handler system_call_handler_addr : Z).
Context (idt_addr tss_addr table_addr : Z).

Definition setGdt : Start unit :=
  amodify Gdt (Z.shiftr KERNEL_TSS 3) (with_lowBase (lowWord tss_addr));;
  amodify Gdt (Z.shiftr KERNEL_TSS 3) (with_midBase (midByte tss_addr));;
  amodify Gdt (Z.shiftr KERNEL_TSS 3) (with_highBase (highByte tss_addr));;
  set_gdt_reg (MkRegister (u16 (256 * 8)) GDT_START).

Definition setIdt_reg : Start unit :=
  zoom Idt (setIdt exception_handler clock_handler keyboard_handler system_call_handler_addr);;
  set_idt_reg (MkRegister (u16 (IDT_ENTRIES * 8 - 1)) idt_addr).

Definition setTSS_all : Start unit :=
  zoom Kernel setTSS;;
  put Tss {|
    PreviousTaskLink := 0; ss0 := KERNEL_DS; esp1 := 0; ss1 := 0; esp2 := 0; ss2 := 0; cr3 := 0;
    eip := 0; eFlags := INITIAL_EFLAGS; eax := 0; ecx := 0; edx := 0; ebx := 0; esp := USER_ESP;
    ebp := USER_ESP; esi := 0; edi := 0; es := USER_DS; cs := USER_CS; ss := USER_DS; ds := USER_DS;
    fs_sel := 0; gs := 0; LDTSegmentSelector := KERNEL_TSS; debugTrap := 0; IOMapBaseAddress := 0 |};;
  set_task_reg KERNEL_TSS.

(** ** [main]. *)

(** [cld] clears the direction flag. *)
Definition set_seg_regs (data_sel stack_sel esp : Z) : Start unit :=
  let esp := u32 (esp - 5 * 4) in
  modify Cpu (λ c, set_c_eflags (Z.ldiff (c_eflags c) 0x400) c);;
  modify Cpu (set_c_data data_sel data_sel data_sel data_sel);;
  modify Cpu (set_c_stack stack_sel esp).

(** The user program follows the system in memory. *)
Definition copy_user : K unit :=
  let! sys_size := zoom MM (load_dword KERNEL_START) in
  let! usr_size := zoom MM (load_dword (KERNEL_START + 4 * 1)) in
  zoom MM (copy_data (λ i, load_byte (u32 (KERNEL_START + sys_size) + i))
                     (λ i, store_byte (PH_USER_START + i)) (s32 usr_size)).

Definition main : Start unit :=
  set_eflags;;
  (let! s := get Kernel in set_seg_regs KERNEL_DS KERNEL_DS (stack_end (task_addr (sched s)) 0));;
  zoom Kernel (zoom IO (printk (chars "Kernel Loaded!" ++ newline)));;
  setGdt;;
  setIdt_reg;;
  setTSS_all;;
  (let! s := get Kernel in zoom Kernel (zoom MM (init_mm (task_addr (sched s)) table_addr)));;
  zoom Kernel init_sched;;
  zoom Kernel init_keyboard;;
  zoom Kernel (zoom FS init_filesystem);;
  zoom Kernel init_task0;;
  zoom Kernel copy_user;;
  zoom Kernel iniTics;;
  enable_int;;
  zoom Kernel (zoom IO (printk (chars "Entering user mode..." ++ newline)));;
  return_gate USER_DS USER_DS USER_ESP USER_CS L_USER_START.
End Main.
