(* ===== verification/Build.v ===== *)
(** * [build.c]: the host tool that puts the boot sector, the kernel and the user
    program into one image.

    The files of the command line are lists of bytes, [None] one that cannot be
    opened.  The results of the host's system calls are parameters.  The host has
    32 bit [long]s, as [u32] wants. *)
From S2P Require Import Prelude.

(** [buf], what is left to read of the open file, the output and its position,
    and the format of the message [die] printed. *)
Record build_state : Type := MkBuild {
  buf : list Z;
  input : list Z;
  output : list Z;
  position : Z;
  died : string;
}.
Definition set_buf v s := MkBuild v (input s) (output s) (position s) (died s).
Definition set_input v s := MkBuild (buf s) v (output s) (position s) (died s).
Definition set_output v s := MkBuild (buf s) (input s) v (position s) (died s).
Definition set_position v s := MkBuild (buf s) (input s) (output s) v (died s).
Definition set_died v s := MkBuild (buf s) (input s) (output s) (position s) v.
Definition Buf : lens build_state (list Z) := Lens buf set_buf.
Definition Input : lens build_state (list Z) := Lens input set_input.
Definition Output : lens build_state (list Z) := Lens output set_output.
Definition Position : lens build_state Z := Lens position set_position.
Definition Died : lens build_state string := Lens died set_died.

Abbreviation B := (M build_state).

Definition BUF_SIZE : Z := 1024.
Definition build_bss : build_state := MkBuild (replicate (Z.to_nat BUF_SIZE) 0) [] [] 0 "".

(** [exit(1)] *)
Definition die (str : string) : B unit := put Died str;; halt.

(** ** The host.

    The results of [read] of a number of bytes from a file that has so many
    left, of [write] of so many bytes at a position, of [lseek] and of [fstat] of
    a file of that size. *)
Record host : Type := MkHost {
  host_read : Z → Z → Z;
  host_write : Z → Z → Z;
  host_lseek : Z → Z;
  host_fstat : Z → Z;
}.

(** A host that reads what there is and writes what it is given. *)
Definition good_host : host := MkHost (λ n left, n `min` left) (λ _ n, n) (λ p, p) (λ _, 0).

(** The bytes [l] over the output from [p] on, zeros in a gap. *)
Definition overwrite (p : Z) (l out : list Z) : list Z :=
  let out := out ++ replicate (Z.to_nat p - length out) 0 in
  take (Z.to_nat p) out ++ l ++ drop (Z.to_nat p + length l) out.

Section Build.
Context (H : host).

Definition open_file (f : option (list Z)) : B unit :=
  match f with
  | Some l => put Input l
  | None => die "Unable to open `%s': %m"
  end.

(** [read(fd, buf, n)] *)
Definition read_buf (n : Z) : B Z :=
  let! i := get Input in
  let r := host_read H n (zlen i) in
  let k := Z.to_nat (r `min` n) in
  modify Buf (λ b, take k i ++ drop k b);;
  put Input (drop k i);;
  ret r.

(** [write(1, buf, n)], with the message if it does not write [n] bytes. *)
Definition write_buf (n : Z) (msg : string) : B unit :=
  let! b := get Buf in
  let! p := get Position in
  let r := host_write H p n in
  modify Output (overwrite p (take (Z.to_nat r) b));;
  put Position (p + (0 `max` r));;
  if bool_decide (r ≠ n) then die msg else ret ().

Definition lseek_set (p : Z) : B unit :=
  let r := host_lseek H p in
  (if bool_decide (0 ≤ r) then put Position r else ret ());;
  if bool_decide (r ≠ p) then die "Output: seek failed" else ret ().

(** ** The image. *)

Definition MINIX_HEADER_LEN : Z := 32.
Definition hdr : list Z := [0x01; 0x03; 0x10; 0x04; 0x20; 0x00; 0x00; 0x00].

(** [lb[i]], little endian. *)
Definition word_at (b : list Z) (i : Z) : Z :=
  let byte (j : Z) : Z := default 0 (zlookup b (4 * i + j)) in
  byte 0 + 256 * byte 1 + 65536 * byte 2 + 16777216 * byte 3.

Definition minix_open (name : option (list Z)) : B unit :=
  open_file name;;
  let! n := read_buf MINIX_HEADER_LEN in
  (if bool_decide (n ≠ MINIX_HEADER_LEN) then die "%s: Unable to read header" else ret ());;
  let! b := get Buf in
  if bool_decide (take 8 b ≠ hdr) || bool_decide (word_at b 5 ≠ 0) then die "%s: Non-Minix header"
  else if bool_decide (word_at b 3 ≠ 0) then die "%s: Illegal data segment"
  else if bool_decide (word_at b 4 ≠ 0) then die "%s: Illegal bss segment"
  else if bool_decide (word_at b 7 ≠ 0) then die "%s: Illegal symbol table"
  else ret ().

(** [while (sz > 0) { ... }]: the whole file, [sizeof(buf)] bytes at a time. *)
Definition copy_loop (sz : Z) : B unit :=
  loop (S (Z.to_nat sz)) (λ sz,
    if bool_decide (sz > 0) then
      let l := if bool_decide (sz > BUF_SIZE) then BUF_SIZE else sz in
      let! n := read_buf l in
      (if bool_decide (n ≠ l) then
         die (if bool_decide (n < 0) then "Error reading %s: %m" else "%s: Unexpected EOF")
       else ret ());;
      write_buf l "Write failed";;
      ret (inl (sz - l))
    else ret (inr ())) sz.

Definition copy_file (name : option (list Z)) : B Z :=
  open_file name;;
  let! i := get Input in
  (if bool_decide (host_fstat H (zlen i) ≠ 0) then die "Unable to stat `%s': %m" else ret ());;
  let size := u32 (zlen i) in
  copy_loop size;;
  ret size.

(** A number in little endian, at offset [p] of the output: [n] bytes of it, and
    zeros up to [len] bytes. *)
Definition byte_of (v i : Z) : Z := Z.land (Z.shiftr v (8 * i)) 0xff.
Definition put_number (p n len v : Z) (msg : string) : B unit :=
  lseek_set p;;
  for_range 0 len (λ i, aset Buf i (if bool_decide (i < n) then byte_of v i else 0));;
  write_buf len msg.

Definition build (argc : Z) (bootsect system user : option (list Z)) : B unit :=
  (if bool_decide (argc ≠ 4) then die "Usage: build bootsect system user [> image]" else ret ());;
  let major_root := 0 in
  let minor_root := 0 in
  minix_open bootsect;;
  let! i := read_buf BUF_SIZE in
  (if bool_decide (i ≠ 512) then die "Boot block must be exactly 512 bytes" else ret ());;
  let! b := get Buf in
  (if bool_decide (zlookup b 510 ≠ Some 0x55) || bool_decide (zlookup b 511 ≠ Some 0xaa)
   then die "Boot block hasn't got boot flag (0xAA55)" else ret ());;
  aset Buf 508 minor_root;;
  aset Buf 509 major_root;;
  write_buf 512 "Write call failed";;
  let! sys_size := copy_file system in
  let! usr_size := copy_file user in
  let im_size := u32 (sys_size + usr_size + 15) / 16 in
  put_number 500 2 2 im_size "Write of image length failed";;
  put_number 512 3 4 sys_size "Write of system length failed";;
  put_number 516 3 4 usr_size "Write of user length failed";;
  put_number 520 3 4 0x7DAA "Write of user length failed".
End Build.
