(* ===== verification/MonitorFacts.v ===== *)
(** * The records of the monitor and the interception of system calls. *)
From S2P Require Import Prelude Monitor.

(** ** Reading the records. *)

Definition proc_stat (s : mon_state) (p i : Z) : option t_info := threads s !! p ≫= λ t, zlookup (stats t) i.
Definition info_stat (s : mon_state) (i : Z) : option t_info := zlookup (syscall_info_table s) i.

(** The records the local traps count in, those of process [p] and of the
    whole system, exist. *)
Record recorded (s : mon_state) (p : Z) : Prop := {
  rc_thread : ∃ t, threads s !! p = Some t ∧ zlen (stats t) = N_CALLS + 1;
  rc_info : zlen (syscall_info_table s) = N_CALLS;
}.

(** The thread info of [p] is [t]. *)
Definition with_thread (p : Z) (t : my_thread) (s : mon_state) : mon_state := set_threads (<[p := t]> (threads s)) s.
Lemma with_thread_again p t t' s : with_thread p t (with_thread p t' s) = with_thread p t s.
Proof. unfold with_thread, set_threads. simpl. by rewrite insert_insert_eq. Qed.
Lemma with_thread_id p t s : threads s !! p = Some t → with_thread p t s = s.
Proof. intros Ht. unfold with_thread. rewrite (insert_id _ _ _ Ht). by destruct s. Qed.

(** [f] was applied to the three records of call [call] of process [p], and
    nothing else changed. *)
Record bumped (p call : Z) (f : t_info → t_info) (s s' : mon_state) : Prop := {
  bp_proc : ∀ p' i, proc_stat s' p' i =
    if decide (p' = p ∧ (i = call ∨ i = N_CALLS)) then f <$> proc_stat s p' i else proc_stat s p' i;
  bp_info : ∀ i, info_stat s' i = if decide (i = call) then f <$> info_stat s i else info_stat s i;
  bp_pid : ∀ p', stats_pid <$> threads s' !! p' = stats_pid <$> threads s !! p';
  bp_rec : recorded s' p;
  bp_rest : ∃ t info, s' = set_syscall_info_table info (with_thread p t s);
}.

Lemma proc_stat_range s p i : recorded s p → 0 ≤ i ≤ N_CALLS → is_Some (proc_stat s p i).
Proof.
  intros [(t & Ht & Hl) _] Hi. unfold proc_stat. rewrite Ht. simpl.
  apply (zlookup_range (stats t)). lia.
Qed.

Lemma wp_thread_update p f t s (Q : unit → mon_state → Prop) X :
  threads s !! p = Some t → Q () (set_threads (<[p := f t]> (threads s)) s) →
  wp (thread_update p f) s Q X.
Proof.
  intros Ht HQ. unfold thread_update, thread_of. do 3 wp_step. eapply wp_of_option; [done|]. by wp_step.
Qed.

Lemma wp_stat_update p i f s (Q : unit → mon_state → Prop) X :
  recorded s p → 0 ≤ i ≤ N_CALLS →
  (∀ s', (∀ p' j, proc_stat s' p' j =
            if decide (p' = p ∧ j = i) then f <$> proc_stat s p' j else proc_stat s p' j) →
     (∀ p', stats_pid <$> threads s' !! p' = stats_pid <$> threads s !! p') →
     recorded s' p → (∃ t, s' = with_thread p t s) → Q () s') →
  wp (stat_update p i f) s Q X.
Proof.
  intros [(t & Ht & Hl) Hinfo] Hi HQ. unfold stat_update, thread_of. do 3 wp_step.
  eapply wp_of_option; [done|].
  destruct (zlookup_range (stats t) i) as [x Hx]; [lia|].
  apply wp_bind. eapply wp_of_option; [done|]. eapply wp_thread_update; [done|]. apply HQ.
  - intros p' j. unfold proc_stat. simpl. destruct (decide (p' = p)) as [->|].
    + rewrite lookup_insert_eq, Ht. simpl. rewrite zlookup_zinsert by lia.
      destruct (decide (i = j)) as [->|]; [by rewrite decide_True, Hx by done|].
      by rewrite decide_False by naive_solver.
    + rewrite lookup_insert_ne by done. by rewrite decide_False by naive_solver.
  - intros p'. simpl. destruct (decide (p' = p)) as [->|]; [by rewrite lookup_insert_eq, Ht|].
    by rewrite lookup_insert_ne.
  - split; [|done]. eexists. simpl. rewrite lookup_insert_eq. split; [done|]. simpl.
    by rewrite zlen_zinsert.
  - by eexists.
Qed.

Lemma wp_count3 p call f s (Q : unit → mon_state → Prop) X :
  recorded s p → 0 ≤ call < N_CALLS → (∀ s', bumped p call f s s' → Q () s') →
  wp (count3 p call f) s Q X.
Proof.
  intros Hr Hc HQ. unfold count3, info_update. apply wp_bind, wp_stat_update; [done|lia|].
  intros s1 H1 P1 R1 [t1 ->]. pose proof (rc_info _ _ Hr) as Hi.
  destruct (zlookup_range (syscall_info_table s) call) as [x Hx]; [lia|].
  apply wp_bind. eapply wp_amodify; [done|]. apply wp_stat_update; [|lia|].
  { destruct R1 as [R1 _]. split; [exact R1|]. simpl. by rewrite zlen_zinsert. }
  intros s2 H2 P2 R2 [t2 ->]. apply HQ. split.
  - intros p' i. rewrite H2.
    change (proc_stat (update InfoTable ?l (with_thread p t1 s)) p' i) with (proc_stat (with_thread p t1 s) p' i).
    rewrite H1. repeat case_decide; (done || naive_solver lia).
  - intros i. unfold info_stat. simpl. rewrite zlookup_zinsert by lia.
    destruct (decide (call = i)) as [->|]; [by rewrite decide_True, Hx|by rewrite decide_False by done].
  - intros p'. rewrite P2. apply P1.
  - done.
  - exists t2. eexists. unfold with_thread, set_threads, set_syscall_info_table. simpl. by rewrite insert_insert_eq.
Qed.

(** ** [reset_stats]. *)

(** The records of [p] are zero and tagged with [tag]; nothing else changed. *)
Record reset (tag p : Z) (s s' : mon_state) : Prop := {
  rs_proc : ∀ p' i, proc_stat s' p' i =
    if decide (p' = p ∧ 0 ≤ i ≤ N_CALLS) then Some t_info_zero else proc_stat s p' i;
  rs_pid : ∀ p', stats_pid <$> threads s' !! p' =
    if decide (p' = p) then Some tag else stats_pid <$> threads s !! p';
  rs_rec : recorded s' p;
  rs_rest : ∃ t, s' = with_thread p t s;
}.

Lemma wp_reset_stats tag p s (Q : unit → mon_state → Prop) X :
  recorded s p → (∀ s', reset tag p s s' → Q () s') → wp (reset_stats tag p) s Q X.
Proof.
  intros [(t & Ht & Hl) Hinfo] HQ. unfold reset_stats. apply wp_bind. eapply wp_thread_update; [done|].
  assert (recorded (with_thread p (with_stats_pid tag t) s) p) as Hr0.
  { split; [|done]. eexists. simpl. by rewrite lookup_insert_eq. }
  apply (wp_for_range (λ n s', recorded s' p ∧ (∃ t, s' = with_thread p t s) ∧
    (∀ p', stats_pid <$> threads s' !! p' = if decide (p' = p) then Some tag else stats_pid <$> threads s !! p') ∧
    ∀ p' i, proc_stat s' p' i =
      if decide (p' = p ∧ 0 ≤ i < n) then Some t_info_zero else proc_stat s p' i)); [done| | |].
  - split; [done|]. split; [by eexists|]. split.
    + intros p'. simpl. case_decide; subst; [by rewrite lookup_insert_eq|by rewrite lookup_insert_ne].
    + intros p' i. rewrite decide_False by lia. unfold proc_stat. simpl.
      destruct (decide (p' = p)) as [->|]; [by rewrite lookup_insert_eq, Ht|by rewrite lookup_insert_ne].
  - intros n s1 Hn (Hr1 & [t1 ->] & Hp1 & Hs1). assert (0 ≤ n ≤ N_CALLS) as Hn' by lia.
    destruct (proc_stat_range _ _ _ Hr1 Hn') as [x Hx].
    apply wp_bind, wp_stat_update; [done|done|]. intros s2 H2 P2 R2 [t2 ->].
    apply wp_bind, wp_stat_update; [done|done|]. intros s3 H3 P3 R3 [t3 ->].
    apply wp_bind, wp_stat_update; [done|done|]. intros s4 H4 P4 R4 [t4 ->].
    apply wp_stat_update; [done|done|]. intros s5 H5 P5 R5 [t5 ->].
    split; [done|]. split; [eexists; by rewrite !with_thread_again|]. split.
    + intros p'. by rewrite P5, P4, P3, P2, Hp1.
    + intros p' i. rewrite H5, H4, H3, H2. destruct (decide (p' = p ∧ i = n)) as [[-> ->]|Hne].
      * rewrite Hx, decide_True by lia. done.
      * rewrite Hs1. repeat case_decide; (done || naive_solver lia).
  - intros s' (Hr' & Hths & Hp' & Hs'). apply HQ. split; [|done..].
    intros p' i. rewrite Hs'. repeat case_decide; (done || naive_solver lia).
Qed.

(** ** The local traps. *)

Definition bump_result (r : Z) : t_info → t_info :=
  if bool_decide (0 ≤ r) then incr_ok else incr_err.

(** One call, that returned [r] after [d] cycles. *)
Definition one_call (r d : Z) (t : t_info) : t_info := add_total d (bump_result r (incr_calls t)).

(** The calls a call is counted as: itself, and all the calls of the process. *)
Definition counts_as (call i : Z) : Prop := i = call ∨ i = N_CALLS.
#[export] Instance counts_as_dec call i : Decision (counts_as call i).
Proof. unfold counts_as. apply _. Defined.

(** The records of [p], zero when those that are there are of another process. *)
Definition own_stat (s : mon_state) (p i : Z) : option t_info :=
  if bool_decide (stats_pid <$> threads s !! p = Some p) then proc_stat s p i
  else (λ _, t_info_zero) <$> proc_stat s p i.

(** What the original routines of Linux leave alone: the tables of the monitor,
    the running process and the thread infos that exist.  [clone] makes one, which
    is not tagged with the new pid. *)
Record kept (s s' : mon_state) : Prop := {
  kp_info : syscall_info_table s' = syscall_info_table s;
  kp_original : sys_call_table_original s' = sys_call_table_original s;
  kp_current : current s' = current s;
  kp_threads : ∀ p t, threads s !! p = Some t → threads s' !! p = Some t;
  kp_new : ∀ p t, threads s !! p = None → threads s' !! p = Some t → zlen (stats t) = N_CALLS + 1 ∧ stats_pid t ≠ p;
}.
Definition keeps_records (m : Mon Z) : Prop := ∀ s, ∃ r s', m s = Ret r s' ∧ kept s s'.

(** The state in which a trap of [call] in [s] calls the original routine. *)
Record entered (try_module_get : Z → Z) (call : Z) (s s2 : mon_state) : Prop := {
  en_own : ∀ i, proc_stat s2 (current s) i =
    if decide (counts_as call i) then incr_calls <$> own_stat s (current s) i else own_stat s (current s) i;
  en_info : ∀ i, info_stat s2 i = if decide (i = call) then incr_calls <$> info_stat s i else info_stat s i;
  en_pid : stats_pid <$> threads s2 !! current s = Some (current s);
  en_rest : ∃ t info, s2 = set_syscall_info_table info (with_thread (current s) t
    (set_module_refs (try_module_get (module_refs s)) s));
}.

(** What the trap leaves when the original routine returned [v] in [s3]. *)
Record traced_end (module_put : Z → Z) (call v : Z) (s s3 s' : mon_state) : Prop := {
  te_own : ∀ i, proc_stat s' (current s) i =
    if decide (counts_as call i)
    then one_call (s32 v) (u64 (tsc s3 - tsc s)) <$> own_stat s (current s) i else own_stat s (current s) i;
  te_info : ∀ i, info_stat s' i =
    if decide (i = call) then one_call (s32 v) (u64 (tsc s3 - tsc s)) <$> info_stat s i else info_stat s i;
  te_pid : stats_pid <$> threads s' !! current s = Some (current s);
  te_rec : recorded s' (current s);
  te_rest : ∃ t info, s' = set_syscall_info_table info (with_thread (current s) t
    (set_module_refs (module_put (module_refs s3)) s3));
}.

Inductive traced (native : routine → list Z → Mon Z) (try_module_get module_put : Z → Z)
  (call : Z) (args : list Z) (s : mon_state) : Z → mon_state → Prop :=
| traced_call rt s2 v s3 s' :
    zlookup (sys_call_table_original s) call = Some rt → entered try_module_get call s s2 →
    native rt args s2 = Ret v s3 → kept s2 s3 → traced_end module_put call v s s3 s' →
    traced native try_module_get module_put call args s (s32 v) s'.

(** The record of the running process is taken over when another used it. *)
Record claimed (p : Z) (s s1 : mon_state) : Prop := {
  cl_rec : recorded s1 p;
  cl_own : ∀ i, proc_stat s1 p i = own_stat s p i;
  cl_pid : stats_pid <$> threads s1 !! p = Some p;
  cl_rest : ∃ t, s1 = with_thread p t s;
}.

Lemma wp_claim p s X :
  recorded s p →
  wp (let! t := thread_of p in if bool_decide (p ≠ stats_pid t) then reset_stats p p else ret ()) s
    (λ _, claimed p s) X.
Proof.
  intros Hr. destruct (rc_thread _ _ Hr) as (t & Ht & Hl).
  unfold thread_of. do 3 wp_step. eapply wp_of_option; [done|]. case_bool_decide as Htag.
  - apply wp_reset_stats; [done|]. intros s1 [R1 P1 Rec1 Hrest]. split; [done| |by rewrite P1, decide_True|done].
    intros i. rewrite R1. unfold own_stat. rewrite bool_decide_false by (rewrite Ht; simpl; naive_solver).
    destruct (decide (p = p ∧ 0 ≤ i ≤ N_CALLS)) as [[_ Hi]|Hi].
    + by destruct (proc_stat_range _ _ _ Hr Hi) as [x ->].
    + unfold proc_stat. rewrite Ht. simpl. rewrite zlookup_None; [done|]. rewrite Hl. intros ?. apply Hi. split; [done|lia].
  - apply wp_ret. assert (stats_pid <$> threads s !! p = Some p) as E.
    { rewrite Ht. simpl. f_equal. by destruct (decide (p = stats_pid t)). }
    split; [done| |done|exists t; by rewrite with_thread_id]. intros i. unfold own_stat. by rewrite bool_decide_true.
Qed.

Lemma recorded_kept s s' p : kept s s' → recorded s p → recorded s' p.
Proof. intros Hk [(t & Ht & Hl) Hi]. split; [exists t; split; [by apply Hk|done]|by rewrite (kp_info _ _ Hk)]. Qed.
Lemma proc_stat_kept s s' p i : kept s s' → is_Some (threads s !! p) → proc_stat s' p i = proc_stat s p i.
Proof. intros Hk [t Ht]. unfold proc_stat. by rewrite Ht, (kp_threads _ _ Hk _ _ Ht). Qed.

Lemma bumped_own p call f s s' i :
  bumped p call f s s' → proc_stat s' p i = if decide (counts_as call i) then f <$> proc_stat s p i else proc_stat s p i.
Proof. intros B. rewrite (bp_proc _ _ _ _ _ B). unfold counts_as. repeat case_decide; (done || naive_solver). Qed.

Lemma fmap_if {A} (c : Prop) `{!Decision c} (f g : A → A) (o : option A) :
  (if decide c then g <$> (if decide c then f <$> o else o) else (if decide c then f <$> o else o)) =
  if decide c then (λ a, g (f a)) <$> o else o.
Proof. case_decide; [by rewrite <-option_fmap_compose|done]. Qed.

(** The records of one process and of the system through three bumps, the first
    before the original routine. *)
Lemma bumped_thrice p call f g h s1 s2 s3 s4 s5 :
  bumped p call f s1 s2 → kept s2 s3 → bumped p call g s3 s4 → bumped p call h s4 s5 →
  (∀ i, proc_stat s5 p i = if decide (counts_as call i) then (λ t, h (g (f t))) <$> proc_stat s1 p i else proc_stat s1 p i) ∧
  (∀ i, info_stat s5 i = if decide (i = call) then (λ t, h (g (f t))) <$> info_stat s1 i else info_stat s1 i) ∧
  ∃ t info, s5 = set_syscall_info_table info (with_thread p t s3).
Proof.
  intros B2 K B4 B5. split_and!.
  - intros i. rewrite (bumped_own _ _ _ _ _ _ B5), (bumped_own _ _ _ _ _ _ B4).
    rewrite (proc_stat_kept _ _ _ _ K), (bumped_own _ _ _ _ _ _ B2), !fmap_if; [done|].
    destruct (rc_thread _ _ (bp_rec _ _ _ _ _ B2)) as (t & Ht & _). by rewrite Ht.
  - intros i. rewrite (bp_info _ _ _ _ _ B5), (bp_info _ _ _ _ _ B4).
    assert (info_stat s3 i = info_stat s2 i) as -> by (unfold info_stat; by rewrite (kp_info _ _ K)).
    by rewrite (bp_info _ _ _ _ _ B2), !fmap_if.
  - destruct (bp_rest _ _ _ _ _ B4) as (t4 & i4 & ->), (bp_rest _ _ _ _ _ B5) as (t5 & i5 & ->).
    exists t5, i5. unfold with_thread, set_threads, set_syscall_info_table. simpl. by rewrite insert_insert_eq.
Qed.

Section Trap.
Context (native : routine → list Z → Mon Z) (try_module_get module_put : Z → Z).
Hypothesis Hnative : ∀ rt args, keeps_records (native rt args).

Lemma wp_native rt args s (Q : Z → mon_state → Prop) X :
  (∀ v s', native rt args s = Ret v s' → kept s s' → Q v s') → wp (native rt args) s Q X.
Proof using Hnative.
  intros HQ. destruct (Hnative rt args s) as (v & s' & E & Hk). unfold wp. rewrite E. by apply HQ.
Qed.

Lemma u64_sub a b : u64 (u64 a - u64 b) = u64 (a - b).
Proof using. unfold u64, wrap_u. by rewrite <-Zminus_mod. Qed.

Lemma wp_trap call args s (Q : Z → mon_state → Prop) X :
  recorded s (current s) → 0 ≤ call < N_CALLS → zlen (sys_call_table_original s) = N_CALLS →
  (∀ r s', traced native try_module_get module_put call args s r s' → Q r s') →
  wp (trap native try_module_get module_put call args) s Q X.
Proof using Hnative.
  intros Hr Hc Horig HQ. unfold trap. wp_step. wp_step.
  destruct (zlookup_range (sys_call_table_original s) call) as [rt Hrt]; [lia|].
  apply wp_bind. eapply wp_aget; [exact Hrt|].
  set (s0 := set_module_refs (try_module_get (module_refs s)) s). change (update ModuleRefs _ s) with s0.
  assert (recorded s0 (current s)) as Hr0 by (destruct Hr; by split).
  apply wp_bind. apply (wp_Ret _ _ (current s) s0); [done|]. set (p := current s) in *.
  apply wp_bind. eapply wp_mono; [exact (wp_claim p s0 _ Hr0)| |by intros ? HX; exact HX].
  intros [] s1 [R1 Hown Hpid [t1 E1]]. change (own_stat s0) with (own_stat s) in Hown.
  apply wp_bind, wp_count3; [done|done|]. intros s2 B2.
  apply wp_bind. apply (wp_Ret _ _ (u64 (tsc s2)) s2); [done|].
  apply wp_bind, wp_native. intros v s3 En K.
  apply wp_bind. apply (wp_Ret _ _ (u64 (tsc s3)) s3); [done|].
  pose proof (recorded_kept _ _ _ K (bp_rec _ _ _ _ _ B2)) as R3. rewrite u64_sub.
  apply wp_bind. assert (wp (if bool_decide (0 ≤ s32 v) then count3 p call incr_ok else count3 p call incr_err) s3
    (λ _ s4, bumped p call (bump_result (s32 v)) s3 s4) X) as Hb.
  { unfold bump_result. by destruct (bool_decide (0 ≤ s32 v)); apply wp_count3. }
  eapply wp_mono; [exact Hb| |done]. intros [] s4 B4.
  apply wp_bind, wp_count3; [apply B4|done|]. intros s5 B5.
  wp_step. wp_step. apply wp_ret. destruct (bp_rest _ _ _ _ _ B2) as (t2 & i2 & E2).
  assert (s2 = set_syscall_info_table i2 (with_thread p t2 s0)) as E2'.
  { rewrite E2, E1. unfold with_thread, set_threads, set_syscall_info_table. simpl. by rewrite insert_insert_eq. }
  assert (tsc s2 = tsc s) as Et by by rewrite E2'.
  assert (∀ i, info_stat s1 i = info_stat s i) as Ei by by rewrite E1.
  destruct (bumped_thrice _ _ _ _ _ _ _ _ _ _ B2 K B4 B5) as (H5 & I5 & t5 & i5 & E5). rewrite Et in *.
  apply HQ. eapply traced_call; [exact Hrt| |exact En|exact K|].
  - split; [|intros i; by rewrite (bp_info _ _ _ _ _ B2), Ei|by rewrite (bp_pid _ _ _ _ _ B2)|by exists t2, i2].
    intros i. by rewrite (bumped_own _ _ _ _ _ _ B2), Hown.
  - split.
    + intros i. change (proc_stat (update ModuleRefs ?n s5)) with (proc_stat s5). by rewrite H5, Hown.
    + intros i. change (info_stat (update ModuleRefs ?n s5)) with (info_stat s5). by rewrite I5, Ei.
    + change (stats_pid <$> threads s5 !! p = Some p). rewrite (bp_pid _ _ _ _ _ B5), (bp_pid _ _ _ _ _ B4).
      destruct (rc_thread _ _ (bp_rec _ _ _ _ _ B2)) as (t & Ht & _).
      by rewrite (kp_threads _ _ K _ _ Ht), <-Ht, (bp_pid _ _ _ _ _ B2).
    + destruct (bp_rec _ _ _ _ _ B5). by split.
    + exists t5, i5. by rewrite E5.
Qed.
End Trap.

(** ** Interception. *)

Section Tables.
Context (call nr : Z) (r l : routine).
Implicit Types (s : mon_state) (Q : unit → mon_state → Prop).

Lemma wp_save_original s Q X :
  sys_call_table s !! nr = Some r → 0 ≤ call < zlen (sys_call_table_original s) →
  Q () (set_sys_call_table_original (zinsert call r (sys_call_table_original s)) s) →
  wp (save_original call nr) s Q X.
Proof using.
  intros Hr Hc HQ. unfold save_original. do 2 wp_step. apply wp_bind. eapply wp_of_option; [exact Hr|].
  by apply wp_aset.
Qed.
Lemma wp_install s Q X :
  zlookup (sys_call_table_local s) call = Some l →
  Q () (set_sys_call_table (<[nr := l]> (sys_call_table s)) s) → wp (install call nr) s Q X.
Proof using. intros Hl HQ. apply wp_bind. eapply wp_aget; [exact Hl|]. by wp_step. Qed.
Lemma wp_restore s Q X :
  zlookup (sys_call_table_original s) call = Some r →
  Q () (set_sys_call_table (<[nr := r]> (sys_call_table s)) s) → wp (restore call nr) s Q X.
Proof using. intros Hl HQ. apply wp_bind. eapply wp_aget; [exact Hl|]. by wp_step. Qed.
End Tables.

(** ** The log. *)

(** From [s0] to [s] messages with the numbers [l] were logged, in order, and
    nothing else happened. *)
Definition logged (s0 s : mon_state) (l : list Z) : Prop :=
  ∃ new, s = set_klog (klog s0 ++ new) s0 ∧ concat new.*2 = l.

Definition numbers (i : t_info) : list Z := [n_calls i; n_calls_ok i; n_calls_err i; total i].

(** The records of a list of calls, one after the other, 0 where there is none. *)
Definition all_numbers (rec : Z → option t_info) (calls : list Z) : list Z :=
  flat_map (λ c, numbers (default t_info_zero (rec c))) calls.

Lemma logged_refl s : logged s s [].
Proof. exists []. rewrite app_nil_r. by destruct s. Qed.

Lemma logged_info s0 s l : logged s0 s l → syscall_info_table s = syscall_info_table s0.
Proof. by intros (new & -> & _). Qed.
Lemma logged_threads s0 s l : logged s0 s l → threads s = threads s0.
Proof. by intros (new & -> & _). Qed.

Lemma wp_printk s0 l f a s (Q : unit → mon_state → Prop) X :
  logged s0 s l → (∀ s', logged s0 s' (l ++ a) → Q () s') → wp (printk f a) s Q X.
Proof.
  intros (new & -> & <-) HQ. apply wp_modify, HQ. exists (new ++ [(f, a)]). simpl. split.
  - by rewrite <-app_assoc.
  - rewrite fmap_app, concat_app. simpl. by rewrite app_nil_r.
Qed.

Lemma wp_print_call s0 l f i s (Q : unit → mon_state → Prop) X :
  logged s0 s l → (∀ s', logged s0 s' (l ++ numbers i) → Q () s') → wp (print_call f i) s Q X.
Proof.
  intros Hs HQ. unfold print_call.
  apply wp_bind. eapply wp_printk; [exact Hs|]. intros s1 H1. apply wp_bind. eapply wp_printk; [exact H1|]. intros s2 H2.
  apply wp_bind. eapply wp_printk; [exact H2|]. intros s3 H3. eapply wp_printk; [exact H3|]. intros s4 H4.
  apply HQ. by rewrite <-!app_assoc in H4.
Qed.

(** A silent message, and the lines about a call of the system or of a process. *)
Lemma wp_say s0 l f s (Q : unit → mon_state → Prop) X :
  logged s0 s l → (∀ s', logged s0 s' l → Q () s') → wp (printk f []) s Q X.
Proof. intros Hs HQ. eapply wp_printk; [exact Hs|]. by rewrite app_nil_r. Qed.

Lemma wp_print_info s0 l f c s (Q : unit → mon_state → Prop) X :
  zlen (syscall_info_table s0) = N_CALLS → 0 ≤ c < N_CALLS → logged s0 s l →
  (∀ s', logged s0 s' (l ++ all_numbers (info_stat s0) [c]) → Q () s') →
  wp (let! pidstats := aget InfoTable c in print_call f pidstats) s Q X.
Proof.
  intros Hlen Hc Hs HQ. destruct (zlookup_range (syscall_info_table s0) c) as [i Hi]; [lia|].
  apply wp_bind. eapply wp_aget; [simpl; by rewrite (logged_info _ _ _ Hs)|].
  eapply wp_print_call; [exact Hs|]. intros s' H'. apply HQ.
  unfold all_numbers, info_stat. simpl. by rewrite Hi.
Qed.

Lemma wp_print_proc s0 l f p th c s (Q : unit → mon_state → Prop) X :
  threads s0 !! p = Some th → zlen (stats th) = N_CALLS + 1 → 0 ≤ c ≤ N_CALLS → logged s0 s l →
  (∀ s', logged s0 s' (l ++ all_numbers (proc_stat s0 p) [c]) → Q () s') →
  wp (let! pidstats := of_option (zlookup (stats th) c) in print_call f pidstats) s Q X.
Proof.
  intros Hth Hlen Hc Hs HQ. destruct (zlookup_range (stats th) c) as [i Hi]; [lia|].
  apply wp_bind. eapply wp_of_option; [exact Hi|]. eapply wp_print_call; [exact Hs|]. intros s' H'.
  apply HQ. unfold all_numbers, proc_stat. rewrite Hth. simpl. by rewrite Hi.
Qed.

Lemma wp_print_total_sys_stats s0 l s (Q : unit → mon_state → Prop) X :
  zlen (syscall_info_table s0) = N_CALLS → logged s0 s l →
  (∀ s', logged s0 s' (l ++ all_numbers (info_stat s0) [OPEN; CLOSE; MYWRITE; CLONE; LSEEK]) → Q () s') →
  wp print_total_sys_stats s Q X.
Proof.
  intros Hlen Hs HQ. unfold print_total_sys_stats.
  do 3 (apply wp_bind; eapply wp_say; [eassumption|]; intros ? ?).
  do 5 (apply wp_bind; eapply wp_print_info; [exact Hlen|done|eassumption|]; intros ? ?).
  eapply wp_say; [eassumption|]. intros sf Hf. apply HQ. by rewrite <-!app_assoc in Hf.
Qed.

Lemma wp_print_stats s0 l p s (Q : unit → mon_state → Prop) X :
  recorded s0 p → logged s0 s l →
  (∀ s', logged s0 s' (l ++ p :: all_numbers (proc_stat s0 p) [N_CALLS; OPEN; CLOSE; MYWRITE; CLONE; LSEEK]) → Q () s') →
  wp (print_stats p) s Q X.
Proof.
  intros [(th & Hth & Hlen) _] Hs HQ. unfold print_stats, find_task_by_pid. do 3 wp_step. apply wp_ret.
  simpl view. rewrite (logged_threads _ _ _ Hs), Hth.
  apply wp_bind. eapply wp_say; [exact Hs|]. intros s1 H1. apply wp_bind. eapply wp_printk; [exact H1|]. intros s2 H2.
  apply wp_bind. eapply wp_say; [exact H2|]. intros s3 H3.
  apply wp_bind. eapply wp_of_option; [done|]. unfold thread_of. do 3 wp_step.
  eapply wp_of_option; [by rewrite <-Hth, <-(logged_threads _ _ _ H3)|].
  destruct (zlookup_range (stats th) N_CALLS) as [i Hi]; [unfold N_CALLS in *; lia|].
  apply wp_bind, wp_bind. eapply wp_of_option; [exact Hi|].
  do 3 (apply wp_bind; eapply wp_printk; [eassumption|]; intros ? ?).
  eapply wp_printk; [eassumption|]. intros ? ?.
  apply wp_bind. eapply wp_say; [eassumption|]. intros ? ?.
  do 5 (apply wp_bind; eapply wp_print_proc; [exact Hth|exact Hlen|by unfold N_CALLS|eassumption|]; intros ? ?).
  eapply wp_say; [eassumption|]. intros sf Hf. apply HQ.
  rewrite <-!app_assoc in Hf.
  change (all_numbers (proc_stat s0 p) (N_CALLS :: ?l)) with
    (numbers (default t_info_zero (proc_stat s0 p N_CALLS)) ++ all_numbers (proc_stat s0 p) l).
  assert (proc_stat s0 p N_CALLS = Some i) as -> by (unfold proc_stat; rewrite Hth; exact Hi). exact Hf.
Qed.

Section Install.
Context (NR_open NR_close NR_write NR_clone NR_lseek : Z) (r0 r1 r2 r3 r4 : routine).

Definition intercepted (m : gmap Z routine) : gmap Z routine :=
  <[NR_lseek := LocalTrap LSEEK]> (<[NR_clone := LocalTrap CLONE]> (<[NR_write := LocalTrap MYWRITE]>
    (<[NR_close := LocalTrap CLOSE]> (<[NR_open := LocalTrap OPEN]> m)))).
Definition reinstated (m : gmap Z routine) : gmap Z routine :=
  <[NR_lseek := r4]> (<[NR_clone := r3]> (<[NR_write := r2]> (<[NR_close := r1]> (<[NR_open := r0]> m)))).

(** The routines the module found in the table. *)
Definition found (m : gmap Z routine) : Prop :=
  m !! NR_open = Some r0 ∧ m !! NR_close = Some r1 ∧ m !! NR_write = Some r2 ∧
  m !! NR_clone = Some r3 ∧ m !! NR_lseek = Some r4.

Lemma reinstated_intercepted m : found m → reinstated (intercepted m) = m.
Proof using.
  intros (H0 & H1 & H2 & H3 & H4). apply map_eq. intros i. unfold reinstated, intercepted.
  destruct (decide (i = NR_lseek)) as [->|]; [by rewrite lookup_insert_eq|].
  rewrite (lookup_insert_ne _ NR_lseek) by done.
  destruct (decide (i = NR_clone)) as [->|]; [by rewrite lookup_insert_eq|].
  rewrite (lookup_insert_ne _ NR_clone) by done.
  destruct (decide (i = NR_write)) as [->|]; [by rewrite lookup_insert_eq|].
  rewrite (lookup_insert_ne _ NR_write) by done.
  destruct (decide (i = NR_close)) as [->|]; [by rewrite lookup_insert_eq|].
  rewrite (lookup_insert_ne _ NR_close) by done.
  destruct (decide (i = NR_open)) as [->|]; [by rewrite lookup_insert_eq|].
  by rewrite !lookup_insert_ne.
Qed.

Lemma list5 {A} (l : list A) : zlen l = N_CALLS → ∃ a b c d e, l = [a; b; c; d; e].
Proof using.
  unfold zlen, N_CALLS. destruct l as [|a [|b [|c [|d [|e [|f l]]]]]]; simpl; intros; try lia.
  by exists a, b, c, d, e.
Qed.

(** The process whose records are reset exists. *)
Definition first_process (s : mon_state) : Z :=
  match threads s !! pid_init s with Some _ => pid_init s | None => 1 end.

Lemma wp_syscalls_mon_init s (Q : Z → mon_state → Prop) X :
  found (sys_call_table s) → zlen (sys_call_table_original s) = N_CALLS →
  zlen (sys_call_table_local s) = N_CALLS → recorded s (first_process s) →
  (∀ s', sys_call_table s' = intercepted (sys_call_table s) →
     sys_call_table_original s' = [r0; r1; r2; r3; r4] →
     sys_call_table_local s' = LocalTrap <$> [OPEN; CLOSE; MYWRITE; CLONE; LSEEK] →
     (∀ i, 0 ≤ i ≤ N_CALLS → proc_stat s' (first_process s) i = Some t_info_zero) →
     pid_init s' = first_process s → recorded s' (first_process s) →
     syscall_info_table s' = syscall_info_table s → Q 0 s') →
  wp (syscalls_mon_init NR_open NR_close NR_write NR_clone NR_lseek) s Q X.
Proof using.
  intros (H0 & H1 & H2 & H3 & H4) Ho Hl Hrec HQ. destruct s as [tbl o l info ths c pi ts mr kl]. simpl in *.
  destruct (list5 o Ho) as (o0 & o1 & o2 & o3 & o4 & ->).
  destruct (list5 l Hl) as (l0 & l1 & l2 & l3 & l4 & ->). unfold syscalls_mon_init.
  apply wp_bind. eapply wp_save_original; [exact H0|by vm_compute|].
  apply wp_bind. eapply wp_save_original; [exact H1|by vm_compute|].
  apply wp_bind. eapply wp_save_original; [exact H2|by vm_compute|].
  apply wp_bind. eapply wp_save_original; [exact H3|by vm_compute|].
  apply wp_bind. eapply wp_save_original; [exact H4|by vm_compute|].
  do 5 (apply wp_bind, wp_aset; [by vm_compute|]).
  do 5 (apply wp_bind; eapply wp_install; [reflexivity|]).
  assert (∀ s2 p, pid_init s2 = p → recorded s2 p →
    (∀ s' kl', reset p p s2 s' → Q 0 (set_klog kl' s')) →
    wp (let! owner := of_option (Some p) in let! p := get PidInit in reset_stats p owner;;
        printk "SysCalls Monitor successfully loaded on PID=%i\n" [p];; ret 0) s2 Q X)
    as Hend.
  { intros s2 p <- Hr HQ'. apply wp_bind. eapply wp_of_option; [done|]. do 2 wp_step. apply wp_bind, wp_reset_stats; [done|].
    intros s' Hs'. by apply wp_bind, wp_modify, wp_ret, HQ'. }
  unfold first_process in *. simpl in *. destruct Hrec as [(th & Hth & Hlen) Hinfo]. simpl in *.
  assert (∀ p s2 s' kl', reset p p s2 s' → sys_call_table s2 = intercepted tbl →
    sys_call_table_original s2 = [r0; r1; r2; r3; r4] →
    sys_call_table_local s2 = LocalTrap <$> [OPEN; CLOSE; MYWRITE; CLONE; LSEEK] →
    pid_init s2 = p → syscall_info_table s2 = info →
    p = match ths !! pi with Some _ => pi | None => 1 end → Q 0 (set_klog kl' s')) as HQ'.
  { intros p s2 s' kl' [Rp _ [Rt Ri] [ths' ->]] ? ? ? Hpi ? Ep. apply HQ; try done; rewrite <-Ep; try done.
    intros i Hi. by rewrite <-(decide_True (P := p = p ∧ 0 ≤ i ≤ N_CALLS) (Some t_info_zero) (proc_stat s2 p i)), <-Rp by done. }
  unfold find_task_by_pid. do 5 wp_step. apply wp_ret. simpl. destruct (ths !! pi) as [x|] eqn:Epi.
  - apply wp_bind, wp_ret, Hend; [done|split; [by exists th|done]|].
    intros s' kl' Hs'. by eapply HQ'.
  - do 6 wp_step. apply wp_ret. simpl. rewrite Hth. apply wp_bind, wp_modify, wp_ret.
    apply Hend; [done|split; [by exists th|done]|]. intros s' kl' Hs'. by eapply HQ'.
Qed.

(** The numbers the module logs when it is unloaded. *)
Definition last_report (s : mon_state) : list Z :=
  pid_init s :: all_numbers (proc_stat s (pid_init s)) [N_CALLS; OPEN; CLOSE; MYWRITE; CLONE; LSEEK]
  ++ all_numbers (info_stat s) [OPEN; CLOSE; MYWRITE; CLONE; LSEEK].

Lemma wp_syscalls_mon_exit s (Q : unit → mon_state → Prop) X :
  sys_call_table_original s = [r0; r1; r2; r3; r4] → recorded s (pid_init s) →
  (∀ s', logged (set_sys_call_table (reinstated (sys_call_table s)) s) s' (last_report s) → Q () s') →
  wp (syscalls_mon_exit NR_open NR_close NR_write NR_clone NR_lseek) s Q X.
Proof using.
  intros Ho Hr HQ. set (s0 := set_sys_call_table (reinstated (sys_call_table s)) s) in *.
  assert (recorded s0 (pid_init s)) as Hr0 by (destruct Hr; by split).
  unfold syscalls_mon_exit. do 5 (apply wp_bind; eapply wp_restore; [simpl; by rewrite Ho|]).
  apply wp_bind, wp_get, wp_bind. unfold find_task_by_pid. apply wp_bind, wp_get, wp_ret.
  destruct (rc_thread _ _ Hr) as (th & Hth & _). simpl view. rewrite Hth.
  apply wp_bind. match goal with |- wp _ ?t _ _ => change t with s0 end.
  apply wp_bind. eapply wp_say; [apply logged_refl|]. intros s1 H1.
  apply wp_bind. eapply wp_print_stats; [exact Hr0|exact H1|]. intros s2 H2.
  apply wp_bind. eapply wp_say; [exact H2|]. intros s3 H3.
  eapply wp_print_total_sys_stats; [apply Hr0|exact H3|]. intros s4 H4.
  eapply wp_say; [exact H4|]. exact HQ.
Qed.
End Install.
