(* ===== verification/Queues.v ===== *)
(** * The process queues: what the intrusive lists of the kernel stand for.

    Every list head of the kernel owns a sequence of tasks.  The abstraction
    is a function [q] from heads to sequences of task numbers, [queues_ok]
    relates it to the pointers, and each list routine has a rule on [q]. *)
From stdpp Require Import functions.
From S2P Require Import Prelude KList Mm KState Sched.

Implicit Types (h : links) (hd : node) (t : Z) (l : list Z) (q : node → list Z) (act : node → Prop).

(** The list heads; [act] says which of them are initialised. *)
Definition is_head hd : Prop :=
  match hd with
  | Runqueue | KeyboardQueue => True
  | WaitList i => 0 ≤ i < SEM_MAX_VALUE
  | RunList _ => False
  end.

Record queues_ok act h q : Prop := {
  ok_nodes : ∀ n, n ∈ all_nodes → is_Some (h !! n);
  ok_heads : ∀ hd, act hd → is_head hd;
  ok_dlist : ∀ hd, act hd → dlist h hd (RunList <$> q hd);
  ok_live : ∀ hd t, t ∈ q hd → act hd;
  ok_disjoint : ∀ hd hd' t, t ∈ q hd → t ∈ q hd' → hd = hd';
  ok_range : ∀ hd t, t ∈ q hd → 0 ≤ t < NR_TASKS;
}.

Lemma head_in_all_nodes hd : is_head hd → hd ∈ all_nodes.
Proof.
  unfold all_nodes. destruct hd as [| |i|t]; intros Hhd; [| | |done];
    rewrite !elem_of_cons, ?elem_of_app, ?list_elem_of_fmap; auto.
  right. right. left. exists i. split; [done|]. apply elem_of_seqZ. simpl in Hhd. lia.
Qed.

Lemma run_list_in_all_nodes t : 0 ≤ t < NR_TASKS → RunList t ∈ all_nodes.
Proof.
  intros. unfold all_nodes. rewrite !elem_of_cons, elem_of_app, !list_elem_of_fmap.
  do 3 right. exists t. split; [done|]. apply elem_of_seqZ. lia.
Qed.

#[global] Instance RunList_inj : Inj (=) (=) RunList.
Proof. by intros ? ? [= ->]. Qed.

Lemma elem_of_run_nodes n l : n ∈ RunList <$> l ↔ ∃ t, n = RunList t ∧ t ∈ l.
Proof. apply list_elem_of_fmap. Qed.
Lemma run_node_elem t l : RunList t ∈ RunList <$> l ↔ t ∈ l.
Proof. rewrite elem_of_run_nodes. split; [intros (? & [= ->] & ?); done | eauto]. Qed.

Lemma head_not_run_node hd l : is_head hd → hd ∉ RunList <$> l.
Proof. intros Hhd (t & -> & _)%elem_of_run_nodes. done. Qed.

Lemma queues_ok_NoDup act h q hd : queues_ok act h q → NoDup (q hd).
Proof.
  intros Hok. destruct (q hd) as [|t l] eqn:E; [constructor|].
  assert (act hd) as Hact by (eapply (ok_live _ _ _ Hok _ t); rewrite E; set_solver).
  destruct (ok_dlist _ _ _ Hok _ Hact) as [_ [_ Hnd]%NoDup_cons].
  rewrite <-E. by apply (NoDup_fmap_1 RunList).
Qed.

(** A sequence without one of its elements. *)
Definition without t l : list Z := filter (λ x, x ≠ t) l.

Lemma elem_of_without t t' l : t' ∈ without t l ↔ t' ≠ t ∧ t' ∈ l.
Proof. unfold without. by rewrite list_elem_of_filter. Qed.

Lemma without_id t l : t ∉ l → without t l = l.
Proof.
  unfold without. induction l as [|x l IH]; [done|]. intros [? ?]%not_elem_of_cons.
  rewrite filter_cons, decide_True by done. by rewrite IH.
Qed.

Lemma without_app t l1 l2 : NoDup (l1 ++ t :: l2) → without t (l1 ++ t :: l2) = l1 ++ l2.
Proof.
  intros (_ & Hd & [? _]%NoDup_cons)%NoDup_app. unfold without.
  rewrite filter_app, filter_cons, decide_False by (by intros []).
  f_equal; apply without_id; [|done]. intros ?%Hd. set_solver.
Qed.

Lemma without_head t l : NoDup (t :: l) → without t (t :: l) = l.
Proof. apply (without_app t []). Qed.

Section Rules.
Context (act : node → Prop) (q : node → list Z).

(** A change of store that leaves the nodes of the other queues alone. *)
Lemma queues_ok_frame h h' hd l ns :
  queues_ok act h q → frame h h' ns →
  (∀ n, n ∈ ns → n = hd ∨ ∃ t, n = RunList t ∧ ∀ hd', hd' ≠ hd → t ∉ q hd') →
  act hd → dlist h' hd (RunList <$> l) →
  (∀ t, t ∈ l → 0 ≤ t < NR_TASKS ∧ ∀ hd', hd' ≠ hd → t ∉ q hd') →
  queues_ok act h' (<[hd := l]> q).
Proof.
  intros Hok Hf Hns Hact Hdl Hl. split.
  - intros n ?. by apply Hf, (ok_nodes _ _ _ Hok).
  - apply (ok_heads _ _ _ Hok).
  - intros hd' Hact'. destruct (decide (hd' = hd)) as [->|Hne].
    { by rewrite fn_lookup_insert. }
    rewrite fn_lookup_insert_ne by done.
    eapply frame_dlist; [done| |by apply (ok_dlist _ _ _ Hok)].
    pose proof (ok_heads _ _ _ Hok _ Hact') as Hhd'.
    intros n [->|(t & -> & Ht)%elem_of_run_nodes]%elem_of_cons Hin.
    + destruct (Hns _ Hin) as [->|(t & -> & _)]; done.
    + destruct (Hns _ Hin) as [<-|(t' & [= <-] & Ht')].
      * by apply (ok_heads _ _ _ Hok) in Hact.
      * by apply (Ht' hd').
  - intros hd' t. destruct (decide (hd' = hd)) as [->|]; [done|].
    rewrite fn_lookup_insert_ne by done. apply (ok_live _ _ _ Hok).
  - intros hd1 hd2 t. destruct (decide (hd1 = hd)) as [->|], (decide (hd2 = hd)) as [->|];
      rewrite ?fn_lookup_insert, ?fn_lookup_insert_ne by done; intros H1 H2; try done.
    + exfalso. by apply (proj2 (Hl t H1) hd2).
    + exfalso. by apply (proj2 (Hl t H2) hd1).
    + by apply (ok_disjoint _ _ _ Hok hd1 hd2 t).
  - intros hd' t. destruct (decide (hd' = hd)) as [->|].
    + rewrite fn_lookup_insert. intros H. by apply Hl.
    + rewrite fn_lookup_insert_ne by done. apply (ok_range _ _ _ Hok).
Qed.

Lemma wp_list_del_task h hd t Q X :
  queues_ok act h q → t ∈ q hd →
  (∀ h', queues_ok act h' (<[hd := without t (q hd)]> q) → Q () h') →
  wp (list_del (RunListP t)) h Q X.
Proof.
  intros Hok Ht HQ.
  pose proof (ok_live _ _ _ Hok _ _ Ht) as Hact.
  pose proof (ok_dlist _ _ _ Hok _ Hact) as Hdl.
  pose proof (queues_ok_NoDup _ _ _ hd Hok) as Hnd.
  destruct (list_elem_of_split _ _ Ht) as (l1 & l2 & Hq).
  rewrite Hq in HQ, Hdl, Hnd. rewrite without_app in HQ by done.
  rewrite fmap_app, fmap_cons in Hdl.
  eapply wp_list_del_dlist; [done|]. intros h' Hdl' Hf _. rewrite <-fmap_app in Hdl'.
  assert (∀ t', t' ∈ l1 ++ t :: l2 → 0 ≤ t' < NR_TASKS ∧ ∀ hd', hd' ≠ hd → t' ∉ q hd') as Hin.
  { rewrite <-Hq. intros t' Ht'. split; [by eapply ok_range|].
    intros hd' Hne Ht''. by eapply Hne, ok_disjoint. }
  apply HQ. eapply queues_ok_frame; [done|done| |done|done|].
  - rewrite <-fmap_cons, <-fmap_app. intros n [->|(t' & -> & Ht')%elem_of_run_nodes]%elem_of_cons;
      [by left|right]. exists t'. split; [done|]. by apply Hin.
  - intros t' Ht'. apply Hin. set_solver.
Qed.

Lemma wp_list_add_tail_task h hd t Q X :
  queues_ok act h q → act hd → 0 ≤ t < NR_TASKS → (∀ hd', t ∉ q hd') →
  (∀ h', queues_ok act h' (<[hd := q hd ++ [t]]> q) → Q () h') →
  wp (list_add_tail (RunListP t) (Some hd)) h Q X.
Proof.
  intros Hok Hact Ht Hfree HQ.
  pose proof (ok_dlist _ _ _ Hok _ Hact) as Hdl.
  eapply wp_list_add_tail; [done| | |].
  - by apply (ok_nodes _ _ _ Hok), run_list_in_all_nodes.
  - intros [E|(? & [= <-] & ?)%elem_of_run_nodes]%elem_of_cons; [|by eapply Hfree].
    apply (ok_heads _ _ _ Hok) in Hact. by rewrite <-E in Hact.
  - intros h' Hdl' Hf. apply HQ.
    assert (∀ t', t' ∈ q hd ++ [t] → 0 ≤ t' < NR_TASKS ∧ ∀ hd', hd' ≠ hd → t' ∉ q hd') as Hin.
    { intros t' [Ht'| ->%list_elem_of_singleton]%elem_of_app; [|done].
      split; [by eapply ok_range|]. intros hd' Hne ?. by eapply Hne, ok_disjoint. }
    eapply queues_ok_frame; [done|done| |done| |done].
    + intros n [->|[->|(t' & -> & Ht')%elem_of_run_nodes]%elem_of_cons]%elem_of_cons.
      * right. exists t. split; [done|]. apply Hin. set_solver.
      * by left.
      * right. exists t'. split; [done|]. apply Hin. set_solver.
    + by rewrite fmap_app.
Qed.

Lemma wp_list_add_task h hd t Q X :
  queues_ok act h q → act hd → 0 ≤ t < NR_TASKS → (∀ hd', t ∉ q hd') →
  (∀ h', queues_ok act h' (<[hd := t :: q hd]> q) → Q () h') →
  wp (list_add (RunListP t) (Some hd)) h Q X.
Proof.
  intros Hok Hact Ht Hfree HQ.
  pose proof (ok_dlist _ _ _ Hok _ Hact) as Hdl.
  eapply wp_list_add; [done| | |].
  - by apply (ok_nodes _ _ _ Hok), run_list_in_all_nodes.
  - intros [E|(? & [= <-] & ?)%elem_of_run_nodes]%elem_of_cons; [|by eapply Hfree].
    apply (ok_heads _ _ _ Hok) in Hact. by rewrite <-E in Hact.
  - intros h' Hdl' Hf. apply HQ.
    assert (∀ t', t' ∈ t :: q hd → 0 ≤ t' < NR_TASKS ∧ ∀ hd', hd' ≠ hd → t' ∉ q hd') as Hin.
    { intros t' [->|Ht']%elem_of_cons; [done|].
      split; [by eapply ok_range|]. intros hd' Hne ?. by eapply Hne, ok_disjoint. }
    eapply queues_ok_frame; [done|done| |done|done|done].
    intros n [->|[->|(t' & -> & Ht')%elem_of_run_nodes]%elem_of_cons]%elem_of_cons.
    + right. exists t. split; [done|]. apply Hin. set_solver.
    + by left.
    + right. exists t'. split; [done|]. apply Hin. set_solver.
Qed.

Lemma wp_INIT_head h hd Q X :
  queues_ok act h q → is_head hd → ¬ act hd →
  (∀ h' act', (∀ hd', act' hd' ↔ act hd' ∨ hd' = hd) → queues_ok act' h' q → Q () h') →
  wp (INIT_LIST_HEAD (Some hd)) h Q X.
Proof.
  intros Hok Hhd Hact HQ.
  destruct (ok_nodes _ _ _ Hok hd) as [c Hc]; [by apply head_in_all_nodes|].
  assert (q hd = []) as Hq.
  { apply elem_of_nil_inv. intros t Ht. by eapply Hact, ok_live. }
  eapply wp_INIT_LIST_HEAD; [done|]. intros h' Hdl Hf.
  apply (HQ _ (λ hd', act hd' ∨ hd' = hd)); [done|]. split.
  - intros n ?. by apply Hf, (ok_nodes _ _ _ Hok).
  - intros hd' [?| ->]; [by eapply ok_heads | done].
  - intros hd' [Hact'| ->]; [|by rewrite Hq].
    eapply frame_dlist; [done| |by apply (ok_dlist _ _ _ Hok)].
    pose proof (ok_heads _ _ _ Hok _ Hact') as Hhd'.
    intros n [->|(t & -> & Ht)%elem_of_run_nodes]%elem_of_cons E%list_elem_of_singleton;
      subst; done.
  - intros hd' t Ht. left. by eapply ok_live.
  - apply (ok_disjoint _ _ _ Hok).
  - apply (ok_range _ _ _ Hok).
Qed.

Lemma wp_list_first_head h hd Q X :
  queues_ok act h q → act hd →
  Q (Some (default hd (RunList <$> head (q hd)))) h →
  wp (list_first (Some hd)) h Q X.
Proof.
  intros Hok Hact HQ. apply wp_bind. eapply wp_load_head; [by eapply ok_dlist|].
  intros c _ Hn _. apply wp_ret. rewrite Hn. by destruct (q hd).
Qed.

Lemma wp_list_last_head h hd Q X :
  queues_ok act h q → act hd →
  Q (Some (default hd (RunList <$> last (q hd)))) h →
  wp (list_last (Some hd)) h Q X.
Proof.
  intros Hok Hact HQ. apply wp_bind. eapply wp_load_head; [by eapply ok_dlist|].
  intros c _ _ Hp. apply wp_ret. rewrite Hp. by rewrite fmap_last in *.
Qed.

Lemma wp_list_empty_head h hd Q X :
  queues_ok act h q → act hd → Q (bool_decide (q hd = [])) h →
  wp (list_empty (Some hd)) h Q X.
Proof.
  intros Hok Hact HQ. eapply wp_list_empty; [by eapply ok_dlist|].
  replace (bool_decide (RunList <$> q hd = [])) with (bool_decide (q hd = [])); [done|].
  by destruct (q hd).
Qed.

(** A store to the node of a task that is in no queue. *)
Lemma queues_ok_store_free h t c :
  queues_ok act h q → (∀ hd, t ∉ q hd) → queues_ok act (<[RunList t := c]> h) q.
Proof.
  intros Hok Hfree. split; try apply Hok.
  - intros n Hn. rewrite lookup_store. case_decide; [eauto|]. by apply (ok_nodes _ _ _ Hok).
  - intros hd Hact. eapply dlist_frame; [|by apply (ok_dlist _ _ _ Hok)].
    pose proof (ok_heads _ _ _ Hok _ Hact) as Hhd.
    intros n [->|(t' & -> & Ht')%elem_of_run_nodes]%elem_of_cons;
      apply lookup_insert_ne; [by intros <- | intros [= ->]; by eapply Hfree].
Qed.
End Rules.

(** ** The invariant of the queues. *)

(** The part of the kernel state the queues depend on. *)
Record qview : Type := QView {
  v_lists : links; v_cur : Z; v_counter : Z; v_sem : list semaphore; v_pids : list Z
}.
Definition qview_of (k : kstate) : qview :=
  QView (lists k) (cur (sched k)) (pid_counter (sched k)) (sem k) (pid <$> task k).

(** The wait list of a semaphore is initialised with the semaphore. *)
Definition active (sems : list semaphore) (hd : node) : Prop :=
  match hd with
  | Runqueue | KeyboardQueue => True
  | WaitList i => init <$> zlookup sems i = Some 1
  | RunList _ => False
  end.

(** Every queue is a well formed list; a task is in one queue at most and in
    one exactly when it is alive; the initial process is alive, runnable and
    has pid 0; pids are distinct and below the counter; a living current
    process is runnable; a semaphore with waiting processes counts 0. *)
Record qinv (v : qview) (q : node → list Z) : Prop := {
  qi_ok : queues_ok (active (v_sem v)) (v_lists v) q;
  qi_tasks : zlen (v_pids v) = NR_TASKS;
  qi_sems : zlen (v_sem v) = SEM_MAX_VALUE;
  qi_counter : 1 ≤ v_counter v ≤ INT_MAX;
  qi_pid : ∀ t p, zlookup (v_pids v) t = Some p → p = -1 ∨ 0 ≤ p < v_counter v;
  qi_inj : ∀ t t' p, zlookup (v_pids v) t = Some p → zlookup (v_pids v) t' = Some p →
           0 ≤ p → t = t';
  qi_zero : zlookup (v_pids v) 0 = Some 0;
  qi_live : ∀ t p, zlookup (v_pids v) t = Some p → (0 ≤ p ↔ ∃ hd, t ∈ q hd);
  qi_init : 0 ∈ q Runqueue;
  qi_cur : 0 ≤ v_cur v < NR_TASKS;
  qi_run : ∀ p, zlookup (v_pids v) (v_cur v) = Some p → 0 ≤ p → v_cur v ∈ q Runqueue;
  qi_count : ∀ i s, zlookup (v_sem v) i = Some s → q (WaitList i) ≠ [] → count s = 0;
  qi_unsigned : ∀ i s, zlookup (v_sem v) i = Some s → 0 ≤ count s < 2 ^ 32;
}.

(** The lengths of the arrays, and frames that can be freed. *)
Record task_shape (v : task_struct) : Prop := {
  ts_pages : zlen (ph_pages v) = NUM_PAG_DATA;
  ts_frames : Forall (λ f, 0 ≤ f < TOTAL_PAGES) (ph_pages v);
  ts_owned : zlen (owned_sems v) = SEM_MAX_VALUE;
  ts_fds : zlen (file_descriptors v) = MAX_FDS;
}.
Record shape (k : kstate) : Prop := {
  sh_mem : zlen (phys_mem (mm k)) = TOTAL_PAGES;
  sh_table : zlen (pagusr_table (mm k)) = TOTAL_PAGES;
  sh_task : ∀ t v, zlookup (task k) t = Some v → task_shape v;
}.

Definition kinv (k : kstate) : Prop := shape k ∧ ∃ q, qinv (qview_of k) q.

(** An operation that leaves the queues alone. *)
Definition quiet (k k' : kstate) : Prop := qview_of k' = qview_of k ∧ (shape k → shape k').
#[export] Instance quiet_preorder : PreOrder quiet.
Proof.
  unfold quiet. split; [done|]. intros k1 k2 k3 [E1 S1] [E2 S2].
  split; [congruence | auto].
Qed.

Lemma quiet_kinv k k' : quiet k k' → kinv k → kinv k'.
Proof. intros [E S] (Hs & q & Hq). split; [auto | exists q; by rewrite E]. Qed.

Section Consequences.
Context (v : qview) (q : node → list Z) (Hq : qinv v q).

Lemma qi_active hd t : t ∈ q hd → active (v_sem v) hd.
Proof. apply (ok_live _ _ _ (qi_ok _ _ Hq)). Qed.

Lemma qi_lookup t : 0 ≤ t < NR_TASKS → ∃ p, zlookup (v_pids v) t = Some p.
Proof. intros. apply zlookup_range. by rewrite (qi_tasks _ _ Hq). Qed.

Lemma qi_alive hd t : t ∈ q hd → ∃ p, zlookup (v_pids v) t = Some p ∧ 0 ≤ p < v_counter v.
Proof.
  intros Ht. destruct (qi_lookup t) as [p Hp]; [by eapply ok_range; [apply Hq|]|].
  exists p. split; [done|].
  destruct (qi_pid _ _ Hq _ _ Hp) as [->|?]; [|done].
  apply (qi_live _ _ Hq) in Hp. destruct Hp as [_ Hp]. lapply Hp; [lia | eauto].
Qed.

(** A task without a pid is in no queue. *)
Lemma qi_dead t : zlookup (v_pids v) t = Some (-1) → ∀ hd, t ∉ q hd.
Proof.
  intros Hp hd Ht. apply qi_alive in Ht as (p & Hp' & ?). simplify_eq. lia.
Qed.

Lemma qi_pid_zero t : zlookup (v_pids v) t = Some 0 → t = 0.
Proof. intros Ht. by eapply (qi_inj _ _ Hq); [|apply Hq|]. Qed.

(** The queues after [t] went from one to the tail of another. *)
Lemma qinv_ext q' : (∀ hd, q' hd = q hd) → qinv v q'.
Proof.
  intros E. destruct Hq. split; try done; intros *; rewrite ?E; eauto.
  - destruct qi_ok0. split; intros *; rewrite ?E; eauto.
  - intros Hp. rewrite (qi_live0 _ _ Hp). by setoid_rewrite E.
Qed.
End Consequences.

(** ** A task goes from one queue to the end of another. *)

Definition qmove q hd hd' t : node → list Z :=
  let q1 := <[hd := without t (q hd)]> q in <[hd' := q1 hd' ++ [t]]> q1.

Lemma qdel_elem act h q hd t t' hd' :
  queues_ok act h q → t ∈ q hd →
  t' ∈ <[hd := without t (q hd)]> q hd' ↔ t' ≠ t ∧ t' ∈ q hd'.
Proof.
  intros Hok Ht. destruct (decide (hd' = hd)) as [->|Hne].
  - by rewrite fn_lookup_insert, elem_of_without.
  - rewrite fn_lookup_insert_ne by done. split; [|by intros []].
    intros Ht'. split; [|done]. intros ->. by eapply Hne, ok_disjoint.
Qed.

Lemma elem_qmove act h q hd t hd' t' hd'' :
  queues_ok act h q → t ∈ q hd →
  t' ∈ qmove q hd hd' t hd'' ↔ (hd'' = hd' ∧ t' = t) ∨ (t' ≠ t ∧ t' ∈ q hd'').
Proof.
  intros Hok Ht. unfold qmove. destruct (decide (hd'' = hd')) as [->|Hne].
  - rewrite fn_lookup_insert, elem_of_app, qdel_elem, list_elem_of_singleton by done. naive_solver.
  - rewrite (fn_lookup_insert_ne _ hd'), qdel_elem by done. naive_solver.
Qed.

Lemma qmove_same act h q hd t hd' t' :
  queues_ok act h q → t ∈ q hd →
  (∃ hd'', t' ∈ qmove q hd hd' t hd'') ↔ ∃ hd'', t' ∈ q hd''.
Proof.
  intros Hok Ht. setoid_rewrite elem_qmove; [|done..].
  destruct (decide (t' = t)) as [->|]; naive_solver.
Qed.

Lemma qinv_moved v q hd hd' t h' c' :
  qinv v q → t ∈ q hd →
  queues_ok (active (v_sem v)) h' (qmove q hd hd' t) →
  (t = 0 → hd' = Runqueue) →
  0 ≤ c' < NR_TASKS →
  (∀ p, zlookup (v_pids v) c' = Some p → 0 ≤ p → c' ∈ qmove q hd hd' t Runqueue) →
  (∀ i s, hd' = WaitList i → zlookup (v_sem v) i = Some s → count s = 0) →
  qinv (QView h' c' (v_counter v) (v_sem v) (v_pids v)) (qmove q hd hd' t).
Proof.
  intros Hqi Ht Hok Hz Hc Hrun Hcount. pose proof (qi_ok _ _ Hqi) as Hok0.
  split; simpl; [done|apply Hqi..| | |done|done| |apply Hqi].
  - intros t' p Hp. rewrite qmove_same by done. by apply Hqi.
  - rewrite elem_qmove by done. pose proof (qi_init _ _ Hqi).
    destruct (decide (t = 0)) as [->|]; [left; by rewrite Hz | right; done].
  - intros i s Hs Hne. destruct (decide (hd' = WaitList i)) as [->|]; [by eapply Hcount|].
    apply (qi_count _ _ Hqi i s Hs). intros E. apply Hne. apply elem_of_nil_inv. intros t'.
    rewrite elem_qmove, E by done. naive_solver set_solver.
Qed.

(** A switch to another runnable task. *)
Lemma qinv_switch v q t :
  qinv v q → t ∈ q Runqueue →
  qinv (QView (v_lists v) t (v_counter v) (v_sem v) (v_pids v)) q.
Proof.
  intros Hqi Ht. pose proof (ok_range _ _ _ (qi_ok _ _ Hqi) _ _ Ht).
  destruct Hqi. by split.
Qed.

(** The first task of a queue goes to the end of another. *)
Record dequeued q hd t l hd' q' : Prop := {
  dq_from : q hd = t :: l;
  dq_rest : q' hd = l;
  dq_to : q' hd' = q hd' ++ [t];
  dq_other : ∀ hd'', hd'' ≠ hd → hd'' ≠ hd' → q' hd'' = q hd'';
}.

Lemma qmove_dequeued q hd t l hd' :
  q hd = t :: l → NoDup (t :: l) → hd ≠ hd' → dequeued q hd t l hd' (qmove q hd hd' t).
Proof.
  intros Hq Hnd Hne. unfold qmove. split; [done| | |].
  - by rewrite fn_lookup_insert_ne, fn_lookup_insert, Hq, without_head.
  - by rewrite fn_lookup_insert, fn_lookup_insert_ne.
  - intros. by rewrite !fn_lookup_insert_ne.
Qed.

(** A queue holds every task once at most. *)
Lemma queue_length act h q hd : queues_ok act h q → zlen (q hd) ≤ NR_TASKS.
Proof.
  intros Hok. assert (q hd ⊆+ seqZ 0 NR_TASKS) as Hsub%submseteq_length.
  { apply NoDup_submseteq; [by eapply queues_ok_NoDup|].
    intros t Ht. apply elem_of_seqZ. pose proof (ok_range _ _ _ Hok _ _ Ht). lia. }
  rewrite length_seqZ in Hsub. unfold zlen, NR_TASKS in *. lia.
Qed.

(** ** Stores to the tasks. *)

Lemma wp_task_set {A} (setter : A → task_struct → task_struct) i a v k Q X :
  zlookup (task k) i = Some v →
  Q () (set_task (zinsert i (setter a v) (task k)) k) →
  wp (task_set setter i a) k Q X.
Proof. intros ? ?. by eapply wp_amodify. Qed.

Lemma wp_sem_set {A} (setter : A → semaphore → semaphore) i a s k Q X :
  zlookup (sem k) i = Some s →
  Q () (set_sem (zinsert i (setter a s) (sem k)) k) →
  wp (sem_set setter i a) k Q X.
Proof. intros ? ?. by eapply wp_amodify. Qed.

Lemma pids_zinsert (l : list task_struct) i v v' :
  zlookup l i = Some v → pid v' = pid v → pid <$> zinsert i v' l = pid <$> l.
Proof. intros Hv E. rewrite zinsert_fmap, E. apply zinsert_id. by rewrite zlookup_fmap, Hv. Qed.

Lemma shape_set_task k i v v' :
  shape k → zlookup (task k) i = Some v → task_shape v' →
  shape (set_task (zinsert i v' (task k)) k).
Proof.
  intros Hs Hv Hv'. split; try apply Hs. simpl. intros t w.
  rewrite zlookup_zinsert by eauto with arrays. case_decide; [naive_solver|]. apply Hs.
Qed.

Lemma shape_set_lists k h : shape k → shape (set_lists h k).
Proof. intros Hs. split; apply Hs. Qed.
Lemma shape_set_sem k s : shape k → shape (set_sem s k).
Proof. intros Hs. split; apply Hs. Qed.
Lemma shape_set_sched k s : shape k → shape (set_sched s k).
Proof. intros Hs. split; apply Hs. Qed.
#[export] Hint Resolve shape_set_task shape_set_lists shape_set_sem shape_set_sched : kernel.

Lemma qinv_lookup_task k q t :
  qinv (qview_of k) q → 0 ≤ t < NR_TASKS → ∃ v, zlookup (task k) t = Some v.
Proof.
  intros Hq Ht. destruct (qi_lookup _ _ Hq t Ht) as [p Hp].
  simpl in Hp. rewrite zlookup_fmap in Hp. destruct (zlookup (task k) t); eauto. done.
Qed.

Lemma qinv_current k q :
  qinv (qview_of k) q → ∃ v, zlookup (task k) (cur (sched k)) = Some v.
Proof. intros Hq. eapply qinv_lookup_task; [done | apply Hq]. Qed.

Lemma qinv_lookup_sem k q i :
  qinv (qview_of k) q → 0 ≤ i < SEM_MAX_VALUE → ∃ s, zlookup (sem k) i = Some s.
Proof. intros Hq Ht. apply zlookup_range. pose proof (qi_sems _ _ Hq) as E. simpl in E. lia. Qed.

Lemma task_lookup_range k q t v :
  qinv (qview_of k) q → zlookup (task k) t = Some v → 0 ≤ t < NR_TASKS.
Proof.
  intros Hq Ht%zlookup_Some_range. pose proof (qi_tasks _ _ Hq) as E. simpl in E.
  by rewrite zlen_fmap, E in *.
Qed.

(** ** Looking at a queue. *)

Section Looking.
Context (k : kstate) (q : node → list Z) (act : node → Prop) (hd : node).
Hypothesis Hok : queues_ok act (lists k) q.
Hypothesis Hact : act hd.

Lemma wp_first Q X :
  Q (Some (default hd (RunList <$> head (q hd)))) k →
  wp (zoom Lists (list_first (Some hd))) k Q X.
Proof. intros HQ. apply wp_zoom_read; [apply _|]. by eapply wp_list_first_head. Qed.

Lemma wp_last Q X :
  Q (Some (default hd (RunList <$> last (q hd)))) k →
  wp (zoom Lists (list_last (Some hd))) k Q X.
Proof. intros HQ. apply wp_zoom_read; [apply _|]. by eapply wp_list_last_head. Qed.

Lemma wp_empty Q X :
  Q (bool_decide (q hd = [])) k → wp (zoom Lists (list_empty (Some hd))) k Q X.
Proof. intros HQ. apply wp_zoom_read; [apply _|]. by eapply wp_list_empty_head. Qed.
End Looking.
