(* ===== verification/SchedFacts.v ===== *)
(** * The context switch and the scheduler: their effect on every branch. *)
From stdpp Require Import functions.
From S2P Require Import Prelude KList Mm KState Sched Queues.

(** ** Mapping the frames of a process. *)

(** [m'] is [m] with the first [n] of [frames] mapped from logical page
    [base] on, and nothing else changed but the pages the TLB may hold. *)
Record maps_pages (base : Z) (frames : list Z) (n : Z) (m m' : mm_state) : Prop := {
  mp_mapped : ∀ i f, 0 ≤ i < n → zlookup frames i = Some f →
              zlookup (pagusr_table m') (base + i) = Some (user_pte (u32 f));
  mp_other : ∀ p, ¬ (base ≤ p < base + n) →
             zlookup (pagusr_table m') p = zlookup (pagusr_table m) p;
  mp_len : zlen (pagusr_table m') = zlen (pagusr_table m);
  mp_phys : phys_mem m' = phys_mem m;
  mp_ram : ram m' = ram m;
  mp_dir : dir_pages m' = dir_pages m;
  mp_paging : paging m' = paging m;
}.

Lemma maps_pages_0 base frames m : maps_pages base frames 0 m m.
Proof. split; try done. intros. lia. Qed.

Lemma maps_pages_flush base frames n m m' :
  maps_pages base frames n m m' → maps_pages base frames n m (set_stale ∅ m').
Proof. intros []. by split. Qed.

Lemma wp_map_page base frames i f m m' Q X :
  maps_pages base frames i m m' → zlookup frames i = Some f → 0 ≤ i →
  0 ≤ base → base + i < zlen (pagusr_table m) →
  (∀ m'', maps_pages base frames (i + 1) m m'' → Q () m'') →
  wp (set_ss_pag (base + i) (u32 f)) m' Q X.
Proof.
  intros Hm Hf ? ? ? HQ. pose proof (mp_len _ _ _ _ _ Hm) as Hlen.
  apply wp_set_ss_pag; [lia|]. apply HQ.
  destruct Hm. split; simpl; try done.
  - intros j g ? Hg. rewrite zlookup_zinsert by lia. case_decide.
    + replace j with i in * by lia. by simplify_eq.
    + apply mp_mapped0; [lia | done].
  - intros p ?. rewrite zlookup_zinsert_ne by lia. apply mp_other0. lia.
  - by rewrite zlen_zinsert.
Qed.

(** ** [task_switch]. *)

Definition resume_task (v : task_struct) : task_struct :=
  t_remaining (quantum v) (t_transitions (s32 (transitions v + 1)) v).
Definition resume_sched (t : Z) (v : task_struct) (s : sched_state) : sched_state :=
  MkSched t (pid_counter s) (if bool_decide (it_is_int s = 1) then 0 else it_is_int s)
    (quantum v) (tics s) (stack_end (task_addr s) t)
    (if bool_decide (it_is_int s = 1) then false else in_service s) (task_addr s).

(** [t] is resumed: it runs for its whole quantum in its own address space. *)
Inductive resumed (t : Z) (k k' : kstate) : Prop :=
| Resumed v m' :
    zlookup (task k) t = Some v →
    maps_pages PAG_LOG_INIT_DATA_P0 (ph_pages v) NUM_PAG_DATA (mm k) m' →
    stale m' = ∅ →
    k' = set_mm m' (set_sched (resume_sched t v (sched k))
           (set_task (zinsert t (resume_task v) (task k)) k)) →
    resumed t k k'.

Lemma task_shape_frame v i f :
  task_shape v → zlookup (ph_pages v) i = Some f → 0 ≤ f < TOTAL_PAGES.
Proof.
  intros Hv Hf%zlookup_elem. pose proof (ts_frames _ Hv) as HF.
  rewrite Forall_forall in HF. by apply HF.
Qed.

Ltac task_step :=
  first
    [ wp_step
    | eapply wp_aget; [simpl; first [eassumption | apply zlookup_zinsert_eq; simpl; rewrite ?zlen_zinsert; by eauto with arrays]|]
    | eapply wp_task_set; [simpl; first [eassumption | apply zlookup_zinsert_eq; simpl; rewrite ?zlen_zinsert; by eauto with arrays]|] ].

Lemma wp_task_switch t v k Q X :
  zlookup (task k) t = Some v → shape k →
  (∀ k', resumed t k k' → X k') →
  wp (task_switch t) k Q X.
Proof.
  intros Hv Hs HX. pose proof (sh_task _ Hs _ _ Hv) as Hts.
  pose proof (ts_pages _ Hts) as Hlen. unfold task_switch.
  repeat task_step.
  set (s1 := MkSched (cur (sched k)) (pid_counter (sched k)) (it_is_int (sched k)) (quantum v)
    (tics (sched k)) (stack_end (task_addr (sched k)) t) (in_service (sched k))
    (task_addr (sched k))).
  set (k1 := set_sched s1 (set_task (zinsert t (resume_task v) (task k)) k)).
  match goal with |- wp _ ?k' _ _ => replace k' with k1
    by (unfold k1; simpl; unfold set_task; simpl; by rewrite zinsert_zinsert_eq) end.
  assert (zlookup (task k1) t = Some (resume_task v)) as Hv1.
  { apply zlookup_zinsert_eq. eauto with arrays. }
  eapply (wp_loop (λ i k', ∃ m', k' = set_mm m' k1 ∧ 0 ≤ i ≤ NUM_PAG_DATA ∧
    maps_pages PAG_LOG_INIT_DATA_P0 (ph_pages v) i (mm k) m') (λ i, NUM_PAG_DATA - i)).
  { exists (mm k). split_and!; [done|done|done|apply maps_pages_0]. }
  { done. }
  intros i k' (m' & -> & Hi & Hm). split; [lia|].
  case_bool_decide as Hlt.
  - apply wp_bind. eapply wp_aget; [done|].
    destruct (zlookup_range (ph_pages v) i) as [f Hf]; [lia|].
    apply wp_bind. eapply wp_of_option; [done|].
    pose proof (task_shape_frame _ _ _ Hts Hf). rewrite bool_decide_true by lia.
    apply wp_bind, wp_zoom. eapply wp_map_page; [done|done|lia|done| |].
    + rewrite (sh_table _ Hs). change PAG_LOG_INIT_DATA_P0 with 264. unfold TOTAL_PAGES, NUM_PAG_DATA in *. lia.
    + intros m'' Hm''. apply wp_ret. split; [|lia]. exists m''. split_and!; [done|lia..|done].
  - apply wp_ret. assert (i = NUM_PAG_DATA) as -> by lia.
    apply maps_pages_flush in Hm. unfold set_cr3, EOI. repeat wp_step. simpl.
    case_bool_decide as Hint; repeat wp_step.
    all: apply HX; econstructor; [done|done|done|].
    all: unfold resume_sched, set_sched, set_mm; simpl; unfold set_it_is_int, set_in_service, set_cur; simpl.
    all: by rewrite ?bool_decide_true, ?bool_decide_false by done.
Qed.

(** The view and the shape of a state in which a task was resumed. *)
Lemma resumed_view t k k' :
  resumed t k k' →
  qview_of k' = QView (lists k) t (pid_counter (sched k)) (sem k) (pid <$> task k).
Proof.
  intros [v m' Hv _ _ ->]. unfold qview_of. simpl. f_equal.
  by apply pids_zinsert with v.
Qed.

Lemma resumed_shape t k k' : shape k → resumed t k k' → shape k'.
Proof.
  intros Hs [v m' Hv Hm _ ->]. pose proof (sh_task _ Hs _ _ Hv) as Hts.
  assert (shape (set_task (zinsert t (resume_task v) (task k)) k)) as Hs'.
  { eapply shape_set_task; [done|done|]. destruct Hts. by split. }
  split; simpl; [rewrite (mp_phys _ _ _ _ _ Hm)|rewrite (mp_len _ _ _ _ _ Hm)|]; apply Hs'.
Qed.

(** ** [schedule]. *)

(** The whole run of [schedule] when the slice is over and there is somebody to
    switch to: the current task, when it is alive, goes to the end of the run
    queue, and the first task of the queue is resumed. *)
Definition rotated (k : kstate) (q : node → list Z) (v : task_struct) : node → list Z :=
  if bool_decide (pid v = -1) then q else qmove q Runqueue Runqueue (cur (sched k)).

Definition new_slice (v : task_struct) (k : kstate) : kstate :=
  set_task (zinsert (cur (sched k)) (t_remaining (quantum v) v) (task k))
    (update Left4current (quantum v) k).

Lemma head_last_single l (x y : Z) :
  NoDup l → head l = Some x → last l = Some y → x = y → l = [x].
Proof.
  intros Hnd Hh Hl ->. destruct l as [|a l]; [done|]. simplify_eq/=.
  destruct l as [|b l _] using rev_ind; [done|].
  rewrite app_comm_cons, last_snoc in Hl. simplify_eq.
  apply NoDup_cons in Hnd as [Hn _]. set_solver.
Qed.

Lemma current_runnable k q v :
  qinv (qview_of k) q → zlookup (task k) (cur (sched k)) = Some v → pid v ≠ -1 →
  cur (sched k) ∈ q Runqueue.
Proof.
  intros Hq Hv Hne. assert (pid <$> zlookup (task k) (cur (sched k)) = Some (pid v)) as Hp
    by by rewrite Hv.
  rewrite <-zlookup_fmap in Hp.
  eapply (qi_run _ _ Hq); [done|]. destruct (qi_pid _ _ Hq _ _ Hp); lia.
Qed.

Lemma init_rotated k q v :
  qinv (qview_of k) q → zlookup (task k) (cur (sched k)) = Some v → 0 ∈ rotated k q v Runqueue.
Proof.
  intros Hq Hv. pose proof (qi_init _ _ Hq) as H0. unfold rotated. case_bool_decide; [done|].
  rewrite elem_qmove; [|apply Hq|by eapply current_runnable].
  destruct (decide (0 = cur (sched k))); auto.
Qed.

Lemma qinv_rotated k q v h' t rest :
  qinv (qview_of k) q → zlookup (task k) (cur (sched k)) = Some v →
  queues_ok (active (sem k)) h' (rotated k q v) → rotated k q v Runqueue = t :: rest →
  qinv (QView h' t (pid_counter (sched k)) (sem k) (pid <$> task k)) (rotated k q v).
Proof.
  intros Hq Hv Hok Ht. unfold rotated in *.
  assert (0 ≤ t < NR_TASKS) by (eapply (ok_range _ _ _ Hok Runqueue); rewrite Ht; set_solver).
  case_bool_decide.
  - pose proof (qinv_switch _ _ t Hq) as [].  { rewrite Ht. set_solver. } by split.
  - assert (cur (sched k) ∈ q Runqueue) by by eapply current_runnable.
    apply (qinv_moved (qview_of k)); try done. intros _ _ _. rewrite Ht. set_solver.
Qed.

Lemma wp_rotate k q v Q X :
  qinv (qview_of k) q → zlookup (task k) (cur (sched k)) = Some v →
  (∀ h', queues_ok (active (sem k)) h' (rotated k q v) → Q () (set_lists h' k)) →
  wp (let! t := aget Task (cur (sched k)) in
      if bool_decide (pid t ≠ -1) then
        zoom Lists (list_del (RunListP (cur (sched k))));;
        zoom Lists (list_add_tail (RunListP (cur (sched k))) RunqueueP)
      else ret ()) k Q X.
Proof.
  intros Hq Hv HQ. pose proof (qi_ok _ _ Hq) as Hok.
  apply wp_bind. eapply wp_aget; [done|]. unfold rotated in HQ.
  destruct (decide (pid v = -1)) as [E|E].
  - rewrite bool_decide_false by tauto. rewrite bool_decide_true in HQ by done.
    apply wp_ret. destruct k. by apply HQ.
  - rewrite bool_decide_true by done. rewrite bool_decide_false in HQ by done.
    assert (cur (sched k) ∈ q Runqueue) as Hc by by eapply current_runnable.
    apply wp_bind, wp_zoom. eapply wp_list_del_task; [done|done|]. intros h1 Hok1.
    apply wp_zoom. eapply wp_list_add_tail_task; [done|done|apply Hq| |].
    + intros hd'. rewrite qdel_elem by done. tauto.
    + intros h2 Hok2. by apply HQ.
Qed.

Lemma wp_schedule from_int k q v Q X :
  shape k → qinv (qview_of k) q → zlookup (task k) (cur (sched k)) = Some v →
  (0 < left4current (sched k) → Q () k) →
  (∀ t, left4current (sched k) ≤ 0 → q Runqueue = [t] → Q () (new_slice v k)) →
  (∀ h' t rest k', left4current (sched k) ≤ 0 → q Runqueue ≠ [t] →
     rotated k q v Runqueue = t :: rest →
     resumed t (update ItIsInt from_int (set_lists h' k)) k' →
     qinv (qview_of k') (rotated k q v) → shape k' → X k') →
  wp (schedule from_int) k Q X.
Proof.
  intros Hs Hq Hv HQ1 HQ2 HX. pose proof (qi_ok _ _ Hq) as Hok. unfold schedule, current.
  repeat wp_step. simpl. case_bool_decide as Hleft; [|apply wp_ret, HQ1; lia].
  apply wp_bind. eapply wp_first; [done|done|].
  apply wp_bind. eapply wp_last; [done|done|].
  pose proof (queues_ok_NoDup _ _ _ Runqueue Hok) as Hnd.
  pose proof (qi_init _ _ Hq) as H0.
  destruct (q Runqueue) as [|x l] eqn:Hrun; [set_solver|].
  destruct (last (x :: l)) as [y|] eqn:Hlast; [|by apply last_None in Hlast].
  destruct (decide (x = y)) as [Exy|Exy].
  - rewrite bool_decide_true by by rewrite Exy.
    assert (x :: l = [x]) as El by by eapply head_last_single.
    do 2 wp_step. eapply wp_aget; [done|]. do 3 wp_step.
    eapply wp_task_set; [done|]. rewrite El in *. by eapply HQ2.
  - rewrite bool_decide_false by (intros [=]; done). apply wp_bind.
    eapply wp_rotate; [done|done|]. intros h' Hok'.
    apply wp_bind. eapply wp_first; [done|done|].
    pose proof (init_rotated _ _ _ Hq Hv) as H0'.
    destruct (rotated k q v Runqueue) as [|t rest] eqn:Hrot; [set_solver|].
    pose proof (qinv_rotated _ _ _ _ _ _ Hq Hv Hok' Hrot) as Hq'.
    destruct (qinv_lookup_task _ _ t Hq) as [w Hw]; [apply (qi_cur _ _ Hq')|].
    repeat wp_step. eapply wp_task_switch; [done|by apply shape_set_sched, shape_set_lists|].
    intros k' Hk'. eapply HX; [done| |done|done| |].
    + intros [= -> ->]. simplify_eq/=.
    + by rewrite (resumed_view _ _ _ Hk').
    + eapply resumed_shape; [|done]. by apply shape_set_sched, shape_set_lists.
Qed.
