(* ===== verification/SemFacts.v ===== *)
(** * The semaphores: every branch of the four system calls. *)
From stdpp Require Import functions.
From S2P Require Import Prelude KList Mm Fs KState Sched Sem Queues.
From S2P Require Import SchedFacts.

(** [s] is the initialised semaphore [n]. *)
Definition sem_at (k : kstate) (n : Z) (s : semaphore) : Prop :=
  zlookup (sem k) n = Some s ∧ init s = 1.

Lemma sem_at_active k n s : sem_at k n s → active (sem k) (WaitList n).
Proof. intros [Hs Hi]. simpl. by rewrite Hs; simpl; rewrite Hi. Qed.

Lemma sem_range k q n s :
  qinv (qview_of k) q → zlookup (sem k) n = Some s → 0 ≤ n < SEM_MAX_VALUE.
Proof.
  intros Hq Hs%zlookup_Some_range. pose proof (qi_sems _ _ Hq) as E. simpl in E. lia.
Qed.

Lemma wp_sem_valid k q n Q X :
  qinv (qview_of k) q →
  (∀ s, sem_at k n s → Q true k) →
  ((∀ s, ¬ sem_at k n s) → Q false k) →
  wp (sem_valid n) k Q X.
Proof.
  intros Hq Ht Hf. unfold sem_valid.
  destruct (decide (0 ≤ n < SEM_MAX_VALUE)) as [Hn|Hn].
  - rewrite !bool_decide_false by lia. simpl.
    destruct (qinv_lookup_sem _ _ _ Hq Hn) as [s Hs].
    apply wp_bind. eapply wp_aget; [done|]. apply wp_ret. case_bool_decide as Hi.
    + by eapply Ht.
    + apply Hf. intros s' [Hs' ?]. simpl in *. congruence.
  - replace (_ || _) with true
      by (symmetry; rewrite orb_true_iff, !bool_decide_eq_true; lia).
    apply wp_ret, Hf. intros s [Hs _]. by apply Hn, (sem_range k q n s).
Qed.

(** ** [sys_sem_signal]. *)

Inductive signal_post (k : kstate) (q : node → list Z) (n : Z)
  : Z → kstate → (node → list Z) → Prop :=
| signal_invalid : (∀ s, ¬ sem_at k n s) → signal_post k q n (- EINVAL) k q
| signal_wake s t l v h' q' :
    sem_at k n s → zlookup (task k) t = Some v →
    dequeued q (WaitList n) t l Runqueue q' →
    signal_post k q n 0
      (set_lists h' (set_task (zinsert t (t_saved_eax 0 v) (task k)) k)) q'
| signal_count s :
    sem_at k n s → q (WaitList n) = [] →
    signal_post k q n 0 (set_sem (zinsert n (s_count (u32 (count s + 1)) s) (sem k)) k) q.

Lemma wp_sem_wake k q n r s t l v Q X :
  shape k → qinv (qview_of k) q → sem_at k n s → q (WaitList n) = t :: l →
  zlookup (task k) t = Some v →
  (∀ h' q', let k' := set_lists h' (set_task (zinsert t (t_saved_eax r v) (task k)) k) in
     dequeued q (WaitList n) t l Runqueue q' → qinv (qview_of k') q' → shape k' → Q () k') →
  wp (sem_wake n r) k Q X.
Proof.
  intros Hs Hq Hn Ht Hv HQ. pose proof (qi_ok _ _ Hq) as Hok.
  pose proof (sem_at_active _ _ _ Hn) as Hact.
  assert (t ∈ q (WaitList n)) as Hin by (rewrite Ht; set_solver).
  apply wp_bind. eapply wp_first; [done|done|]. rewrite Ht. simpl.
  apply wp_bind, wp_zoom. eapply wp_list_del_task; [done|done|]. intros h1 Hok1.
  repeat wp_step. eapply wp_task_set; [done|]. apply wp_zoom.
  eapply wp_list_add_tail_task; [done|done|by apply (ok_range _ _ _ Hok _ _ Hin)| |].
  { intros hd'. rewrite qdel_elem by done. tauto. }
  intros h2 Hok2. apply (HQ h2 (qmove q (WaitList n) Runqueue t)).
  - apply qmove_dequeued; [done| |done]. rewrite <-Ht. by eapply queues_ok_NoDup.
  - unfold qview_of. simpl. erewrite pids_zinsert by done.
    apply (qinv_moved (qview_of k)); try done; [apply Hq|].
    intros p Hp ?. rewrite elem_qmove by done.
    destruct (decide (cur (sched k) = t)) as [->|]; [by left|right].
    split; [done|]. by eapply (qi_run _ _ Hq).
  - apply shape_set_lists. eapply shape_set_task; [done|done|].
    destruct (sh_task _ Hs _ _ Hv). by split.
Qed.

(** A change of the counter of a semaphore nobody waits for. *)
Lemma qinv_set_count k q n s c :
  qinv (qview_of k) q → zlookup (sem k) n = Some s → q (WaitList n) = [] → 0 ≤ c < 2 ^ 32 →
  qinv (qview_of (set_sem (zinsert n (s_count c s) (sem k)) k)) q.
Proof.
  intros Hq Hs He Hc. pose proof (zlookup_Some_range _ _ _ Hs) as Hr.
  assert (∀ hd, active (zinsert n (s_count c s) (sem k)) hd ↔ active (sem k) hd) as Hact.
  { intros [| |i|]; simpl; try done. rewrite zlookup_zinsert by done.
    case_decide; subst; [by rewrite Hs|done]. }
  split; simpl; try apply Hq.
  - pose proof (qi_ok _ _ Hq) as []. split; try done; intros hd *; rewrite Hact; eauto.
  - rewrite zlen_zinsert. apply (qi_sems _ _ Hq).
  - intros i s'. rewrite zlookup_zinsert by done. case_decide; [by subst|]. apply Hq.
  - intros i s'. rewrite zlookup_zinsert by done. case_decide; [naive_solver|]. apply Hq.
Qed.

Lemma wp_sys_sem_signal k q n Q X :
  shape k → qinv (qview_of k) q →
  (∀ r k' q', signal_post k q n r k' q' → qinv (qview_of k') q' → shape k' → Q r k') →
  wp (sys_sem_signal n) k Q X.
Proof.
  intros Hs Hq HQ. unfold sys_sem_signal. apply wp_bind.
  eapply wp_sem_valid; [done| |].
  - intros s Hn. simpl. pose proof (sem_at_active _ _ _ Hn) as Hact.
    apply wp_bind. eapply wp_empty; [apply Hq|done|]. case_bool_decide as He; simpl.
    + apply wp_bind, wp_bind. eapply wp_aget; [apply Hn|].
      eapply wp_sem_set; [apply Hn|]. apply wp_ret. eapply HQ.
      * by constructor.
      * apply qinv_set_count; [done|apply Hn|done|apply u32_range].
      * by apply shape_set_sem.
    + destruct (q (WaitList n)) as [|t l] eqn:Ht; [done|].
      destruct (qinv_lookup_task _ _ t Hq) as [v Hv].
      { eapply (ok_range _ _ _ (qi_ok _ _ Hq) (WaitList n)). rewrite Ht. set_solver. }
      apply wp_bind. eapply wp_sem_wake; [done..|]. intros h' q' k' ? ? ?.
      apply wp_ret. eapply HQ; [by econstructor|done|done].
  - intros Hn. simpl. apply wp_ret. by eapply HQ; [constructor|..].
Qed.

(** ** [sys_sem_wait]. *)

Inductive wait_post (k : kstate) (n : Z) : Z → kstate → Prop :=
| wait_init v : zlookup (task k) (cur (sched k)) = Some v → pid v = 0 →
    wait_post k n (- EPERM) k
| wait_invalid v : zlookup (task k) (cur (sched k)) = Some v → pid v ≠ 0 →
    (∀ s, ¬ sem_at k n s) → wait_post k n (- EINVAL) k
| wait_down v s : zlookup (task k) (cur (sched k)) = Some v → pid v ≠ 0 →
    sem_at k n s → 0 < count s →
    wait_post k n 0 (set_sem (zinsert n (s_count (count s - 1) s) (sem k)) k).

(** The caller went from the run queue to the end of the wait list, and the
    next task of the run queue was resumed. *)
Inductive wait_blocked (k : kstate) (q : node → list Z) (n : Z)
  : kstate → (node → list Z) → Prop :=
| wait_block s h' t rest k' :
    sem_at k n s → count s = 0 →
    let q' := qmove q Runqueue (WaitList n) (cur (sched k)) in
    q' Runqueue = t :: rest →
    resumed t (update ItIsInt 0 (set_lists h' k)) k' →
    wait_blocked k q n k' q'.

(** The switch of a task that blocks in [hd]. *)
Lemma qinv_blocked k q hd h' t rest :
  qinv (qview_of k) q → cur (sched k) ∈ q Runqueue → cur (sched k) ≠ 0 → hd ≠ Runqueue →
  (∀ i s, hd = WaitList i → zlookup (sem k) i = Some s → count s = 0) →
  queues_ok (active (sem k)) h' (qmove q Runqueue hd (cur (sched k))) →
  qmove q Runqueue hd (cur (sched k)) Runqueue = t :: rest →
  qinv (QView h' t (pid_counter (sched k)) (sem k) (pid <$> task k))
    (qmove q Runqueue hd (cur (sched k))).
Proof.
  intros Hq Hc Hc0 Hhd Hcount Hok Ht.
  apply (qinv_moved (qview_of k)); try done.
  - eapply (ok_range _ _ _ Hok Runqueue). rewrite Ht. set_solver.
  - intros _ _ _. rewrite Ht. set_solver.
Qed.

Lemma wp_block k q hd Q X :
  shape k → qinv (qview_of k) q → cur (sched k) ∈ q Runqueue → cur (sched k) ≠ 0 →
  hd ≠ Runqueue → active (sem k) hd →
  (∀ h', queues_ok (active (sem k)) h' (qmove q Runqueue hd (cur (sched k))) →
         Q () (set_lists h' k)) →
  wp (zoom Lists (list_del (RunListP (cur (sched k))));;
      zoom Lists (list_add_tail (RunListP (cur (sched k))) (Some hd))) k Q X.
Proof.
  intros Hs Hq Hc Hc0 Hhd Hact HQ. pose proof (qi_ok _ _ Hq) as Hok.
  apply wp_bind, wp_zoom. eapply wp_list_del_task; [done|done|]. intros h1 Hok1.
  apply wp_zoom. eapply wp_list_add_tail_task; [done|done|apply Hq| |].
  - intros hd'. rewrite qdel_elem by done. tauto.
  - intros h2 Hok2. by apply HQ.
Qed.

Lemma wp_resume_next {A} k0 q h' (Q : A → kstate → Prop) X (kont : K A) :
  shape k0 →
  queues_ok (active (sem k0)) h' q → 0 ∈ q Runqueue → zlen (task k0) = NR_TASKS →
  (∀ t rest k', q Runqueue = t :: rest →
     resumed t (update ItIsInt 0 (set_lists h' k0)) k' → shape k' → X k') →
  wp (let! first := zoom Lists (list_first RunqueueP) in
      let! new_task := list_head_to_task_struct first in
      put ItIsInt 0;; task_switch new_task;; kont) (set_lists h' k0) Q X.
Proof.
  intros Hs Hok H0 Hlen HX. apply wp_bind. eapply wp_first; [done|done|].
  destruct (q Runqueue) as [|t rest] eqn:Ht; [set_solver|]. simpl.
  destruct (zlookup_range (task k0) t) as [v Hv].
  { rewrite Hlen. eapply (ok_range _ _ _ Hok Runqueue). rewrite Ht. set_solver. }
  repeat wp_step. eapply wp_task_switch; [done|by apply shape_set_sched, shape_set_lists|].
  intros k' Hk'. eapply HX; [done|done|].
  eapply resumed_shape; [|done]. by apply shape_set_sched, shape_set_lists.
Qed.

Lemma wp_sys_sem_wait k q n v Q X :
  shape k → qinv (qview_of k) q →
  zlookup (task k) (cur (sched k)) = Some v → pid v ≠ -1 →
  (∀ r k', wait_post k n r k' → qinv (qview_of k') q → shape k' → Q r k') →
  (∀ k' q', wait_blocked k q n k' q' → qinv (qview_of k') q' → shape k' → X k') →
  wp (sys_sem_wait n) k Q X.
Proof.
  intros Hs Hq Hv Halive HQ HX. unfold sys_sem_wait, cur_task, current. repeat wp_step.
  eapply wp_aget; [done|]. case_bool_decide as Hp0.
  { apply wp_ret, HQ; [by eapply wait_init|done|done]. }
  apply wp_bind. eapply wp_sem_valid; [done| |]; simpl.
  - intros s Hn. apply wp_bind. eapply wp_aget; [apply Hn|].
    pose proof (qi_unsigned _ _ Hq n s (proj1 Hn)) as Hcount. case_bool_decide as Hc.
    + pose proof (current_runnable _ _ _ Hq Hv Halive) as Hrun.
      assert (cur (sched k) ≠ 0) as Hc0.
      { intros E. pose proof (qi_zero _ _ Hq) as Hz. simpl in Hz.
        rewrite <-E, zlookup_fmap, Hv in Hz. simpl in Hz. congruence. }
      assert (count s = 0) as Hs0 by lia.
      pose proof (sem_at_active _ _ _ Hn) as Hact.
      apply wp_bind_assoc, wp_bind. eapply wp_block; [done..|]. intros h' Hok'.
      eapply wp_resume_next; [done|done| | |].
      * rewrite elem_qmove; [|apply Hq|done]. right. split; [done|apply Hq].
      * pose proof (qi_tasks _ _ Hq) as E. simpl in E. by rewrite zlen_fmap in E.
      * intros t rest k' Ht Hk' Hs'. eapply HX; [by econstructor| |done].
        rewrite (resumed_view _ _ _ Hk'). simpl. eapply qinv_blocked; try done.
        intros i s' [= <-] Hs''. destruct Hn. simpl in *. congruence.
    + apply wp_bind. eapply wp_sem_set; [apply Hn|]. apply wp_ret. rewrite u32_small by lia.
      assert (q (WaitList n) = []) as He.
      { apply dec_stable. intros E. by apply Hc, Z.eq_le_incl, (qi_count _ _ Hq n s (proj1 Hn)). }
      eapply HQ; [eapply wait_down; try done; lia| |by apply shape_set_sem].
      apply qinv_set_count; [done|apply Hn|done|lia].
  - intros Hn. apply wp_ret, HQ; [by eapply wait_invalid|done|done].
Qed.

(** ** [sys_sem_init]. *)

Inductive init_post (k : kstate) (n value : Z) : Z → kstate → Prop :=
| init_range : ¬ (0 ≤ n < SEM_MAX_VALUE) → init_post k n value (- EINVAL) k
| init_busy s : sem_at k n s → init_post k n value (- EBUSY) k
| init_done s v h' :
    zlookup (sem k) n = Some s → init s ≠ 1 →
    zlookup (task k) (cur (sched k)) = Some v →
    init_post k n value 0
      (set_lists h' (set_sem (zinsert n (Semaphore value 1) (sem k))
        (set_task (zinsert (cur (sched k)) (t_owned_sems (zinsert n 1 (owned_sems v)) v) (task k))
          k))).

Lemma wp_owned_sems_set i j x v k Q X :
  zlookup (task k) i = Some v → 0 ≤ j < zlen (owned_sems v) →
  Q () (set_task (zinsert i (t_owned_sems (zinsert j x (owned_sems v)) v) (task k)) k) →
  wp (owned_sems_set i j x) k Q X.
Proof.
  intros Hv [y Hy]%zlookup_range HQ. unfold owned_sems_set.
  apply wp_bind. eapply wp_aget; [done|]. apply wp_bind. eapply wp_of_option; [done|].
  by eapply wp_task_set.
Qed.

Lemma shape_owned k i j x v :
  shape k → zlookup (task k) i = Some v →
  shape (set_task (zinsert i (t_owned_sems (zinsert j x (owned_sems v)) v) (task k)) k).
Proof.
  intros Hs Hv. eapply shape_set_task; [done|done|]. destruct (sh_task _ Hs _ _ Hv).
  split; simpl; by rewrite ?zlen_zinsert.
Qed.

(** A semaphore that becomes initialised, with nobody waiting. *)
Lemma active_init sems n value s hd :
  zlookup sems n = Some s → 0 ≤ n < SEM_MAX_VALUE →
  active (zinsert n (Semaphore value 1) sems) hd ↔ active sems hd ∨ hd = WaitList n.
Proof.
  intros Hs Hn. pose proof (zlookup_Some_range _ _ _ Hs).
  destruct hd as [| |i|]; simpl; [naive_solver..| |naive_solver].
  rewrite zlookup_zinsert by done. case_decide; naive_solver.
Qed.

Lemma wp_sys_sem_init k q n value Q X :
  shape k → qinv (qview_of k) q → 0 ≤ value < 2 ^ 32 →
  (∀ r k', init_post k n value r k' → qinv (qview_of k') q → shape k' → Q r k') →
  wp (sys_sem_init n value) k Q X.
Proof.
  intros Hs Hq Hval HQ. unfold sys_sem_init, current.
  destruct (decide (0 ≤ n < SEM_MAX_VALUE)) as [Hn|Hn].
  2: { replace (_ || _) with true by (symmetry; rewrite orb_true_iff, !bool_decide_eq_true; lia).
       apply wp_ret, HQ; [by constructor|done|done]. }
  rewrite !bool_decide_false by lia. simpl.
  destruct (qinv_lookup_sem _ _ _ Hq Hn) as [s Hsem]. destruct (qinv_current _ _ Hq) as [v Hv].
  apply wp_bind. eapply wp_aget; [done|]. case_bool_decide as Hi.
  { apply wp_ret, HQ; [by eapply init_busy|done|done]. }
  assert (¬ active (sem k) (WaitList n)) as Hact.
  { simpl. rewrite Hsem. simpl. congruence. }
  assert (q (WaitList n) = []) as He.
  { apply elem_of_nil_inv. intros t Ht. by apply Hact, (qi_active _ _ Hq _ t). }
  pose proof (zlookup_Some_range _ _ _ Hsem) as Hr.
  apply wp_bind. eapply wp_sem_set; [done|]. apply wp_bind.
  eapply wp_sem_set; [by apply zlookup_zinsert_eq|]. simpl. rewrite zinsert_zinsert_eq.
  repeat wp_step. eapply wp_owned_sems_set; [done|by rewrite (ts_owned _ (sh_task _ Hs _ _ Hv))|].
  apply wp_bind, wp_zoom. eapply wp_INIT_head; [apply Hq|done|done|]. intros h' act' Hact' Hok'.
  repeat wp_step. apply (HQ _ _ (init_done k n value s v h' Hsem Hi Hv)).
  - unfold qview_of. simpl. erewrite pids_zinsert by done. destruct Hq. split; simpl in *; try done.
    + destruct Hok'. split; try done; intros hd *; rewrite active_init, <-Hact'; eauto.
    + by rewrite zlen_zinsert.
    + intros i s'. rewrite zlookup_zinsert by done. case_decide; [by subst|]. eauto.
    + intros i s'. rewrite zlookup_zinsert by done. case_decide; [|eauto]. by intros [= <-].
  - apply shape_set_lists, (shape_set_sem (set_task _ k)). by apply shape_owned.
Qed.

(** ** [sys_sem_destroy]. *)

(** The tasks of [l] are woken with the result [r]. *)
Definition woken (r : Z) (l : list Z) (ts ts' : list task_struct) : Prop :=
  zlen ts' = zlen ts ∧
  ∀ t v, zlookup ts t = Some v →
         zlookup ts' t = Some (if decide (t ∈ l) then t_saved_eax r v else v).

Lemma woken_nil r ts : woken r [] ts ts.
Proof. split; [done|]. intros t v ->. by rewrite decide_False by set_solver. Qed.

Lemma woken_pids r l ts ts' : woken r l ts ts' → pid <$> ts' = pid <$> ts.
Proof.
  intros [Hlen Hw]. apply list_eq_same_length with (length ts'); unfold zlen in Hlen.
  { rewrite !length_fmap. lia. } { by rewrite length_fmap. }
  intros i x y Hi. rewrite !list_lookup_fmap, <-!zlookup_nat.
  destruct (zlookup_range ts (Z.of_nat i)) as [v Hv]; [unfold zlen; lia|].
  rewrite (Hw _ _ Hv), Hv. simpl. case_decide; simpl; intros; congruence.
Qed.

Lemma woken_snoc r l t v ts ts' :
  woken r l ts ts' → zlookup ts' t = Some v → t ∉ l →
  woken r (l ++ [t]) ts (zinsert t (t_saved_eax r v) ts').
Proof.
  intros [Hlen Hw] Hv Ht. pose proof (zlookup_Some_range _ _ _ Hv). split.
  { by rewrite zlen_zinsert. }
  intros t' v' Hv'. rewrite zlookup_zinsert by done. pose proof (Hw _ _ Hv') as E.
  destruct (decide (t = t')) as [<-|Hne].
  - rewrite decide_False in E by done. simplify_eq. by rewrite decide_True by set_solver.
  - rewrite E. destruct (decide (t' ∈ l)); [by rewrite decide_True by set_solver|].
    by rewrite decide_False by set_solver.
Qed.

(** The queue [hd] was emptied, in order, to the end of the run queue. *)
Record drained (q : node → list Z) (hd : node) (q' : node → list Z) : Prop := {
  dr_empty : q' hd = [];
  dr_run : q' Runqueue = q Runqueue ++ q hd;
  dr_other : ∀ hd', hd' ≠ hd → hd' ≠ Runqueue → q' hd' = q hd';
}.

Definition release_sem (n : Z) (s : semaphore) (r : Z) (v : task_struct) (k : kstate) : kstate :=
  set_task (zinsert r (t_owned_sems (zinsert n (-1) (owned_sems v)) v) (task k))
    (set_sem (zinsert n (s_init 0 s) (sem k)) k).

Inductive destroy_post (k : kstate) (q : node → list Z) (n : Z)
  : Z → kstate → (node → list Z) → Prop :=
| destroy_invalid : (∀ s, ¬ sem_at k n s) → destroy_post k q n (- EINVAL) k q
| destroy_eperm s v o : sem_at k n s → zlookup (task k) (cur (sched k)) = Some v →
    zlookup (owned_sems v) n = Some o → o ≠ 1 → destroy_post k q n (- EPERM) k q
| destroy_done s v h' ts' q' :
    sem_at k n s → zlookup ts' (cur (sched k)) = Some v →
    zlookup (owned_sems v) n = Some 1 →
    woken (-1) (q (WaitList n)) (task k) ts' →
    drained q (WaitList n) q' →
    destroy_post k q n 0
      (release_sem n s (cur (sched k)) v (set_lists h' (set_task ts' k))) q'.

(** One more sleeper is woken. *)
Record draining (k : kstate) (q : node → list Z) (n : Z) (l : list Z) (k' : kstate)
    (q' : node → list Z) : Prop := {
  dg_all : q (WaitList n) = l ++ q' (WaitList n);
  dg_run : q' Runqueue = q Runqueue ++ l;
  dg_other : ∀ hd', hd' ≠ WaitList n → hd' ≠ Runqueue → q' hd' = q hd';
  dg_inv : qinv (qview_of k') q';
  dg_shape : shape k';
  dg_state : ∃ h' ts', k' = set_lists h' (set_task ts' k) ∧ woken (-1) l (task k) ts';
}.

Lemma draining_step k q n l k' q' t rest v h'' q'' :
  NoDup (q (WaitList n)) →
  draining k q n l k' q' → zlookup (task k') t = Some v →
  dequeued q' (WaitList n) t rest Runqueue q'' →
  let k'' := set_lists h'' (set_task (zinsert t (t_saved_eax (-1) v) (task k')) k') in
  qinv (qview_of k'') q'' → shape k'' → draining k q n (l ++ [t]) k'' q''.
Proof.
  intros Hnd [Ha Hr Ho _ _ (h' & ts' & -> & Hw)] Hv [Df Dr Dt Do] k'' Hq Hs.
  split; [|by rewrite Dt, Hr, app_assoc| |done|done|].
  - by rewrite Ha, Df, Dr, <-app_assoc.
  - intros hd' ? ?. rewrite Do, Ho by done. done.
  - exists h'', (zinsert t (t_saved_eax (-1) v) ts'). split; [done|].
    apply woken_snoc; [done|done|]. rewrite Ha, Df in Hnd.
    apply NoDup_app in Hnd as (_ & Hd & _). intros Ht. apply (Hd t Ht). set_solver.
Qed.

Lemma wp_wake_all k q n s Q X :
  shape k → qinv (qview_of k) q → sem_at k n s →
  (∀ k' q', draining k q n (q (WaitList n)) k' q' → q' (WaitList n) = [] → Q () k') →
  wp (loop (Datatypes.S (Z.to_nat NR_TASKS)) (λ _,
        let! empty := zoom Lists (list_empty (WaitListP n)) in
        if negb empty then sem_wake n (-1);; ret (inl ()) else ret (inr ())) ()) k Q X.
Proof.
  intros Hs Hq Hn HQ. pose proof (queues_ok_NoDup _ _ _ (WaitList n) (qi_ok _ _ Hq)) as Hnd.
  eapply (wp_loop_variant (λ n' _ k', ∃ l q', draining k q n l k' q' ∧ n' = zlen (q' (WaitList n)))
    (zlen (q (WaitList n)))).
  { exists [], q. split; [|done]. split; try done; [by rewrite app_nil_r|].
    exists (lists k), (task k). split; [by destruct k | apply woken_nil]. }
  { pose proof (queue_length _ _ _ (WaitList n) (qi_ok _ _ Hq)). unfold NR_TASKS in *. lia. }
  intros n' _ k' (l & q' & Hd & ->). split; [unfold zlen; lia|].
  destruct (dg_state _ _ _ _ _ _ Hd) as (h' & ts' & Ek & _).
  assert (sem_at k' n s) as Hn' by by rewrite Ek.
  pose proof (sem_at_active _ _ _ Hn') as Hact. pose proof (dg_inv _ _ _ _ _ _ Hd) as Hq'.
  apply wp_bind. eapply wp_empty; [apply Hq'|done|]. case_bool_decide as He; simpl.
  - apply wp_ret. eapply HQ; [|done]. by rewrite (dg_all _ _ _ _ _ _ Hd), He, app_nil_r.
  - destruct (q' (WaitList n)) as [|t rest] eqn:Ht; [done|].
    destruct (qinv_lookup_task _ _ t Hq') as [v Hv].
    { eapply (ok_range _ _ _ (qi_ok _ _ Hq') (WaitList n)). rewrite Ht. set_solver. }
    apply wp_bind. eapply wp_sem_wake; [apply Hd|done..|]. intros h'' q'' k'' Hdq Hq'' Hs''.
    apply wp_ret. exists (zlen rest). split; [unfold zlen; simpl; lia|].
    exists (l ++ [t]), q''. split; [by eapply draining_step|]. by rewrite (dq_rest _ _ _ _ _ _ Hdq).
Qed.

(** A semaphore that is destroyed, with nobody waiting. *)
Lemma qinv_release k q n s r v :
  qinv (qview_of k) q → zlookup (sem k) n = Some s → q (WaitList n) = [] →
  zlookup (task k) r = Some v → qinv (qview_of (release_sem n s r v k)) q.
Proof.
  intros Hq Hs He Hv. pose proof (zlookup_Some_range _ _ _ Hs) as Hr.
  assert (∀ hd, active (zinsert n (s_init 0 s) (sem k)) hd → active (sem k) hd) as Hact.
  { intros [| |i|]; simpl; try done. rewrite zlookup_zinsert by done. by case_decide. }
  assert (∀ hd, hd ≠ WaitList n → active (sem k) hd →
          active (zinsert n (s_init 0 s) (sem k)) hd) as Hact'.
  { intros [| |i|]; simpl; try done. intros. rewrite zlookup_zinsert_ne by congruence. done. }
  unfold qview_of. simpl. erewrite pids_zinsert by done. pose proof (qi_ok _ _ Hq) as [].
  destruct Hq. split; simpl in *; try done.
  - split; try done; eauto. intros hd t Ht. apply Hact'; [|by eauto].
    intros ->. rewrite He in Ht. set_solver.
  - by rewrite zlen_zinsert.
  - intros i s'. rewrite zlookup_zinsert by done. case_decide; [by subst|]. eauto.
  - intros i s'. rewrite zlookup_zinsert by done. case_decide; [|eauto]. intros [= <-]. simpl. eauto.
Qed.

Lemma wp_sys_sem_destroy k q n Q X :
  shape k → qinv (qview_of k) q →
  (∀ r k' q', destroy_post k q n r k' q' → qinv (qview_of k') q' → shape k' → Q r k') →
  wp (sys_sem_destroy n) k Q X.
Proof.
  intros Hs Hq HQ. unfold sys_sem_destroy, current. repeat wp_step.
  destruct (decide (0 ≤ n < SEM_MAX_VALUE)) as [Hn|Hn].
  2: { replace (_ || _) with true by (symmetry; rewrite orb_true_iff, !bool_decide_eq_true; lia).
       apply wp_ret. eapply HQ; [constructor|done|done].
       intros s [Hs' _]. by apply Hn, (sem_range k q n s). }
  rewrite !bool_decide_false by lia. simpl.
  destruct (qinv_lookup_sem _ _ _ Hq Hn) as [s Hsem].
  apply wp_bind. eapply wp_aget; [done|]. case_bool_decide as Hi.
  { apply wp_ret. eapply HQ; [constructor|done|done]. intros s' [Hs' ?]. simplify_eq. }
  destruct (qinv_current _ _ Hq) as [v Hv]. apply wp_bind. eapply wp_aget; [done|].
  destruct (zlookup_range (owned_sems v) n) as [o Ho].
  { by rewrite (ts_owned _ (sh_task _ Hs _ _ Hv)). }
  apply wp_bind. eapply wp_of_option; [done|]. case_bool_decide as Ho1.
  { apply wp_ret. eapply HQ; [by eapply destroy_eperm|done|done]. }
  assert (o = 1) as -> by lia. assert (sem_at k n s) as Hat by (split; [done|lia]).
  apply wp_bind. eapply wp_wake_all; [done..|]. intros k' q' Hd He.
  destruct (dg_state _ _ _ _ _ _ Hd) as (h' & ts' & -> & Hw).
  assert (∃ v', zlookup ts' (cur (sched k)) = Some v' ∧ owned_sems v' = owned_sems v)
    as (v' & Hv' & Eo).
  { rewrite (proj2 Hw _ _ Hv). case_decide; eauto. }
  apply wp_bind. eapply wp_sem_set; [done|]. apply wp_bind.
  eapply wp_owned_sems_set; [done|by rewrite Eo; eauto with arrays|].
  apply wp_ret. eapply (HQ 0).
  - eapply destroy_done; [done|done|by rewrite Eo|done|]. split; apply Hd || done.
  - by apply (qinv_release (set_lists h' (set_task ts' k)) q'); [apply Hd|..].
  - eapply shape_owned; [|done]. apply shape_set_sem, Hd.
Qed.
