(* ===== verification/Quiet.v ===== *)
(** * What leaves the process queues alone: memory, files, the console, the
    members of the tasks other than [pid]. *)
From stdpp Require Import functions.
From S2P Require Import Prelude KList Mm Utils Io Fs KState Sched.
From S2P Require Import Sem Devices Sys Interrupt Queues.

(** ** The memory component keeps the lengths of its tables. *)

Definition mm_len (m m' : mm_state) : Prop :=
  zlen (phys_mem m') = zlen (phys_mem m) ∧ zlen (pagusr_table m') = zlen (pagusr_table m).
#[export] Instance mm_len_preorder : PreOrder mm_len.
Proof. unfold mm_len. split; [done|]. intros m1 m2 m3 [] []. split; congruence. Qed.

Lemma mm_len_set_entry p f : respects mm_len (set_entry p f).
Proof.
  apply respects_bind; [apply _| |intros _].
  - apply respects_amodify. intros m a _. split; simpl; by rewrite ?zlen_zinsert.
  - apply respects_modify. by intros m.
Qed.
Lemma mm_len_phys_aset i v : respects mm_len (aset PhysMem i v).
Proof. apply respects_aset. intros m a _. split; simpl; by rewrite ?zlen_zinsert. Qed.
Lemma mm_len_set_cr3 : respects mm_len set_cr3.
Proof. by apply respects_put. Qed.
#[export] Hint Resolve mm_len_set_entry mm_len_phys_aset mm_len_set_cr3 : respects.

Lemma mm_len_set_ss_pag p f : respects mm_len (set_ss_pag p f).
Proof. unfold set_ss_pag. respects. Qed.
Lemma mm_len_del_ss_pag p : respects mm_len (del_ss_pag p).
Proof. unfold del_ss_pag. respects. Qed.
Lemma mm_len_alloc_frame : respects mm_len alloc_frame.
Proof. unfold alloc_frame. respects. Qed.
Lemma mm_len_free_frame f : respects mm_len (free_frame f).
Proof. unfold free_frame. respects. Qed.
Lemma mm_len_translate a : respects mm_len (translate a).
Proof. unfold translate. respects. Qed.
#[export] Hint Resolve mm_len_set_ss_pag mm_len_del_ss_pag mm_len_alloc_frame
  mm_len_free_frame mm_len_translate : respects.
Lemma mm_len_load_byte a : respects mm_len (load_byte a).
Proof. unfold load_byte. respects. Qed.
Lemma mm_len_store_byte a b : respects mm_len (store_byte a b).
Proof. apply respects_bind; [apply _|respects|]. intros pa. by apply respects_modify. Qed.
Lemma mm_len_access_ok l ty a n : respects mm_len (access_ok l ty a n).
Proof. unfold access_ok. respects. Qed.
#[export] Hint Resolve mm_len_load_byte mm_len_store_byte mm_len_access_ok : respects.

(** The copy routines do what their reads and writes do. *)
Section Copy.
Context {S : Type} (R : S → S → Prop) `{!PreOrder R}.
Context (rd : Z → M S Z) (wr : Z → Z → M S unit).
Hypothesis Hrd : ∀ i, respects R (rd i).
Hypothesis Hwr : ∀ i b, respects R (wr i b).

Lemma respects_copy_data n : respects R (copy_data rd wr n).
Proof. unfold copy_data, copy_dword. respects; auto. Qed.
Lemma respects_copy_from_user n : respects R (copy_from_user rd wr n).
Proof. unfold copy_from_user. respects; apply respects_copy_data. Qed.
Lemma respects_copy_to_user n : respects R (copy_to_user rd wr n).
Proof. unfold copy_to_user. respects; apply respects_copy_data. Qed.
Lemma respects_strlen : respects R (strlen rd).
Proof. unfold strlen. respects; auto. Qed.
End Copy.

Lemma mm_len_copy_memory from to n :
  respects mm_len (copy_data (λ k, load_byte (from + k)) (λ k, store_byte (to + k)) n).
Proof. apply respects_copy_data; [apply _|..]; intros; respects. Qed.
#[export] Hint Resolve mm_len_copy_memory : respects.

(** ** The file system and the screen only run: they never switch context. *)

Lemma runs_dir_set {A} (f : A → file → file) i v : respects anything (dir_set f i v).
Proof. unfold dir_set. respects. Qed.
Lemma runs_op_set {A} (f : A → file_operations → file_operations) i v :
  respects anything (op_set f i v).
Proof. unfold op_set. respects. Qed.
Lemma runs_fdt_set {A} (f : A → virtual → virtual) i v : respects anything (fdt_set f i v).
Proof. unfold fdt_set. respects. Qed.
#[export] Hint Resolve runs_dir_set runs_op_set runs_fdt_set : respects.
Lemma runs_name_set i j c : respects anything (name_set i j c).
Proof. unfold name_set. respects. Qed.
Lemma runs_balloc n : respects anything (balloc n).
Proof. unfold balloc. respects. Qed.
Lemma runs_chain_end b : respects anything (chain_end b).
Proof. unfold chain_end. respects. Qed.
Lemma runs_add_block b n : respects anything (add_block b n).
Proof. unfold add_block. respects. Qed.
Lemma runs_disk_set b j c : respects anything (disk_set b j c).
Proof. unfold disk_set. respects. Qed.
Lemma runs_disk_get b j : respects anything (disk_get b j).
Proof. unfold disk_get. respects. Qed.
Lemma runs_free_entry : respects anything free_entry.
Proof. unfold free_entry. respects. Qed.
#[export] Hint Resolve runs_name_set runs_balloc runs_chain_end runs_add_block runs_disk_set
  runs_disk_get runs_free_entry : respects.
Lemma runs_sys_release_file e : respects anything (sys_release_file e).
Proof. unfold sys_release_file, freeb. respects. Qed.
Lemma runs_printc c : respects anything (printc c).
Proof. unfold printc. respects. Qed.
Lemma runs_printc_xy x y c : respects anything (printc_xy x y c).
Proof. unfold printc_xy. respects. Qed.
#[export] Hint Resolve runs_sys_release_file runs_printc runs_printc_xy : respects.
Lemma runs_printk s : respects anything (printk s).
Proof. induction s; simpl; respects. Qed.
Lemma runs_printk_xy x y s : respects anything (printk_xy x y s).
Proof. revert x. induction s; intros x; simpl; respects. Qed.
Lemma runs_time_digit k d : respects anything (time_digit k d).
Proof. unfold time_digit, itoa. respects. Qed.
#[export] Hint Resolve runs_printk runs_printk_xy runs_time_digit : respects.

(** ** Quiet actions of the kernel. *)

Lemma quiet_MM {A} (m : M mm_state A) : respects mm_len m → respects quiet (zoom MM m).
Proof.
  apply respects_zoom. intros k m' [Hp Ht]. split; [done|].
  intros []. split; simpl; [by rewrite Hp|by rewrite Ht|done].
Qed.
Lemma quiet_FS {A} (m : M fs_state A) : respects anything m → respects quiet (zoom FS m).
Proof.
  apply (respects_zoom _ anything).
  intros k f _. split; [done|]. intros []. by split.
Qed.
Lemma quiet_IO {A} (m : M io_state A) : respects anything m → respects quiet (zoom IO m).
Proof.
  apply (respects_zoom _ anything).
  intros k f _. split; [done|]. intros []. by split.
Qed.

Lemma quiet_put {T} (l : lens kstate T) t :
  (∀ k, qview_of (update l t k) = qview_of k ∧ task (update l t k) = task k ∧
        mm (update l t k) = mm k) → respects quiet (put l t).
Proof.
  intros H. apply respects_put. intros k. destruct (H k) as (E & Et & Em). split; [done|].
  intros []. split; by rewrite ?Et, ?Em.
Qed.
Lemma quiet_modify {T} (l : lens kstate T) f :
  (∀ t k, qview_of (update l t k) = qview_of k ∧ task (update l t k) = task k ∧
        mm (update l t k) = mm k) → respects quiet (modify l f).
Proof.
  intros H. apply respects_bind; [apply _|apply respects_get, _|]. intros t. by apply quiet_put.
Qed.
Lemma quiet_kbd_aset i c : respects quiet (aset Circular i c).
Proof. apply respects_aset. intros k a _. split; [done|]. intros []. by split. Qed.

(** A setter that keeps the pid and the shape. *)
Definition mild {A} (setter : A → task_struct → task_struct) : Prop :=
  ∀ a v, pid (setter a v) = pid v ∧ (task_shape v → task_shape (setter a v)).

Lemma quiet_task k i v v' :
  zlookup (task k) i = Some v → pid v' = pid v → (task_shape v → task_shape v') →
  quiet k (set_task (zinsert i v' (task k)) k).
Proof.
  intros Hv Hp Hs. split.
  - unfold qview_of. simpl. by erewrite pids_zinsert.
  - intros Hk. eapply shape_set_task; [done|done|]. apply Hs. by eapply sh_task.
Qed.

Lemma quiet_task_set {A} (setter : A → task_struct → task_struct) i a :
  mild setter → respects quiet (task_set setter i a).
Proof. intros Hm. apply respects_amodify. intros k v Hv. eapply quiet_task; [done|apply Hm..]. Qed.

Lemma quiet_task_modify i (f : task_struct → task_struct) :
  (∀ v, pid (f v) = pid v ∧ (task_shape v → task_shape (f v))) →
  respects quiet (amodify Task i f).
Proof. intros Hm. apply respects_amodify. intros k v Hv. eapply quiet_task; [done|apply Hm..]. Qed.

Ltac solve_mild := intros ? ?; split; [done | intros []; by split].
Lemma mild_quantum : mild t_quantum. Proof. solve_mild. Qed.
Lemma mild_cpu_tics : mild t_cpu_tics. Proof. solve_mild. Qed.
Lemma mild_remaining : mild t_remaining. Proof. solve_mild. Qed.
Lemma mild_transitions : mild t_transitions. Proof. solve_mild. Qed.
Lemma mild_pending_chars : mild t_pending_chars. Proof. solve_mild. Qed.
Lemma mild_req_size : mild t_req_size. Proof. solve_mild. Qed.
Lemma mild_buffer : mild t_buffer. Proof. solve_mild. Qed.
Lemma mild_saved_eax : mild t_saved_eax. Proof. solve_mild. Qed.
#[export] Hint Resolve mild_quantum mild_cpu_tics mild_remaining mild_transitions
  mild_pending_chars mild_req_size mild_buffer mild_saved_eax : respects.
#[export] Hint Resolve quiet_MM quiet_kbd_aset quiet_task_set : respects.
#[export] Hint Extern 3 (respects quiet (zoom FS _)) => apply quiet_FS; respects : respects.
#[export] Hint Extern 3 (respects quiet (zoom IO _)) => apply quiet_IO; respects : respects.
#[export] Hint Extern 1 (respects quiet (put _ _)) => apply quiet_put; intros []; done : respects.
#[export] Hint Extern 1 (respects quiet (modify _ _)) =>
  apply quiet_modify; intros ? []; done : respects.

(** Stores to the arrays of a task. *)
Lemma quiet_array {A} (i j : Z) (field : task_struct → list A)
    (setter : list A → task_struct → task_struct) (a : A) :
  (∀ v, pid (setter (zinsert j a (field v)) v) = pid v ∧
        (task_shape v → task_shape (setter (zinsert j a (field v)) v))) →
  respects quiet (let! t := aget Task i in
                  let! _ := of_option (zlookup (field t) j) in
                  task_set setter i (zinsert j a (field t))).
Proof.
  intros H k. unfold task_set, amodify, aget, aset, bind, get. simpl.
  destruct (zlookup (task k) i) as [v|] eqn:Hv; simpl; [|done].
  destruct (zlookup (field v) j); simpl; [|done]. rewrite Hv. simpl. rewrite Hv. simpl.
  eapply quiet_task; [done|apply H..].
Qed.

Lemma quiet_fd_set i j o : respects quiet (fd_set i j o).
Proof.
  apply (quiet_array i j file_descriptors t_file_descriptors). intros v. split; [done|].
  intros []. split; simpl; by rewrite ?zlen_zinsert.
Qed.
Lemma quiet_owned_sems_set i j o : respects quiet (owned_sems_set i j o).
Proof.
  apply (quiet_array i j owned_sems t_owned_sems). intros v. split; [done|].
  intros []. split; simpl; by rewrite ?zlen_zinsert.
Qed.
Lemma quiet_ph_pages_set i j f : 0 ≤ f < TOTAL_PAGES → respects quiet (ph_pages_set i j f).
Proof.
  intros Hf. apply (quiet_array i j ph_pages t_ph_pages). intros v. split; [done|].
  intros []. split; simpl; rewrite ?zlen_zinsert; try done.
  unfold zinsert. case_decide; [|done]. by apply Forall_insert.
Qed.
#[export] Hint Resolve quiet_fd_set quiet_owned_sems_set quiet_ph_pages_set : respects.

Lemma quiet_current : respects quiet current.
Proof. apply respects_get, _. Qed.
Lemma quiet_cur_task : respects quiet cur_task.
Proof. unfold cur_task, current. respects. Qed.
Lemma quiet_uload a : respects quiet (uload a).
Proof. unfold uload. respects. Qed.
Lemma quiet_ustore a b : respects quiet (ustore a b).
Proof. unfold ustore. respects. Qed.
Lemma quiet_access_ok ty a n : respects quiet (access_ok_k ty a n).
Proof. unfold access_ok_k. respects. Qed.
Lemma quiet_load p : respects quiet (zoom Lists (load p)).
Proof.
  intros k. unfold zoom, load. destruct p as [n|]; simpl; [|done].
  destruct (lists k !! n); simpl; [|done]. by destruct k.
Qed.
#[export] Hint Resolve quiet_current quiet_cur_task quiet_uload quiet_ustore quiet_access_ok
  quiet_load : respects.
Lemma quiet_list_first hd : respects quiet (zoom Lists (list_first hd)).
Proof.
  intros k. unfold zoom, list_first, bind, load. destruct hd as [n|]; simpl; [|done].
  destruct (lists k !! n); simpl; [|done]. by destruct k.
Qed.
Lemma quiet_list_empty hd : respects quiet (zoom Lists (list_empty hd)).
Proof.
  intros k. unfold zoom, list_empty, bind, load. destruct hd as [n|]; simpl; [|done].
  destruct (lists k !! n); simpl; [|done]. by destruct k.
Qed.
#[export] Hint Resolve quiet_list_first quiet_list_empty : respects.

(** ** Routines that are quiet as a whole. *)

Lemma respects_strcmp {S} (R : S → S → Prop) `{!PreOrder R} (rd1 rd2 : Z → M S Z) :
  (∀ i, respects R (rd1 i)) → (∀ i, respects R (rd2 i)) → respects R (strcmp rd1 rd2).
Proof. intros H1 H2. unfold strcmp. respects; auto. Qed.

Lemma quiet_lookup_path p : respects quiet (lookup_path p).
Proof.
  unfold lookup_path. respects. apply respects_strcmp; [apply _|..]; intros; respects.
Qed.
Lemma quiet_strlen_user p : respects quiet (strlen (λ i, uload (p + i))).
Proof. apply respects_strlen; [apply _|]. intros i. respects. Qed.
#[export] Hint Resolve quiet_lookup_path quiet_strlen_user : respects.

Lemma quiet_create_file p : respects quiet (create_file FS (λ i, uload (p + i))).
Proof.
  unfold create_file. respects. apply respects_copy_from_user; [apply _|..]; intros; respects.
Qed.
#[export] Hint Resolve quiet_create_file : respects.

Lemma quiet_open_select p e f : respects quiet (open_select p e f).
Proof. unfold open_select. respects. Qed.
Lemma quiet_open_file_of fd : respects quiet (open_file_of fd).
Proof. unfold open_file_of. respects. Qed.
Lemma quiet_logic_dev_of o : respects quiet (logic_dev_of o).
Proof. unfold logic_dev_of. respects. Qed.
Lemma quiet_fd_lookup fd : respects quiet (fd_lookup fd).
Proof. unfold fd_lookup. respects. Qed.
#[export] Hint Resolve quiet_open_select quiet_open_file_of quiet_logic_dev_of
  quiet_fd_lookup : respects.

Lemma quiet_write_file b o d n : respects quiet (write_file FS (λ i, uload (b + i)) o d n).
Proof.
  unfold write_file, write_file_step. respects.
  apply respects_copy_from_user; [apply _|..]; intros; respects.
Qed.
Lemma quiet_read_file b o d n : respects quiet (read_file FS (λ i c, ustore (b + i) c) o d n).
Proof. unfold read_file, read_file_step. respects. Qed.
#[export] Hint Resolve quiet_write_file quiet_read_file : respects.

Lemma quiet_sys_write_file fd b n : respects quiet (sys_write_file fd b n).
Proof. unfold sys_write_file. respects. Qed.
Lemma quiet_sys_read_file fd b n : respects quiet (sys_read_file fd b n).
Proof. unfold sys_read_file. respects. Qed.

(** Routines with an automatic array. *)
Lemma quiet_Global {T A} (m : K A) :
  respects quiet m → respects (@on_global kstate T quiet) (zoom Global m).
Proof. apply respects_Global. Qed.
Lemma quiet_Local_aset {T} i (c : T) :
  respects (@on_global kstate (list T) quiet) (aset Local_ i c).
Proof. apply respects_aset. intros s a _. unfold on_global. simpl. reflexivity. Qed.
Lemma quiet_Local {T A} (m : M T A) :
  respects anything m → respects (@on_global kstate T quiet) (zoom Local_ m).
Proof. apply respects_Local, _. Qed.
#[export] Hint Resolve quiet_Local_aset : respects.
#[export] Hint Extern 2 (respects _ (zoom Local_ _)) => apply quiet_Local; respects : respects.
#[export] Hint Extern 2 (respects _ (zoom Global _)) => apply quiet_Global; respects : respects.

Lemma quiet_sys_write_console fd b n : respects quiet (sys_write_console fd b n).
Proof.
  unfold sys_write_console. respects.
  all: apply respects_with_local; respects.
  all: apply respects_copy_from_user; [apply _|..]; intros; respects.
Qed.

Lemma quiet_map_after t : respects quiet (map_after t).
Proof. unfold map_after. respects. Qed.
#[export] Hint Resolve quiet_sys_write_file quiet_sys_read_file quiet_sys_write_console
  quiet_map_after : respects.

Lemma quiet_copy_from_circ_buffer t n : respects quiet (copy_from_circ_buffer t n).
Proof.
  unfold copy_from_circ_buffer. respects. apply respects_with_local; respects.
  apply respects_copy_to_user; [apply _|..]; intros; respects.
Qed.
#[export] Hint Resolve quiet_copy_from_circ_buffer : respects.

Lemma quiet_clock_display : respects quiet clock_display.
Proof. unfold clock_display. respects. apply respects_with_local; respects. Qed.
Lemma quiet_step_circ_buffer : respects quiet step_circ_buffer.
Proof. unfold step_circ_buffer. respects. Qed.
Lemma quiet_EOI : respects quiet EOI.
Proof. unfold EOI. respects. Qed.
Lemma quiet_SAVE_ALL eax : respects quiet (SAVE_ALL eax).
Proof. unfold SAVE_ALL. respects. Qed.
#[export] Hint Resolve quiet_clock_display quiet_step_circ_buffer quiet_EOI quiet_SAVE_ALL : respects.

(** ** System calls that are quiet. *)

Lemma quiet_sys_open p f : respects quiet (sys_open p f).
Proof. unfold sys_open, call_no_routine, deref_file. respects. Qed.
Lemma quiet_sys_dup fd : respects quiet (sys_dup fd).
Proof. unfold sys_dup. respects. Qed.
Lemma quiet_sys_close fd : respects quiet (sys_close fd).
Proof. unfold sys_close, call_no_routine. respects. Qed.
Lemma quiet_sys_unlink p : respects quiet (sys_unlink p).
Proof. unfold sys_unlink, call_release_dev. respects. Qed.
Lemma quiet_sys_nice n : respects quiet (sys_nice n).
Proof. unfold sys_nice. respects. Qed.
Lemma quiet_sys_getpid : respects quiet sys_getpid.
Proof. unfold sys_getpid. respects. Qed.
Lemma quiet_sys_get_stats p a : respects quiet (sys_get_stats p a).
Proof.
  unfold sys_get_stats. respects. apply respects_copy_to_user; [apply _|..]; intros; respects.
Qed.
Lemma quiet_sys_write fd b n : respects quiet (sys_write fd b n).
Proof. unfold sys_write, call_write_dev. respects. Qed.
#[export] Hint Resolve quiet_sys_open quiet_sys_dup quiet_sys_close quiet_sys_unlink
  quiet_sys_nice quiet_sys_getpid quiet_sys_get_stats quiet_sys_write : respects.
