(* ===== verification/KernelInv.v ===== *)
(** * Every entry into the kernel preserves the invariant of the queues. *)
From stdpp Require Import functions.
From S2P Require Import Prelude KList Mm Utils Io Fs KState Sched.
From S2P Require Import Sem Devices Sys Interrupt Queues SchedFacts SemFacts Quiet.

(** The current process is alive and the pid counter is not exhausted. *)
Definition ready (v : qview) : Prop :=
  (∃ p, zlookup (v_pids v) (v_cur v) = Some p ∧ 0 ≤ p) ∧ v_counter v < INT_MAX.
(** [t] is the first process that waits for the keyboard. *)
Definition reader (t : Z) (v : qview) : Prop :=
  ∃ q rest, qinv v q ∧ q KeyboardQueue = t :: rest.

(** The invariant is preserved, from the states where [P] holds. *)
Definition safe_if {A} (P : qview → Prop) (m : K A) : Prop :=
  ∀ k, kinv k → P (qview_of k) → wlp m k (λ _, kinv) kinv.
Abbreviation safe := (safe_if (λ _, True)).

Lemma ready_current k :
  ready (qview_of k) → ∃ v, zlookup (task k) (cur (sched k)) = Some v ∧ 0 ≤ pid v.
Proof.
  intros [(p & Hp & ?) _]. simpl in Hp. rewrite zlookup_fmap in Hp.
  destruct (zlookup (task k) _) as [v|]; [|done]. simplify_eq/=. eauto.
Qed.

Section Safe.
Context (P : qview → Prop).

Lemma safe_safe_if {A} (m : K A) : safe m → safe_if P m.
Proof. intros Hm k Hk _. by apply Hm. Qed.
Lemma quiet_safe {A} (m : K A) : respects quiet m → safe_if P m.
Proof.
  intros Hm k Hk _. eapply (wlp_respects quiet); [done|..]; intros; by eapply quiet_kinv.
Qed.
(** A quiet prefix keeps the condition. *)
Lemma safe_bind {A B} (m : K A) (f : A → K B) :
  respects quiet m → (∀ a, safe_if P (f a)) → safe_if P (bind m f).
Proof.
  intros Hm Hf k Hk HP. apply wlp_bind. eapply (wlp_respects quiet); [done|].
  intros a k' Hq. apply Hf; [by eapply quiet_kinv|]. by rewrite (proj1 Hq).
Qed.
Lemma safe_then {A B} (m : K A) (f : A → K B) :
  safe_if P m → (∀ a, safe (f a)) → safe_if P (bind m f).
Proof.
  intros Hm Hf k Hk HP. apply wlp_bind. eapply wlp_mono; [by apply Hm| |done].
  intros a k' Hk'. by apply Hf.
Qed.
End Safe.

Ltac safe_step :=
  lazymatch goal with
  | |- safe_if _ (if ?b then _ else _) => destruct b
  | |- safe_if _ (match ?x with _ => _ end) => destruct x
  | |- safe_if _ (bind _ _) => apply safe_bind; [solve [respects] | intros ?]
  | |- safe_if _ (let _ := _ in _) => cbv zeta
  end.
Ltac safe_tac := repeat first [solve [apply quiet_safe; respects] | safe_step].

(** ** The scheduler. *)

Lemma safe_schedule b : safe (schedule b).
Proof.
  intros k [Hs [q Hq]] _. destruct (qinv_current _ _ Hq) as [v Hv]. apply wp_wlp.
  eapply wp_schedule; [done..| | |].
  - intros _. split; eauto.
  - intros t _ _. unfold new_slice. split.
    + eapply (shape_set_task (update Left4current (quantum v) k)); [by apply shape_set_sched|done|].
      destruct (sh_task _ Hs _ _ Hv). by split.
    + exists q. unfold qview_of. simpl. by erewrite pids_zinsert.
  - intros h' t rest k' _ _ _ _ Hq' Hs'. split; eauto.
Qed.

(** ** The semaphores. *)

Lemma safe_sys_sem_init n value : 0 ≤ value < 2 ^ 32 → safe (sys_sem_init n value).
Proof.
  intros Hv k [Hs [q Hq]] _. apply wp_wlp. eapply wp_sys_sem_init; [done..|].
  intros. split; eauto.
Qed.
Lemma safe_sys_sem_signal n : safe (sys_sem_signal n).
Proof.
  intros k [Hs [q Hq]] _. apply wp_wlp. eapply wp_sys_sem_signal; [done..|].
  intros. split; eauto.
Qed.
Lemma safe_sys_sem_destroy n : safe (sys_sem_destroy n).
Proof.
  intros k [Hs [q Hq]] _. apply wp_wlp. eapply wp_sys_sem_destroy; [done..|].
  intros. split; eauto.
Qed.
Lemma safe_sys_sem_wait n : safe_if ready (sys_sem_wait n).
Proof.
  intros k [Hs [q Hq]] (v & Hv & Hp)%ready_current. apply wp_wlp.
  eapply wp_sys_sem_wait; [done..|lia| |]; intros; split; eauto.
Qed.

(** ** The keyboard. *)

(** A process other than the initial one blocks for [size] characters. *)
Definition kbd_request (size : Z) (v : task_struct) : task_struct :=
  t_saved_eax size (t_req_size size v).

Lemma shape_kbd_request k size v :
  shape k → zlookup (task k) (cur (sched k)) = Some v →
  shape (set_task (zinsert (cur (sched k)) (kbd_request size v) (task k)) k).
Proof.
  intros Hs Hv. eapply shape_set_task; [done|done|]. destruct (sh_task _ Hs _ _ Hv). by split.
Qed.

Lemma wp_block_kbd k q v size Q X :
  shape k → qinv (qview_of k) q → zlookup (task k) (cur (sched k)) = Some v → 0 < pid v →
  (∀ h' t rest k', let q' := qmove q Runqueue KeyboardQueue (cur (sched k)) in
     q' Runqueue = t :: rest →
     resumed t (update ItIsInt 0 (set_lists h'
       (set_task (zinsert (cur (sched k)) (kbd_request size v) (task k)) k))) k' →
     qinv (qview_of k') q' → shape k' → X k') →
  wp (block_into_kbd (cur (sched k));;
      task_set t_req_size (cur (sched k)) size;;
      task_set t_saved_eax (cur (sched k)) size;;
      let! first := zoom Lists (list_first RunqueueP) in
      let! next_proc := list_head_to_task_struct first in
      put ItIsInt 0;;
      task_switch next_proc;;
      ret (- EPERM)) k Q X.
Proof.
  intros Hs Hq Hv Hp HX.
  assert (cur (sched k) ∈ q Runqueue) as Hrun by (eapply current_runnable; [done..|lia]).
  assert (cur (sched k) ≠ 0) as Hc0.
  { intros E. pose proof (qi_zero _ _ Hq) as Hz. simpl in Hz.
    rewrite <-E, zlookup_fmap, Hv in Hz. simpl in Hz. injection Hz as Hz. lia. }
  apply wp_bind. eapply wp_block; [done..|]. intros h' Hok'.
  apply wp_bind. eapply wp_task_set; [done|]. apply wp_bind.
  eapply wp_task_set; [simpl; apply zlookup_zinsert_eq; eauto with arrays|].
  simpl. rewrite zinsert_zinsert_eq.
  set (k0 := set_task (zinsert (cur (sched k)) (kbd_request size v) (task k)) k).
  apply (wp_resume_next k0 (qmove q Runqueue KeyboardQueue (cur (sched k))) h').
  - by apply shape_kbd_request.
  - done.
  - rewrite elem_qmove; [|apply Hq|done]. right. split; [done|apply Hq].
  - unfold k0. simpl. rewrite zlen_zinsert. pose proof (qi_tasks _ _ Hq) as E.
    simpl in E. by rewrite zlen_fmap in E.
  - intros t rest k' Ht Hk' Hs'. eapply HX; [done|done| |done].
    rewrite (resumed_view _ _ _ Hk'). simpl. erewrite pids_zinsert by done.
    eapply qinv_blocked; done.
Qed.

Lemma safe_sys_read_keyboard fd buf size : safe_if ready (sys_read_keyboard fd buf size).
Proof.
  intros k Hk Hr. unfold sys_read_keyboard.
  apply wlp_bind, wlp_ret. simpl.
  apply wlp_bind. eapply (wlp_respects quiet); [respects|].
  intros _ k1 Hq1. assert (cur (sched k1) = cur (sched k)) as Ec by by destruct Hq1 as [[= _ ? _ _ _] _].
  apply (quiet_kinv _ _ Hq1) in Hk. rewrite <-(proj1 Hq1) in Hr. clear Hq1.
  destruct (ready_current _ Hr) as (v & Hv & Hp). rewrite <-Ec.
  apply wlp_bind, wlp_aget. intros t Ht. simpl in Ht. simplify_eq.
  pose proof Hk as [Hs [q Hq]]. apply wlp_bind, wp_wlp. eapply wp_empty; [apply Hq|done|].
  destruct (bool_decide (pending_chars v ≤ 0) && bool_decide (q KeyboardQueue = [])).
  { apply (quiet_safe ready); [respects|done|done]. }
  case_bool_decide as Hp0; [|by apply wlp_ret].
  apply wlp_bind. eapply (wlp_respects (λ k k', quiet k k' ∧ task k' = task k)).
  { intros k2. simpl. split; [|done]. split; [done|]. intros []. by split. }
  intros _ k2 [Hq2 Et]. pose proof Hq2 as [E2 S2]. rewrite <-E2 in Hq.
  assert (cur (sched k1) = cur (sched k2)) as Ec2 by by destruct Hq2 as [[= _ ? _ _ _] _].
  rewrite Ec2 in *. rewrite <-Et in Hv. apply wp_wlp.
  eapply wp_block_kbd; [auto|done|done|lia|]. intros. split; eauto.
Qed.

Lemma safe_sys_read fd buf n : safe_if ready (sys_read fd buf n).
Proof.
  unfold sys_read. safe_tac. unfold call_read_dev. safe_tac. apply safe_sys_read_keyboard.
Qed.

(** Waking the reader at the head of the keyboard queue. *)
Lemma wp_unblock k q t rest Q X :
  shape k → qinv (qview_of k) q → q KeyboardQueue = t :: rest →
  (∀ h' q', let k' := set_lists h' k in
     dequeued q KeyboardQueue t rest Runqueue q' → qinv (qview_of k') q' → shape k' → Q () k') →
  wp (unblock_and_enqueque t) k Q X.
Proof.
  intros Hs Hq Ht HQ. pose proof (qi_ok _ _ Hq) as Hok.
  assert (t ∈ q KeyboardQueue) as Hin by (rewrite Ht; set_solver).
  apply wp_bind, wp_zoom. eapply wp_list_del_task; [done|done|]. intros h1 Hok1.
  apply wp_zoom. eapply wp_list_add_tail_task; [done|done|by apply (ok_range _ _ _ Hok _ _ Hin)| |].
  { intros hd'. rewrite qdel_elem by done. tauto. }
  intros h2 Hok2. apply (HQ h2 (qmove q KeyboardQueue Runqueue t)).
  - apply qmove_dequeued; [done| |done]. rewrite <-Ht. by eapply queues_ok_NoDup.
  - apply (qinv_moved (qview_of k)); try done; [apply Hq|].
    intros p Hp ?. simpl in Hp |- *. rewrite elem_qmove by done.
    destruct (decide (cur (sched k) = t)) as [->|]; [by left|right].
    split; [done|]. by eapply (qi_run _ _ Hq).
  - by apply shape_set_lists.
Qed.

Lemma safe_unblock t : safe_if (reader t) (unblock_and_enqueque t).
Proof.
  intros k [Hs _] (q & rest & Hq & Ht). apply wp_wlp. eapply wp_unblock; [done..|].
  intros. split; eauto.
Qed.

Lemma safe_keyboard_routine code : safe (keyboard_routine code).
Proof.
  unfold keyboard_routine. apply safe_bind; [respects|intros c]. safe_step; [|safe_tac].
  do 3 (apply safe_bind; [solve [respects]|intros _]).
  intros k Hk _. pose proof Hk as [Hs [q Hq]].
  apply wlp_bind, wp_wlp. eapply wp_empty; [apply Hq|done|]. case_bool_decide as He; simpl.
  { by apply (quiet_safe (λ _, True)); [respects|..]. }
  apply wlp_bind, wp_wlp. eapply wp_first; [apply Hq|done|].
  destruct (q KeyboardQueue) as [|t rest] eqn:Ht; [done|]. apply wlp_bind, wlp_ret.
  assert (reader t (qview_of k)) as Hr by by exists q, rest.
  refine ((λ H : safe_if (reader t) _, H k Hk Hr) _). clear k Hk Hr Hs Hq. simpl.
  safe_tac. apply safe_unblock.
Qed.

(** ** Processes. *)

(** [exit]: the current process leaves the run queue and loses its pid. *)
Lemma qinv_kill v q h' :
  qinv v q → v_cur v ∈ q Runqueue → v_cur v ≠ 0 →
  queues_ok (active (v_sem v)) h' (<[Runqueue := without (v_cur v) (q Runqueue)]> q) →
  qinv (QView h' (v_cur v) (v_counter v) (v_sem v) (zinsert (v_cur v) (-1) (v_pids v)))
    (<[Runqueue := without (v_cur v) (q Runqueue)]> q).
Proof.
  intros Hq Hc Hc0 Hok. pose proof (qi_ok _ _ Hq) as Hok0.
  assert (0 ≤ v_cur v < zlen (v_pids v)) as Hr by (rewrite (qi_tasks _ _ Hq); apply Hq).
  pose proof (qi_counter _ _ Hq).
  split; simpl; [done| |apply Hq|done| | | | | |apply Hq| | |apply Hq].
  - rewrite zlen_zinsert. apply Hq.
  - intros t p. rewrite zlookup_zinsert by done. case_decide; [|apply Hq]. intros [= <-]. by left.
  - intros t t' p. rewrite !zlookup_zinsert by done.
    do 2 case_decide; subst; [done|intros [= <-]; lia|intros _ [= <-]; lia|]. apply Hq.
  - rewrite zlookup_zinsert_ne by done. apply Hq.
  - intros t p. setoid_rewrite qdel_elem; [|done..]. rewrite zlookup_zinsert by done.
    case_decide as Ht; [intros [= <-]; subst; naive_solver lia|].
    intros Hp. rewrite (qi_live _ _ Hq _ _ Hp). naive_solver.
  - rewrite qdel_elem by done. split; [done|apply Hq].
  - intros p. rewrite zlookup_zinsert, decide_True by done. intros [= <-]. lia.
  - intros i s Hs. rewrite fn_lookup_insert_ne by done. by apply Hq.
Qed.

Definition same_run (k k' : kstate) : Prop :=
  cur (sched k') = cur (sched k) ∧ pid <$> task k' = pid <$> task k.

Lemma destroy_same_run k q n r k' q' : destroy_post k q n r k' q' → same_run k k'.
Proof.
  intros [| |s v h' ts' q'' Hn Hv Ho Hw _]; [done|done|]. split; [done|]. simpl.
  erewrite pids_zinsert by done. by eapply woken_pids.
Qed.

Lemma wlp_release_owned k (running : Z) (Q : unit → kstate → Prop) X :
  kinv k →
  (∀ k', kinv k' → same_run k k' → Q () k') →
  wlp (for_range 0 SEM_MAX_VALUE (λ i,
    let! t := aget Task running in
    let! own := of_option (zlookup (owned_sems t) i) in
    if bool_decide (own = 1) then sys_sem_destroy i;; ret () else ret ())) k Q X.
Proof.
  intros Hk HQ. eapply (wlp_for_range (λ _ k', kinv k' ∧ same_run k k')); [done|by split| |naive_solver].
  intros i k' _ [[Hs' [q' Hq']] [Ec Ep]]. apply wlp_bind, wlp_aget. intros t _.
  apply wlp_bind, wlp_of_option. intros own _. case_bool_decide; [|apply wlp_ret; by split; [split; eauto|]].
  apply wlp_bind, wp_wlp. eapply wp_sys_sem_destroy; [done..|].
  intros r k'' q'' Hd ? ?. apply wlp_ret. destruct (destroy_same_run _ _ _ _ _ _ Hd).
  split; [split; eauto|]. split; congruence.
Qed.

Lemma wp_kill k q v Q X :
  shape k → qinv (qview_of k) q → zlookup (task k) (cur (sched k)) = Some v → 0 < pid v →
  (∀ h', let k' := set_lists h' (set_task (zinsert (cur (sched k)) (t_pid (-1) v) (task k)) k) in
     shape k' → qinv (qview_of k') (<[Runqueue := without (cur (sched k)) (q Runqueue)]> q) →
     Q () k') →
  wp (task_set t_pid (cur (sched k)) (-1);; zoom Lists (list_del (RunListP (cur (sched k))))) k Q X.
Proof.
  intros Hs Hq Hv Hp HQ.
  assert (cur (sched k) ∈ q Runqueue) as Hrun by (eapply current_runnable; [done..|lia]).
  assert (cur (sched k) ≠ 0) as Hc0.
  { intros E. pose proof (qi_zero _ _ Hq) as Hz. simpl in Hz.
    rewrite <-E, zlookup_fmap, Hv in Hz. simpl in Hz. injection Hz as Hz. lia. }
  apply wp_bind. eapply wp_task_set; [done|].
  apply wp_zoom. eapply wp_list_del_task; [apply Hq|done|]. intros h' Hok'.
  apply HQ.
  - eapply shape_set_lists, shape_set_task; [done|done|]. destruct (sh_task _ Hs _ _ Hv). by split.
  - unfold qview_of. simpl. rewrite zinsert_fmap. by apply (qinv_kill (qview_of k)).
Qed.

Lemma safe_sys_exit : safe_if ready sys_exit.
Proof.
  intros k Hk Hr. destruct (ready_current _ Hr) as (v & Hv & Hp). unfold sys_exit, current.
  apply wlp_bind, wlp_ret. simpl. apply wlp_bind, wlp_aget. intros v' Hv'.
  simpl in Hv'. simplify_eq. case_bool_decide as Hp0; [|by apply wlp_ret].
  apply wlp_bind. eapply wlp_release_owned; [done|].
  intros k1 [Hs1 [q1 Hq1]] [Ec Ep]. rewrite <-Ec.
  destruct (qinv_current _ _ Hq1) as [v1 Hv1].
  assert (pid v1 = pid v) as Epid.
  { apply (f_equal (λ l, zlookup l (cur (sched k1)))) in Ep.
    rewrite !zlookup_fmap, Hv1, Ec, Hv in Ep. by injection Ep. }
  apply wlp_bind_assoc, wlp_bind, wp_wlp. eapply wp_kill; [done..|lia|]. intros h' k2 Hs2 Hq2.
  refine ((λ H : safe_if (λ _, True) _, H k2 _ I) _); [split; eauto|]. clear.
  apply safe_bind; [solve [respects]|intros _]. apply safe_bind; [solve [respects]|intros _].
  apply safe_schedule.
Qed.

(** [fork]: the child gets the next pid and the end of the run queue. *)

Lemma wp_srch_free_task k q Q X :
  qinv (qview_of k) q →
  (∀ i v, zlookup (task k) i = Some v → pid v < 0 →
     (∀ j w, zlookup (task k) j = Some w → j < i → 0 ≤ pid w) → Q i k) →
  ((∀ j w, zlookup (task k) j = Some w → 0 ≤ pid w) → Q (-1) k) →
  wp srch_free_task k Q X.
Proof.
  intros Hq Hfree Hnone. unfold srch_free_task. apply wp_bind.
  pose (p := λ i, match zlookup (task k) i with
                  | Some v => bool_decide (¬ pid v < 0) | None => true end).
  assert (∀ j w, zlookup (task k) j = Some w → p j = true → 0 ≤ pid w) as Hp.
  { unfold p. intros j w ->. rewrite bool_decide_eq_true. lia. }
  eapply (wp_search_range p); [done| |].
  - intros i ? _. destruct (qinv_lookup_task _ _ i Hq) as [v Hv]; [lia|].
    apply wp_bind. eapply wp_aget; [done|]. apply wp_ret. split; [done|]. unfold p. by rewrite Hv.
  - intros i ? Hpre Hstop. apply wp_ret. case_bool_decide.
    + destruct (qinv_lookup_task _ _ i Hq) as [v Hv]; [lia|]. apply (Hfree i v Hv).
      * specialize (Hstop ltac:(lia)). unfold p in Hstop. rewrite Hv in Hstop.
        apply bool_decide_eq_false in Hstop. lia.
      * intros j w Hw ?. eapply Hp; [done|]. apply Hpre.
        pose proof (task_lookup_range _ _ _ _ Hq Hw). lia.
    + apply Hnone. intros j w Hw. eapply Hp; [done|]. apply Hpre.
      pose proof (task_lookup_range _ _ _ _ Hq Hw). lia.
Qed.

(** The child, while its task structure is being filled in. *)
Record unborn (child : Z) (c : Z) (q : node → list Z) (k : kstate) : Prop := {
  ub_shape : shape k;
  ub_range : 0 ≤ child < NR_TASKS;
  ub_counter : c < INT_MAX;
  ub_inv : qinv (QView (lists k) (cur (sched k)) c (sem k) (zinsert child (-1) (pid <$> task k))) q;
}.
Definition embryo child q k : Prop := unborn child (pid_counter (sched k)) q k.
Definition newborn child q k : Prop :=
  ∃ p, unborn child p q k ∧ pid_counter (sched k) = p + 1 ∧
       zlookup (pid <$> task k) child = Some p.

Lemma quiet_embryo child q k k' : quiet k k' → embryo child q k → embryo child q k'.
Proof.
  intros [[= E1 E2 E3 E4 E5] S] [? ? ? ?]. split; auto; by rewrite ?E1, ?E2, ?E3, ?E4, ?E5.
Qed.
Lemma quiet_newborn child q k k' : quiet k k' → newborn child q k → newborn child q k'.
Proof.
  intros [[= E1 E2 E3 E4 E5] S] (p & [? ? ? ?] & ? & ?). exists p.
  split; [split; auto; by rewrite ?E1, ?E2, ?E4, ?E5|]. by rewrite E3, E5.
Qed.

Lemma unborn_dead child c q k : unborn child c q k → ∀ hd, child ∉ q hd.
Proof.
  intros [_ Hr _ Hq]. apply (qi_dead _ _ Hq). simpl. apply zlookup_zinsert_eq.
  pose proof (qi_tasks _ _ Hq) as E. simpl in E. rewrite zlen_zinsert in E. lia.
Qed.

Lemma qinv_birth child q k h' :
  newborn child q k →
  queues_ok (active (sem k)) h' (<[Runqueue := q Runqueue ++ [child]]> q) →
  qinv (qview_of (set_lists h' k)) (<[Runqueue := q Runqueue ++ [child]]> q).
Proof.
  intros (p & Hub & Hc & Hp) Hok. pose proof (unborn_dead _ _ _ _ Hub) as Hdead.
  destruct Hub as [_ Hr Hmax Hq]. pose proof (qi_counter _ _ Hq) as Hcp. simpl in Hcp.
  pose proof (qi_tasks _ _ Hq) as Elen. simpl in Elen. rewrite zlen_zinsert in Elen.
  assert (∀ t p', zlookup (pid <$> task k) t = Some p' → t ≠ child →
          zlookup (zinsert child (-1) (pid <$> task k)) t = Some p') as Hold.
  { intros. by rewrite zlookup_zinsert_ne. }
  assert (∀ t p', zlookup (pid <$> task k) t = Some p' → t ≠ child → p' = -1 ∨ 0 ≤ p' < p) as Hlt.
  { intros t p' Ht Hne. by apply (qi_pid _ _ Hq t), Hold. }
  assert (∀ t hd, t ∈ q hd → t ∈ <[Runqueue := q Runqueue ++ [child]]> q hd) as Hmono.
  { intros t hd Ht. destruct (decide (hd = Runqueue)) as [->|];
      [rewrite fn_lookup_insert; set_solver|by rewrite fn_lookup_insert_ne]. }
  assert (∀ t hd, t ∈ <[Runqueue := q Runqueue ++ [child]]> q hd → t ≠ child → t ∈ q hd) as Hinv.
  { intros t hd. destruct (decide (hd = Runqueue)) as [->|];
      [rewrite fn_lookup_insert; set_solver|by rewrite fn_lookup_insert_ne]. }
  split; simpl; [done|done|apply Hq| | | | | | |apply Hq| | |apply Hq].
  - rewrite Hc. unfold INT_MAX in *. lia.
  - intros t p' Ht. rewrite Hc. destruct (decide (t = child)) as [->|Hne].
    + simplify_eq. right. lia.
    + destruct (Hlt _ _ Ht Hne); [by left|right; lia].
  - intros t t' p' Ht Ht' ?.
    destruct (decide (t = child)) as [->|Hne], (decide (t' = child)) as [->|Hne']; [done|..].
    + simplify_eq. destruct (Hlt _ _ Ht' Hne'); lia.
    + simplify_eq. destruct (Hlt _ _ Ht Hne); lia.
    + eapply (qi_inj _ _ Hq); [by apply Hold..|done].
  - pose proof (qi_zero _ _ Hq) as Hz. simpl in Hz.
    destruct (decide (child = 0)) as [->|]; [|by rewrite zlookup_zinsert_ne in Hz].
    rewrite zlookup_zinsert_eq in Hz by lia. done.
  - intros t p' Ht. destruct (decide (t = child)) as [->|Hne].
    + simplify_eq. split; [|lia]. intros _. exists Runqueue. rewrite fn_lookup_insert. set_solver.
    + rewrite (qi_live _ _ Hq t p') by by apply Hold. naive_solver.
  - apply Hmono, Hq.
  - intros p' Ht ?. destruct (decide (cur (sched k) = child)) as [->|Hne].
    + rewrite fn_lookup_insert. set_solver.
    + apply Hmono. by apply (qi_run _ _ Hq p'); [apply Hold|].
  - intros i s Hs. rewrite fn_lookup_insert_ne by done. by apply Hq.
Qed.

Lemma zinsert_masked {A} (l : list A) i a b : zinsert i a (zinsert i b l) = zinsert i a l.
Proof. apply zinsert_zinsert_eq. Qed.

Lemma wlp_copy_task k q child v0 Q X :
  kinv k → qinv (qview_of k) q → pid_counter (sched k) < INT_MAX →
  zlookup (task k) child = Some v0 → pid v0 = -1 →
  (∀ k', embryo child q k' → cur (sched k') = cur (sched k) → Q () k') →
  wlp (copy_task (cur (sched k)) child) k Q X.
Proof.
  intros [Hs _] Hq Hc Hv0 Hp0 HQ. unfold copy_task.
  assert (zlookup (pid <$> task k) child = Some (-1)) as Hdead by by rewrite zlookup_fmap, Hv0, <-Hp0.
  apply wlp_bind, wlp_aget. intros t Ht. simpl in Ht.
  apply wlp_bind, wlp_aset. intros Hr. simpl. apply wlp_bind, wlp_zoom.
  unfold wlp, load, RunListP. simpl. destruct (lists k !! RunList (cur (sched k))) as [c|]; [|done].
  unfold zoom, store, bind, load. simpl.
  destruct (lists k !! RunList child) as [c'|] eqn:Hc'; [|done]. apply HQ; [|done].
  split; simpl; [|by eapply task_lookup_range|done|].
  - apply shape_set_lists, (shape_set_task k child v0); [done|done|]. by eapply sh_task.
  - rewrite zinsert_fmap, zinsert_masked. rewrite (zinsert_id _ _ _ Hdead).
    pose proof (qi_dead _ _ Hq child Hdead) as Hfree. pose proof (qi_ok _ _ Hq) as Hok.
    destruct Hq. split; try done. by apply queues_ok_store_free.
Qed.

(** The frames [alloc_frame] gives are frames of the machine. *)
Lemma quiet_free_frames frames : respects quiet (free_frames frames).
Proof. induction frames as [|f frames IH]; simpl; respects. Qed.

Lemma wlp_fork_alloc k parent (Q : option (list Z) → kstate → Prop) X :
  shape k →
  (∀ r k', quiet k k' → from_option (Forall (λ f, 0 ≤ f < TOTAL_PAGES)) True r → Q r k') →
  wlp (fork_alloc parent) k Q X.
Proof.
  intros Hs HQ. unfold fork_alloc.
  eapply (wlp_loop (λ frames k', quiet k k' ∧ Forall (λ f, 0 ≤ f < TOTAL_PAGES) frames)).
  { split; [reflexivity|done]. }
  intros frames k' [Hq HF]. case_bool_decide; [|by apply wlp_ret, HQ].
  apply wlp_bind, wlp_aget. intros t _. apply wlp_bind, wlp_of_option. intros p _.
  case_bool_decide; [|by apply wlp_ret, HQ].
  apply wlp_bind, wp_wlp, wp_zoom. apply wp_alloc_frame; [apply Hq, Hs|].
  intros f m' Hpost. assert (quiet k' (update MM m' k')) as Hq'.
  { split; [done|]. intros []. split; simpl; try done; destruct Hpost; simpl; by rewrite ?zlen_zinsert. }
  case_bool_decide as Hf.
  - apply wlp_bind. eapply (wlp_respects quiet); [apply quiet_free_frames|].
    intros _ k'' ?. apply wlp_ret, HQ; [|done]. by do 2 (etransitivity; [done|]).
  - apply wlp_ret. split; [by etransitivity|]. apply Forall_app. split; [done|].
    apply Forall_singleton. destruct Hpost as [f [? _] _ _|]; [|done].
    unfold NUM_PAG_KERNEL in *. lia.
Qed.

Lemma quiet_fork_copy_page child frames j :
  Forall (λ f, 0 ≤ f < TOTAL_PAGES) frames → respects quiet (fork_copy_page child frames j).
Proof.
  intros HF. unfold fork_copy_page. destruct (zlookup frames j) as [f|] eqn:Hf.
  - assert (0 ≤ f < TOTAL_PAGES).
    { apply zlookup_elem in Hf. rewrite Forall_forall in HF. by apply HF. }
    match goal with |- respects _ (bind _ ?body) => change (respects quiet (body f)) end. cbv beta. respects.
  - intros k. simpl. done.
Qed.

Lemma quiet_fork_share_fd child i : respects quiet (fork_share_fd child i).
Proof. unfold fork_share_fd. respects. Qed.
#[local] Hint Resolve quiet_fork_share_fd : respects.

(** Quiet work in a state that satisfies [J], until the invariant holds. *)
Definition until {A} (J : kstate → Prop) (m : K A) : Prop :=
  ∀ k, J k → wlp m k (λ _, kinv) kinv.

Lemma until_bind {A B} J (m : K A) (f : A → K B) :
  (∀ k k', quiet k k' → J k → J k') → respects quiet m → (∀ a, until J (f a)) →
  until J (bind m f).
Proof.
  intros HJ Hm Hf k Hk. apply wlp_bind. eapply (wlp_respects quiet); [done|].
  intros a k' Hq. by apply Hf, (HJ k).
Qed.

Lemma until_enqueue child q :
  until (newborn child q)
    (zoom Lists (list_add_tail (RunListP child) RunqueueP);;
     let! p := get PidCounter in ret (s32 (p - 1))).
Proof.
  intros k Hnb. pose proof Hnb as (p & Hub & _). apply wlp_bind, wp_wlp, wp_zoom.
  pose proof (qi_ok _ _ (ub_inv _ _ _ _ Hub)) as Hok.
  eapply wp_list_add_tail_task; [apply Hok|done|apply Hub|by eapply unborn_dead|]. simpl.
  intros h' Hok'. apply wlp_bind. simpl. apply (wlp_ret (S := kstate)).
  split; [apply shape_set_lists, Hub|]. eexists. by eapply qinv_birth.
Qed.

(** The choice of the pid. *)
Lemma wlp_fork_pid k q child (Q : unit → kstate → Prop) X :
  embryo child q k → (∀ k', newborn child q k' → Q () k') →
  wlp (let! p := get PidCounter in put PidCounter (s32 (p + 1));; task_set t_pid child p) k Q X.
Proof.
  intros [Hs Hr Hc Hq] HQ.
  assert (0 ≤ child < zlen (task k)) as Hlen.
  { pose proof (qi_tasks _ _ Hq) as E. simpl in E. rewrite zlen_zinsert, zlen_fmap in E. lia. }
  destruct (zlookup_range _ _ Hlen) as [v Hv].
  apply wp_wlp. repeat wp_step. eapply wp_task_set; [done|]. simpl.
  pose proof (qi_counter _ _ Hq) as Hcp. simpl in Hcp.
  rewrite s32_small by (unfold INT_MIN, INT_MAX in *; lia).
  apply HQ. exists (pid_counter (sched k)). split; [split; simpl; try done|split; [done|]].
  - eapply (shape_set_task (set_sched _ k)); [by apply shape_set_sched|done|].
    by destruct (sh_task _ Hs _ _ Hv).
  - rewrite zinsert_fmap. simpl. by rewrite zinsert_masked.
  - simpl. rewrite zlookup_fmap, zlookup_zinsert_eq by done. done.
Qed.

Lemma until_pid child q (f : unit → K Z) :
  (∀ u, until (newborn child q) (f u)) →
  until (embryo child q)
    (bind (let! p := get PidCounter in put PidCounter (s32 (p + 1));; task_set t_pid child p) f).
Proof.
  intros Hf k Hk. apply wlp_bind. eapply wlp_fork_pid; [done|]. intros k' Hk'. by apply Hf.
Qed.

Lemma until_fork_fail child q :
  until (embryo child q) (task_set t_pid child (-1);; ret (- EAGAIN)).
Proof.
  intros k [Hs Hr Hc Hq]. apply wlp_bind, wlp_amodify. intros v Hv. simpl in Hv. apply wlp_ret.
  split.
  - eapply shape_set_task; [done|done|]. by destruct (sh_task _ Hs _ _ Hv).
  - exists q. unfold qview_of. simpl. by rewrite zinsert_fmap.
Qed.

Lemma safe_sys_fork : safe_if ready sys_fork.
Proof.
  intros k [Hs [q Hq]] Hr. unfold sys_fork. apply wlp_bind, wp_wlp.
  eapply wp_srch_free_task; [done|intros child v Hv Hp _|intros _].
  2: { simpl. apply wlp_ret. split; eauto. }
  pose proof (task_lookup_range _ _ _ _ Hq Hv) as Hrange.
  rewrite bool_decide_false by lia.
  apply wlp_bind, wlp_ret. simpl. apply wlp_bind. eapply (wlp_copy_task _ q); [split; eauto|done|apply Hr|done| |].
  { assert (zlookup (pid <$> task k) child = Some (pid v)) as E by by rewrite zlookup_fmap, Hv.
    destruct (qi_pid _ _ Hq _ _ E); lia. }
  intros k1 He Ec. apply wlp_bind. eapply wlp_fork_alloc; [apply He|].
  intros [frames|] k2 Hq2 HF; simpl in HF;
    [|apply (until_fork_fail child q); by eapply quiet_embryo].
  apply (quiet_embryo _ _ _ _ Hq2) in He.
  refine ((λ H : until (embryo child q) _, H k2 He) _). clear k2 He Hq2.
  pose proof (quiet_fork_copy_page child frames) as Hcopy.
  do 3 (apply until_bind; [apply quiet_embryo|solve [respects; auto]|intros _]).
  apply until_pid. intros _.
  do 6 (apply until_bind; [apply quiet_newborn|solve [respects]|intros _]).
  apply until_enqueue.
Qed.

(** ** The entry points. *)

Lemma safe_sys_call_table void nr ebx ecx edx :
  safe_if ready (sys_call_table void nr ebx ecx edx).
Proof.
  unfold sys_call_table, sys_ni_syscall.
  repeat (safe_step || (apply quiet_safe; solve [respects])).
  - apply safe_then; [apply safe_sys_exit|]. intros []. by apply quiet_safe, respects_ret, _.
  - apply safe_sys_fork.
  - apply safe_sys_read.
  - apply safe_safe_if, safe_sys_sem_init, u32_range.
  - apply safe_sys_sem_wait.
  - apply safe_safe_if, safe_sys_sem_signal.
  - apply safe_safe_if, safe_sys_sem_destroy.
Qed.

Lemma safe_system_call_handler void eax ebx ecx edx :
  safe_if ready (system_call_handler void eax ebx ecx edx).
Proof.
  unfold system_call_handler. apply safe_bind; [respects|intros _].
  safe_step; [apply quiet_safe; respects|]. apply safe_then; [apply safe_sys_call_table|].
  intros r. apply quiet_safe. respects.
Qed.

Lemma safe_clock_interrupt eax : safe (clock_interrupt eax).
Proof.
  unfold clock_interrupt, clock_routine. do 2 (apply safe_bind; [solve [respects]|intros _]).
  apply safe_then; [|intros []; apply quiet_safe; respects].
  apply safe_bind; [respects|intros c]. do 4 (apply safe_bind; [solve [respects]|intros _]).
  apply safe_then; [apply safe_schedule|]. intros []. apply quiet_safe. respects.
Qed.

Lemma safe_keyboard_interrupt eax code : safe (keyboard_interrupt eax code).
Proof.
  unfold keyboard_interrupt. do 2 (apply safe_bind; [solve [respects]|intros _]).
  apply safe_then; [apply safe_keyboard_routine|]. intros []. apply quiet_safe. respects.
Qed.

Lemma safe_page_fault_handler eax : safe_if ready (page_fault_handler eax).
Proof.
  unfold page_fault_handler, page_fault_routine.
  do 5 (apply safe_bind; [solve [respects]|intros ?]).
  safe_step; [apply safe_sys_exit|apply quiet_safe; respects].
Qed.
