(* ===== verification/ExitFacts.v ===== *)
(** * [sys_exit]: what the end of a process leaves. *)
From stdpp Require Import functions.
From S2P Require Import Prelude KList Mm KState Sched Sem Sys Queues.
From S2P Require Import SchedFacts SemFacts Quiet KernelInv.

(** ** The semaphores of the process. *)

(** The state after the first [i] turns of the loop that destroys the
    semaphores [t] owns, begun in [k]. *)
Record releasing (k : kstate) (t i : Z) (v : task_struct) (k' : kstate) (q' : node → list Z)
  : Prop := {
  rl_shape : shape k';
  rl_inv : qinv (qview_of k') q';
  rl_run : same_run k k';
  rl_mm : mm k' = mm k;
  rl_task : ∃ v', zlookup (task k') t = Some v' ∧ pid v' = pid v ∧ ph_pages v' = ph_pages v ∧
    ∀ j, i ≤ j → zlookup (owned_sems v') j = zlookup (owned_sems v) j;
  rl_rest : ∀ j, i ≤ j → zlookup (sem k') j = zlookup (sem k) j;
  rl_done : ∀ j s, 0 ≤ j < i → sem_at k j s → zlookup (owned_sems v) j = Some 1 →
    init <$> zlookup (sem k') j = Some 0;
}.

Lemma releasing_skip k t i v k' q' :
  releasing k t i v k' q' → 0 ≤ i →
  (∀ s, sem_at k i s → zlookup (owned_sems v) i ≠ Some 1) → releasing k t (i + 1) v k' q'.
Proof.
  intros [? ? ? ? (v' & Hv & Hp & Hph & Hown) Hrest Hdone] Hi Hno. split; try done.
  - exists v'. split_and!; [done..|]. intros. apply Hown. lia.
  - intros. apply Hrest. lia.
  - intros j s ? Hj Ho. destruct (decide (j = i)) as [->|].
    + by destruct (Hno s Hj).
    + apply (Hdone j s); [lia|done|done].
Qed.

Lemma woken_lookup r l ts ts' t v :
  woken r l ts ts' → zlookup ts t = Some v → t ∉ l → zlookup ts' t = Some v.
Proof. intros [_ Hw] Hv Ht. by rewrite (Hw _ _ Hv), decide_False. Qed.

Lemma releasing_destroy k t i v k1 q1 r k2 q2 :
  releasing k t i v k1 q1 → cur (sched k) = t → 0 < pid v → 0 ≤ i →
  destroy_post k1 q1 i r k2 q2 → qinv (qview_of k2) q2 → shape k2 →
  zlookup (owned_sems v) i = Some 1 →
  releasing k t (i + 1) v k2 q2.
Proof.
  intros Hrel Hcur Hp Hi Hd Hq2 Hs2 Hown. pose proof Hrel as [Hs1 Hq1 [Ec Ep] Em (v1 & Hv1 & Hp1 & Hph & Ho) Hrest Hdone].
  destruct Hd as [Hno|s w o Hs Hw Hwo Hne|s w h' ts' q' Hs Hw Hwo Hwk Hdr].
  - apply releasing_skip; [done|done|]. intros s [Hs Hin] _. apply (Hno s). split; [|done].
    rewrite Hrest by lia. done.
  - rewrite Ec, Hcur, Hv1 in Hw. simplify_eq. rewrite Ho, Hown in Hwo by lia. by simplify_eq.
  - assert (t ∉ q1 (WaitList i)) as Hnw.
    { intros Hin. assert (cur (sched k1) ∈ q1 Runqueue) as Hrun.
      { eapply current_runnable; [done|by rewrite Ec, Hcur|lia]. }
      rewrite Ec, Hcur in Hrun. by pose proof (ok_disjoint _ _ _ (qi_ok _ _ Hq1) _ _ _ Hin Hrun). }
    assert (zlookup ts' t = Some v1) as Hv' by by eapply woken_lookup.
    assert (0 ≤ t < zlen ts') by by eapply zlookup_Some_range.
    rewrite Ec, Hcur in *. rewrite Hv' in Hw. simplify_eq.
    split; try done.
    + split; simpl; [congruence|]. erewrite pids_zinsert; [|done|done].
      erewrite woken_pids; done.
    + exists (t_owned_sems (zinsert i (-1) (owned_sems w)) w). simpl. split_and!.
      * by apply zlookup_zinsert_eq.
      * done.
      * done.
      * intros j ?. rewrite zlookup_zinsert_ne by lia. apply Ho. lia.
    + intros j ?. simpl. rewrite zlookup_zinsert_ne by lia. apply Hrest. lia.
    + intros j s' Hj Hs' Hoj. simpl. destruct (decide (j = i)) as [->|].
      * by rewrite zlookup_zinsert_eq by (eapply zlookup_Some_range, Hs).
      * rewrite zlookup_zinsert_ne by lia. apply (Hdone j s'); [lia|done|done].
Qed.

Lemma wp_release_owned k q v (Q : unit → kstate → Prop) X :
  shape k → qinv (qview_of k) q → zlookup (task k) (cur (sched k)) = Some v → 0 < pid v →
  (∀ k' q', releasing k (cur (sched k)) SEM_MAX_VALUE v k' q' → Q () k') →
  wp (for_range 0 SEM_MAX_VALUE (λ i,
    let! t := aget Task (cur (sched k)) in
    let! own := of_option (zlookup (owned_sems t) i) in
    if bool_decide (own = 1) then sys_sem_destroy i;; ret () else ret ())) k Q X.
Proof.
  intros Hs Hq Hv Hp HQ.
  eapply (wp_for_range (λ i k', ∃ q', releasing k (cur (sched k)) i v k' q')); [done| | |naive_solver].
  { exists q. split; try done; [|lia]. by exists v. }
  intros i k1 Hi [q1 Hrel]. pose proof Hrel as [Hs1 Hq1 Hrun Em (v1 & Hv1 & Hp1 & Hph & Ho) Hrest Hdone].
  apply wp_bind. eapply wp_aget; [done|].
  destruct (zlookup_range (owned_sems v1) i) as [own Hown].
  { by rewrite (ts_owned _ (sh_task _ Hs1 _ _ Hv1)). }
  apply wp_bind. eapply wp_of_option; [done|]. rewrite Ho in Hown by lia. case_bool_decide as H1.
  - apply wp_bind. eapply wp_sys_sem_destroy; [done..|]. intros r k2 q2 Hd Hq2 Hs2. apply wp_ret.
    exists q2. eapply releasing_destroy; (done || lia || congruence).
  - apply wp_ret. exists q1. apply releasing_skip; [done|lia|]. intros s _ E. congruence.
Qed.

(** ** The frames of the process. *)

Lemma wp_free_pages k t v (Q : unit → kstate → Prop) X :
  shape k → zlookup (task k) t = Some v →
  (∀ m, (∀ f, f ∈ ph_pages v → zlookup (phys_mem m) f = Some FREE_FRAME) →
     (∀ f, f ∉ ph_pages v → zlookup (phys_mem m) f = zlookup (phys_mem (mm k)) f) →
     shape (set_mm m k) → Q () (set_mm m k)) →
  wp (for_range 0 NUM_PAG_DATA (λ i,
    let! t := aget Task t in
    let! f := of_option (zlookup (ph_pages t) i) in
    zoom MM (free_frame f))) k Q X.
Proof.
  intros Hs Hv HQ. pose proof (sh_task _ Hs _ _ Hv) as Hts.
  eapply (wp_for_range (λ i k', ∃ m, k' = set_mm m k ∧ shape k' ∧
    (∀ j f, 0 ≤ j < i → zlookup (ph_pages v) j = Some f → zlookup (phys_mem m) f = Some FREE_FRAME) ∧
    (∀ f, f ∉ ph_pages v → zlookup (phys_mem m) f = zlookup (phys_mem (mm k)) f))); [done| | |].
  { exists (mm k). split_and!; [by destruct k|done|lia|done]. }
  - intros i k1 Hi (m & -> & Hs1 & Hfree & Hother). apply wp_bind. eapply wp_aget; [done|].
    destruct (zlookup_range (ph_pages v) i) as [f Hf]; [by rewrite (ts_pages _ Hts)|].
    apply wp_bind. eapply wp_of_option; [done|].
    pose proof (task_shape_frame _ _ _ Hts Hf) as Hr. pose proof (sh_mem _ Hs1) as Hlen. simpl in Hlen.
    apply wp_zoom, wp_free_frame; [simpl; lia|simpl; rewrite Hlen; unfold TOTAL_PAGES; lia|]. simpl.
    eexists. split; [done|]. split_and!.
    + destruct Hs1 as [? ? ?]. split; simpl in *; [by rewrite zlen_zinsert|done|done].
    + intros j g Hj Hg. simpl. rewrite zlookup_zinsert by lia. case_decide; [done|].
      apply (Hfree j); [|done]. assert (j ≠ i) by congruence. lia.
    + intros g Hg. simpl. rewrite zlookup_zinsert_ne; [by apply Hother|].
      intros <-. by apply Hg, (zlookup_elem _ i).
  - intros k1 (m & -> & Hs1 & Hfree & Hother). apply HQ; [|done|done].
    intros f [j Hj]%zlookup_of_elem. apply (Hfree j); [|done].
    rewrite <-(ts_pages _ Hts). by eapply zlookup_Some_range.
Qed.

(** ** [sys_exit]. *)

(** [t], which was [v] in [k], is gone: it has no pid, its frames are free and
    the semaphores it owned are not initialised. *)
Record gone (k : kstate) (t : Z) (v : task_struct) (k' : kstate) : Prop := {
  gn_pids : pid <$> task k' = zinsert t (-1) (pid <$> task k);
  gn_frames : ∀ f, f ∈ ph_pages v → zlookup (phys_mem (mm k')) f = Some FREE_FRAME;
  gn_others : ∀ f, f ∉ ph_pages v → zlookup (phys_mem (mm k')) f = zlookup (phys_mem (mm k)) f;
  gn_sems : ∀ n s, sem_at k n s → zlookup (owned_sems v) n = Some 1 →
    init <$> zlookup (sem k') n = Some 0;
}.

Lemma gone_resumed k t v k1 k2 t' :
  gone k t v k1 → resumed t' k1 k2 → gone k t v k2.
Proof.
  intros [Hp Hf Ho Hsem] [w m' Hw Hm _ ->]. split; simpl.
  - by erewrite pids_zinsert.
  - by rewrite (mp_phys _ _ _ _ _ Hm).
  - by rewrite (mp_phys _ _ _ _ _ Hm).
  - done.
Qed.

Lemma wp_sys_exit k q v (Q : unit → kstate → Prop) X :
  shape k → qinv (qview_of k) q → zlookup (task k) (cur (sched k)) = Some v → 0 ≤ pid v →
  (pid v = 0 → Q () k) →
  (∀ k' q' t, 0 < pid v → gone k (cur (sched k)) v k' → cur (sched k') = cur (sched k) →
     shape k' → qinv (qview_of k') q' → q' Runqueue = [t] → Q () k') →
  (∀ k' q' t t' rest, 0 < pid v → gone k (cur (sched k)) v k' → shape k' →
     qinv (qview_of k') q' → q' Runqueue = t :: t' :: rest → cur (sched k') = t → X k') →
  wp sys_exit k Q X.
Proof.
  intros Hs Hq Hv Hp HQ0 HQ HX. unfold sys_exit, current. do 2 wp_step. apply wp_bind. eapply wp_aget; [done|].
  case_bool_decide as Hp0; [|apply wp_ret, HQ0; lia]. assert (0 < pid v) as Hpos by lia. clear HQ0 Hp0 Hp.
  apply wp_bind. change (view Cur k) with (cur (sched k)).
  eapply wp_release_owned; [done..|].
  intros k1 q1 [Hs1 Hq1 [Ec Ep] Em (v1 & Hv1 & Hp1 & Hph & Ho) Hrest Hdone].
  rewrite <-Ec in *. apply wp_bind_assoc, wp_bind. eapply wp_kill; [done..|lia|]. intros h' k2 Hs2 Hq2.
  assert (zlookup (task k2) (cur (sched k1)) = Some (t_pid (-1) v1)) as Hv2.
  { apply zlookup_zinsert_eq. eauto with arrays. }
  apply wp_bind. eapply wp_free_pages; [done|done|]. simpl. intros m Hfree Hother Hs3.
  set (k3 := update Left4current 0 (set_mm m k2)).
  assert (gone k (cur (sched k1)) v k3) as Hg.
  { split; simpl.
    - by rewrite zinsert_fmap, Ep.
    - by rewrite <-Hph.
    - intros f Hf. rewrite Hother, Em by by rewrite Hph. done.
    - intros n s Hn Hown. apply (Hdone n s); [|done|done]. by eapply sem_range, Hn. }
  do 2 wp_step. eapply (wp_schedule _ k3); [by apply (shape_set_sched (set_mm m k2))|exact Hq2|exact Hv2|by simpl|..].
  - intros t _ Ht.
    assert (qview_of (new_slice (t_pid (-1) v1) k3) = qview_of k2) as Eview.
    { unfold qview_of. simpl. f_equal. by eapply pids_zinsert. }
    eapply HQ; [done| |done| |rewrite Eview; exact Hq2|exact Ht].
    + destruct Hg as [Gp Gf Go Gs]. split; [|done..]. rewrite <-Gp. by eapply pids_zinsert.
    + eapply (shape_set_task (update Left4current (quantum v1) k3)); [exact (shape_set_sched _ _ Hs3)|exact Hv2|].
      destruct (sh_task _ Hs1 _ _ Hv1). by split.
  - intros h2 t rest k4 _ Hne Hrot Hres Hq4 Hs4. unfold rotated in *. simpl in *.
    destruct rest as [|t' rest]; [done|].
    eapply HX; [done| |done|exact Hq4|exact Hrot|].
    + eapply gone_resumed; [|exact Hres]. destruct Hg. by split.
    + by destruct Hres as [w m' _ _ _ ->].
Qed.
