(* ===== verification/ForkFacts.v ===== *)
(** * [sys_fork]: allocation of the child's frames and copy of the parent's
    pages. *)
From stdpp Require Import functions.
From S2P Require Import Prelude KList Mm Fs KState Sched Sem Sys.
From S2P Require Import Queues SchedFacts SemFacts Quiet KernelInv.

(** ** The frames of the child: all of them or none. *)

Definition mark (frames phys : list Z) : list Z := fold_left (λ p f, zinsert f USED_FRAME p) frames phys.

(** The frames were free one after the other, and [alloc_frame] can give
    them. *)
Fixpoint fresh (phys frames : list Z) : Prop :=
  match frames with
  | [] => True
  | f :: frames => is_alloc_candidate f ∧ zlookup phys f = Some FREE_FRAME ∧
                   fresh (zinsert f USED_FRAME phys) frames
  end.

Lemma mark_snoc frames f phys : mark (frames ++ [f]) phys = zinsert f USED_FRAME (mark frames phys).
Proof. unfold mark. by rewrite fold_left_app. Qed.

Lemma zlen_mark frames phys : zlen (mark frames phys) = zlen phys.
Proof.
  revert phys. induction frames as [|f frames IH]; intros phys; simpl; [done|].
  by rewrite IH, zlen_zinsert.
Qed.

Lemma fresh_snoc frames f phys :
  fresh phys frames → is_alloc_candidate f → zlookup (mark frames phys) f = Some FREE_FRAME →
  fresh phys (frames ++ [f]).
Proof.
  revert phys. induction frames as [|g frames IH]; intros phys; simpl; [done|].
  intros (? & ? & ?) ? ?. split_and!; [done..|]. by apply IH.
Qed.

Lemma fresh_free phys frames f : fresh phys frames → f ∈ frames →
  is_alloc_candidate f ∧ zlookup phys f = Some FREE_FRAME.
Proof.
  revert phys. induction frames as [|g frames IH]; intros phys; simpl; [by intros _ ?%not_elem_of_nil|].
  intros (? & ? & Hf) [->|Hin]%elem_of_cons; [done|].
  destruct (IH _ Hf Hin) as [? Hl]. split; [done|].
  destruct (decide (f = g)) as [->|]; [done|]. by rewrite zlookup_zinsert_ne in Hl.
Qed.

Lemma fresh_nodup phys frames : fresh phys frames → NoDup frames.
Proof.
  revert phys. induction frames as [|g frames IH]; intros phys; simpl; [constructor|].
  intros (? & ? & Hf). constructor; [|by eapply IH]. intros Hin.
  destruct (fresh_free _ _ _ Hf Hin) as [_ Hl]. rewrite zlookup_zinsert_eq in Hl; [done|].
  eauto with arrays.
Qed.

Lemma mark_lookup frames phys f :
  fresh phys frames →
  zlookup (mark frames phys) f = if decide (f ∈ frames) then Some USED_FRAME else zlookup phys f.
Proof.
  revert phys. induction frames as [|g frames IH]; intros phys; simpl; [done|].
  intros Hfr. pose proof (fresh_nodup phys (g :: frames) Hfr) as [Hg _]%NoDup_cons.
  destruct Hfr as (? & Hl & Hf). rewrite IH by done.
  destruct (decide (f ∈ frames)); [by rewrite decide_True by set_solver|].
  rewrite zlookup_zinsert by eauto with arrays. destruct (decide (g = f)) as [->|].
  - by rewrite decide_True by set_solver.
  - by rewrite decide_False by set_solver.
Qed.

Lemma fresh_range phys frames f : fresh phys frames → f ∈ frames → 0 ≤ f < TOTAL_PAGES.
Proof.
  intros Hf Hin. destruct (fresh_free _ _ _ Hf Hin) as [[? _] _].
  unfold NUM_PAG_KERNEL in *. lia.
Qed.

(** The frames [alloc_frame] can still give, in its order. *)
#[export] Instance is_alloc_candidate_dec f : Decision (is_alloc_candidate f).
Proof.
  refine (cast_if (decide (NUM_PAG_KERNEL ≤ f < TOTAL_PAGES ∧ Z.even f = true))); unfold is_alloc_candidate;
    rewrite <-Z.even_spec; tauto.
Defined.
Definition can_give (phys : list Z) (f : Z) : Prop := is_alloc_candidate f ∧ zlookup phys f = Some FREE_FRAME.
#[export] Instance can_give_dec phys f : Decision (can_give phys f).
Proof. unfold can_give. apply _. Defined.
Definition available (phys : list Z) : list Z := filter (can_give phys) (seqZ 0 TOTAL_PAGES).

Lemma elem_of_available phys f : f ∈ available phys ↔ can_give phys f.
Proof.
  unfold available. rewrite list_elem_of_filter, elem_of_seqZ. split; [by intros []|]. intros Hf. split; [done|].
  destruct Hf as [[Hr _] _]. unfold NUM_PAG_KERNEL in Hr. lia.
Qed.

Lemma available_nil phys : (∀ f, is_alloc_candidate f → zlookup phys f ≠ Some FREE_FRAME) → available phys = [].
Proof.
  intros Hno. destruct (available phys) as [|f l] eqn:E; [done|].
  assert (f ∈ available phys) as [Hc Hf]%elem_of_available by (rewrite E; by left). by destruct (Hno f Hc).
Qed.

Lemma available_first phys f :
  is_alloc_candidate f → zlookup phys f = Some FREE_FRAME →
  (∀ g, is_alloc_candidate g → g < f → zlookup phys g ≠ Some FREE_FRAME) →
  available phys = f :: available (zinsert f USED_FRAME phys).
Proof.
  intros Hc Hf Hmin. pose proof (zlookup_Some_range _ _ _ Hf) as Hr.
  assert (∀ l : list Z, f ∉ l → filter (can_give (zinsert f USED_FRAME phys)) l = filter (can_give phys) l) as Hother.
  { induction l as [|g l IH]; [done|]. intros [Hg Hl]%not_elem_of_cons. rewrite !filter_cons, IH by done.
    assert (can_give (zinsert f USED_FRAME phys) g ↔ can_give phys g) as Hi by (unfold can_give; by rewrite zlookup_zinsert_ne).
    repeat case_decide; tauto. }
  assert (seqZ 0 TOTAL_PAGES = seqZ 0 f ++ f :: seqZ (f + 1) (TOTAL_PAGES - f - 1)) as E.
  { destruct Hc as [Hcr _]. unfold NUM_PAG_KERNEL in Hcr.
    replace TOTAL_PAGES with (f + (TOTAL_PAGES - f)) at 1 by lia. rewrite seqZ_app by lia.
    by rewrite (seqZ_cons (0 + f)), Z.add_0_l, Z.sub_1_r by lia. }
  unfold available. rewrite E, !filter_app, !filter_cons.
  rewrite decide_True by done. rewrite decide_False by (unfold can_give; rewrite zlookup_zinsert_eq by done; by intros []).
  rewrite !Hother by (rewrite elem_of_seqZ; lia).
  assert (filter (can_give phys) (seqZ 0 f) = []) as ->; [|done].
  destruct (filter (can_give phys) (seqZ 0 f)) as [|g l] eqn:Eg; [done|].
  assert (g ∈ filter (can_give phys) (seqZ 0 f)) as [[Hgc Hg] Hgr%elem_of_seqZ]%list_elem_of_filter by (rewrite Eg; by left).
  by destruct (Hmin g Hgc ltac:(lia)).
Qed.

Definition with_phys (phys : list Z) (k : kstate) : kstate := set_mm (set_phys_mem phys (mm k)) k.

(** Giving the frames back undoes the allocation. *)
Lemma wp_free_frames frames phys k (Q : unit → kstate → Prop) X :
  zlen phys = TOTAL_PAGES → fresh phys frames → Q () (with_phys phys k) →
  wp (free_frames frames) (with_phys (mark frames phys) k) Q X.
Proof.
  revert phys Q. induction frames as [|f frames IH]; intros phys Q Hlen Hf HQ; simpl; [done|].
  destruct Hf as (Hc & Hl & Hf). apply wp_bind.
  apply (IH (zinsert f USED_FRAME phys)); [by rewrite zlen_zinsert|done|].
  destruct Hc as [Hr _]. unfold NUM_PAG_KERNEL in Hr.
  apply wp_zoom, wp_free_frame; simpl; [rewrite zlen_zinsert; lia|rewrite zlen_zinsert, Hlen; by unfold TOTAL_PAGES|].
  rewrite zinsert_zinsert_eq, (zinsert_id _ _ _ Hl). exact HQ.
Qed.

Lemma with_phys_with_phys p p' k : with_phys p (with_phys p' k) = with_phys p k.
Proof. done. Qed.

Lemma wp_fork_alloc k parent v (Q : option (list Z) → kstate → Prop) X :
  shape k → zlookup (task k) parent = Some v →
  (zlen (available (phys_mem (mm k))) < NUM_PAG_DATA → Q None k) →
  (∀ frames, zlen frames = NUM_PAG_DATA → fresh (phys_mem (mm k)) frames →
     available (phys_mem (mm k)) = frames ++ available (mark frames (phys_mem (mm k))) →
     Q (Some frames) (with_phys (mark frames (phys_mem (mm k))) k)) →
  wp (fork_alloc parent) k Q X.
Proof.
  intros Hs Hv HN HS. pose proof (sh_task _ Hs _ _ Hv) as Hts. pose proof (sh_mem _ Hs) as Hlen.
  unfold fork_alloc.
  eapply (wp_loop (λ frames k', k' = with_phys (mark frames (phys_mem (mm k))) k ∧
    zlen frames ≤ NUM_PAG_DATA ∧ fresh (phys_mem (mm k)) frames ∧
    available (phys_mem (mm k)) = frames ++ available (mark frames (phys_mem (mm k)))) (λ frames, NUM_PAG_DATA - zlen frames)).
  { split_and!; [|done..]. by destruct k as [? ? ? ? [] ? ? ?]. }
  { done. }
  intros frames k' (-> & Hle & Hf & Hav). split; [lia|]. case_bool_decide as Hlt.
  - apply wp_bind. eapply wp_aget; [done|].
    destruct (zlookup_range (ph_pages v) (zlen frames)) as [p Hp].
    { rewrite (ts_pages _ Hts). split; [unfold zlen; lia|done]. }
    pose proof (task_shape_frame _ _ _ Hts Hp).
    apply wp_bind. eapply wp_of_option; [done|]. rewrite bool_decide_true by lia.
    apply wp_bind, wp_zoom, wp_alloc_frame; [simpl; by rewrite zlen_mark|].
    intros f m' [f' Hc Hl Hmin|Hnone].
    + rewrite bool_decide_false by (destruct Hc; unfold NUM_PAG_KERNEL in *; lia).
      apply wp_ret. rewrite mark_snoc. unfold zlen in *. rewrite length_app. simpl.
      split; [|lia]. split_and!; [done|lia|by apply fresh_snoc|].
      rewrite <-app_assoc. etrans; [exact Hav|]. f_equal. by apply available_first.
    + rewrite bool_decide_true by done. apply wp_bind.
      refine (wp_free_frames frames (phys_mem (mm k)) k _ _ Hlen Hf _). apply wp_ret.
      apply available_nil in Hnone. simpl in Hnone. rewrite Hnone, app_nil_r in Hav. rewrite <-Hav in Hlt.
      replace (with_phys (phys_mem (mm k)) k) with k by (by destruct k as [? ? ? ? [] ? ? ?]). by apply HN.
  - apply wp_ret, HS; [lia|exact Hf|exact Hav].
Qed.

(** ** The copy of the parent's pages.

    The running process sees the frame [g j] at its data page [j]; the child
    has [frames]. *)

Definition WINDOW : Z := PAG_LOG_INIT_DATA_P0 + NUM_PAG_DATA.

Record copied (g : Z → Z) (frames : list Z) (n : Z) (m m' : mm_state) : Prop := {
  cp_ram : ∀ j f i, 0 ≤ j < n → zlookup frames j = Some f → 0 ≤ i < PAGE_SIZE →
    ram_byte m' (f * PAGE_SIZE + i) = ram_byte m (g j * PAGE_SIZE + i);
  cp_other : ∀ h i, (∀ j, 0 ≤ j < n → zlookup frames j ≠ Some h) → 0 ≤ i < PAGE_SIZE →
    ram_byte m' (h * PAGE_SIZE + i) = ram_byte m (h * PAGE_SIZE + i);
  cp_phys : phys_mem m' = phys_mem m;
  cp_table : ∀ p, ¬ (WINDOW ≤ p < WINDOW + n) →
    zlookup (pagusr_table m') p = zlookup (pagusr_table m) p;
  cp_window : ∀ p, WINDOW ≤ p < WINDOW + n → zlookup (pagusr_table m') p = Some 0;
  cp_len : zlen (pagusr_table m') = zlen (pagusr_table m);
}.

(** What the parent sees, away from the frames of the child. *)
Record sees (g : Z → Z) (frames : list Z) (m : mm_state) : Prop := {
  se_page : ∀ j, 0 ≤ j < NUM_PAG_DATA →
    zlookup (pagusr_table m) (PAG_LOG_INIT_DATA_P0 + j) = Some (user_pte (g j));
  se_range : ∀ j, 0 ≤ j < NUM_PAG_DATA → 0 ≤ g j < 2 ^ 20;
  se_apart : ∀ j, 0 ≤ j < NUM_PAG_DATA → g j ∉ frames;
}.

Lemma copied_0 g frames m : copied g frames 0 m m.
Proof. split; intros; (done || lia). Qed.

Lemma copied_step g frames n f m m' r X Y :
  copied g frames n m m' → zlookup frames n = Some f → NoDup frames → 0 ≤ n < NUM_PAG_DATA →
  g n ∉ frames → zlen (pagusr_table m) = TOTAL_PAGES →
  let page := WINDOW + n in
  let m1 := set_stale X (set_pagusr_table (zinsert page (user_pte f) (pagusr_table m')) m') in
  (∀ i, 0 ≤ i < PAGE_SIZE →
     ram_byte (set_ram r m1) (f * PAGE_SIZE + i) = ram_byte m1 (g n * PAGE_SIZE + i)) →
  (∀ h i, h ≠ f → 0 ≤ i < PAGE_SIZE →
     ram_byte (set_ram r m1) (h * PAGE_SIZE + i) = ram_byte m1 (h * PAGE_SIZE + i)) →
  copied g frames (n + 1) m
    (set_stale Y (set_pagusr_table (zinsert page 0 (zinsert page (user_pte f) (pagusr_table m')))
      (set_ram r m1))).
Proof.
  intros [Cr Co Cp Ct Cw Cl] Hf Hnd Hn Hg Hlen page m1 Hnew Hold.
  assert (0 ≤ page < zlen (pagusr_table m')) as Hpage.
  { rewrite Cl, Hlen. unfold page, WINDOW. change PAG_LOG_INIT_DATA_P0 with 264.
    unfold NUM_PAG_DATA, TOTAL_PAGES in *. lia. }
  assert (∀ j, 0 ≤ j < n → zlookup frames j ≠ Some f) as Hne.
  { intros j Hj E. unfold zlookup in *. rewrite !decide_True in * by lia.
    pose proof (NoDup_lookup _ _ _ _ Hnd E Hf). lia. }
  split; simpl.
  - intros j f' i Hj Hf' Hi. destruct (decide (j = n)) as [->|].
    + rewrite Hf in Hf'. simplify_eq. etransitivity; [by apply Hnew|]. apply (Co (g n)); [|done].
      intros j' _ E. by apply Hg, (zlookup_elem _ j').
    + etransitivity; [apply Hold; [|done]|apply (Cr j); (done || lia)].
      intros ->. by apply (Hne j); [lia|].
  - intros h i Hh Hi. etransitivity; [apply Hold; [|done]|apply Co; [|done]].
    + intros ->. apply (Hh n); [lia|done].
    + intros j ?. apply Hh. lia.
  - done.
  - intros p Hp. rewrite zinsert_zinsert_eq, zlookup_zinsert_ne by (unfold page; lia). apply Ct. lia.
  - intros p Hp. rewrite zinsert_zinsert_eq, zlookup_zinsert by done. case_decide; [done|].
    apply Cw. unfold page in *. lia.
  - by rewrite !zlen_zinsert.
Qed.

(** The parent's pages are never those of the window. *)
Lemma copied_sees g frames n m m' :
  copied g frames n m m' → sees g frames m → sees g frames m'.
Proof.
  intros Hc [Hp ? ?]. split; [|done..]. intros j Hj. rewrite (cp_table _ _ _ _ _ Hc); [by apply Hp|].
  unfold WINDOW. lia.
Qed.

(** The child's task while its pages are filled in. *)
Definition with_child (child : Z) (c : task_struct) (m : mm_state) (k : kstate) : kstate :=
  set_mm m (set_task (zinsert child c (task k)) k).

Lemma wp_ph_pages_set i j f v k (Q : unit → kstate → Prop) X :
  zlookup (task k) i = Some v → 0 ≤ j < zlen (ph_pages v) →
  Q () (set_task (zinsert i (t_ph_pages (zinsert j f (ph_pages v)) v) (task k)) k) →
  wp (ph_pages_set i j f) k Q X.
Proof.
  intros Hv Hj HQ. unfold ph_pages_set. apply wp_bind. eapply wp_aget; [done|].
  destruct (zlookup_range _ _ Hj) as [x Hx]. apply wp_bind. eapply wp_of_option; [done|].
  by eapply wp_task_set.
Qed.

Lemma wp_fork_copy_page child frames g n f c m m' k (Q : unit → kstate → Prop) X :
  copied g frames n m m' → sees g frames m → zlookup frames n = Some f → NoDup frames →
  0 ≤ f < TOTAL_PAGES → 0 ≤ n < NUM_PAG_DATA → zlen (pagusr_table m) = TOTAL_PAGES →
  0 ≤ child < zlen (task k) → zlen (ph_pages c) = NUM_PAG_DATA →
  (∀ m'', copied g frames (n + 1) m m'' →
     Q () (with_child child (t_ph_pages (zinsert n f (ph_pages c)) c) m'' k)) →
  wp (fork_copy_page child frames n) (with_child child c m' k) Q X.
Proof.
  intros Hc Hsee Hf Hnd Hfr Hn Hlen Hch Hpp HQ. pose proof (copied_sees _ _ _ _ _ Hc Hsee) as [Hp Hgr Hga].
  unfold fork_copy_page. apply wp_bind. eapply wp_of_option; [done|].
  fold WINDOW.
  assert (0 ≤ WINDOW + n < zlen (pagusr_table m')) as Hpage.
  { rewrite (cp_len _ _ _ _ _ Hc), Hlen. unfold WINDOW. change PAG_LOG_INIT_DATA_P0 with 264.
    unfold NUM_PAG_DATA, TOTAL_PAGES in *. lia. }
  apply wp_bind, wp_zoom, wp_set_ss_pag; [done|]. simpl.
  apply wp_bind, wp_zoom. simpl.
  assert (g n ≠ f) as Hne by (intros E; apply (Hga n Hn); rewrite E; by eapply zlookup_elem).
  eapply (wp_copy_page _ _ (g n) f); [| | |unfold TOTAL_PAGES in *; lia|exact Hne|].
  { simpl. rewrite zlookup_zinsert_ne by (unfold WINDOW; lia). by apply Hp. }
  { by apply Hgr. }
  { simpl. by apply zlookup_zinsert_eq. }
  intros r Hnew Hold. simpl.
  apply wp_bind. eapply wp_ph_pages_set; [by apply zlookup_zinsert_eq|by rewrite Hpp|]. simpl.
  apply wp_zoom, wp_del_ss_pag; [simpl; by rewrite zlen_zinsert|]. simpl.
  match goal with |- Q _ ?k' => replace k' with (with_child child (t_ph_pages (zinsert n f (ph_pages c)) c)
    (mm k') k) end.
  - apply HQ. simpl. eapply copied_step; [done..|by apply Hga|done|exact Hnew|exact Hold].
  - unfold with_child, set_mm, set_task. simpl. by rewrite (zinsert_zinsert_eq (task k)).
Qed.

Lemma wp_fork_copy child frames g c m k (Q : unit → kstate → Prop) X :
  sees g frames m → fresh (phys_mem (mm k)) frames → zlen frames = NUM_PAG_DATA →
  zlen (pagusr_table m) = TOTAL_PAGES → 0 ≤ child < zlen (task k) →
  zlen (ph_pages c) = NUM_PAG_DATA →
  (∀ m', copied g frames NUM_PAG_DATA m m' →
     Q () (with_child child (t_ph_pages frames c) m' k)) →
  wp (for_range 0 (NUM_PAG_DATA `min` (zlen frames + 1)) (fork_copy_page child frames))
    (with_child child c m k) Q X.
Proof.
  intros Hsee Hf Hfl Hlen Hch Hpp HQ. rewrite Z.min_l by lia.
  eapply (wp_for_range (λ n k', ∃ m' pp, k' = with_child child (t_ph_pages pp c) m' k ∧
    copied g frames n m m' ∧ zlen pp = NUM_PAG_DATA ∧
    ∀ j, 0 ≤ j < n → zlookup pp j = zlookup frames j)); [done| | |].
  - exists m, (ph_pages c). split_and!; [by destruct c|apply copied_0|done|lia].
  - intros n k' Hn (m' & pp & -> & Hc & Hl & Hpre).
    destruct (zlookup_range frames n) as [f Hfn]; [lia|].
    eapply wp_fork_copy_page; [done|done|done|by eapply fresh_nodup|
      by eapply fresh_range, zlookup_elem|done|done|done|done|].
    intros m'' Hc''. exists m'', (zinsert n f pp). split_and!; [done|done|by rewrite zlen_zinsert|].
    intros j Hj. rewrite zlookup_zinsert by lia. case_decide; [by subst|]. apply Hpre. lia.
  - intros k' (m' & pp & -> & Hc & Hl & Hpre).
    assert (pp = frames) as ->; [|by apply HQ].
    apply list_eq. intros i. rewrite <-!zlookup_nat.
    destruct (decide (Z.of_nat i < NUM_PAG_DATA)); [apply Hpre; lia|].
    by rewrite !zlookup_None by lia.
Qed.

(** ** The open files the child shares. *)

(** One more descriptor designates the open file [p]. *)
Definition share_fd (s : fs_state) (p : option Z) : fs_state :=
  match p with
  | None => s
  | Some o =>
      match zlookup (fdt s) o with
      | Some v =>
          let s := set_fdt (zinsert o (with_refs (s32 (refs v + 1)) v) (fdt s)) s in
          match logic_dev v with
          | Some d =>
              match zlookup (dir s) d with
              | Some f => set_dir (zinsert d (with_n_refs (s32 (n_refs f + 1)) f) (dir s)) s
              | None => s
              end
          | None => s
          end
      | None => s
      end
  end.
Definition share_fds (fds : list (option Z)) (s : fs_state) : fs_state := fold_left share_fd fds s.

(** The open files a descriptor can designate: entries of [fdt] whose device
    is an entry of [dir]. *)
Definition valid_open (s : fs_state) (o : Z) : Prop :=
  ∃ v d, zlookup (fdt s) o = Some v ∧ logic_dev v = Some d ∧ 0 ≤ d < zlen (dir s).
Definition valid_fds (s : fs_state) (fds : list (option Z)) : Prop :=
  ∀ o, Some o ∈ fds → valid_open s o.

Lemma valid_share s p o :
  (∀ o', p = Some o' → valid_open s o') → valid_open s o → valid_open (share_fd s p) o.
Proof.
  intros Hp (v & d & Hv & Hd & Hr). destruct p as [o'|]; simpl; [|by exists v, d].
  destruct (Hp o' eq_refl) as (v' & d' & Hv' & Hd' & Hr'). rewrite Hv', Hd'. simpl.
  destruct (zlookup_range _ _ Hr') as [f Hf]. rewrite Hf. unfold valid_open. simpl.
  rewrite zlen_zinsert, zlookup_zinsert by eauto with arrays.
  destruct (decide (o' = o)) as [->|]; [|by exists v, d]. simplify_eq. by eexists _, d.
Qed.

Section ShareFds.
Context (child : Z) (c : task_struct) (m : mm_state).

Lemma wp_fork_share_fd i p k (Q : unit → kstate → Prop) X :
  zlookup (file_descriptors c) i = Some p → 0 ≤ child < zlen (task k) →
  (∀ o, p = Some o → valid_open (fs k) o) →
  Q () (with_child child c m (set_fs (share_fd (fs k) p) k)) →
  wp (fork_share_fd child i) (with_child child c m k) Q X.
Proof.
  intros Hp Hch Hv HQ. unfold fork_share_fd. apply wp_bind.
  eapply wp_aget; [by apply zlookup_zinsert_eq|]. apply wp_bind. eapply wp_of_option; [done|].
  destruct p as [o|]; [|by apply wp_ret; destruct k].
  destruct (Hv o eq_refl) as (v & d & Hfd & Hd & Hr). destruct (zlookup_range _ _ Hr) as [f Hf].
  simpl in HQ. rewrite Hfd, Hd in HQ. simpl in HQ. rewrite Hf in HQ.
  apply wp_bind, wp_zoom. eapply wp_aget; [done|].
  apply wp_bind, wp_zoom. eapply wp_amodify; [done|].
  apply wp_bind. eapply wp_of_option; [done|].
  apply wp_bind, wp_zoom. eapply wp_aget; [done|]. apply wp_zoom. eapply wp_amodify; [done|]. exact HQ.
Qed.

Lemma wp_fork_share_fds k (Q : unit → kstate → Prop) X :
  zlen (file_descriptors c) = MAX_FDS → 0 ≤ child < zlen (task k) →
  valid_fds (fs k) (file_descriptors c) →
  Q () (with_child child c m (set_fs (share_fds (file_descriptors c) (fs k)) k)) →
  wp (for_range 0 MAX_FDS (fork_share_fd child)) (with_child child c m k) Q X.
Proof.
  intros Hlen Hch Hv HQ.
  eapply (wp_for_range (λ i k', ∃ s, k' = with_child child c m (set_fs s k) ∧
    valid_fds s (file_descriptors c) ∧
    s = share_fds (take (Z.to_nat i) (file_descriptors c)) (fs k))); [done| | |].
  - exists (fs k). split_and!; [by destruct k|done|done].
  - intros i k' Hi (s & -> & Hs & Es). destruct (zlookup_range (file_descriptors c) i) as [p Hp]; [lia|].
    assert (∀ o, p = Some o → valid_open s o) as Hpo.
    { intros o ->. apply Hs. by eapply zlookup_elem. }
    eapply wp_fork_share_fd; [done|done|done|]. exists (share_fd s p). split_and!; [done| |].
    + intros o Ho. apply valid_share; [done|by apply Hs].
    + unfold zlookup in Hp. rewrite decide_True in Hp by lia.
      replace (Z.to_nat (i + 1)) with (S (Z.to_nat i)) by lia.
      rewrite (take_S_r _ _ _ Hp). unfold share_fds. rewrite fold_left_app. simpl. by rewrite Es.
  - intros k' (s & -> & _ & Es).
    rewrite take_ge in Es by (unfold zlen, MAX_FDS in *; lia). subst s. exact HQ.
Qed.
End ShareFds.

(** ** The task of the child. *)

Lemma wp_child_set {A} (setter : A → task_struct → task_struct) a child c m k
    (Q : unit → kstate → Prop) X :
  0 ≤ child < zlen (task k) → Q () (with_child child (setter a c) m k) →
  wp (task_set setter child a) (with_child child c m k) Q X.
Proof.
  intros Hch HQ. eapply wp_task_set; [by apply zlookup_zinsert_eq|].
  match goal with |- Q _ ?k' => replace k' with (with_child child (setter a c) m k); [done|] end.
  unfold with_child, set_mm, set_task. simpl. by rewrite zinsert_zinsert_eq.
Qed.

Lemma wp_child_no_sems child c m k (Q : unit → kstate → Prop) X :
  0 ≤ child < zlen (task k) → zlen (owned_sems c) = SEM_MAX_VALUE →
  Q () (with_child child (t_owned_sems (replicate (Z.to_nat SEM_MAX_VALUE) (-1)) c) m k) →
  wp (for_range 0 SEM_MAX_VALUE (λ i, owned_sems_set child i (-1))) (with_child child c m k) Q X.
Proof.
  intros Hch Hlen HQ.
  eapply (wp_for_range (λ i k', ∃ l, k' = with_child child (t_owned_sems l c) m k ∧
    zlen l = SEM_MAX_VALUE ∧ ∀ j, 0 ≤ j < i → zlookup l j = Some (-1))); [done| | |].
  - exists (owned_sems c). split_and!; [by destruct c|done|lia].
  - intros i k' Hi (l & -> & Hl & Hj).
    eapply wp_owned_sems_set; [by apply zlookup_zinsert_eq|simpl; by rewrite Hl|].
    exists (zinsert i (-1) l). split_and!.
    + unfold with_child, set_mm, set_task. simpl. by rewrite zinsert_zinsert_eq.
    + by rewrite zlen_zinsert.
    + intros j ?. rewrite zlookup_zinsert by lia. case_decide; [done|]. apply Hj. lia.
  - intros k' (l & -> & Hl & Hj).
    assert (l = replicate (Z.to_nat SEM_MAX_VALUE) (-1)) as ->; [|done].
    apply list_eq. intros i. rewrite <-zlookup_nat.
    destruct (decide (Z.of_nat i < SEM_MAX_VALUE)).
    + rewrite Hj by lia. symmetry. apply lookup_replicate. split; [done|lia].
    + rewrite zlookup_None by lia. symmetry. apply lookup_replicate_None. lia.
Qed.

Definition child_task (p : Z) (frames : list Z) (v : task_struct) : task_struct :=
  TaskStruct p (quantum v) 0 (quantum v) 0 frames (replicate (Z.to_nat SEM_MAX_VALUE) (-1))
    (pending_chars v) (req_size v) (buffer v) (file_descriptors v) 0.

(** ** [sys_fork]. *)

(** The address space of the running process: [g] gives the frames of its data
    pages, none of which is free. *)
Record address_space (g : Z → Z) (m : mm_state) : Prop := {
  ad_page : ∀ j, 0 ≤ j < NUM_PAG_DATA →
    zlookup (pagusr_table m) (PAG_LOG_INIT_DATA_P0 + j) = Some (user_pte (g j));
  ad_range : ∀ j, 0 ≤ j < NUM_PAG_DATA → 0 ≤ g j < 2 ^ 20;
  ad_used : ∀ j, 0 ≤ j < NUM_PAG_DATA → zlookup (phys_mem m) (g j) ≠ Some FREE_FRAME;
}.

(** The first task without a process. *)
Definition first_dead (k : kstate) (t : Z) : Prop :=
  (∃ w, zlookup (task k) t = Some w ∧ pid w = -1) ∧ ∀ j w, zlookup (task k) j = Some w → j < t → 0 ≤ pid w.

(** What [fork] does: there is no free task; the frames left are too few; or the
    child is the first free task, on the first frames that are free. *)
Inductive fork_post (k : kstate) (q : node → list Z) (v : task_struct) (g : Z → Z)
  : Z → kstate → Prop :=
| fork_no_task :
    (∀ j w, zlookup (task k) j = Some w → 0 ≤ pid w) → fork_post k q v g (- EAGAIN) k
| fork_no_frames child h' :
    first_dead k child → zlen (available (phys_mem (mm k))) < NUM_PAG_DATA →
    queues_ok (active (sem k)) h' q →
    fork_post k q v g (- EAGAIN)
      (set_lists h' (set_task (zinsert child (t_pid (-1) v) (task k)) k))
| fork_done child h' frames m' :
    first_dead k child → frames = take (Z.to_nat NUM_PAG_DATA) (available (phys_mem (mm k))) →
    fresh (phys_mem (mm k)) frames → zlen frames = NUM_PAG_DATA →
    copied g frames NUM_PAG_DATA (set_phys_mem (mark frames (phys_mem (mm k))) (mm k)) m' →
    queues_ok (active (sem k)) h' (<[Runqueue := q Runqueue ++ [child]]> q) →
    fork_post k q v g (pid_counter (sched k))
      (MkK (zinsert child (child_task (pid_counter (sched k)) frames v) (task k))
        (set_pid_counter (pid_counter (sched k) + 1) (sched k)) (sem k) h' (set_stale ∅ m')
        (share_fds (file_descriptors v) (fs k)) (kbd k) (io k)).

Section Fork.
Context (k : kstate) (q : node → list Z) (v : task_struct) (g : Z → Z).
Hypothesis Hs : shape k.
Hypothesis Hq : qinv (qview_of k) q.
Hypothesis Hv : zlookup (task k) (cur (sched k)) = Some v.
Hypothesis Halive : 0 ≤ pid v.
Hypothesis Hpid : pid_counter (sched k) < INT_MAX.
Hypothesis Hfds : valid_fds (fs k) (file_descriptors v).
Hypothesis Hg : address_space g (mm k).

Lemma fork_sees frames :
  fresh (phys_mem (mm k)) frames → sees g frames (set_phys_mem (mark frames (phys_mem (mm k))) (mm k)).
Proof.
  intros Hf. split; [apply Hg..|]. intros j Hj Hin.
  destruct (fresh_free _ _ _ Hf Hin) as [_ Hl]. by apply (ad_used _ _ Hg j).
Qed.

(** The rest of [fork] once the pages are copied. *)
Lemma wp_fork_finish child w frames h m c (Q : Z → kstate → Prop) X :
  zlookup (task k) child = Some w → pid w = -1 →
  queues_ok (active (sem k)) h q →
  c = t_ph_pages frames v →
  (∀ h', queues_ok (active (sem k)) h' (<[Runqueue := q Runqueue ++ [child]]> q) →
     Q (pid_counter (sched k))
       (MkK (zinsert child (child_task (pid_counter (sched k)) frames v) (task k))
         (set_pid_counter (pid_counter (sched k) + 1) (sched k)) (sem k) h' (set_stale ∅ m)
         (share_fds (file_descriptors v) (fs k)) (kbd k) (io k))) →
  wp (zoom MM set_cr3;;
      task_set t_saved_eax child 0;;
      (let! p := get PidCounter in put PidCounter (s32 (p + 1));; task_set t_pid child p);;
      (let! t := aget Task (cur (sched k)) in task_set t_quantum child (quantum t));;
      task_set t_cpu_tics child 0;;
      task_set t_transitions child 0;;
      (let! t := aget Task child in task_set t_remaining child (quantum t));;
      for_range 0 SEM_MAX_VALUE (λ i, owned_sems_set child i (-1));;
      for_range 0 MAX_FDS (fork_share_fd child);;
      zoom Lists (list_add_tail (RunListP child) RunqueueP);;
      let! p := get PidCounter in
      ret (s32 (p - 1))) (with_child child c m (set_lists h k)) Q X.
Proof using All.
  intros Hw Hp Hok -> HQ. assert (child ≠ cur (sched k)) as Hne by (intros ->; simplify_eq; lia).
  assert (0 ≤ child < zlen (task k)) as Hr by eauto with arrays.
  pose proof (qi_counter _ _ Hq) as Hcnt. simpl in Hcnt.
  assert (∀ hd, child ∉ q hd) as Hdead.
  { apply (qi_dead _ _ Hq). simpl. by rewrite zlookup_fmap, Hw, <-Hp. }
  pose proof (sh_task _ Hs _ _ Hv) as Hts.
  apply wp_bind, wp_zoom. unfold set_cr3. wp_step.
  apply wp_bind. apply (wp_child_set t_saved_eax 0 child _ (set_stale ∅ m) (set_lists h k)); [done|].
  apply wp_bind, wp_bind, wp_get, wp_bind, wp_put.
  change (view PidCounter (with_child child (t_saved_eax 0 (t_ph_pages frames v)) (set_stale ∅ m) (set_lists h k)))
    with (pid_counter (sched k)).
  rewrite s32_small by (unfold INT_MIN, INT_MAX in *; lia).
  set (k1 := update PidCounter (pid_counter (sched k) + 1) (set_lists h k)).
  apply (wp_child_set _ _ child _ (set_stale ∅ m) k1); [done|].
  apply wp_bind, wp_bind. eapply wp_aget; [simpl; rewrite zlookup_zinsert_ne by done; exact Hv|].
  apply wp_child_set; [done|]. apply wp_bind, wp_child_set; [done|].
  apply wp_bind, wp_child_set; [done|].
  apply wp_bind, wp_bind. eapply wp_aget; [by apply zlookup_zinsert_eq|].
  apply wp_child_set; [done|].
  apply wp_bind, wp_child_no_sems; [done|apply Hts|].
  apply wp_bind, wp_fork_share_fds; [apply Hts|done|exact Hfds|].
  apply wp_bind, wp_zoom. eapply wp_list_add_tail_task; [exact Hok|done|
    by eapply task_lookup_range|done|].
  intros h' Hok'. apply wp_bind, wp_get, wp_ret. simpl.
  replace (pid_counter (sched k) + 1 - 1) with (pid_counter (sched k)) by lia.
  rewrite s32_small by (unfold INT_MIN, INT_MAX in *; lia). by apply HQ.
Qed.

Lemma wp_copy_task child w (Q : unit → kstate → Prop) X :
  zlookup (task k) child = Some w → pid w = -1 →
  (∀ h, queues_ok (active (sem k)) h q → Q () (with_child child v (mm k) (set_lists h k))) →
  wp (copy_task (cur (sched k)) child) k Q X.
Proof using Hq Hv.
  intros Hw Hp HQ. unfold copy_task. apply wp_bind. eapply wp_aget; [done|].
  assert (0 ≤ child < zlen (task k)) as Hr by eauto with arrays.
  apply wp_bind, wp_aset; [done|]. simpl.
  destruct (ok_nodes _ _ _ (qi_ok _ _ Hq) (RunList (cur (sched k)))) as [c Hc].
  { apply run_list_in_all_nodes, Hq. }
  destruct (ok_nodes _ _ _ (qi_ok _ _ Hq) (RunList child)) as [c' Hc'].
  { apply run_list_in_all_nodes. by eapply task_lookup_range. }
  apply wp_bind, wp_zoom. eapply wp_load; [exact Hc|]. simpl.
  apply wp_zoom. simpl. unfold store, RunListP. apply wp_bind. eapply wp_load; [exact Hc'|]. unfold wp.
  change (Q tt (with_child child v (mm k) (set_lists (<[RunList child := c]> (lists k)) k))).
  apply HQ. apply queues_ok_store_free; [apply Hq|].
  apply (qi_dead _ _ Hq). simpl. by rewrite zlookup_fmap, Hw, <-Hp.
Qed.

Lemma wp_sys_fork (Q : Z → kstate → Prop) X :
  (∀ r k', fork_post k q v g r k' → Q r k') → wp sys_fork k Q X.
Proof using All.
  intros HQ. unfold sys_fork. apply wp_bind.
  eapply wp_srch_free_task; [done|intros child w Hw Hp Hfirst|intros Hnone].
  2: { rewrite bool_decide_true by done. apply wp_ret, HQ. by constructor. }
  pose proof (task_lookup_range _ _ _ _ Hq Hw) as Hrange. rewrite bool_decide_false by lia.
  assert (pid w = -1) as Hp'.
  { assert (zlookup (pid <$> task k) child = Some (pid w)) as E by by rewrite zlookup_fmap, Hw.
    destruct (qi_pid _ _ Hq _ _ E); lia. }
  assert (child ≠ cur (sched k)) as Hne by (intros ->; simplify_eq; lia).
  assert (0 ≤ child < zlen (task k)) as Hr by eauto with arrays.
  apply wp_bind, wp_ret. change (view Cur k) with (cur (sched k)).
  apply wp_bind. eapply wp_copy_task; [done..|]. intros h Hok.
  apply wp_bind. eapply (wp_fork_alloc (with_child child v (mm k) (set_lists h k)) _ v).
  - refine (shape_set_task (set_lists h k) child w v (shape_set_lists _ _ Hs) Hw _).
    exact (sh_task _ Hs _ _ Hv).
  - simpl. by rewrite zlookup_zinsert_ne.
  - intros Hfew. apply wp_bind. apply wp_child_set; [done|]. apply wp_ret, HQ.
    apply (fork_no_frames k q v g child h); [by split; [exists w|]|exact Hfew|exact Hok].
  - intros frames Hl Hf Hav. simpl in Hf, Hav.
    apply wp_bind. apply (wp_fork_copy child frames g v _ (set_lists h k)); try done.
    + by apply fork_sees.
    + apply Hs.
    + by apply (sh_task _ Hs _ _ Hv).
    + intros m' Hc. eapply wp_fork_finish; [done..|]. intros h' Hok'. apply HQ.
      eapply fork_done; [by split; [exists w|]| |exact Hf|exact Hl|exact Hc|exact Hok'].
      rewrite Hav, take_app_length'; [done|]. unfold zlen in Hl. lia.
Qed.
End Fork.
