(* ===== verification/Boot.v ===== *)
(** * The state [main] leaves satisfies the invariant of the queues, and so
    does every state reached from it. *)
From stdpp Require Import functions.
From S2P Require Import Prelude KList Mm Utils Io Fs KState Sched.
From S2P Require Import Sem Devices Sys Interrupt Queues SchedFacts SemFacts Quiet.
From S2P Require Import KernelInv.

(** ** Frames: enough of them are free. *)

(** Every even frame from [b] on is free. *)
Definition free_from (b : Z) (m : mm_state) : Prop :=
  zlen (phys_mem m) = TOTAL_PAGES ∧
  ∀ g, b ≤ g < TOTAL_PAGES → zlookup (phys_mem m) g = Some FREE_FRAME.

Definition even_free_from (b : Z) (m : mm_state) : Prop :=
  zlen (phys_mem m) = TOTAL_PAGES ∧
  ∀ g, b ≤ g < TOTAL_PAGES → Z.Even g → zlookup (phys_mem m) g = Some FREE_FRAME.

Lemma free_even b m : free_from b m → even_free_from b m.
Proof. intros [? H]. split; auto. Qed.

Lemma free_phys b m m' : phys_mem m' = phys_mem m → even_free_from b m → even_free_from b m'.
Proof. unfold even_free_from. by intros ->. Qed.

Lemma wp_alloc_from b m Q X :
  even_free_from b m → Z.Even b → NUM_PAG_KERNEL ≤ b < TOTAL_PAGES →
  (∀ f, is_alloc_candidate f → f ≤ b → zlookup (phys_mem m) f = Some FREE_FRAME →
     let m' := set_phys_mem (zinsert f USED_FRAME (phys_mem m)) m in even_free_from (b + 2) m' → Q f m') →
  wp alloc_frame m Q X.
Proof.
  intros [Hlen Hfree] Heven Hb HQ. apply wp_alloc_frame; [done|]. intros f m' [f' Hc Hf Hmin|Hnone].
  - assert (f' ≤ b).
    { destruct (decide (f' ≤ b)) as [?|Hgt]; [done|].
      exfalso. apply (Hmin b); [by split|lia|]. apply Hfree; [lia|done]. }
    apply HQ; [done|done|done|]. split; simpl; [by rewrite zlen_zinsert|].
    intros g ? ?. rewrite zlookup_zinsert_ne by lia. apply Hfree; [lia|done].
  - exfalso. apply (Hnone b); [by split|]. apply Hfree; [lia|done].
Qed.

Lemma wlp_init_frames m Q X :
  zlen (phys_mem m) = TOTAL_PAGES →
  (∀ m', free_from NUM_PAG_KERNEL m' → pagusr_table m' = pagusr_table m → Q 0 m') →
  wlp init_frames m Q X.
Proof.
  intros Hlen HQ. unfold init_frames. apply wlp_bind.
  apply (wlp_for_range (λ i m', zlen (phys_mem m') = TOTAL_PAGES ∧ pagusr_table m' = pagusr_table m ∧
    ∀ j, 0 ≤ j < i → zlookup (phys_mem m') j = Some FREE_FRAME)).
  { done. } { split_and!; [done|done|lia]. }
  { intros i m' Hi (Hl & Ht & Hj). apply wlp_aset. intros Hr. simpl.
    rewrite zlen_zinsert. split_and!; [done|done|]. intros j ?.
    rewrite zlookup_zinsert by done. case_decide; [done|]. apply Hj. lia. }
  intros m1 (Hl1 & Ht1 & Hj1). apply wlp_bind.
  apply (wlp_for_range (λ i m', pagusr_table m' = pagusr_table m ∧ free_from NUM_PAG_KERNEL m')).
  { done. } { split; [done|]. split; [done|]. intros g ?. apply Hj1. unfold NUM_PAG_KERNEL in *. lia. }
  { intros i m' Hi (Ht & Hl & Hj). apply wlp_aset. intros Hr. simpl. split; [done|]. split; simpl.
    - by rewrite zlen_zinsert.
    - intros g ?. rewrite zlookup_zinsert_ne by lia. by apply Hj. }
  intros m2 [Ht Hf]. apply wlp_ret. by apply HQ.
Qed.

Lemma agree_phys_set_entry p f : respects (agree phys_mem) (set_entry p f).
Proof.
  apply respects_bind; [apply _|by apply respects_amodify|]. intros _. by apply respects_modify.
Qed.
#[local] Hint Resolve agree_phys_set_entry : respects.
Lemma agree_phys_dir (f : Z → Z) i : respects (agree phys_mem) (amodify DirPages i f).
Proof. by apply respects_amodify. Qed.
Lemma agree_phys_dir_set i e : respects (agree phys_mem) (aset DirPages i e).
Proof. by apply respects_aset. Qed.
Lemma mm_len_dir (f : Z → Z) i : respects mm_len (amodify DirPages i f).
Proof. by apply respects_amodify. Qed.
Lemma mm_len_dir_set i e : respects mm_len (aset DirPages i e).
Proof. by apply respects_aset. Qed.
#[local] Hint Resolve agree_phys_dir agree_phys_dir_set mm_len_dir mm_len_dir_set : respects.

Lemma respects_and {S A} (R1 R2 : S → S → Prop) (m : M S A) :
  respects R1 m → respects R2 m → respects (λ s s', R1 s s' ∧ R2 s s') m.
Proof. intros H1 H2 s. specialize (H1 s). specialize (H2 s). by destruct (m s). Qed.

Lemma wlp_init_mm ta tb m Q X :
  zlen (phys_mem m) = TOTAL_PAGES → zlen (pagusr_table m) = TOTAL_PAGES →
  (∀ m', free_from NUM_PAG_KERNEL m' → zlen (pagusr_table m') = TOTAL_PAGES → Q () m') →
  wlp (init_mm ta tb) m Q X.
Proof.
  intros Hp Ht HQ. unfold init_mm, init_table_pages. apply wlp_bind.
  eapply (wlp_respects mm_len); [respects|]. intros _ m1 [Hp1 Ht1].
  apply wlp_bind. eapply wlp_init_frames; [congruence|]. intros m2 Hf2 Ht2.
  apply wlp_bind. unfold init_dir_pages.
  eapply (wlp_respects (λ m m', agree phys_mem m m' ∧ mm_len m m'));
    [apply respects_and; respects|]. intros _ m3 [Hp3 [_ Ht3]].
  unfold set_cr3, set_pe_flag. apply wp_wlp. repeat wp_step. apply HQ; [|simpl; congruence].
  destruct Hf2 as [Hl Hf2]. split; simpl; rewrite Hp3; done.
Qed.

Lemma wlp_initialize_P0_frames m Q X :
  free_from NUM_PAG_KERNEL m →
  (∀ m', even_free_from 264 m' → pagusr_table m' = pagusr_table m → Q NUM_PAG_KERNEL m') →
  wlp initialize_P0_frames m Q X.
Proof.
  intros [Hl Hf] HQ. unfold initialize_P0_frames. apply wlp_bind.
  apply (wlp_for_range (λ i m', pagusr_table m' = pagusr_table m ∧ free_from 264 m')); [done| | |].
  { split; [done|]. split; [done|]. intros g ?. apply Hf. unfold NUM_PAG_KERNEL. lia. }
  2: { intros m' [? ?%free_even]. by apply wlp_ret, HQ. }
  intros i m' Hi (Ht' & Hl' & Hf'). apply wlp_aset. intros Hr. simpl. split; [done|]. split; simpl.
  - by rewrite zlen_zinsert.
  - intros g ?. rewrite zlookup_zinsert_ne; [by apply Hf'|].
    unfold NUM_PAG_KERNEL, NUM_PAG_CODE in *. lia.
Qed.

(** Stores to the page table and the directory leave the frames alone. *)
Definition page_stores (m m' : mm_state) : Prop := agree phys_mem m m' ∧ mm_len m m'.
Lemma page_stores_ok {A} (m : M mm_state A) :
  respects (agree phys_mem) m → respects mm_len m → respects page_stores m.
Proof. apply respects_and. Qed.
#[local] Hint Resolve page_stores_ok : respects.

(** The first pages from the data pages on are mapped to the frames [l], which
    [alloc_frame] gave. *)
Record spare_mapped (l : list Z) (m : mm_state) : Prop := {
  sp_page : ∀ j f, zlookup l j = Some f → zlookup (pagusr_table m) (PAG_LOG_INIT_DATA_P0 + j) = Some (user_pte f);
  sp_used : ∀ f, f ∈ l → is_alloc_candidate f ∧ zlookup (phys_mem m) f = Some USED_FRAME;
}.

Lemma spare_same l m m' :
  pagusr_table m' = pagusr_table m → phys_mem m' = phys_mem m → spare_mapped l m → spare_mapped l m'.
Proof. intros Et Ep [Hp Hu]. split; by rewrite ?Et, ?Ep. Qed.

(** One more page, at its end. *)
Lemma spare_snoc l f m m' :
  spare_mapped l m → 0 ≤ PAG_LOG_INIT_DATA_P0 + zlen l < zlen (pagusr_table m) → is_alloc_candidate f →
  0 ≤ f < zlen (phys_mem m) →
  pagusr_table m' = zinsert (PAG_LOG_INIT_DATA_P0 + zlen l) (user_pte f) (pagusr_table m) →
  phys_mem m' = zinsert f USED_FRAME (phys_mem m) → spare_mapped (l ++ [f]) m'.
Proof.
  intros [Hp Hu] Hr Hf Hfr Et Ep. split.
  - intros j g. rewrite zlookup_snoc, Et. case_decide as Hj.
    + intros [= <-]. subst j. by apply zlookup_zinsert_eq.
    + intros Hg. pose proof (zlookup_Some_range _ _ _ Hg). rewrite zlookup_zinsert_ne by lia. by apply Hp.
  - intros g [Hg| ->%list_elem_of_singleton]%elem_of_app; rewrite Ep.
    + destruct (Hu g Hg) as [Hc Hused]. split; [done|]. destruct (decide (g = f)) as [->|Hne].
      * by apply zlookup_zinsert_eq.
      * by rewrite zlookup_zinsert_ne.
    + split; [done|]. by apply zlookup_zinsert_eq.
Qed.

Lemma wp_fresh_page p b m (Q : unit → mm_state → Prop) X :
  0 ≤ p < zlen (pagusr_table m) → even_free_from b m → Z.Even b → NUM_PAG_KERNEL ≤ b < TOTAL_PAGES →
  (∀ f m', is_alloc_candidate f → even_free_from (b + 2) m' →
     pagusr_table m' = zinsert p (user_pte f) (pagusr_table m) →
     phys_mem m' = zinsert f USED_FRAME (phys_mem m) → Q () m') →
  wp (set_entry p (λ _, 0);; (let! f := alloc_frame in set_entry p (set_pbase_addr f));;
      set_entry p (set_user 1);; set_entry p (set_rw 1);; set_entry p (set_present 1)) m Q X.
Proof.
  intros Hp Hfree Hev Hb HQ. destruct (zlookup_range _ _ Hp) as [e He].
  apply wp_bind. eapply wp_set_entry; [done|].
  apply wp_bind, wp_bind. eapply wp_alloc_from; [by eapply (free_phys _ m)|done|done|].
  intros f Hc _ _ m' Hfree'.
  eapply wp_set_entry; [by apply zlookup_zinsert_eq|].
  do 2 (apply wp_bind, wp_set_entry_again; [simpl; by rewrite !zlen_zinsert|]).
  apply wp_set_entry_again; [simpl; by rewrite !zlen_zinsert|].
  apply (HQ f); [done|by eapply (free_phys _ m')| |done]. simpl. by rewrite !zinsert_zinsert_eq.
Qed.

Lemma wlp_set_user_pages m Q X :
  even_free_from 264 m → zlen (pagusr_table m) = TOTAL_PAGES →
  (∀ l m', zlen l = NUM_PAG_DATA → spare_mapped l m' → even_free_from 304 m' →
     zlen (pagusr_table m') = TOTAL_PAGES → Q () m') →
  wlp set_user_pages m Q X.
Proof.
  intros Hf1 Ht1 HQ. unfold set_user_pages. apply wlp_bind.
  eapply (wlp_respects page_stores); [apply page_stores_ok; respects|]. intros _ m2 [Hp2 [_ Ht2]].
  apply (wlp_for_range (λ pag m', ∃ l, zlen l = pag - 264 ∧ spare_mapped l m' ∧
    zlen (pagusr_table m') = TOTAL_PAGES ∧ even_free_from (264 + 2 * (pag - 264)) m')); [done| | |].
  { exists []. split; [done|]. split; [by split; [intros j f ?%zlookup_elem%not_elem_of_nil|intros f ?%not_elem_of_nil]|].
    split; [congruence|]. by apply (free_phys _ m). }
  2: { intros m3 (l & Hl & Hsp & ? & ?). by apply (HQ l). }
  intros pag m3 Hpag (l & Hl & Hsp & Ht3 & Hf3). change PAG_LOG_INIT_DATA_P0 with 264 in Hpag.
  unfold NUM_PAG_DATA in Hpag. apply wp_wlp. eapply wp_fresh_page; [|exact Hf3| | |].
  { rewrite Ht3. unfold TOTAL_PAGES. lia. } { exists (132 + (pag - 264)). lia. }
  { unfold NUM_PAG_KERNEL, TOTAL_PAGES. lia. }
  intros f m' Hc Hf' Et Ep. exists (l ++ [f]). split; [unfold zlen in *; rewrite length_app; simpl; lia|].
  assert (PAG_LOG_INIT_DATA_P0 + zlen l = pag) as Epag by (change PAG_LOG_INIT_DATA_P0 with 264; lia).
  split; [|split; [by rewrite Et, zlen_zinsert|]].
  - eapply (spare_snoc l f m3); [done| |done| |by rewrite Epag|done].
    + rewrite Epag, Ht3. unfold TOTAL_PAGES. lia.
    + destruct Hf3 as [-> _]. destruct Hc. unfold NUM_PAG_KERNEL in *. lia.
  - by replace (264 + 2 * (pag + 1 - 264)) with (264 + 2 * (pag - 264) + 2) by lia.
Qed.

(** ** The queues at boot. *)

Definition no_tasks : node → list Z := λ _, [].

Lemma links_bss_nodes : Forall (λ n, is_Some (links_bss !! n)) all_nodes.
Proof. apply (bool_decide_unpack _). vm_compute. exact I. Qed.

Lemma not_in_no_tasks hd t : t ∉ no_tasks hd.
Proof. apply not_elem_of_nil. Qed.

Lemma links_bss_ok : queues_ok (λ _, False) links_bss no_tasks.
Proof.
  split.
  - intros n Hn. pose proof links_bss_nodes as HF. rewrite Forall_forall in HF. by apply HF.
  - intros hd [].
  - intros hd [].
  - intros hd t []%not_in_no_tasks.
  - intros hd hd' t []%not_in_no_tasks.
  - intros hd t []%not_in_no_tasks.
Qed.

Lemma active_none hd : active (replicate (Z.to_nat SEM_MAX_VALUE) (Semaphore 0 0)) hd ↔
  hd = Runqueue ∨ hd = KeyboardQueue.
Proof.
  destruct hd as [| |i|]; unfold active; [naive_solver..| |naive_solver]. split; [|intros [|]; done].
  destruct (zlookup _ i) as [s|] eqn:Hs; [|done]. apply zlookup_elem, elem_of_replicate in Hs as [-> _]. done.
Qed.

(** The kernel between [init_sched] and [init_task0]: [n] processes were
    given a pid. *)
Record cold (n : Z) (pids : list Z) (k : kstate) : Prop := {
  co_shape : shape k;
  co_view : cur (sched k) = 0 ∧ pid_counter (sched k) = n ∧
            sem k = replicate (Z.to_nat SEM_MAX_VALUE) (Semaphore 0 0) ∧ pid <$> task k = pids;
  co_queues : queues_ok (active (sem k)) (lists k) no_tasks;
}.

Lemma quiet_cold n pids k k' : quiet k k' → cold n pids k → cold n pids k'.
Proof.
  intros [[= E1 E2 E3 E4 E5] S] [? ? ?]. split; auto; by rewrite ?E1, ?E2, ?E3, ?E4, ?E5.
Qed.

Lemma wp_init_queues k Q X :
  lists k = links_bss → sem k = replicate (Z.to_nat SEM_MAX_VALUE) (Semaphore 0 0) →
  (∀ h, queues_ok (active (sem k)) h no_tasks → Q () (set_lists h k)) →
  wp (zoom Lists (INIT_LIST_HEAD RunqueueP);; zoom Lists (INIT_LIST_HEAD KeyboardQueueP)) k Q X.
Proof.
  intros Hl Hsem HQ. apply wp_bind, wp_zoom. simpl. rewrite Hl.
  eapply wp_INIT_head; [apply links_bss_ok|done|tauto|]. intros h1 act1 Hact1 Hok1.
  apply wp_zoom. eapply wp_INIT_head; [done|done| |].
  { rewrite Hact1. by intros [|]. }
  intros h2 act2 Hact2 Hok2. apply HQ. rewrite Hsem.
  assert (∀ hd, act2 hd ↔ active (replicate (Z.to_nat SEM_MAX_VALUE) (Semaphore 0 0)) hd) as E.
  { intros hd. rewrite active_none, Hact2, Hact1. tauto. }
  destruct Hok2. split; try done; intros hd *; rewrite <-E; eauto.
Qed.

Lemma wlp_init_sched k Q X :
  lists k = links_bss → sem k = replicate (Z.to_nat SEM_MAX_VALUE) (Semaphore 0 0) →
  zlen (task k) = NR_TASKS → cur (sched k) = 0 → shape k →
  (∀ k', cold 0 (replicate (Z.to_nat NR_TASKS) (-1)) k' → mm k' = mm k → Q () k') →
  wlp init_sched k Q X.
Proof.
  intros Hl Hsem Hlen Hcur Hs HQ. unfold init_sched. apply wlp_bind_assoc, wlp_bind, wp_wlp.
  apply wp_init_queues; [done|done|]. intros h Hok. repeat wp_step.
  eapply (wlp_for_range (λ i k', shape k' ∧ zlen (task k') = NR_TASKS ∧ mm k' = mm k ∧
    lists k' = h ∧ sem k' = sem k ∧ cur (sched k') = 0 ∧ pid_counter (sched k') = 0 ∧
    ∀ j, 0 ≤ j < i → zlookup (pid <$> task k') j = Some (-1))); [done| | |].
  - split_and!; try done; [|lia]. split; apply Hs.
  - intros i k' Hi (Hs' & Hlen' & Hm & Hl' & Hsem' & Hc & Hp & Hj).
    apply wlp_amodify. intros v Hv. simpl in Hv. split_and!; try done; simpl.
    + eapply shape_set_task; [done|done|]. by destruct (sh_task _ Hs' _ _ Hv).
    + by rewrite zlen_zinsert.
    + intros j ?. rewrite zinsert_fmap, zlookup_zinsert by (rewrite zlen_fmap; lia).
      case_decide; [done|]. apply Hj. lia.
  - intros k' (Hs' & Hlen' & Hm & Hl' & Hsem' & Hc & Hp & Hj). apply HQ; [|done].
    split; [done|split_and!; [done|done|congruence|]|by rewrite Hsem', Hl'].
    apply list_eq_same_length with 10%nat; [done| |].
    { rewrite length_fmap. unfold zlen, NR_TASKS in Hlen'. lia. }
    intros i x y Hi Hx Hy. apply lookup_replicate in Hy as [-> _].
    specialize (Hj (Z.of_nat i) ltac:(unfold NR_TASKS; lia)). rewrite zlookup_nat in Hj. congruence.
Qed.

(** ** [init_task0]. *)

(** Quiet, and the memory is left alone. *)
Definition steady (k k' : kstate) : Prop := quiet k k' ∧ agree mm k k'.
#[export] Instance steady_preorder : PreOrder steady.
Proof.
  unfold steady. split; [split; reflexivity|]. intros k1 k2 k3 [] []. split; by etransitivity.
Qed.
Lemma steady_ok {A} (m : K A) : respects quiet m → respects (agree mm) m → respects steady m.
Proof. apply respects_and. Qed.
Lemma agree_mm_task_set {A} (f : A → task_struct → task_struct) i a :
  respects (agree mm) (task_set f i a).
Proof. by apply respects_amodify. Qed.
Lemma agree_mm_put_left v : respects (agree mm) (put Left4current v).
Proof. by apply respects_put. Qed.
Lemma agree_mm_ph_pages_set i j f : respects (agree mm) (ph_pages_set i j f).
Proof. unfold ph_pages_set. respects. apply agree_mm_task_set. Qed.
#[export] Hint Resolve agree_mm_task_set agree_mm_put_left agree_mm_ph_pages_set : respects.
Ltac steady := apply steady_ok; solve [respects].

Lemma cold_shape_mm n pids k m' :
  cold n pids k → zlen (phys_mem m') = TOTAL_PAGES → zlen (pagusr_table m') = TOTAL_PAGES →
  cold n pids (update MM m' k).
Proof. intros [[] [] ?] ? ?. split; [split|split|]; done. Qed.

Lemma wlp_cold_pid pids k (Q : unit → kstate → Prop) X :
  cold 0 pids k → (∀ k', cold 1 (zinsert 0 0 pids) k' → mm k' = mm k → Q () k') →
  wlp (let! p := get PidCounter in put PidCounter (s32 (p + 1));; task_set t_pid 0 p) k Q X.
Proof.
  intros [Hs (Ec & Ep & Esem & Epids) Hok] HQ. do 2 apply wlp_bind. apply wlp_ret. simpl.
  apply wlp_amodify. intros v Hv. simpl in Hv. rewrite Ep. change (s32 (0 + 1)) with 1.
  apply HQ; [|done]. split; [|split_and!; simpl; try done|done].
  - eapply (shape_set_task (set_sched _ k)); [by apply shape_set_sched|done|].
    by destruct (sh_task _ Hs _ _ Hv).
  - by rewrite zinsert_fmap, Epids.
Qed.

Lemma wlp_task0_pages pids k (Q : unit → kstate → Prop) X :
  cold 1 pids k → even_free_from 304 (mm k) →
  (∀ k', cold 1 pids k' → Q () k') →
  wlp (for_range 0 NUM_PAG_DATA (λ i, let! f := zoom MM alloc_frame in ph_pages_set 0 i f)) k Q X.
Proof.
  intros Hk Hf HQ. apply (wlp_for_range (λ i k', cold 1 pids k' ∧ even_free_from (304 + 2 * i) (mm k')));
    [done|done| |naive_solver].
  intros i k' Hi [Hk' Hf']. unfold NUM_PAG_DATA in Hi. apply wlp_bind, wp_wlp, wp_zoom.
  eapply wp_alloc_from; [done| | |].
  { exists (152 + i). lia. } { unfold NUM_PAG_KERNEL, TOTAL_PAGES. lia. }
  intros f [Hfr _] _ _ m' Hfree. assert (pagusr_table m' = pagusr_table (mm k')) as Ht by done. clearbody m'.
  unfold NUM_PAG_KERNEL in Hfr.
  assert (cold 1 pids (update MM m' k')) as Hk''.
  { apply cold_shape_mm; [done|apply Hfree|]. rewrite Ht. apply Hk'. }
  eapply (wlp_respects steady).
  { apply steady_ok; [|respects]. apply quiet_ph_pages_set. unfold TOTAL_PAGES in *. lia. }
  intros _ k2 [Hq Em]. split; [by eapply quiet_cold|]. rewrite Em. simpl.
  by replace (304 + 2 * (i + 1)) with (304 + 2 * i + 2) by lia.
Qed.

Lemma cold_task0 k h :
  cold 1 (zinsert 0 0 (replicate (Z.to_nat NR_TASKS) (-1))) k →
  queues_ok (active (sem k)) h (<[Runqueue := [0]]> no_tasks) → kinv (set_lists h k).
Proof.
  intros [Hs (Ec & Ep & Esem & Epids) _] Hok. split; [by apply shape_set_lists|].
  exists (<[Runqueue := [0]]> no_tasks).
  assert (∀ t p, zlookup (pid <$> task k) t = Some p → (t = 0 ∧ p = 0) ∨ (t ≠ 0 ∧ p = -1)) as Hpid.
  { rewrite Epids. intros t p. rewrite zlookup_zinsert by done. case_decide as Ht; [naive_solver|].
    intros Hp%zlookup_elem%elem_of_replicate. naive_solver. }
  assert (∀ hd t, t ∈ (<[Runqueue := [0]]> no_tasks) hd → hd = Runqueue ∧ t = 0) as Hin.
  { intros hd t. destruct (decide (hd = Runqueue)) as [->|].
    - rewrite fn_lookup_insert. set_solver.
    - rewrite fn_lookup_insert_ne by done. unfold no_tasks. set_solver. }
  assert (0 ∈ (<[Runqueue := [0]]> no_tasks) Runqueue) as H0 by (rewrite fn_lookup_insert; set_solver).
  rewrite Esem in Hok.
  split; simpl; rewrite ?Ec, ?Ep, ?Esem;
    [done|by rewrite Epids|done|done| | |by rewrite Epids| |done|done|done| |].
  - intros t p [[-> ->]|[? ->]]%Hpid; [by right|by left].
  - intros t t' p Ht%Hpid Ht'%Hpid ?. lia.
  - intros t p [[-> ->]|[? ->]]%Hpid; split; [by eauto|done|done|].
    by intros (hd & [_ ->]%Hin).
  - intros i s _ Hne. exfalso. by apply Hne.
  - intros i s [-> _]%zlookup_elem%elem_of_replicate. done.
Qed.

(** Up to the frames of process 0; [rest] is what follows. *)
Lemma wlp_task0_start k (rest : K unit) (Q : unit → kstate → Prop) X :
  cold 0 (replicate (Z.to_nat NR_TASKS) (-1)) k → free_from NUM_PAG_KERNEL (mm k) →
  (∀ l k', cold 1 (zinsert 0 0 (replicate (Z.to_nat NR_TASKS) (-1))) k' → even_free_from 304 (mm k') →
     zlen l = NUM_PAG_DATA → spare_mapped l (mm k') → wlp rest k' Q X) →
  wlp (zoom MM initialize_P0_frames;; zoom MM set_user_pages;; zoom MM set_cr3;;
       (let! p := get PidCounter in put PidCounter (s32 (p + 1));; task_set t_pid 0 p);;
       task_set t_quantum 0 60;; task_set t_cpu_tics 0 0;;
       (let! t := aget Task 0 in task_set t_remaining 0 (quantum t));;
       task_set t_transitions 0 1;;
       (let! t := aget Task 0 in put Left4current (quantum t));; rest) k Q X.
Proof.
  intros Hk Hf HQ.
  apply wlp_bind, wlp_zoom. eapply wlp_initialize_P0_frames; [done|]. intros m1 Hf1 Ht1.
  apply wlp_bind, wlp_zoom. eapply wlp_set_user_pages; [done|simpl; rewrite Ht1; apply Hk|].
  intros l m2 Hl Hsp Hf2 Ht2. apply wlp_bind, wlp_zoom, wp_wlp, wp_put. simpl.
  set (k2 := set_mm (set_stale ∅ m2) k).
  assert (cold 0 (replicate (Z.to_nat NR_TASKS) (-1)) k2) as Hk2.
  { apply cold_shape_mm; [done|apply Hf2|done]. }
  assert (even_free_from 304 (mm k2)) as Hf2' by done.
  assert (spare_mapped l (mm k2)) as Hsp2 by by apply (spare_same _ m2).
  match goal with |- wlp _ ?s _ _ => change s with k2 end. clearbody k2. clear dependent k m1 m2.
  apply wlp_bind. eapply wlp_cold_pid; [done|]. intros k Hk Em. rewrite <-Em in Hf2', Hsp2. clear dependent k2.
  do 5 (apply wlp_bind; eapply (wlp_respects steady); [steady|];
    let k' := fresh "k" in intros _ k' [Hq Hm]; unfold agree in Hm; rewrite <-Hm in Hf2', Hsp2;
    apply (quiet_cold _ _ _ _ Hq) in Hk; clear dependent k; rename k' into k).
  by apply (HQ l).
Qed.

Lemma wlp_init_task0 k X :
  cold 0 (replicate (Z.to_nat NR_TASKS) (-1)) k → free_from NUM_PAG_KERNEL (mm k) →
  wlp init_task0 k (λ _, kinv) X.
Proof.
  intros Hk Hf. unfold init_task0. apply wlp_task0_start; [done|done|]. clear k Hk Hf. intros _ k Hk Hf _ _.
  apply wlp_bind. eapply wlp_task0_pages; [done|done|]. intros k3 Hk3. clear dependent k.
  do 6 (apply wlp_bind; eapply (wlp_respects quiet); [solve [respects]|];
    let k' := fresh "k" in intros _ k' Hq; apply (quiet_cold _ _ _ _ Hq) in Hk3;
    clear dependent k3; rename k' into k3).
  apply wp_wlp, wp_zoom. eapply wp_list_add_task; [apply (co_queues _ _ _ Hk3)|done|done|
    intros; apply not_in_no_tasks|].
  intros h Hok. by apply cold_task0.
Qed.

(** ** The whole boot. *)

Lemma runs_init_filesystem : respects anything init_filesystem.
Proof.
  unfold init_filesystem, init_dir, init_fdt, init_disk, initZeosFat, copy_name. respects.
  all: apply respects_copy_data; [apply _|..]; intros; respects.
Qed.

(** The static storage before [main]. *)
Record pristine (k : kstate) : Prop := {
  pr_lists : lists k = links_bss;
  pr_sem : sem k = replicate (Z.to_nat SEM_MAX_VALUE) (Semaphore 0 0);
  pr_task : zlen (task k) = NR_TASKS;
  pr_cur : cur (sched k) = 0;
  pr_shape : shape k;
}.

Lemma kstate_bss_pristine ta : pristine (kstate_bss ta).
Proof.
  split; [done..|]. split; [by vm_compute|by vm_compute|]. intros t v Hv.
  apply zlookup_elem, elem_of_replicate in Hv as [-> _]. split; try done.
  by apply Forall_replicate.
Qed.

(** Up to the first process. *)
Lemma wlp_boot_start tb k (Q : unit → kstate → Prop) X :
  pristine k →
  (∀ k', cold 0 (replicate (Z.to_nat NR_TASKS) (-1)) k' → free_from NUM_PAG_KERNEL (mm k') →
     wlp (init_task0;; iniTics) k' Q X) →
  wlp (boot tb) k Q X.
Proof.
  intros [Hl Hsem Hlen Hcur Hs] HQ. unfold boot. apply wlp_bind, wlp_ret.
  apply wlp_bind, wp_wlp. unfold setTSS. repeat wp_step.
  apply wlp_bind, wlp_zoom. eapply wlp_init_mm; [apply Hs|apply Hs|]. intros m Hf Ht.
  apply wlp_bind. eapply wlp_init_sched; [done..| |].
  { split; simpl; [apply Hf|done|apply Hs]. }
  intros k0 Hk Em. simpl in Em. rewrite <-Em in Hf. clear dependent m k.
  apply wlp_bind. eapply (wlp_respects steady).
  { apply steady_ok; unfold init_keyboard; respects; by apply respects_put. }
  intros _ k1 [Hq1 Em1]. unfold agree in Em1. rewrite <-Em1 in Hf.
  apply (quiet_cold _ _ _ _ Hq1) in Hk. clear dependent k0.
  apply wlp_bind. eapply (wlp_respects steady).
  { apply steady_ok; [apply quiet_FS, runs_init_filesystem|].
    by apply (respects_zoom _ anything); [|apply runs_init_filesystem]. }
  intros _ k2 [Hq2 Em2]. unfold agree in Em2. rewrite <-Em2 in Hf.
  apply (quiet_cold _ _ _ _ Hq2) in Hk. by apply HQ.
Qed.

Lemma wlp_boot_steps tb k : pristine k → wlp (boot tb) k (λ _, kinv) (λ _, False).
Proof.
  intros Hp. apply wlp_boot_start; [done|]. intros k2 Hk Hf.
  apply wlp_bind. eapply wlp_mono; [by apply (wlp_init_task0 k2 (λ _, False))| |done].
  intros [] k' Hinv. apply wp_wlp. unfold iniTics. repeat wp_step.
  eapply quiet_kinv; [|exact Hinv]. split; [done|]. intros Hk'. split; apply Hk'.
Qed.

Lemma wlp_boot ta tb : wlp (boot tb) (kstate_bss ta) (λ _, kinv) (λ _, False).
Proof. apply wlp_boot_steps, kstate_bss_pristine. Qed.
