(* ===== verification/FsFacts.v ===== *)
(** * The blocks of the file system: chains of the allocation table. *)
From stdpp Require Import functions.
From S2P Require Import Prelude Mm Utils Fs.

(** ** Chains.

    [nth_block l i] is the [i]th block of [l], and the end mark -1 past its
    end.  [chain fat b l]: following [fat] from [b] visits the blocks [l] and
    ends. *)

Definition nth_block (l : list Z) (i : Z) : Z := default (-1) (zlookup l i).

Record chain (fat : list Z) (b : Z) (l : list Z) : Prop := {
  ch_head : nth_block l 0 = b;
  ch_next : ∀ i, 0 ≤ i < zlen l → zlookup fat (nth_block l i) = Some (nth_block l (i + 1));
  ch_range : ∀ x, x ∈ l → 0 ≤ x < MAX_BLOCKS;
  ch_nodup : NoDup l;
}.

Lemma nth_block_lookup l i : 0 ≤ i < zlen l → zlookup l i = Some (nth_block l i).
Proof. intros [x Hx]%zlookup_range. unfold nth_block. by rewrite Hx. Qed.

Lemma nth_block_elem l i : 0 ≤ i < zlen l → nth_block l i ∈ l.
Proof. intros. by eapply zlookup_elem, nth_block_lookup. Qed.

Lemma nth_block_end l i : zlen l ≤ i → nth_block l i = -1.
Proof. intros. unfold nth_block. by rewrite zlookup_None by lia. Qed.

Lemma elem_nth_block l x : x ∈ l → ∃ i, 0 ≤ i < zlen l ∧ nth_block l i = x.
Proof.
  intros [i Hi]%zlookup_of_elem. exists i. pose proof (zlookup_Some_range _ _ _ Hi).
  split; [done|]. unfold nth_block. by rewrite Hi.
Qed.

Lemma zlen_app {A} (l1 l2 : list A) : zlen (l1 ++ l2) = zlen l1 + zlen l2.
Proof. unfold zlen. rewrite length_app. lia. Qed.

Lemma zlookup_app {A} (l1 l2 : list A) i :
  zlookup (l1 ++ l2) i = if decide (i < zlen l1) then zlookup l1 i else zlookup l2 (i - zlen l1).
Proof.
  unfold zlookup, zlen. repeat case_decide; try lia; try done.
  - apply lookup_app_l. lia.
  - rewrite lookup_app_r by lia. f_equal. lia.
Qed.

Lemma nth_block_app l1 l2 i :
  nth_block (l1 ++ l2) i =
  if decide (i < zlen l1) then nth_block l1 i else nth_block l2 (i - zlen l1).
Proof. unfold nth_block. rewrite zlookup_app. by case_decide. Qed.

Lemma nth_block_take l n i : 0 ≤ i < n → nth_block (take (Z.to_nat n) l) i = nth_block l i.
Proof.
  intros. unfold nth_block, zlookup. rewrite !decide_True by lia.
  by rewrite lookup_take_lt by lia.
Qed.

Lemma nth_block_drop l n i : 0 ≤ n → 0 ≤ i → nth_block (drop (Z.to_nat n) l) i = nth_block l (n + i).
Proof.
  intros. unfold nth_block, zlookup. rewrite !decide_True by lia.
  rewrite lookup_drop. by replace (Z.to_nat n + Z.to_nat i)%nat with (Z.to_nat (n + i)) by lia.
Qed.

Lemma zlen_take {A} (l : list A) n : 0 ≤ n ≤ zlen l → zlen (take (Z.to_nat n) l) = n.
Proof. unfold zlen. intros. rewrite length_take. lia. Qed.
Lemma zlen_drop {A} (l : list A) n : 0 ≤ n ≤ zlen l → zlen (drop (Z.to_nat n) l) = zlen l - n.
Proof. unfold zlen. intros. rewrite length_drop. lia. Qed.

Lemma zlen_pos (l : list Z) : l ≠ [] → 0 < zlen l.
Proof. destruct l; [done|]. unfold zlen. simpl. lia. Qed.

Lemma elem_of_sublist (l1 l2 : list Z) x : x ∈ l1 → l1 `sublist_of` l2 → x ∈ l2.
Proof. intros Hx Hl. by eapply elem_of_submseteq, sublist_submseteq. Qed.

Section Chains.
Context (ft : list Z) (b : Z) (l : list Z) (Hc : chain ft b l).

Lemma chain_inside i : 0 ≤ i < zlen l → 0 ≤ nth_block l i < MAX_BLOCKS.
Proof. intros. by apply (ch_range _ _ _ Hc), nth_block_elem. Qed.

Lemma chain_nonempty : l ≠ [] ↔ b ≠ -1.
Proof.
  rewrite <-(ch_head _ _ _ Hc). split.
  - intros Hne%zlen_pos. pose proof (chain_inside 0). lia.
  - by intros H E; rewrite E in H.
Qed.

Lemma chain_inj i j : 0 ≤ i < zlen l → 0 ≤ j < zlen l → nth_block l i = nth_block l j → i = j.
Proof.
  intros Hi Hj E. pose proof (nth_block_lookup _ _ Hi) as H1. pose proof (nth_block_lookup _ _ Hj) as H2.
  rewrite <-E in H2. unfold zlookup in *. rewrite !decide_True in * by lia.
  pose proof (NoDup_lookup _ _ _ _ (ch_nodup _ _ _ Hc) H1 H2). lia.
Qed.

Lemma chain_frame ft' : (∀ x, x ∈ l → zlookup ft' x = zlookup ft x) → chain ft' b l.
Proof.
  intros H. split; try apply Hc. intros i Hi.
  rewrite H by by apply nth_block_elem. by apply Hc.
Qed.

Lemma chain_frame_insert x v : x ∉ l → chain (zinsert x v ft) b l.
Proof. intros Hx. apply chain_frame. intros y Hy. apply zlookup_zinsert_ne. set_solver. Qed.

Lemma chain_length : zlen l ≤ MAX_BLOCKS.
Proof.
  assert (l ⊆+ seqZ 0 MAX_BLOCKS) as Hsub%submseteq_length.
  { apply NoDup_submseteq; [apply Hc|]. intros x Hx%(ch_range _ _ _ Hc). apply elem_of_seqZ. lia. }
  rewrite length_seqZ in Hsub. unfold zlen, MAX_BLOCKS in *. lia.
Qed.

Lemma chain_is_last i : 0 ≤ i < zlen l → nth_block l (i + 1) = -1 ↔ i = zlen l - 1.
Proof.
  intros Hi. split.
  - intros E. destruct (decide (i + 1 < zlen l)); [|lia].
    pose proof (chain_inside (i + 1)). lia.
  - intros ->. apply nth_block_end. lia.
Qed.
End Chains.

(** Cutting a chain after its first [n] blocks. *)
Lemma chain_cut ft b l n :
  chain ft b l → zlen ft = MAX_BLOCKS → 1 ≤ n ≤ zlen l →
  let ft' := zinsert (nth_block l (n - 1)) (-1) ft in
  chain ft' b (take (Z.to_nat n) l) ∧ chain ft' (nth_block l n) (drop (Z.to_nat n) l).
Proof.
  intros Hc Hlen Hn ft'. pose proof (chain_inside _ _ _ Hc (n - 1) ltac:(lia)) as Hin.
  assert (∀ i, 0 ≤ i < zlen l → i ≠ n - 1 → zlookup ft' (nth_block l i) = zlookup ft (nth_block l i)) as Hft'.
  { intros i Hi Hne. apply zlookup_zinsert_ne. intros E.
    apply (chain_inj _ _ _ Hc) in E; lia. }
  split; split.
  - rewrite nth_block_take by lia. apply Hc.
  - intros i. rewrite zlen_take by lia. intros Hi. rewrite nth_block_take by lia.
    destruct (decide (i = n - 1)) as [->|Hne].
    + unfold ft'. rewrite zlookup_zinsert_eq by lia.
      by rewrite (nth_block_end (take _ _)) by (rewrite zlen_take; lia).
    + rewrite Hft', (ch_next _ _ _ Hc), nth_block_take by lia. done.
  - intros x Hx. apply (ch_range _ _ _ Hc). eapply elem_of_sublist; [done|apply sublist_take].
  - eapply sublist_NoDup; [apply Hc|apply sublist_take].
  - rewrite nth_block_drop by lia. by replace (n + 0) with n by lia.
  - intros i. rewrite zlen_drop by lia. intros Hi. rewrite !nth_block_drop by lia.
    rewrite Hft', (ch_next _ _ _ Hc) by lia. do 2 f_equal. lia.
  - intros x Hx. apply (ch_range _ _ _ Hc). eapply elem_of_sublist; [done|apply sublist_drop].
  - eapply sublist_NoDup; [apply Hc|apply sublist_drop].
Qed.

(** Joining two disjoint chains. *)
Lemma chain_join ft b l b' l' :
  chain ft b l → chain ft b' l' → zlen ft = MAX_BLOCKS → l ≠ [] → (∀ x, x ∈ l → x ∉ l') →
  chain (zinsert (nth_block l (zlen l - 1)) b' ft) b (l ++ l').
Proof.
  intros Hc Hc' Hlen Hne Hdisj.
  pose proof (zlen_pos _ Hne) as Hpos.
  pose proof (chain_inside _ _ _ Hc (zlen l - 1) ltac:(lia)) as Hin.
  pose proof (nth_block_elem l (zlen l - 1) ltac:(lia)) as Hel.
  split.
  - rewrite nth_block_app, decide_True by done. apply Hc.
  - intros i. rewrite zlen_app. intros Hi. rewrite !nth_block_app.
    destruct (decide (i < zlen l)); [destruct (decide (i = zlen l - 1)) as [->|]|].
    + rewrite zlookup_zinsert_eq by lia. rewrite decide_False by lia.
      by replace (zlen l - 1 + 1 - zlen l) with 0 by lia; rewrite (ch_head _ _ _ Hc').
    + rewrite decide_True by lia. rewrite zlookup_zinsert_ne; [apply Hc; lia|].
      intros E. apply (chain_inj _ _ _ Hc) in E; lia.
    + rewrite decide_False by lia. rewrite zlookup_zinsert_ne.
      * rewrite (ch_next _ _ _ Hc') by lia. do 2 f_equal. lia.
      * intros E. apply (Hdisj _ Hel). rewrite E. apply nth_block_elem. lia.
  - intros x [?|?]%elem_of_app; [by apply (ch_range _ _ _ Hc)|by apply (ch_range _ _ _ Hc')].
  - apply NoDup_app. split_and!; [apply Hc|done|apply Hc'].
Qed.

(** ** [balloc]. *)

(** The first [n] of the free blocks were taken, as one chain. *)
Definition take_blocks (free : list Z) (n : Z) (s : fs_state) : fs_state :=
  set_ffb (nth_block free n) (set_fat (zinsert (nth_block free (n - 1)) (-1) (fat s)) s).

Section Balloc.
Context (s : fs_state) (free : list Z).
Hypothesis Hfree : chain (fat s) (ffb s) free.
Hypothesis Hlen : zlen (fat s) = MAX_BLOCKS.
Implicit Types (X : fs_state → Prop).

Lemma wp_fat_get {A} i (v : Z) (k : Z → M fs_state A) (Q : A → fs_state → Prop) X :
  0 ≤ i < zlen free →
  wp (k (nth_block free (i + 1))) (set_ffb v s) Q X →
  wp (bind (aget Fat (nth_block free i)) k) (set_ffb v s) Q X.
Proof. intros Hi ?. apply wp_bind. eapply wp_aget; [by apply (ch_next _ _ _ Hfree)|done]. Qed.

(** The walk: [tot] blocks are taken, [prev] is the last of them and [ffb]
    the next one. *)
Lemma wp_balloc_walk n (Q : Z * Z → fs_state → Prop) X :
  2 ≤ zlen free → 1 ≤ n →
  (∀ tot, 1 ≤ tot ≤ n → tot < zlen free → tot = n ∨ tot = zlen free - 1 →
     Q (nth_block free (tot - 1), tot) (set_ffb (nth_block free tot) s)) →
  wp (loop FAT_FUEL (λ '(prev, tot),
        if bool_decide (tot = n) then ret (inr (prev, tot))
        else
          let! f := get Ffb in
          let! n := aget Fat f in
          if bool_decide (n = -1) then ret (inr (prev, tot))
          else put Ffb n;; ret (inl (f, tot + 1))) (nth_block free 0, 1))
     (set_ffb (nth_block free 1) s) Q X.
Proof.
  intros H2 Hn HQ. pose proof (chain_length _ _ _ Hfree) as H80.
  eapply (wp_loop (λ '(prev, tot) s', 1 ≤ tot ≤ n ∧ tot < zlen free ∧
    prev = nth_block free (tot - 1) ∧ s' = set_ffb (nth_block free tot) s)
    (λ '(_, tot), zlen free - tot)).
  { split_and!; done || lia. }
  { unfold FAT_FUEL, MAX_BLOCKS in *. lia. }
  intros [prev tot] s' (Ht & Hlt & -> & ->). split; [lia|].
  case_bool_decide; [apply wp_ret, HQ; tauto || lia|].
  wp_step. wp_step. simpl. apply wp_fat_get; [lia|]. case_bool_decide as He.
  - apply wp_ret, HQ; [lia|done|right]. by apply (chain_is_last _ _ _ Hfree) in He; [|lia].
  - repeat wp_step. rewrite (chain_is_last _ _ _ Hfree) in He by lia.
    split_and!; try lia; [by replace (tot + 1 - 1) with tot by lia|done].
Qed.

(** The three ways a walk can end. *)
Lemma take_blocks_finish n k (Q : Z → fs_state → Prop) X :
  1 ≤ n ≤ zlen free →
  Q k (take_blocks free n s) →
  wp (aset Fat (nth_block free (n - 1)) (-1);; ret k) (set_ffb (nth_block free n) s) Q X.
Proof.
  intros Hn HQ. apply wp_bind, wp_aset; [|by apply wp_ret].
  simpl. rewrite Hlen. apply (chain_inside _ _ _ Hfree). lia.
Qed.

Lemma set_ffb_id : set_ffb (nth_block free 0) s = s.
Proof. rewrite (ch_head _ _ _ Hfree). by destruct s. Qed.

Lemma take_last : 1 ≤ zlen free →
  take_blocks free (zlen free) s = set_ffb (-1) s.
Proof.
  intros H1. unfold take_blocks. rewrite nth_block_end by lia. f_equal.
  rewrite zinsert_id; [by destruct s|].
  rewrite (ch_next _ _ _ Hfree) by lia. f_equal. apply nth_block_end. lia.
Qed.

Lemma wp_balloc n (Q : Z → fs_state → Prop) X :
  (1 ≤ n ≤ zlen free → Q (nth_block free 0) (take_blocks free n s)) →
  (¬ (1 ≤ n ≤ zlen free) → Q (-1) s) →
  wp (balloc n) s Q X.
Proof.
  intros Htake Hfail. unfold balloc. do 2 wp_step. simpl.
  pose proof (chain_nonempty _ _ _ Hfree) as Hne.
  destruct (decide (ffb s = -1)) as [Hf|Hf]; [|destruct (decide (n < 1)) as [Hn|Hn]].
  { rewrite bool_decide_true by done. apply wp_ret, Hfail.
    replace free with (@nil Z) by (symmetry; apply dec_stable; tauto). unfold zlen. simpl. lia. }
  { rewrite (bool_decide_true (n < 1)), orb_true_r by done. apply wp_ret, Hfail. lia. }
  rewrite !bool_decide_false by done. simpl. apply Hne, zlen_pos in Hf.
  rewrite <-(ch_head _ _ _ Hfree). apply wp_bind.
  eapply wp_aget; [apply (ch_next _ _ _ Hfree); lia|]. case_bool_decide as Hone.
  - apply (chain_is_last _ _ _ Hfree) in Hone; [|lia]. case_bool_decide as Hn1.
    + repeat wp_step. replace (update _ _ _) with (take_blocks free n s); [apply Htake; lia|].
      subst n. replace 1 with (zlen free) at 1 by lia. apply take_last. lia.
    + apply wp_ret, Hfail. lia.
  - rewrite (chain_is_last _ _ _ Hfree) in Hone by lia.
    repeat wp_step. eapply wp_balloc_walk; [lia|lia|]. intros tot Ht Hlt Hend.
    wp_step. wp_step. simpl. apply wp_fat_get; [lia|]. case_bool_decide as Hlast.
    + apply (chain_is_last _ _ _ Hfree) in Hlast; [|lia]. case_bool_decide as Hn1.
      * wp_step. wp_step. replace tot with (n - 1) by lia.
        change (update Ffb (-1) _) with (set_ffb (-1) s).
        replace (-1) with (nth_block free n) at 2 by (apply nth_block_end; lia).
        apply take_blocks_finish; [lia|]. apply Htake. lia.
      * case_bool_decide.
        -- repeat wp_step. assert (Q (-1) s) as HQ by (apply Hfail; lia).
           rewrite <-set_ffb_id in HQ. exact HQ.
        -- replace tot with n by lia. apply take_blocks_finish; [lia|]. apply Htake. lia.
    + rewrite (chain_is_last _ _ _ Hfree) in Hlast by lia.
      replace tot with n by lia. apply take_blocks_finish; [lia|]. apply Htake. lia.
Qed.
End Balloc.

(** ** The end of a chain, and [freeb]. *)

Definition last_block (l : list Z) : Z := nth_block l (zlen l - 1).

Lemma wp_chain_end s b l (Q : Z → fs_state → Prop) X :
  chain (fat s) b l → l ≠ [] → Q (last_block l) s → wp (chain_end b) s Q X.
Proof.
  intros Hc Hne%zlen_pos HQ. pose proof (chain_length _ _ _ Hc) as H80. unfold chain_end.
  eapply (wp_loop_variant (λ n i s', s' = s ∧ 0 ≤ zlen l - n < zlen l ∧ i = nth_block l (zlen l - n))
    (zlen l)).
  { split_and!; [done|lia|lia|]. replace (zlen l - zlen l) with 0 by lia.
    by rewrite (ch_head _ _ _ Hc). }
  { unfold FAT_FUEL, MAX_BLOCKS in *. lia. }
  intros n i s' (-> & Hn & ->). split; [lia|]. apply wp_bind.
  eapply wp_aget; [by apply (ch_next _ _ _ Hc)|]. case_bool_decide as He.
  - apply (chain_is_last _ _ _ Hc) in He; [|lia]. apply wp_ret.
    by replace (zlen l - n) with (zlen l - 1) by lia.
  - rewrite (chain_is_last _ _ _ Hc) in He by lia. apply wp_ret. exists (n - 1).
    split_and!; try lia; [done|]. f_equal. lia.
Qed.

(** The chain that starts at [b] follows the free blocks. *)
Definition give_blocks (free : list Z) (b : Z) (s : fs_state) : fs_state :=
  if decide (free = []) then set_ffb b s
  else set_fat (zinsert (last_block free) b (fat s)) s.

Lemma wp_freeb s free b (Q : Z → fs_state → Prop) X :
  chain (fat s) (ffb s) free → zlen (fat s) = MAX_BLOCKS → 0 ≤ b < MAX_BLOCKS → b ∉ free →
  Q 0 (give_blocks free b s) → wp (freeb b) s Q X.
Proof.
  intros Hc Hlen Hb Hnin HQ. unfold freeb, give_blocks in *. do 2 wp_step. simpl.
  assert (b ≠ ffb s) as Hbf.
  { intros ->. rewrite <-(ch_head _ _ _ Hc) in *. destruct (decide (free = [])) as [->|Hne%zlen_pos].
    - rewrite nth_block_end in Hb by done. lia.
    - by apply Hnin, nth_block_elem. }
  rewrite !bool_decide_false by lia. simpl.
  pose proof (chain_nonempty _ _ _ Hc) as Hne. case_decide as Hf.
  - rewrite bool_decide_true by (apply dec_stable; tauto). by repeat wp_step.
  - rewrite bool_decide_false by tauto. apply wp_bind. eapply wp_chain_end; [done|done|].
    apply wp_bind, wp_aset; [|by apply wp_ret].
    simpl. rewrite Hlen. apply (chain_inside _ _ _ Hc). apply zlen_pos in Hf. lia.
Qed.

Lemma give_blocks_chain s free b l :
  chain (fat s) (ffb s) free → chain (fat s) b l → zlen (fat s) = MAX_BLOCKS →
  (∀ x, x ∈ free → x ∉ l) →
  chain (fat (give_blocks free b s)) (ffb (give_blocks free b s)) (free ++ l).
Proof.
  intros Hc Hl Hlen Hd. unfold give_blocks. case_decide as Hf; simpl.
  - by subst.
  - by apply chain_join.
Qed.

(** ** The invariant of the file system. *)

Definition regular (f : file) : Prop := sys_release_dev (operations f) = Some Sys_release_file.
#[export] Instance regular_dec f : Decision (regular f).
Proof. unfold regular. apply _. Defined.

(** A file of [size] bytes on [n] blocks: as many as it needs, and one at
    least. *)
Definition fits (size n : Z) : Prop := 0 ≤ size ≤ BLOCK_SIZE * n ∧ (BLOCK_SIZE * (n - 1) < size ∨ size = 0 ∧ n = 1).

Record file_blocks (ft : list Z) (f : file) (l : list Z) : Prop := {
  fb_chain : chain ft (first_block f) l;
  fb_some : l ≠ [];
  fb_count : n_blocks f = zlen l;
  fb_size : fits (size f) (zlen l);
}.

(** [free] are the free blocks in order and [own i] the blocks of entry [i] of
    the directory; every block of the disk is in exactly one of them. *)
Record fs_ok (s : fs_state) (free : list Z) (own : Z → list Z) : Prop := {
  fo_fat : zlen (fat s) = MAX_BLOCKS;
  fo_dir : zlen (dir s) = MAX_FILES;
  fo_disk : zlen (disk s) = MAX_BLOCKS;
  fo_rows : ∀ b row, zlookup (disk s) b = Some row → zlen row = BLOCK_SIZE;
  fo_names : ∀ i f, zlookup (dir s) i = Some f → zlen (name f) = MAX_NAME_LENGTH;
  fo_free : chain (fat s) (ffb s) free;
  fo_file : ∀ i f, zlookup (dir s) i = Some f → regular f → file_blocks (fat s) f (own i);
  fo_other : ∀ i, (∀ f, zlookup (dir s) i = Some f → ¬ regular f) → own i = [];
  fo_unused : ∀ i f, zlookup (dir s) i = Some f → n_refs f = -1 → ¬ regular f;
  fo_cover : ∀ b, 0 ≤ b < MAX_BLOCKS → b ∈ free ∨ ∃ i, b ∈ own i;
  fo_free_own : ∀ i b, b ∈ own i → b ∉ free;
  fo_own : ∀ i j b, b ∈ own i → b ∈ own j → i = j;
}.

(** One entry changes, together with the free blocks. *)
Record fs_change (s s' : fs_state) (free free' : list Z) (d : Z) (l l' : list Z) (f' : file)
  : Prop := {
  fc_fat_len : zlen (fat s') = zlen (fat s);
  fc_dir : dir s' = zinsert d f' (dir s);
  fc_disk : zlen (disk s') = MAX_BLOCKS;
  fc_rows : ∀ b row, zlookup (disk s') b = Some row → zlen row = BLOCK_SIZE;
  fc_name : zlen (name f') = MAX_NAME_LENGTH;
  fc_fat : ∀ x, x ∉ l → x ∉ free → zlookup (fat s') x = zlookup (fat s) x;
  fc_free : chain (fat s') (ffb s') free';
  fc_file : regular f' → file_blocks (fat s') f' l';
  fc_other : ¬ regular f' → l' = [];
  fc_unused : n_refs f' = -1 → ¬ regular f';
  fc_perm : free' ++ l' ≡ₚ free ++ l;
}.

Section Change.
Context (s s' : fs_state) (free free' : list Z) (own : Z → list Z) (d : Z) (l' : list Z) (f' : file).
Hypothesis Hok : fs_ok s free own.
Hypothesis Hd : 0 ≤ d < MAX_FILES.
Hypothesis Hc : fs_change s s' free free' d (own d) l' f'.

Lemma change_in x : x ∈ free' ∨ x ∈ l' ↔ x ∈ free ∨ x ∈ own d.
Proof. rewrite <-!elem_of_app. by rewrite (fc_perm _ _ _ _ _ _ _ _ Hc). Qed.

Lemma own_nodup i : NoDup (own i).
Proof.
  destruct (zlookup (dir s) i) as [f|] eqn:Hf; [destruct (decide (regular f)) as [Hr|Hr]|].
  - by destruct (fo_file _ _ _ Hok _ _ Hf Hr) as [[]].
  - rewrite (fo_other _ _ _ Hok); [constructor|]. intros f0. naive_solver.
  - rewrite (fo_other _ _ _ Hok); [constructor|]. intros f0. naive_solver.
Qed.

Lemma change_disj x : x ∈ l' → x ∉ free'.
Proof.
  assert (NoDup (free' ++ l')) as Hnd.
  { rewrite (fc_perm _ _ _ _ _ _ _ _ Hc). apply NoDup_app.
    split_and!; [apply (fo_free _ _ _ Hok)| |apply own_nodup].
    intros y Hy Hy'. by apply (fo_free_own _ _ _ Hok) in Hy'. }
  apply NoDup_app in Hnd as (_ & Hnd & _). intros Hx Hx'. by apply (Hnd x).
Qed.

Lemma change_sep i x : i ≠ d → x ∈ own i → x ∉ free' ∧ x ∉ l'.
Proof.
  intros Hne Hx. assert (¬ (x ∈ free' ∨ x ∈ l')) as H; [|tauto]. rewrite change_in. intros [Hf|Ho].
  - by apply (fo_free_own _ _ _ Hok) in Hx.
  - by apply Hne, (fo_own _ _ _ Hok _ _ x).
Qed.

Lemma change_old i f : i ≠ d → zlookup (dir s') i = Some f → zlookup (dir s) i = Some f.
Proof. intros ?. by rewrite (fc_dir _ _ _ _ _ _ _ _ Hc), zlookup_zinsert_ne. Qed.

Lemma change_new f : zlookup (dir s') d = Some f → f = f'.
Proof.
  rewrite (fc_dir _ _ _ _ _ _ _ _ Hc), zlookup_zinsert_eq by (rewrite (fo_dir _ _ _ Hok); lia).
  by intros [= ->].
Qed.

Lemma change_file_blocks i f :
  i ≠ d → zlookup (dir s) i = Some f → regular f → file_blocks (fat s') f (own i).
Proof.
  intros Hne Hf Hr. destruct (fo_file _ _ _ Hok _ _ Hf Hr) as [Hch ? ? ?]. split; [|done..].
  eapply chain_frame; [done|]. intros x Hx. apply (fc_fat _ _ _ _ _ _ _ _ Hc).
  - intros Hx'. by apply Hne, (fo_own _ _ _ Hok _ _ x).
  - by apply (fo_free_own _ _ _ Hok i).
Qed.

Lemma own_change i : <[d := l']> own i = if decide (d = i) then l' else own i.
Proof. done. Qed.

Lemma fs_ok_change : fs_ok s' free' (<[d := l']> own).
Proof.
  split.
  - rewrite (fc_fat_len _ _ _ _ _ _ _ _ Hc). apply Hok.
  - rewrite (fc_dir _ _ _ _ _ _ _ _ Hc), zlen_zinsert. apply Hok.
  - apply Hc.
  - apply Hc.
  - intros i f Hf. destruct (decide (i = d)) as [->|].
    + rewrite (change_new _ Hf). apply Hc.
    + by eapply (fo_names _ _ _ Hok), change_old.
  - apply Hc.
  - intros i f Hf Hr. rewrite own_change. destruct (decide (d = i)) as [<-|].
    + pose proof (change_new _ Hf). subst f. by apply Hc.
    + apply change_file_blocks; [done| |done]. by apply change_old.
  - intros i Hi. rewrite own_change. destruct (decide (d = i)) as [<-|].
    + apply Hc, Hi. rewrite (fc_dir _ _ _ _ _ _ _ _ Hc).
      apply zlookup_zinsert_eq. rewrite (fo_dir _ _ _ Hok). lia.
    + apply (fo_other _ _ _ Hok). intros f Hf. apply Hi.
      by rewrite (fc_dir _ _ _ _ _ _ _ _ Hc), zlookup_zinsert_ne.
  - intros i f Hf. destruct (decide (i = d)) as [->|].
    + rewrite (change_new _ Hf). apply Hc.
    + by eapply (fo_unused _ _ _ Hok), change_old.
  - intros b Hb. destruct (fo_cover _ _ _ Hok b Hb) as [Hf|[i Hi]].
    + destruct (proj2 (change_in b)) as [?|?]; [by left|by left|right].
      exists d. by rewrite own_change, decide_True.
    + destruct (decide (d = i)) as [<-|Hne].
      * destruct (proj2 (change_in b)) as [?|?]; [by right|by left|right].
        exists d. by rewrite own_change, decide_True.
      * right. exists i. by rewrite own_change, decide_False.
  - intros i b. rewrite own_change. destruct (decide (d = i)) as [<-|]; [apply change_disj|].
    intros Hb. by apply (change_sep i).
  - intros i j b. rewrite !own_change. destruct (decide (d = i)) as [<-|], (decide (d = j)) as [<-|]; intros Hi Hj; [done|..].
    + exfalso. by destruct (change_sep j b).
    + exfalso. by destruct (change_sep i b).
    + by eapply (fo_own _ _ _ Hok).
Qed.
End Change.
