(* ===== verification/FsOps.v ===== *)
(** * The operations of the file system on blocks: initialisation, creation
    and release of files. *)
From stdpp Require Import functions.
From S2P Require Import Prelude Mm Utils Fs FsFacts.

(** ** Initialisation. *)

Definition all_blocks : list Z := seqZ 0 MAX_BLOCKS.
Definition no_blocks : Z → list Z := λ _, [].

Definition init_check (s : fs_state) : bool :=
  bool_decide (zlen (fat s) = MAX_BLOCKS) && bool_decide (zlen (dir s) = MAX_FILES) &&
  bool_decide (zlen (disk s) = MAX_BLOCKS) && bool_decide (ffb s = 0) &&
  forallb (λ row, bool_decide (zlen row = BLOCK_SIZE)) (disk s) &&
  forallb (λ f, bool_decide (zlen (name f) = MAX_NAME_LENGTH) && bool_decide (¬ regular f)) (dir s) &&
  forallb (λ i, bool_decide (zlookup (fat s) i = Some (nth_block all_blocks (i + 1)))) all_blocks.

Lemma nth_block_seq n i : 0 ≤ i < n → nth_block (seqZ 0 n) i = i.
Proof.
  intros Hi. unfold nth_block, zlookup. rewrite decide_True by lia.
  rewrite lookup_seqZ_lt by lia. simpl. lia.
Qed.

Lemma init_check_ok s : init_check s = true → fs_ok s all_blocks no_blocks.
Proof.
  unfold init_check. rewrite !andb_true_iff, !bool_decide_eq_true, !forallb_forall.
  intros [[[[[[Hfat Hdir] Hdisk] Hffb] Hrows] Hfiles] Hch].
  assert (∀ i f, zlookup (dir s) i = Some f →
          zlen (name f) = MAX_NAME_LENGTH ∧ ¬ regular f) as Hf.
  { intros i f Hi%zlookup_elem%list_elem_of_In. specialize (Hfiles _ Hi).
    by rewrite andb_true_iff, !bool_decide_eq_true in Hfiles. }
  split; try done.
  - intros b row Hb%zlookup_elem%list_elem_of_In. specialize (Hrows _ Hb).
    by apply bool_decide_eq_true in Hrows.
  - intros i f Hi. by apply (Hf i).
  - split.
    + by rewrite Hffb.
    + intros i Hi. unfold all_blocks at 1. rewrite nth_block_seq by done.
      specialize (Hch i (proj1 (list_elem_of_In _ _) (proj2 (elem_of_seqZ _ _ _) Hi))).
      by apply bool_decide_eq_true in Hch.
    + intros x Hx%elem_of_seqZ. lia.
    + apply NoDup_seqZ.
  - intros i f Hi Hr. by apply Hf in Hi as [_ ?].
  - intros i f Hi _. by apply Hf in Hi as [_ ?].
  - intros b Hb. left. apply elem_of_seqZ. lia.
  - intros i b Hb. by apply not_elem_of_nil in Hb.
  - intros i j b Hb. by apply not_elem_of_nil in Hb.
Qed.

Lemma init_filesystem_runs :
  match init_filesystem fs_bss with Ret _ s => init_check s | _ => false end = true.
Proof. by vm_compute. Qed.

Lemma wp_init_filesystem (Q : unit → fs_state → Prop) X :
  (∀ s, fs_ok s all_blocks no_blocks → Q () s) → wp init_filesystem fs_bss Q X.
Proof.
  intros HQ. pose proof init_filesystem_runs as H. unfold wp.
  destruct (init_filesystem fs_bss) as [[] s| | | |]; try done. by apply HQ, init_check_ok.
Qed.

(** ** Release. *)

Lemma wp_dir_set {A} (setter : A → file → file) i a f s (Q : unit → fs_state → Prop) X :
  zlookup (dir s) i = Some f → Q () (set_dir (zinsert i (setter a f) (dir s)) s) →
  wp (dir_set setter i a) s Q X.
Proof. intros ? ?. by eapply wp_amodify. Qed.
Lemma wp_op_set {A} (setter : A → file_operations → file_operations) i a f s
    (Q : unit → fs_state → Prop) X :
  zlookup (dir s) i = Some f →
  Q () (set_dir (zinsert i (with_operations (setter a (operations f)) f) (dir s)) s) →
  wp (op_set setter i a) s Q X.
Proof. intros ? ?. by eapply wp_amodify. Qed.
Lemma wp_fdt_set {A} (setter : A → virtual → virtual) i a v s (Q : unit → fs_state → Prop) X :
  zlookup (fdt s) i = Some v → Q () (set_fdt (zinsert i (setter a v) (fdt s)) s) →
  wp (fdt_set setter i a) s Q X.
Proof. intros ? ?. by eapply wp_amodify. Qed.

(** Two successive stores to an entry of the directory are one. *)
Lemma set_dir_again i f f' s :
  set_dir (zinsert i f (dir (set_dir (zinsert i f' (dir s)) s))) (set_dir (zinsert i f' (dir s)) s) =
  set_dir (zinsert i f (dir s)) s.
Proof. unfold set_dir. simpl. by rewrite zinsert_zinsert_eq. Qed.

Lemma wp_dir_set_again {A} (setter : A → file → file) i a f s (Q : unit → fs_state → Prop) X :
  0 ≤ i < zlen (dir s) → Q () (set_dir (zinsert i (setter a f) (dir s)) s) →
  wp (dir_set setter i a) (set_dir (zinsert i f (dir s)) s) Q X.
Proof.
  intros ? ?. eapply wp_dir_set; [by apply zlookup_zinsert_eq|]. by rewrite set_dir_again.
Qed.
Lemma wp_op_set_again {A} (setter : A → file_operations → file_operations) i a f s
    (Q : unit → fs_state → Prop) X :
  0 ≤ i < zlen (dir s) →
  Q () (set_dir (zinsert i (with_operations (setter a (operations f)) f) (dir s)) s) →
  wp (op_set setter i a) (set_dir (zinsert i f (dir s)) s) Q X.
Proof.
  intros ? ?. eapply wp_op_set; [by apply zlookup_zinsert_eq|]. by rewrite set_dir_again.
Qed.

(** The file of an entry gives its blocks back. *)
Definition released (free : list Z) (d : Z) (f : file) (s : fs_state) : fs_state :=
  set_dir (zinsert d (with_size 0 (with_n_blocks 0 f)) (dir s)) (give_blocks free (first_block f) s).

Lemma give_blocks_dir free b s : dir (give_blocks free b s) = dir s.
Proof. unfold give_blocks. by case_decide. Qed.
Lemma give_blocks_disk free b s : disk (give_blocks free b s) = disk s.
Proof. unfold give_blocks. by case_decide. Qed.
Lemma give_blocks_fat_len free b s : zlen (fat (give_blocks free b s)) = zlen (fat s).
Proof. unfold give_blocks. case_decide; simpl; by rewrite ?zlen_zinsert. Qed.
Lemma give_blocks_fat free b s x :
  x ∉ free → zlookup (fat (give_blocks free b s)) x = zlookup (fat s) x.
Proof.
  intros Hx. unfold give_blocks. case_decide as Hf; simpl; [done|].
  apply zlookup_zinsert_ne. intros <-. apply Hx, nth_block_elem. apply zlen_pos in Hf. lia.
Qed.

Lemma wp_sys_release_file s free own d f (Q : Z → fs_state → Prop) X :
  fs_ok s free own → zlookup (dir s) d = Some f → regular f →
  Q 0 (released free d f s) → wp (sys_release_file d) s Q X.
Proof.
  intros Hok Hf Hr HQ. destruct (fo_file _ _ _ Hok _ _ Hf Hr) as [Hch Hne%zlen_pos _ _].
  pose proof (zlookup_Some_range _ _ _ Hf) as Hd.
  assert (first_block f ∈ own d) as Hfb.
  { rewrite <-(ch_head _ _ _ Hch). apply nth_block_elem. lia. }
  unfold sys_release_file. apply wp_bind. eapply wp_aget; [done|]. apply wp_bind.
  eapply wp_freeb; [apply Hok|apply Hok|by apply (ch_range _ _ _ Hch)|by apply (fo_free_own _ _ _ Hok d)|].
  apply wp_bind. eapply wp_dir_set; [by rewrite give_blocks_dir|].
  apply wp_bind. apply wp_dir_set_again; [by rewrite give_blocks_dir|].
  apply wp_ret. rewrite give_blocks_dir. apply HQ.
Qed.

(** [sys_unlink], once the file is found and nobody uses it. *)
Definition cleared (f : file) : file :=
  with_name (zinsert 0 0 (name f)) (with_n_refs (-1) (with_operations no_operations f)).

Definition unlink_entry (d : Z) : M fs_state unit :=
  op_set with_sys_open_dev d None;;
  op_set with_sys_close_dev d None;;
  op_set with_sys_read_dev d None;;
  op_set with_sys_write_dev d None;;
  op_set with_sys_release_dev d None;;
  dir_set with_n_refs d (-1);;
  name_set d 0 0.

Lemma wp_unlink_entry d f s (Q : unit → fs_state → Prop) X :
  zlookup (dir s) d = Some f → zlen (name f) = MAX_NAME_LENGTH →
  Q () (set_dir (zinsert d (cleared f) (dir s)) s) →
  wp (unlink_entry d) s Q X.
Proof.
  intros Hf Hname HQ. pose proof (zlookup_Some_range _ _ _ Hf) as Hd. unfold unlink_entry.
  apply wp_bind. eapply wp_op_set; [done|].
  do 4 (apply wp_bind; apply wp_op_set_again; [done|]).
  apply wp_bind. apply wp_dir_set_again; [done|]. unfold name_set. apply wp_bind.
  eapply wp_aget; [by apply zlookup_zinsert_eq|]. simpl.
  destruct (zlookup_range (name f) 0) as [c Hcc]; [by rewrite Hname|].
  apply wp_bind. eapply wp_of_option; [done|]. by apply wp_dir_set_again.
Qed.

Lemma fs_change_unlink s free own d f :
  fs_ok s free own → zlookup (dir s) d = Some f → regular f →
  let s1 := released free d f s in
  let f1 := with_size 0 (with_n_blocks 0 f) in
  fs_change s (set_dir (zinsert d (cleared f1) (dir s1)) s1) free (free ++ own d) d (own d) [] (cleared f1).
Proof.
  intros Hok Hf Hr s1 f1. destruct (fo_file _ _ _ Hok _ _ Hf Hr) as [Hch _ _ _].
  split; simpl.
  - apply give_blocks_fat_len.
  - by rewrite zinsert_zinsert_eq.
  - rewrite give_blocks_disk. apply Hok.
  - rewrite give_blocks_disk. apply Hok.
  - rewrite zlen_zinsert. by apply (fo_names _ _ _ Hok d).
  - intros x _ Hx. by apply give_blocks_fat.
  - apply give_blocks_chain; [apply Hok|done|apply Hok|].
    intros x Hx Hx'. by apply (fo_free_own _ _ _ Hok) in Hx'.
  - done.
  - done.
  - done.
  - by rewrite app_nil_r.
Qed.
