(* ===== verification/UtilsFacts.v ===== *)
(** * The routines of [utils.c] on strings and numbers against their
    specifications, and the cursor of [io.c]. *)
From S2P Require Import Prelude Mm Utils Io.

(** ** [itoa]: the decimal numeral. *)

(** The digits of [n], the most significant one first; none of a number that
    is not positive.  [fuel] bounds the number of digits. *)
Fixpoint numeral (fuel : nat) (n : Z) : list Z :=
  match fuel with
  | O => []
  | S fuel =>
      if bool_decide (n > 0) then numeral fuel (n / 10) ++ [n mod 10 + 48] else []
  end.

(** The number a numeral stands for. *)
Definition numeral_value (l : list Z) : Z := fold_left (λ acc c, acc * 10 + (c - 48)) l 0.

Lemma numeral_nonpos f n : n ≤ 0 → numeral f n = [].
Proof. destruct f; simpl; [done|]. intros. by rewrite bool_decide_false by lia. Qed.

(** A positive number within the fuel has a last digit. *)
Lemma numeral_step f n :
  0 < n < 10 ^ Z.of_nat f →
  ∃ f', f = S f' ∧ n / 10 < 10 ^ Z.of_nat f' ∧
        numeral f n = numeral f' (n / 10) ++ [n mod 10 + 48].
Proof.
  intros Hn. destruct f as [|f]; [simpl in Hn; lia|]. exists f. split; [done|]. split.
  - apply Z.div_lt_upper_bound; [lia|].
    rewrite Nat2Z.inj_succ, Z.pow_succ_r in Hn by lia. lia.
  - simpl. by rewrite bool_decide_true by lia.
Qed.

Lemma numeral_length f n : zlen (numeral f n) ≤ Z.of_nat f.
Proof.
  revert n. induction f as [|f IH]; intros n; simpl; [done|]. case_bool_decide; [|unfold zlen; simpl; lia].
  specialize (IH (n / 10)). unfold zlen in *. rewrite length_app. simpl. lia.
Qed.

Lemma numeral_value_snoc l c : numeral_value (l ++ [c]) = numeral_value l * 10 + (c - 48).
Proof. unfold numeral_value. by rewrite fold_left_app. Qed.

Lemma numeral_value_numeral f n : 0 ≤ n < 10 ^ Z.of_nat f → numeral_value (numeral f n) = n.
Proof.
  revert n. induction f as [|f IH]; intros n Hn.
  { change (10 ^ Z.of_nat 0) with 1 in Hn. assert (n = 0) as -> by lia. done. }
  destruct (decide (n = 0)) as [->|]; [by rewrite numeral_nonpos|].
  destruct (numeral_step (S f) n) as (f' & [= <-] & Hdiv & ->); [lia|].
  rewrite numeral_value_snoc, IH by (split; [apply Z.div_pos; lia|done]).
  pose proof (Z.div_mod n 10). lia.
Qed.

(** The characters are digits. *)
Lemma numeral_digits f n : Forall (λ c, 48 ≤ c ≤ 57) (numeral f n).
Proof.
  revert n. induction f as [|f IH]; intros n; simpl; [done|]. case_bool_decide; [|done].
  apply Forall_app. split; [done|]. apply Forall_singleton.
  pose proof (Z.mod_pos_bound n 10). lia.
Qed.

Lemma zlen_snoc {A} (l : list A) a : zlen (l ++ [a]) = zlen l + 1.
Proof. unfold zlen. rewrite length_app. simpl. lia. Qed.

(** The digits are written from the last one to the first: [J i s] holds when
    those from the [i]th on are written. *)
Section Itoa.
Context {S : Type} (num : Z) (wr : Z → Z → M S unit) (J : Z → S → Prop) (X : S → Prop).
Hypothesis num_int : num ≤ INT_MAX.
Hypothesis write_ok : ∀ i c s, zlookup (numeral 10 num) i = Some c → J (i + 1) s →
  wp (wr i c) s (λ _, J i) X.

Lemma wp_itoa s (Q : unit → S → Prop) :
  J (zlen (numeral 10 num)) s → (∀ s', J 0 s' → Q () s') → wp (itoa num wr) s Q X.
Proof using num_int write_ok.
  intros HJ HQ. unfold itoa. apply wp_bind.
  assert (num < 10 ^ Z.of_nat 10) as H10 by (unfold INT_MAX in *; simpl; lia).
  eapply (wp_loop_variant (λ n '(i, d) s', s' = s ∧ ∃ f, d < 10 ^ Z.of_nat f ∧
    n = zlen (numeral f d) ∧ i + n = zlen (numeral 10 num)) (zlen (numeral 10 num))).
  { split; [done|]. exists 10%nat. split_and!; [done|done|lia]. }
  { pose proof (numeral_length 10 num). unfold ITOA_FUEL. lia. }
  intros n [i d] s1 [-> (f & Hd & -> & Hi)]. split; [unfold zlen; lia|]. case_bool_decide.
  - apply wp_ret. destruct (numeral_step f d) as (f' & -> & Hd' & E); [lia|].
    rewrite E, zlen_snoc in *. exists (zlen (numeral f' (d / 10))). split; [lia|].
    split; [done|]. exists f'. rewrite Z.quot_div_nonneg by lia. split_and!; [done|done|lia].
  - apply wp_ret. rewrite numeral_nonpos in Hi by lia. change (zlen []) with 0 in Hi.
    replace i with (zlen (numeral 10 num)) by lia. clear i d f H Hd Hi.
    eapply (wp_loop_variant (λ n '(i, d) s', J i s' ∧ n = i ∧ ∃ f r, d < 10 ^ Z.of_nat f ∧
      i = zlen (numeral f d) ∧ numeral 10 num = numeral f d ++ r) (zlen (numeral 10 num))).
    { split_and!; [done|done|]. exists 10%nat, []. by rewrite app_nil_r. }
    { pose proof (numeral_length 10 num). unfold ITOA_FUEL. lia. }
    clear HJ s. intros n [i d] s (HJ & -> & f & r & Hd & -> & Hl). split; [unfold zlen; lia|].
    case_bool_decide as Hi.
    + assert (0 < d) as Hpos by (destruct (decide (0 < d)); [done|]; by rewrite numeral_nonpos in Hi by lia).
      destruct (numeral_step f d) as (f' & -> & Hd' & E); [lia|]. rewrite E in *.
      rewrite zlen_snoc in *. apply wp_bind. rewrite Z.rem_mod_nonneg by lia.
      replace (zlen (numeral f' (d / 10)) + 1 - 1) with (zlen (numeral f' (d / 10))) by lia.
      eapply wp_mono; [apply write_ok; [|done]| |done].
      { rewrite Hl, <-app_assoc. unfold zlen. rewrite zlookup_nat, lookup_app_r by lia.
        by rewrite Nat.sub_diag. }
      intros [] s' HJ'. apply wp_ret. exists (zlen (numeral f' (d / 10))). split; [lia|].
      split_and!; [done|done|]. exists f', ([d mod 10 + 48] ++ r).
      rewrite Z.quot_div_nonneg by lia. split_and!; [done|done|]. by rewrite Hl, <-app_assoc.
    + apply wp_ret, HQ. by replace 0 with (zlen (numeral f d)) by (unfold zlen in *; lia).
Qed.
End Itoa.

(** ** C strings.

    The characters [l], none of them null, followed by the null character. *)
Definition char_at (l : list Z) (i : Z) : Z := default 0 (zlookup l i).
Definition printable_chars (l : list Z) : Prop := Forall (λ c, 0 < c < 256) l.

(** [rd] reads the string [l] in the state [s]. *)
Definition reads_string {S} (rd : Z → M S Z) (l : list Z) (s : S) (X : S → Prop) : Prop :=
  ∀ i, 0 ≤ i ≤ zlen l → wp (rd i) s (λ c s', s' = s ∧ c = char_at l i) X.

Lemma char_at_inside l i :
  printable_chars l → 0 ≤ i < zlen l → ∃ c, zlookup l i = Some c ∧ char_at l i = c ∧ 0 < c < 256.
Proof.
  intros Hl Hi. destruct (zlookup_range _ _ Hi) as [c Hc]. exists c. unfold char_at. rewrite Hc.
  split_and!; [done|done|..]; apply zlookup_elem in Hc; eapply Forall_forall in Hl; naive_solver.
Qed.

Lemma char_at_end l : char_at l (zlen l) = 0.
Proof. unfold char_at. by rewrite zlookup_None by lia. Qed.

Lemma wp_strlen {S} (rd : Z → M S Z) l s (Q : Z → S → Prop) X :
  printable_chars l → zlen l ≤ 2 ^ 22 → reads_string rd l s X → Q (zlen l) s →
  wp (strlen rd) s Q X.
Proof.
  intros Hl Hlen Hrd HQ. unfold strlen.
  eapply (wp_loop (λ i s', s' = s ∧ 0 ≤ i ≤ zlen l) (λ i, zlen l - i)).
  { split; [done|]. unfold zlen. lia. }
  { unfold STRING_FUEL. rewrite Nat2Z.inj_succ, Z2Nat.id by lia. lia. }
  intros i s' [-> Hi]. split; [lia|]. apply wp_bind.
  eapply wp_mono; [by apply Hrd| |done]. intros c s' [-> ->].
  destruct (decide (i = zlen l)) as [->|].
  - rewrite char_at_end, bool_decide_false by auto. by apply wp_ret.
  - destruct (char_at_inside l i) as (c & _ & -> & ?); [done|lia|].
    rewrite bool_decide_true by lia. apply wp_ret. split; [split; [done|lia]|lia].
Qed.

(** The order of [strcmp]: lexicographic on unsigned characters. *)
Fixpoint string_compare (l1 l2 : list Z) : Z :=
  match l1, l2 with
  | [], [] => 0
  | [], _ :: _ => -1
  | _ :: _, [] => 1
  | a :: l1, b :: l2 =>
      if bool_decide (a = b) then string_compare l1 l2
      else if bool_decide (a < b) then -1 else 1
  end.

Lemma string_compare_eq l1 l2 : string_compare l1 l2 = 0 ↔ l1 = l2.
Proof.
  revert l2. induction l1 as [|a l1 IH]; intros [|b l2]; simpl; try done.
  repeat case_bool_decide; subst; [rewrite IH|..]; split; congruence.
Qed.

Lemma zlookup_cons {A} (a : A) l i : 0 ≤ i → zlookup (a :: l) (i + 1) = zlookup l i.
Proof.
  intros. unfold zlookup. rewrite !decide_True by lia.
  by replace (Z.to_nat (i + 1)) with (S (Z.to_nat i)) by lia.
Qed.
Lemma char_at_cons a l i : 0 ≤ i → char_at (a :: l) (i + 1) = char_at l i.
Proof. intros. unfold char_at. by rewrite zlookup_cons. Qed.
Lemma zlen_cons {A} (a : A) l : zlen (a :: l) = zlen l + 1.
Proof. unfold zlen. simpl. lia. Qed.

(** What [strcmp] has still to compare after [i] equal characters. *)
Lemma string_compare_from l1 l2 i :
  printable_chars l1 → printable_chars l2 → 0 ≤ i → i ≤ zlen l1 → i ≤ zlen l2 →
  (∀ j, 0 ≤ j < i → char_at l1 j = char_at l2 j) →
  string_compare l1 l2 =
  if bool_decide (char_at l1 i = char_at l2 i) then
    if bool_decide (char_at l1 i = 0) then 0 else string_compare l1 l2
  else if bool_decide (char_at l1 i < char_at l2 i) then -1 else 1.
Proof.
  revert l2 i. induction l1 as [|a l1 IH]; intros l2 i H1 H2 Hi Hi1 Hi2 Heq.
  - replace i with 0 in * by (unfold zlen in *; simpl in *; lia).
    destruct l2 as [|b l2]; [done|]. inversion H2; subst.
    unfold char_at. simpl. rewrite bool_decide_false, bool_decide_true by lia. done.
  - inversion H1 as [|?? Ha]; subst. destruct l2 as [|b l2].
    { replace i with 0 in * by (unfold zlen in *; simpl in *; lia).
      unfold char_at. simpl. rewrite !bool_decide_false by lia. done. }
    inversion H2 as [|?? Hb]; subst. destruct (decide (i = 0)) as [->|Hne].
    + unfold char_at. simpl. case_bool_decide; [|done]. by rewrite bool_decide_false by lia.
    + assert (a = b) as -> by (specialize (Heq 0 ltac:(lia)); by unfold char_at in Heq; simpl in Heq).
      rewrite zlen_cons in *. replace i with (i - 1 + 1) by lia.
      rewrite !char_at_cons by lia. simpl. rewrite bool_decide_true by done.
      apply IH; [done|done|lia|lia|lia|].
      intros j Hj. specialize (Heq (j + 1) ltac:(lia)). by rewrite !char_at_cons in Heq by lia.
Qed.

Lemma u8_char l i : printable_chars l → 0 ≤ i ≤ zlen l → u8 (char_at l i) = char_at l i.
Proof.
  intros Hl Hi. apply u8_small. destruct (decide (i = zlen l)) as [->|]; [by rewrite char_at_end|].
  destruct (char_at_inside l i) as (c & _ & -> & ?); [done|lia|lia].
Qed.

Lemma wp_strcmp {S} (rd1 rd2 : Z → M S Z) l1 l2 s (Q : Z → S → Prop) X :
  printable_chars l1 → printable_chars l2 → zlen l1 ≤ 2 ^ 22 →
  reads_string rd1 l1 s X → reads_string rd2 l2 s X → Q (string_compare l1 l2) s →
  wp (strcmp rd1 rd2) s Q X.
Proof.
  intros H1 H2 Hlen Hrd1 Hrd2 HQ. unfold strcmp.
  eapply (wp_loop (λ i s', s' = s ∧ 0 ≤ i ≤ zlen l1 ∧ i ≤ zlen l2 ∧
    ∀ j, 0 ≤ j < i → char_at l1 j = char_at l2 j) (λ i, zlen l1 - i)).
  { split_and!; [done|unfold zlen; lia..]. }
  { unfold STRING_FUEL. rewrite Nat2Z.inj_succ, Z2Nat.id by lia. lia. }
  intros i s' (-> & Hi1 & Hi2 & Heq). split; [lia|].
  apply wp_bind. eapply wp_mono; [by apply Hrd1| |done]. intros a s' [-> ->].
  apply wp_bind. eapply wp_mono; [by apply Hrd2; lia| |done]. intros b s' [-> ->].
  rewrite (string_compare_from l1 l2 i) in HQ by (done || lia).
  rewrite !u8_char by (done || lia).
  case_bool_decide as Hab; [|by case_bool_decide; apply wp_ret].
  case_bool_decide as Ha; apply wp_ret; [done|].
  assert (i ≠ zlen l1) by (intros ->; by rewrite char_at_end in Ha).
  assert (i ≠ zlen l2) by (intros ->; rewrite char_at_end in Hab; congruence).
  split; [|lia]. split_and!; [done|lia..|]. intros j Hj.
  destruct (decide (j = i)) as [->|]; [done|]. apply Heq. lia.
Qed.
