(* ===== verification/FileFacts.v ===== *)
(** * Files by name: the search of a path, the creation of a file, the whole of
    [sys_unlink]. *)
From stdpp Require Import functions.
From S2P Require Import Prelude Mm Utils Fs KState Devices Sys FsFacts.
From S2P Require Import FsOps UtilsFacts.

(** ** Reading user memory. *)

(** The bytes [c 0], ..., [c (n - 1)] are in the memory of the process, from
    [addr] on. *)
Definition user_bytes (k : kstate) (addr n : Z) (c : Z → Z) : Prop :=
  ∀ i, 0 ≤ i < n → byte_at (mm k) (addr + i) = Some (c i).
Definition user_string (k : kstate) (addr : Z) (l : list Z) : Prop :=
  printable_chars l ∧ zlen l ≤ 2 ^ 22 ∧ user_bytes k addr (zlen l + 1) (char_at l).

Lemma wp_uload k a c (Q : Z → kstate → Prop) X :
  byte_at (mm k) a = Some c → Q c k → wp (uload a) k Q X.
Proof. intros ? ?. apply wp_zoom_read; [apply _|]. by eapply wp_load_byte. Qed.

Lemma user_string_reads k addr l X :
  user_string k addr l → reads_string (λ i, uload (addr + i)) l k X.
Proof. intros (_ & _ & Hb) i Hi. eapply wp_uload; [apply Hb; lia|done]. Qed.

Lemma wp_user_strlen k addr l (Q : Z → kstate → Prop) X :
  user_string k addr l → Q (zlen l) k → wp (strlen (λ i, uload (addr + i))) k Q X.
Proof.
  intros Hs HQ. pose proof Hs as (? & ? & _). eapply wp_strlen; [done|done| |done].
  by apply user_string_reads.
Qed.

(** ** Names. *)

(** The null terminated name of an entry. *)
Definition has_name (f : file) (l : list Z) : Prop :=
  printable_chars l ∧ zlen l < MAX_NAME_LENGTH ∧ ∃ rest, name f = l ++ 0 :: rest.
Definition named (s : fs_state) (nm : Z → list Z) : Prop :=
  ∀ i f, zlookup (dir s) i = Some f → has_name f (nm i).

Lemma has_name_char f l i : has_name f l → 0 ≤ i ≤ zlen l → zlookup (name f) i = Some (char_at l i).
Proof.
  intros (Hl & _ & rest & ->) Hi. unfold char_at. destruct (decide (i < zlen l)).
  - destruct (char_at_inside l i Hl) as (c & Hc & _); [lia|]. rewrite Hc. simpl.
    rewrite zlookup_app, decide_True by done. exact Hc.
  - replace i with (zlen l) by lia. rewrite (zlookup_None l) by lia.
    rewrite zlookup_app, decide_False by lia. by rewrite Z.sub_diag.
Qed.

Lemma has_name_reads {S} f l (s : S) X :
  has_name f l → reads_string (λ i, of_option (zlookup (name f) i)) l s X.
Proof. intros Hf i Hi. eapply wp_of_option; [by apply has_name_char|done]. Qed.

(** The search of a path: the first entry with that name. *)
Lemma wp_lookup_path k path l nm (Q : Z → kstate → Prop) X :
  zlen (dir (fs k)) = MAX_FILES → named (fs k) nm → user_string k path l →
  (∀ e, 0 ≤ e ≤ MAX_FILES → (∀ j, 0 ≤ j < e → nm j ≠ l) → (e < MAX_FILES → nm e = l) → Q e k) →
  wp (lookup_path path) k Q X.
Proof.
  intros Hlen Hnm Hs HQ. pose proof Hs as (Hl & Hl' & _). unfold lookup_path.
  apply (wp_search_range (λ e, bool_decide (nm e ≠ l))); [done| |].
  - intros e He _. destruct (zlookup_range (dir (fs k)) e) as [f Hf]; [lia|].
    apply wp_bind, wp_zoom. eapply wp_aget; [done|].
    replace (update FS (view FS k) k) with k by (by destruct k).
    pose proof (Hnm _ _ Hf) as Hn. pose proof Hn as (Hp & Hshort & _).
    apply wp_bind. apply (wp_strcmp _ _ (nm e) l); [done|done|unfold MAX_NAME_LENGTH in *; lia| | |].
    + by apply has_name_reads.
    + by apply user_string_reads.
    + apply wp_ret. split; [done|]. apply bool_decide_ext. by rewrite string_compare_eq.
  - intros e He Hpre Hstop. apply HQ; [done| |].
    + intros j Hj. specialize (Hpre j Hj). by apply bool_decide_eq_true in Hpre.
    + intros H. specialize (Hstop H). apply bool_decide_eq_false in Hstop. by apply dec_stable.
Qed.

(** ** [sys_unlink]. *)

(** The entry is not used any more; the blocks of a regular file are free. *)
Definition unlinked (free : list Z) (d : Z) (f : file) (s : fs_state) : fs_state :=
  if decide (regular f) then
    let s := released free d f s in
    set_dir (zinsert d (cleared (with_size 0 (with_n_blocks 0 f))) (dir s)) s
  else set_dir (zinsert d (cleared f) (dir s)) s.

Lemma irregular_own s free own d f :
  fs_ok s free own → zlookup (dir s) d = Some f → ¬ regular f → own d = [].
Proof. intros Hok Hf Hr. apply (fo_other _ _ _ Hok). intros f' Hf'. congruence. Qed.

(** An entry without blocks changes, and stays without. *)
Lemma fs_change_entry s free own d f f' :
  fs_ok s free own → zlookup (dir s) d = Some f → ¬ regular f → ¬ regular f' →
  zlen (name f') = MAX_NAME_LENGTH →
  fs_change s (set_dir (zinsert d f' (dir s)) s) free free d (own d) [] f'.
Proof.
  intros Hok Hf Hr Hr' Hn. split; simpl; try done; try apply Hok.
  by rewrite (irregular_own _ _ _ _ _ Hok Hf Hr).
Qed.

Lemma unlinked_ok s free own d f :
  fs_ok s free own → zlookup (dir s) d = Some f →
  fs_ok (unlinked free d f s) (free ++ own d) (<[d := []]> own).
Proof.
  intros Hok Hf. pose proof (zlookup_Some_range _ _ _ Hf) as Hd. rewrite (fo_dir _ _ _ Hok) in Hd.
  unfold unlinked. case_decide as Hr.
  - eapply fs_ok_change; [done|done|]. by apply fs_change_unlink.
  - rewrite (irregular_own _ _ _ _ _ Hok Hf Hr), app_nil_r.
    eapply fs_ok_change; [done|done|]. eapply fs_change_entry; [done|done|done|done|].
    simpl. rewrite zlen_zinsert. by apply (fo_names _ _ _ Hok d).
Qed.

(** The result of [sys_unlink] for the path [l]: the first entry of that name
    is [e]. *)
Inductive unlink_post (k : kstate) (free : list Z) (nm : Z → list Z) (l : list Z)
  : Z → kstate → Prop :=
| unlink_long : zlen l > MAX_NAME_LENGTH → unlink_post k free nm l (- ENAMETOOLONG) k
| unlink_absent : zlen l ≤ MAX_NAME_LENGTH → (∀ j, 0 ≤ j < MAX_FILES → nm j ≠ l) →
    unlink_post k free nm l (- ENOENT) k
| unlink_busy e f : nm e = l → (∀ j, 0 ≤ j < e → nm j ≠ l) → zlookup (dir (fs k)) e = Some f →
    n_refs f ≠ 0 → unlink_post k free nm l (- EBUSY) k
| unlink_done e f : nm e = l → (∀ j, 0 ≤ j < e → nm j ≠ l) → zlookup (dir (fs k)) e = Some f →
    n_refs f = 0 → unlink_post k free nm l 0 (set_fs (unlinked free e f (fs k)) k).

Lemma wp_sys_unlink k free own nm path l (Q : Z → kstate → Prop) X :
  fs_ok (fs k) free own → named (fs k) nm → check_address path 1 ≠ 0 → user_string k path l →
  (∀ r k', unlink_post k free nm l r k' → Q r k') →
  wp (sys_unlink path) k Q X.
Proof.
  intros Hok Hnm Hpath Hs HQ. unfold sys_unlink. rewrite bool_decide_false by done.
  apply wp_bind. eapply wp_user_strlen; [done|]. case_bool_decide; [by apply wp_ret, HQ; constructor|].
  apply wp_bind. eapply wp_lookup_path; [apply Hok|done|done|].
  intros e He Hpre Hfound. case_bool_decide as Hend.
  { subst e. apply wp_ret, HQ, unlink_absent; [lia|done]. }
  destruct (zlookup_range (dir (fs k)) e) as [f Hf]; [rewrite (fo_dir _ _ _ Hok); lia|].
  apply wp_bind, wp_zoom. eapply wp_aget; [done|].
  replace (update FS (view FS k) k) with k by (by destruct k). specialize (Hfound ltac:(lia)).
  case_bool_decide as Hrefs; [|by eapply wp_ret, HQ, unlink_busy].
  assert (unlink_post k free nm l 0 (set_fs (unlinked free e f (fs k)) k)) as Hpost by by econstructor.
  specialize (HQ _ _ Hpost). clear Hpost. apply wp_bind. unfold unlinked in HQ. destruct (decide (regular f)) as [Hr|Hr].
  - rewrite Hr. apply wp_bind, wp_zoom. eapply wp_sys_release_file; [done|done|done|].
    apply wp_ret. apply wp_bind, wp_zoom.
    change (op_set with_sys_open_dev e None;; _) with (unlink_entry e).
    eapply (wp_unlink_entry e (with_size 0 (with_n_blocks 0 f))).
    + simpl. apply zlookup_zinsert_eq. eauto with arrays.
    + exact (fo_names _ _ _ Hok e f Hf).
    + by apply wp_ret.
  - assert (sys_release_dev (operations f) = None) as ->.
    { unfold regular in Hr. destruct (sys_release_dev (operations f)) as [[]|]; done. }
    apply wp_ret, wp_bind, wp_zoom.
    change (op_set with_sys_open_dev e None;; _) with (unlink_entry e).
    eapply wp_unlink_entry; [done|exact (fo_names _ _ _ Hok e f Hf)|]. by apply wp_ret.
Qed.
