(* ===== verification/CreateFacts.v ===== *)
(** * [create_file]: the entry, the block and the name of a new file. *)
From stdpp Require Import functions.
From S2P Require Import Prelude Mm Utils Fs KState Devices Sys FsFacts.
From S2P Require Import FsOps UtilsFacts FileFacts.

(** The name array after the copy of [l], which it can hold. *)
Definition new_name (l old : list Z) : list Z := l ++ 0 :: drop (S (length l)) old.

Definition file_routines : file_operations :=
  FileOperations None None (Some Sys_read_file) (Some Sys_write_file) (Some Sys_release_file).
Definition new_file (l : list Z) (b : Z) (f : file) : file :=
  File (new_name l (name f)) O_RDWR file_routines b 1 0 0.

Definition created (free : list Z) (l : list Z) (i b : Z) (f : file) (s : fs_state) : fs_state :=
  let s := take_blocks free 1 s in set_dir (zinsert i (new_file l b f) (dir s)) s.

Lemma zlen_new_name l old : zlen l < zlen old → zlen (new_name l old) = zlen old.
Proof.
  unfold new_name, zlen. intros. rewrite length_app. simpl. rewrite length_drop. lia.
Qed.

Lemma new_file_name l b f :
  printable_chars l → zlen l < MAX_NAME_LENGTH → has_name (new_file l b f) l.
Proof. intros ? ?. split_and!; [done|done|]. by eexists. Qed.

(** The first unused entry. *)
Definition first_unused (s : fs_state) (i : Z) (f : file) : Prop :=
  zlookup (dir s) i = Some f ∧ n_refs f = -1 ∧
  ∀ j g, zlookup (dir s) j = Some g → j < i → n_refs g ≠ -1.

Lemma wp_free_entry s i f (Q : Z → fs_state → Prop) X :
  zlen (dir s) = MAX_FILES → first_unused s i f → Q i s → wp free_entry s Q X.
Proof.
  intros Hlen (Hi & Hf & Hpre) HQ. pose proof (zlookup_Some_range _ _ _ Hi) as Hr.
  unfold free_entry. eapply (wp_loop (λ j s', s' = s ∧ 0 ≤ j ≤ i) (λ j, i - j)).
  { split; [done|lia]. } { unfold MAX_FILES in *. lia. }
  intros j s' [-> Hj]. split; [lia|]. destruct (zlookup_range (dir s) j) as [g Hg]; [lia|].
  apply wp_bind. eapply wp_aget; [done|]. destruct (decide (j = i)) as [->|].
  - simplify_eq. rewrite (bool_decide_false (n_refs f ≠ -1)) by tauto. by apply wp_ret.
  - rewrite !bool_decide_true by (unfold MAX_FILES in *; (eapply Hpre; (done || lia)) || lia).
    apply wp_ret. split; [split; [done|lia]|lia].
Qed.

(** The name array while the first [n] characters of [l] are copied. *)
Definition part_name (l old : list Z) (n : Z) : list Z :=
  take (Z.to_nat n) l ++ drop (Z.to_nat n) old.

Lemma part_name_step l old n c :
  zlookup l n = Some c → zlen l < zlen old →
  zinsert n c (part_name l old n) = part_name l old (n + 1).
Proof.
  intros Hc Hlen. pose proof (zlookup_Some_range _ _ _ Hc) as Hn.
  unfold part_name, zlookup, zinsert, zlen in *. rewrite decide_True in Hc by lia.
  rewrite decide_True by lia. replace (Z.to_nat (n + 1)) with (S (Z.to_nat n)) by lia.
  rewrite (take_S_r _ _ _ Hc), <-app_assoc.
  destruct (lookup_lt_is_Some_2 old (Z.to_nat n)) as [b Hb]; [lia|].
  rewrite insert_app_r_alt by (rewrite length_take; lia).
  rewrite length_take_le by lia. rewrite Nat.sub_diag.
  by rewrite (drop_S _ _ _ Hb).
Qed.

Lemma part_name_end l old c :
  zlookup old (zlen l) = Some c →
  zlookup (part_name l old (zlen l)) (zlen l) = Some c ∧
  zinsert (zlen l) 0 (part_name l old (zlen l)) = new_name l old.
Proof.
  intros Hc. unfold part_name, new_name, zlookup, zinsert, zlen in *.
  rewrite decide_True in Hc by lia. rewrite !decide_True by lia. rewrite Nat2Z.id in *.
  rewrite take_ge by lia.
  rewrite lookup_app_r, Nat.sub_diag, lookup_drop, Nat.add_0_r by lia. split; [done|].
  rewrite insert_app_r_alt, Nat.sub_diag by lia. f_equal. by rewrite (drop_S _ _ _ Hc).
Qed.

Lemma wp_name_set i j c f s (Q : unit → fs_state → Prop) X :
  zlookup (dir s) i = Some f → 0 ≤ j < zlen (name f) →
  Q () (set_dir (zinsert i (with_name (zinsert j c (name f)) f) (dir s)) s) →
  wp (name_set i j c) s Q X.
Proof.
  intros Hf Hj HQ. apply wp_bind. eapply wp_aget; [done|].
  destruct (zlookup_range _ _ Hj) as [b Hb]. apply wp_bind. eapply wp_of_option; [done|].
  by eapply wp_dir_set.
Qed.

Lemma wp_name_set_again i j c f s (Q : unit → fs_state → Prop) X :
  0 ≤ i < zlen (dir s) → 0 ≤ j < zlen (name f) →
  Q () (set_dir (zinsert i (with_name (zinsert j c (name f)) f) (dir s)) s) →
  wp (name_set i j c) (set_dir (zinsert i f (dir s)) s) Q X.
Proof.
  intros Hi Hj HQ. eapply wp_name_set; [by apply zlookup_zinsert_eq|done|]. by rewrite set_dir_again.
Qed.

Section Create.
Context (k : kstate) (path : Z) (l : list Z) (i : Z) (f : file).

(** The copy of the name, in a state whose file system is [s]. *)
Lemma wp_copy_name s (Q : Z → kstate → Prop) X :
  user_string k path l → zlookup (dir s) i = Some f → zlen l < zlen (name f) →
  Q 0 (set_fs (set_dir (zinsert i (with_name (part_name l (name f) (zlen l)) f) (dir s)) s) k) →
  wp (copy_from_user (λ j, uload (path + j)) (λ j c, zoom FS (name_set i j c)) (zlen l)) (set_fs s k) Q X.
Proof.
  intros (Hl & _ & Hb) Hi Hlen HQ. pose proof (zlookup_Some_range _ _ _ Hi) as Hr.
  unfold copy_from_user. apply wp_bind.
  apply (wp_copy_data _ _ (char_at l) (zlen l) (λ n k', k' =
    set_fs (set_dir (zinsert i (with_name (part_name l (name f) n) f) (dir s)) s) k)).
  - intros n j k' Hn Hj ->. eapply wp_uload; [apply Hb; lia|done].
  - intros n k' Hn ->. apply wp_zoom. simpl.
    destruct (char_at_inside l n Hl Hn) as (c & Hc & -> & _).
    apply wp_name_set_again; [done| |].
    + simpl. unfold part_name, zlen in *. rewrite length_app, length_take, length_drop. lia.
    + simpl. by rewrite part_name_step.
  - unfold zlen. lia.
  - change (part_name l (name f) 0) with (name f).
    replace (with_name (name f) f) with f by (by destruct f).
    rewrite (zinsert_id _ _ _ Hi). by destruct s.
  - intros _ k' ->. by apply wp_ret.
Qed.

(** What [create_file] does with the entry, once the name is copied. *)
Definition setup_entry (length fblock : Z) : M fs_state unit :=
  (let! f := aget Dir i in
   let! c := of_option (zlookup (name f) length) in
   if bool_decide (c ≠ 0) then name_set i length 0 else ret ());;
  dir_set with_access_mode_allow i O_RDWR;;
  op_set with_sys_open_dev i None;;
  op_set with_sys_close_dev i None;;
  op_set with_sys_read_dev i (Some Sys_read_file);;
  op_set with_sys_write_dev i (Some Sys_write_file);;
  op_set with_sys_release_dev i (Some Sys_release_file);;
  dir_set with_first_block i fblock;;
  dir_set with_size i 0;;
  dir_set with_n_blocks i 1;;
  dir_set with_n_refs i 0.

Lemma wp_setup_entry s b (Q : unit → fs_state → Prop) X :
  0 ≤ i < zlen (dir s) → zlen l < zlen (name f) →
  Q () (set_dir (zinsert i (new_file l b f) (dir s)) s) →
  wp (setup_entry (zlen l) b)
    (set_dir (zinsert i (with_name (part_name l (name f) (zlen l)) f) (dir s)) s) Q X.
Proof.
  intros Hi Hlen HQ. unfold setup_entry.
  destruct (zlookup_range (name f) (zlen l)) as [c Hc]; [unfold zlen in *; lia|].
  destruct (part_name_end _ _ _ Hc) as [Hc' Hnew].
  assert (wp (let! f := aget Dir i in
    let! c := of_option (zlookup (name f) (zlen l)) in
    if bool_decide (c ≠ 0) then name_set i (zlen l) 0 else ret ())
    (set_dir (zinsert i (with_name (part_name l (name f) (zlen l)) f) (dir s)) s)
    (λ _ s', s' = set_dir (zinsert i (with_name (new_name l (name f)) f) (dir s)) s) X) as Hterm.
  { apply wp_bind. eapply wp_aget; [by apply zlookup_zinsert_eq|].
    apply wp_bind. eapply wp_of_option; [exact Hc'|]. case_bool_decide as H0.
    - apply wp_name_set_again; [done| |simpl; by rewrite Hnew].
      simpl. by apply zlookup_Some_range in Hc'.
    - apply wp_ret. assert (c = 0) as -> by lia. rewrite <-Hnew. by rewrite (zinsert_id _ _ _ Hc'). }
  apply wp_bind. eapply wp_mono; [exact Hterm| |done]. intros [] s' ->.
  apply wp_bind, wp_dir_set_again; [done|].
  do 5 (apply wp_bind, wp_op_set_again; [done|]).
  do 3 (apply wp_bind, wp_dir_set_again; [done|]).
  by apply wp_dir_set_again.
Qed.
End Create.

(** The three results of [create_file]. *)
Inductive create_post (k : kstate) (free l : list Z) (i : Z) (f : file) : file_ptr → kstate → Prop :=
| create_long : MAX_NAME_LENGTH ≤ zlen l → create_post k free l i f (ErrPtr (- ENAMETOOLONG)) k
| create_full : zlen l < MAX_NAME_LENGTH → free = [] → create_post k free l i f (ErrPtr (- ENOSPC)) k
| create_done b free' : zlen l < MAX_NAME_LENGTH → free = b :: free' →
    create_post k free l i f (DirEntry i) (set_fs (created free l i b f (fs k)) k).

Lemma wp_create_file k free own path l i f (Q : file_ptr → kstate → Prop) X :
  fs_ok (fs k) free own → first_unused (fs k) i f → user_string k path l →
  (∀ p k', create_post k free l i f p k' → Q p k') →
  wp (create_file FS (λ j, uload (path + j))) k Q X.
Proof.
  intros Hok Hu Hs HQ. pose proof Hu as (Hi & _ & _). unfold create_file.
  pose proof (zlookup_Some_range _ _ _ Hi) as Hr.
  pose proof (fo_names _ _ _ Hok _ _ Hi) as Hname.
  apply wp_bind, wp_zoom. eapply wp_free_entry; [apply Hok|done|].
  replace (update FS (view FS k) k) with k by (by destruct k).
  rewrite bool_decide_false by (rewrite (fo_dir _ _ _ Hok) in Hr; lia).
  apply wp_bind. eapply wp_user_strlen; [done|]. case_bool_decide as Hlen.
  { apply wp_ret, HQ, create_long. lia. }
  apply wp_bind, wp_zoom. eapply wp_balloc; [apply Hok|apply Hok| |].
  - intros Hfree. destruct free as [|b free']; [unfold zlen in Hfree; simpl in Hfree; lia|].
    assert (0 ≤ b) as Hb by (apply (ch_range _ _ _ (fo_free _ _ _ Hok)); set_solver).
    change (nth_block (b :: free') 0) with b. rewrite bool_decide_false by lia.
    apply wp_bind. apply (wp_copy_name k path l i f (take_blocks (b :: free') 1 (fs k))); [done|exact Hi|lia|].
    match goal with |- wp (bind (zoom FS ?m) _) _ _ _ => change m with (setup_entry i (zlen l) b) end.
    apply wp_bind, wp_zoom. apply (wp_setup_entry l i f (take_blocks (b :: free') 1 (fs k))); [done|lia|].
    apply wp_ret, HQ. apply (create_done k (b :: free') l i f b free'); [lia|done].
  - intros Hnone. rewrite bool_decide_true by lia. apply wp_ret.
    replace (update FS (view FS k) k) with k by (by destruct k).
    apply HQ, create_full; [lia|]. destruct free; [done|]. exfalso. apply Hnone. unfold zlen. simpl. lia.
Qed.

(** The new file keeps the invariant: it has the first free block. *)
Lemma created_ok s free' own l i b f :
  fs_ok s (b :: free') own → first_unused s i f → zlen l < MAX_NAME_LENGTH →
  fs_ok (created (b :: free') l i b f s) free' (<[i := [b]]> own).
Proof.
  intros Hok (Hi & Hunused & _) Hlen. pose proof (zlookup_Some_range _ _ _ Hi) as Hr.
  rewrite (fo_dir _ _ _ Hok) in Hr. pose proof (fo_names _ _ _ Hok _ _ Hi) as Hname.
  pose proof (fo_unused _ _ _ Hok _ _ Hi Hunused) as Hreg.
  pose proof (irregular_own _ _ _ _ _ Hok Hi Hreg) as Hown.
  destruct (chain_cut _ _ _ 1 (fo_free _ _ _ Hok) (fo_fat _ _ _ Hok)) as [Hb Hfree'].
  { unfold zlen. simpl. lia. }
  eapply fs_ok_change; [done|done|]. unfold created. split; simpl.
  - by rewrite zlen_zinsert.
  - done.
  - apply Hok.
  - apply Hok.
  - change (zlen (new_name l (name f)) = MAX_NAME_LENGTH). rewrite zlen_new_name; lia.
  - intros x Hx Hxf. apply zlookup_zinsert_ne. intros <-. apply Hxf. apply nth_block_elem.
    unfold zlen. simpl. lia.
  - exact Hfree'.
  - intros _. split; simpl; [|done|done|].
    + rewrite <-(ch_head _ _ _ (fo_free _ _ _ Hok)) in Hb. exact Hb.
    + unfold fits, BLOCK_SIZE, zlen. simpl. lia.
  - intros Hn. by exfalso; apply Hn.
  - done.
  - rewrite Hown, app_nil_r. by rewrite Permutation_app_comm.
Qed.
