(* ===== verification/WriteFacts.v ===== *)
(** * Regular files: appending bytes, and reading them back. *)
From stdpp Require Import functions.
From S2P Require Import Prelude Mm Utils Fs KState Devices Sys FsFacts.
From S2P Require Import FsOps FileFacts.

(** ** The contents of a file. *)

(** Byte [j] of the file with the blocks [l]. *)
Definition file_byte (dk : list (list Z)) (l : list Z) (j : Z) : option Z :=
  zlookup dk (nth_block l (j / BLOCK_SIZE)) ≫= λ row, zlookup row (j mod BLOCK_SIZE).

Lemma file_byte_store dk l b p c row j :
  zlookup dk b = Some row → 0 ≤ p < zlen row →
  file_byte (zinsert b (zinsert p c row) dk) l j =
  if decide (nth_block l (j / BLOCK_SIZE) = b ∧ j mod BLOCK_SIZE = p) then Some c else file_byte dk l j.
Proof.
  intros Hb Hp. unfold file_byte. rewrite zlookup_zinsert by eauto with arrays.
  destruct (decide (b = nth_block l (j / BLOCK_SIZE))) as [->|Hne].
  - simpl. rewrite Hb. simpl. rewrite zlookup_zinsert by done.
    destruct (decide (p = j mod BLOCK_SIZE)) as [->|]; [by rewrite decide_True|].
    by rewrite decide_False by naive_solver.
  - by rewrite decide_False by naive_solver.
Qed.

Lemma block_bounds j : 0 ≤ j → 0 ≤ j / BLOCK_SIZE ∧ 0 ≤ j mod BLOCK_SIZE < BLOCK_SIZE ∧
  j = BLOCK_SIZE * (j / BLOCK_SIZE) + j mod BLOCK_SIZE.
Proof.
  unfold BLOCK_SIZE. intros. pose proof (Z.div_pos j 256). pose proof (Z.mod_pos_bound j 256).
  pose proof (Z.div_mod j 256). lia.
Qed.

(** The position of the last byte of a file. *)
Lemma fits_position z n :
  fits z n → 1 ≤ n → (z mod BLOCK_SIZE ≠ 0 ∨ z = 0) → z / BLOCK_SIZE = n - 1.
Proof.
  unfold fits, BLOCK_SIZE. intros [? Hor] Hn Hm. pose proof (Z.div_mod z 256). pose proof (Z.mod_pos_bound z 256).
  destruct Hor as [Hlt|[-> ->]]; [|done]. destruct Hm as [Hm| ->]; [|lia]. lia.
Qed.
Lemma fits_full z n : fits z n → z mod BLOCK_SIZE = 0 → z ≠ 0 → z = BLOCK_SIZE * n.
Proof.
  unfold fits, BLOCK_SIZE. intros [? Hor] Hm Hz. pose proof (Z.div_mod z 256).
  destruct Hor as [Hlt|[-> ->]]; [|done]. lia.
Qed.

Lemma last_block_elem l : l ≠ [] → last_block l ∈ l.
Proof. intros Hne%zlen_pos. apply nth_block_elem. lia. Qed.

(** ** One byte. *)

(** The byte [c] is stored at [p] of block [b]; the open file and the file,
    whose size was the offset, advance. *)
Definition stored (o d b p c : Z) (row : list Z) (f : file) (v : virtual) (s : fs_state) : fs_state :=
  MkFs (fat s) (ffb s) (zinsert b (zinsert p c row) (disk s))
    (zinsert d (with_size (size f + 1) f) (dir s)) (zinsert o (with_offset (size f + 1) v) (fdt s)).

Definition advance (o d : Z) : M kstate unit :=
  let! v := zoom FS (aget Fdt o) in
  zoom FS (fdt_set with_offset o (s32 (offset v + 1)));;
  let! f := zoom FS (aget Dir d) in
  if bool_decide (size f < s32 (offset v + 1))
  then zoom FS (dir_set with_size d (s32 (size f + 1))) else ret ().

Lemma wp_store_byte_tail {A} (rd : Z → M kstate Z) i o d b p c row f v s k (m1 m2 : M kstate A) (Q : A → kstate → Prop) X :
  (∀ s' (Q' : Z → kstate → Prop), Q' c (set_fs s' k) → wp (rd (i + 0)) (set_fs s' k) Q' X) →
  zlookup (disk s) b = Some row → 0 ≤ p < zlen row →
  zlookup (dir s) d = Some f → zlookup (fdt s) o = Some v → offset v = size f →
  0 ≤ size f < INT_MAX →
  wp m2 (set_fs (stored o d b p c row f v s) k) Q X →
  wp (let! r := copy_from_user (λ j, rd (i + j)) (λ j x, zoom FS (disk_set b (p + j) x)) 1 in
      if bool_decide (r ≠ 0) then m1 else advance o d;; m2) (set_fs s k) Q X.
Proof.
  intros Hrd Hrow Hp Hf Hv Hoff Hsz HQ. apply wp_bind. unfold copy_from_user. apply wp_bind.
  set (s1 := set_disk (zinsert b (zinsert p c row) (disk s)) s).
  apply (wp_copy_data _ _ (λ _, c) 1 (λ n k', k' = set_fs (if bool_decide (n = 0) then s else s1) k)).
  - intros n j k' Hn Hj ->. assert (n = 0) as -> by lia. assert (j = 0) as -> by lia. simpl.
    by apply Hrd.
  - intros n k' Hn ->. assert (n = 0) as -> by lia. simpl. apply wp_zoom. unfold disk_set.
    apply wp_bind. eapply wp_aget; [exact Hrow|]. rewrite Z.add_0_r.
    destruct (zlookup_range _ _ Hp) as [x Hx]. apply wp_bind. eapply wp_of_option; [done|].
    apply wp_aset; [simpl; eauto with arrays|]. done.
  - done.
  - done.
  - intros _ k' ->. apply wp_ret. change (bool_decide (1 = 0)) with false. cbv iota.
    rewrite (bool_decide_false (0 ≠ 0)) by tauto. apply wp_bind.
    unfold advance. apply wp_bind, wp_zoom. eapply wp_aget; [exact Hv|].
    apply wp_bind, wp_zoom. eapply wp_fdt_set; [exact Hv|].
    apply wp_bind, wp_zoom. eapply wp_aget; [exact Hf|].
    rewrite Hoff. rewrite (s32_small (size f + 1)) by (unfold INT_MIN, INT_MAX in *; lia).
    rewrite bool_decide_true by lia. apply wp_zoom. eapply wp_dir_set; [exact Hf|]. exact HQ.
Qed.

(** ** Appending. *)

Section Append.
Context (k : kstate) (s0 : fs_state) (own0 : Z → list Z) (d o : Z) (f0 : file) (v0 : virtual).
Context (src : Z → Z).

(** [n] bytes of [src] were appended to file [d] through the open file [o],
    from the state [s0]; no other file, entry or open file changed. *)
Record appending (n : Z) (s : fs_state) (free : list Z) (own : Z → list Z) : Prop := {
  ap_ok : fs_ok s free own;
  ap_file : ∃ nb, zlookup (dir s) d = Some (with_size (size f0 + n) (with_n_blocks nb f0));
  ap_open : zlookup (fdt s) o = Some (with_offset (size f0 + n) v0);
  ap_old : ∀ j, 0 ≤ j < size f0 → file_byte (disk s) (own d) j = file_byte (disk s0) (own0 d) j;
  ap_new : ∀ j, 0 ≤ j < n → file_byte (disk s) (own d) (size f0 + j) = Some (src j);
  ap_own : ∀ i, i ≠ d → own i = own0 i;
  ap_other : ∀ i j, i ≠ d → file_byte (disk s) (own i) j = file_byte (disk s0) (own0 i) j;
  ap_dir : ∀ i, i ≠ d → zlookup (dir s) i = zlookup (dir s0) i;
  ap_fdt : ∀ i, i ≠ o → zlookup (fdt s) i = zlookup (fdt s0) i;
}.

(** Where the next byte goes. *)
Definition at_end (n : Z) (own : Z → list Z) (db dp : Z) : Prop :=
  db = last_block (own d) ∧
  ((size f0 + n) mod BLOCK_SIZE ≠ 0 ∨ size f0 + n = 0 → dp = (size f0 + n) mod BLOCK_SIZE).

Hypothesis Hreg : regular f0.
Hypothesis Hf0 : 0 ≤ size f0.

Lemma append_facts n s free own :
  appending n s free own → 0 ≤ n →
  ∃ f, zlookup (dir s) d = Some f ∧ file_blocks (fat s) f (own d) ∧ size f = size f0 + n ∧
    regular f ∧ f = with_size (size f0 + n) (with_n_blocks (n_blocks f) f0) ∧
    0 ≤ d < MAX_FILES ∧ size f0 + n ≤ BLOCK_SIZE * MAX_BLOCKS.
Proof using Hreg Hf0.
  intros Ha Hn. destruct (ap_file _ _ _ _ Ha) as [nb Hf]. eexists. split; [done|].
  pose proof (fo_file _ _ _ (ap_ok _ _ _ _ Ha) _ _ Hf Hreg) as Hb.
  pose proof (zlookup_Some_range _ _ _ Hf) as Hd. rewrite (fo_dir _ _ _ (ap_ok _ _ _ _ Ha)) in Hd.
  split_and!; try done; try lia. destruct Hb as [Hc _ _ [Hfit _]]. simpl in Hfit.
  pose proof (chain_length _ _ _ Hc). unfold BLOCK_SIZE in *. lia.
Qed.
(** The file gets the blocks [l'], which extend those it has. *)
Record extended (s : fs_state) (free l : list Z) (f : file) (s2 : fs_state) (free' l' : list Z)
  (f2 : file) : Prop := {
  ex_len : zlen (fat s2) = zlen (fat s);
  ex_dir : dir s2 = zinsert d f2 (dir s);
  ex_disk : disk s2 = disk s;
  ex_fdt : fdt s2 = fdt s;
  ex_fat : ∀ x, x ∉ l → x ∉ free → zlookup (fat s2) x = zlookup (fat s) x;
  ex_free : chain (fat s2) (ffb s2) free';
  ex_chain : chain (fat s2) (first_block f) l';
  ex_perm : free' ++ l' ≡ₚ free ++ l;
  ex_same : ∀ i, 0 ≤ i < zlen l → nth_block l' i = nth_block l i;
  ex_file : f2 = with_n_blocks (zlen l') f;
  ex_more : zlen l ≤ zlen l';
}.

Lemma extended_refl s free own f :
  fs_ok s free own → zlookup (dir s) d = Some f → regular f →
  extended s free (own d) f s free (own d) f.
Proof using.
  intros Hok Hf Hr. destruct (fo_file _ _ _ Hok _ _ Hf Hr) as [Hc _ Hn _].
  split; try done; [by rewrite zinsert_id|apply Hok|]. rewrite <-Hn. by destruct f.
Qed.

(** The next byte is stored at the end of the chain. *)
Section Stored.
Context (n : Z) (s : fs_state) (free : list Z) (own : Z → list Z) (s2 : fs_state) (free' l' : list Z) (f f2 : file)
  (p : Z) (row : list Z) (c : Z).
Context (Ha : appending n s free own) (Hn : 0 ≤ n) (Hf : zlookup (dir s) d = Some f) (Hsz : size f = size f0 + n).
Context (Hext : extended s free (own d) f s2 free' l' f2).
Context (Ef : f = with_size (size f0 + n) (with_n_blocks (n_blocks f) f0)) (Hne : l' ≠ []).
Context (Hpos : (size f0 + n) / BLOCK_SIZE = zlen l' - 1) (Hp : p = (size f0 + n) mod BLOCK_SIZE).
Context (Hrow : zlookup (disk s2) (last_block l') = Some row) (Hc : c = src n).
Abbreviation after := (stored o d (last_block l') p c row f2 (with_offset (size f0 + n) v0) s2).

Lemma stored_byte l j :
  file_byte (disk after) l j =
  if decide (nth_block l (j / BLOCK_SIZE) = last_block l' ∧ j mod BLOCK_SIZE = p) then Some c else file_byte (disk s) l j.
Proof using All.
  pose proof (ex_disk _ _ _ _ _ _ _ _ Hext) as Edk. pose proof (block_bounds (size f0 + n) ltac:(lia)) as (_ & Hm & _).
  simpl. rewrite Edk in Hrow |- *. apply file_byte_store; [done|].
  by rewrite (fo_rows _ _ _ (ap_ok _ _ _ _ Ha) _ _ Hrow), Hp.
Qed.

Lemma stored_old j : 0 ≤ j < size f0 + n → file_byte (disk after) l' j = file_byte (disk s) (own d) j.
Proof using All.
  intros Hj. assert (regular f) as Hrf by by rewrite Ef.
  destruct (fo_file _ _ _ (ap_ok _ _ _ _ Ha) _ _ Hf Hrf) as [_ _ _ [Hfit _]].
  pose proof (zlen_pos _ Hne) as Hl'. pose proof (ex_more _ _ _ _ _ _ _ _ Hext) as Hmore.
  pose proof (block_bounds j ltac:(lia)) as (Hqj & Hmj & Hzj). pose proof (block_bounds (size f0 + n) ltac:(lia)) as (_ & Hm & Hz).
  assert (j / BLOCK_SIZE < zlen (own d)) by (rewrite Hsz in Hfit; unfold BLOCK_SIZE in *; lia).
  rewrite stored_byte, decide_False.
  - unfold file_byte. by rewrite (ex_same _ _ _ _ _ _ _ _ Hext) by lia.
  - rewrite Hp. intros [E Em]. apply (chain_inj _ _ _ (ex_chain _ _ _ _ _ _ _ _ Hext)) in E; [|lia|lia]. unfold BLOCK_SIZE in *. lia.
Qed.

Lemma stored_other i j : i ≠ d → file_byte (disk after) (own i) j = file_byte (disk s) (own i) j.
Proof using All.
  intros Hi. pose proof (ap_ok _ _ _ _ Ha) as Hok. pose proof (ex_chain _ _ _ _ _ _ _ _ Hext) as Ech.
  rewrite stored_byte, decide_False; [done|]. intros [E _].
  pose proof (last_block_elem _ Hne) as Hin. pose proof (ch_range _ _ _ Ech _ Hin) as Hrange.
  assert (last_block l' ∈ own i) as Hin'.
  { rewrite <-E. apply nth_block_elem. unfold nth_block in E.
    destruct (zlookup (own i) (j / BLOCK_SIZE)) eqn:El2; [by eapply zlookup_Some_range|].
    simpl in E. lia. }
  assert (last_block l' ∈ free ++ own d) as [Hin2|Hin2]%elem_of_app.
  { rewrite <-(ex_perm _ _ _ _ _ _ _ _ Hext). apply elem_of_app. by right. }
  - by apply (fo_free_own _ _ _ Hok i _ Hin').
  - by apply Hi, (fo_own _ _ _ Hok _ _ _ Hin' Hin2).
Qed.

Lemma stored_ok : fs_ok after free' (<[d := l']> own).
Proof using All.
  pose proof (ap_ok _ _ _ _ Ha) as Hok. assert (regular f) as Hrf by by rewrite Ef.
  pose proof (zlookup_Some_range _ _ _ Hrow) as Hrr. pose proof (zlen_pos _ Hne) as Hl'.
  pose proof (zlookup_Some_range _ _ _ Hf) as Hdr. rewrite (fo_dir _ _ _ Hok) in Hdr.
  pose proof (block_bounds (size f0 + n) ltac:(lia)) as (Hq & Hm & Hz).
  destruct Hext as [El Ed Edk Efd Efat Efree Ech Eperm Esame Efile Emore].
  assert (dir after = zinsert d (with_size (size f2 + 1) f2) (dir s)) as Edir.
  { simpl. by rewrite Ed, zinsert_zinsert_eq. }
  eapply fs_ok_change; [done|done|]. split; try done.
  - simpl. rewrite zlen_zinsert, Edk. apply Hok.
  - intros b r. simpl. rewrite zlookup_zinsert by eauto with arrays. case_decide.
    + intros [= <-]. rewrite zlen_zinsert. rewrite Edk in Hrow. by eapply (fo_rows _ _ _ Hok).
    + rewrite Edk. apply Hok.
  - rewrite Efile. simpl. by apply (fo_names _ _ _ Hok d).
  - intros _. rewrite Efile. split; simpl; [exact Ech|done|done|].
    rewrite Hsz. unfold fits. unfold BLOCK_SIZE in *. lia.
  - intros Hn'. exfalso. apply Hn'. by rewrite Efile.
  - rewrite Efile. simpl. intros Hrefs. exact (fo_unused _ _ _ Hok d f Hf Hrefs).
Qed.

Lemma append_stored : appending (n + 1) after free' (<[d := l']> own).
Proof using All.
  pose proof (ap_ok _ _ _ _ Ha) as Hok. pose proof (zlookup_Some_range _ _ _ Hf) as Hdr. rewrite (fo_dir _ _ _ Hok) in Hdr.
  assert (dir after = zinsert d (with_size (size f2 + 1) f2) (dir s)) as Edir.
  { simpl. by rewrite (ex_dir _ _ _ _ _ _ _ _ Hext), zinsert_zinsert_eq. }
  pose proof (ex_fdt _ _ _ _ _ _ _ _ Hext) as Efd. pose proof (ex_file _ _ _ _ _ _ _ _ Hext) as Efile.
  split.
  - exact stored_ok.
  - exists (zlen l'). rewrite Edir, zlookup_zinsert_eq by (rewrite (fo_dir _ _ _ Hok); lia).
    f_equal. rewrite Efile, Ef. unfold with_size, with_n_blocks. simpl. f_equal. lia.
  - simpl. rewrite Efd, zlookup_zinsert_eq by (pose proof (ap_open _ _ _ _ Ha); eauto with arrays).
    f_equal. rewrite Efile. unfold with_offset. simpl. f_equal. lia.
  - intros j Hj. rewrite fn_lookup_insert, stored_old by lia. by apply (ap_old _ _ _ _ Ha).
  - intros j Hj. rewrite fn_lookup_insert. destruct (decide (j = n)) as [->|].
    + rewrite stored_byte, decide_True; [by rewrite Hc|]. split; [|done]. rewrite Hpos. done.
    + rewrite stored_old by lia. apply (ap_new _ _ _ _ Ha). lia.
  - intros i Hi. rewrite fn_lookup_insert_ne by done. by apply (ap_own _ _ _ _ Ha).
  - intros i j Hi. rewrite fn_lookup_insert_ne, stored_other by done. by apply (ap_other _ _ _ _ Ha).
  - intros i Hi. rewrite Edir, zlookup_zinsert_ne by done. by apply (ap_dir _ _ _ _ Ha).
  - intros i Hi. simpl. rewrite Efd, zlookup_zinsert_ne by done. by apply (ap_fdt _ _ _ _ Ha).
Qed.
End Stored.

(** A full file gets the first free block. *)
Definition grown (b b' : Z) (free : list Z) (f : file) (s : fs_state) : fs_state :=
  let s1 := take_blocks free 1 s in
  set_dir (zinsert d (with_n_blocks (s32 (n_blocks f + 1)) f) (dir s))
    (set_fat (zinsert b' (-1) (zinsert b b' (fat s1))) s1).

Lemma extended_grown s b' free' own f :
  fs_ok s (b' :: free') own → zlookup (dir s) d = Some f → regular f →
  let l' := own d ++ [b'] in
  extended s (b' :: free') (own d) f (grown (last_block (own d)) b' (b' :: free') f s) free' l'
    (with_n_blocks (zlen l') f) ∧
  zlen (own d) + 1 = zlen l' ∧ last_block l' = b' ∧ l' ≠ [].
Proof using.
  clear Hreg Hf0 src own0 o f0 v0 k s0.
  intros Hok Hf Hr l'. destruct (fo_file _ _ _ Hok _ _ Hf Hr) as [Hc Hne Hn Hfit].
  pose proof (zlen_pos _ Hne) as Hpos. pose proof (last_block_elem _ Hne) as Hlast.
  pose proof (fo_free _ _ _ Hok) as Hfree.
  assert (∀ x, x ∈ own d → x ∉ b' :: free') as Hdisj by (intros x; by apply (fo_free_own _ _ _ Hok d)).
  assert (zlen l' = zlen (own d) + 1) as Hl' by (unfold l'; rewrite zlen_app; done).
  pose proof (chain_length _ _ _ Hc) as H80.
  destruct (chain_cut _ _ _ 1 Hfree (fo_fat _ _ _ Hok)) as [Hb Htail]; [unfold zlen; simpl; lia|].
  change (nth_block (b' :: free') (1 - 1)) with b' in *.
  change (take (Z.to_nat 1) (b' :: free')) with [b'] in Hb.
  change (drop (Z.to_nat 1) (b' :: free')) with free' in Htail.
  assert (0 ≤ b' < MAX_BLOCKS) as Hb' by (apply (ch_range _ _ _ Hfree); set_solver).
  assert (last_block (own d) ≠ b') as Hlb by (intros E; apply (Hdisj _ Hlast); rewrite E; set_solver).
  assert (b' ∉ free') as Hb'f by (pose proof (ch_nodup _ _ _ Hfree) as [? _]%NoDup_cons; done).
  assert (ffb s = b') as Effb by (by rewrite <-(ch_head _ _ _ Hfree)).
  assert (∀ x, zlookup (fat (grown (last_block (own d)) b' (b' :: free') f s)) x =
    zlookup (zinsert (last_block (own d)) b' (zinsert b' (-1) (fat s))) x) as Efat.
  { intros x. simpl. change (nth_block (b' :: free') (1 - 1)) with b'.
    pose proof (ch_range _ _ _ Hc _ Hlast). pose proof (fo_fat _ _ _ Hok).
    rewrite !zlookup_zinsert by (rewrite ?zlen_zinsert; lia). repeat case_decide; congruence. }
  assert (chain (zinsert (last_block (own d)) b' (zinsert b' (-1) (fat s))) (first_block f) l') as Hjoin.
  { apply chain_join; [| |by rewrite zlen_zinsert; apply Hok|done|].
    - apply chain_frame_insert; [done|]. intros Hin. apply (Hdisj _ Hin). set_solver.
    - by rewrite Effb in Hb.
    - intros x Hx ->%list_elem_of_singleton. apply (Hdisj _ Hx). set_solver. }
  split; [|split; [lia|split; [|by destruct (own d)]]].
  2: { unfold last_block, l'. rewrite nth_block_app, zlen_app, decide_False by (unfold zlen; simpl; lia).
       replace (zlen (own d) + zlen [b'] - 1 - zlen (own d)) with 0 by (unfold zlen; simpl; lia). done. }
  split.
  - simpl. by rewrite !zlen_zinsert.
  - simpl. unfold grown. simpl. rewrite Hn, Hl'. rewrite s32_small; [done|].
    unfold INT_MIN, INT_MAX, MAX_BLOCKS in *. lia.
  - done.
  - done.
  - intros x Hx Hxf. rewrite Efat, !zlookup_zinsert_ne; [done|set_solver|].
    intros <-. done.
  - eapply (chain_frame _ _ _ Htail). intros x Hx. rewrite Efat, zlookup_zinsert_ne; [done|].
    intros <-. apply (Hdisj _ Hlast). set_solver.
  - eapply chain_frame; [exact Hjoin|]. intros x _. apply Efat.
  - unfold l'. rewrite app_assoc, Permutation_app_comm. simpl. done.
  - intros i Hi. unfold l'. by rewrite nth_block_app, decide_True by lia.
  - done.
  - lia.
Qed.

(** One iteration of the write loop: the next byte is stored, on the last block
    or on a new one, unless the file is full and no block is free. *)
Definition no_space (n : Z) (free : list Z) : Prop :=
  (size f0 + n) mod BLOCK_SIZE = 0 ∧ size f0 + n ≠ 0 ∧ free = [].

Lemma at_end_next n own' db dp :
  0 ≤ size f0 + n → dp = (size f0 + n) mod BLOCK_SIZE → db = last_block (own' d) →
  at_end (n + 1) own' db (dp + 1).
Proof using.
  intros Hz -> ->. split; [done|]. unfold BLOCK_SIZE. pose proof (Z.div_mod (size f0 + n) 256).
  pose proof (Z.mod_pos_bound (size f0 + n) 256). pose proof (Z.div_mod (size f0 + (n + 1)) 256).
  pose proof (Z.mod_pos_bound (size f0 + (n + 1)) 256). intros [?|?]; lia.
Qed.

Definition step_post (n : Z) (s : fs_state) (free : list Z) (r : Z * Z * Z + Z) (k' : kstate) : Prop :=
  match r with
  | inl (i, db, dp) => i = n + 1 ∧ ∃ s' free' own',
      k' = set_fs s' k ∧ appending (n + 1) s' free' own' ∧ at_end (n + 1) own' db dp
  | inr r => r = - ENOSPC ∧ k' = set_fs s k ∧ no_space n free
  end.

Lemma wp_write_last rd n s free own s2 free' l' f f2 p X :
  appending n s free own → 0 ≤ n → zlookup (dir s) d = Some f → size f = size f0 + n →
  extended s free (own d) f s2 free' l' f2 →
  f = with_size (size f0 + n) (with_n_blocks (n_blocks f) f0) → l' ≠ [] →
  (size f0 + n) / BLOCK_SIZE = zlen l' - 1 → p = (size f0 + n) mod BLOCK_SIZE →
  (∀ s' (Q' : Z → kstate → Prop), Q' (src n) (set_fs s' k) → wp (rd (n + 0)) (set_fs s' k) Q' X) →
  wp (let! r := copy_from_user (λ j, rd (n + j)) (λ j x, zoom FS (disk_set (last_block l') (p + j) x)) 1 in
      if bool_decide (r ≠ 0) then ret (inr (- EFAULT)) else
      advance o d;; ret (inl (n + 1, last_block l', p + 1))) (set_fs s2 k)
    (step_post n s free) X.
Proof using Hreg Hf0.
  intros Ha Hn Hf Hsz Hex Ef Hne Hpos Hp Hrd. pose proof Hex as [_ Ed Edk Efd _ _ Ech _ _ Efile _].
  pose proof (ap_ok _ _ _ _ Ha) as Hok. pose proof (last_block_elem _ Hne) as Hin.
  pose proof (ch_range _ _ _ Ech _ Hin) as Hrange.
  destruct (append_facts _ _ _ _ Ha Hn) as (f' & Hf' & _ & _ & _ & _ & Hd & Hmax).
  destruct (zlookup_range (disk s2) (last_block l')) as [row Hrow]; [by rewrite Edk, (fo_disk _ _ _ Hok)|].
  assert (zlen row = BLOCK_SIZE) as Hrl by (rewrite Edk in Hrow; by eapply (fo_rows _ _ _ Hok)).
  pose proof (block_bounds (size f0 + n) ltac:(lia)) as (Hq & Hm & Hz).
  assert (size f2 = size f0 + n) as Hs2 by by rewrite Efile.
  apply (wp_store_byte_tail _ _ _ _ _ _ (src n) row f2 (with_offset (size f0 + n) v0)); try done.
  - by rewrite Hrl, Hp.
  - rewrite Ed. apply zlookup_zinsert_eq. by rewrite (fo_dir _ _ _ Hok).
  - rewrite Efd. apply (ap_open _ _ _ _ Ha).
  - rewrite Hs2. unfold BLOCK_SIZE, MAX_BLOCKS, INT_MAX in *. lia.
  - apply wp_ret. split; [done|]. eexists _, free', (<[d := l']> own). split; [done|]. split.
    + by eapply (append_stored n s free own s2 free' l' f f2).
    + apply at_end_next; [lia|done|]. by rewrite fn_lookup_insert.
Qed.

Lemma wp_write_step rd n s free own db dp X :
  appending n s free own → 0 ≤ n → at_end n own db dp →
  (∀ s' (Q' : Z → kstate → Prop), Q' (src n) (set_fs s' k) → wp (rd (n + 0)) (set_fs s' k) Q' X) →
  wp (write_file_step FS rd o d (n, db, dp)) (set_fs s k) (step_post n s free) X.
Proof using Hreg Hf0.
  intros Ha Hn [-> Hdp] Hrd. pose proof (ap_ok _ _ _ _ Ha) as Hok.
  destruct (append_facts _ _ _ _ Ha Hn) as (f & Hf & Hb & Hsz & Hrf & Ef & Hd & Hmax).
  pose proof Hb as [Hc Hne Hnb Hfit]. pose proof (zlen_pos _ Hne) as Hpos.
  unfold write_file_step. apply wp_bind, wp_zoom. eapply wp_aget; [exact Hf|].
  rewrite Z.rem_mod_nonneg by (unfold BLOCK_SIZE; lia). rewrite Hsz in *.
  destruct (decide ((size f0 + n) mod BLOCK_SIZE = 0 ∧ size f0 + n ≠ 0)) as [[Hm Hz]|Hin].
  - rewrite !bool_decide_true by done. cbn [andb]. apply wp_bind, wp_bind, wp_zoom.
    apply (wp_balloc _ _ (fo_free _ _ _ Hok) (fo_fat _ _ _ Hok)).
    + intros [_ Hf1]. destruct free as [|b' free']; [by unfold zlen in Hf1; simpl in Hf1; lia|].
      change (nth_block (b' :: free') 0) with b'.
      destruct (extended_grown _ _ _ _ _ Hok Hf Hrf) as (Hex & Hlen & Hlast & Hne').
      assert (0 ≤ b' < MAX_BLOCKS) as Hb' by (apply (ch_range _ _ _ (fo_free _ _ _ Hok)); set_solver).
      rewrite bool_decide_false by lia.
      apply wp_bind, wp_zoom. unfold add_block. apply wp_bind.
      apply wp_aset; [simpl; rewrite zlen_zinsert, (fo_fat _ _ _ Hok); apply (ch_range _ _ _ Hc), last_block_elem, Hne|].
      apply wp_aset; [simpl; rewrite !zlen_zinsert, (fo_fat _ _ _ Hok); done|].
      apply wp_bind, wp_zoom. eapply wp_dir_set; [exact Hf|].
      apply wp_ret. cbv beta iota.
      match goal with |- wp ?m ?st ?Q ?Y =>
        change (wp m (set_fs (grown (last_block (own d)) b' (b' :: free') f s) k) Q Y) end.
      pose proof (fits_full _ _ Hfit Hm Hz) as Hfull.
      pose proof (wp_write_last rd n _ _ _ _ _ _ f _ 0 X Ha Hn Hf Hsz Hex Ef Hne') as HW.
      rewrite Hlast in HW. apply HW; [|by rewrite Hm|done].
      rewrite Hfull, Z.mul_comm, Z.div_mul by done. lia.
    + intros Hno. rewrite bool_decide_true by done. apply wp_ret, wp_ret. split; [done|].
      split; [done|]. split_and!; try done. destruct free; [done|]. exfalso. apply Hno.
      unfold zlen. simpl. lia.
  - assert (bool_decide ((size f0 + n) mod BLOCK_SIZE = 0) && bool_decide (size f0 + n ≠ 0) = false) as ->.
    { apply andb_false_iff. destruct (decide ((size f0 + n) mod BLOCK_SIZE = 0)).
      - right. apply bool_decide_false. tauto.
      - left. by apply bool_decide_false. }
    apply wp_bind, wp_ret. cbv beta iota.
    assert ((size f0 + n) mod BLOCK_SIZE ≠ 0 ∨ size f0 + n = 0) as Hroom.
    { destruct (decide ((size f0 + n) mod BLOCK_SIZE = 0)); [right; apply dec_stable; tauto|by left]. }
    pose proof (extended_refl s free own f Hok Hf Hrf) as Hex.
    apply (wp_write_last rd n _ _ _ _ _ _ f _ dp X Ha Hn Hf Hsz Hex Ef Hne); [|by apply Hdp|done].
    by apply fits_position; [|lia|].
Qed.

(** The whole loop. *)
Inductive write_post (cnt : Z) : Z → kstate → Prop :=
| write_done s free own : appending cnt s free own → write_post cnt cnt (set_fs s k)
| write_no_space n s own : 0 ≤ n < cnt → appending n s [] own → no_space n [] →
    write_post cnt (- ENOSPC) (set_fs s k).

Lemma wp_write_file rd free cnt (Q : Z → kstate → Prop) X :
  0 ≤ cnt → fs_ok s0 free own0 → fs k = s0 →
  zlookup (dir s0) d = Some f0 → zlookup (fdt s0) o = Some v0 → offset v0 = size f0 →
  (∀ n s' (Q' : Z → kstate → Prop), 0 ≤ n < cnt → Q' (src n) (set_fs s' k) →
     wp (rd (n + 0)) (set_fs s' k) Q' X) →
  (∀ r k', write_post cnt r k' → Q r k') →
  wp (write_file FS rd o d cnt) k Q X.
Proof using Hreg Hf0.
  intros Hcnt Hok Hk Hf Hv Hoff Hrd HQ. pose proof (fo_file _ _ _ Hok _ _ Hf Hreg) as [Hc Hne Hnb Hfit].
  assert (appending 0 s0 free own0) as H0.
  { split; try done; try lia.
    - exists (n_blocks f0). rewrite Hf, Z.add_0_r. by destruct f0.
    - rewrite Hv, Z.add_0_r, <-Hoff. by destruct v0. }
  unfold write_file. apply wp_bind, wp_zoom. eapply wp_aget; [simpl; rewrite Hk; exact Hv|].
  apply wp_bind, wp_zoom. eapply wp_aget; [simpl; rewrite Hk; exact Hf|].
  apply wp_bind, wp_zoom. eapply wp_chain_end; [simpl; rewrite Hk; exact Hc|done|].
  rewrite Hoff, Z.rem_mod_nonneg by (unfold BLOCK_SIZE; lia).
  eapply (wp_loop_variant (λ m '(i, db, dp) k', m = cnt - i ∧ 0 ≤ i ≤ cnt ∧ ∃ s free own,
    k' = set_fs s k ∧ appending i s free own ∧ at_end i own db dp) cnt); [|lia|].
  - split; [lia|]. split; [lia|]. exists s0, free, own0. split; [|split; [done|split; [done|]]].
    + rewrite <-Hk. by destruct k.
    + by rewrite Z.add_0_r.
  - intros m [[i db] dp] k' (-> & Hi & s & fr & own & -> & Ha & Hend). split; [lia|].
    case_bool_decide as Hlt.
    + eapply wp_mono; [apply (wp_write_step rd i s fr own); [done|lia|done|]| |done].
      { intros s' Q'. apply Hrd. lia. }
      intros [[[i' db'] dp']|r] k'.
      * intros (-> & s' & fr' & own' & -> & Ha' & Hend'). exists (cnt - (i + 1)). split; [lia|].
        split; [lia|]. split; [lia|]. by exists s', fr', own'.
      * intros (-> & -> & Hno). apply HQ. pose proof Hno as (_ & _ & ->). eapply (write_no_space _ i); [lia|done|done].
    + apply wp_ret, HQ. replace i with cnt in * by lia. by eapply write_done.
Qed.
End Append.
