(* ===== verification/ReadFacts.v ===== *)
(** * Regular files: reading. *)
From S2P Require Import Prelude Mm Utils Fs KState Devices Sys FsFacts.
From S2P Require Import FsOps FileFacts WriteFacts.

(** The number of bytes a read of [sz] bytes at [off] returns: it stops at the
    end of the file, and also, at the end of a block, where the offset happens
    to be the size requested. *)
Definition read_count (off sz size : Z) : Z :=
  if bool_decide (0 < off < sz ∧ sz mod BLOCK_SIZE = 0 ∧ sz < size) then sz - off
  else Z.min sz (size - off).

Lemma div_block q r : 0 ≤ r < BLOCK_SIZE → (BLOCK_SIZE * q + r) / BLOCK_SIZE = q ∧ (BLOCK_SIZE * q + r) mod BLOCK_SIZE = r.
Proof.
  unfold BLOCK_SIZE. intros. split; [symmetry; by eapply Z.div_unique_pos|symmetry; by eapply Z.mod_unique_pos].
Qed.

Section Read.
Context (k : kstate) (free : list Z) (own : Z → list Z) (d o : Z) (f : file) (v : virtual).
Context (buffer sz : Z) (pd : Z → Z).
Hypothesis Hok : fs_ok (fs k) free own.
Hypothesis Hf : zlookup (dir (fs k)) d = Some f.
Hypothesis Hreg : regular f.
Hypothesis Hv : zlookup (fdt (fs k)) o = Some v.
Hypothesis Hoff : 0 ≤ offset v ≤ size f.
Hypothesis Hpd : ∀ i, 0 ≤ i < sz → phys_of (mm k) (buffer + i) = Some (pd i).
Hypothesis Hinj : ∀ i j, 0 ≤ i < sz → 0 ≤ j < sz → pd i = pd j → i = j.

(** [i] bytes were read: they are in the buffer, and only they. *)
Definition reading (i : Z) (k' : kstate) : Prop := ∃ r,
  k' = set_mm (set_ram r (mm k))
         (set_fs (set_fdt (zinsert o (with_offset (offset v + i) v) (fdt (fs k))) (fs k)) k) ∧
  (∀ j, 0 ≤ j < i → file_byte (disk (fs k)) (own d) (offset v + j) = Some (ram_byte (mm k') (pd j))) ∧
  (∀ pa, (∀ j, 0 ≤ j < i → pa ≠ pd j) → ram_byte (mm k') pa = ram_byte (mm k) pa).

Lemma wp_fs_aget {A} (l : lens fs_state (list A)) j a k' (Q : A → kstate → Prop) X :
  zlookup (view l (fs k')) j = Some a → Q a k' → wp (zoom FS (aget l j)) k' Q X.
Proof using. intros ? ?. apply wp_zoom_read; [apply _|]. by eapply wp_aget. Qed.

Lemma wp_read_walk (Q : Z * Z → kstate → Prop) X :
  let q := offset v / BLOCK_SIZE in
  Q (q, nth_block (own d) q) k →
  wp (loop (Datatypes.S (Z.to_nat q)) (λ '(i, b),
      if bool_decide (i < q) then let! n := zoom FS (aget Fat b) in ret (inl (i + 1, n))
      else ret (inr (i, b))) (0, first_block f)) k Q X.
Proof using Hok Hf Hreg Hoff.
  intros q HQ. destruct (fo_file _ _ _ Hok _ _ Hf Hreg) as [Hc Hne Hn [Hfit _]].
  destruct (block_bounds (offset v)) as (Hq & Hm & Hz); [lia|].
  assert (q ≤ zlen (own d)) by (unfold q, BLOCK_SIZE in *; lia).
  eapply (wp_loop_variant (λ m '(i, b) k', k' = k ∧ m = q - i ∧ 0 ≤ i ≤ q ∧ b = nth_block (own d) i) q);
    [|lia|].
  - split_and!; [done|lia|lia|unfold q; lia|]. by rewrite (ch_head _ _ _ Hc).
  - intros m [i b] k' (-> & -> & Hi & ->). split; [lia|]. case_bool_decide as Hlt.
    + apply wp_bind. eapply wp_fs_aget; [apply (ch_next _ _ _ Hc); lia|]. apply wp_ret.
      exists (q - (i + 1)). split_and!; done || lia.
    + apply wp_ret. by replace i with q by lia.
Qed.

(** Where the next byte is: at [byte0] of the block [block0], which is number
    [q] of the file. *)
Definition at_byte (i block0 byte0 : Z) : Prop := ∃ q,
  offset v + i = BLOCK_SIZE * q + byte0 ∧ 0 ≤ q ∧ 0 ≤ byte0 ≤ BLOCK_SIZE ∧
  block0 = nth_block (own d) q ∧ (byte0 = 0 → i = 0) ∧ (byte0 = BLOCK_SIZE → 0 < i).

Lemma reading_lookup i k' :
  reading i k' → zlookup (fdt (fs k')) o = Some (with_offset (offset v + i) v) ∧
    dir (fs k') = dir (fs k) ∧ fat (fs k') = fat (fs k) ∧ disk (fs k') = disk (fs k).
Proof using Hv. intros (r & -> & _). split_and!; [|done..]. simpl. apply zlookup_zinsert_eq. eauto with arrays. Qed.

Lemma read_byte i : 0 ≤ i → offset v + i < size f →
  ∃ row c, zlookup (disk (fs k)) (nth_block (own d) ((offset v + i) / BLOCK_SIZE)) = Some row ∧
    zlookup row ((offset v + i) mod BLOCK_SIZE) = Some c ∧
    file_byte (disk (fs k)) (own d) (offset v + i) = Some c.
Proof using Hok Hf Hreg Hoff.
  intros Hi Hlt. destruct (fo_file _ _ _ Hok _ _ Hf Hreg) as [Hc Hne Hn [Hfit _]].
  destruct (block_bounds (offset v + i)) as (Hq & Hm & Hz); [lia|].
  assert ((offset v + i) / BLOCK_SIZE < zlen (own d)) by (unfold BLOCK_SIZE in *; lia).
  pose proof (chain_inside _ _ _ Hc ((offset v + i) / BLOCK_SIZE) ltac:(lia)) as Hin.
  destruct (zlookup_range (disk (fs k)) (nth_block (own d) ((offset v + i) / BLOCK_SIZE))) as [row Hrow].
  { by rewrite (fo_disk _ _ _ Hok). }
  destruct (zlookup_range row ((offset v + i) mod BLOCK_SIZE)) as [c Hc'].
  { by rewrite (fo_rows _ _ _ Hok _ _ Hrow). }
  exists row, c. split_and!; [done..|]. unfold file_byte. by rewrite Hrow.
Qed.

Lemma reading_step i k' c (Q : unit → kstate → Prop) X :
  reading i k' → 0 ≤ i < sz → file_byte (disk (fs k)) (own d) (offset v + i) = Some c →
  (∀ k'', reading (i + 1) k'' → Q () k'') →
  wp (ustore (buffer + i) c;; zoom FS (fdt_set with_offset o (offset v + i + 1))) k' Q X.
Proof using Hv Hpd Hinj.
  intros (r & -> & Hd & Hu) Hi Hc HQ. apply wp_bind, wp_zoom.
  eapply wp_store_byte; [apply (Hpd i Hi)|].
  apply wp_zoom. eapply (wp_fdt_set _ o _ (with_offset (offset v + i) v)).
  { simpl. apply zlookup_zinsert_eq. eauto with arrays. }
  apply HQ. exists (<[pd i := c]> r). split; [|split].
  - simpl. rewrite zinsert_zinsert_eq, Z.add_assoc. done.
  - intros j Hj.
    assert (∀ x, x = ram_byte (set_ram (<[pd i := c]> r) (set_ram r (mm k))) (pd j) →
      file_byte (disk (fs k)) (own d) (offset v + j) = Some x) as H; [|by apply H].
    intros x ->. rewrite (ram_byte_insert (set_ram r (mm k))). case_decide as E.
    + apply Hinj in E; [|lia..]. by rewrite <-E.
    + apply Hd. destruct (decide (j = i)) as [->|]; [done|lia].
  - intros pa Hpa. etrans; [apply (ram_byte_insert (set_ram r (mm k)))|].
    rewrite decide_False by (intros <-; apply (Hpa i); [lia|done]).
    apply Hu. intros j Hj. apply Hpa. lia.
Qed.

(** What an iteration leaves. *)
Definition read_step_post (i : Z) (k' : kstate) (r : Z * Z * Z + Z) (k'' : kstate) : Prop :=
  match r with
  | inl (i', block0, byte0) => i' = i + 1 ∧ reading (i + 1) k'' ∧ at_byte (i + 1) block0 byte0 ∧
      i + 1 ≤ read_count (offset v) sz (size f)
  | inr i' => i' = i ∧ k'' = k' ∧ i = read_count (offset v) sz (size f)
  end.

Lemma wp_read_byte i q byte0 k' X :
  reading i k' → offset v + i = BLOCK_SIZE * q + byte0 → 0 ≤ byte0 < BLOCK_SIZE →
  i < read_count (offset v) sz (size f) → 0 ≤ i → i < sz → offset v + i < size f → size f ≤ INT_MAX →
  wp (let! c := zoom FS (disk_get (nth_block (own d) q) byte0) in
      ustore (buffer + i) c;;
      zoom FS (fdt_set with_offset o (s32 (offset v + i + 1)));;
      ret (inl (i + 1, nth_block (own d) q, byte0 + 1))) k' (read_step_post i k') X.
Proof using All.
  intros Hr Hz Hb Hcnt Hi Hlt Hsz Hmax.
  destruct (reading_lookup _ _ Hr) as (Ho & Hdir & Hfat & Hdisk).
  destruct (read_byte i) as (row & c & Hrow & Hcell & Hc'); [lia..|].
  destruct (div_block q byte0 Hb) as [E1 E2]. rewrite Hz, E1, E2 in *.
  apply wp_bind, wp_zoom_read; [apply _|]. unfold disk_get. apply wp_bind.
  eapply wp_aget; [simpl; rewrite Hdisk; exact Hrow|]. eapply wp_of_option; [exact Hcell|].
  split; [done|]. apply wp_bind_assoc, wp_bind.
  rewrite s32_small by (unfold INT_MIN; lia). rewrite <-Hz in *.
  eapply (reading_step i _ c); [done|done|done|]. intros k'' Hr'. apply wp_ret.
  split; [done|]. split; [done|]. split; [|lia].
  exists q. unfold BLOCK_SIZE in *. split_and!; [lia..|done|lia|lia].
Qed.

Lemma wp_read_step i block0 byte0 k' X :
  reading i k' → at_byte i block0 byte0 → 0 ≤ i ≤ read_count (offset v) sz (size f) →
  i < sz → offset v + i < size f → size f ≤ INT_MAX →
  wp (read_file_step FS (λ i b, ustore (buffer + i) b) o d sz (i, block0, byte0)) k'
    (read_step_post i k') X.
Proof using All.
  intros Hr (q & Hz & Hq & Hb & -> & Hb0 & Hb1) Hi Hlt Hsz Hmax.
  destruct (fo_file _ _ _ Hok _ _ Hf Hreg) as [Hc Hne Hn [Hfit _]].
  destruct (reading_lookup _ _ Hr) as (Ho & Hdir & Hfat & Hdisk).
  unfold read_file_step. apply wp_bind, wp_fs_aget with (a := with_offset (offset v + i) v); [exact Ho|].
  change (offset (with_offset (offset v + i) v)) with (offset v + i).
  rewrite Z.rem_mod_nonneg by (unfold BLOCK_SIZE in *; lia).
  assert (0 < i → 0 < byte0) as Hpos by (intros; destruct (decide (byte0 = 0)) as [E|]; [specialize (Hb0 E)|]; lia).
  destruct (decide (byte0 = BLOCK_SIZE)) as [->|Hnb].
  - rewrite !bool_decide_true by done. cbn [andb].
    destruct (decide (offset v + i = sz)) as [Hstop|Hgo].
    + rewrite bool_decide_true by done. apply wp_bind, wp_ret, wp_ret. split_and!; [done..|].
      unfold read_count. rewrite bool_decide_true; [lia|]. split; [lia|]. split; [|lia].
      rewrite <-Hstop, Hz. replace (BLOCK_SIZE * q + BLOCK_SIZE) with ((q + 1) * BLOCK_SIZE) by lia.
      by apply Z.mod_mul.
    + rewrite bool_decide_false by done. unfold BLOCK_SIZE in Hz, Hfit.
      assert (q + 1 < zlen (own d)) as Hq1 by lia.
      apply wp_bind, wp_bind, wp_fs_aget with (a := nth_block (own d) (q + 1)).
      { simpl. rewrite Hfat. apply (ch_next _ _ _ Hc). lia. }
      pose proof (chain_inside _ _ _ Hc (q + 1) ltac:(lia)) as Hin.
      rewrite bool_decide_false by lia. apply wp_ret. cbv beta iota.
      apply (wp_read_byte i (q + 1) 0); try done; unfold BLOCK_SIZE in *; try lia.
      unfold read_count in *. case_bool_decide; lia.
  - assert (byte0 mod BLOCK_SIZE = byte0) as Emod by (apply Z.mod_small; lia).
    assert (bool_decide (byte0 mod BLOCK_SIZE = 0) && bool_decide (byte0 ≠ 0) = false) as ->.
    { rewrite Emod. destruct (decide (byte0 = 0)) as [->|]; [done|]. by rewrite bool_decide_false. }
    apply wp_bind, wp_ret. cbv beta iota.
    apply (wp_read_byte i q byte0); try done; try lia.
    unfold read_count in *. case_bool_decide as Hs; [|lia].
    destruct (decide (i = sz - offset v)) as [E|]; [|lia]. exfalso.
    destruct Hs as (H1 & H2 & H3). assert (offset v + i = sz) as E' by lia.
    rewrite <-E', Hz in H2. destruct (div_block q byte0) as [_ E2]; [lia|]. rewrite E2 in H2.
    specialize (Hb0 H2). lia.
Qed.

(** The whole loop. *)
Lemma wp_read_file (Q : Z → kstate → Prop) X :
  0 ≤ sz → size f ≤ INT_MAX →
  (∀ k', reading (read_count (offset v) sz (size f)) k' → Q (read_count (offset v) sz (size f)) k') →
  wp (read_file FS (λ i b, ustore (buffer + i) b) o d sz) k Q X.
Proof using All.
  intros Hs Hmax HQ. unfold read_file.
  destruct (block_bounds (offset v)) as (Hq & Hm & Hz); [lia|].
  apply wp_bind, wp_fs_aget with (a := v); [exact Hv|].
  apply wp_bind, wp_fs_aget with (a := f); [exact Hf|].
  rewrite Z.quot_div_nonneg, Z.rem_mod_nonneg by (unfold BLOCK_SIZE; lia).
  apply wp_bind, wp_read_walk. cbv beta iota.
  eapply (wp_loop_variant (λ m '(i, block0, byte0) k', m = sz - i ∧
    0 ≤ i ≤ read_count (offset v) sz (size f) ∧ i ≤ sz ∧ reading i k' ∧ at_byte i block0 byte0) sz);
    [|lia|].
  - assert (0 ≤ read_count (offset v) sz (size f)) by (unfold read_count; case_bool_decide; lia).
    split_and!; try lia.
    + exists (ram (mm k)). split; [|split; [lia|]].
      * rewrite Z.add_0_r. assert (with_offset (offset v) v = v) as -> by by destruct v.
        rewrite zinsert_id by done. by destruct k as [? ? ? ? [] [] ? ?].
      * done.
    + exists (offset v / BLOCK_SIZE). rewrite Z.add_0_r. split_and!; try lia; done.
  - intros m [[i block0] byte0] k' (-> & Hi & Hisz & Hr & Hat). split; [lia|].
    destruct (reading_lookup _ _ Hr) as (Ho & Hdir & _).
    apply wp_bind, wp_fs_aget with (a := with_offset (offset v + i) v); [exact Ho|].
    apply wp_bind, wp_fs_aget with (a := f); [simpl; rewrite Hdir; exact Hf|].
    change (offset (with_offset (offset v + i) v)) with (offset v + i).
    destruct (decide (i < sz ∧ offset v + i < size f)) as [[H1 H2]|Hend].
    + rewrite !bool_decide_true by done. cbn [andb].
      eapply wp_mono; [by apply wp_read_step| |done]. intros [[[i' b'] y']|r] k''; simpl.
      * intros (-> & Hr' & Hat' & Hle). exists (sz - (i + 1)). split; [lia|].
        split_and!; try done; lia.
      * intros (-> & -> & Ei). rewrite Ei in *. by apply HQ.
    + assert (bool_decide (i < sz) && bool_decide (offset v + i < size f) = false) as ->.
      { apply andb_false_iff. destruct (decide (i < sz)); [right|left]; apply bool_decide_false; tauto. }
      apply wp_ret. assert (i = read_count (offset v) sz (size f)) as -> by (unfold read_count in *; case_bool_decide; lia).
      by apply HQ.
Qed.
End Read.
