(* ===== verification/Kernel.v ===== *)
(** * The kernel as a transition system, the total correctness of the clock
    interrupt and of [sys_exit]. *)
From stdpp Require Import functions.
From S2P Require Import Prelude KList Mm Utils UtilsFacts Io Fs KState.
From S2P Require Import Sched Sem Devices Sys Interrupt Queues SchedFacts SemFacts.
From S2P Require Import Quiet KernelInv Boot.

(** ** Steps.

    An entry into the kernel ends when the code it runs returns to the process
    it interrupted, or when a context switch resumes another one.  An entry
    that halts the machine, or whose behaviour C does not define, has no
    step.

    [ready] bounds two of the entries: a system call or a page fault is taken
    when the process that runs is alive and [pid] has not reached [INT_MAX].
    What a dead process does when [sys_exit] returned to it, beyond stores and
    interrupts, is not a step, nor is anything but those once the pids are used up. *)
Definition ends {A} (m : K A) (k k' : kstate) : Prop := (∃ a, m k = Ret a k') ∨ m k = Switched k'.

(** User code runs between the entries: it stores to the memory it sees. *)
Inductive kstep : kstate → kstate → Prop :=
| step_system_call void eax ebx ecx edx k k' :
    ready (qview_of k) → ends (system_call_handler void eax ebx ecx edx) k k' → kstep k k'
| step_clock eax k k' : ends (clock_interrupt eax) k k' → kstep k k'
| step_keyboard eax code k k' : ends (keyboard_interrupt eax code) k k' → kstep k k'
| step_page_fault eax k k' :
    ready (qview_of k) → ends (page_fault_handler eax) k k' → kstep k k'
| step_user addr b k k' : ends (ustore addr b) k k' → kstep k k'.

Definition reachable (task_addr table_addr : Z) (k : kstate) : Prop :=
  ∃ k0, boot table_addr (kstate_bss task_addr) = Ret () k0 ∧ star kstep k0 k.

Lemma wlp_ends {A} (m : K A) k k' (Q : kstate → Prop) :
  wlp m k (λ _, Q) Q → ends m k k' → Q k'.
Proof. unfold wlp, ends. by intros H [[a E]|E]; rewrite E in H. Qed.

Lemma wlp_Ret {S A} (m : M S A) s a s' (Q : A → S → Prop) X :
  wlp m s Q X → m s = Ret a s' → Q a s'.
Proof. unfold wlp. by intros H E; rewrite E in H. Qed.

Lemma kinv_kstep k k' : kinv k → kstep k k' → kinv k'.
Proof.
  intros Hk Hstep. revert Hk.
  destruct Hstep as [void eax ebx ecx edx k k' Hr He|eax k k' He|eax code k k' He|eax k k' Hr He|
    addr b k k' He]; intros Hk; eapply wlp_ends; try exact He.
  - by apply safe_system_call_handler.
  - exact (safe_clock_interrupt eax _ Hk I).
  - exact (safe_keyboard_interrupt eax code _ Hk I).
  - by apply safe_page_fault_handler.
  - refine (quiet_safe (λ _, True) _ _ _ Hk I). respects.
Qed.

Lemma kinv_boot ta tb k : boot tb (kstate_bss ta) = Ret () k → kinv k.
Proof. intros E. exact (wlp_Ret _ _ _ _ (λ _, kinv) _ (wlp_boot ta tb) E). Qed.

(** ** The clock. *)

(** The text of the clock: minutes and seconds, two digits each. *)
Definition two_digits (n : Z) : list Z := [n / 10 + 48; n mod 10 + 48].
Definition clock_text (minutes seconds : Z) : list Z :=
  two_digits minutes ++ [58] ++ two_digits seconds.

Lemma numeral_digit d : d ≤ 9 → numeral 10 d = if bool_decide (0 < d) then [d + 48] else [].
Proof.
  intros. case_bool_decide; [|by apply numeral_nonpos; lia].
  destruct (numeral_step 10 d) as (f' & [= <-] & _ & ->); [simpl; lia|].
  rewrite numeral_nonpos, Z.mod_small by (try rewrite Z.div_small; lia). done.
Qed.

(** A digit is stored at [k]; 0 leaves the character that is there. *)
Lemma wp_time_digit k d l (Q : unit → list Z → Prop) X :
  d ≤ 9 → 0 ≤ k < zlen l →
  Q () (if bool_decide (0 < d) then zinsert k (d + 48) l else l) →
  wp (time_digit k d) l Q X.
Proof.
  intros Hd Hk HQ. unfold time_digit.
  apply (wp_itoa d _ (λ i l', l' = if bool_decide (0 < d) && bool_decide (i = 0)
    then zinsert k (d + 48) l else l)).
  - unfold INT_MAX. lia.
  - intros i c l' Hc ->. rewrite numeral_digit in Hc by done.
    case_bool_decide as Hpos; [|by apply zlookup_Some_range in Hc; unfold zlen in Hc; simpl in Hc; lia].
    pose proof (zlookup_Some_range _ _ _ Hc) as Hi. unfold zlen in Hi. simpl in Hi.
    assert (i = 0) as -> by lia. injection Hc as <-. simpl.
    apply wp_aset; [simpl; lia|]. simpl. rewrite u8_small by lia.
    by replace (k + 0) with k by lia.
  - rewrite numeral_digit by done. case_bool_decide; [|done].
    by rewrite bool_decide_false by (unfold zlen; simpl; lia).
  - intros l' ->. change (bool_decide (0 = 0)) with true. by rewrite andb_true_r.
Qed.

(** Printing at a position never fails. *)
Fixpoint show_xy (col row : Z) (s : list Z) (v : gmap Z Z) : gmap Z Z :=
  match s with
  | [] => v
  | c :: s => if bool_decide (c = 0) then v
              else show_xy (col + 1) row s (<[cell col row := glyph c]> v)
  end.
Lemma wp_printk_xy s col row io (Q : unit → io_state → Prop) X :
  Q () (set_video (show_xy col row s (video io)) io) → wp (printk_xy col row s) io Q X.
Proof.
  revert col io. induction s as [|c s IH]; intros col io HQ; simpl in *.
  - apply wp_ret. by destruct io.
  - case_bool_decide; [apply wp_ret; by destruct io|].
    apply wp_bind. unfold printc_xy. wp_step. by apply IH.
Qed.

Lemma wp_with_local {S T A} (l0 : T) (m : M (S * T) A) s (Q : A → S → Prop) X :
  wp m (s, l0) (λ a p, Q a p.1) (λ p, X p.1) → wp (with_local l0 m) s Q X.
Proof. unfold wp, with_local. by destruct (m (s, l0)) as [? []|[]|[]| |]. Qed.

(** The minutes on display, which wrap after 59. *)
Definition clock_minutes (t : Z) : Z :=
  let minutes := Z.quot (Z.quot t 18) 60 in if bool_decide (minutes > 59) then 0 else minutes.
Definition clock_reset (t : Z) : Z :=
  if bool_decide (Z.quot (Z.quot t 18) 60 > 59) then 0 else t.

Lemma wp_clock_display k (Q : unit → kstate → Prop) X :
  (Z.rem (tics (sched k)) 18 ≠ 0 → Q () k) →
  (∀ text, Z.rem (tics (sched k)) 18 = 0 →
     (0 ≤ tics (sched k) →
      text = clock_text (clock_minutes (tics (sched k))) (Z.quot (tics (sched k)) 18 mod 60)) →
     Q () (set_io (set_video (show_xy 72 8 (text ++ [0]) (video (io k))) (io k))
            (update Tics (clock_reset (tics (sched k))) k))) →
  wp clock_display k Q X.
Proof.
  intros HQ1 HQ2. unfold clock_display. wp_step. wp_step.
  change (view Tics k) with (tics (sched k)).
  set (t := tics (sched k)) in *. case_bool_decide as Hrem; [|by apply wp_ret, HQ1].
  set (m0 := Z.quot (Z.quot t 18) 60) in *. set (sec := Z.rem (Z.quot t 18) 60).
  assert (-60 < sec < 60) as Hsec.
  { unfold sec. pose proof (Z.rem_bound_abs (Z.quot t 18) 60). lia. }
  apply wp_bind.
  apply (wp_mono _ _ (λ m k', m = clock_minutes t ∧ k' = update Tics (clock_reset t) k) _ (λ _, False)); [|clear HQ1|done].
  { unfold clock_minutes, clock_reset. fold m0. case_bool_decide.
    - repeat wp_step. done.
    - wp_step. split; [done|]. by destruct k as [? [] ? ? ? ? ? ?]. }
  intros m k' [-> ->]. apply wp_with_local. apply wp_bind, wp_zoom. simpl.
  assert (clock_minutes t ≤ 59) as Hm by (unfold clock_minutes; fold m0; case_bool_decide; lia).
  assert (∀ n, n ≤ 59 → Z.quot n 10 ≤ 9) as Hquot 
    by (intros n ?; pose proof (Z.quot_le_mono n 59 10); change (59 `quot` 10) with 5 in *; lia).
  assert (∀ n, Z.rem n 10 ≤ 9) as Hr10 by (intros n; pose proof (Z.rem_bound_abs n 10); lia).
  apply wp_bind, wp_time_digit; [by apply Hquot|done|].
  apply wp_bind, wp_time_digit; [done|by case_bool_decide|].
  apply wp_bind, wp_time_digit; [apply Hquot; lia|by repeat case_bool_decide|].
  apply wp_time_digit; [done|by repeat case_bool_decide|].
  apply wp_bind. wp_step. apply wp_zoom, wp_zoom, wp_printk_xy. simpl.
  set (q1 := Z.quot (clock_minutes t) 10). set (r1 := Z.rem (clock_minutes t) 10).
  set (q2 := Z.quot sec 10). set (r2 := Z.rem sec 10).
  pose (dig := λ d, if bool_decide (0 < d) then d + 48 else 48).
  match goal with |- Q _ (set_io (set_video (show_xy 72 8 ?l _) _) _) =>
    replace l with ([dig q1; dig r1; 58; dig q2; dig r2] ++ [0])
      by (unfold dig; by repeat case_bool_decide) end.
  apply (HQ2 [dig q1; dig r1; 58; dig q2; dig r2]); [done|]. intros Ht.
  assert (0 ≤ Z.quot t 18) as Hs0 by (apply Z.quot_pos; lia).
  assert (0 ≤ sec) as Hsec0 by (apply Z.rem_nonneg; lia).
  assert (0 ≤ clock_minutes t) as Hm0.
  { unfold clock_minutes. fold m0. case_bool_decide; [done|]. apply Z.quot_pos; lia. }
  assert (∀ n, 0 ≤ n → dig (Z.quot n 10) = n / 10 + 48 ∧ dig (Z.rem n 10) = n mod 10 + 48) as Hdig.
  { intros n Hn. rewrite Z.quot_div_nonneg, Z.rem_mod_nonneg by lia. unfold dig.
    pose proof (Z.div_pos n 10). pose proof (Z.mod_pos_bound n 10).
    split; case_bool_decide; lia. }
  unfold clock_text, two_digits, q1, r1, q2, r2.
  destruct (Hdig _ Hm0) as [-> ->], (Hdig _ Hsec0) as [-> ->].
  unfold sec. by rewrite (Z.rem_mod_nonneg (Z.quot t 18)) by lia.
Qed.

(** The accounting of one tick: the registers are saved, and the tick is
    charged to the current process. *)
Definition tick_task (eax : Z) (v : task_struct) : task_struct :=
  t_remaining (s32 (remaining v - 1)) (t_cpu_tics (s32 (cpu_tics v + 1)) (t_saved_eax eax v)).
Definition tick_sched (s : sched_state) : sched_state :=
  set_left4current (s32 (left4current s - 1)) (set_tics (s32 (tics s + 1)) (set_in_service true s)).
Definition ticked (eax : Z) (v : task_struct) (k : kstate) : kstate :=
  set_task (zinsert (cur (sched k)) (tick_task eax v) (task k)) (set_sched (tick_sched (sched k)) k).

Lemma ticked_view eax v k :
  zlookup (task k) (cur (sched k)) = Some v → qview_of (ticked eax v k) = qview_of k.
Proof. intros Hv. unfold qview_of, ticked. simpl. f_equal. by apply pids_zinsert with v. Qed.

Lemma ticked_shape eax v k :
  zlookup (task k) (cur (sched k)) = Some v → shape k → shape (ticked eax v k).
Proof.
  intros Hv Hs. eapply (shape_set_task (set_sched _ k)); [by apply shape_set_sched|done|].
  destruct (sh_task _ Hs _ _ Hv). by split.
Qed.

Lemma ticked_lookup eax v k :
  zlookup (task k) (cur (sched k)) = Some v →
  zlookup (task (ticked eax v k)) (cur (sched k)) = Some (tick_task eax v).
Proof. intros Hv. apply zlookup_zinsert_eq. eauto with arrays. Qed.

Lemma wp_tick eax v k (Q : unit → kstate → Prop) X :
  zlookup (task k) (cur (sched k)) = Some v →
  wp (schedule 1;; clock_display;; EOI) (ticked eax v k) Q X →
  wp (clock_interrupt eax) k Q X.
Proof.
  intros Hv HQ. pose proof (zlookup_Some_range _ _ _ Hv) as Hr.
  unfold clock_interrupt, SAVE_ALL, clock_routine, current.
  do 4 wp_step. eapply wp_task_set; [done|].
  apply wp_bind. do 4 wp_step. apply wp_bind, wp_modify.
  do 2 wp_step. eapply wp_aget; [apply zlookup_zinsert_eq; done|]. eapply wp_task_set; [by apply zlookup_zinsert_eq|].
  do 2 wp_step. eapply wp_aget; [simpl; apply zlookup_zinsert_eq; by rewrite zlen_zinsert|].
  eapply wp_task_set; [simpl; apply zlookup_zinsert_eq; by rewrite zlen_zinsert|].
  match goal with |- wp _ ?k' _ _ => replace k' with (ticked eax v k) end.
  2: { unfold ticked, tick_task, tick_sched, set_task, set_sched. simpl. by rewrite !zinsert_zinsert_eq. }
  unfold wp, bind in *. destruct (schedule 1 _) as [? s1| | | |]; [|done..].
  by destruct (clock_display s1).
Qed.

(** The process goes on: within its slice, or for a new one when nobody else is
    runnable. *)
Inductive goes_on (eax : Z) (v : task_struct) (q : node → list Z) (k : kstate) : kstate → Prop :=
| within_slice : 0 < s32 (left4current (sched k) - 1) → goes_on eax v q k (ticked eax v k)
| alone t : s32 (left4current (sched k) - 1) ≤ 0 → q Runqueue = [t] →
    goes_on eax v q k (new_slice (tick_task eax v) (ticked eax v k)).

(** States that differ in the screen and the clock at most. *)
Definition same_but_display (k k' : kstate) : Prop :=
  task k' = task k ∧ sem k' = sem k ∧ lists k' = lists k ∧ mm k' = mm k ∧ fs k' = fs k ∧
  kbd k' = kbd k ∧ cur (sched k') = cur (sched k) ∧ pid_counter (sched k') = pid_counter (sched k) ∧
  left4current (sched k') = left4current (sched k).

Lemma goes_on_view eax v q k k1 :
  zlookup (task k) (cur (sched k)) = Some v → goes_on eax v q k k1 → qview_of k1 = qview_of k.
Proof.
  intros Hv [|t _ _]; [by apply ticked_view|]. rewrite <-(ticked_view eax v k Hv).
  unfold qview_of, new_slice. simpl. f_equal.
  by erewrite pids_zinsert; [|exact (ticked_lookup eax v k Hv)|done].
Qed.

Lemma goes_on_shape eax v q k k1 :
  zlookup (task k) (cur (sched k)) = Some v → shape k → goes_on eax v q k k1 → shape k1.
Proof.
  intros Hv Hs [|t _ _]; [by apply ticked_shape|].
  eapply (shape_set_task (update Left4current (quantum v) (ticked eax v k)));
    [|exact (ticked_lookup eax v k Hv)|].
  - exact (shape_set_sched _ _ (ticked_shape _ _ _ Hv Hs)).
  - destruct (sh_task _ Hs _ _ Hv). by split.
Qed.

Lemma same_but_display_quiet k k' : same_but_display k k' → quiet k k'.
Proof.
  intros (Et & Es & El & Em & _ & _ & Ec & Ep & _). split.
  - unfold qview_of. by rewrite Et, Es, El, Ec, Ep.
  - intros [H1 H2 H3]. split; by rewrite ?Em, ?Et.
Qed.

(** A clock interrupt is acknowledged on every path: when the process goes on,
    and when the next one of the queue is resumed. *)
Lemma wp_clock_interrupt eax k q v (Q : unit → kstate → Prop) X :
  shape k → qinv (qview_of k) q → zlookup (task k) (cur (sched k)) = Some v →
  (∀ k1 k', goes_on eax v q k k1 → same_but_display k1 k' → in_service (sched k') = false → Q () k') →
  (∀ h' t rest k', s32 (left4current (sched k) - 1) ≤ 0 → q Runqueue ≠ [t] →
     rotated k q v Runqueue = t :: rest →
     resumed t (update ItIsInt 1 (set_lists h' (ticked eax v k))) k' →
     qinv (qview_of k') (rotated k q v) → shape k' → in_service (sched k') = false → X k') →
  wp (clock_interrupt eax) k Q X.
Proof.
  intros Hs Hq Hv HQ HX. eapply wp_tick; [done|].
  assert (∀ k1, goes_on eax v q k k1 → wp (clock_display;; EOI) k1 Q X) as Hend.
  { intros k1 Hk1. apply wp_bind.
    assert (∀ k2, same_but_display k1 k2 → wp EOI k2 Q X) as HE.
    { intros k2 Hk2. unfold EOI. wp_step. by apply (HQ k1). }
    apply wp_clock_display; [intros _; by apply HE|]. intros text _ _. by apply HE. }
  assert (rotated (ticked eax v k) q (tick_task eax v) = rotated k q v) as Erot by done.
  apply wp_bind. eapply (wp_schedule _ (ticked eax v k) q (tick_task eax v)).
  - by apply ticked_shape.
  - by rewrite ticked_view.
  - exact (ticked_lookup eax v k Hv).
  - intros Hl. apply Hend. by apply within_slice.
  - intros t Hl Ht. apply Hend. by eapply alone.
  - intros h' t rest k' Hl Hne Hrot Hres Hq' Hs'. rewrite Erot in *.
    eapply HX; try done. destruct Hres as [w m' _ _ _ ->]. done.
Qed.
