(* ===== verification/States.v ===== *)
(** * Concrete states of the kernel: the booted system, a system with a second
    process, and one in which that process sleeps on a semaphore.  The
    theorems are applied to them. *)
From stdpp Require Import functions.
From S2P Require Import Prelude KList Mm Fs KState Sched Sem Devices.
From S2P Require Import Sys Interrupt Queues SchedFacts SemFacts KernelInv ForkFacts Boot.
From S2P Require Import FsFacts FsOps Kernel.

(** ** The booted system. *)

Definition boot_task_addr : Z := 0x1a000.
Definition boot_table_addr : Z := 0x30000.

(** The frames behind the data pages of process 0, and those its task
    structure records. *)
Definition boot_frame (j : Z) : Z := 264 + 2 * j.
Definition boot_pages : list Z := (λ j, 304 + 2 * j) <$> seqZ 0 NUM_PAG_DATA.

Definition page_check (k : kstate) (j : Z) : bool :=
  bool_decide (zlookup (pagusr_table (mm k)) (PAG_LOG_INIT_DATA_P0 + j) = Some (user_pte (boot_frame j))) &&
  bool_decide (zlookup (phys_mem (mm k)) (boot_frame j) = Some USED_FRAME).

Definition boot_fds : list (option Z) := [Some 0; Some 1; Some 1] ++ replicate 7 None.

(** Process 0 runs; the other tasks and the semaphores are free. *)
Definition boot_check (k : kstate) : bool :=
  bool_decide (cur (sched k) = 0) && bool_decide (pid_counter (sched k) = 1) &&
  bool_decide (pid <$> task k = 0 :: replicate 9 (-1)) &&
  bool_decide (init <$> sem k = replicate 26 0) &&
  bool_decide (ph_pages <$> head (task k) = Some boot_pages) &&
  bool_decide (file_descriptors <$> head (task k) = Some boot_fds) &&
  bool_decide (logic_dev <$> take 2 (fdt (fs k)) = [Some 0; Some 1]) &&
  bool_decide (zlen (circular (kbd k)) = CIRCULAR_SIZE) && bool_decide (kbd_p (kbd k) = 0) &&
  bool_decide (quantum <$> head (task k) = Some 60) && bool_decide (left4current (sched k) = 60) &&
  forallb (page_check k) (seqZ 0 NUM_PAG_DATA) && init_check (fs k).

Lemma boot_runs :
  match boot boot_table_addr (kstate_bss boot_task_addr) with
  | Ret _ k => boot_check k | _ => false end = true.
Proof. by vm_compute. Qed.

Record solo (k : kstate) (q : node → list Z) : Prop := {
  so_boot : boot boot_table_addr (kstate_bss boot_task_addr) = Ret () k;
  so_shape : shape k;
  so_inv : qinv (qview_of k) q;
  so_cur : cur (sched k) = 0;
  so_counter : pid_counter (sched k) = 1;
  so_pids : pid <$> task k = 0 :: replicate 9 (-1);
  so_sems : init <$> sem k = replicate 26 0;
  so_pages : ph_pages <$> head (task k) = Some boot_pages;
  so_fds : file_descriptors <$> head (task k) = Some boot_fds;
  so_open : logic_dev <$> take 2 (fdt (fs k)) = [Some 0; Some 1];
  so_kbd_len : zlen (circular (kbd k)) = CIRCULAR_SIZE;
  so_kbd_p : kbd_p (kbd k) = 0;
  so_quantum : quantum <$> head (task k) = Some 60;
  so_left : left4current (sched k) = 60;
  so_mapped : ∀ j, 0 ≤ j < NUM_PAG_DATA → page_check k j = true;
  so_fs : fs_ok (fs k) all_blocks no_blocks;
}.

Lemma booted : ∃ k q, solo k q.
Proof.
  pose proof boot_runs as H.
  destruct (boot boot_table_addr (kstate_bss boot_task_addr)) as [[] k| | | |] eqn:E;
    [|discriminate H..].
  unfold boot_check in H. rewrite !andb_true_iff, !bool_decide_eq_true, forallb_forall in H.
  destruct H as [[[[[[[[[[[[? ?] ?] ?] ?] ?] ?] ?] ?] ?] ?] Hp] Hfs]. destruct (kinv_boot _ _ _ E) as [Hs [q Hq]].
  exists k, q. split; try assumption; [|by apply init_check_ok].
  intros j Hj. apply Hp, list_elem_of_In, elem_of_seqZ. lia.
Qed.

Lemma solo_queue k q hd t : solo k q → t ∈ q hd → t = 0.
Proof.
  intros Hk Ht. destruct (qi_alive _ _ (so_inv _ _ Hk) _ _ Ht) as (p & Hp & Hpos & _).
  simpl in Hp. rewrite (so_pids _ _ Hk) in Hp. pose proof (zlookup_Some_range _ _ _ Hp) as Hr.
  unfold zlookup in Hp. rewrite decide_True in Hp by lia.
  destruct (Z.to_nat t) as [|n] eqn:E; [lia|].
  change (replicate 9 (-1) !! n = Some p) in Hp.
  apply lookup_replicate in Hp as [-> _]. done.
Qed.

Lemma only_one (l : list Z) x : NoDup l → x ∈ l → (∀ y, y ∈ l → y = x) → l = [x].
Proof.
  intros Hnd Hx Hall. destruct l as [|a [|b l]]; [set_solver|by rewrite (Hall a) by set_solver|].
  rewrite (Hall a), (Hall b) in Hnd by set_solver. apply NoDup_cons in Hnd as [Hnd _]. set_solver.
Qed.

Lemma solo_runqueue k q : solo k q → q Runqueue = [0].
Proof.
  intros Hk. apply only_one; [|apply (qi_init _ _ (so_inv _ _ Hk))|intros t; by apply (solo_queue k q)].
  exact (queues_ok_NoDup _ _ _ Runqueue (qi_ok _ _ (so_inv _ _ Hk))).
Qed.

Lemma solo_idle k q hd : solo k q → hd ≠ Runqueue → q hd = [].
Proof.
  intros Hk Hhd. apply elem_of_nil_inv. intros t Ht. pose proof (solo_queue _ _ _ _ Hk Ht) as ->.
  by pose proof (ok_disjoint _ _ _ (qi_ok _ _ (so_inv _ _ Hk)) _ _ _ Ht (qi_init _ _ (so_inv _ _ Hk))).
Qed.

Lemma solo_sem k q n s : solo k q → zlookup (sem k) n = Some s → init s = 0.
Proof.
  intros Hk Hs. assert (init <$> zlookup (sem k) n = Some (init s)) as E by by rewrite Hs.
  rewrite <-zlookup_fmap, (so_sems _ _ Hk) in E. unfold zlookup in E. case_decide; [|done].
  by apply lookup_replicate in E as [-> _].
Qed.

Lemma head_zlookup {A} (l : list A) a : head l = Some a → zlookup l 0 = Some a.
Proof. by destruct l; intros ?; simplify_eq/=. Qed.

Lemma solo_task k q :
  solo k q → ∃ v, zlookup (task k) (cur (sched k)) = Some v ∧ pid v = 0 ∧ ph_pages v = boot_pages ∧
                  file_descriptors v = boot_fds.
Proof.
  intros Hk. rewrite (so_cur _ _ Hk). pose proof (so_pages _ _ Hk) as Hp.
  pose proof (so_fds _ _ Hk) as Hf. pose proof (so_pids _ _ Hk) as Hpid.
  destruct (task k) as [|v ts]; [done|]. injection Hp as Hp. injection Hf as Hf. injection Hpid as Hpid _.
  by exists v.
Qed.

Lemma solo_address_space k q : solo k q → address_space boot_frame (mm k).
Proof.
  intros Hk. split; intros j Hj; pose proof (so_mapped _ _ Hk j Hj) as H; unfold page_check in H;
    rewrite andb_true_iff, !bool_decide_eq_true in H; destruct H as [Ht Hp].
  - done.
  - unfold boot_frame, NUM_PAG_DATA in *. lia.
  - rewrite Hp. done.
Qed.

Lemma solo_fds k q : solo k q → valid_fds (fs k) boot_fds.
Proof.
  intros Hk o Ho. pose proof (so_open _ _ Hk) as Hop.
  assert (o = 0 ∨ o = 1) as Ho'.
  { unfold boot_fds in Ho. apply elem_of_app in Ho as [Ho|Ho].
    - rewrite !elem_of_cons in Ho. destruct Ho as [E|[E|[E|[]%not_elem_of_nil]]]; simplify_eq; auto.
    - by apply elem_of_replicate in Ho as [? _]. }
  destruct (fdt (fs k)) as [|v0 [|v1 l]] eqn:E; try done. injection Hop as H0 H1.
  pose proof (fo_dir _ _ _ (so_fs _ _ Hk)) as Hd. unfold valid_open. rewrite E, Hd.
  destruct Ho' as [-> | ->]; [by exists v0, 0|by exists v1, 1].
Qed.

(** ** A second process, which runs. *)

Record duo (k : kstate) (q : node → list Z) (v : task_struct) : Prop := {
  du_shape : shape k;
  du_inv : qinv (qview_of k) q;
  du_cur : cur (sched k) = 1;
  du_run : q Runqueue = [0; 1];
  du_counter : pid_counter (sched k) = 2;
  du_task : zlookup (task k) 1 = Some v;
  du_pid : pid v = 1;
  du_sems : ∀ n s, zlookup (sem k) n = Some s → init s = 0;
  du_sleep : ∀ n, q (WaitList n) = [];
  du_keyboard : q KeyboardQueue = [];
  du_quanta : ∀ t, 0 ≤ t ≤ 1 → quantum <$> zlookup (task k) t = Some 60;
  du_left : left4current (sched k) = 60;
}.

Lemma with_child : ∃ k q v, duo k q v.
Proof.
  destruct booted as (k0 & q0 & H0). pose proof (so_inv _ _ H0) as Hq0.
  destruct (qinv_lookup_task _ _ 0 Hq0) as [v0 Hv0]; [done|].
  destruct (qinv_lookup_task _ _ 1 Hq0) as [v1 Hv1]; [done|].
  set (v := t_pid 1 v0).
  set (k1 := set_sched (set_pid_counter 2 (sched k0)) (set_task (zinsert 1 v (task k0)) k0)).
  assert (shape k1) as Hs1.
  { apply shape_set_sched. eapply shape_set_task; [apply H0|done|].
    destruct (sh_task _ (so_shape _ _ H0) _ _ Hv0). by split. }
  assert (0 ≤ 1 < zlen (task k0)) as Hr by eauto with arrays.
  assert (newborn 1 q0 k1) as Hnb.
  { exists 1. split; [|split].
    - split; [done|done|done|]. simpl. rewrite zinsert_fmap, zinsert_zinsert_eq.
      rewrite (zinsert_id (pid <$> task k0) 1 (-1)).
      + rewrite <-(so_counter _ _ H0). exact Hq0.
      + by rewrite (so_pids _ _ H0).
    - done.
    - rewrite zlookup_fmap. simpl. by rewrite zlookup_zinsert_eq. }
  assert (∀ hd, 1 ∉ q0 hd) as Hfree by (intros hd H1; by apply (solo_queue _ _ _ _ H0) in H1).
  assert (wp (list_add_tail (RunListP 1) RunqueueP) (lists k1) (λ _ h',
    queues_ok (active (sem k1)) h' (<[Runqueue := q0 Runqueue ++ [1]]> q0)) (λ _, False)) as (? & h' & _ & Hok)%wp_returns.
  { by eapply wp_list_add_tail_task; [apply Hq0|..]. }
  pose proof (qinv_birth _ _ _ _ Hnb Hok) as Hq.
  eapply (qinv_switch _ _ 1) in Hq; [|rewrite fn_lookup_insert; set_solver].
  exists (update Cur 1 (set_lists h' k1)), (<[Runqueue := q0 Runqueue ++ [1]]> q0), v.
  split; simpl; try done.
  - by apply shape_set_sched, shape_set_lists.
  - by rewrite fn_lookup_insert, (solo_runqueue _ _ H0).
  - by apply zlookup_zinsert_eq.
  - intros n s. by apply (solo_sem _ q0).
  - intros n. rewrite fn_lookup_insert_ne by done. by apply (solo_idle _ _ _ H0).
  - rewrite fn_lookup_insert_ne by done. by apply (solo_idle _ _ _ H0).
  - assert (quantum v0 = 60) as Hquantum.
    { pose proof (so_quantum _ _ H0) as E. destruct (task k0) as [|w ts]; [done|].
      change (zlookup (w :: ts) 0) with (Some w) in Hv0. by simplify_eq/=. }
    intros t Ht. assert (t = 0 ∨ t = 1) as [-> | ->] by lia.
    + rewrite zlookup_zinsert_ne by done. rewrite Hv0. simpl. by rewrite Hquantum.
    + rewrite zlookup_zinsert_eq by done. simpl. by rewrite Hquantum.
  - apply (so_left _ _ H0).
Qed.

(** ** The second process sleeps on semaphore 3. *)

Record asleep (k : kstate) (q : node → list Z) : Prop := {
  as_shape : shape k;
  as_inv : qinv (qview_of k) q;
  as_sem : sem_at k 3 (Semaphore 0 1);
  as_queue : q (WaitList 3) = [1];
  as_run : q Runqueue = [0];
  as_cur : cur (sched k) = 0;
}.

Lemma with_sem : ∃ k q v, shape k ∧ qinv (qview_of k) q ∧ sem_at k 3 (Semaphore 0 1) ∧
  cur (sched k) = 1 ∧ zlookup (task k) 1 = Some v ∧ pid v = 1 ∧
  zlookup (owned_sems v) 3 = Some 1 ∧ q Runqueue = [0; 1] ∧ ∀ n, q (WaitList n) = [].
Proof.
  destruct with_child as (k & q & v & H). pose proof (du_shape _ _ _ H) as Hs.
  assert (wp (sys_sem_init 3 0) k (λ r k', init_post k 3 0 r k' ∧ qinv (qview_of k') q ∧ shape k')
    (λ _, False)) as (r & k1 & _ & Hpost & Hq1 & Hs1)%wp_returns.
  { eapply wp_sys_sem_init; [apply H|apply H|lia|done]. }
  destruct Hpost as [Hr|s [Hn Hi]|s w h' Hn Hi Hw].
  - exfalso. by apply Hr.
  - exfalso. pose proof (du_sems _ _ _ H _ _ Hn). congruence.
  - rewrite (du_cur _ _ _ H) in *. rewrite (du_task _ _ _ H) in Hw. simplify_eq.
    exists (set_lists h' (set_sem (zinsert 3 (Semaphore 0 1) (sem k))
      (set_task (zinsert 1 (t_owned_sems (zinsert 3 1 (owned_sems w)) w) (task k)) k))).
    eexists q, _. split; [done|]. split; [done|]. split.
    { split; [|done]. simpl. apply zlookup_zinsert_eq. eauto with arrays. }
    split; [apply H|]. split.
    { simpl. apply zlookup_zinsert_eq. pose proof (du_task _ _ _ H). eauto with arrays. }
    split; [apply H|]. split; [|split; apply H]. simpl. apply zlookup_zinsert_eq.
    by rewrite (ts_owned _ (sh_task _ Hs _ _ (du_task _ _ _ H))).
Qed.

Lemma with_sleeper : ∃ k q, asleep k q.
Proof.
  destruct with_sem as (k & q & v & Hs & Hq & Hsem & Hcur & Hv & Hp & _ & Hrun & Hw).
  assert (wp (sys_sem_wait 3) k (λ _ _, False)
    (λ k', ∃ q', wait_blocked k q 3 k' q' ∧ qinv (qview_of k') q' ∧ shape k')) as H.
  { eapply (wp_sys_sem_wait _ q 3 v); [done|done|by rewrite Hcur|lia| |eauto].
    intros r k' Hpost _ _. destruct Hpost as [w Hw'|w Hw' _ Hno|w s _ _ Hs' Hc].
    - rewrite Hcur, Hv in Hw'. simplify_eq. lia.
    - by apply (Hno _ Hsem).
    - destruct Hs', Hsem. simplify_eq. simpl in Hc. lia. }
  unfold wp in H. destruct (sys_sem_wait 3 k) as [|k'| | |] eqn:E; try done.
  destruct H as (q' & Hpost & Hq' & Hs'). destruct Hpost as [s h' t rest k' Hs0 Hc q' Hq'' Hres].
  exists k', q'. unfold q', qmove in *. rewrite Hcur in *. split; [done|done| | | |].
  - destruct Hres as [w m' _ _ _ ->]. exact Hsem.
  - rewrite fn_lookup_insert, fn_lookup_insert_ne by done. by rewrite Hw.
  - rewrite fn_lookup_insert_ne, fn_lookup_insert by done. by rewrite Hrun.
  - rewrite fn_lookup_insert_ne, fn_lookup_insert, Hrun in Hq'' by done.
    assert (t = 0) as -> by (by injection Hq''). by destruct Hres as [w m' _ _ _ ->].
Qed.
