(* ===== verification/KernelProps.v ===== *)
(** * Properties of the kernel as a whole: the invariant of every reachable
    state, the clock, the scheduler, the creation and the end of processes. *)
From stdpp Require Import functions.
From S2P Require Import Prelude KList Mm UtilsFacts Io Fs KState Sched.
From S2P Require Import Sem Devices Sys Interrupt Queues SchedFacts SemFacts Quiet.
From S2P Require Import KernelInv ExitFacts ForkFacts Boot FsFacts FsOps Kernel States.

(** C1: In every state the kernel reaches from boot - through system calls and
    page faults of living processes while a pid is left to give, clock and keyboard
    interrupts and user stores, in any order - every queue is a well formed list, a task is in one
    queue at most and exactly when it is alive, process 0 is runnable, pids are
    distinct, and a semaphore with sleepers counts 0. *)
Theorem reachable_invariant ta tb k : reachable ta tb k → kinv k.
Proof.
  intros (k0 & Hboot & Hsteps).
  apply (star_invariant kstep kinv kinv_kstep k0 k Hsteps), (kinv_boot _ _ _ Hboot).
Qed.

(** A state reached by a clock interrupt. *)
Lemma reachable_invariant_witness :
  ∃ k, reachable boot_task_addr boot_table_addr k ∧ cur (sched k) = 0 ∧ kinv k.
Proof.
  destruct booted as (k0 & q & H0). destruct (solo_task _ _ H0) as (v & Hv & _).
  assert (wp (clock_interrupt 7) k0 (λ _ k', cur (sched k') = 0) (λ k', cur (sched k') = 0)) as H.
  { eapply wp_clock_interrupt; [apply H0|apply H0|exact Hv| |].
    - intros k1 k' Hgo (_ & _ & _ & _ & _ & _ & Ec & _) _. rewrite Ec.
      destruct Hgo; apply H0.
    - intros h' t rest k' _ Hne Hrot _ _ _ _. exfalso. revert Hrot. unfold rotated, qmove.
      case_bool_decide; rewrite ?(so_cur _ _ H0), ?(solo_runqueue _ _ H0) in *.
      + by intros [= <- _].
      + rewrite !fn_lookup_insert. simpl. by intros [= <- _]. }
  unfold wp in H. destruct (clock_interrupt 7 k0) as [[] k|k| | |] eqn:E; try done; exists k.
  - assert (reachable boot_task_addr boot_table_addr k) as Hr.
    { exists k0. split; [apply H0|]. eapply star_step; [apply star_refl|].
      eapply (step_clock 7). left. by exists (). }
    split; [exact Hr|]. split; [exact H|]. exact (reachable_invariant _ _ _ Hr).
  - assert (reachable boot_task_addr boot_table_addr k) as Hr.
    { exists k0. split; [apply H0|]. eapply star_step; [apply star_refl|].
      eapply (step_clock 7). by right. }
    split; [exact Hr|]. split; [exact H|]. exact (reachable_invariant _ _ _ Hr).
Defined.

(** C6: A clock interrupt never fails.  It charges the tick to the running
    process; while the slice lasts, or when nobody else is runnable, that
    process goes on, and otherwise it goes to the end of the run queue and the
    first process of the queue is resumed.  The interrupt controller gets its
    end of interrupt on both paths. *)
Theorem clock_interrupt_correct eax k q v :
  shape k → qinv (qview_of k) q → zlookup (task k) (cur (sched k)) = Some v →
  wp (clock_interrupt eax) k
    (λ _ k', in_service (sched k') = false ∧
             ∃ k1, goes_on eax v q k k1 ∧ same_but_display k1 k')
    (λ k', in_service (sched k') = false ∧ s32 (left4current (sched k) - 1) ≤ 0 ∧
       ∃ h' t rest, q Runqueue ≠ [t] ∧ rotated k q v Runqueue = t :: rest ∧
         resumed t (update ItIsInt 1 (set_lists h' (ticked eax v k))) k' ∧
         qinv (qview_of k') (rotated k q v)).
Proof.
  intros Hs Hq Hv. eapply wp_clock_interrupt; [done..| |].
  - intros k1 k' ? ? ?. split; [done|]. by exists k1.
  - intros h' t rest k' ? ? ? ? ? ? ?. split_and!; [done..|]. by exists h', t, rest.
Qed.

(** Two runnable processes, the second of which runs. *)
Lemma clock_interrupt_correct_witness :
  ∃ k q v, duo k q v ∧
  wp (clock_interrupt 7) k
    (λ _ k', in_service (sched k') = false ∧
             ∃ k1, goes_on 7 v q k k1 ∧ same_but_display k1 k')
    (λ k', in_service (sched k') = false ∧ s32 (left4current (sched k) - 1) ≤ 0 ∧
       ∃ h' t rest, q Runqueue ≠ [t] ∧ rotated k q v Runqueue = t :: rest ∧
         resumed t (update ItIsInt 1 (set_lists h' (ticked 7 v k))) k' ∧
         qinv (qview_of k') (rotated k q v)).
Proof.
  destruct with_child as (k & q & v & H). exists k, q, v. split; [exact H|].
  apply (clock_interrupt_correct 7 k q v); [apply H|apply H|]. rewrite (du_cur _ _ _ H). apply H.
Defined.

(** C7: [task_switch(t)] never returns: it resumes [t], with its quantum as new
    slice, the kernel stack of [t] in the task state segment, the data pages of
    [t] mapped to its frames, the TLB flushed, and the end of interrupt sent if
    and only if an interrupt is being served. *)
Theorem task_switch_correct t v k :
  shape k → zlookup (task k) t = Some v →
  wp (task_switch t) k (λ _ _, False)
    (λ k', resumed t k k' ∧
       ∀ i f a, 0 ≤ i < NUM_PAG_DATA → zlookup (ph_pages v) i = Some f → 0 ≤ a < PAGE_SIZE →
         phys_of (mm k') (PAGE_SIZE * (PAG_LOG_INIT_DATA_P0 + i) + a) = Some (f * PAGE_SIZE + a)).
Proof.
  intros Hs Hv. eapply wp_task_switch; [done|done|]. intros k' Hk'. split; [done|].
  intros i f a Hi Hf Ha. destruct Hk' as [w m' Hw Hm _ ->]. simplify_eq. simpl.
  pose proof (task_shape_frame _ _ _ (sh_task _ Hs _ _ Hv) Hf) as Hr. unfold TOTAL_PAGES in Hr.
  pose proof (mp_mapped _ _ _ _ _ Hm i f Hi Hf) as Hmap. rewrite u32_small in Hmap by lia.
  apply phys_of_user_page; [done|lia|done].
Qed.

Lemma task_switch_correct_witness :
  ∃ k q v, duo k q v ∧
  wp (task_switch 1) k (λ _ _, False)
    (λ k', resumed 1 k k' ∧
       ∀ i f a, 0 ≤ i < NUM_PAG_DATA → zlookup (ph_pages v) i = Some f → 0 ≤ a < PAGE_SIZE →
         phys_of (mm k') (PAGE_SIZE * (PAG_LOG_INIT_DATA_P0 + i) + a) = Some (f * PAGE_SIZE + a)).
Proof.
  destruct with_child as (k & q & v & H). exists k, q, v. split; [exact H|].
  apply (task_switch_correct 1 v k); apply H.
Defined.

(** [schedule] does nothing while the slice lasts; at its end it gives a
    new slice to the only runnable process, or moves the running process, if it
    is alive, to the end of the run queue and resumes the first of the queue.
    The invariant of the queues holds again at the switch. *)
Theorem schedule_correct from_int k q v :
  shape k → qinv (qview_of k) q → zlookup (task k) (cur (sched k)) = Some v →
  wp (schedule from_int) k
    (λ _ k', 0 < left4current (sched k) ∧ k' = k ∨
             left4current (sched k) ≤ 0 ∧ (∃ t, q Runqueue = [t]) ∧ k' = new_slice v k)
    (λ k', left4current (sched k) ≤ 0 ∧
       ∃ h' t rest, q Runqueue ≠ [t] ∧ rotated k q v Runqueue = t :: rest ∧
         resumed t (update ItIsInt from_int (set_lists h' k)) k' ∧
         qinv (qview_of k') (rotated k q v)).
Proof.
  intros Hs Hq Hv. eapply wp_schedule; [done..| | |].
  - auto.
  - intros t ? ?. right. split_and!; [done|by exists t|done].
  - intros h' t rest k' ? ? ? ? ? ?. split; [done|]. by exists h', t, rest.
Qed.

Lemma schedule_correct_witness :
  ∃ k q v, duo k q v ∧
  wp (schedule 1) k
    (λ _ k', 0 < left4current (sched k) ∧ k' = k ∨
             left4current (sched k) ≤ 0 ∧ (∃ t, q Runqueue = [t]) ∧ k' = new_slice v k)
    (λ k', left4current (sched k) ≤ 0 ∧
       ∃ h' t rest, q Runqueue ≠ [t] ∧ rotated k q v Runqueue = t :: rest ∧
         resumed t (update ItIsInt 1 (set_lists h' k)) k' ∧
         qinv (qview_of k') (rotated k q v)).
Proof.
  destruct with_child as (k & q & v & H). exists k, q, v. split; [exact H|].
  apply (schedule_correct 1 k q v); [apply H|apply H|]. rewrite (du_cur _ _ _ H). apply H.
Defined.

(** C10: [sys_exit] does nothing in process 0.  Otherwise the process loses its
    pid, its frames become free and no other frame does, and the semaphores it
    owned are destroyed; then the first process of the run queue is resumed if
    it holds two processes at least, and else the call returns. *)
Theorem sys_exit_correct k q v :
  shape k → qinv (qview_of k) q → zlookup (task k) (cur (sched k)) = Some v → 0 ≤ pid v →
  wp sys_exit k
    (λ _ k', pid v = 0 ∧ k' = k ∨
             0 < pid v ∧ gone k (cur (sched k)) v k' ∧ cur (sched k') = cur (sched k) ∧
             ∃ q' t, qinv (qview_of k') q' ∧ q' Runqueue = [t])
    (λ k', 0 < pid v ∧ gone k (cur (sched k)) v k' ∧
           ∃ q' t t' rest, qinv (qview_of k') q' ∧ q' Runqueue = t :: t' :: rest ∧
                           cur (sched k') = t).
Proof.
  intros Hs Hq Hv Hp. eapply wp_sys_exit; [done..| | |].
  - auto.
  - intros k' q' t ? ? ? ? ? ?. right. split_and!; [done..|]. by exists q', t.
  - intros k' q' t t' rest ? ? ? ? ? ?. split_and!; [done..|]. by exists q', t, t', rest.
Qed.

Lemma sys_exit_correct_witness :
  ∃ k q v, duo k q v ∧
  wp sys_exit k
    (λ _ k', pid v = 0 ∧ k' = k ∨
             0 < pid v ∧ gone k (cur (sched k)) v k' ∧ cur (sched k') = cur (sched k) ∧
             ∃ q' t, qinv (qview_of k') q' ∧ q' Runqueue = [t])
    (λ k', 0 < pid v ∧ gone k (cur (sched k)) v k' ∧
           ∃ q' t t' rest, qinv (qview_of k') q' ∧ q' Runqueue = t :: t' :: rest ∧
                           cur (sched k') = t).
Proof.
  destruct with_child as (k & q & v & H). exists k, q, v. split; [exact H|].
  apply (sys_exit_correct k q v); [apply H|apply H| |].
  - rewrite (du_cur _ _ _ H). apply H.
  - rewrite (du_pid _ _ _ H). lia.
Defined.

(** A queue of a system in which only process 0 is alive has one process. *)
Lemma only_init_alive k q l t t' rest :
  qinv (qview_of k) q → pid <$> task k = l → (∀ i p, zlookup l i = Some p → 0 ≤ p → i = 0) →
  q Runqueue ≠ t :: t' :: rest.
Proof.
  intros Hq El Hl Hrun. pose proof (queues_ok_NoDup _ _ _ Runqueue (qi_ok _ _ Hq)) as Hnd.
  assert (∀ i, i ∈ q Runqueue → i = 0) as Hall.
  { intros i Hi. destruct (qi_alive _ _ Hq _ _ Hi) as (p & Hp & ? & _). simpl in Hp.
    rewrite El in Hp. by eapply Hl. }
  rewrite Hrun in Hall, Hnd. rewrite (Hall t), (Hall t') in Hnd by set_solver.
  apply NoDup_cons in Hnd as [Hnd _]. set_solver.
Qed.

(** C11: When the process that exits is the only one besides process 0, its
    [sys_exit] returns: [schedule] finds one process in the run queue and does
    not switch, so the dead process goes on, on frames that are free. *)
Theorem exit_leaves_dead_process_running k q v :
  shape k → qinv (qview_of k) q → zlookup (task k) (cur (sched k)) = Some v → 0 < pid v →
  (∀ i p, zlookup (pid <$> task k) i = Some p → 0 ≤ p → i = 0 ∨ i = cur (sched k)) →
  returns sys_exit k (λ _ k', cur (sched k') = cur (sched k) ∧
    pid <$> zlookup (task k') (cur (sched k')) = Some (-1) ∧
    ∀ f, f ∈ ph_pages v → zlookup (phys_mem (mm k')) f = Some FREE_FRAME).
Proof.
  intros Hs Hq Hv Hp Hall. apply wp_returns.
  assert (0 ≤ cur (sched k) < zlen (pid <$> task k)) as Hr by (rewrite zlen_fmap; eauto with arrays).
  eapply wp_sys_exit; [done..|lia|lia| |].
  - intros k' q' t _ [Gp Gf _ _] Ec _ _ _. rewrite Ec. split_and!; [done| |done].
    rewrite <-zlookup_fmap, Gp. by apply zlookup_zinsert_eq.
  - intros k' q' t t' rest _ [Gp _ _ _] _ Hq' Hrun _.
    revert Hrun. eapply only_init_alive; [exact Hq'|exact Gp|].
    intros i p. rewrite zlookup_zinsert by done. case_decide; [intros [= <-]; lia|].
    intros Hi Hpos. destruct (Hall _ _ Hi Hpos); [done|congruence].
Qed.

Lemma exit_leaves_dead_process_running_witness :
  ∃ k q v, duo k q v ∧
  returns sys_exit k (λ _ k', cur (sched k') = cur (sched k) ∧
    pid <$> zlookup (task k') (cur (sched k')) = Some (-1) ∧
    ∀ f, f ∈ ph_pages v → zlookup (phys_mem (mm k')) f = Some FREE_FRAME).
Proof.
  destruct with_child as (k & q & v & H). exists k, q, v. split; [exact H|].
  apply (exit_leaves_dead_process_running k q v); [apply H|apply H| | |].
  - rewrite (du_cur _ _ _ H). apply H.
  - rewrite (du_pid _ _ _ H). lia.
  - intros i p Hi Hp. rewrite (du_cur _ _ _ H).
    apply (qi_live _ _ (du_inv _ _ _ H)) in Hi. apply Hi in Hp as [hd Hin].
    destruct hd as [| |n|t].
    + rewrite (du_run _ _ _ H) in Hin. set_solver.
    + exfalso. pose proof (du_keyboard _ _ _ H) as E. rewrite E in Hin. set_solver.
    + exfalso. rewrite (du_sleep _ _ _ H) in Hin. set_solver.
    + exfalso. by apply (qi_active _ _ (du_inv _ _ _ H)) in Hin.
Defined.

(** The data pages of process 0 are mapped, until the first switch away
    from it, to other frames than those its task structure records: [boot]
    allocates two sets of frames, so that resuming process 0 gives it other
    memory. *)
Theorem boot_maps_other_frames k q :
  solo k q →
  ∃ v, zlookup (task k) 0 = Some v ∧
    ∀ k', resumed 0 k k' → ∀ i a, 0 ≤ i < NUM_PAG_DATA → 0 ≤ a < PAGE_SIZE →
      let addr := PAGE_SIZE * (PAG_LOG_INIT_DATA_P0 + i) + a in
      is_Some (phys_of (mm k) addr) ∧ phys_of (mm k') addr ≠ phys_of (mm k) addr.
Proof.
  intros Hk. destruct (solo_task _ _ Hk) as (v & Hv & _ & Hp & _). rewrite (so_cur _ _ Hk) in Hv.
  exists v. split; [done|]. intros k' [w m' Hw Hm _ ->] i a Hi Ha. assert (w = v) as -> by congruence. simpl.
  pose proof (solo_address_space _ _ Hk) as [Had Hr _].
  rewrite (phys_of_user_page _ _ _ _ (Had i Hi)) by auto.
  assert (zlookup (ph_pages v) i = Some (304 + 2 * i)) as Hf.
  { rewrite Hp. unfold boot_pages. rewrite zlookup_fmap. unfold zlookup.
    rewrite decide_True, lookup_seqZ_lt by (unfold NUM_PAG_DATA in *; lia). simpl. f_equal. lia. }
  pose proof (mp_mapped _ _ _ _ _ Hm i _ Hi Hf) as Hmap.
  unfold NUM_PAG_DATA in *. rewrite u32_small in Hmap by lia.
  rewrite (phys_of_user_page _ _ _ _ Hmap) by lia.
  split; [done|]. unfold boot_frame, PAGE_SIZE in *. intros [=]. lia.
Qed.

Lemma boot_maps_other_frames_witness :
  ∃ k q, solo k q ∧ ∃ v, zlookup (task k) 0 = Some v ∧
    ∀ k', resumed 0 k k' → ∀ i a, 0 ≤ i < NUM_PAG_DATA → 0 ≤ a < PAGE_SIZE →
      let addr := PAGE_SIZE * (PAG_LOG_INIT_DATA_P0 + i) + a in
      is_Some (phys_of (mm k) addr) ∧ phys_of (mm k') addr ≠ phys_of (mm k) addr.
Proof.
  destruct booted as (k & q & H). exists k, q. split; [exact H|].
  apply (boot_maps_other_frames k q H).
Defined.
