(* ===== verification/SemProps.v ===== *)
(** * Properties of the semaphores: each operation on every branch, in any
    state that satisfies the invariant of the queues. *)
From stdpp Require Import functions.
From S2P Require Import Prelude KList Mm Fs KState Sched Sem Queues.
From S2P Require Import SchedFacts SemFacts Kernel States.

(** C14: [sem_wait] of process 0 is refused, and so is that of an invalid or
    uninitialised semaphore; on a positive count it decrements and returns 0;
    on 0 the caller leaves the run queue for the end of the semaphore's list
    and the first runnable process is resumed.  The call does nothing else. *)
Theorem sys_sem_wait_correct k q n v :
  shape k → qinv (qview_of k) q → zlookup (task k) (cur (sched k)) = Some v → pid v ≠ -1 →
  wp (sys_sem_wait n) k
    (λ r k', wait_post k n r k' ∧ qinv (qview_of k') q ∧ shape k')
    (λ k', ∃ q', wait_blocked k q n k' q' ∧ qinv (qview_of k') q' ∧ shape k').
Proof. intros. eapply wp_sys_sem_wait; [done..|auto|eauto]. Qed.

Lemma sys_sem_wait_correct_witness :
  ∃ k q v, sem_at k 3 (Semaphore 0 1) ∧ zlookup (task k) 1 = Some v ∧ cur (sched k) = 1 ∧
  wp (sys_sem_wait 3) k
    (λ r k', wait_post k 3 r k' ∧ qinv (qview_of k') q ∧ shape k')
    (λ k', ∃ q', wait_blocked k q 3 k' q' ∧ qinv (qview_of k') q' ∧ shape k').
Proof.
  destruct with_sem as (k & q & v & Hs & Hq & Hsem & Hcur & Hv & Hp & _).
  exists k, q, v. split; [exact Hsem|]. split; [exact Hv|]. split; [exact Hcur|].
  apply (sys_sem_wait_correct k q 3 v Hs Hq); [by rewrite Hcur|rewrite Hp; lia].
Defined.

(** C15: [sem_signal] refuses an invalid or uninitialised semaphore.  When
    processes sleep on it, the one that came first - and no other - goes to the
    end of the run queue, its [sem_wait] to return 0, and the count stays 0;
    otherwise the count goes up by one, modulo 2^32. *)
Theorem sys_sem_signal_correct k q n :
  shape k → qinv (qview_of k) q →
  returns (sys_sem_signal n) k (λ r k',
    ∃ q', signal_post k q n r k' q' ∧ qinv (qview_of k') q' ∧ shape k').
Proof.
  intros Hs Hq. apply wp_returns. eapply wp_sys_sem_signal; [done..|]. eauto.
Qed.

(** Process 1 is woken. *)
Lemma sys_sem_signal_correct_witness :
  ∃ k q, asleep k q ∧ returns (sys_sem_signal 3) k (λ r k',
    ∃ q', signal_post k q 3 r k' q' ∧ qinv (qview_of k') q' ∧ shape k').
Proof.
  destruct with_sleeper as (k & q & H). exists k, q. split; [exact H|].
  apply (sys_sem_signal_correct k q 3); apply H.
Defined.

(** [sem_init] refuses a number out of range and a semaphore in use; it
    initialises a free one with the value, empties its list and makes the
    caller its owner. *)
Theorem sys_sem_init_correct k q n value :
  shape k → qinv (qview_of k) q → 0 ≤ value < 2 ^ 32 →
  returns (sys_sem_init n value) k (λ r k',
    init_post k n value r k' ∧ qinv (qview_of k') q ∧ shape k').
Proof.
  intros Hs Hq Hv. apply wp_returns. eapply wp_sys_sem_init; [done..|]. auto.
Qed.

Lemma sys_sem_init_correct_witness :
  ∃ k q, solo k q ∧ returns (sys_sem_init 5 2) k (λ r k',
    init_post k 5 2 r k' ∧ qinv (qview_of k') q ∧ shape k').
Proof.
  destruct booted as (k & q & H). exists k, q. split; [exact H|].
  apply sys_sem_init_correct; [apply H|apply H|lia].
Defined.

(** C16: [sem_destroy] refuses an invalid or uninitialised semaphore and one
    the caller does not own.  Otherwise every sleeper, in order of arrival,
    goes to the end of the run queue with -1 as the result of its [sem_wait],
    the semaphore is no longer initialised and the caller no longer owns it. *)
Theorem sys_sem_destroy_correct k q n :
  shape k → qinv (qview_of k) q →
  returns (sys_sem_destroy n) k (λ r k',
    ∃ q', destroy_post k q n r k' q' ∧ qinv (qview_of k') q' ∧ shape k').
Proof.
  intros Hs Hq. apply wp_returns. eapply wp_sys_sem_destroy; [done..|]. eauto.
Qed.

Lemma sys_sem_destroy_correct_witness :
  ∃ k q v, zlookup (task k) (cur (sched k)) = Some v ∧ zlookup (owned_sems v) 3 = Some 1 ∧
  returns (sys_sem_destroy 3) k (λ r k',
    ∃ q', destroy_post k q 3 r k' q' ∧ qinv (qview_of k') q' ∧ shape k').
Proof.
  destruct with_sem as (k & q & v & Hs & Hq & Hsem & Hcur & Hv & Hp & Ho & _).
  exists k, q, v. split; [by rewrite Hcur|]. split; [exact Ho|].
  apply (sys_sem_destroy_correct k q 3 Hs Hq).
Defined.

(** Signals, one after the other. *)
Fixpoint signals (n : nat) (n_sem : Z) : M kstate unit :=
  match n with
  | O => ret ()
  | S n => sys_sem_signal n_sem;; signals n n_sem
  end.

Lemma woken_first r t l v ts ts' :
  zlookup ts t = Some v → woken r l (zinsert t (t_saved_eax r v) ts) ts' → woken r (t :: l) ts ts'.
Proof.
  intros Hv [Hlen Hw]. rewrite zlen_zinsert in Hlen. split; [done|]. intros t' v' Hv'.
  destruct (decide (t' = t)) as [->|Hne].
  - assert (v' = v) as -> by congruence. rewrite decide_True by set_solver.
    rewrite (Hw t (t_saved_eax r v)) by (apply zlookup_zinsert_eq; eauto with arrays).
    by case_decide.
  - rewrite (Hw t' v') by by rewrite zlookup_zinsert_ne. repeat case_decide; set_solver.
Qed.

Lemma wp_signals n l1 l2 k q s (Q : unit → kstate → Prop) X :
  shape k → qinv (qview_of k) q → sem_at k n s → q (WaitList n) = l1 ++ l2 →
  (∀ k' q', qinv (qview_of k') q' → sem k' = sem k → q' (WaitList n) = l2 →
     q' Runqueue = q Runqueue ++ l1 →
     woken 0 l1 (task k) (task k') → Q () k') →
  wp (signals (length l1) n) k Q X.
Proof.
  revert k q Q. induction l1 as [|t l1 IH]; intros k q Q Hs Hq Hsem Hl HQ; simpl.
  { apply wp_ret, (HQ k q); [done|done|done|by rewrite app_nil_r|apply woken_nil]. }
  apply wp_bind. eapply wp_sys_sem_signal; [done..|]. intros r k1 q1 Hpost Hq1 Hs1.
  destruct Hpost as [Hno|s0 t0 v l h' q' _ Hv Hd|s0 _ He].
  - by destruct (Hno s).
  - destruct Hd as [Hfrom Hfrom' Hto Hother]. rewrite Hl in Hfrom. injection Hfrom as <- <-.
    apply (IH _ q'); [done|done|done|done|]. intros k2 q2 Hq2 Esem Hw Hrun Hwk.
    apply (HQ k2 q2); [done|done|done|by rewrite Hrun, Hto, <-app_assoc|].
    by eapply woken_first.
  - by rewrite Hl in He.
Qed.

(** C17: A process that sleeps on a semaphore is not overtaken: after as many
    signals as there are processes up to it, these processes and no others are
    at the end of the run queue, in their order of arrival, each to return 0
    from its [sem_wait], and the later ones still sleep. *)
Theorem signals_wake_in_order n l1 l2 k q s :
  shape k → qinv (qview_of k) q → sem_at k n s → q (WaitList n) = l1 ++ l2 →
  returns (signals (length l1) n) k (λ _ k', ∃ q',
    qinv (qview_of k') q' ∧ sem k' = sem k ∧ q' Runqueue = q Runqueue ++ l1 ∧
    q' (WaitList n) = l2 ∧ woken 0 l1 (task k) (task k')).
Proof.
  intros Hs Hq Hsem Hl. apply wp_returns. eapply wp_signals; [done..|].
  intros k' q' ? ? ? ? ?. by exists q'.
Qed.

Lemma signals_wake_in_order_witness :
  ∃ k q, asleep k q ∧ returns (signals 1 3) k (λ _ k', ∃ q',
    qinv (qview_of k') q' ∧ sem k' = sem k ∧ q' Runqueue = q Runqueue ++ [1] ∧
    q' (WaitList 3) = [] ∧ woken 0 [1] (task k) (task k')).
Proof.
  destruct with_sleeper as (k & q & H). exists k, q. split; [exact H|].
  apply (signals_wake_in_order 3 [1] [] k q (Semaphore 0 1)); apply H.
Defined.
