(* ===== verification/MemProps.v ===== *)
(** * Properties of the memory management: frames, the page table, the copy of
    user data, and the checks on user pointers. *)
From S2P Require Import Prelude Mm Utils.

(** C18: [alloc_frame] always returns.  It marks as used, and returns, the
    first free frame with an even number from the end of the kernel on; when
    there is none it returns -1 and changes nothing. *)
Theorem alloc_frame_correct m :
  zlen (phys_mem m) = TOTAL_PAGES → returns alloc_frame m (alloc_frame_post m).
Proof. intros. apply wp_returns, wp_alloc_frame; auto. Qed.

Lemma alloc_frame_correct_witness : returns alloc_frame mm_bss (alloc_frame_post mm_bss).
Proof. apply alloc_frame_correct. by vm_compute. Defined.

(** C19: After [set_ss_pag(page, frame)] every address of the page is that of
    the same byte of the frame, for reading and writing by the user, no address
    of another page moves, and the TLB is known to be stale for that page
    only. *)
Theorem set_ss_pag_maps page frame m :
  0 ≤ page < zlen (pagusr_table m) → 0 ≤ frame < 2 ^ 20 →
  returns (set_ss_pag page frame) m (λ _ m',
    (∀ a, 0 ≤ a < PAGE_SIZE → phys_of m' (PAGE_SIZE * page + a) = Some (frame * PAGE_SIZE + a)) ∧
    (∀ addr, Z.shiftr addr 12 ≠ page → phys_of m' addr = phys_of m addr) ∧
    (∃ e, zlookup (pagusr_table m') page = Some e ∧ present e = 1 ∧ rw e = 1 ∧ user e = 1) ∧
    stale m' = {[page]} ∪ stale m ∧ ram m' = ram m ∧ phys_mem m' = phys_mem m).
Proof.
  intros Hp Hf. apply wp_returns, wp_set_ss_pag; [done|]. split_and!; try done.
  - intros a Ha. apply phys_of_user_page; [simpl; by apply zlookup_zinsert_eq|done|done].
  - intros addr Ha. unfold phys_of. simpl. by rewrite zlookup_zinsert_ne.
  - exists (user_pte frame). simpl. split_and!.
    + by apply zlookup_zinsert_eq.
    + apply user_pte_present.
    + apply user_pte_rw.
    + unfold user_pte. by solve_pte.
Qed.

Lemma set_ss_pag_maps_witness :
  returns (set_ss_pag 264 300) mm_bss (λ _ m',
    (∀ a, 0 ≤ a < PAGE_SIZE → phys_of m' (PAGE_SIZE * 264 + a) = Some (300 * PAGE_SIZE + a)) ∧
    (∀ addr, Z.shiftr addr 12 ≠ 264 → phys_of m' addr = phys_of mm_bss addr) ∧
    (∃ e, zlookup (pagusr_table m') 264 = Some e ∧ present e = 1 ∧ rw e = 1 ∧ user e = 1) ∧
    stale m' = {[264]} ∪ stale mm_bss ∧ ram m' = ram mm_bss ∧ phys_mem m' = phys_mem mm_bss).
Proof. apply set_ss_pag_maps; [by vm_compute|lia]. Defined.

(** C20: [copy_data], by double words and then by bytes, copies exactly the
    [n] bytes: between two ranges of logical memory whose physical bytes are
    apart, the destination ends up with the bytes of the source and every other
    byte of memory keeps its value. *)
Theorem copy_data_copies start dest n m (ps pd : Z → Z) :
  0 ≤ n →
  (∀ i, 0 ≤ i < n → phys_of m (start + i) = Some (ps i)) →
  (∀ i, 0 ≤ i < n → phys_of m (dest + i) = Some (pd i)) →
  (∀ i j, 0 ≤ i < n → 0 ≤ j < n → ps i ≠ pd j) →
  (∀ i j, 0 ≤ i < n → 0 ≤ j < n → pd i = pd j → i = j) →
  returns (copy_data (λ i, load_byte (start + i)) (λ i, store_byte (dest + i)) n) m (λ _ m',
    ∃ r, m' = set_ram r m ∧
    (∀ i, 0 ≤ i < n → ram_byte m' (pd i) = ram_byte m (ps i)) ∧
    (∀ pa, (∀ i, 0 ≤ i < n → pa ≠ pd i) → ram_byte m' pa = ram_byte m pa)).
Proof.
  intros ? ? ? ? ?. apply wp_returns, (wp_copy_memory _ _ _ _ ps pd); try done.
  intros r ? ?. by exists r.
Qed.

(** Seven bytes of one page to another: one double word and three bytes. *)
Definition two_pages : mm_state :=
  set_ram {[ 300 * 4096 := 65; 300 * 4096 + 6 := 66 ]}
    (set_pagusr_table (zinsert 264 (user_pte 300) (zinsert 265 (user_pte 302) (pagusr_table mm_bss)))
      mm_bss).

Lemma copy_data_copies_witness :
  returns (copy_data (λ i, load_byte (264 * 4096 + i)) (λ i, store_byte (265 * 4096 + i)) 7) two_pages
    (λ _ m', ∃ r, m' = set_ram r two_pages ∧
      (∀ i, 0 ≤ i < 7 → ram_byte m' (302 * 4096 + i) = ram_byte two_pages (300 * 4096 + i)) ∧
      (∀ pa, (∀ i, 0 ≤ i < 7 → pa ≠ 302 * 4096 + i) → ram_byte m' pa = ram_byte two_pages pa)).
Proof.
  apply (copy_data_copies (264 * 4096) (265 * 4096) 7 two_pages
    (λ i, 300 * 4096 + i) (λ i, 302 * 4096 + i)).
  - lia.
  - intros i Hi. apply (phys_of_user_page two_pages 264 300); [by vm_compute|lia|].
    unfold PAGE_SIZE. lia.
  - intros i Hi. apply (phys_of_user_page two_pages 265 302); [by vm_compute|lia|].
    unfold PAGE_SIZE. lia.
  - intros. lia.
  - intros. lia.
Defined.

(** [check_address] accepts exactly the addresses from the start of the
    user region to one byte past its end, and the sizes up to that of the whole
    region; it does not look at where the block ends. *)
Theorem check_address_bounds addr size :
  0 ≤ addr < 2 ^ 32 → 0 ≤ size < 2 ^ 32 →
  check_address addr size =
  if bool_decide (L_USER_START ≤ addr ≤ L_USER_START + (NUM_PAG_CODE + NUM_PAG_DATA) * PAGE_SIZE ∧
                  size ≤ (NUM_PAG_CODE + NUM_PAG_DATA) * PAGE_SIZE)
  then 1 else 0.
Proof.
  intros Ha Hs. unfold check_address. rewrite (u32_small addr), (u32_small size) by done.
  change (u32 ((NUM_PAG_CODE + NUM_PAG_DATA) * PAGE_SIZE)) with 114688.
  change ((NUM_PAG_CODE + NUM_PAG_DATA) * PAGE_SIZE) with 114688.
  change (u32 (L_USER_START + 114688)) with (L_USER_START + 114688).
  repeat case_bool_decide; simpl; try done; lia.
Qed.

Lemma check_address_bounds_witness :
  check_address 0x11c000 114688 =
  if bool_decide (L_USER_START ≤ 0x11c000 ≤ L_USER_START + (NUM_PAG_CODE + NUM_PAG_DATA) * PAGE_SIZE ∧
                  114688 ≤ (NUM_PAG_CODE + NUM_PAG_DATA) * PAGE_SIZE)
  then 1 else 0.
Proof. apply check_address_bounds; lia. Defined.

(** The verdict of [access_ok] does not depend on the address: as it takes
    the address of its parameter instead of the parameter, two blocks of the
    same size that pass [check_address] get the same answer, mapped or not. *)
Theorem access_ok_ignores_address addr_loc type addr addr' size m :
  addr ≠ 0 → addr' ≠ 0 → check_address addr size = check_address addr' size →
  access_ok addr_loc type addr size m = access_ok addr_loc type addr' size m.
Proof.
  intros H H' Hc. unfold access_ok. rewrite (bool_decide_false (addr = 0)) by done.
  rewrite (bool_decide_false (addr' = 0)) by done. by rewrite Hc.
Qed.

(** One past the end of the region, which nothing maps, against its start. *)
Lemma access_ok_ignores_address_witness :
  access_ok 0x1c000 0 0x11c000 16 two_pages = access_ok 0x1c000 0 0x100000 16 two_pages.
Proof. by apply access_ok_ignores_address. Defined.
