(* ===== verification/TextProps.v ===== *)
(** * Properties of strings, numbers, the screen and the clock display. *)
From S2P Require Import Prelude Mm Utils Io Fs KState Interrupt UtilsFacts.
From S2P Require Import Kernel.

(** [strlen] returns the number of characters before the null, and
    changes nothing. *)
Theorem strlen_correct {S} (rd : Z → M S Z) l s :
  printable_chars l → zlen l ≤ 2 ^ 22 → reads_string rd l s (λ _, False) →
  returns (strlen rd) s (λ n s', n = zlen l ∧ s' = s).
Proof. intros. apply wp_returns. by eapply wp_strlen. Qed.

(** A string in an array, which has room for more. *)
Definition in_array {S} (l : list Z) (i : Z) : M S Z := of_option (zlookup l i).
Lemma in_array_reads {S} l rest (s : S) X :
  printable_chars l → reads_string (in_array (l ++ 0 :: rest)) l s X.
Proof.
  intros Hl i Hi. eapply wp_of_option; [|by split].
  unfold char_at. destruct (decide (i < zlen l)) as [Hlt|Hge].
  - destruct (char_at_inside l i Hl) as (c & Hc & _); [lia|]. rewrite Hc. simpl.
    unfold zlookup, zlen in *. rewrite decide_True in * by lia. rewrite lookup_app_l by lia. exact Hc.
  - replace i with (zlen l) by lia. rewrite (zlookup_None l) by lia. simpl.
    unfold zlookup, zlen. rewrite decide_True, Nat2Z.id, lookup_app_r by lia.
    by rewrite Nat.sub_diag.
Qed.

Definition printable_check (l : list Z) : bool := forallb (λ c, bool_decide (0 < c < 256)) l.
Lemma printable_check_ok l : printable_check l = true → printable_chars l.
Proof.
  intros H. apply Forall_forall. intros c Hc. unfold printable_check in H.
  rewrite forallb_forall in H. apply list_elem_of_In, H in Hc. by apply bool_decide_eq_true in Hc.
Qed.

Lemma strlen_correct_witness :
  returns (strlen (in_array (chars "DISPLAY" ++ [0; 99]))) () (λ n s', n = zlen (chars "DISPLAY") ∧ s' = ()).
Proof.
  apply (strlen_correct _ (chars "DISPLAY")).
  - apply printable_check_ok. reflexivity.
  - unfold zlen. simpl. lia.
  - apply in_array_reads, printable_check_ok. reflexivity.
Defined.

(** C22: [strcmp] compares lexicographically, characters as unsigned bytes,
    and returns 0 exactly when the strings are equal. *)
Theorem strcmp_correct {S} (rd1 rd2 : Z → M S Z) l1 l2 s :
  printable_chars l1 → printable_chars l2 → zlen l1 ≤ 2 ^ 22 →
  reads_string rd1 l1 s (λ _, False) → reads_string rd2 l2 s (λ _, False) →
  returns (strcmp rd1 rd2) s (λ r s', r = string_compare l1 l2 ∧ (r = 0 ↔ l1 = l2) ∧ s' = s).
Proof.
  intros. apply wp_returns. apply (wp_strcmp _ _ l1 l2); [done..|].
  split; [done|]. split; [apply string_compare_eq|done].
Qed.

Lemma strcmp_correct_witness :
  returns (strcmp (in_array (chars "DISPLAY" ++ [0])) (in_array (chars "DISK" ++ [0]))) ()
    (λ r s', r = string_compare (chars "DISPLAY") (chars "DISK") ∧
             (r = 0 ↔ chars "DISPLAY" = chars "DISK") ∧ s' = ()).
Proof.
  apply strcmp_correct.
  - apply printable_check_ok. reflexivity.
  - apply printable_check_ok. reflexivity.
  - unfold zlen. simpl. lia.
  - apply in_array_reads, printable_check_ok. reflexivity.
  - apply in_array_reads, printable_check_ok. reflexivity.
Defined.

(** C23: [itoa] of a positive [int] writes at the start of the buffer decimal
    digits whose value is the number, and nothing else; of 0 and of a negative
    number it writes nothing. *)
Theorem itoa_roundtrip num buff :
  num ≤ INT_MAX → 10 ≤ zlen buff →
  returns (itoa num (λ i c, aset (Lens (λ l, l) (λ l _, l)) i c)) buff (λ _ buff',
    ∃ digits, buff' = digits ++ drop (length digits) buff ∧
              Forall (λ c, 48 ≤ c ≤ 57) digits ∧
              numeral_value digits = Z.max 0 num ∧
              (num ≤ 0 → digits = [])).
Proof.
  intros Hn Hb. apply wp_returns.
  pose proof (numeral_length 10 num) as Hlen.
  apply (wp_itoa num _ (λ i l, l = take (Z.to_nat i) buff ++
    drop (Z.to_nat i) (numeral 10 num) ++ drop (length (numeral 10 num)) buff)); [done| | |].
  - intros i c l Hc ->. pose proof (zlookup_Some_range _ _ _ Hc) as Hi.
    unfold zlookup in Hc. rewrite decide_True in Hc by lia.
    set (d := numeral 10 num) in *. unfold zlen in *.
    replace (Z.to_nat (i + 1)) with (S (Z.to_nat i)) by lia.
    destruct (lookup_lt_is_Some_2 buff (Z.to_nat i)) as [b Hbi]; [lia|].
    apply wp_aset.
    + simpl. unfold zlen. rewrite !length_app, length_take, !length_drop. lia.
    + simpl. rewrite (take_S_r _ _ _ Hbi), <-app_assoc. unfold zinsert. rewrite decide_True by lia.
      rewrite insert_app_r_alt by (rewrite length_take; lia).
      rewrite length_take_le by lia. rewrite Nat.sub_diag. simpl.
      by rewrite (drop_S _ _ _ Hc).
  - unfold zlen. rewrite Nat2Z.id, drop_all. simpl. by rewrite take_drop.
  - intros l ->. exists (numeral 10 num). split_and!.
    + done.
    + apply numeral_digits.
    + destruct (decide (num ≤ 0)) as [Hle|Hgt].
      * rewrite numeral_nonpos by done. rewrite Z.max_l by done. done.
      * rewrite numeral_value_numeral by (unfold INT_MAX in *; simpl; lia). lia.
    + intros. by apply numeral_nonpos.
Qed.

Lemma itoa_roundtrip_witness :
  returns (itoa 2024 (λ i c, aset (Lens (λ l, l) (λ l _, l)) i c)) (replicate 12 0) (λ _ buff',
    ∃ digits, buff' = digits ++ drop (length digits) (replicate 12 0) ∧
              Forall (λ c, 48 ≤ c ≤ 57) digits ∧
              numeral_value digits = Z.max 0 2024 ∧
              (2024 ≤ 0 → digits = [])).
Proof. apply itoa_roundtrip; [unfold INT_MAX; lia|unfold zlen; simpl; lia]. Defined.

(** The cursor is within the columns of the screen. *)
Definition cursor_ok (s : io_state) : Prop := 0 ≤ x s < NUM_COLUMNS ∧ 0 ≤ y s < 256.

(** C24: The cursor stays within the columns of the screen, and below 256 rows
    as it is a byte.  [printc] copies the character to port 0xe9; a newline
    moves the cursor to the next row without checking that there is one; any
    other character is stored, in green, in the cell under the cursor, which
    then moves right, and from the last column to the next row or, from the
    last row on, to the first. *)
Theorem printc_correct c s :
  cursor_ok s →
  returns (printc c) s (λ _ s', cursor_ok s' ∧ port_e9 s' = port_e9 s ++ [u8 c] ∧
    (c = 10 → x s' = 0 ∧ y s' = (y s + 1) mod 256 ∧ video s' = video s) ∧
    (c ≠ 10 → video s' = <[SCREEN + 2 * (y s * NUM_COLUMNS + x s) := glyph c]> (video s) ∧
      (x s < NUM_COLUMNS - 1 → x s' = x s + 1 ∧ y s' = y s) ∧
      (x s = NUM_COLUMNS - 1 → x s' = 0 ∧
         y s' = if bool_decide (y s < NUM_ROWS - 1 ∨ y s = 255) then (y s + 1) mod 256 else 0))).
Proof.
  intros [Hx Hy]. apply wp_returns. unfold NUM_COLUMNS, NUM_ROWS in *.
  pose proof (Z.mod_pos_bound (y s + 1) 256) as Hmod.
  assert (cell (x s) (y s) = SCREEN + 2 * (y s * 80 + x s)) as Hcell.
  { unfold cell, NUM_COLUMNS. rewrite u32_small; unfold SCREEN; lia. }
  assert (u8 (y s + 1) = (y s + 1) mod 256) as Hu by done.
  unfold printc. apply wp_bind. case_bool_decide as Hc.
  - repeat wp_step. unfold cursor_ok, NUM_COLUMNS. simpl. rewrite Hu. split_and!; try (done || lia).
  - repeat wp_step. simpl. rewrite Hcell.
    destruct (decide (x s = 79)) as [Ex|Ex].
    + rewrite Ex. change (u8 (79 + 1)) with 80. rewrite bool_decide_true by (unfold NUM_COLUMNS; lia).
      repeat wp_step. simpl. rewrite Hu. unfold NUM_ROWS.
      destruct (decide (25 ≤ (y s + 1) mod 256)) as [Hge|Hlt].
      * rewrite bool_decide_true by done. repeat wp_step. unfold cursor_ok, NUM_COLUMNS. simpl.
        split_and!; try (done || lia). intros _. split_and!; [done|lia|].
        intros _. split; [done|]. rewrite bool_decide_false; [done|].
        intros [?|E]; [rewrite Z.mod_small in Hge by lia; lia|by rewrite E in Hge].
      * rewrite bool_decide_false by done. repeat wp_step. unfold cursor_ok, NUM_COLUMNS. simpl.
        split_and!; try (done || lia). intros _. split_and!; [done|lia|].
        intros _. split; [done|]. rewrite bool_decide_true; [done|].
        destruct (decide (y s = 255)); [by right|left]. rewrite Z.mod_small in Hlt by lia. lia.
    + rewrite (u8_small (x s + 1)) by lia. rewrite bool_decide_false by (unfold NUM_COLUMNS; lia).
      repeat wp_step. unfold cursor_ok, NUM_COLUMNS. simpl.
      split_and!; try (done || lia).
Qed.

Lemma printc_correct_witness :
  returns (printc 65) io_init (λ _ s', cursor_ok s' ∧ port_e9 s' = port_e9 io_init ++ [u8 65] ∧
    (65 = 10 → x s' = 0 ∧ y s' = (y io_init + 1) mod 256 ∧ video s' = video io_init) ∧
    (65 ≠ 10 → video s' = <[SCREEN + 2 * (y io_init * NUM_COLUMNS + x io_init) := glyph 65]> (video io_init) ∧
      (x io_init < NUM_COLUMNS - 1 → x s' = x io_init + 1 ∧ y s' = y io_init) ∧
      (x io_init = NUM_COLUMNS - 1 → x s' = 0 ∧
         y s' = if bool_decide (y io_init < NUM_ROWS - 1 ∨ y io_init = 255)
                then (y io_init + 1) mod 256 else 0))).
Proof. apply printc_correct. unfold cursor_ok, NUM_COLUMNS. simpl. lia. Defined.

(** Every eighteenth tick since boot, while the tick counter is not
    negative, the corner of the screen shows the minutes - 0 again after 59 -
    and the seconds, two digits each; at the other ticks nothing happens. *)
Theorem clock_display_shows_time k :
  returns clock_display k (λ _ k',
    let t := tics (sched k) in
    (Z.rem t 18 ≠ 0 → k' = k) ∧
    (Z.rem t 18 = 0 → 0 ≤ t →
       video (io k') = show_xy 72 8 (clock_text (clock_minutes t) (t / 18 mod 60) ++ [0]) (video (io k)) ∧
       tics (sched k') = clock_reset t)).
Proof.
  apply wp_returns, wp_clock_display.
  - intros H. by split.
  - intros text H Htext. split; [done|]. intros _ Ht. simpl. rewrite (Htext Ht).
    by rewrite Z.quot_div_nonneg by lia.
Qed.
