(* ===== verification/EntryProps.v ===== *)
(** * Properties of the entry points: the interrupt descriptor table, the
    dispatch of system calls, the keyboard. *)
From S2P Require Import Prelude KList Mm Io Fs KState Sched Sem.
From S2P Require Import Devices Sys Interrupt Queues SchedFacts SemFacts Quiet KernelInv.
From S2P Require Import Kernel States.

(** ** The descriptors. *)

(** The entry point and the least privileged level of a gate. *)
Definition gate_handler (g : Gate) : Z := Z.lor (Z.shiftl (highOffset g) 16) (lowOffset g).
Definition gate_level (g : Gate) : Z := bits_get 13 2 (gate_flags g).

Lemma low_high_word h : 0 ≤ h < 2 ^ 32 → Z.lor (Z.shiftl (highWord h) 16) (lowWord h) = h.
Proof.
  intros Hh. unfold highWord, lowWord, u16, wrap_u. change 0xFFFF with (Z.ones 16).
  rewrite !Z.land_ones, !Z.mod_mod, Z.shiftr_div_pow2 by lia.
  rewrite (Z.mod_small (h / 2 ^ 16)).
  2: { split; [apply Z.div_pos; lia|]. apply Z.div_lt_upper_bound; lia. }
  rewrite <-Z.shiftr_div_pow2, <-Z.land_ones by lia. apply Z.bits_inj'. intros n Hn.
  rewrite Z.lor_spec, Z.land_spec, Z.shiftl_spec, Z.testbit_ones_nonneg by lia.
  destruct (Z.ltb_spec n 16).
  - by rewrite (Z.testbit_neg_r _ (n - 16)), andb_true_r by lia.
  - rewrite Z.shiftr_spec, andb_false_r, orb_false_r by lia. f_equal. lia.
Qed.

Lemma gate_decodes h pl :
  0 ≤ h < 2 ^ 32 → 0 ≤ pl < 4 →
  gate_handler (gate h pl) = h ∧ gate_level (gate h pl) = pl ∧ segmentSelector (gate h pl) = KERNEL_CS.
Proof.
  intros Hh Hpl. split; [exact (low_high_word h Hh)|]. split; [|done].
  assert (pl = 0 ∨ pl = 1 ∨ pl = 2 ∨ pl = 3) as Hpl' by lia.
  unfold gate_level, gate. cbn [gate_flags]. clear h Hh Hpl.
  destruct Hpl' as [->|[->|[->| ->]]]; by vm_compute.
Qed.

Section Idt.
Context (exception_handler : Z → Z) (clock_handler keyboard_handler system_call_handler : Z).

(** The handler and the level [setIdt] gives to a vector. *)
Definition idt_entry (v : Z) : option (Z * Z) :=
  if bool_decide (0 ≤ v < 18) then Some (exception_handler v, 0)
  else if bool_decide (v = 32) then Some (clock_handler, 0)
  else if bool_decide (v = 33) then Some (keyboard_handler, 0)
  else if bool_decide (v = 128) then Some (system_call_handler, 3)
  else None.

Definition describes (l : list Gate) (idt : list Gate) (v : Z) (e : option (Z * Z)) : Prop :=
  zlookup idt v = match e with Some (h, pl) => Some (gate h pl) | None => zlookup l v end.

Lemma wp_setHandler v h pl (idt : list Gate) (Q : unit → list Gate → Prop) X :
  0 ≤ v < zlen idt → Q () (zinsert v (gate h pl) idt) → wp (setInterruptHandler v h pl) idt Q X.
Proof using. intros. by apply wp_aset. Qed.

Lemma wp_setIdt idt :
  zlen idt = IDT_ENTRIES →
  wp (setIdt exception_handler clock_handler keyboard_handler system_call_handler) idt
    (λ _ idt', zlen idt' = IDT_ENTRIES ∧ ∀ v, describes idt idt' v (idt_entry v)) (λ _, False).
Proof using.
  intros Hlen. unfold setIdt. apply wp_bind. unfold IDT_ENTRIES in *.
  apply (wp_for_range (λ i l, zlen l = 256 ∧ ∀ v,
    zlookup l v = if bool_decide (0 ≤ v < i) then Some (gate (exception_handler v) 0) else zlookup idt v)).
  { done. } { split; [done|]. intros v. by rewrite bool_decide_false by lia. }
  { intros i l Hi [Hl Hv]. apply wp_setHandler; [lia|]. rewrite zlen_zinsert. split; [done|].
    intros v. rewrite zlookup_zinsert by lia. case_decide as Hiv.
    - subst v. by rewrite bool_decide_true by lia.
    - rewrite Hv. repeat case_bool_decide; (done || lia). }
  intros l [Hl Hv]. apply wp_bind, wp_setHandler; [lia|].
  apply wp_bind, wp_setHandler; [rewrite zlen_zinsert; lia|].
  apply wp_setHandler; [rewrite !zlen_zinsert; lia|]. rewrite !zlen_zinsert. split; [done|].
  intros v. unfold describes, idt_entry. rewrite !zlookup_zinsert by (rewrite ?zlen_zinsert; lia).
  destruct (decide (128 = v)) as [<-|]; [done|]. destruct (decide (33 = v)) as [<-|]; [done|].
  destruct (decide (32 = v)) as [<-|]; [done|]. rewrite Hv.
  repeat case_bool_decide; (done || lia).
Qed.
End Idt.

(** C25: After [setIdt] the gate of each of the 18 exceptions, of the clock, of
    the keyboard and of the system calls leads, through the code segment of the
    kernel, to its entry point; only that of the system calls can be used from
    user mode; every other descriptor is left alone. *)
Theorem setIdt_correct exc clk kbd sc idt :
  zlen idt = IDT_ENTRIES →
  (∀ v h pl, idt_entry exc clk kbd sc v = Some (h, pl) → 0 ≤ h < 2 ^ 32) →
  returns (setIdt exc clk kbd sc) idt (λ _ idt', ∀ v,
    match idt_entry exc clk kbd sc v with
    | Some (h, pl) => ∃ g, zlookup idt' v = Some g ∧ gate_handler g = h ∧ gate_level g = pl ∧
                           segmentSelector g = KERNEL_CS ∧ (gate_level g = 3 ↔ v = 128)
    | None => zlookup idt' v = zlookup idt v
    end).
Proof.
  intros Hlen Hh. apply wp_returns. eapply wp_mono; [by apply wp_setIdt| |done].
  intros [] idt' [_ Hd] v. specialize (Hd v). specialize (Hh v). unfold describes in Hd.
  destruct (idt_entry exc clk kbd sc v) as [[h pl]|] eqn:E; [|done].
  assert ((pl = 0 ∧ v ≠ 128) ∨ (pl = 3 ∧ v = 128)) as Hpl.
  { revert E. unfold idt_entry. repeat case_bool_decide; intros; simplify_eq; lia. }
  destruct (gate_decodes h pl) as (Eh & El & Es); [by eapply Hh|lia|].
  exists (gate h pl). rewrite El. split_and!; try done; lia.
Qed.

Lemma setIdt_correct_witness :
  let idt := replicate 256 (MkGate 0 0 0 0) in
  returns (setIdt (λ v, 0x10000 + 16 * v) 0x12345 0x12346 0x12347) idt (λ _ idt', ∀ v,
    match idt_entry (λ v, 0x10000 + 16 * v) 0x12345 0x12346 0x12347 v with
    | Some (h, pl) => ∃ g, zlookup idt' v = Some g ∧ gate_handler g = h ∧ gate_level g = pl ∧
                           segmentSelector g = KERNEL_CS ∧ (gate_level g = 3 ↔ v = 128)
    | None => zlookup idt' v = zlookup idt v
    end).
Proof.
  apply setIdt_correct.
  - reflexivity.
  - intros v h pl. unfold idt_entry. repeat case_bool_decide; intros [= <- <-]; lia.
Defined.

(** ** System calls. *)

(** The numbers with a routine of their own. *)
Definition implemented : list Z := [1; 2; 3; 4; 5; 6; 10; 20; 21; 22; 23; 24; 34; 35; 41].

Lemma not_implemented void nr ebx ecx edx :
  nr ∉ implemented → sys_call_table void nr ebx ecx edx = sys_ni_syscall.
Proof.
  intros Hnr. unfold sys_call_table.
  repeat (rewrite (bool_decide_false (nr = _)) by (intros ->; apply Hnr; unfold implemented; set_solver)).
  done.
Qed.

(** A system call with a number that is out of the table, negative ones
    included, or that has no routine, returns -ENOSYS to the caller and changes
    nothing else. *)
Theorem unknown_system_call void eax ebx ecx edx k v :
  zlookup (task k) (cur (sched k)) = Some v → eax ∉ implemented →
  returns (system_call_handler void eax ebx ecx edx) k (λ _ k',
    k' = set_task (zinsert (cur (sched k)) (t_saved_eax (- ENOSYS) v) (task k)) k).
Proof.
  intros Hv Hn. apply wp_returns. pose proof (zlookup_Some_range _ _ _ Hv).
  unfold system_call_handler, SAVE_ALL, current. do 3 wp_step. eapply wp_task_set; [done|].
  assert (∀ (k1 : kstate), k1 = set_task (zinsert (cur (sched k)) (t_saved_eax eax v) (task k)) k →
    wp (let! c := get Cur in task_set t_saved_eax c (- ENOSYS)) k1 (λ _ k',
      k' = set_task (zinsert (cur (sched k)) (t_saved_eax (- ENOSYS) v) (task k)) k) (λ _, False)) as Hend.
  { intros k1 ->. do 2 wp_step. eapply wp_task_set; [by apply zlookup_zinsert_eq|].
    unfold set_task. simpl. by rewrite zinsert_zinsert_eq. }
  destruct (_ || _); [by apply Hend|]. rewrite not_implemented by done.
  unfold sys_ni_syscall. apply wp_bind, wp_ret. by apply Hend.
Qed.

Lemma unknown_system_call_witness :
  ∃ k q v, duo k q v ∧
  returns (system_call_handler 0 (-7) 1 2 3) k (λ _ k',
    k' = set_task (zinsert (cur (sched k)) (t_saved_eax (- ENOSYS) v) (task k)) k).
Proof.
  destruct with_child as (k & q & v & H). exists k, q, v. split; [exact H|].
  apply unknown_system_call.
  - rewrite (du_cur _ _ _ H). apply H.
  - unfold implemented. set_solver.
Defined.

(** ** The keyboard. *)

Definition kbd_ok (b : kbd_state) : Prop := zlen (circular b) = CIRCULAR_SIZE ∧ 0 ≤ kbd_p b < CIRCULAR_SIZE.

(** The buffer after one more character. *)
Definition buffered (c : Z) (b : kbd_state) : kbd_state :=
  MkKbd (zinsert (kbd_p b) c (circular b)) (s32 (circ_chars b + 1)) ((kbd_p b + 1) mod CIRCULAR_SIZE) (start b).

Lemma buffered_ok c b : kbd_ok b → kbd_ok (buffered c b).
Proof.
  intros [Hl Hp]. split; simpl; [by rewrite zlen_zinsert|]. unfold CIRCULAR_SIZE in *.
  apply Z.mod_pos_bound. lia.
Qed.

Lemma wp_printc_runs c s (Q : unit → io_state → Prop) X :
  (∀ s', printc c s = Ret () s' → Q () s') → wp (printc c) s Q X.
Proof.
  intros HQ. assert (∃ s', printc c s = Ret () s') as [s' E].
  { assert (wp (printc c) s (λ _ _, True) (λ _, False)) as ([] & s' & E & _)%wp_returns; [|by exists s'].
    unfold printc. apply wp_bind. case_bool_decide; repeat wp_step; [done|].
    case_bool_decide; repeat wp_step; [|done]. case_bool_decide; by repeat wp_step. }
  unfold wp. rewrite E. by apply HQ.
Qed.

(** When no process waits for the keyboard, the press of a key of the map
    stores its character in the circular buffer, whose write index stays in
    range and wraps at its end, counts it and echoes it on the screen; the
    release of a key does nothing. *)
Theorem keyboard_buffers_and_echoes code c k q :
  qinv (qview_of k) q → q KeyboardQueue = [] → kbd_ok (kbd k) →
  zlookup char_map (Z.land code 0x7f) = Some c →
  returns (keyboard_routine code) k (λ _ k',
    kbd_ok (kbd k') ∧
    if bool_decide (Z.land code 0x80 = 0)
    then ∃ io', printc c (io k) = Ret () io' ∧ k' = set_io io' (set_kbd (buffered c (kbd k)) k)
    else k' = k).
Proof.
  intros Hq Hempty Hkbd Hc. apply wp_returns. pose proof Hkbd as [Hl Hp].
  unfold keyboard_routine. apply wp_bind. eapply wp_of_option; [done|].
  case_bool_decide; [|by apply wp_ret].
  apply wp_bind. wp_step. wp_step. apply wp_aset; [simpl; lia|]. simpl.
  set (k1 := set_kbd (buffered c (kbd k)) k).
  unfold step_circ_buffer. apply wp_bind, wp_bind, wp_get. simpl.
  assert (∀ (m : K unit) k2, k2 = k1 → wp (let! empty := zoom Lists (list_empty KeyboardQueueP) in
    if negb empty then m else zoom IO (printc c)) k2 (λ _ k',
      kbd_ok (kbd k') ∧ ∃ io', printc c (io k) = Ret () io' ∧ k' = set_io io' k1) (λ _, False)) as Hend.
  { intros m k2 ->. apply wp_bind. eapply (wp_empty k1 q (active (sem k))); [apply Hq|done|].
    rewrite Hempty. simpl. apply wp_zoom, wp_printc_runs. intros io' E. split; [by apply buffered_ok|].
    by exists io'. }
  unfold CIRCULAR_SIZE in *. case_bool_decide as Hlast; wp_step; apply wp_bind, wp_modify; apply Hend.
  - unfold k1, buffered, set_kbd. simpl. rewrite Hlast. done.
  - unfold k1, buffered, set_kbd. simpl. unfold CIRCULAR_SIZE.
    rewrite (s32_small (kbd_p (kbd k) + 1)) by (unfold INT_MIN, INT_MAX; lia). by rewrite Z.mod_small by lia.
Qed.

(** The keyboard of a booted system. *)
Lemma keyboard_buffers_and_echoes_witness :
  ∃ k q, solo k q ∧ returns (keyboard_routine 0x10) k (λ _ k',
    kbd_ok (kbd k') ∧
    if bool_decide (Z.land 0x10 0x80 = 0)
    then ∃ io', printc 113 (io k) = Ret () io' ∧ k' = set_io io' (set_kbd (buffered 113 (kbd k)) k)
    else k' = k).
Proof.
  destruct booted as (k & q & H). exists k, q. split; [exact H|].
  apply (keyboard_buffers_and_echoes _ _ _ q).
  - apply H.
  - apply (solo_idle _ _ _ H). done.
  - split; [exact (so_kbd_len _ _ H)|]. rewrite (so_kbd_p _ _ H). unfold CIRCULAR_SIZE. lia.
  - reflexivity.
Defined.

(** The scan codes 98 and above, pressed or released, read past the end of
    the table of characters. *)
Theorem keyboard_reads_past_map code k :
  98 ≤ Z.land code 0x7f → keyboard_routine code k = Fault.
Proof.
  intros H. unfold keyboard_routine, bind, of_option. rewrite zlookup_None; [done|].
  change (zlen char_map) with 98. lia.
Qed.

(** The Windows key, scan code 0x7d with its prefix ignored. *)
Lemma keyboard_reads_past_map_witness :
  keyboard_routine 0x7d (kstate_bss boot_task_addr) = Fault.
Proof. apply keyboard_reads_past_map. vm_compute. discriminate. Defined.
