(* ===== verification/KeyFacts.v ===== *)
(** * Delivering the characters of the keyboard to a process that waits: the
    copy through pages mapped for the occasion. *)
From stdpp Require Import functions.
From S2P Require Import Prelude KList Mm Io Fs KState Sched Devices.
From S2P Require Import Interrupt Queues SchedFacts SemFacts KernelInv Kernel.

(** The address at which the pages of another process appear. *)
Definition WINDOW : Z := PAG_LOG_INIT_DATA_P0 + NUM_PAG_DATA.

(** The byte behind [addr] in a process with these frames. *)
Definition own_phys (frames : list Z) (addr : Z) : Z :=
  default 0 (zlookup frames (Z.shiftr addr 12 - PAG_LOG_INIT_DATA_P0)) * PAGE_SIZE + addr mod PAGE_SIZE.

(** [n] bytes from [addr] on are in the data pages. *)
Definition in_data (addr n : Z) : Prop :=
  PAGE_SIZE * PAG_LOG_INIT_DATA_P0 ≤ addr ∧ addr + n ≤ PAGE_SIZE * WINDOW.

Lemma data_page addr n i : in_data addr n → 0 ≤ i < n →
  0 ≤ Z.shiftr (addr + i) 12 - PAG_LOG_INIT_DATA_P0 < NUM_PAG_DATA.
Proof.
  unfold in_data, WINDOW. change PAG_LOG_INIT_DATA_P0 with 264. unfold PAGE_SIZE, NUM_PAG_DATA. intros [H1 H2] Hi.
  rewrite Z.shiftr_div_pow2 by lia. change (2 ^ 12) with 4096.
  pose proof (Z.div_le_mono (4096 * 264) (addr + i) 4096 ltac:(lia) ltac:(lia)) as Hle.
  rewrite (Z.mul_comm 4096), Z.div_mul in Hle by lia.
  assert ((addr + i) / 4096 < 284); [apply Z.div_lt_upper_bound; lia|lia].
Qed.

Lemma own_phys_inj frames addr n i j :
  NoDup frames → zlen frames = NUM_PAG_DATA → in_data addr n → 0 ≤ i < n → 0 ≤ j < n →
  own_phys frames (addr + i) = own_phys frames (addr + j) → i = j.
Proof.
  intros Hnd Hl Hin Hi Hj. unfold own_phys.
  destruct (zlookup_range frames (Z.shiftr (addr + i) 12 - PAG_LOG_INIT_DATA_P0)) as [f Hf].
  { rewrite Hl. by eapply data_page. }
  destruct (zlookup_range frames (Z.shiftr (addr + j) 12 - PAG_LOG_INIT_DATA_P0)) as [g Hg].
  { rewrite Hl. by eapply data_page. }
  rewrite Hf, Hg. simpl. intros E.
  pose proof (Z.mod_pos_bound (addr + i) PAGE_SIZE ltac:(done)). pose proof (Z.mod_pos_bound (addr + j) PAGE_SIZE ltac:(done)).
  assert (f = g ∧ (addr + i) mod PAGE_SIZE = (addr + j) mod PAGE_SIZE) as [-> Em] by (unfold PAGE_SIZE in *; lia).
  assert (Z.shiftr (addr + i) 12 = Z.shiftr (addr + j) 12) as Es.
  { pose proof (data_page _ _ _ Hin Hi). pose proof (data_page _ _ _ Hin Hj).
    unfold zlookup in Hf, Hg. rewrite decide_True in Hf by lia. rewrite decide_True in Hg by lia.
    pose proof (NoDup_lookup _ _ _ _ Hnd Hf Hg). lia. }
  rewrite !Z.shiftr_div_pow2 in Es by lia. change (2 ^ 12) with PAGE_SIZE in Es.
  pose proof (Z.div_mod (addr + i) PAGE_SIZE ltac:(done)). pose proof (Z.div_mod (addr + j) PAGE_SIZE ltac:(done)). lia.
Qed.

Lemma wp_map_after t v k (Q : unit → kstate → Prop) X :
  shape k → zlookup (task k) t = Some v →
  (∀ m', maps_pages WINDOW (ph_pages v) NUM_PAG_DATA (mm k) m' → Q () (set_mm m' k)) →
  wp (map_after t) k Q X.
Proof.
  intros Hs Hv HQ. pose proof (sh_task _ Hs _ _ Hv) as Hts. unfold map_after.
  apply (wp_for_range (λ i k', ∃ m', k' = set_mm m' k ∧ maps_pages WINDOW (ph_pages v) i (mm k) m')); [done| | |].
  - exists (mm k). split; [by destruct k|apply maps_pages_0].
  - intros i k' Hi (m' & -> & Hm). apply wp_bind. eapply wp_aget; [exact Hv|].
    destruct (zlookup_range (ph_pages v) i) as [f Hf]; [by rewrite (ts_pages _ Hts)|].
    apply wp_bind. eapply wp_of_option; [exact Hf|]. apply wp_zoom.
    eapply wp_map_page; [exact Hm|exact Hf|lia|done| |].
    + rewrite (sh_table _ Hs). change PAG_LOG_INIT_DATA_P0 with 264. unfold TOTAL_PAGES, NUM_PAG_DATA in *. lia.
    + intros m'' Hm''. by exists m''.
  - intros k' (m' & -> & Hm). by apply HQ.
Qed.

(** Through the window an address of the data pages is the byte of the owner. *)
Lemma phys_window frames m m' addr n i :
  maps_pages WINDOW frames NUM_PAG_DATA m m' → zlen frames = NUM_PAG_DATA →
  Forall (λ f, 0 ≤ f < TOTAL_PAGES) frames → in_data addr n → 0 ≤ i < n →
  phys_of m' (addr + NUM_PAG_DATA * PAGE_SIZE + i) = Some (own_phys frames (addr + i)).
Proof.
  intros Hm Hl HF Hin Hi. pose proof (data_page _ _ _ Hin Hi) as Hp. rewrite <-Hl in Hp.
  destruct (zlookup_range _ _ Hp) as [f Hf]. rewrite Hl in Hp.
  assert (0 ≤ f < TOTAL_PAGES) as Hfr by (rewrite Forall_forall in HF; apply HF; by eapply zlookup_elem).
  pose proof (mp_mapped _ _ _ _ _ Hm _ _ Hp Hf) as Hpte.
  rewrite u32_small in Hpte by (unfold TOTAL_PAGES in *; lia).
  pose proof (Z.div_mod (addr + i) PAGE_SIZE ltac:(done)) as E.
  unfold own_phys. rewrite Hf. simpl.
  replace (addr + NUM_PAG_DATA * PAGE_SIZE + i) with
    (PAGE_SIZE * (WINDOW + (Z.shiftr (addr + i) 12 - PAG_LOG_INIT_DATA_P0)) + (addr + i) mod PAGE_SIZE).
  - apply phys_of_user_page; [exact Hpte|unfold TOTAL_PAGES in *; lia|by apply Z.mod_pos_bound].
  - rewrite Z.shiftr_div_pow2 by lia. change (2 ^ 12) with PAGE_SIZE. unfold WINDOW. lia.
Qed.

(** ** [copy_from_circ_buffer]. *)

Definition circ_char (b : kbd_state) (i : Z) : Z := default 0 (zlookup (circular b) ((start b + i) mod CIRCULAR_SIZE)).

(** The memory after [n] characters went to the buffer of [v] and [frames],
    those of the running process, were mapped in the window. *)
Record delivered (v : task_struct) (frames : list Z) (b : kbd_state) (n : Z) (m m' : mm_state) : Prop := {
  dl_bytes : ∀ i, 0 ≤ i < n → ram_byte m' (own_phys (ph_pages v) (buffer v + i)) = circ_char b i;
  dl_other : ∀ pa, (∀ i, 0 ≤ i < n → pa ≠ own_phys (ph_pages v) (buffer v + i)) → ram_byte m' pa = ram_byte m pa;
  dl_window : ∀ i f, 0 ≤ i < NUM_PAG_DATA → zlookup frames i = Some f →
    zlookup (pagusr_table m') (WINDOW + i) = Some (user_pte (u32 f));
  dl_pages : ∀ p, ¬ (WINDOW ≤ p < WINDOW + NUM_PAG_DATA) → zlookup (pagusr_table m') p = zlookup (pagusr_table m) p;
  dl_len : zlen (pagusr_table m') = zlen (pagusr_table m);
  dl_phys : phys_mem m' = phys_mem m;
  dl_stale : stale m' = ∅;
}.

(** A process whose buffer can take [n] characters. *)
Record can_take (v : task_struct) (n : Z) : Prop := {
  ct_range : 0 ≤ n ≤ CIRCULAR_SIZE;
  ct_buffer : in_data (buffer v) n;
  ct_frames : NoDup (ph_pages v);
}.

Section Copy.
Context (k2 : kstate) (v : task_struct) (n : Z).
Context (Hlen : zlen (circular (kbd k2)) = CIRCULAR_SIZE) (Hst : 0 ≤ start (kbd k2) < CIRCULAR_SIZE).

(** The characters into the local array. *)
Lemma wp_fill_local (Q : unit → kstate * list Z → Prop) X :
  0 ≤ n ≤ CIRCULAR_SIZE →
  (∀ l, zlen l = CIRCULAR_SIZE → (∀ i, 0 ≤ i < n → zlookup l i = Some (circ_char (kbd k2) i)) → Q () (k2, l)) →
  wp (for_range 0 n (λ i,
      let! st := zoom Global (get KState.Start) in
      let! c := zoom Global (aget Circular (Z.rem (s32 (st + i)) CIRCULAR_SIZE)) in
      aset Local_ i c)) (k2, replicate (Z.to_nat CIRCULAR_SIZE) 0) Q X.
Proof using Hlen Hst.
  intros Hn HQ. apply (wp_for_range (λ j p, p.1 = k2 ∧ zlen p.2 = CIRCULAR_SIZE ∧
    ∀ i, 0 ≤ i < j → zlookup p.2 i = Some (circ_char (kbd k2) i))); [lia|split_and!; [done..|lia]| |].
  2: { intros [k' l] (E & Hl & Hi). simpl in *. subst k'. by apply HQ. }
  intros j [k' l] Hj (E & Hl & Hi). simpl in E, Hl, Hi. subst k'.
  apply wp_bind, wp_zoom, wp_get, wp_bind, wp_zoom. simpl.
  assert (Z.rem (s32 (start (kbd k2) + j)) CIRCULAR_SIZE = (start (kbd k2) + j) mod CIRCULAR_SIZE) as ->.
  { rewrite s32_small by (unfold CIRCULAR_SIZE, INT_MIN, INT_MAX in *; lia). apply Z.rem_mod_nonneg; unfold CIRCULAR_SIZE in *; lia. }
  destruct (zlookup_range (circular (kbd k2)) ((start (kbd k2) + j) mod CIRCULAR_SIZE)) as [c Hc].
  { rewrite Hlen. by apply Z.mod_pos_bound. }
  eapply wp_aget; [exact Hc|]. apply wp_aset; [simpl; rewrite Hl; lia|]. simpl. rewrite zlen_zinsert.
  split_and!; [done..|]. intros i Hi'. rewrite zlookup_zinsert by (rewrite Hl; lia).
  case_decide as E; [|apply Hi; lia]. subst. unfold circ_char. by rewrite Hc.
Qed.
End Copy.

(** The local array to the buffer of the process behind the window. *)
Lemma wp_to_window k2 m1 m v frames l b n (Q : unit → kstate * list Z → Prop) X :
  maps_pages WINDOW (ph_pages v) NUM_PAG_DATA m m1 → task_shape v → can_take v n →
  (∀ i, 0 ≤ i < n → zlookup l i = Some (circ_char b i)) →
  frames = ph_pages v → mm k2 = m1 →
  (∀ r, (∀ i, 0 ≤ i < n → ram_byte (set_ram r m1) (own_phys frames (buffer v + i)) = circ_char b i) →
     (∀ pa, (∀ i, 0 ≤ i < n → pa ≠ own_phys frames (buffer v + i)) → ram_byte (set_ram r m1) pa = ram_byte m pa) →
     Q () (set_mm (set_ram r m1) k2, l)) →
  wp (copy_data (aget Local_) (λ i c, zoom Global (ustore (u32 (buffer v + NUM_PAG_DATA * PAGE_SIZE + i)) c)) n)
    (k2, l) Q X.
Proof.
  intros Hm Hts [Hn Hin Hnd] Hl -> Em HQ. pose proof (ts_pages _ Hts) as Hpl.
  pose (I := λ j (p : kstate * list Z), ∃ r, p = (set_mm (set_ram r m1) k2, l) ∧
    (∀ i, 0 ≤ i < j → ram_byte (set_ram r m1) (own_phys (ph_pages v) (buffer v + i)) = circ_char b i) ∧
    ∀ pa, (∀ i, 0 ≤ i < j → pa ≠ own_phys (ph_pages v) (buffer v + i)) → ram_byte (set_ram r m1) pa = ram_byte m pa).
  apply (wp_copy_data _ _ (circ_char b) n I).
  - intros j i p Hj Hi (r & -> & Hb & Ho). eapply wp_aget; [exact (Hl i ltac:(lia))|].
    split; [done|]. by exists r.
  - intros i p Hi (r & -> & Hb & Ho). apply wp_zoom. unfold ustore. apply wp_zoom. simpl.
    rewrite u32_small.
    2: { destruct Hin as [H1 H2]. unfold WINDOW, CIRCULAR_SIZE in *. change PAG_LOG_INIT_DATA_P0 with 264 in *.
         unfold PAGE_SIZE, NUM_PAG_DATA in *. lia. }
    eapply wp_store_byte.
    { rewrite phys_of_set_ram. eapply phys_window; [exact Hm|exact Hpl|apply Hts|exact Hin|lia]. }
    eexists. split; [done|]. split.
    + intros j Hj. unfold ram_byte. simpl. destruct (decide (j = i)) as [->|Hne].
      * by rewrite lookup_insert_eq.
      * rewrite lookup_insert_ne; [apply Hb; lia|]. intros E.
        apply (own_phys_inj _ _ n) in E; [lia|done|exact Hpl|exact Hin|lia|lia].
    + intros pa Hpa. unfold ram_byte. simpl. rewrite lookup_insert_ne by (intros <-; by apply (Hpa i); [lia|]).
      apply Ho. intros j Hj. apply Hpa. lia.
  - lia.
  - exists (ram m1). split_and!.
    + rewrite <-Em. by destruct k2 as [? ? ? ? [] ? ? ?].
    + lia.
    + intros pa _. unfold ram_byte. simpl. by rewrite (mp_ram _ _ _ _ _ Hm).
  - intros [] p (r & -> & Hb & Ho). by apply HQ.
Qed.

Lemma maps_pages_again base frames frames' n m m1 m2 r :
  maps_pages base frames n m m1 → maps_pages base frames' n (set_ram r m1) m2 →
  (∀ p, ¬ (base ≤ p < base + n) → zlookup (pagusr_table m2) p = zlookup (pagusr_table m) p) ∧
  zlen (pagusr_table m2) = zlen (pagusr_table m) ∧ phys_mem m2 = phys_mem m ∧ ram m2 = r.
Proof.
  intros H1 H2. split_and!.
  - intros p Hp. rewrite (mp_other _ _ _ _ _ H2) by done. simpl. by apply (mp_other _ _ _ _ _ H1).
  - rewrite (mp_len _ _ _ _ _ H2). simpl. apply H1.
  - rewrite (mp_phys _ _ _ _ _ H2). simpl. apply H1.
  - apply (mp_ram _ _ _ _ _ H2).
Qed.

Lemma wp_copy_from_circ_buffer k t v vc n (Q : unit → kstate → Prop) X :
  shape k → zlen (circular (kbd k)) = CIRCULAR_SIZE → 0 ≤ start (kbd k) < CIRCULAR_SIZE →
  zlookup (task k) t = Some v → zlookup (task k) (cur (sched k)) = Some vc → can_take v n →
  (∀ m', delivered v (ph_pages vc) (kbd k) n (mm k) m' → Q () (set_mm m' k)) →
  wp (copy_from_circ_buffer t n) k Q X.
Proof.
  intros Hs Hcl Hst Hv Hvc Hct HQ. pose proof (sh_task _ Hs _ _ Hv) as Hts. pose proof Hct as [Hn Hin Hnd].
  pose proof (zlookup_Some_range _ _ _ Hv) as Htr.
  unfold copy_from_circ_buffer. apply wp_bind. eapply wp_map_after; [done|exact Hv|]. intros m1 Hm1.
  apply wp_bind, wp_bind. eapply wp_aget; [exact Hv|].
  assert (0 ≤ buffer v ∧ buffer v + NUM_PAG_DATA * PAGE_SIZE < 2 ^ 32 - CIRCULAR_SIZE) as [Hb0 Hb1].
  { destruct Hin as [H1 H2]. unfold WINDOW, CIRCULAR_SIZE in *. change PAG_LOG_INIT_DATA_P0 with 264 in *.
    unfold PAGE_SIZE, NUM_PAG_DATA in *. lia. }
  rewrite u32_small by (unfold CIRCULAR_SIZE, NUM_PAG_DATA, PAGE_SIZE in *; lia).
  set (v2 := t_buffer (buffer v + NUM_PAG_DATA * PAGE_SIZE) v).
  eapply wp_task_set; [exact Hv|]. set (k2 := set_task (zinsert t v2 (task k)) (set_mm m1 k)).
  match goal with |- wp _ ?s _ _ => change s with k2 end.
  assert (zlookup (task k2) t = Some v2) as Hv2 by by apply zlookup_zinsert_eq.
  apply wp_bind, wp_with_local, wp_bind. apply wp_fill_local; [done|done|done|]. intros l Hll Hl.
  apply wp_bind, wp_zoom. eapply wp_aget; [exact Hv2|]. unfold copy_to_user. apply wp_bind.
  eapply (wp_to_window k2 m1 (mm k) v (ph_pages v) l (kbd k) n); try done. intros r Hbytes Hother.
  apply wp_ret. simpl. apply wp_bind, wp_bind, wp_get.
  assert (∃ vc', zlookup (task (set_mm (set_ram r m1) k2)) (cur (sched k)) = Some vc' ∧ ph_pages vc' = ph_pages vc) as (vc' & Hvc' & Epg).
  { simpl. destruct (decide (cur (sched k) = t)) as [E|E].
    - rewrite E in *. exists v2. rewrite zlookup_zinsert_eq by done. split; [done|]. by simplify_eq.
    - exists vc. by rewrite zlookup_zinsert_ne. }
  eapply wp_map_after; [|exact Hvc'|].
  { split; simpl.
    - rewrite (mp_phys _ _ _ _ _ Hm1). apply Hs.
    - rewrite (mp_len _ _ _ _ _ Hm1). apply Hs.
    - intros t' w. rewrite zlookup_zinsert by done. case_decide; [|apply (sh_task _ Hs)].
      intros [= <-]. destruct Hts. by split. }
  intros m2 Hm2. rewrite Epg in Hm2. destruct (maps_pages_again _ _ _ _ _ _ _ _ Hm1 Hm2) as (Hpg & Hpl & Hpp & Hr).
  apply wp_bind, wp_zoom, wp_put, wp_bind. simpl. eapply wp_aget; [exact Hv2|]. eapply wp_task_set; [exact Hv2|].
  rewrite u32_small by (simpl; unfold CIRCULAR_SIZE, NUM_PAG_DATA, PAGE_SIZE in *; lia).
  assert (delivered v (ph_pages vc) (kbd k) n (mm k) (set_stale ∅ m2)) as Hd.
  { split; simpl; try done.
    - intros i Hi. rewrite <-(Hbytes i Hi). unfold ram_byte. simpl. by rewrite Hr.
    - intros pa Hpa. rewrite <-(Hother pa Hpa). unfold ram_byte. simpl. by rewrite Hr.
    - intros i f Hi Hf. by apply (mp_mapped _ _ _ _ _ Hm2). }
  specialize (HQ _ Hd). 
  replace (set_mm (set_stale ∅ m2) k) with (set_task (task k) (set_mm (set_stale ∅ m2) k)) in HQ by by destruct k.
  simpl. rewrite zinsert_zinsert_eq.
  replace (zinsert t _ (task k)) with (task k); [exact HQ|].
  symmetry. apply zinsert_id. rewrite Hv. f_equal. unfold v2. destruct v. unfold t_buffer. simpl. f_equal. lia.
Qed.
