(* ===== verification/KeyServe.v ===== *)
(** * The keyboard and the processes that wait for it: a key for the first of
    them, and a read from the keyboard. *)
From stdpp Require Import functions.
From S2P Require Import Prelude KList Mm Io Fs KState Sched Devices.
From S2P Require Import Interrupt Queues SchedFacts SemFacts KernelInv Kernel States EntryProps.
From S2P Require Import KeyFacts.

(** ** A key for the first process that waits. *)

Definition one_less (v : task_struct) : task_struct := t_pending_chars (s32 (pending_chars v - 1)) v.

(** The buffer is empty again: what comes next starts at the write index. *)
Definition drained (b : kbd_state) : kbd_state := MkKbd (circular b) 0 (kbd_p b) (kbd_p b).

(** What the handler leaves for the reader [t], whose structure was [v], when
    the buffer with the new character is [b]. *)
Inductive served (k : kstate) (q : node → list Z) (t : Z) (rest : list Z) (v vc : task_struct) (b : kbd_state)
  : kstate → (node → list Z) → Prop :=
| served_last h' m' q' :
    pending_chars v ≤ 1 →
    delivered v (ph_pages vc) b (req_size v) (mm k) m' →
    dequeued q KeyboardQueue t rest Runqueue q' →
    served k q t rest v vc b
      (set_lists h' (set_kbd (drained b) (set_mm m' (set_task (zinsert t (one_less v) (task k)) k)))) q'
| served_full m' :
    1 < pending_chars v → CIRCULAR_SIZE ≤ circ_chars b →
    delivered v (ph_pages vc) b CIRCULAR_SIZE (mm k) m' →
    served k q t rest v vc b
      (set_kbd (drained b) (set_mm m' (set_task (zinsert t
        (t_buffer (u32 (buffer v + circ_chars b)) (t_req_size (s32 (req_size v - circ_chars b)) (one_less v)))
        (task k)) k))) q
| served_more :
    1 < pending_chars v → circ_chars b < CIRCULAR_SIZE →
    served k q t rest v vc b (set_kbd b (set_task (zinsert t (one_less v) (task k)) k)) q.

(** A key press up to the question who waits. *)
Lemma wp_key_press c k (rest : K unit) (Q : unit → kstate → Prop) X :
  kbd_ok (kbd k) → wp rest (set_kbd (buffered c (kbd k)) k) Q X →
  wp ((let! p := get KbdP in aset Circular p c);; step_circ_buffer;;
      modify CircChars (λ n, s32 (n + 1));; rest) k Q X.
Proof.
  intros [Hl Hp] HQ. apply wp_bind, wp_bind, wp_get, wp_aset; [simpl; lia|].
  unfold step_circ_buffer. apply wp_bind, wp_bind, wp_get. simpl. unfold CIRCULAR_SIZE in *.
  case_bool_decide as Hlast; apply wp_put, wp_bind, wp_modify.
  - match goal with |- wp _ ?s _ _ => replace s with (set_kbd (buffered c (kbd k)) k); [exact HQ|] end.
    unfold buffered, set_kbd. simpl. by rewrite Hlast.
  - match goal with |- wp _ ?s _ _ => replace s with (set_kbd (buffered c (kbd k)) k); [exact HQ|] end.
    unfold buffered, set_kbd. simpl. unfold CIRCULAR_SIZE.
    rewrite (s32_small (kbd_p (kbd k) + 1)) by (unfold INT_MIN, INT_MAX; lia). by rewrite Z.mod_small by lia.
Qed.

Lemma shape_kbd b k : shape k → shape (set_kbd b k).
Proof. intros []. by split. Qed.

(** The buffer of a process that waits can take what the handler may deliver. *)
Definition awaits (v : task_struct) (b : kbd_state) : Prop :=
  INT_MIN < pending_chars v ≤ INT_MAX ∧ (pending_chars v ≤ 1 → can_take v (req_size v)) ∧
  (1 < pending_chars v → CIRCULAR_SIZE ≤ circ_chars b → can_take v CIRCULAR_SIZE).

Lemma shape_delivered v frames b n k m' :
  delivered v frames b n (mm k) m' → shape k → shape (set_mm m' k).
Proof.
  intros Hd [H1 H2 H3]. split; simpl; [by rewrite (dl_phys _ _ _ _ _ _ Hd)|by rewrite (dl_len _ _ _ _ _ _ Hd)|done].
Qed.

Section Serve.
Context (k : kstate) (q : node → list Z) (t : Z) (rest : list Z) (v vc : task_struct) (c : Z).
Context (Hs : shape k) (Hq : qinv (qview_of k) q) (Ht : q KeyboardQueue = t :: rest).
Context (Hk : kbd_ok (kbd k)) (Hst : 0 ≤ start (kbd k) < CIRCULAR_SIZE).
Context (Hv : zlookup (task k) t = Some v) (Hvc : zlookup (task k) (cur (sched k)) = Some vc).
Let b := buffered c (kbd k).
Let k1 := set_task (zinsert t (one_less v) (task k)) (set_kbd b k).

Lemma one_less_shape : shape k1.
Proof using Hs Hv.
  unfold k1. apply (shape_set_task (set_kbd b k) t v); [by apply shape_kbd|exact Hv|]. destruct (sh_task _ Hs _ _ Hv). by split.
Qed.

Lemma running_pages : ∃ vc', zlookup (task k1) (cur (sched k)) = Some vc' ∧ ph_pages vc' = ph_pages vc.
Proof using Hv Hvc.
  clear Hs Hq Ht Hk Hst. unfold k1. simpl. pose proof (zlookup_Some_range _ _ _ Hv). rewrite zlookup_zinsert by done.
  case_decide as E; [|by exists vc]. exists (one_less v). split; [done|]. rewrite <-E, Hv in Hvc. by simplify_eq.
Qed.

Lemma wp_deliver n (Q : unit → kstate → Prop) X :
  can_take v n → (∀ m', delivered v (ph_pages vc) b n (mm k) m' → Q () (set_mm m' k1)) →
  wp (copy_from_circ_buffer t n) k1 Q X.
Proof using Hs Hk Hst Hv Hvc.
  clear Hq Ht. intros Hct HQ. destruct running_pages as (vc' & Hvc' & E). pose proof (buffered_ok c _ Hk) as [Hl _].
  pose proof (zlookup_Some_range _ _ _ Hv) as Htr.
  eapply (wp_copy_from_circ_buffer k1 t (one_less v) vc' n); [apply one_less_shape|exact Hl|exact Hst
    |by apply zlookup_zinsert_eq|exact Hvc'|by destruct Hct|].
  intros m' Hd. rewrite E in Hd. apply HQ. destruct Hd. by split.
Qed.

(** The queues do not see the reader's numbers. *)
Lemma served_view : qview_of k1 = qview_of k.
Proof using Hv.
  clear Hs Hq Ht Hk Hst. unfold qview_of, k1. simpl. by erewrite pids_zinsert.
Qed.

Lemma drained_shape n m' w :
  task_shape w → delivered v (ph_pages vc) b n (mm k) m' →
  shape (set_kbd (drained b) (set_mm m' (set_task (zinsert t w (task k)) k))).
Proof using Hs Hv.
  intros Hw Hd. apply shape_kbd, (shape_delivered _ _ _ _ (set_task (zinsert t w (task k)) k) _ Hd).
  by eapply shape_set_task.
Qed.

(** Both ways of delivering end with an empty buffer. *)
Lemma wp_drain (rest' : K unit) m' w (Q : unit → kstate → Prop) X :
  wp rest' (set_kbd (drained b) (set_mm m' (set_task (zinsert t w (task k)) k))) Q X →
  wp (put CircChars 0;; (let! p := get KbdP in put KState.Start p);; rest')
    (set_mm m' (set_task (zinsert t w (task k)) (set_kbd b k))) Q X.
Proof using. intros HQ. by apply wp_bind, wp_put, wp_bind, wp_bind, wp_get, wp_put. Qed.

Lemma wp_serve_last (Q : unit → kstate → Prop) X :
  pending_chars v ≤ 1 → can_take v (req_size v) →
  (∀ k' q', served k q t rest v vc b k' q' → qinv (qview_of k') q' → shape k' → Q () k') →
  wp (copy_from_circ_buffer t (req_size v);; put CircChars 0;; (let! p := get KbdP in put KState.Start p);;
      unblock_and_enqueque t) k1 Q X.
Proof using Hs Hq Ht Hk Hst Hv Hvc.
  intros Hle Hct HQ. apply wp_bind, wp_deliver; [done|]. intros m' Hd. apply wp_drain.
  eapply wp_unblock; [|rewrite <-served_view in Hq; exact Hq|exact Ht|].
  { eapply drained_shape; [|exact Hd]. destruct (sh_task _ Hs _ _ Hv). by split. }
  intros h' q' k' Hdq Hq' Hs'. eapply HQ; [by eapply served_last|done|done].
Qed.

Lemma wp_serve_full (Q : unit → kstate → Prop) X :
  1 < pending_chars v → CIRCULAR_SIZE ≤ circ_chars b → can_take v CIRCULAR_SIZE →
  (∀ k' q', served k q t rest v vc b k' q' → qinv (qview_of k') q' → shape k' → Q () k') →
  wp (copy_from_circ_buffer t CIRCULAR_SIZE;;
      (let! n := get CircChars in let! v := aget Task t in task_set t_req_size t (s32 (req_size v - n)));;
      (let! n := get CircChars in let! v := aget Task t in task_set t_buffer t (u32 (buffer v + n)));;
      put CircChars 0;; let! p := get KbdP in put KState.Start p) k1 Q X.
Proof using Hs Hq Hk Hst Hv Hvc.
  clear Ht. pose proof (zlookup_Some_range _ _ _ Hv) as Htr.
  assert (∀ (w : task_struct) l, zlen l = zlen (task k) → zlookup (zinsert t w l) t = Some w) as Hins.
  { intros w l E. apply zlookup_zinsert_eq. by rewrite E. }
  intros Hp Hn Hct HQ. apply wp_bind, wp_deliver; [done|]. intros m' Hd. simpl.
  apply wp_bind, wp_bind, wp_get, wp_bind. eapply wp_aget; [by apply Hins|].
  eapply wp_task_set; [by apply Hins|]. simpl. rewrite zinsert_zinsert_eq.
  apply wp_bind, wp_bind, wp_get, wp_bind. eapply wp_aget; [by apply Hins|].
  eapply wp_task_set; [by apply Hins|]. simpl. rewrite zinsert_zinsert_eq.
  apply wp_bind, wp_put, wp_bind, wp_get, wp_put. eapply HQ.
  - by apply served_full.
  - rewrite <-served_view in Hq. unfold qview_of in *. simpl in *. by erewrite !pids_zinsert in * by done.
  - eapply drained_shape; [|exact Hd]. destruct (sh_task _ Hs _ _ Hv). by split.
Qed.

Lemma wp_serve code (Q : unit → kstate → Prop) X :
  zlookup char_map (Z.land code 0x7f) = Some c → Z.land code 0x80 = 0 → awaits v b →
  (∀ k' q', served k q t rest v vc b k' q' → qinv (qview_of k') q' → shape k' → Q () k') →
  wp (keyboard_routine code) k Q X.
Proof using Hs Hq Ht Hk Hst Hv Hvc.
  intros Hc Hpress (Hpend & Hlast & Hfull) HQ. pose proof (zlookup_Some_range _ _ _ Hv) as Htr.
  unfold keyboard_routine. apply wp_bind. eapply wp_of_option; [exact Hc|].
  rewrite bool_decide_true by done. apply wp_key_press; [done|]. fold b.
  apply wp_bind. eapply (wp_empty (set_kbd b k) q (active (sem k))); [apply Hq|done|].
  rewrite bool_decide_false by (rewrite Ht; done). simpl negb. cbv iota.
  apply wp_bind. eapply (wp_first (set_kbd b k) q (active (sem k))); [apply Hq|done|].
  rewrite Ht. simpl. apply wp_bind, wp_ret.
  apply wp_bind, wp_bind. eapply wp_aget; [exact Hv|]. eapply wp_task_set; [exact Hv|].
  match goal with |- wp _ ?s _ _ => change s with k1 end.
  assert (zlookup (task k1) t = Some (one_less v)) as Hv1 by by apply zlookup_zinsert_eq.
  assert (pending_chars (one_less v) = pending_chars v - 1) as Ep.
  { simpl. apply s32_small. unfold INT_MIN, INT_MAX in *. lia. }
  apply wp_bind. eapply wp_aget; [exact Hv1|]. apply wp_bind, wp_get. rewrite Ep.
  change (view CircChars k1) with (circ_chars b).
  destruct (decide (pending_chars v ≤ 1)) as [Hle|Hgt].
  - rewrite bool_decide_true by lia. apply wp_serve_last; auto.
  - rewrite bool_decide_false by lia. case_bool_decide as Hcc.
    + apply wp_serve_full; auto with lia.
    + apply wp_ret. apply (HQ _ q); [by apply served_more; lia|by rewrite served_view|apply one_less_shape].
Qed.
End Serve.

(** ** [sys_read_keyboard]. *)

Definition pending_of (size : Z) (b : kbd_state) : Z :=
  if bool_decide (size > circ_chars b) then s32 (size - circ_chars b) else 0.

(** The buffer after [size] characters were taken, and when a reader blocks. *)
Definition taken (size : Z) (b : kbd_state) : kbd_state :=
  MkKbd (circular b) (circ_chars b - size) (kbd_p b) ((start b + size) mod CIRCULAR_SIZE).
Definition restarted (b : kbd_state) : kbd_state := MkKbd (circular b) (circ_chars b) (kbd_p b) (kbd_p b).

Definition must_wait (k : kstate) (q : node → list Z) (size : Z) : Prop :=
  circ_chars (kbd k) < size ∨ q KeyboardQueue ≠ [].

(** The ways in which a read returns. *)
Inductive read_post (k : kstate) (q : node → list Z) (v : task_struct) (size : Z) : Z → kstate → Prop :=
| read_now m' :
    ¬ must_wait k q size → delivered v (ph_pages v) (kbd k) size (mm k) m' →
    read_post k q v size size
      (set_kbd (taken size (kbd k)) (set_mm m' (set_task (zinsert (cur (sched k)) (t_pending_chars 0 v) (task k)) k)))
| read_refused :
    must_wait k q size → pid v = 0 →
    read_post k q v size (- EPERM)
      (set_task (zinsert (cur (sched k)) (t_pending_chars (pending_of size (kbd k)) v) (task k)) k).

(** The way in which it does not: the caller waits and the next process goes on. *)
Inductive read_blocked (k : kstate) (q : node → list Z) (v : task_struct) (size : Z)
  : kstate → (node → list Z) → Prop :=
| read_waits h' t rest k' :
    must_wait k q size → pid v ≠ 0 →
    let q' := qmove q Runqueue KeyboardQueue (cur (sched k)) in
    q' Runqueue = t :: rest →
    resumed t (update ItIsInt 0 (set_lists h' (set_task
      (zinsert (cur (sched k)) (kbd_request size (t_pending_chars (pending_of size (kbd k)) v)) (task k))
      (set_kbd (restarted (kbd k)) k)))) k' →
    read_blocked k q v size k' q'.

Lemma wp_set_pending k v size (rest : K Z) (Q : Z → kstate → Prop) X :
  zlookup (task k) (cur (sched k)) = Some v →
  wp rest (set_task (zinsert (cur (sched k)) (t_pending_chars (pending_of size (kbd k)) v) (task k)) k) Q X →
  wp ((let! n := get CircChars in
       if bool_decide (size > n) then task_set t_pending_chars (cur (sched k)) (s32 (size - n))
       else task_set t_pending_chars (cur (sched k)) 0);; rest) k Q X.
Proof.
  intros Hv HQ. apply wp_bind, wp_bind, wp_get. change (view CircChars k) with (circ_chars (kbd k)).
  unfold pending_of in HQ. case_bool_decide; by eapply wp_task_set.
Qed.

Section Read.
Context (k : kstate) (q : node → list Z) (v : task_struct) (size : Z).
Context (Hs : shape k) (Hq : qinv (qview_of k) q) (Hv : zlookup (task k) (cur (sched k)) = Some v).
Context (Hk : kbd_ok (kbd k)) (Hst : 0 ≤ start (kbd k) < CIRCULAR_SIZE).
Context (Hc : 0 ≤ circ_chars (kbd k) ≤ INT_MAX) (Hsz : 0 ≤ size ≤ INT_MAX).
Let c := cur (sched k).
Let v1 := t_pending_chars (pending_of size (kbd k)) v.
Let k1 := set_task (zinsert c v1 (task k)) k.

Lemma pending_shape : shape k1.
Proof using Hs Hv.
  apply (shape_set_task k c v); [done|exact Hv|]. destruct (sh_task _ Hs _ _ Hv). by split.
Qed.

Lemma pending_view : qview_of k1 = qview_of k.
Proof using Hv. clear Hs Hq. unfold qview_of, k1. simpl. by erewrite pids_zinsert. Qed.

Lemma pending_current : zlookup (task k1) c = Some v1.
Proof using Hv. clear Hs Hq. apply zlookup_zinsert_eq. by eapply zlookup_Some_range. Qed.

Lemma pending_done : pending_chars v1 ≤ 0 ↔ size ≤ circ_chars (kbd k).
Proof using Hc Hsz.
  unfold v1, pending_of, t_pending_chars. simpl. case_bool_decide; [|lia].
  rewrite s32_small by (unfold INT_MIN, INT_MAX in *; lia). lia.
Qed.

Lemma wp_read_now (Q : Z → kstate → Prop) X :
  ¬ must_wait k q size → can_take v size → (∀ r k', read_post k q v size r k' → Q r k') →
  wp (copy_from_circ_buffer c size;; modify CircChars (λ n, s32 (n - size));;
      modify KState.Start (λ st, Z.rem (s32 (st + size)) CIRCULAR_SIZE);; ret size) k1 Q X.
Proof using Hs Hv Hk Hst Hc Hsz.
  intros Hw Hct HQ. destruct Hk as [Hl _]. apply wp_bind.
  eapply (wp_copy_from_circ_buffer k1 c v1 v1); [exact pending_shape|exact Hl|exact Hst|exact pending_current
    |exact pending_current|by destruct Hct|].
  intros m' Hd. apply wp_bind, wp_modify, wp_bind, wp_modify, wp_ret. simpl.
  assert (size ≤ circ_chars (kbd k)) as Hle by (unfold must_wait in Hw; lia).
  assert (pending_of size (kbd k) = 0) as Ep by (unfold pending_of; by rewrite bool_decide_false by lia).
  change (Q size (set_kbd (MkKbd (circular (kbd k)) (s32 (circ_chars (kbd k) - size)) (kbd_p (kbd k))
    (Z.rem (s32 (start (kbd k) + size)) CIRCULAR_SIZE)) (set_mm m' k1))).
  destruct Hct as [Hn _ _]. unfold CIRCULAR_SIZE in *.
  rewrite !s32_small, Z.rem_mod_nonneg by (unfold INT_MIN, INT_MAX in *; lia).
  unfold k1, v1. rewrite Ep. apply HQ. apply read_now; [done|by destruct Hd].
Qed.

Lemma wp_sys_read_keyboard fd buf (Q : Z → kstate → Prop) X :
  pid v ≠ -1 → (¬ must_wait k q size → can_take v size) →
  (∀ r k', read_post k q v size r k' → qinv (qview_of k') q → shape k' → Q r k') →
  (∀ k' q', read_blocked k q v size k' q' → qinv (qview_of k') q' → shape k' → X k') →
  wp (sys_read_keyboard fd buf size) k Q X.
Proof using Hs Hq Hv Hk Hst Hc Hsz.
  intros Hp Hct HQ HX. unfold sys_read_keyboard, current. apply wp_bind, wp_get.
  apply (wp_set_pending k v); [exact Hv|]. fold c v1 k1.
  apply wp_bind. eapply wp_aget; [exact pending_current|].
  assert (qinv (qview_of k1) q) as Hq1 by by rewrite pending_view.
  apply wp_bind. eapply (wp_empty k1 q (active (sem k))); [apply Hq|done|].
  assert (bool_decide (pending_chars v1 ≤ 0) && bool_decide (q KeyboardQueue = []) =
    negb (bool_decide (must_wait k q size))) as ->.
  { pose proof pending_done. unfold must_wait. repeat case_bool_decide; simpl; try done; naive_solver lia. }
  case_bool_decide as Hw; simpl negb; cbv iota; [|apply wp_read_now; [done|by apply Hct|]].
  2: { intros r k' Hpost. apply HQ; [done|..]; destruct Hpost as [m' ? Hd|]; try done.
       - unfold qview_of. simpl. by erewrite pids_zinsert.
       - apply shape_kbd. eapply (shape_delivered _ _ _ _ (set_task (zinsert c _ (task k)) k)); [exact Hd|].
         apply (shape_set_task k c v); [done|exact Hv|]. destruct (sh_task _ Hs _ _ Hv). by split. }
  case_bool_decide as Hp0.
  2: { apply wp_ret, HQ; [apply read_refused; [done|]|by rewrite pending_view|exact pending_shape].
       destruct (decide (pid v = 0)); [done|]. by destruct Hp0. }
  apply wp_bind, wp_bind, wp_get, wp_put.
  match goal with |- wp _ ?s _ _ => change s with (set_kbd (restarted (kbd k)) k1) end.
  eapply (wp_block_kbd (set_kbd (restarted (kbd k)) k1) q v1);
    [by apply shape_kbd, pending_shape|exact Hq1|exact pending_current| |].
  { assert (pid v = -1 ∨ 0 ≤ pid v < pid_counter (sched k)) as Hr.
    { apply (qi_pid _ _ Hq c). simpl. rewrite zlookup_fmap. unfold c. by rewrite Hv. }
    change (pid v ≠ 0) in Hp0. change (0 < pid v). lia. }
  intros h' t rest k' q' Ht Hres Hq' Hs'. simpl in Hres. rewrite zinsert_zinsert_eq in Hres.
  eapply HX; [|exact Hq'|exact Hs']. eapply read_waits; [done|done|exact Ht|exact Hres].
Qed.
End Read.
