(* ===== verification/KeyLine.v ===== *)
(** * Typing a line: the characters of successive key presses reach the
    process that waits for them, whatever their number. *)
From stdpp Require Import functions.
From S2P Require Import Prelude KList Mm Io Fs KState Sched Devices.
From S2P Require Import Interrupt Queues SchedFacts SemFacts KernelInv Kernel States EntryProps.
From S2P Require Import KeyFacts KeyServe.

(** The press of the keys [codes], one after the other. *)
Fixpoint press (codes : list Z) : K unit :=
  match codes with
  | [] => ret ()
  | code :: codes => keyboard_routine code;; press codes
  end.

(** The key of [code] gives [c] and is pressed, not released. *)
Definition key_of (code c : Z) : Prop := zlookup char_map (Z.land code 0x7f) = Some c ∧ Z.land code 0x80 = 0.

(** The buffer with as many characters as it counts. *)
Record counted (b : kbd_state) : Prop := {
  co_ok : kbd_ok b;
  co_start : 0 ≤ start b < CIRCULAR_SIZE;
  co_count : 0 ≤ circ_chars b < CIRCULAR_SIZE;
  co_p : kbd_p b = (start b + circ_chars b) mod CIRCULAR_SIZE;
}.

Lemma buffered_count c b : counted b → circ_chars (buffered c b) = circ_chars b + 1.
Proof.
  intros [_ _ Hc _]. unfold CIRCULAR_SIZE in *. simpl. apply s32_small. unfold INT_MIN, INT_MAX. lia.
Qed.

Lemma buffered_char c b i :
  counted b → 0 ≤ i ≤ circ_chars b →
  circ_char (buffered c b) i = if decide (i = circ_chars b) then c else circ_char b i.
Proof.
  intros [[Hl Hp] Hst Hc E] Hi. unfold circ_char. simpl. unfold CIRCULAR_SIZE in *.
  rewrite zlookup_zinsert by lia. rewrite E. case_decide as E1; case_decide as E2; simpl; try done.
  - exfalso. apply E2. clear Hl Hp E E2. 
    pose proof (Z.div_mod (start b + circ_chars b) 5 ltac:(lia)). pose proof (Z.div_mod (start b + i) 5 ltac:(lia)). lia.
  - subst i. by destruct E1.
Qed.

Lemma buffered_counted c b : counted b → circ_chars b + 1 < CIRCULAR_SIZE → counted (buffered c b).
Proof.
  intros Hb Hlt. pose proof (buffered_count c b Hb) as Ec. destruct Hb as [Hk Hst Hc E]. split.
  - by apply buffered_ok.
  - done.
  - rewrite Ec. lia.
  - rewrite Ec. simpl. rewrite E, Z.add_mod_idemp_l by done. f_equal. lia.
Qed.

Lemma drained_counted b : kbd_ok b → counted (drained b).
Proof.
  intros [Hl Hp]. split; simpl; [done|done|done|]. by rewrite Z.add_0_r, Z.mod_small.
Qed.

Section Line.
Context (frames cs : list Z) (addr n t eax : Z) (rest : list Z) (q : node → list Z) (m0 : mm_state).
Context (Hnd : NoDup frames) (Hfl : zlen frames = NUM_PAG_DATA) (Hin : in_data addr n).
Context (Hcs : zlen cs = n) (Hn : n ≤ INT_MAX) (Ht : q KeyboardQueue = t :: rest).

Definition char_at (i : Z) : Z := default 0 (zlookup cs i).

(** The first [d] characters are in the buffer of the reader, and no other
    byte of the memory changed. *)
Record arrived (d : Z) (m : mm_state) : Prop := {
  ar_chars : ∀ i, 0 ≤ i < d → ram_byte m (own_phys frames (addr + i)) = char_at i;
  ar_other : ∀ pa, (∀ i, 0 ≤ i < d → pa ≠ own_phys frames (addr + i)) → ram_byte m pa = ram_byte m0 pa;
}.

(** The reader after [d] characters, [e] of them delivered. *)
Record waiting (d e : Z) (w : task_struct) : Prop := {
  wa_frames : ph_pages w = frames;
  wa_pending : pending_chars w = n - d;
  wa_buffer : buffer w = addr + e;
  wa_size : req_size w = n - e;
  wa_result : saved_eax w = eax;
}.

Record typing (d : Z) (k : kstate) : Prop := {
  ty_shape : shape k;
  ty_inv : qinv (qview_of k) q;
  ty_kbd : counted (kbd k);
  ty_count : circ_chars (kbd k) ≤ d < n;
  ty_chars : ∀ i, 0 ≤ i < circ_chars (kbd k) → circ_char (kbd k) i = char_at (d - circ_chars (kbd k) + i);
  ty_task : ∃ w, zlookup (task k) t = Some w ∧ waiting d (d - circ_chars (kbd k)) w;
  ty_mem : arrived (d - circ_chars (kbd k)) (mm k);
}.

(** The reader was served. *)
Record line_read (k : kstate) (q' : node → list Z) : Prop := {
  lr_shape : shape k;
  lr_inv : qinv (qview_of k) q';
  lr_queue : dequeued q KeyboardQueue t rest Runqueue q';
  lr_mem : arrived n (mm k);
  lr_kbd : counted (kbd k) ∧ circ_chars (kbd k) = 0;
  lr_result : ∃ w, zlookup (task k) t = Some w ∧ saved_eax w = eax;
}.

(** The delivery of [l] more characters. *)
Lemma arrived_more e l v vc b m m' :
  arrived e m → delivered v vc b l m m' → ph_pages v = frames → buffer v = addr + e →
  0 ≤ e → 0 ≤ l → e + l ≤ n → (∀ i, 0 ≤ i < l → circ_char b i = char_at (e + i)) →
  arrived (e + l) m'.
Proof using Hnd Hfl Hin.
  intros [Hc Ho] Hd Ef Eb He Hl Hel Hch.
  pose proof (dl_bytes _ _ _ _ _ _ Hd) as Hby. pose proof (dl_other _ _ _ _ _ _ Hd) as Hot.
  rewrite Eb, Ef in Hby, Hot. split.
  - intros i Hi. destruct (decide (i < e)) as [Hlt|Hge].
    + rewrite Hot; [by apply Hc; lia|]. intros j Hj E. rewrite <-Z.add_assoc in E.
      apply (own_phys_inj _ _ n) in E; [lia|done|done|done|lia|lia].
    + specialize (Hby (i - e) ltac:(lia)). rewrite Hch in Hby by lia.
      replace (addr + e + (i - e)) with (addr + i) in Hby by lia.
      by replace (e + (i - e)) with i in Hby by lia.
  - intros pa Hpa. rewrite Hot; [apply Ho; intros i Hi; apply Hpa; lia|].
    intros i Hi. rewrite <-Z.add_assoc. apply Hpa. lia.
Qed.

Lemma line_address l : 0 ≤ l ≤ n → u32 (addr + l) = addr + l.
Proof using Hin.
  destruct Hin as [H1 H2]. unfold WINDOW in *. change PAG_LOG_INIT_DATA_P0 with 264 in *.
  unfold PAGE_SIZE, NUM_PAG_DATA in *. intros Hl. apply u32_small. lia.
Qed.

Section Key.
Context (d : Z) (k : kstate) (w : task_struct).
Context (Hty : typing d k) (Hw : zlookup (task k) t = Some w) (Hwait : waiting d (d - circ_chars (kbd k)) w).
Let e := d - circ_chars (kbd k).
Let b := buffered (char_at d) (kbd k).

Lemma line_chars i : 0 ≤ i < circ_chars (kbd k) + 1 → circ_char b i = char_at (e + i).
Proof using Hty.
  intros Hi. unfold b. rewrite buffered_char; [|apply Hty|lia].
  case_decide as E; [|apply Hty; lia]. f_equal. lia.
Qed.

Lemma line_fits l : 0 ≤ l → e + l ≤ n → l ≤ CIRCULAR_SIZE → can_take w l.
Proof using Hty Hwait Hnd Hin.
  intros Hl Hel Hlc. destruct (ty_kbd _ _ Hty) as [_ _ Hc _]. pose proof (ty_count _ _ Hty).
  destruct Hwait as [Ef _ Eb _ _]. split; [done| |by rewrite Ef].
  rewrite Eb. destruct Hin as [H1 H2]. unfold in_data. fold e in Eb. lia.
Qed.

Lemma line_awaits : awaits w b.
Proof using Hty Hwait Hnd Hin Hn.
  pose proof (buffered_count (char_at d) _ (ty_kbd _ _ Hty)) as Ec. fold b in Ec.
  destruct (ty_kbd _ _ Hty) as [_ _ Hc _]. pose proof (ty_count _ _ Hty).
  pose proof Hwait as [_ Ep _ Es _]. unfold awaits. rewrite Ep, Es. fold e. split_and!.
  - unfold INT_MIN, INT_MAX in *. lia.
  - lia.
  - intros Hp. apply line_fits; lia.
  - intros Hp Hfull. apply line_fits; lia.
Qed.

Lemma line_mem l vc m' :
  delivered w vc b l (mm k) m' → 0 ≤ l ≤ circ_chars (kbd k) + 1 → e + l ≤ n → arrived (e + l) m'.
Proof using Hty Hwait Hnd Hin Hfl.
  intros Hd Hl Hel. pose proof (ty_count _ _ Hty). destruct Hwait as [Ef _ Eb _ _].
  eapply arrived_more; [by apply Hty|exact Hd|done|done|lia|lia|done|].
  intros i Hi. apply line_chars. lia.
Qed.

Lemma line_one_less : waiting (d + 1) e (one_less w).
Proof using Hty Hwait Hn.
  pose proof (co_count _ (ty_kbd _ _ Hty)). pose proof (ty_count _ _ Hty). pose proof Hwait as [Ef Ep Eb Es Er].
  split; [done| |done..]. simpl. rewrite Ep, s32_small by (unfold INT_MIN, INT_MAX in *; lia). lia.
Qed.

Lemma line_batch : circ_chars b = CIRCULAR_SIZE → d + 1 < n →
  waiting (d + 1) (d + 1) (t_buffer (u32 (buffer w + circ_chars b)) (t_req_size (s32 (req_size w - circ_chars b)) (one_less w))).
Proof using Hty Hwait Hn Hin.
  intros Efull Hd. pose proof line_one_less as [Ef Ep _ _ Er]. pose proof Hwait as [_ _ Eb Es _].
  pose proof (buffered_count (char_at d) _ (ty_kbd _ _ Hty)) as Ec. fold b in Ec. pose proof (ty_count _ _ Hty).
  pose proof (co_count _ (ty_kbd _ _ Hty)). rewrite Ec in *. split; [done|done| | |done]; simpl.
  - rewrite Eb, <-Z.add_assoc, line_address; lia.
  - rewrite Es, s32_small; unfold INT_MIN, INT_MAX in *; lia.
Qed.

(** A key that is not the last one. *)
Lemma line_more vc k' q' :
  d + 1 < n → served k q t rest w vc b k' q' → qinv (qview_of k') q' → shape k' → typing (d + 1) k'.
Proof using Hty Hw Hwait Hnd Hin Hfl Hn.
  intros Hd Hserved Hq' Hs'. pose proof (zlookup_Some_range _ _ _ Hw) as Htr.
  pose proof (buffered_count (char_at d) _ (ty_kbd _ _ Hty)) as Ec. fold b in Ec.
  pose proof (ty_kbd _ _ Hty) as Hco. pose proof (co_count _ Hco) as Hc. pose proof (ty_count _ _ Hty) as Hcd.
  pose proof (wa_pending _ _ _ Hwait) as Ep. 
  destruct Hserved as [|m' Hp Hfull Hdel|Hp Hroom]; [lia| |].
  - assert (circ_chars b = CIRCULAR_SIZE) as Efull by lia. split; try done.
    + apply drained_counted, buffered_ok, Hco.
    + simpl. lia.
    + simpl. intros. lia.
    + eexists. split; [by apply zlookup_zinsert_eq|]. simpl. rewrite Z.sub_0_r. by apply line_batch.
    + simpl. rewrite Z.sub_0_r. replace (d + 1) with (e + CIRCULAR_SIZE) by lia.
      eapply line_mem; [exact Hdel|lia|lia].
  - assert (d + 1 - circ_chars b = e) as Ee by lia. split; try done.
    + apply buffered_counted; [done|lia].
    + change (kbd (set_kbd b (set_task (zinsert t (one_less w) (task k)) k))) with b. lia.
    + change (kbd (set_kbd b (set_task (zinsert t (one_less w) (task k)) k))) with b. intros i Hi.
      rewrite Ee. apply line_chars. lia.
    + change (kbd (set_kbd b (set_task (zinsert t (one_less w) (task k)) k))) with b. rewrite Ee.
      eexists. split; [by apply zlookup_zinsert_eq|exact line_one_less].
    + change (kbd (set_kbd b (set_task (zinsert t (one_less w) (task k)) k))) with b. rewrite Ee. apply Hty.
Qed.

(** The last one. *)
Lemma line_last vc k' q' :
  d + 1 = n → served k q t rest w vc b k' q' → qinv (qview_of k') q' → shape k' → line_read k' q'.
Proof using Hty Hw Hwait Hnd Hin Hfl Hn.
  intros Hd Hserved Hq' Hs'. pose proof (zlookup_Some_range _ _ _ Hw) as Htr.
  pose proof (ty_kbd _ _ Hty) as Hco. pose proof (co_count _ Hco). pose proof (ty_count _ _ Hty).
  pose proof Hwait as [_ Ep _ Es Er].
  destruct Hserved as [h' m' q' Hp Hdel Hdq| |]; [|lia..]. split; [done|done|done| | |].
  - replace n with (e + req_size w) by (rewrite Es; lia). eapply line_mem; [exact Hdel|lia|lia].
  - split; [|done]. apply drained_counted, buffered_ok, Hco.
  - exists (one_less w). split; [by apply zlookup_zinsert_eq|done].
Qed.
End Key.

Lemma wp_press codes : ∀ d k (Q : unit → kstate → Prop) X,
  typing d k → d + zlen codes = n → (∀ i code, zlookup codes i = Some code → key_of code (char_at (d + i))) →
  (∀ k' q', line_read k' q' → Q () k') → wp (press codes) k Q X.
Proof using Hnd Hfl Hin Hn Ht.
  induction codes as [|code codes IH]; intros d k Q X Hty Hd Hkey HQ; simpl.
  { pose proof (ty_count _ _ Hty). change (zlen []) with 0 in Hd. lia. }
  assert (zlen (code :: codes) = zlen codes + 1) as El by (unfold zlen; simpl; lia). rewrite El in Hd.
  destruct (ty_task _ _ Hty) as (w & Hw & Hwait). destruct (qinv_current _ _ (ty_inv _ _ Hty)) as [vc Hvc].
  destruct (Hkey 0 code) as [Hc Hpress]; [done|]. rewrite Z.add_0_r in Hc.
  apply wp_bind. eapply (wp_serve k q t rest w vc (char_at d)); try exact Hc; try apply Hty; try done.
  { eapply line_awaits; [exact Hty|exact Hwait]. }
  intros k' q' Hserved Hq' Hs'. assert (0 ≤ zlen codes) by (unfold zlen; lia).
  destruct (decide (d + 1 = n)) as [E|E].
  - destruct codes; [|unfold zlen in *; simpl in *; lia]. apply wp_ret, (HQ _ q').
    eapply line_last; [exact Hty|exact Hw|exact Hwait|done..].
  - apply (IH (d + 1)); [|lia| |done].
    + eapply line_more; [exact Hty|exact Hw|exact Hwait|lia|done..].
    + intros i code' Hi. replace (d + 1 + i) with (d + (i + 1)) by lia. apply Hkey.
      rewrite <-Hi. unfold zlookup. pose proof (zlookup_Some_range _ _ _ Hi).
      rewrite !decide_True by lia. by replace (Z.to_nat (i + 1)) with (S (Z.to_nat i)) by lia.
Qed.
End Line.

(** The reader that just blocked has received nothing yet. *)
Lemma blocked_typing k q v n k' q' cs :
  read_blocked k q v n k' q' → qinv (qview_of k) q → q KeyboardQueue = [] →
  zlookup (task k) (cur (sched k)) = Some v → kbd_ok (kbd k) → circ_chars (kbd k) = 0 → 0 < n ≤ INT_MAX →
  qinv (qview_of k') q' → shape k' →
  q' KeyboardQueue = [cur (sched k)] ∧ q' Runqueue = without (cur (sched k)) (q Runqueue) ∧
  typing (ph_pages v) cs (buffer v) n (cur (sched k)) n q' (mm k) 0 k'.
Proof.
  intros [h' t rest k1 Hwait Hp qm Ht Hres] Hq He Hv Hk Hc Hn Hq' Hs'.
  assert (qm KeyboardQueue = [cur (sched k)]) as Hkq.
  { unfold qm, qmove. by rewrite fn_lookup_insert, fn_lookup_insert_ne, He. }
  assert (qm Runqueue = without (cur (sched k)) (q Runqueue)) as Hrq.
  { unfold qm, qmove. by rewrite fn_lookup_insert_ne, fn_lookup_insert. }
  split; [done|]. split; [done|].
  assert (t ≠ cur (sched k)) as Hne.
  { assert (t ∈ without (cur (sched k)) (q Runqueue)) as [? _]%elem_of_without; [|done].
    rewrite <-Hrq, Ht. by left. }
  destruct Hres as [w m' Hw Hm Hst ->]. pose proof (zlookup_Some_range _ _ _ Hv) as Hr.
  set (r := kbd_request n (t_pending_chars (pending_of n (kbd k)) v)) in *.
  split; try done; simpl; rewrite ?Hc, ?Z.sub_0_r.
  - by apply drained_counted in Hk as [? ? ? ?]; split; simpl in *; rewrite ?Hc.
  - lia.
  - intros. lia.
  - exists r. split.
    + rewrite zlookup_zinsert_ne by done. by apply zlookup_zinsert_eq.
    + split; simpl; try done; try lia. unfold pending_of. rewrite Hc, bool_decide_true, s32_small; unfold INT_MIN, INT_MAX in *; lia.
  - split; [intros; lia|]. intros pa _. unfold ram_byte. by rewrite (mp_ram _ _ _ _ _ Hm).
Qed.
