(* ===== verification/KeyProps.v ===== *)
(** * Properties of the keyboard as a device to read from. *)
From stdpp Require Import functions.
From S2P Require Import Prelude KList Mm Io Fs KState Sched Devices.
From S2P Require Import Interrupt Queues SchedFacts SemFacts KernelInv Kernel States EntryProps.
From S2P Require Import KeyFacts KeyServe KeyLine.

(** ** A system whose second process is about to read. *)

Definition reader_buffer : Z := 0x110000.
Definition reader_kbd : kbd_state := MkKbd (replicate 5 0) 0 0 0.

Record reading (k : kstate) (q : node → list Z) (v : task_struct) : Prop := {
  re_shape : shape k;
  re_inv : qinv (qview_of k) q;
  re_cur : cur (sched k) = 1;
  re_task : zlookup (task k) 1 = Some v;
  re_pid : pid v = 1;
  re_run : q Runqueue = [0; 1];
  re_queue : q KeyboardQueue = [];
  re_kbd : kbd k = reader_kbd;
  re_frames : ph_pages v = boot_pages;
  re_buffer : buffer v = reader_buffer;
}.

Lemma with_reader : ∃ k q v, reading k q v.
Proof.
  destruct with_child as (k & q & v & H). pose proof (du_shape _ _ _ H) as Hs.
  destruct booted as (k0 & q0 & H0). destruct (qinv_lookup_task _ _ 0 (so_inv _ _ H0)) as [v0 Hv0]; [done|].
  assert (ph_pages v0 = boot_pages) as E0.
  { pose proof (so_pages _ _ H0) as E. destruct (task k0) as [|w l]; [done|].
    change (zlookup (w :: l) 0) with (Some w) in Hv0. simpl in E. by simplify_eq. }
  set (w := t_ph_pages boot_pages (t_buffer reader_buffer v)).
  exists (set_kbd reader_kbd (set_task (zinsert 1 w (task k)) k)), q, w.
  pose proof (du_task _ _ _ H) as Hv. pose proof (zlookup_Some_range _ _ _ Hv).
  split; try apply H; try done.
  - apply shape_kbd. apply (shape_set_task k 1 v); [done|done|].
    destruct (sh_task _ Hs _ _ Hv), (sh_task _ (so_shape _ _ H0) _ _ Hv0) as [Hl Hf _ _].
    rewrite E0 in *. by split.
  - unfold qview_of. simpl. erewrite pids_zinsert by done. apply H.
  - by apply zlookup_zinsert_eq.
Qed.

Lemma reader_takes v : ph_pages v = boot_pages → buffer v = reader_buffer →
  NoDup (ph_pages v) ∧ in_data (buffer v) 7.
Proof.
  intros -> ->. split; [apply NoDup_fmap_2; [intros ? ? ?; lia|apply NoDup_seqZ]|]. by split; vm_compute.
Qed.

(** C21: [sys_read_keyboard] hands out the characters at once when the buffer
    has enough of them and nobody waits: they are, in order of arrival, in the
    caller's buffer, the next read goes on after them, and no other byte of the
    memory changes.  Otherwise process 0 is refused; another process leaves the
    run queue for the end of that of the keyboard and the first runnable process
    is resumed, and the read will count the characters that were in the buffer
    although the buffer starts anew at the write index. *)
Theorem sys_read_keyboard_correct fd buf k q v size :
  shape k → qinv (qview_of k) q → zlookup (task k) (cur (sched k)) = Some v → pid v ≠ -1 →
  kbd_ok (kbd k) → 0 ≤ start (kbd k) < CIRCULAR_SIZE → 0 ≤ circ_chars (kbd k) ≤ INT_MAX →
  0 ≤ size ≤ INT_MAX → (¬ must_wait k q size → can_take v size) →
  wp (sys_read_keyboard fd buf size) k
    (λ r k', read_post k q v size r k' ∧ qinv (qview_of k') q ∧ shape k')
    (λ k', ∃ q', read_blocked k q v size k' q' ∧ qinv (qview_of k') q' ∧ shape k').
Proof. intros. eapply wp_sys_read_keyboard; eauto. Qed.

(** Process 1 asks for seven characters of an empty buffer. *)
Lemma sys_read_keyboard_correct_witness :
  ∃ k q v, reading k q v ∧
  wp (sys_read_keyboard 0 reader_buffer 7) k
    (λ r k', read_post k q v 7 r k' ∧ qinv (qview_of k') q ∧ shape k')
    (λ k', ∃ q', read_blocked k q v 7 k' q' ∧ qinv (qview_of k') q' ∧ shape k').
Proof.
  destruct with_reader as (k & q & v & H). exists k, q, v. split; [exact H|].
  apply (sys_read_keyboard_correct 0 reader_buffer k q v 7 (re_shape _ _ _ H) (re_inv _ _ _ H)).
  - rewrite (re_cur _ _ _ H). apply H.
  - rewrite (re_pid _ _ _ H). lia.
  - rewrite (re_kbd _ _ _ H). by split.
  - rewrite (re_kbd _ _ _ H). by vm_compute.
  - rewrite (re_kbd _ _ _ H). by vm_compute.
  - by vm_compute.
  - intros Hw. destruct Hw. left. by rewrite (re_kbd _ _ _ H).
Defined.

(** C26: A line reaches its reader: when a process reads [n] characters and
    finds the buffer empty and nobody waiting, it sleeps until [n] keys were
    pressed, however many times the buffer of five characters fills up
    meanwhile.  Then it is at the end of the run queue, its [read] to return
    [n]; its buffer holds the characters of the keys, in their order, and no
    other byte of the memory changed. *)
Theorem typed_line_arrives fd buf codes cs n k q v :
  shape k → qinv (qview_of k) q → zlookup (task k) (cur (sched k)) = Some v → 0 < pid v →
  q KeyboardQueue = [] → kbd_ok (kbd k) → 0 ≤ start (kbd k) < CIRCULAR_SIZE → circ_chars (kbd k) = 0 →
  NoDup (ph_pages v) → in_data (buffer v) n → 0 < n ≤ INT_MAX →
  zlen cs = n → Forall2 key_of codes cs →
  wp (sys_read_keyboard fd buf n) k (λ _ _, False) (λ k1, returns (press codes) k1 (λ _ k2, ∃ q2,
    qinv (qview_of k2) q2 ∧ q2 KeyboardQueue = [] ∧
    q2 Runqueue = without (cur (sched k)) (q Runqueue) ++ [cur (sched k)] ∧
    (∃ w, zlookup (task k2) (cur (sched k)) = Some w ∧ saved_eax w = n) ∧
    (∀ i c, zlookup cs i = Some c → ram_byte (mm k2) (own_phys (ph_pages v) (buffer v + i)) = c) ∧
    (∀ pa, (∀ i, 0 ≤ i < n → pa ≠ own_phys (ph_pages v) (buffer v + i)) →
       ram_byte (mm k2) pa = ram_byte (mm k) pa))).
Proof.
  intros Hs Hq Hv Hp He Hk Hst Hc Hnd Hin Hn Hcs Hkeys.
  eapply wp_sys_read_keyboard; try done; [lia..|unfold must_wait; lia| |].
  { intros r k' Hpost _ _. destruct Hpost as [? []|]; [left; lia|lia]. }
  intros k1 q1 Hb Hq1 Hs1. edestruct (blocked_typing k q v n k1 q1 cs) as (Hkq & Hrun & Hty); try done.
  apply wp_returns. eapply wp_press; [done|apply (ts_pages _ (sh_task _ Hs _ _ Hv))|done|lia|done|exact Hty| | |].
  - rewrite <-Hcs. unfold zlen. by rewrite (Forall2_length _ _ _ Hkeys).
  - intros i code Hi. pose proof (zlookup_Some_range _ _ _ Hi).
    destruct (Forall2_lookup_l _ _ _ (Z.to_nat i) code Hkeys) as (c & Hci & Hkey).
    { unfold zlookup in Hi. by rewrite decide_True in Hi by lia. }
    rewrite Z.add_0_l. unfold char_at, zlookup. rewrite decide_True by lia. by rewrite Hci.
  - intros k2 q2 [Hs2 Hq2 Hdq [Hch Hot] _ Hw]. exists q2. destruct Hdq as [_ Hrest Hto _].
    split_and!; [done|done|by rewrite Hto, Hrun|done| |done].
    intros i c Hi. rewrite Hch; [unfold char_at; by rewrite Hi|]. rewrite <-Hcs. by eapply zlookup_Some_range.
Qed.

(** Process 1 reads seven characters and somebody types [qwertyu]. *)
Lemma typed_line_arrives_witness :
  ∃ k q v, reading k q v ∧ let codes := [16; 17; 18; 19; 20; 21; 22] in
  let cs := [113; 119; 101; 114; 116; 121; 117] in
  wp (sys_read_keyboard 0 reader_buffer 7) k (λ _ _, False) (λ k1, returns (press codes) k1 (λ _ k2, ∃ q2,
    qinv (qview_of k2) q2 ∧ q2 KeyboardQueue = [] ∧
    q2 Runqueue = without (cur (sched k)) (q Runqueue) ++ [cur (sched k)] ∧
    (∃ w, zlookup (task k2) (cur (sched k)) = Some w ∧ saved_eax w = 7) ∧
    (∀ i c, zlookup cs i = Some c → ram_byte (mm k2) (own_phys (ph_pages v) (buffer v + i)) = c) ∧
    (∀ pa, (∀ i, 0 ≤ i < 7 → pa ≠ own_phys (ph_pages v) (buffer v + i)) →
       ram_byte (mm k2) pa = ram_byte (mm k) pa))).
Proof.
  destruct with_reader as (k & q & v & H). exists k, q, v. split; [exact H|]. intros codes cs.
  destruct (reader_takes v (re_frames _ _ _ H) (re_buffer _ _ _ H)) as [Hnd Hin].
  apply (typed_line_arrives 0 reader_buffer codes cs 7 k q v (re_shape _ _ _ H) (re_inv _ _ _ H)).
  - rewrite (re_cur _ _ _ H). apply H.
  - rewrite (re_pid _ _ _ H). lia.
  - apply H.
  - rewrite (re_kbd _ _ _ H). by split.
  - rewrite (re_kbd _ _ _ H). by vm_compute.
  - by rewrite (re_kbd _ _ _ H).
  - exact Hnd.
  - exact Hin.
  - by vm_compute.
  - reflexivity.
  - unfold codes, cs, key_of. repeat constructor.
Defined.
