(* ===== verification/MonitorProps.v ===== *)
(** * Properties of the monitor of system calls and of its device. *)
From S2P Require Import Prelude Monitor Reader MonitorFacts.

(** ** A concrete system: five system calls, one process. *)

(** [clone] makes process 2, whose records are those of an earlier process. *)
Definition demo_thread : my_thread := MyThread (replicate 6 (TInfo 7 0 0 0)) 9.
Definition demo_native (rt : routine) (args : list Z) : Mon Z := λ s,
  if bool_decide (rt = Native 120) then
    match threads s !! 2 with
    | Some _ => Ret (-11) s
    | None => Ret 2 (set_threads (<[2 := demo_thread]> (threads s)) s)
    end
  else Ret (-9) s.
Definition demo_table : gmap Z routine :=
  list_to_map ((λ nr, (nr, Native nr)) <$> [5; 6; 4; 120; 19; 1]).
Definition demo_mon : mon_state :=
  MkMon demo_table (replicate 5 (Native 0)) (replicate 5 (Native 0)) (replicate 5 t_info_zero)
    {[ 1 := MyThread (replicate 6 t_info_zero) 7 ]} 1 1 100 0 [].
Definition demo_loaded : mon_state :=
  set_sys_call_table_original [Native 5; Native 6; Native 4; Native 120; Native 19] demo_mon.

Lemma demo_recorded : recorded demo_mon 1.
Proof. split; [|done]. by eexists. Qed.
Lemma kept_refl s : kept s s.
Proof. split; [done..|]. intros p t E E'. by rewrite E in E'. Qed.
Lemma demo_keeps rt args : keeps_records (demo_native rt args).
Proof.
  intros s. unfold demo_native. case_bool_decide; [|exists (-9), s; split; [done|apply kept_refl]].
  destruct (threads s !! 2) as [t2|] eqn:E2; [exists (-11), s; split; [done|apply kept_refl]|].
  eexists 2, _. split; [done|]. split; [done..| |]; simpl; intros p t Hp.
  - rewrite lookup_insert_ne; [done|]. intros <-. by rewrite E2 in Hp.
  - intros Ht. destruct (decide (p = 2)) as [->|]; [|by rewrite lookup_insert_ne, Hp in Ht].
    rewrite lookup_insert_eq in Ht. by injection Ht as <-.
Qed.

(** C27: A system call through a local trap calls the original routine and returns
    its result, as an [int].  Of the records of the calling process - which are
    zeroed first when they are of an earlier process - those of the call and of
    all calls count the call once, as successful or as failed by the sign of the
    result, with the cycles from before the original routine to after it; so does
    the record of the call of the system.  The routine runs with the call already
    counted and the module referenced; nothing else changes but what it changes. *)
Theorem trap_counts_call native try_get put_mod call args s :
  (∀ rt args, keeps_records (native rt args)) →
  recorded s (current s) → 0 ≤ call < N_CALLS → zlen (sys_call_table_original s) = N_CALLS →
  returns (trap native try_get put_mod call args) s (traced native try_get put_mod call args s).
Proof. intros. apply wp_returns. eapply wp_trap; auto. Qed.

Lemma trap_counts_call_witness :
  returns (trap demo_native (λ n, n + 1) (λ n, n - 1) CLONE [0]) demo_loaded
    (traced demo_native (λ n, n + 1) (λ n, n - 1) CLONE [0] demo_loaded).
Proof.
  apply trap_counts_call.
  - exact demo_keeps.
  - split; [apply demo_recorded|done].
  - unfold CLONE, N_CALLS. lia.
  - reflexivity.
Defined.

(** ** The counters add up. *)

(** The calls are the successful ones and the failed ones, as 32 bit
    numbers. *)
Definition adds_up (t : t_info) : Prop := (n_calls t - n_calls_ok t - n_calls_err t) mod 2 ^ 32 = 0.

Lemma s32_mod z : s32 z mod 2 ^ 32 = z mod 2 ^ 32.
Proof.
  unfold s32, wrap_s. rewrite Zminus_mod_idemp_l. f_equal. lia.
Qed.

Lemma adds_up_one_call r d t : adds_up t → adds_up (one_call r d t).
Proof.
  unfold adds_up, one_call, bump_result. intros H.
  assert (∀ a b c a' b' c', a' mod 2 ^ 32 = a mod 2 ^ 32 → b' mod 2 ^ 32 = b mod 2 ^ 32 →
    c' mod 2 ^ 32 = c mod 2 ^ 32 → (a' - b' - c') mod 2 ^ 32 = (a - b - c) mod 2 ^ 32) as Hm.
  { intros a b c a' b' c' Ea Eb Ec. rewrite (Zminus_mod (a' - b')), (Zminus_mod a'), Ea, Eb, Ec.
    by rewrite <-(Zminus_mod a), <-(Zminus_mod (a - b)). }
  case_bool_decide; simpl; (rewrite (Hm (n_calls t + 1) _ _ (s32 (n_calls t + 1)) _ _ (s32_mod _) eq_refl eq_refl)).
  - rewrite (Hm (n_calls t + 1) (n_calls_ok t + 1) _ _ (s32 (n_calls_ok t + 1)) _ eq_refl (s32_mod _) eq_refl).
    rewrite <-H. f_equal. lia.
  - rewrite (Hm (n_calls t + 1) _ (n_calls_err t + 1) _ _ (s32 (n_calls_err t + 1)) eq_refl eq_refl (s32_mod _)).
    rewrite <-H. f_equal. lia.
Qed.

(** The tables are there, and every record adds up: those of the system, and those
    of each process that are its own. *)
Record tallied (s : mon_state) : Prop := {
  ta_original : zlen (sys_call_table_original s) = N_CALLS;
  ta_table : zlen (syscall_info_table s) = N_CALLS;
  ta_current : is_Some (threads s !! current s);
  ta_threads : ∀ p t, threads s !! p = Some t → zlen (stats t) = N_CALLS + 1;
  ta_own : ∀ p i t, stats_pid <$> threads s !! p = Some p → proc_stat s p i = Some t → adds_up t;
  ta_info : ∀ i t, info_stat s i = Some t → adds_up t;
}.

Lemma tallied_recorded s p : tallied s → is_Some (threads s !! p) → recorded s p.
Proof. intros H [t Ht]. split; [exists t; split; [done|by apply (ta_threads _ H _ _ Ht)]|apply H]. Qed.

(** The system works on: a trap, a switch of processes, the end of one, and
    whatever leaves the records alone. *)
Section Work.
Context (native : routine → list Z → Mon Z) (try_get put_mod : Z → Z).

Definition set_current (p : Z) (s : mon_state) : mon_state :=
  MkMon (sys_call_table s) (sys_call_table_original s) (sys_call_table_local s)
    (syscall_info_table s) (threads s) p (pid_init s) (tsc s) (module_refs s) (klog s).

Inductive mon_step : mon_state → mon_state → Prop :=
| step_trap call args r s s' :
    0 ≤ call < N_CALLS → trap native try_get put_mod call args s = Ret r s' → mon_step s s'
| step_switch p s : is_Some (threads s !! p) → mon_step s (set_current p s)
| step_end p s : p ≠ current s → mon_step s (set_threads (delete p (threads s)) s)
| step_linux s s' : kept s s' → mon_step s s'.

Lemma tallied_kept s s' : kept s s' → tallied s → tallied s'.
Proof using.
  intros [Ei Eo Ec Ht Hn] [Ho Hi [tc Hc] Hs Hown Hinfo]. split; [by rewrite Eo|by rewrite Ei|rewrite Ec; eauto| | |].
  - intros p t Hp. destruct (threads s !! p) as [t0|] eqn:E; [|by apply (Hn p)].
    pose proof (Ht _ _ E) as E'. rewrite Hp in E'. injection E' as ->. by eapply Hs.
  - intros p i t. unfold proc_stat. destruct (threads s' !! p) as [t'|] eqn:E'; [|done]. simpl. intros [= Hp] Hti.
    destruct (threads s !! p) as [t0|] eqn:E.
    + pose proof (Ht _ _ E) as E''. rewrite E' in E''. injection E'' as ->.
      apply (Hown p i t); [rewrite E; simpl; by rewrite Hp|]. unfold proc_stat. by rewrite E.
    + by destruct (Hn _ _ E E').
  - intros i t. unfold info_stat. rewrite Ei. apply Hinfo.
Qed.

(** The records that are the process's own, zeroed or not, add up. *)
Lemma own_stat_adds_up s p i t : tallied s → own_stat s p i = Some t → adds_up t.
Proof using.
  intros H. unfold own_stat. case_bool_decide; [by apply H|]. by intros (? & _ & ->)%fmap_Some.
Qed.

Lemma tallied_traced s call args r s' :
  tallied s → traced native try_get put_mod call args s r s' → tallied s'.
Proof using.
  intros H [rt s2 v s3 s4 _ [_ _ _ (t2 & i2 & E2)] _ K [Hown Hinfo Hpid [(t & Ht & Hl) Hi] (t4 & i4 & E4)]].
  assert (∀ p' t', p' ≠ current s → threads s4 !! p' = Some t' →
    threads s !! p' = Some t' ∨ zlen (stats t') = N_CALLS + 1 ∧ stats_pid t' ≠ p') as Hother.
  { intros p' t' Hne. rewrite E4. simpl. rewrite lookup_insert_ne by done. intros Ht'.
    assert (threads s2 !! p' = threads s !! p') as E by (rewrite E2; simpl; by rewrite lookup_insert_ne).
    destruct (threads s2 !! p') as [t0|] eqn:E0; [|right; by eapply (kp_new _ _ K)].
    left. pose proof (kp_threads _ _ K _ _ E0) as E3. congruence. }
  split.
  - rewrite E4. simpl. rewrite (kp_original _ _ K), E2. apply H.
  - exact Hi.
  - replace (current s4) with (current s); [by eexists|]. rewrite E4. simpl. by rewrite (kp_current _ _ K), E2.
  - intros p t' Hp. destruct (decide (p = current s)) as [->|Hne]; [congruence|].
    destruct (Hother _ _ Hne Hp) as [Hs|[]]; [by eapply ta_threads|done].
  - intros p i t' Hp Ht'. destruct (decide (p = current s)) as [->|Hne].
    + rewrite Hown in Ht'. case_decide; [|by eapply own_stat_adds_up].
      apply fmap_Some in Ht' as (t0 & Ht0 & ->). by eapply adds_up_one_call, own_stat_adds_up.
    + unfold proc_stat in Ht'. destruct (threads s4 !! p) as [u|] eqn:Eu; [|done]. injection Hp as Hp. simpl in Ht'.
      destruct (Hother _ _ Hne Eu) as [Hs|[]]; [|done].
      apply (ta_own _ H p i t'); [by rewrite Hs, <-Hp|]. unfold proc_stat. by rewrite Hs.
  - intros i t' Ht'. rewrite Hinfo in Ht'. case_decide; [|by eapply (ta_info _ H)].
    apply fmap_Some in Ht' as (t0 & Ht0 & ->). by eapply adds_up_one_call, (ta_info _ H).
Qed.

Context (Hnative : ∀ rt args, keeps_records (native rt args)).

Lemma wp_tallied_trap s call args X :
  tallied s → 0 ≤ call < N_CALLS → wp (trap native try_get put_mod call args) s (λ _, tallied) X.
Proof using Hnative.
  intros H Hc. eapply wp_trap; [done|by apply tallied_recorded, H|done|apply H|].
  intros r s'. by apply tallied_traced.
Qed.

Lemma tallied_step s s' : tallied s → mon_step s s' → tallied s'.
Proof using Hnative.
  intros H Hstep. destruct Hstep as [call args r s s' Hc E|p s Hp|p s Hne|s s' Hk].
  - pose proof (wp_tallied_trap s call args (λ _, False) H Hc) as Hw. unfold wp in Hw. by rewrite E in Hw.
  - by destruct H.
  - assert (∀ q t, delete p (threads s) !! q = Some t → threads s !! q = Some t ∧ q ≠ p) as Hd.
    { intros q t [? ?]%lookup_delete_Some. done. }
    destruct H as [Ho Hi Hcur Ht Hown Hinfo]. split; [done|done| | | |done]; simpl.
    + destruct Hcur as [t Hc]. exists t. by rewrite lookup_delete_ne.
    + intros q t Hq. apply (Ht q t), (Hd _ _ Hq).
    + intros q i t. unfold proc_stat. simpl. destruct (delete p (threads s) !! q) as [u|] eqn:E; [|done].
      destruct (Hd _ _ E) as [Hu _]. intros Hq Hti. apply (Hown q i t); [by rewrite Hu|]. unfold proc_stat. by rewrite Hu.
  - by eapply tallied_kept.
Qed.
End Work.

(** C28: In every record of the system, and in every record that a process has of
    its own, the number of calls is the number of successful and of failed ones,
    as 32 bit numbers, even when the counters wrap around: from a state where
    this is so, it stays so while any processes call through any of the traps,
    [clone] included, are switched, end, or leave the records alone, and every
    further trap returns and keeps it. *)
Theorem trap_keeps_counts native try_get put_mod s0 s call args :
  (∀ rt args, keeps_records (native rt args)) → tallied s0 →
  star (mon_step native try_get put_mod) s0 s → 0 ≤ call < N_CALLS →
  tallied s ∧ returns (trap native try_get put_mod call args) s (λ _, tallied).
Proof.
  intros Hn H0 Hs Hc. assert (tallied s) as H.
  { refine (star_invariant _ tallied _ _ _ Hs H0). intros s1 s2 H1. by eapply tallied_step. }
  split; [done|]. by apply wp_returns, wp_tallied_trap.
Qed.

Lemma demo_tallied : tallied demo_loaded.
Proof.
  assert (∀ n i t, zlookup (replicate n t_info_zero) i = Some t → adds_up t) as Hz.
  { intros n i t H. unfold zlookup in H. case_decide; [|done]. by apply lookup_replicate in H as [-> _]. }
  split; [done|done|by eexists| | |apply (Hz 5%nat)].
  - intros p t. simpl. destruct (decide (p = 1)) as [->|]; [|by rewrite lookup_singleton_ne].
    rewrite lookup_singleton_eq. by intros [= <-].
  - intros p i t _. unfold proc_stat. simpl. destruct (decide (p = 1)) as [->|]; [|by rewrite lookup_singleton_ne].
    rewrite lookup_singleton_eq. apply (Hz 6%nat).
Qed.

Lemma demo_clone : ∃ s1, trap demo_native (λ n, n + 1) (λ n, n - 1) CLONE [0] demo_loaded = Ret 2 s1 ∧
  is_Some (threads s1 !! 2).
Proof. eexists. split; [vm_compute; reflexivity|]. eexists. vm_compute. reflexivity. Qed.

(** Process 1 makes process 2, which runs: its records are zeroed by its first call. *)
Lemma trap_keeps_counts_witness :
  ∃ s, star (mon_step demo_native (λ n, n + 1) (λ n, n - 1)) demo_loaded s ∧ current s = 2 ∧
    tallied s ∧ returns (trap demo_native (λ n, n + 1) (λ n, n - 1) CLOSE [3]) s (λ _, tallied).
Proof.
  destruct demo_clone as (s1 & E & H2).
  assert (star (mon_step demo_native (λ n, n + 1) (λ n, n - 1)) demo_loaded (set_current 2 s1)) as Hs.
  { eapply star_step; [eapply star_step; [constructor|]|by apply step_switch].
    apply (step_trap _ _ _ CLONE [0] 2); [|exact E]. unfold CLONE, N_CALLS. lia. }
  exists (set_current 2 s1). split; [exact Hs|]. split; [reflexivity|].
  apply (trap_keeps_counts demo_native _ _ demo_loaded).
  - exact demo_keeps.
  - exact demo_tallied.
  - exact Hs.
  - unfold CLOSE, N_CALLS. lia.
Defined.

(** C29: Loading the module replaces, in the system call table, the five
    routines by the local traps, and no other; it keeps the originals; and
    unloading it puts every routine back: the table is as before.  Unloading
    logs the number of the first process, its records, those of all its calls
    first, and the records of the system; nothing else changes. *)
Theorem module_load_unload NR_open NR_close NR_write NR_clone NR_lseek r0 r1 r2 r3 r4 s :
  found NR_open NR_close NR_write NR_clone NR_lseek r0 r1 r2 r3 r4 (sys_call_table s) →
  zlen (sys_call_table_original s) = N_CALLS → zlen (sys_call_table_local s) = N_CALLS →
  recorded s (first_process s) →
  returns (syscalls_mon_init NR_open NR_close NR_write NR_clone NR_lseek) s (λ r s',
    r = 0 ∧
    sys_call_table s' = intercepted NR_open NR_close NR_write NR_clone NR_lseek (sys_call_table s) ∧
    sys_call_table_original s' = [r0; r1; r2; r3; r4] ∧
    returns (syscalls_mon_exit NR_open NR_close NR_write NR_clone NR_lseek) s' (λ _ s'',
      sys_call_table s'' = sys_call_table s ∧
      logged (set_sys_call_table (sys_call_table s) s') s'' (last_report s'))).
Proof.
  intros Hf Ho Hl Hr. apply wp_returns. eapply wp_syscalls_mon_init; [done..|].
  intros s' Et Eo _ _ Ep Hrec _. split_and!; [done..|].
  apply wp_returns. eapply wp_syscalls_mon_exit; [done|by rewrite Ep|].
  rewrite Et, reinstated_intercepted by done. intros s'' Hlog. split; [|done].
  by destruct Hlog as (new & -> & _).
Qed.

Lemma module_load_unload_witness :
  returns (syscalls_mon_init 5 6 4 120 19) demo_mon (λ r s',
    r = 0 ∧ sys_call_table s' = intercepted 5 6 4 120 19 (sys_call_table demo_mon) ∧
    sys_call_table_original s' = [Native 5; Native 6; Native 4; Native 120; Native 19] ∧
    returns (syscalls_mon_exit 5 6 4 120 19) s' (λ _ s'', sys_call_table s'' = sys_call_table demo_mon ∧
      logged (set_sys_call_table (sys_call_table demo_mon) s') s'' (last_report s'))).
Proof.
  apply module_load_unload.
  - repeat split.
  - reflexivity.
  - reflexivity.
  - exact demo_recorded.
Defined.

(** ** The device. *)

(** A use of the device by some process: [open], or [release] after an [open]
    that succeeded. *)
Inductive device_step : rd_state → rd_state → Prop :=
| open_step uid pid r s s' : readstats_open_dev uid pid s = Ret r s' → device_step s s'
| release_step r s s' : readstats_release_dev s = Ret r s' → device_step s s'.

Lemma lock_step s s' : lock s = 0 ∨ lock s = 1 → device_step s s' → lock s' = 0 ∨ lock s' = 1.
Proof.
  intros Hl Hstep. revert Hl. destruct Hstep as [uid pid r s s' E|r s s' E]; intros Hl.
  - unfold readstats_open_dev, bind, get, modify, put, ret in E. simpl in E.
    case_bool_decide; [by simplify_eq|]. case_bool_decide; [by simplify_eq|]. simplify_eq. simpl.
    assert (lock s = 0) as -> by lia. by right.
  - unfold readstats_release_dev, bind, get, modify, put, ret in E. simpl in E.
    case_bool_decide; simplify_eq; [done|]. simpl.
    assert (lock s = 1) as -> by lia. by left.
Qed.

(** The device is open at most once: after any sequence of [open] and
    [release] calls from its initialisation the lock is 0 or 1; an [open]
    succeeds only for root and when it is 0, and leaves 1; while it is 1 every
    [open] fails with EPERM and changes nothing. *)
Theorem device_open_exclusive s0 s uid pid :
  lock s0 = 0 → star device_step s0 s →
  (lock s = 0 ∨ lock s = 1) ∧
  (lock s = 1 → readstats_open_dev uid pid s = Ret (- LINUX_EPERM) s) ∧
  (lock s = 0 → uid ≠ 0 → readstats_open_dev uid pid s = Ret (- LINUX_EACCES) s) ∧
  (lock s = 0 → uid = 0 → returns (readstats_open_dev uid pid) s (λ r s',
     r = 0 ∧ lock s' = 1 ∧ open_pid s' = pid ∧ proc_monitored s' = pid ∧ mon s' = mon s)).
Proof.
  intros H0 Hs. assert (lock s = 0 ∨ lock s = 1) as Hl.
  { refine (star_invariant device_step (λ s, lock s = 0 ∨ lock s = 1) _ _ _ Hs _); [|by left].
    intros s1 s2 ??. by eapply lock_step. }
  unfold returns, readstats_open_dev, bind, get, modify, put, ret. simpl. split_and!; [done| | |].
  - intros ->. done.
  - intros -> ?. simpl. by rewrite bool_decide_true.
  - intros E ->. rewrite E. simpl. eexists _, _. split; [reflexivity|]. simpl. by rewrite E.
Qed.

Lemma device_open_exclusive_witness :
  let s0 := MkRd 0 1 0 0 true demo_mon in let s := MkRd 1 42 42 0 true demo_mon in
  (lock s = 0 ∨ lock s = 1) ∧
  (lock s = 1 → readstats_open_dev 0 43 s = Ret (- LINUX_EPERM) s) ∧
  (lock s = 0 → 0 ≠ 0 → readstats_open_dev 0 43 s = Ret (- LINUX_EACCES) s) ∧
  (lock s = 0 → 0 = 0 → returns (readstats_open_dev 0 43) s (λ r s',
     r = 0 ∧ lock s' = 1 ∧ open_pid s' = 43 ∧ proc_monitored s' = 43 ∧ mon s' = mon s)).
Proof.
  apply (device_open_exclusive (MkRd 0 1 0 0 true demo_mon)); [exact (eq_refl 0)|].
  eapply star_step; [apply star_refl|]. apply (open_step 0 42 0). reflexivity.
Defined.
