(* ===== verification/FsProps.v ===== *)
(** * The file system: initialisation, blocks, creation, removal, appending and
    reading. *)
From stdpp Require Import functions.
From S2P Require Import Prelude Mm Utils Io Fs KState Devices Sys FsFacts.
From S2P Require Import FsOps UtilsFacts FileFacts CreateFacts WriteFacts ReadFacts.

(** ** Concrete states. *)

(** The names in the directory after initialisation. *)
Definition first_names (i : Z) : list Z :=
  if decide (i = 0) then chars "KEYBOARD" else if decide (i = 1) then chars "DISPLAY" else [].

Definition name_check (s : fs_state) (nm : Z → list Z) : bool :=
  forallb (λ i, match zlookup (dir s) i with
    | Some f => bool_decide (Forall (λ c, 0 < c < 256) (nm i)) && bool_decide (zlen (nm i) < MAX_NAME_LENGTH) &&
                bool_decide (name f = nm i ++ 0 :: drop (S (length (nm i))) (name f))
    | None => true
    end) (seqZ 0 (zlen (dir s))).

Lemma name_check_ok s nm : name_check s nm = true → named s nm.
Proof.
  unfold name_check. rewrite forallb_forall. intros H i f Hf. specialize (H i).
  rewrite Hf in H. rewrite !andb_true_iff, !bool_decide_eq_true in H.
  destruct H as [[Hp Hl] Hn].
  { apply list_elem_of_In, elem_of_seqZ. pose proof (zlookup_Some_range _ _ _ Hf). lia. }
  split_and!; [done|done|by eexists].
Qed.

(** The file system after initialisation: no file, no open file. *)
Record fresh_fs (s : fs_state) : Prop := {
  ff_init : init_filesystem fs_bss = Ret () s;
  ff_ok : fs_ok s all_blocks no_blocks;
  ff_names : named s first_names;
  ff_refs : n_refs <$> dir s = [0; 0] ++ replicate 8 (-1);
  ff_fdt : refs <$> fdt s = replicate 15 0;
  ff_names2 : name <$> zlookup (dir s) 2 = Some (replicate 10 0);
}.

Lemma init_names :
  match init_filesystem fs_bss with
  | Ret _ s => name_check s first_names && bool_decide (n_refs <$> dir s = [0; 0] ++ replicate 8 (-1)) &&
               bool_decide (refs <$> fdt s = replicate 15 0) &&
               bool_decide (name <$> zlookup (dir s) 2 = Some (replicate 10 0)) && init_check s
  | _ => false
  end = true.
Proof. by vm_compute. Qed.

Lemma fresh_fs_exists : ∃ s, fresh_fs s.
Proof.
  pose proof init_names as H. destruct (init_filesystem fs_bss) as [[] s| | | |] eqn:E; [|discriminate H..].
  rewrite !andb_true_iff, !bool_decide_eq_true in H. destruct H as [[[[Hn Hr] Hf] Hn2] Hi]. exists s.
  split; [exact E|exact (init_check_ok _ Hi)|exact (name_check_ok _ _ Hn)|exact Hr|exact Hf|exact Hn2].
Qed.

Lemma fresh_entry s : fresh_fs s → ∃ f, first_unused s 2 f ∧ name f = replicate 10 0.
Proof.
  intros Hs. pose proof (ff_names2 _ Hs) as Hn. destruct (zlookup (dir s) 2) as [f|] eqn:Hf; [|done].
  injection Hn as Hn. exists f. split; [|done].
  assert (∀ j g, zlookup (dir s) j = Some g → zlookup ([0; 0] ++ replicate 8 (-1)) j = Some (n_refs g)) as Href.
  { intros j g Hj. by rewrite <-(ff_refs _ Hs), zlookup_fmap, Hj. }
  split; [done|]. split; [by apply Href in Hf as [= ?]|].
  intros j g Hj Hlt. pose proof (zlookup_Some_range _ _ _ Hj). apply Href in Hj.
  assert (j = 0 ∨ j = 1) as [-> | ->] by lia; by injection Hj as <-.
Qed.

(** A system with one process: the path "n" is at the start of its page 264,
    three bytes are behind it; descriptors 0 and 1 are the open files 5 and 6. *)
Definition demo_page : Z := 264.
Definition demo_path : Z := 264 * 4096.
Definition demo_text : Z := 264 * 4096 + 16.
Definition demo_buffer : Z := 265 * 4096.
Definition demo_mm : mm_state :=
  set_ram {[ 300 * 4096 := 110; 300 * 4096 + 16 := 65; 300 * 4096 + 17 := 66; 300 * 4096 + 18 := 67 ]}
    (set_pagusr_table (zinsert 264 (user_pte 300) (zinsert 265 (user_pte 302) (pagusr_table mm_bss)))
      mm_bss).
Definition demo_task : task_struct := t_file_descriptors ([Some 5; Some 6] ++ replicate 8 None) task_bss.
Definition demo_state (s : fs_state) : kstate :=
  MkK [demo_task] (MkSched 0 1 0 60 0 0 false 0x1a000) [] ∅ demo_mm s (MkKbd [] 0 0 0) io_init.

Lemma demo_user_path s : user_string (demo_state s) demo_path [110].
Proof.
  split; [|split; [by vm_compute|]].
  - by repeat constructor.
  - intros i Hi. assert (i = 0 ∨ i = 1) as [-> | ->] by (unfold zlen in Hi; simpl in Hi; lia); by vm_compute.
Qed.

(** The file "n" was created in entry 2, and is open as 5 and as 6. *)
Definition demo_open : virtual := Virtual O_RDWR 1 0 (Some 2).
Definition demo_files (s : fs_state) (f : file) : fs_state :=
  let s1 := created all_blocks [110] 2 0 f s in
  set_fdt (zinsert 5 demo_open (zinsert 6 demo_open (fdt s1))) s1.

Lemma demo_files_ok s f :
  fresh_fs s → first_unused s 2 f → fs_ok (demo_files s f) (seqZ 1 79) (<[2 := [0]]> no_blocks).
Proof.
  intros Hs Hf. assert (fs_ok (created all_blocks [110] 2 0 f s) (seqZ 1 79) (<[2 := [0]]> no_blocks)) as H.
  { apply created_ok; [apply Hs|done|by vm_compute]. }
  destruct H. by split.
Qed.

(** ** Blocks, creation, removal. *)

(** After [init_filesystem] every block is in the free chain, in order,
    no file owns one, the two devices are in the directory under their names
    and no file is open: the file system is well formed. *)
Theorem init_filesystem_correct :
  returns init_filesystem fs_bss (λ _ s,
    fs_ok s all_blocks no_blocks ∧ named s first_names ∧ refs <$> fdt s = replicate 15 0).
Proof.
  destruct fresh_fs_exists as [s Hs]. exists tt, s. split; [exact (ff_init _ Hs)|].
  split; [apply Hs|]. split; apply Hs.
Qed.

(** C34: [balloc(n)] always returns.  With [n] free blocks or more, and [n]
    positive, it returns the head of a chain of the first [n] of them and leaves
    the others free, in order; otherwise it returns -1 and nothing is changed,
    the blocks it walked over included. *)
Theorem balloc_correct n s free own :
  fs_ok s free own →
  returns (balloc n) s (λ r s',
    if bool_decide (1 ≤ n ≤ zlen free)
    then r = nth_block free 0 ∧
         chain (fat s') r (take (Z.to_nat n) free) ∧ chain (fat s') (ffb s') (drop (Z.to_nat n) free) ∧
         (∀ x, x ∉ free → zlookup (fat s') x = zlookup (fat s) x) ∧ dir s' = dir s ∧ disk s' = disk s
    else r = -1 ∧ s' = s).
Proof.
  intros Hok. pose proof (fo_free _ _ _ Hok) as Hfree. pose proof (fo_fat _ _ _ Hok) as Hlen.
  apply wp_returns, (wp_balloc _ free); [done|done| |].
  - intros Hn. rewrite bool_decide_true by done. destruct (chain_cut _ _ _ n Hfree Hlen Hn) as [H1 H2].
    rewrite <-(ch_head _ _ _ Hfree) in H1. split_and!; try done.
    intros x Hx. apply zlookup_zinsert_ne. intros <-. apply Hx, nth_block_elem. lia.
  - intros Hn. by rewrite bool_decide_false.
Qed.

Lemma balloc_correct_witness :
  ∃ s, fs_ok s all_blocks no_blocks ∧
    returns (balloc 3) s (λ r s',
      if bool_decide (1 ≤ 3 ≤ zlen all_blocks)
      then r = nth_block all_blocks 0 ∧
           chain (fat s') r (take 3 all_blocks) ∧ chain (fat s') (ffb s') (drop 3 all_blocks) ∧
           (∀ x, x ∉ all_blocks → zlookup (fat s') x = zlookup (fat s) x) ∧ dir s' = dir s ∧ disk s' = disk s
      else r = -1 ∧ s' = s).
Proof.
  destruct fresh_fs_exists as [s Hs]. exists s. split; [apply Hs|].
  apply (balloc_correct 3 s all_blocks no_blocks), Hs.
Defined.

(** C35: [create_file], while an entry is unused, always returns: an error,
    with nothing changed, for a name of ten characters or more or without a free
    block, and else the first unused entry, which now holds the name and an
    empty file on the first free block; no other file loses or shares one. *)
Theorem create_file_correct k free own path l i f :
  fs_ok (fs k) free own → first_unused (fs k) i f → user_string k path l →
  returns (create_file FS (λ j, uload (path + j))) k (λ p k',
    create_post k free l i f p k' ∧
    (p = DirEntry i → ∃ b free' f', free = b :: free' ∧ fs_ok (fs k') free' (<[i := [b]]> own) ∧
       zlookup (dir (fs k')) i = Some f' ∧ has_name f' l ∧ size f' = 0 ∧ n_refs f' = 0)).
Proof.
  intros Hok Hu Hs. apply wp_returns. eapply wp_create_file; [done|done|done|].
  intros p k' Hpost. split; [done|]. intros ->. inversion Hpost as [| |b free' Hl Hfree Hp Hk]; subst.
  exists b, free', (new_file l b f). split; [done|]. split; [by apply created_ok|].
  destruct Hs as (Hl' & _ & _). destruct Hu as (Hi & _). split.
  - simpl. apply zlookup_zinsert_eq. eauto with arrays.
  - split; [by apply new_file_name|done].
Qed.

Lemma create_file_correct_witness :
  ∃ s f, returns (create_file FS (λ j, uload (demo_path + j))) (demo_state s) (λ p k',
    create_post (demo_state s) all_blocks [110] 2 f p k' ∧
    (p = DirEntry 2 → ∃ b free' f', all_blocks = b :: free' ∧ fs_ok (fs k') free' (<[2 := [b]]> no_blocks) ∧
       zlookup (dir (fs k')) 2 = Some f' ∧ has_name f' [110] ∧ size f' = 0 ∧ n_refs f' = 0)).
Proof.
  destruct fresh_fs_exists as [s Hs]. destruct (fresh_entry _ Hs) as (f & Hf & _). exists s, f.
  apply (create_file_correct (demo_state s) all_blocks no_blocks demo_path [110] 2 f).
  - apply Hs.
  - exact Hf.
  - apply demo_user_path.
Defined.

(** C36: [sys_unlink], on a user path, always returns: an error, with nothing
    changed, for a long name, one that no entry has, and a file in use; and 0
    when the first entry of that name, which nobody uses, becomes unused, its
    blocks going to the end of the free chain. *)
Theorem sys_unlink_correct k free own nm path l :
  fs_ok (fs k) free own → named (fs k) nm → check_address path 1 = 1 → user_string k path l →
  returns (sys_unlink path) k (λ r k',
    unlink_post k free nm l r k' ∧
    (r = 0 → ∃ e, nm e = l ∧ fs_ok (fs k') (free ++ own e) (<[e := []]> own))).
Proof.
  intros Hok Hnm Hpath Hs. apply wp_returns. eapply (wp_sys_unlink _ _ own); [done|done|by rewrite Hpath|done|].
  intros r k' Hpost. split; [done|]. intros ->.
  inversion Hpost as [? E|? ? E|? ? ? ? ? ? E|e f Hn _ Hf _ E]; subst; try done.
  exists e. split; [done|]. by apply unlinked_ok.
Qed.

Lemma sys_unlink_correct_witness :
  ∃ s f, returns (sys_unlink demo_path) (demo_state (demo_files s f)) (λ r k',
    unlink_post (demo_state (demo_files s f)) (seqZ 1 79) (<[2 := [110]]> first_names) [110] r k' ∧
    (r = 0 → ∃ e, (<[2 := [110]]> first_names) e = [110] ∧
       fs_ok (fs k') (seqZ 1 79 ++ (<[2 := [0]]> no_blocks) e) (<[e := []]> (<[2 := [0]]> no_blocks)))).
Proof.
  destruct fresh_fs_exists as [s Hs]. destruct (fresh_entry _ Hs) as (f & Hf & Hn). exists s, f.
  apply (sys_unlink_correct (demo_state (demo_files s f)) _ _ _ demo_path [110]).
  - by apply demo_files_ok.
  - intros i g Hg. simpl in Hg. destruct (decide (i = 2)) as [->|Hi].
    + rewrite fn_lookup_insert. rewrite zlookup_zinsert_eq in Hg by (destruct Hf; eauto with arrays).
      injection Hg as <-. apply new_file_name; [by repeat constructor|by vm_compute].
    + rewrite fn_lookup_insert_ne by done. rewrite zlookup_zinsert_ne in Hg by done. by apply (ff_names _ Hs).
  - by vm_compute.
  - apply demo_user_path.
Defined.
