(* ===== verification/FileProps.v ===== *)
(** * Reading and writing regular files: the contents of a file as a list of
    bytes, appending to it, reading it back. *)
From stdpp Require Import functions.
From S2P Require Import Prelude Mm Utils Io Fs KState Devices Sys FsFacts.
From S2P Require Import FsOps UtilsFacts FileFacts CreateFacts WriteFacts ReadFacts FsProps.

(** ** The contents of the files. *)

(** The bytes of entry [i] of the directory. *)
Definition contents (s : fs_state) (own : Z → list Z) (i : Z) : list Z :=
  match zlookup (dir s) i with
  | Some f => (λ j, default 0 (file_byte (disk s) (own i) j)) <$> seqZ 0 (size f)
  | None => []
  end.

Lemma contents_lookup s own i f j c :
  zlookup (dir s) i = Some f → 0 ≤ j < size f → file_byte (disk s) (own i) j = Some c →
  zlookup (contents s own i) j = Some c.
Proof.
  intros Hf Hj Hc. unfold contents. rewrite Hf, zlookup_fmap. unfold zlookup at 1.
  rewrite decide_True by lia. rewrite lookup_seqZ_lt by lia. simpl.
  rewrite Z2Nat.id, Z.add_0_l by lia. by rewrite Hc.
Qed.

Lemma appending_contents s0 own0 d o f0 v0 src n s free own :
  appending s0 own0 d o f0 v0 src n s free own → 0 ≤ n → zlookup (dir s0) d = Some f0 → 0 ≤ size f0 →
  contents s own d = contents s0 own0 d ++ (src <$> seqZ 0 n).
Proof.
  intros Ha Hn Hf Hz. destruct (ap_file _ _ _ _ _ _ _ _ _ _ _ Ha) as [nb Hf'].
  unfold contents. rewrite Hf, Hf'. simpl. rewrite seqZ_app by lia. rewrite fmap_app. f_equal.
  - apply list_fmap_ext. intros i j Hj%list_elem_of_lookup_2%elem_of_seqZ.
    by rewrite (ap_old _ _ _ _ _ _ _ _ _ _ _ Ha) by lia.
  - replace (0 + size f0) with (size f0 + 0) by lia. rewrite <-fmap_add_seqZ, <-list_fmap_compose.
    apply list_fmap_ext. intros i j Hj%list_elem_of_lookup_2%elem_of_seqZ. simpl.
    by rewrite (ap_new _ _ _ _ _ _ _ _ _ _ _ Ha) by lia.
Qed.

Lemma appending_others s0 own0 d o f0 v0 src n s free own i :
  appending s0 own0 d o f0 v0 src n s free own → i ≠ d → contents s own i = contents s0 own0 i.
Proof.
  intros Ha Hi. unfold contents. rewrite (ap_dir _ _ _ _ _ _ _ _ _ _ _ Ha) by done.
  destruct (zlookup (dir s0) i) as [f|]; [|done]. apply list_fmap_ext. intros x j _.
  by rewrite (ap_other _ _ _ _ _ _ _ _ _ _ _ Ha).
Qed.

(** ** The system calls on an open file. *)

(** Descriptor [fd] of the running process is the open file [o], which is
    [v], of the regular file [f] in entry [d]. *)
Record open_on (k : kstate) (fd o : Z) (v : virtual) (d : Z) (f : file) : Prop := {
  oo_fd : ∃ t, zlookup (task k) (cur (sched k)) = Some t ∧ zlookup (file_descriptors t) fd = Some (Some o);
  oo_open : zlookup (fdt (fs k)) o = Some v;
  oo_dev : logic_dev v = Some d;
  oo_file : zlookup (dir (fs k)) d = Some f;
  oo_regular : regular f;
}.

Lemma wp_open_dev {A} k fd o v d f (m : Z → Z → K A) (Q : A → kstate → Prop) X :
  open_on k fd o v d f → wp (m o d) k Q X →
  wp (let! o := open_file_of fd in let! d := logic_dev_of o in m o d) k Q X.
Proof.
  intros [(t & Ht & Hfd) Hv Hd _ _] HQ. apply wp_bind. unfold open_file_of, cur_task, current.
  apply wp_bind, wp_bind, wp_get. eapply wp_aget; [exact Ht|].
  apply wp_bind. eapply wp_of_option; [exact Hfd|]. eapply wp_of_option; [done|].
  apply wp_bind. unfold logic_dev_of. apply wp_bind. eapply wp_fs_aget; [exact Hv|].
  by eapply wp_of_option.
Qed.

Lemma wp_sys_write_file k free own fd o v d f buffer cnt src (Q : Z → kstate → Prop) X :
  fs_ok (fs k) free own → open_on k fd o v d f → offset v = size f → 0 ≤ cnt →
  user_bytes k buffer cnt src →
  (∀ r k', write_post k (fs k) own d o f v src cnt r k' → Q r k') →
  wp (sys_write_file fd buffer cnt) k Q X.
Proof.
  intros Hok Ho Hoff Hcnt Hb HQ. pose proof Ho as [_ Hv _ Hf Hr].
  destruct (fo_file _ _ _ Hok _ _ Hf Hr) as [_ _ _ [Hsz _]].
  eapply wp_open_dev; [done|].
  eapply (wp_write_file k (fs k) own d o f v src); try done; [lia|].
  intros n s' Q' Hn HQ'. eapply wp_uload; [|exact HQ']. rewrite Z.add_0_r. by apply Hb.
Qed.

Lemma size_bound s free own d f :
  fs_ok s free own → zlookup (dir s) d = Some f → regular f → 0 ≤ size f ≤ INT_MAX.
Proof.
  intros Hok Hf Hr. destruct (fo_file _ _ _ Hok _ _ Hf Hr) as [Hc _ _ [Hsz _]].
  pose proof (chain_length _ _ _ Hc). unfold BLOCK_SIZE, MAX_BLOCKS, INT_MAX in *. lia.
Qed.

Lemma wp_sys_read_file k free own fd o v d f buffer sz pd (Q : Z → kstate → Prop) X :
  fs_ok (fs k) free own → open_on k fd o v d f → 0 ≤ offset v ≤ size f → 0 ≤ sz →
  (∀ i, 0 ≤ i < sz → phys_of (mm k) (buffer + i) = Some (pd i)) →
  (∀ i j, 0 ≤ i < sz → 0 ≤ j < sz → pd i = pd j → i = j) →
  (∀ k', reading k own d o v pd (read_count (offset v) sz (size f)) k' →
     Q (read_count (offset v) sz (size f)) k') →
  wp (sys_read_file fd buffer sz) k Q X.
Proof.
  intros Hok Ho Hoff Hsz Hpd Hinj HQ. pose proof Ho as [_ Hv _ Hf Hr].
  eapply wp_open_dev; [done|]. eapply (wp_read_file k free own d o f v buffer sz pd); try done.
  by apply (size_bound _ _ _ _ _ Hok Hf Hr).
Qed.

(** What [reading] says of the memory of the process. *)
Lemma reading_bytes k own d o v f pd buffer i j k' :
  reading k own d o v pd i k' → zlookup (dir (fs k)) d = Some f → 0 ≤ offset v → offset v + i ≤ size f →
  phys_of (mm k) (buffer + j) = Some (pd j) → 0 ≤ j < i →
  byte_at (mm k') (buffer + j) = zlookup (contents (fs k) own d) (offset v + j).
Proof.
  intros (r & -> & Hd & _) Hf Hoff Hi Hp Hj. unfold byte_at. simpl. rewrite phys_of_set_ram, Hp. simpl.
  symmetry. eapply contents_lookup; [done|lia|]. by apply Hd.
Qed.

(** What a write of [cnt] bytes at the end of file [d] leaves, when [n] of
    them found room. *)
Record appended (k : kstate) (own : Z → list Z) (d o : Z) (v : virtual) (src : Z → Z) (n : Z)
  (k' : kstate) (free' : list Z) (own' : Z → list Z) : Prop := {
  pd_ok : fs_ok (fs k') free' own';
  pd_rest : k' = set_fs (fs k') k;
  pd_file : contents (fs k') own' d = contents (fs k) own d ++ (src <$> seqZ 0 n);
  pd_others : ∀ i, i ≠ d → contents (fs k') own' i = contents (fs k) own i;
  pd_offset : zlookup (fdt (fs k')) o = Some (with_offset (offset v + n) v);
}.

(** C37: [sys_write_file], through an open file whose offset is the end of the
    file, refines appending to a list of bytes: it returns the size and the
    bytes of the user's buffer are at the end of the file, or -ENOSPC and as many
    of them as there was room for, no block being free; the offset follows, and
    the contents of the other files do not change. *)
Theorem sys_write_file_appends k free own fd o v d f buffer cnt src :
  fs_ok (fs k) free own → open_on k fd o v d f → offset v = size f → 0 ≤ cnt →
  user_bytes k buffer cnt src →
  returns (sys_write_file fd buffer cnt) k (λ r k', ∃ n free' own',
    appended k own d o v src n k' free' own' ∧
    (r = cnt ∧ n = cnt ∨ r = - ENOSPC ∧ 0 ≤ n < cnt ∧ free' = [])).
Proof.
  intros Hok Ho Hoff Hcnt Hb. pose proof Ho as [_ _ _ Hf Hr].
  pose proof (size_bound _ _ _ _ _ Hok Hf Hr) as Hsz.
  assert (∀ n s' free' own', 0 ≤ n → appending (fs k) own d o f v src n s' free' own' →
    appended k own d o v src n (set_fs s' k) free' own') as Happ.
  { intros n s' free' own' Hn Ha. split; simpl.
    - apply Ha.
    - done.
    - by eapply (appending_contents _ _ _ _ f); [|..|lia].
    - intros i Hi. by eapply appending_others.
    - rewrite Hoff. apply Ha. }
  apply wp_returns. eapply wp_sys_write_file; [done..|].
  intros r k' [s' free' own' Ha|n s' own' Hn Ha _].
  - exists cnt, free', own'. split; [by apply Happ|by left].
  - exists n, [], own'. split; [apply Happ; [lia|done]|by right].
Qed.

Lemma demo_open_on s f fd o :
  fresh_fs s → first_unused s 2 f → fd = 0 ∧ o = 5 ∨ fd = 1 ∧ o = 6 →
  open_on (demo_state (demo_files s f)) fd o demo_open 2 (new_file [110] 0 f).
Proof.
  intros Hs Hf Hfd.
  assert (zlen (fdt s) = 15) as Hlen.
  { rewrite <-(zlen_fmap refs), (ff_fdt _ Hs). done. }
  split; [|simpl|done|simpl|done].
  - exists demo_task. split; [done|]. destruct Hfd as [[-> ->] | [-> ->]]; by vm_compute.
  - destruct Hfd as [[-> ->] | [-> ->]].
    + apply zlookup_zinsert_eq. rewrite zlen_zinsert. lia.
    + rewrite zlookup_zinsert_ne by done. apply zlookup_zinsert_eq. lia.
  - apply zlookup_zinsert_eq. destruct Hf. eauto with arrays.
Qed.

Definition demo_bytes (i : Z) : Z := 65 + i.

Lemma demo_user_bytes s : user_bytes (demo_state s) demo_text 3 demo_bytes.
Proof.
  intros i Hi. assert (i = 0 ∨ i = 1 ∨ i = 2) as [-> | [-> | ->]] by lia; by vm_compute.
Qed.

Lemma sys_write_file_appends_witness :
  ∃ s f, returns (sys_write_file 0 demo_text 3) (demo_state (demo_files s f)) (λ r k', ∃ n free' own',
    appended (demo_state (demo_files s f)) (<[2 := [0]]> no_blocks) 2 5 demo_open demo_bytes n k' free' own' ∧
    (r = 3 ∧ n = 3 ∨ r = - ENOSPC ∧ 0 ≤ n < 3 ∧ free' = [])).
Proof.
  destruct fresh_fs_exists as [s Hs]. destruct (fresh_entry _ Hs) as (f & Hf & Hn). exists s, f.
  apply (sys_write_file_appends (demo_state (demo_files s f)) (seqZ 1 79) _ 0 5 demo_open 2
    (new_file [110] 0 f) demo_text 3 demo_bytes).
  - by apply demo_files_ok.
  - apply demo_open_on; [done|done|by left].
  - done.
  - lia.
  - apply demo_user_bytes.
Defined.

(** C38: [sys_read_file] into a buffer without aliases always returns.  It
    copies the bytes from the offset on, up to the end of the file or the size,
    except that it also stops at the end of a block where the offset equals the
    size asked for; it returns their number, the offset advances by it, and
    nothing else changes, in memory or on the disk. *)
Theorem sys_read_file_correct k free own fd o v d f buffer sz pd :
  fs_ok (fs k) free own → open_on k fd o v d f → 0 ≤ offset v ≤ size f → 0 ≤ sz →
  (∀ i, 0 ≤ i < sz → phys_of (mm k) (buffer + i) = Some (pd i)) →
  (∀ i j, 0 ≤ i < sz → 0 ≤ j < sz → pd i = pd j → i = j) →
  returns (sys_read_file fd buffer sz) k (λ r k',
    r = read_count (offset v) sz (size f) ∧
    fs k' = set_fdt (zinsert o (with_offset (offset v + r) v) (fdt (fs k))) (fs k) ∧
    (∀ j, 0 ≤ j < r → byte_at (mm k') (buffer + j) = zlookup (contents (fs k) own d) (offset v + j)) ∧
    (∀ pa, (∀ j, 0 ≤ j < r → pa ≠ pd j) → ram_byte (mm k') pa = ram_byte (mm k) pa)).
Proof.
  intros Hok Ho Hoff Hsz Hpd Hinj. pose proof Ho as [_ _ _ Hf Hr].
  apply wp_returns. eapply wp_sys_read_file; [done..|]. intros k' Hread. split; [done|].
  assert (read_count (offset v) sz (size f) ≤ sz ∧ offset v + read_count (offset v) sz (size f) ≤ size f)
    as [H1 H2] by (unfold read_count; case_bool_decide; lia).
  pose proof Hread as (r & E & _ & Hu). split_and!.
  - by rewrite E.
  - intros j Hj. eapply (reading_bytes _ _ _ _ _ f); [done|done|lia|lia|apply Hpd; lia|done].
  - exact Hu.
Qed.

Definition demo_phys (i : Z) : Z := 302 * 4096 + i.

Lemma demo_buffer_phys i : 0 ≤ i < 4096 → phys_of demo_mm (demo_buffer + i) = Some (demo_phys i).
Proof.
  intros Hi. apply (phys_of_user_page demo_mm 265 302); [by vm_compute|lia|].
  unfold PAGE_SIZE. lia.
Qed.

(** The file stays open through another open file while it grows. *)
Lemma appending_open_on k own0 d o v src n s free own f fd2 o2 v2 :
  appending (fs k) own0 d o f v src n s free own → open_on k fd2 o2 v2 d f → o2 ≠ o →
  ∃ f', open_on (set_fs s k) fd2 o2 v2 d f' ∧ size f' = size f + n.
Proof.
  intros Ha [Hfd Hv Hd Hf Hr] Hne. destruct (ap_file _ _ _ _ _ _ _ _ _ _ _ Ha) as [nb Hf'].
  eexists. split; [split; [exact Hfd| |done|exact Hf'|done]|done].
  simpl. by rewrite (ap_fdt _ _ _ _ _ _ _ _ _ _ _ Ha).
Qed.

(** The three bytes were written. *)
Lemma demo_written :
  ∃ s k own free f, k = set_fs s (demo_state s) ∧ fs_ok (fs k) free own ∧ size f = 3 ∧
    open_on k 1 6 demo_open 2 f.
Proof.
  destruct fresh_fs_exists as [s Hs]. destruct (fresh_entry _ Hs) as (f & Hf & Hn).
  set (k := demo_state (demo_files s f)). pose proof (demo_files_ok _ _ Hs Hf) as Hok.
  assert (open_on k 0 5 demo_open 2 (new_file [110] 0 f)) as Ho by (apply demo_open_on; auto).
  assert (open_on k 1 6 demo_open 2 (new_file [110] 0 f)) as Ho' by (apply demo_open_on; auto).
  assert (wp (sys_write_file 0 demo_text 3) k (λ r k', write_post k (fs k) (<[2 := [0]]> no_blocks) 2 5
    (new_file [110] 0 f) demo_open demo_bytes 3 r k') (λ _, False)) as (r & k' & _ & Hpost)%wp_returns.
  { eapply wp_sys_write_file; [exact Hok|exact Ho|done|lia|apply demo_user_bytes|done]. }
  destruct Hpost as [s' free' own' Ha|n s' own' Hn' _ (Hm & Hz & _)].
  - destruct (appending_open_on _ _ _ _ _ _ _ _ _ _ _ _ _ _ Ha Ho') as (f' & Hf' & Hsz); [done|].
    exists s', (set_fs s' k), own', free', f'. split; [done|]. split; [apply Ha|done].
  - exfalso. simpl in Hm, Hz. unfold BLOCK_SIZE in Hm. rewrite Z.mod_small in Hm by lia. lia.
Qed.

Lemma sys_read_file_correct_witness :
  ∃ k own f, size f = 3 ∧
  returns (sys_read_file 1 demo_buffer 7) k (λ r k',
    r = read_count 0 7 (size f) ∧
    fs k' = set_fdt (zinsert 6 (with_offset (0 + r) demo_open) (fdt (fs k))) (fs k) ∧
    (∀ j, 0 ≤ j < r → byte_at (mm k') (demo_buffer + j) = zlookup (contents (fs k) own 2) (0 + j)) ∧
    (∀ pa, (∀ j, 0 ≤ j < r → pa ≠ demo_phys j) → ram_byte (mm k') pa = ram_byte (mm k) pa)).
Proof.
  destruct demo_written as (s & k & own & free & f & Hk & Hok & Hsz & Ho). exists k, own, f.
  split; [done|].
  apply (sys_read_file_correct k free own 1 6 demo_open 2 f demo_buffer 7 demo_phys).
  - done.
  - done.
  - simpl. lia.
  - lia.
  - intros i Hi. rewrite Hk. apply demo_buffer_phys. lia.
  - unfold demo_phys. lia.
Defined.

(** What was written can be read back: after a write at the end of a file,
    a read from its start through another open file returns the old contents
    followed by the bytes the user's buffer held, up to the size asked for. *)
Theorem write_read_roundtrip k free own fd o v d f fd2 o2 v2 b b2 cnt sz src pd :
  fs_ok (fs k) free own → open_on k fd o v d f → offset v = size f →
  open_on k fd2 o2 v2 d f → o2 ≠ o → offset v2 = 0 → 0 ≤ cnt → 0 ≤ sz → user_bytes k b cnt src →
  (∀ i, 0 ≤ i < sz → phys_of (mm k) (b2 + i) = Some (pd i)) →
  (∀ i j, 0 ≤ i < sz → 0 ≤ j < sz → pd i = pd j → i = j) →
  returns (let! r := sys_write_file fd b cnt in let! r' := sys_read_file fd2 b2 sz in ret (r, r')) k
    (λ '(r, r') k', r = cnt →
       r' = Z.min sz (size f + cnt) ∧
       ∀ j, 0 ≤ j < r' →
         byte_at (mm k') (b2 + j) = zlookup (contents (fs k) own d ++ (src <$> seqZ 0 cnt)) j).
Proof.
  intros Hok Ho Hoff Ho2 Hne Hoff2 Hcnt Hsz Hb Hpd Hinj. pose proof Ho as [_ _ _ Hf Hr].
  pose proof (size_bound _ _ _ _ _ Hok Hf Hr) as Hbd.
  assert (∀ r n s' free' own', 0 ≤ n → (r = cnt → n = cnt) →
    appending (fs k) own d o f v src n s' free' own' →
    wp (let! r' := sys_read_file fd2 b2 sz in ret (r, r')) (set_fs s' k) (λ '(r, r') k', r = cnt →
       r' = Z.min sz (size f + cnt) ∧ ∀ j, 0 ≤ j < r' →
         byte_at (mm k') (b2 + j) = zlookup (contents (fs k) own d ++ (src <$> seqZ 0 cnt)) j)
      (λ _, False)) as Hread.
  { intros r n s' free' own' Hn Hrn Ha.
    destruct (appending_open_on _ _ _ _ _ _ _ _ _ _ _ _ _ _ Ha Ho2 Hne) as (f' & Ho' & Hf').
    pose proof Ho' as [_ _ _ Hd' _].
    apply wp_bind. eapply (wp_sys_read_file (set_fs s' k) free' own' fd2 o2 v2 d f'); try done.
    - apply Ha.
    - lia.
    - intros k' Hrd. apply wp_ret. intros ->. rewrite (Hrn eq_refl) in *. rewrite Hoff2, Hf' in *.
      change (read_count 0 sz (size f + cnt)) with (Z.min sz (size f + cnt - 0)) in *.
      split; [lia|]. intros j Hj.
      rewrite (reading_bytes _ _ _ _ _ f' _ b2 _ j _ Hrd Hd'); [|lia|lia|apply Hpd; lia|done].
      rewrite Hoff2. simpl. rewrite <-(appending_contents _ _ _ _ _ _ _ _ _ _ _ Ha); [done|lia|done|lia]. }
  apply wp_returns, wp_bind. eapply wp_sys_write_file; [done..|].
  intros r k' [s' free' own' Ha|n s' own' Hn Ha _].
  - by eapply (Hread cnt cnt).
  - eapply (Hread (- ENOSPC) n); [lia| |done]. unfold ENOSPC. lia.
Qed.

Lemma write_read_roundtrip_witness :
  ∃ s f, let k := demo_state (demo_files s f) in
  returns (let! r := sys_write_file 0 demo_text 3 in let! r' := sys_read_file 1 demo_buffer 7 in ret (r, r')) k
    (λ '(r, r') k', r = 3 →
       r' = Z.min 7 (0 + 3) ∧
       ∀ j, 0 ≤ j < r' → byte_at (mm k') (demo_buffer + j) =
         zlookup (contents (fs k) (<[2 := [0]]> no_blocks) 2 ++ (demo_bytes <$> seqZ 0 3)) j).
Proof.
  destruct fresh_fs_exists as [s Hs]. destruct (fresh_entry _ Hs) as (f & Hf & Hn). exists s, f. simpl.
  apply (write_read_roundtrip (demo_state (demo_files s f)) (seqZ 1 79) (<[2 := [0]]> no_blocks) 0 5
    demo_open 2 (new_file [110] 0 f) 1 6 demo_open demo_text demo_buffer 3 7 demo_bytes demo_phys).
  - by apply demo_files_ok.
  - apply demo_open_on; auto.
  - done.
  - apply demo_open_on; auto.
  - done.
  - done.
  - lia.
  - lia.
  - apply demo_user_bytes.
  - intros i Hi. apply demo_buffer_phys. lia.
  - unfold demo_phys. lia.
Defined.
