(* ===== verification/LibcProps.v ===== *)
(** * The user library on top of the kernel. *)
From S2P Require Import Prelude KList Mm Utils Fs KState Sched Sem Devices.
From S2P Require Import Sys Interrupt Libc Queues States.

(** The state in which a system call runs: [SAVE_ALL] pushed its number. *)
Definition entered (nr : Z) (v : task_struct) (k : kstate) : kstate :=
  set_task (zinsert (cur (sched k)) (t_saved_eax nr v) (task k)) k.

Lemma wp_check_errcode val (u : user_state) (Q : Z → user_state → Prop) X :
  INT_MIN < val ≤ INT_MAX →
  Q (if bool_decide (val < 0) then -1 else val) (u.1, if bool_decide (val < 0) then - val else u.2) →
  wp (check_errcode val) u Q X.
Proof.
  intros Hv HQ. unfold check_errcode. destruct (bool_decide (val < 0)) eqn:E.
  - apply bool_decide_eq_true in E. apply wp_bind, wp_put, wp_ret.
    rewrite s32_small by (unfold INT_MIN, INT_MAX in *; lia). exact HQ.
  - apply wp_ret. by destruct u.
Qed.

(** C39: A library call, for a number in the table, runs the system call in the
    kernel and follows the error convention: when the system call returns a
    negative number the library returns -1 and [errno] is that number without
    its sign, and otherwise it returns the result and [errno] keeps its value;
    the kernel is as the system call left it, with its result as saved [%eax]. *)
Theorem library_call_correct void nr ebx ecx edx k e v r k1 w :
  zlookup (task k) (cur (sched k)) = Some v → MINSYSCALL ≤ nr ≤ MAXSYSCALL →
  sys_call_table void nr ebx ecx edx (entered nr v k) = Ret r k1 →
  zlookup (task k1) (cur (sched k1)) = Some w → INT_MIN < r ≤ INT_MAX →
  returns (call void nr ebx ecx edx) (k, e) (λ val u,
    val = (if bool_decide (r < 0) then -1 else r) ∧
    u = (entered r w k1, if bool_decide (r < 0) then - r else e)).
Proof.
  intros Hv Hnr Hcall Hw Hr. apply wp_returns. unfold call, int80.
  pose proof (zlookup_Some_range _ _ _ Hw) as Hwr.
  apply wp_bind, wp_zoom, wp_bind. unfold system_call_handler, SAVE_ALL, current.
  apply wp_bind, wp_bind, wp_get. eapply wp_task_set; [exact Hv|].
  rewrite !bool_decide_false by lia. cbn [orb].
  apply wp_bind. unfold wp at 1. change (set_task _ _) with (entered nr v k).
  simpl view. rewrite Hcall.
  apply wp_bind, wp_get. eapply wp_task_set; [exact Hw|].
  apply wp_bind. unfold cur_task, current. apply wp_bind, wp_get.
  eapply wp_aget; [by apply zlookup_zinsert_eq|]. apply wp_ret.
  by apply wp_check_errcode.
Qed.

(** [dup] of a descriptor out of range. *)
Lemma library_call_correct_witness :
  ∃ k q v, duo k q v ∧
  returns (dup 0 0 0 99) (k, 5) (λ val u,
    val = (if bool_decide (- EBADF < 0) then -1 else - EBADF) ∧
    u = (entered (- EBADF) (t_saved_eax 41 v) (entered 41 v k),
         if bool_decide (- EBADF < 0) then - - EBADF else 5)).
Proof.
  destruct with_child as (k & q & v & H). exists k, q, v. split; [exact H|].
  assert (zlookup (task k) (cur (sched k)) = Some v) as Hv by (rewrite (du_cur _ _ _ H); apply H).
  assert (zlookup (task (entered 41 v k)) (cur (sched k)) = Some (t_saved_eax 41 v)) as Hw.
  { simpl. apply zlookup_zinsert_eq. by eapply zlookup_Some_range. }
  apply (library_call_correct 0 41 99 0 0 k 5 v (- EBADF) (entered 41 v k) (t_saved_eax 41 v)).
  - exact Hv.
  - unfold MINSYSCALL, MAXSYSCALL. lia.
  - assert (wp (sys_dup 99) (entered 41 v k) (λ r k', r = - EBADF ∧ k' = entered 41 v k) (λ _, False))
      as (r & k' & E & -> & ->)%wp_returns; [|exact E].
    unfold sys_dup, fd_lookup, cur_task, current. apply wp_bind, wp_get, wp_bind, wp_bind, wp_bind, wp_get.
    eapply wp_aget; [exact Hw|]. apply wp_ret, wp_ret. done.
  - exact Hw.
  - unfold EBADF, INT_MIN, INT_MAX. lia.
Defined.
