(* ===== verification/BuildProps.v ===== *)
(** * The image [build.c] writes. *)
From S2P Require Import Prelude Build.

(** ** The output as a file. *)

Lemma overwrite_end l out : overwrite (zlen out) l out = out ++ l.
Proof.
  unfold overwrite, zlen. rewrite Nat2Z.id, Nat.sub_diag. simpl. rewrite app_nil_r.
  rewrite take_ge, drop_ge by lia. by rewrite app_nil_r.
Qed.

Lemma overwrite_inside p l out :
  0 ≤ p → p + zlen l ≤ zlen out →
  zlen (overwrite p l out) = zlen out ∧
  ∀ j, zlookup (overwrite p l out) j =
    if bool_decide (p ≤ j < p + zlen l) then zlookup l (j - p) else zlookup out j.
Proof.
  intros Hp Hl. unfold overwrite, zlen in *.
  replace (Z.to_nat p - length out)%nat with 0%nat by lia. simpl. rewrite app_nil_r. split.
  { rewrite !length_app, length_take, length_drop. lia. }
  intros j. unfold zlookup. destruct (decide (0 ≤ j)) as [Hj|Hj].
  2: { rewrite bool_decide_false by lia. done. }
  case_bool_decide as Hin.
  - rewrite decide_True by lia. rewrite lookup_app_r by (rewrite length_take; lia).
    rewrite length_take_le by lia. rewrite lookup_app_l by lia. f_equal. lia.
  - destruct (decide (j < p)).
    + rewrite lookup_app_l by (rewrite length_take; lia). rewrite lookup_take_lt by lia. done.
    + rewrite lookup_app_r by (rewrite length_take; lia). rewrite length_take_le by lia.
      rewrite lookup_app_r by lia. rewrite lookup_drop. f_equal. lia.
Qed.

(** ** The steps. *)

Record ready (s : build_state) : Prop := {
  rd_buf : zlen (buf s) = BUF_SIZE;
  rd_pos : position s = zlen (output s);
}.

Lemma wp_read_buf n s (Q : Z → build_state → Prop) X :
  zlen (buf s) = BUF_SIZE → 0 ≤ n ≤ zlen (input s) → n ≤ BUF_SIZE →
  (∀ b, zlen b = BUF_SIZE → take (Z.to_nat n) b = take (Z.to_nat n) (input s) →
     Q n (set_input (drop (Z.to_nat n) (input s)) (set_buf b s))) →
  wp (read_buf good_host n) s Q X.
Proof.
  intros Hb Hn Hle HQ. unfold read_buf. apply wp_bind, wp_get.
  replace (host_read good_host n (zlen (view Input s))) with n by (simpl; lia). rewrite Z.min_id.
  apply wp_bind, wp_modify, wp_bind, wp_put, wp_ret. unfold zlen in *.
  apply (HQ (take (Z.to_nat n) (input s) ++ drop (Z.to_nat n) (buf s))).
  - rewrite length_app, length_take, length_drop. lia.
  - rewrite take_app_le by (rewrite length_take; lia). by rewrite take_take, Nat.min_id.
Qed.

Lemma wp_write_buf n msg s (Q : unit → build_state → Prop) X :
  0 ≤ n →
  Q () (set_position (position s + n) (set_output (overwrite (position s) (take (Z.to_nat n) (buf s)) (output s)) s)) →
  wp (write_buf good_host n msg) s Q X.
Proof.
  intros Hn HQ. unfold write_buf. do 2 apply wp_bind, wp_get. apply wp_bind, wp_modify, wp_bind, wp_put.
  simpl. rewrite bool_decide_false by tauto. apply wp_ret. rewrite Z.max_r by lia. exact HQ.
Qed.

Lemma wp_lseek_set p s (Q : unit → build_state → Prop) X :
  0 ≤ p → Q () (set_position p s) → wp (lseek_set good_host p) s Q X.
Proof.
  intros Hp HQ. unfold lseek_set. simpl. rewrite bool_decide_true by done. apply wp_bind, wp_put.
  rewrite bool_decide_false by tauto. by apply wp_ret.
Qed.

Lemma wp_write_end n msg s (Q : unit → build_state → Prop) X :
  ready s → 0 ≤ n ≤ BUF_SIZE →
  Q () (set_position (zlen (output s) + n) (set_output (output s ++ take (Z.to_nat n) (buf s)) s)) →
  wp (write_buf good_host n msg) s Q X.
Proof.
  intros [Hb Hp] Hn HQ. apply wp_write_buf; [lia|]. by rewrite Hp, overwrite_end.
Qed.

Lemma zlen_take_drop {A} (l : list A) n :
  0 ≤ n ≤ zlen l → zlen (take (Z.to_nat n) l) = n ∧ zlen (drop (Z.to_nat n) l) = zlen l - n.
Proof. unfold zlen. intros. rewrite length_take, length_drop. lia. Qed.

(** The whole input goes to the end of the output. *)
Lemma wp_copy_loop s (Q : unit → build_state → Prop) X :
  ready s →
  (∀ s', ready s' → output s' = output s ++ input s → Q () s') →
  wp (copy_loop good_host (zlen (input s))) s Q X.
Proof.
  intros Hs HQ. unfold copy_loop.
  eapply (wp_loop_variant (λ n sz s', n = sz ∧ sz = zlen (input s') ∧ ready s' ∧
    output s' ++ input s' = output s ++ input s)).
  { split_and!; done. }
  { unfold zlen. lia. }
  intros n sz s' (-> & -> & Hr & Hall). split; [unfold zlen; lia|].
  case_bool_decide as Hpos.
  - set (l := if bool_decide (zlen (input s') > BUF_SIZE) then BUF_SIZE else zlen (input s')).
    assert (0 < l ≤ zlen (input s') ∧ l ≤ BUF_SIZE) as [Hl Hl'].
    { unfold l, BUF_SIZE. case_bool_decide; lia. }
    apply wp_bind, wp_read_buf; [apply Hr|lia|lia|]. intros b Hb Htake.
    rewrite bool_decide_false by tauto. apply wp_bind, wp_ret, wp_bind, wp_write_end; [by split; [|apply Hr]|lia|].
    apply wp_ret. destruct (zlen_take_drop (input s') l) as [E1 E2]; [lia|].
    exists (zlen (input s') - l). split; [lia|]. simpl. rewrite Htake. split_and!; [done|by rewrite E2| |].
    + split; simpl; [done|]. unfold zlen in *. rewrite length_app. lia.
    + by rewrite <-app_assoc, take_drop.
  - apply wp_ret, HQ; [done|]. rewrite <-Hall. destruct (input s'); [by rewrite app_nil_r|].
    unfold zlen in Hpos. simpl in Hpos. lia.
Qed.

Lemma wp_copy_file l s (Q : Z → build_state → Prop) X :
  ready s → zlen l < 2 ^ 32 →
  (∀ s', ready s' → output s' = output s ++ l → Q (zlen l) s') →
  wp (copy_file good_host (Some l)) s Q X.
Proof.
  intros Hs Hl HQ. unfold copy_file. apply wp_bind, wp_put, wp_bind, wp_get, wp_bind, wp_ret.
  assert (u32 (zlen l) = zlen l) as E by (apply u32_small; unfold zlen in *; lia).
  change (view Input (update Input l s)) with l. rewrite E. apply wp_bind.
  apply (wp_copy_loop (update Input l s)); [by split; apply Hs|].
  intros s' Hs' Ho. apply wp_ret. by apply HQ.
Qed.

(** The bytes of a number. *)
Definition number (n len v : Z) : list Z := (λ i, if bool_decide (i < n) then byte_of v i else 0) <$> seqZ 0 len.

Lemma zlen_number n len v : 0 ≤ len → zlen (number n len v) = len.
Proof. intros. unfold number, zlen. rewrite length_fmap, length_seqZ. lia. Qed.

Lemma take_number b n len v :
  0 ≤ len ≤ zlen b → (∀ j, 0 ≤ j < len → zlookup b j = Some (if bool_decide (j < n) then byte_of v j else 0)) →
  take (Z.to_nat len) b = number n len v.
Proof.
  intros Hlen Hb. apply list_eq. intros i. unfold zlen in *. destruct (decide (i < Z.to_nat len)%nat) as [Hi|Hi].
  - rewrite lookup_take_lt by done. specialize (Hb (Z.of_nat i) ltac:(lia)). unfold zlookup in Hb.
    rewrite decide_True, Nat2Z.id in Hb by lia. rewrite Hb. unfold number. rewrite list_lookup_fmap.
    rewrite lookup_seqZ_lt by lia. done.
  - rewrite !lookup_ge_None_2; [done| |rewrite length_take; lia].
    pose proof (zlen_number n len v ltac:(lia)). unfold zlen in *. lia.
Qed.

Lemma wp_put_number p n len v msg s (Q : unit → build_state → Prop) X :
  zlen (buf s) = BUF_SIZE → 0 ≤ p → 0 ≤ len ≤ BUF_SIZE → 
  (∀ s', zlen (buf s') = BUF_SIZE → output s' = overwrite p (number n len v) (output s) → Q () s') →
  wp (put_number good_host p n len v msg) s Q X.
Proof.
  intros Hb Hp Hlen HQ. unfold put_number. apply wp_bind, wp_lseek_set, wp_bind; [done|].
  eapply (wp_for_range (λ i s', zlen (buf s') = BUF_SIZE ∧ output s' = output s ∧ position s' = p ∧
    ∀ j, 0 ≤ j < i → zlookup (buf s') j = Some (if bool_decide (j < n) then byte_of v j else 0))).
  - lia.
  - split_and!; [done..|lia].
  - intros i s' Hi (Hb' & Ho & Hp' & Hj). apply wp_aset; [simpl; lia|]. split_and!; simpl; try done.
    + by rewrite zlen_zinsert.
    + intros j Hij. rewrite zlookup_zinsert by lia. case_decide as E; [by subst|]. apply Hj. lia.
  - intros s' (Hb' & Ho & Hp' & Hj). apply wp_write_buf; [lia|]. apply HQ; [done|]. simpl.
    rewrite Hp', Ho. f_equal. apply take_number; [lia|done].
Qed.

(** ** The whole tool. *)

(** A boot sector [s] behind a Minix header [h] that [minix_open] accepts. *)
Record boot_file (h s : list Z) : Prop := {
  bf_header : zlen h = MINIX_HEADER_LEN;
  bf_magic : take 8 h = hdr;
  bf_words : Forall (λ i, word_at h i = 0) [3; 4; 5; 7];
  bf_sector : zlen s = 512;
  bf_flag : zlookup s 510 = Some 0x55 ∧ zlookup s 511 = Some 0xaa;
}.

Lemma zlookup_take {A} (l : list A) n j : 0 ≤ j < n → zlookup (take (Z.to_nat n) l) j = zlookup l j.
Proof. intros. unfold zlookup. rewrite !decide_True by lia. by rewrite lookup_take_lt by lia. Qed.

Lemma word_at_take b h i : take (Z.to_nat 32) b = h → 0 ≤ i < 8 → word_at b i = word_at h i.
Proof. intros <- Hi. unfold word_at. by rewrite !zlookup_take by lia. Qed.

Lemma read_buf_min n s : 0 ≤ n → read_buf good_host n s = read_buf good_host (n `min` zlen (input s)) s.
Proof.
  intros Hn. unfold read_buf, bind, get. simpl.
  assert (0 ≤ zlen (input s)) by (unfold zlen; lia).
  replace (n `min` zlen (input s) `min` zlen (input s)) with (n `min` zlen (input s)) by lia.
  by replace (n `min` zlen (input s) `min` n) with (n `min` zlen (input s) `min` (n `min` zlen (input s))) by lia.
Qed.

Lemma wp_minix_open h l s (Q : unit → build_state → Prop) X :
  zlen (buf s) = BUF_SIZE → zlen h = MINIX_HEADER_LEN → take 8 h = hdr →
  Forall (λ i, word_at h i = 0) [3; 4; 5; 7] →
  (∀ b, zlen b = BUF_SIZE → Q () (set_input l (set_buf b s))) →
  wp (minix_open good_host (Some (h ++ l))) s Q X.
Proof.
  intros Hb Hh Hm Hw HQ. unfold minix_open. apply wp_bind, wp_put, wp_bind.
  assert (zlen (h ++ l) = 32 + zlen l) as Hl by (unfold zlen, MINIX_HEADER_LEN in *; rewrite length_app; lia).
  apply wp_read_buf; [done|simpl; rewrite Hl; unfold MINIX_HEADER_LEN, zlen; lia|done|].
  intros b Hb' Htake. simpl in Htake. rewrite bool_decide_false by tauto. apply wp_bind, wp_ret, wp_bind, wp_get.
  assert (length h = Z.to_nat MINIX_HEADER_LEN) as Hn by (unfold zlen in Hh; lia).
  rewrite take_app_length' in Htake by done. simpl.
  rewrite !Forall_cons in Hw. destruct Hw as (H3 & H4 & H5 & H7 & _).
  assert (take 8 b = hdr) as Hm'.
  { rewrite <-Hm, <-Htake, take_take. done. }
  rewrite Hm', !(word_at_take b h) by (done || lia).
  rewrite (bool_decide_false (hdr ≠ hdr)) by tauto. rewrite H3, H4, H5, H7. simpl.
  apply wp_ret. rewrite drop_app_length' by done. by apply HQ.
Qed.

(** The boot sector in the image, without the fields set later. *)
Definition sector (s : list Z) : list Z := zinsert 509 0 (zinsert 508 0 s).

Lemma take_zinsert {A} n i (a : A) l : 0 ≤ i < n → take (Z.to_nat n) (zinsert i a l) = zinsert i a (take (Z.to_nat n) l).
Proof. intros. unfold zinsert. rewrite !decide_True by lia. apply take_insert_lt. lia. Qed.

Definition image (s system user : list Z) : list Z :=
  let im_size := (zlen system + zlen user + 15) / 16 in
  overwrite 520 (number 3 4 0x7DAA) (overwrite 516 (number 3 4 (zlen user))
    (overwrite 512 (number 3 4 (zlen system)) (overwrite 500 (number 2 2 im_size)
      (sector s ++ system ++ user)))).

Lemma wp_build h s system user (Q : unit → build_state → Prop) X :
  boot_file h s → zlen system + zlen user + 15 < 2 ^ 32 →
  (∀ st, output st = image s system user → Q () st) →
  wp (build good_host 4 (Some (h ++ s)) (Some system) (Some user)) build_bss Q X.
Proof.
  intros [Hh Hm Hw Hs [Hf1 Hf2]] Hlen HQ. unfold build. apply wp_bind, wp_ret, wp_bind.
  pose proof (Zle_0_nat (length system)). pose proof (Zle_0_nat (length user)).
  eapply wp_minix_open; [done|done|done|done|]. intros b Hb. apply wp_bind.
  unfold wp at 1. rewrite read_buf_min by done. change (BUF_SIZE `min` zlen (input (set_input s (set_buf b build_bss)))) with (1024 `min` zlen s).
  rewrite Hs. change (1024 `min` 512) with 512. apply wp_read_buf; [done|simpl; lia|done|]. intros b1 Hb1 Htake. simpl in Htake.
  assert (∀ j, 0 ≤ j < 512 → zlookup b1 j = zlookup s j) as Hlook.
  { intros j Hj. rewrite <-(zlookup_take b1 512) by done. rewrite Htake. by apply zlookup_take. }
  apply wp_bind, wp_ret, wp_bind, wp_get. simpl. rewrite !Hlook, Hf1, Hf2 by lia. simpl.
  apply wp_bind, wp_ret, wp_bind, wp_aset; [simpl; rewrite Hb1; done|].
  apply wp_bind, wp_aset; [simpl; rewrite zlen_zinsert, Hb1; done|].
  apply wp_bind, wp_write_end; [split; [simpl; by rewrite !zlen_zinsert|done]|done|]. simpl.
  rewrite (take_zinsert 512), (take_zinsert 512), Htake, take_ge by (done || (unfold zlen in Hs; lia)).
  apply wp_bind, wp_copy_file.
  { split; simpl; [by rewrite !zlen_zinsert|]. by rewrite !zlen_zinsert, Hs. }
  { unfold zlen in *. lia. }
  intros s1 Hs1 Ho1. apply wp_bind, wp_copy_file; [done|unfold zlen in *; lia|]. intros s2 Hs2 Ho2.
  rewrite u32_small by (unfold zlen in *; lia). cbv zeta.
  apply wp_bind, wp_put_number; [apply Hs2|done|done|]. intros s3 Hb3 Ho3.
  apply wp_bind, wp_put_number; [done|done|done|]. intros s4 Hb4 Ho4.
  apply wp_bind, wp_put_number; [done|done|done|]. intros s5 Hb5 Ho5.
  apply wp_put_number; [done|done|done|]. intros s6 _ Ho6. apply HQ.
  rewrite Ho6, Ho5, Ho4, Ho3, Ho2, Ho1, <-app_assoc. reflexivity.
Qed.

(** Little endian numbers in the image. *)
Lemma byte_of_div v i : 0 ≤ i → byte_of v i = (v / 2 ^ (8 * i)) mod 256.
Proof.
  intros. unfold byte_of. rewrite Z.shiftr_div_pow2 by lia.
  change 0xff with (Z.ones 8). by rewrite Z.land_ones.
Qed.

Lemma word_number v : 0 ≤ v < 2 ^ 24 →
  byte_of v 0 + 256 * byte_of v 1 + 65536 * byte_of v 2 = v.
Proof.
  intros Hv. rewrite !byte_of_div by lia. change (2 ^ (8 * 0)) with 1. change (2 ^ (8 * 1)) with 256.
  change (2 ^ (8 * 2)) with (256 * 256). rewrite Z.div_1_r, <-Z.div_div by lia.
  pose proof (Z.div_mod v 256). pose proof (Z.div_mod (v / 256) 256).
  rewrite (Z.mod_small (v / 256 / 256)); [lia|]. split; [apply Z.div_pos; [apply Z.div_pos|]; lia|].
  apply Z.div_lt_upper_bound; [lia|]. apply Z.div_lt_upper_bound; lia.
Qed.

Lemma zlookup_number n len v i :
  0 ≤ i < len → zlookup (number n len v) i = Some (if bool_decide (i < n) then byte_of v i else 0).
Proof.
  intros Hi. unfold number. rewrite zlookup_fmap. unfold zlookup. rewrite decide_True by lia.
  rewrite lookup_seqZ_lt by lia. simpl. by rewrite Z2Nat.id by lia.
Qed.

Lemma overwrite_number p n len v out :
  0 ≤ p → 0 ≤ len → p + len ≤ zlen out →
  zlen (overwrite p (number n len v) out) = zlen out ∧
  ∀ j, zlookup (overwrite p (number n len v) out) j =
    if bool_decide (p ≤ j < p + len) then zlookup (number n len v) (j - p) else zlookup out j.
Proof.
  intros Hp Hl Hle. pose proof (zlen_number n len v Hl) as E.
  destruct (overwrite_inside p (number n len v) out) as [H1 H2]; [done|by rewrite E|].
  rewrite E in H2. done.
Qed.

Lemma zlen_app3 {A} (a b c : list A) : zlen (a ++ b ++ c) = zlen a + zlen b + zlen c.
Proof. unfold zlen. rewrite !length_app. lia. Qed.

Lemma zlookup_app3 {A} (a b c : list A) j :
  zlookup (a ++ b ++ c) j =
  if bool_decide (j < zlen a) then zlookup a j
  else if bool_decide (j < zlen a + zlen b) then zlookup b (j - zlen a)
  else zlookup c (j - zlen a - zlen b).
Proof.
  unfold zlookup, zlen. destruct (decide (0 ≤ j)) as [Hj|Hj].
  2: { rewrite bool_decide_true by lia. done. }
  case_bool_decide as H1; [by rewrite lookup_app_l by lia|].
  rewrite lookup_app_r by lia. case_bool_decide as H2; rewrite decide_True by lia.
  - rewrite lookup_app_l by lia. f_equal. lia.
  - rewrite lookup_app_r by lia. f_equal. lia.
Qed.

(** The bytes of the image. *)
Lemma image_lookup s system user :
  zlen s = 512 → 12 ≤ zlen system →
  zlen (image s system user) = 512 + zlen system + zlen user ∧
  ∀ j, zlookup (image s system user) j =
    if bool_decide (520 ≤ j < 524) then zlookup (number 3 4 0x7DAA) (j - 520)
    else if bool_decide (516 ≤ j < 520) then zlookup (number 3 4 (zlen user)) (j - 516)
    else if bool_decide (512 ≤ j < 516) then zlookup (number 3 4 (zlen system)) (j - 512)
    else if bool_decide (500 ≤ j < 502) then zlookup (number 2 2 ((zlen system + zlen user + 15) / 16)) (j - 500)
    else zlookup (sector s ++ system ++ user) j.
Proof.
  intros Hs Hsys. unfold image.
  assert (zlen (sector s ++ system ++ user) = 512 + zlen system + zlen user) as E.
  { rewrite zlen_app3. unfold sector. by rewrite !zlen_zinsert, Hs. }
  assert (0 ≤ zlen user) by (unfold zlen; lia).
  set (o0 := sector s ++ system ++ user) in *. clearbody o0.
  destruct (overwrite_number 500 2 2 ((zlen system + zlen user + 15) / 16) o0) as [L1 H1]; [lia..|].
  set (o1 := overwrite 500 _ o0) in *. clearbody o1.
  destruct (overwrite_number 512 3 4 (zlen system) o1) as [L2 H2]; [lia..|].
  set (o2 := overwrite 512 _ o1) in *. clearbody o2.
  destruct (overwrite_number 516 3 4 (zlen user) o2) as [L3 H3]; [lia..|].
  set (o3 := overwrite 516 _ o2) in *. clearbody o3.
  destruct (overwrite_number 520 3 4 0x7DAA o3) as [L4 H4]; [lia..|].
  split; [lia|]. intros j. by rewrite H4, H3, H2, H1.
Qed.

(** The numbers in it. *)
Lemma image_numbers s system user :
  zlen s = 512 → 12 ≤ zlen system → zlen system < 2 ^ 24 → zlen user < 2 ^ 24 →
  word_at (image s system user) 128 = zlen system ∧ word_at (image s system user) 129 = zlen user ∧
  (∀ i, 0 ≤ i < 2 → zlookup (image s system user) (500 + i) =
     Some (byte_of ((zlen system + zlen user + 15) / 16) i)).
Proof.
  intros Hs Hsys Hsys' Husr. destruct (image_lookup s system user Hs Hsys) as [_ HI].
  assert (∀ i, 0 ≤ i < 4 → zlookup (image s system user) (4 * 128 + i) =
    Some (if bool_decide (i < 3) then byte_of (zlen system) i else 0)) as E1.
  { intros i Hi. rewrite HI, 2!bool_decide_false by lia. rewrite bool_decide_true by lia.
    rewrite <-(zlookup_number 3 4) by done. f_equal. lia. }
  assert (∀ i, 0 ≤ i < 4 → zlookup (image s system user) (4 * 129 + i) =
    Some (if bool_decide (i < 3) then byte_of (zlen user) i else 0)) as E2.
  { intros i Hi. rewrite HI, bool_decide_false, bool_decide_true by lia.
    rewrite <-(zlookup_number 3 4) by done. f_equal. lia. }
  split; [|split].
  - unfold word_at. rewrite !E1 by lia. pose proof (word_number (zlen system) ltac:(unfold zlen in *; lia)) as H.
    rewrite (bool_decide_true (0 < 3)), (bool_decide_true (1 < 3)), (bool_decide_true (2 < 3)),
      (bool_decide_false (3 < 3)) by lia. cbn [default id]. lia.
  - unfold word_at. rewrite !E2 by lia. pose proof (word_number (zlen user) ltac:(unfold zlen in *; lia)) as H.
    rewrite (bool_decide_true (0 < 3)), (bool_decide_true (1 < 3)), (bool_decide_true (2 < 3)),
      (bool_decide_false (3 < 3)) by lia. cbn [default id]. lia.
  - intros i Hi. rewrite HI, 3!bool_decide_false, bool_decide_true by lia.
    replace (500 + i - 500) with i by lia. by rewrite zlookup_number, bool_decide_true by lia.
Qed.

(** C40: [build], on a host whose reads and writes do what they are asked and
    given a boot sector with the right header and flag, succeeds and writes an image that holds the sector, the system - but for its first 12
    bytes - and, where the kernel looks for it, the user program: the four bytes
    at 512 give the size of the system, and the user program follows it, its
    size in the next four bytes; the two bytes at 500 tell the boot sector how
    many paragraphs to load. *)
Theorem image_layout h s system user :
  boot_file h s → 12 ≤ zlen system → zlen system < 2 ^ 24 → zlen user < 2 ^ 24 →
  returns (build good_host 4 (Some (h ++ s)) (Some system) (Some user)) build_bss (λ _ st,
    let out := output st in
    zlen out = 512 + zlen system + zlen user ∧
    word_at out 128 = zlen system ∧ word_at out 129 = zlen user ∧
    (∀ j, 0 ≤ j < zlen user → zlookup out (512 + word_at out 128 + j) = zlookup user j) ∧
    (∀ j, 12 ≤ j < zlen system → zlookup out (512 + j) = zlookup system j) ∧
    (∀ j, 0 ≤ j < 512 → j ∉ [500; 501; 508; 509] → zlookup out j = zlookup s j) ∧
    (let im_size := (zlen system + zlen user + 15) / 16 in
     zlookup out 500 = Some (im_size mod 256) ∧ zlookup out 501 = Some (im_size / 256 mod 256))).
Proof.
  intros Hb Hsys Hsys' Husr. pose proof (bf_sector _ _ Hb) as Hs.
  assert (0 ≤ zlen user) as Hu by (unfold zlen; lia).
  apply wp_returns. eapply wp_build; [done|lia|]. intros st Ho. cbv zeta. rewrite Ho.
  destruct (image_lookup s system user Hs Hsys) as [HL HI]. split; [done|].
  assert (zlen (sector s) = 512) as Hsec by (unfold sector; by rewrite !zlen_zinsert).
  destruct (image_numbers s system user Hs Hsys Hsys' Husr) as (W1 & W2 & W3).
  rewrite W1. split_and!; try done.
  - intros j Hj. rewrite HI, !bool_decide_false, zlookup_app3, !bool_decide_false by lia.
    f_equal. lia.
  - intros j Hj. rewrite HI, !bool_decide_false, zlookup_app3 by lia.
    rewrite bool_decide_false, bool_decide_true by lia. f_equal. lia.
  - intros j Hj Hn. rewrite !not_elem_of_cons in Hn.
    rewrite HI, !bool_decide_false, zlookup_app3, bool_decide_true by lia.
    unfold sector. by rewrite !zlookup_zinsert_ne by lia.
  - pose proof (W3 0 ltac:(lia)) as H. rewrite byte_of_div in H by lia.
    change (2 ^ (8 * 0)) with 1 in H. rewrite Z.div_1_r in H. exact H.
  - pose proof (W3 1 ltac:(lia)) as H. rewrite byte_of_div in H by lia. exact H.
Qed.

Definition demo_header : list Z := hdr ++ replicate 24 0.
Definition demo_sector : list Z := replicate 510 7 ++ [0x55; 0xaa].

Lemma image_layout_witness :
  let system := replicate 20 1 in let user := [65; 66; 67] in
  returns (build good_host 4 (Some (demo_header ++ demo_sector)) (Some system) (Some user)) build_bss (λ _ st,
    let out := output st in
    zlen out = 512 + zlen system + zlen user ∧
    word_at out 128 = zlen system ∧ word_at out 129 = zlen user ∧
    (∀ j, 0 ≤ j < zlen user → zlookup out (512 + word_at out 128 + j) = zlookup user j) ∧
    (∀ j, 12 ≤ j < zlen system → zlookup out (512 + j) = zlookup system j) ∧
    (∀ j, 0 ≤ j < 512 → j ∉ [500; 501; 508; 509] → zlookup out j = zlookup demo_sector j) ∧
    (let im_size := (zlen system + zlen user + 15) / 16 in
     zlookup out 500 = Some (im_size mod 256) ∧ zlookup out 501 = Some (im_size / 256 mod 256))).
Proof.
  apply (image_layout demo_header demo_sector).
  - split; [reflexivity|reflexivity| |reflexivity|split; reflexivity]. repeat constructor.
  - unfold zlen. simpl. lia.
  - unfold zlen. simpl. lia.
  - unfold zlen. simpl. lia.
Defined.
