(* ===== verification/StartFacts.v ===== *)
(** * The boot succeeds, and the memory it leaves: which address is which byte,
    when the linker put the task structures among the pages of the kernel. *)
From stdpp Require Import functions.
From S2P Require Import Prelude KList Mm Utils Io Fs KState Sched.
From S2P Require Import Sem Devices Sys Interrupt Queues SchedFacts SemFacts Quiet.
From S2P Require Import KernelInv Boot FsFacts FsOps FsProps Start.

(** ** Total steps. *)

(** An action that ends well, and what it respects. *)
Lemma wp_total_respects {S A} (R : S → S → Prop) (m : M S A) s (Q : A → S → Prop) X :
  respects R m → returns m s (λ _ _, True) → (∀ a s', R s s' → Q a s') → wp m s Q X.
Proof. intros Hm (a & s' & E & _) HQ. specialize (Hm s). unfold wp. rewrite E in *. by apply HQ. Qed.


(** ** The page table of the kernel. *)

Definition task_page (ta i : Z) : Z := Z.shiftr (u32 (ta + SIZEOF_PROTECTED_TASK * i)) 12.

(** The task structures lie below the user region. *)
Definition linked (ta : Z) : Prop := 0 ≤ ta ∧ ta + SIZEOF_PROTECTED_TASK * NR_TASKS ≤ L_USER_START.

Lemma task_page_range ta i : linked ta → 0 ≤ i < NR_TASKS →
  task_page ta i = (ta + SIZEOF_PROTECTED_TASK * i) / PAGE_SIZE ∧ 0 ≤ task_page ta i < NUM_PAG_KERNEL.
Proof.
  unfold linked, task_page, SIZEOF_PROTECTED_TASK, NR_TASKS, L_USER_START, NUM_PAG_KERNEL. intros Hl Hi.
  rewrite u32_small, Z.shiftr_div_pow2 by lia. split; [done|]. change (2 ^ 12) with 4096. split.
  - apply Z.div_pos; lia.
  - apply Z.div_lt_upper_bound; lia.
Qed.

(** The page [p] is present and behind it is frame [f]. *)
Definition maps (m : mm_state) (p f : Z) : Prop :=
  ∃ e, zlookup (pagusr_table m) p = Some e ∧ present e = 1 ∧ pbase_addr e = f.

Lemma maps_phys m p f k :
  maps m p f → 0 ≤ k < PAGE_SIZE → phys_of m (PAGE_SIZE * p + k) = Some (f * PAGE_SIZE + k).
Proof.
  intros (e & He & Hp & <-) Hk. unfold phys_of.
  by rewrite shiftr_page, He, bool_decide_true, mod_page by done.
Qed.

Lemma wp_set_entry_range p f m (Q : unit → mm_state → Prop) X :
  0 ≤ p < zlen (pagusr_table m) →
  (∀ e, zlookup (pagusr_table m) p = Some e →
     Q () (set_stale ({[p]} ∪ stale m) (set_pagusr_table (zinsert p (f e) (pagusr_table m)) m))) →
  wp (set_entry p f) m Q X.
Proof. intros Hp HQ. destruct (zlookup_range _ _ Hp) as [e He]. eapply wp_set_entry; [exact He|by apply HQ]. Qed.

(** Only the page table, and what is known of the TLB, changed. *)
Definition table_only (m m' : mm_state) : Prop :=
  zlen (pagusr_table m') = zlen (pagusr_table m) ∧ phys_mem m' = phys_mem m ∧ ram m' = ram m ∧
  dir_pages m' = dir_pages m.
#[export] Instance table_only_preorder : PreOrder table_only.
Proof. unfold table_only. split; [done|]. intros ??? (?&?&?&?) (?&?&?&?). split_and!; congruence. Qed.

Lemma maps_entry m p q f e X :
  0 ≤ q < zlen (pagusr_table m) → maps m p f → p ≠ q →
  maps (set_stale X (set_pagusr_table (zinsert q e (pagusr_table m)) m)) p f.
Proof. intros Hq (e' & He & ?) Hne. exists e'. simpl. by rewrite zlookup_zinsert_ne. Qed.

Lemma table_only_entry m p e X :
  table_only m (set_stale X (set_pagusr_table (zinsert p e (pagusr_table m)) m)).
Proof. split; [apply zlen_zinsert|done]. Qed.

Lemma kernel_pte i : 0 ≤ i < NUM_PAG_KERNEL →
  let e := set_present 1 (set_rw 1 (set_pbase_addr i 0)) in present e = 1 ∧ pbase_addr e = i.
Proof.
  intros Hi. cbv zeta. split; solve_pte. apply Z.mod_small. unfold NUM_PAG_KERNEL in *. lia.
Qed.

Lemma wp_kernel_page i m (Q : unit → mm_state → Prop) X :
  0 ≤ i < NUM_PAG_KERNEL → zlen (pagusr_table m) = TOTAL_PAGES → zlookup (pagusr_table m) i = Some 0 →
  (∀ m', table_only m m' → maps m' i i → (∀ p, p ≠ i → zlookup (pagusr_table m') p = zlookup (pagusr_table m) p) →
     Q () m') →
  wp (set_entry i (set_pbase_addr i);; set_entry i (set_rw 1);; set_entry i (set_present 1)) m Q X.
Proof.
  intros Hi Hl H0 HQ. assert (0 ≤ i < zlen (pagusr_table m)) as Hr.
  { rewrite Hl. unfold NUM_PAG_KERNEL, TOTAL_PAGES in *. lia. }
  apply wp_bind. eapply wp_set_entry; [exact H0|].
  apply wp_bind, wp_set_entry_again; [done|]. apply wp_set_entry_again; [done|]. apply HQ.
  - apply table_only_entry.
  - eexists. simpl. rewrite zlookup_zinsert_eq by done. split; [done|]. by apply kernel_pte.
  - intros p Hp. simpl. by apply zlookup_zinsert_ne.
Qed.

Definition task_free (ta p : Z) : Prop := ∀ i, 0 ≤ i < NR_TASKS → p ≠ task_page ta i.

(** The pages of the kernel, but those that protect the task structures, are
    where they were before paging. *)
Definition kernel_mapped (ta : Z) (m : mm_state) : Prop :=
  ∀ p, 0 ≤ p < NUM_PAG_KERNEL → task_free ta p → maps m p p.

Lemma wp_init_table_pages ta m (Q : unit → mm_state → Prop) X :
  linked ta → zlen (pagusr_table m) = TOTAL_PAGES →
  (∀ m', table_only m m' → kernel_mapped ta m' → Q () m') →
  wp (init_table_pages ta) m Q X.
Proof.
  intros Hta Hl HQ. unfold init_table_pages. apply wp_bind.
  apply (wp_for_range (λ n m', table_only m m' ∧ ∀ p, 0 ≤ p < n → zlookup (pagusr_table m') p = Some 0)).
  { done. } { split; [reflexivity|lia]. }
  { intros i m' Hi [Ht H0]. apply wp_set_entry_range; [rewrite (proj1 Ht), Hl; done|].
    intros _ _. split; [etransitivity; [exact Ht|apply table_only_entry]|]. intros p Hp. simpl.
    rewrite zlookup_zinsert by (rewrite (proj1 Ht), Hl; done). case_decide; [done|]. apply H0. lia. }
  intros m1 [Ht1 H1]. apply wp_bind.
  apply (wp_for_range (λ n m', table_only m m' ∧ (∀ p, 0 ≤ p < n → maps m' p p) ∧
    ∀ p, n ≤ p < TOTAL_PAGES → zlookup (pagusr_table m') p = Some 0)).
  { done. } { split_and!; [done|lia|]. intros p Hp. apply H1. lia. }
  { intros i m' Hi (Ht & Hm & H0). apply wp_kernel_page; [done|by rewrite (proj1 Ht)| |].
    { apply H0. unfold NUM_PAG_KERNEL, TOTAL_PAGES in *. lia. }
    intros m2 Ht2 Hi2 Hne. split_and!; [by etransitivity| |].
    - intros p Hp. destruct (decide (p = i)) as [->|]; [done|].
      destruct (Hm p ltac:(lia)) as (e & He & ?). exists e. by rewrite Hne.
    - intros p Hp. rewrite Hne by lia. apply H0. lia. }
  intros m2 (Ht2 & Hm2 & _).
  apply (wp_for_range (λ n m', table_only m m' ∧
    ∀ p, 0 ≤ p < NUM_PAG_KERNEL → (∀ i, 0 ≤ i < n → p ≠ task_page ta i) → maps m' p p)).
  { done. } { split; [done|]. intros p Hp _. by apply Hm2. }
  2: { intros m3 [Ht3 H3]. by apply HQ. }
  intros i m' Hi [Ht Hm]. cbv zeta. fold (task_page ta i).
  destruct (task_page_range ta i Hta Hi) as [_ Hp].
  assert (0 ≤ task_page ta i < TOTAL_PAGES) as Hr by (unfold NUM_PAG_KERNEL, TOTAL_PAGES in *; lia).
  assert (zlen (pagusr_table m') = TOTAL_PAGES) as Hl' by by rewrite (proj1 Ht).
  apply wp_bind, wp_set_entry_range; [by rewrite Hl'|]. intros e1 _.
  apply wp_bind, wp_set_entry_again; [by rewrite Hl'|]. apply wp_set_entry_again; [by rewrite Hl'|].
  split; [etransitivity; [exact Ht|apply table_only_entry]|].
  intros p Hpk Hne. apply maps_entry; [by rewrite Hl'| |apply Hne; lia].
  apply Hm; [done|]. intros j Hj. apply Hne. lia.
Qed.

(** ** Frames. *)

Lemma wp_init_frames m (Q : Z → mm_state → Prop) X :
  zlen (phys_mem m) = TOTAL_PAGES →
  (∀ m', free_from NUM_PAG_KERNEL m' → pagusr_table m' = pagusr_table m → ram m' = ram m → Q 0 m') →
  wp init_frames m Q X.
Proof.
  intros Hlen HQ. unfold init_frames. apply wp_bind.
  apply (wp_for_range (λ i m', zlen (phys_mem m') = TOTAL_PAGES ∧ pagusr_table m' = pagusr_table m ∧
    ram m' = ram m ∧ ∀ j, 0 ≤ j < i → zlookup (phys_mem m') j = Some FREE_FRAME)).
  { done. } { split_and!; [done..|lia]. }
  { intros i m' Hi (Hl & Ht & Hr & Hj). apply wp_aset; [simpl; lia|]. simpl.
    rewrite zlen_zinsert. split_and!; [done..|]. intros j ?.
    rewrite zlookup_zinsert by lia. case_decide; [done|]. apply Hj. lia. }
  intros m1 (Hl1 & Ht1 & Hr1 & Hj1). apply wp_bind.
  apply (wp_for_range (λ i m', pagusr_table m' = pagusr_table m ∧ ram m' = ram m ∧ free_from NUM_PAG_KERNEL m')).
  { done. } { split_and!; [done..|]. split; [done|]. intros g ?. apply Hj1. unfold NUM_PAG_KERNEL in *. lia. }
  { intros i m' Hi (Ht & Hr & Hl & Hj). apply wp_aset.
    { simpl. rewrite Hl. unfold NUM_PAG_KERNEL, TOTAL_PAGES in *. lia. }
    simpl. split_and!; [done..|]. split; simpl; [by rewrite zlen_zinsert|].
    intros g ?. rewrite zlookup_zinsert_ne by lia. by apply Hj. }
  intros m2 (Ht & Hr & Hf). apply wp_ret. by apply HQ.
Qed.

Lemma wp_init_dir_pages tb m (Q : unit → mm_state → Prop) X :
  zlen (dir_pages m) = TOTAL_PAGES → (∀ d, Q () (set_dir_pages d m)) → wp (init_dir_pages tb) m Q X.
Proof.
  intros Hd HQ. unfold init_dir_pages.
  assert (∀ f (d : list Z) (Q' : unit → mm_state → Prop), zlen d = TOTAL_PAGES →
    (∀ d', zlen d' = TOTAL_PAGES → Q' () (set_dir_pages d' m)) →
    wp (amodify DirPages ENTRY_DIR_PAGES f) (set_dir_pages d m) Q' X) as Hstep.
  { intros f d Q' Hl HQ'. destruct (zlookup_range d ENTRY_DIR_PAGES) as [e He]; [rewrite Hl; done|].
    eapply wp_amodify; [exact He|]. apply (HQ' (zinsert ENTRY_DIR_PAGES (f e) d)). by rewrite zlen_zinsert. }
  apply wp_bind, wp_aset; [simpl; rewrite Hd; done|].
  assert (zlen (zinsert ENTRY_DIR_PAGES 0 (dir_pages m)) = TOTAL_PAGES) as Hd' by by rewrite zlen_zinsert.
  apply wp_bind, Hstep; [exact Hd'|]. intros d1 H1. apply wp_bind, Hstep; [exact H1|]. intros d2 H2.
  apply wp_bind, Hstep; [exact H2|]. intros d3 H3. apply Hstep; [exact H3|]. auto.
Qed.

Lemma wp_init_mm ta tb m (Q : unit → mm_state → Prop) X :
  linked ta → zlen (phys_mem m) = TOTAL_PAGES → zlen (pagusr_table m) = TOTAL_PAGES →
  zlen (dir_pages m) = TOTAL_PAGES →
  (∀ m', zlen (pagusr_table m') = TOTAL_PAGES → kernel_mapped ta m' → free_from NUM_PAG_KERNEL m' →
     ram m' = ram m → Q () m') →
  wp (init_mm ta tb) m Q X.
Proof.
  intros Hta Hp Ht Hd HQ. unfold init_mm.
  apply wp_bind, wp_init_table_pages; [done|done|]. intros m1 (T1 & P1 & R1 & D1) K1.
  assert (respects (agree dir_pages) init_frames) as Hdir.
  { unfold init_frames. respects; by apply respects_aset. }
  apply wp_bind. eapply wp_mono; [apply (wp_wlp_and init_frames m1 (λ _ m', free_from NUM_PAG_KERNEL m' ∧
     pagusr_table m' = pagusr_table m1 ∧ ram m' = ram m1) (λ _ m', dir_pages m' = dir_pages m1) X (λ _, True))| |].
  { apply wp_init_frames; [by rewrite P1|done]. }
  { eapply wlp_respects; [exact Hdir|done]. }
  2: { by intros ? []. }
  intros _ m2 [(F2 & T2 & R2) D2]. apply wp_bind, wp_init_dir_pages; [by rewrite D2, D1|]. intros d.
  unfold set_cr3, set_pe_flag. apply wp_bind, wp_put, wp_put. apply HQ; simpl.
  - by rewrite T2, T1.
  - intros p Hpk Hfree. destruct (K1 p Hpk Hfree) as (e & He & ?). exists e. simpl. by rewrite T2.
  - exact F2.
  - by rewrite R2.
Qed.

(** Of the frames [alloc_frame] looks at, those below [b] are used and the
    others free. *)
Definition alloc_at (b : Z) (m : mm_state) : Prop :=
  zlen (phys_mem m) = TOTAL_PAGES ∧
  ∀ g, is_alloc_candidate g → zlookup (phys_mem m) g = Some (if bool_decide (g < b) then USED_FRAME else FREE_FRAME).

Lemma wp_alloc_at b m (Q : Z → mm_state → Prop) X :
  alloc_at b m → is_alloc_candidate b →
  (∀ m', alloc_at (b + 2) m' → pagusr_table m' = pagusr_table m → ram m' = ram m → Q b m') →
  wp alloc_frame m Q X.
Proof.
  intros [Hlen Hat] Hb HQ. apply wp_alloc_frame; [done|]. intros f m' [f' Hc Hf Hmin|Hnone].
  - assert (f' = b) as ->.
    { rewrite (Hat f' Hc) in Hf. case_bool_decide; [done|]. destruct (decide (b < f')); [|lia].
      exfalso. apply (Hmin b); [done|done|]. by rewrite (Hat b Hb), bool_decide_false by lia. }
    apply HQ; [|done..]. split; simpl; [by rewrite zlen_zinsert|]. intros g Hg.
    pose proof Hb as [Hbr Hbe]. pose proof Hg as [Hgr Hge].
    rewrite zlookup_zinsert by (rewrite Hlen; unfold NUM_PAG_KERNEL in *; lia).
    case_decide as E; [subst; by rewrite bool_decide_true by lia|].
    rewrite Hat by done. destruct Hbe as [x ->], Hge as [y ->].
    do 2 case_bool_decide; try done; lia.
  - exfalso. apply (Hnone b); [done|]. by rewrite (Hat b Hb), bool_decide_false by lia.
Qed.

Lemma candidate b : NUM_PAG_KERNEL ≤ 2 * b < TOTAL_PAGES → is_alloc_candidate (2 * b).
Proof. intros. split; [done|by exists b]. Qed.

Lemma wp_initialize_P0_frames m (Q : Z → mm_state → Prop) X :
  free_from NUM_PAG_KERNEL m →
  (∀ m', alloc_at 264 m' → pagusr_table m' = pagusr_table m → ram m' = ram m → Q NUM_PAG_KERNEL m') →
  wp initialize_P0_frames m Q X.
Proof.
  intros [Hl Hf] HQ. unfold initialize_P0_frames. apply wp_bind.
  apply (wp_for_range (λ i m', pagusr_table m' = pagusr_table m ∧ ram m' = ram m ∧
    zlen (phys_mem m') = TOTAL_PAGES ∧ ∀ g, NUM_PAG_KERNEL ≤ g < TOTAL_PAGES → zlookup (phys_mem m') g =
      Some (if bool_decide (g < NUM_PAG_KERNEL + i) then USED_FRAME else FREE_FRAME))); [done| | |].
  - split_and!; [done..|]. intros g Hg. rewrite bool_decide_false by lia. by apply Hf.
  - intros i m' Hi (Ht & Hr & Hl' & Hf').
    assert (0 ≤ NUM_PAG_KERNEL + i < zlen (phys_mem m')) as Hir.
    { rewrite Hl'. unfold NUM_PAG_KERNEL, NUM_PAG_CODE, TOTAL_PAGES in *. lia. }
    apply wp_aset; [done|]. simpl. rewrite zlen_zinsert. split_and!; [done..|]. intros g Hg.
    rewrite zlookup_zinsert by done. case_decide as E; [by rewrite bool_decide_true by lia|].
    rewrite Hf' by done. do 2 case_bool_decide; try done; lia.
  - intros m' (Ht & Hr & Hl' & Hf'). apply wp_ret, HQ; [|done..]. split; [done|].
    intros g [Hg _]. by apply Hf'.
Qed.

(** ** The user region. *)

Definition user_frame (j : Z) : Z :=
  if bool_decide (j < NUM_PAG_CODE) then NUM_PAG_KERNEL + j else 264 + 2 * (j - NUM_PAG_CODE).

(** The frames behind the pages of process 0. *)
Definition user_mapped (m : mm_state) : Prop :=
  ∀ j, 0 ≤ j < NUM_PAG_CODE + NUM_PAG_DATA → maps m (NUM_PAG_KERNEL + j) (user_frame j).

Lemma wp_user_page p f m (Q : unit → mm_state → Prop) X :
  zlen (pagusr_table m) = TOTAL_PAGES → 0 ≤ p < TOTAL_PAGES → 0 ≤ f < TOTAL_PAGES →
  (∀ m', table_only m m' → maps m' p f → (∀ q, q ≠ p → zlookup (pagusr_table m') q = zlookup (pagusr_table m) q) →
     Q () m') →
  wp (set_entry p (λ _, 0);; set_entry p (set_pbase_addr f);; set_entry p (set_user 1);; set_entry p (set_present 1))
    m Q X.
Proof.
  intros Hl Hp Hf HQ. apply wp_bind, wp_set_entry_range; [by rewrite Hl|]. intros _ _.
  apply wp_bind, wp_set_entry_again; [by rewrite Hl|]. apply wp_bind, wp_set_entry_again; [by rewrite Hl|].
  apply wp_set_entry_again; [by rewrite Hl|]. apply HQ.
  - apply table_only_entry.
  - eexists. simpl. rewrite zlookup_zinsert_eq by by rewrite Hl. split; [done|].
    split; solve_pte. apply Z.mod_small. unfold TOTAL_PAGES in Hf. lia.
  - intros q Hq. simpl. by apply zlookup_zinsert_ne.
Qed.

Lemma wp_data_page p b m (Q : unit → mm_state → Prop) X :
  zlen (pagusr_table m) = TOTAL_PAGES → 0 ≤ p < TOTAL_PAGES → alloc_at b m → is_alloc_candidate b →
  (∀ m', zlen (pagusr_table m') = TOTAL_PAGES → ram m' = ram m → alloc_at (b + 2) m' → maps m' p b →
     (∀ q, q ≠ p → zlookup (pagusr_table m') q = zlookup (pagusr_table m) q) → Q () m') →
  wp (set_entry p (λ _, 0);; (let! f := alloc_frame in set_entry p (set_pbase_addr f));;
      set_entry p (set_user 1);; set_entry p (set_rw 1);; set_entry p (set_present 1)) m Q X.
Proof.
  intros Hl Hp Ha Hb HQ. pose proof Hb as [Hbr _].
  apply wp_bind, wp_set_entry_range; [by rewrite Hl|]. intros _ _.
  apply wp_bind, wp_bind. eapply wp_alloc_at; [|exact Hb|]; [exact Ha|]. intros m' Ha' Ht Hr. simpl in Ht.
  assert (zlen (pagusr_table m') = TOTAL_PAGES) as Hl' by by rewrite Ht, zlen_zinsert.
  eapply wp_set_entry; [rewrite Ht; by apply zlookup_zinsert_eq; rewrite Hl|].
  do 2 (apply wp_bind, wp_set_entry_again; [by rewrite Hl'|]).
  apply wp_set_entry_again; [by rewrite Hl'|]. apply HQ.
  - simpl. by rewrite zlen_zinsert.
  - exact Hr.
  - exact Ha'.
  - eexists. simpl. rewrite zlookup_zinsert_eq by by rewrite Hl'. split; [done|].
    split; solve_pte. apply Z.mod_small. unfold NUM_PAG_KERNEL, TOTAL_PAGES in Hbr. lia.
  - intros q Hq. simpl. rewrite zlookup_zinsert_ne by done. by rewrite Ht, zlookup_zinsert_ne.
Qed.

Lemma wp_set_user_pages ta m (Q : unit → mm_state → Prop) X :
  zlen (pagusr_table m) = TOTAL_PAGES → kernel_mapped ta m → alloc_at 264 m →
  (∀ m', zlen (pagusr_table m') = TOTAL_PAGES → kernel_mapped ta m' → user_mapped m' → alloc_at 304 m' →
     ram m' = ram m → Q () m') →
  wp set_user_pages m Q X.
Proof.
  intros Hl Hk Ha HQ. unfold set_user_pages.
  change PAG_LOG_INIT_CODE_P0 with 256. change PAG_LOG_INIT_DATA_P0 with 264.
  pose (I := λ p m', zlen (pagusr_table m') = TOTAL_PAGES ∧ ram m' = ram m ∧
    (∀ q, q < 256 → zlookup (pagusr_table m') q = zlookup (pagusr_table m) q) ∧
    ∀ j, 0 ≤ j < p - 256 → maps m' (NUM_PAG_KERNEL + j) (user_frame j)).
  assert (∀ p (m1 m2 : mm_state), 256 ≤ p → I p m1 → zlen (pagusr_table m2) = TOTAL_PAGES → ram m2 = ram m1 →
    maps m2 p (user_frame (p - 256)) → (∀ q, q ≠ p → zlookup (pagusr_table m2) q = zlookup (pagusr_table m1) q) →
    I (p + 1) m2) as Hstep.
  { intros p m1 m2 Hp (L1 & R1 & K1 & U1) L2 R2 U2 Hne. split_and!; [done|congruence| |].
    - intros q Hq. rewrite Hne by lia. by apply K1.
    - intros j Hj. destruct (decide (j = p - 256)) as [->|].
      + by replace (NUM_PAG_KERNEL + (p - 256)) with p by (unfold NUM_PAG_KERNEL; lia).
      + destruct (U1 j ltac:(lia)) as (e & He & ?). exists e. rewrite Hne; [done|unfold NUM_PAG_KERNEL; lia]. }
  apply wp_bind, (wp_for_range (λ p m', I p m' ∧ alloc_at 264 m')); [done| | |].
  { split; [|done]. split_and!; [done..|lia]. }
  { intros p m1 Hp [HI Ha1]. cbv zeta. unfold NUM_PAG_KERNEL at 1. apply wp_user_page; [apply HI| | |].
    { unfold TOTAL_PAGES. lia. } { unfold TOTAL_PAGES. lia. }
    intros m2 (T1 & T2 & T3 & _) Hm Hne. split; [|by split; [rewrite T2; apply Ha1|rewrite T2; apply Ha1]].
    apply (Hstep p m1); [lia|done|rewrite T1; apply HI|done| |done].
    unfold user_frame, NUM_PAG_CODE, NUM_PAG_KERNEL. by rewrite bool_decide_true by lia. }
  intros m1 [HI Ha1].
  apply (wp_for_range (λ p m', I p m' ∧ alloc_at (264 + 2 * (p - 264)) m')); [done|done| |].
  { intros p m2 Hp [HI2 Ha2]. unfold NUM_PAG_DATA in Hp. eapply wp_data_page; [apply HI2| |exact Ha2| |].
    { unfold TOTAL_PAGES. lia. }
    { replace (264 + 2 * (p - 264)) with (2 * (p - 132)) by lia. apply candidate.
      unfold NUM_PAG_KERNEL, TOTAL_PAGES. lia. }
    intros m3 L3 R3 A3 U3 Hne. split; [|by replace (264 + 2 * (p + 1 - 264)) with (264 + 2 * (p - 264) + 2) by lia].
    apply (Hstep p m2); [lia|done|done|done| |done].
    unfold user_frame, NUM_PAG_CODE. rewrite bool_decide_false by lia.
    by replace (p - 256 - 8) with (p - 264) by lia. }
  intros m2 [(L2 & R2 & K2 & U2) A2]. apply HQ; [done| |exact U2|exact A2|done].
  intros p Hp Hf. destruct (Hk p Hp Hf) as (e & He & ?). exists e. rewrite K2; [done|].
  unfold NUM_PAG_KERNEL in Hp. lia.
Qed.

(** ** Process 0. *)

Definition no_pids : list Z := replicate (Z.to_nat NR_TASKS) (-1).
Definition one_pid : list Z := zinsert 0 0 no_pids.

Lemma cold_task0_exists n pids k : cold n pids k → zlen pids = NR_TASKS →
  ∃ v, zlookup (task k) 0 = Some v ∧ task_shape v.
Proof.
  intros [Hs (_ & _ & _ & Ep) _] Hl. destruct (zlookup_range (task k) 0) as [v Hv].
  { rewrite <-(zlen_fmap pid (task k)), Ep, Hl. done. }
  exists v. split; [exact Hv|by eapply sh_task].
Qed.

(** [cold] along with what process 0 has of the memory. *)
Definition readying (n : Z) (pids : list Z) (m : mm_state) (f : fs_state) (k : kstate) : Prop :=
  cold n pids k ∧ mm k = m ∧ fs k = f.

Definition steady_fs (k k' : kstate) : Prop := steady k k' ∧ agree fs k k'.
#[local] Instance steady_fs_preorder : PreOrder steady_fs.
Proof.
  unfold steady_fs. split; [split; reflexivity|]. intros k1 k2 k3 [] []. split; by etransitivity.
Qed.

Lemma readying_step {A} (m : K A) n pids mem f k (Q : A → kstate → Prop) X :
  readying n pids mem f k → respects quiet m → respects (agree mm) m → respects (agree fs) m →
  returns m k (λ _ _, True) →
  (∀ a k', readying n pids mem f k' → Q a k') → wp m k Q X.
Proof.
  intros (Hk & Em & Ef) H1 H2 H3 Hm HQ.
  apply (wp_total_respects (λ k k', steady k k' ∧ agree fs k k')); [|done|].
  { apply respects_and; [by apply steady_ok|done]. }
  intros a k' [[Hq Em'] Ef']. apply HQ. unfold agree in *. split_and!; [by eapply quiet_cold|congruence..].
Qed.

Lemma agree_fs_task_set {A} (f : A → task_struct → task_struct) i a : respects (agree fs) (task_set f i a).
Proof. by apply respects_amodify. Qed.
Lemma agree_fs_put_left v : respects (agree fs) (put Left4current v).
Proof. by apply respects_put. Qed.
Lemma agree_fs_ph_pages_set i j f : respects (agree fs) (ph_pages_set i j f).
Proof. unfold ph_pages_set. respects. apply agree_fs_task_set. Qed.
Lemma agree_fs_owned_sems_set i j f : respects (agree fs) (owned_sems_set i j f).
Proof. unfold owned_sems_set. respects. apply agree_fs_task_set. Qed.
Lemma agree_fs_fd_set i j f : respects (agree fs) (fd_set i j f).
Proof. unfold fd_set. respects. apply agree_fs_task_set. Qed.
Lemma agree_mm_owned_sems_set i j f : respects (agree mm) (owned_sems_set i j f).
Proof. unfold owned_sems_set. respects. Qed.
Lemma agree_mm_fd_set i j f : respects (agree mm) (fd_set i j f).
Proof. unfold fd_set. respects. Qed.
#[local] Hint Resolve agree_fs_task_set agree_fs_put_left agree_fs_ph_pages_set agree_fs_owned_sems_set
  agree_fs_fd_set agree_mm_owned_sems_set agree_mm_fd_set : respects.

Section Task0.
Context (k : kstate) (v : task_struct) (Hv : zlookup (task k) 0 = Some v) (Hs : task_shape v).

Lemma total_task_set {A} (f : A → task_struct → task_struct) a : returns (task_set f 0 a) k (λ _ _, True).
Proof using Hv. apply wp_returns. by eapply wp_task_set. Qed.

(** A store to an element of an array of process 0. *)
Lemma total_array {A} (field : task_struct → list A) (setter : list A → task_struct → task_struct) j x :
  0 ≤ j < zlen (field v) →
  returns (let! t := aget Task 0 in let! _ := of_option (zlookup (field t) j) in
           task_set setter 0 (zinsert j x (field t))) k (λ _ _, True).
Proof using Hv.
  intros Hj. apply wp_returns, wp_bind. eapply wp_aget; [exact Hv|].
  destruct (zlookup_range (field v) j Hj) as [y Hy]. apply wp_bind. eapply wp_of_option; [exact Hy|].
  by eapply wp_task_set.
Qed.

Lemma total_ph_pages_set j f : 0 ≤ j < NUM_PAG_DATA → returns (ph_pages_set 0 j f) k (λ _ _, True).
Proof using Hv Hs. intros. apply (total_array ph_pages t_ph_pages). by rewrite (ts_pages _ Hs). Qed.
Lemma total_owned_sems_set j f : 0 ≤ j < SEM_MAX_VALUE → returns (owned_sems_set 0 j f) k (λ _ _, True).
Proof using Hv Hs. intros. apply (total_array owned_sems t_owned_sems). by rewrite (ts_owned _ Hs). Qed.
Lemma total_fd_set j f : 0 ≤ j < MAX_FDS → returns (fd_set 0 j f) k (λ _ _, True).
Proof using Hv Hs.
  intros. apply (total_array file_descriptors t_file_descriptors). by rewrite (ts_fds _ Hs).
Qed.
End Task0.

Ltac ready H Hl :=
  let v := fresh "v" in let Hv := fresh "Hv" in let Hs := fresh "Hs" in
  destruct (cold_task0_exists _ _ _ (proj1 H) Hl) as (v & Hv & Hs).

Lemma wp_task0_arrays pids m f k (Q : unit → kstate → Prop) X :
  zlen pids = NR_TASKS → readying 1 pids m f k → (∀ k', readying 1 pids m f k' → Q () k') →
  wp (for_range 0 SEM_MAX_VALUE (λ i, owned_sems_set 0 i (-1));; for_range 3 MAX_FDS (λ i, fd_set 0 i None)) k Q X.
Proof.
  intros Hl Hk HQ. apply wp_bind, (wp_for_range (λ _ k', readying 1 pids m f k')); [done|done| |].
  { intros i k' Hi Hk'. ready Hk' Hl. eapply readying_step; [exact Hk'|apply quiet_owned_sems_set|apply agree_mm_owned_sems_set|
    apply agree_fs_owned_sems_set| |done]. by eapply total_owned_sems_set. }
  intros k1 Hk1. apply (wp_for_range (λ _ k', readying 1 pids m f k')); [done|done| |exact HQ].
  intros i k' Hi Hk'. ready Hk' Hl. eapply readying_step; [exact Hk'|apply quiet_fd_set|apply agree_mm_fd_set|
    apply agree_fs_fd_set| |done]. eapply total_fd_set; [done|done|lia].
Qed.

(** The frames process 0 records: a second round of [alloc_frame]. *)
Lemma wp_task0_frames pids m f k (Q : unit → kstate → Prop) X :
  zlen pids = NR_TASKS → readying 1 pids m f k → alloc_at 304 m →
  (∀ m' k', pagusr_table m' = pagusr_table m → ram m' = ram m → readying 1 pids m' f k' → Q () k') →
  wp (for_range 0 NUM_PAG_DATA (λ i, let! f := zoom MM alloc_frame in ph_pages_set 0 i f)) k Q X.
Proof.
  intros Hl Hk Ha HQ. apply (wp_for_range (λ i k', ∃ m', pagusr_table m' = pagusr_table m ∧ ram m' = ram m ∧
    alloc_at (304 + 2 * i) m' ∧ readying 1 pids m' f k')); [done|by exists m| |].
  2: { intros k' (m' & Ht & Hr & _ & Hk'). by eapply HQ. }
  intros i k' Hi (m' & Ht & Hr & Ha' & Hk'). unfold NUM_PAG_DATA in Hi. apply wp_bind, wp_zoom.
  pose proof Hk' as (Hc & Em & Ef). eapply wp_alloc_at; [simpl; rewrite Em; exact Ha'| |].
  { replace (304 + 2 * i) with (2 * (152 + i)) by lia. apply candidate. unfold NUM_PAG_KERNEL, TOTAL_PAGES. lia. }
  intros m2 Ha2 Ht2 Hr2. simpl in Ht2, Hr2. rewrite Em in Ht2, Hr2.
  assert (readying 1 pids m2 f (update MM m2 k')) as Hk2.
  { split_and!; [|done|done]. apply cold_shape_mm; [done|apply Ha2|].
    rewrite Ht2, <-Em. apply (sh_table _ (co_shape _ _ _ Hc)). }
  ready Hk2 Hl. eapply readying_step; [exact Hk2| |apply agree_mm_ph_pages_set|apply agree_fs_ph_pages_set| |].
  - apply quiet_ph_pages_set. unfold TOTAL_PAGES. lia.
  - by eapply total_ph_pages_set.
  - intros _ k3 Hk3. exists m2. split_and!; [congruence|congruence| |done].
    by replace (304 + 2 * (i + 1)) with (304 + 2 * i + 2) by lia.
Qed.

(** The open files of the keyboard and of the console. *)
Definition open_devices : M fs_state unit :=
  fdt_set with_refs 0 1;;
  fdt_set with_access_mode 0 O_RDONLY;;
  fdt_set with_offset 0 0;;
  fdt_set with_logic_dev 0 (Some 0);;
  dir_set with_n_refs 0 1;;
  fdt_set with_refs 1 1;;
  fdt_set with_access_mode 1 O_WRONLY;;
  fdt_set with_offset 1 0;;
  fdt_set with_logic_dev 1 (Some 1);;
  dir_set with_n_refs 1 1.

Definition fs_room (f : fs_state) : Prop := 2 ≤ zlen (fdt f) ∧ 2 ≤ zlen (dir f).

Lemma wp_fdt_set_room {A} (setter : A → virtual → virtual) i a f (Q : unit → fs_state → Prop) X :
  fs_room f → 0 ≤ i < 2 → (∀ f', fs_room f' → Q () f') → wp (fdt_set setter i a) f Q X.
Proof.
  intros [H1 H2] Hi HQ. destruct (zlookup_range (fdt f) i) as [v Hv]; [lia|].
  eapply wp_fdt_set; [exact Hv|]. apply HQ. split; simpl; [by rewrite zlen_zinsert|done].
Qed.
Lemma wp_dir_set_room {A} (setter : A → file → file) i a f (Q : unit → fs_state → Prop) X :
  fs_room f → 0 ≤ i < 2 → (∀ f', fs_room f' → Q () f') → wp (dir_set setter i a) f Q X.
Proof.
  intros [H1 H2] Hi HQ. destruct (zlookup_range (dir f) i) as [v Hv]; [lia|].
  eapply wp_dir_set; [exact Hv|]. apply HQ. split; simpl; [done|by rewrite zlen_zinsert].
Qed.

Lemma wp_open_devices f (Q : unit → fs_state → Prop) X :
  fs_room f → (∀ f', Q () f') → wp open_devices f Q X.
Proof.
  intros Hf HQ. unfold open_devices.
  do 4 (apply wp_bind, wp_fdt_set_room; [done|done|]; clear dependent f; intros f Hf).
  apply wp_bind, wp_dir_set_room; [done|done|]; clear dependent f; intros f Hf.
  do 4 (apply wp_bind, wp_fdt_set_room; [done|done|]; clear dependent f; intros f Hf).
  apply wp_dir_set_room; [done|done|]. auto.
Qed.

(** Where the boot leaves the memory; the bytes are those of [r]. *)
Record laid_out (ta : Z) (r : gmap Z Z) (m : mm_state) : Prop := {
  lo_len : zlen (pagusr_table m) = TOTAL_PAGES;
  lo_kernel : kernel_mapped ta m;
  lo_user : user_mapped m;
  lo_ram : ram m = r;
}.

Lemma laid_out_table ta r m m' :
  pagusr_table m' = pagusr_table m → ram m' = ram m → laid_out ta r m → laid_out ta r m'.
Proof.
  intros Ht Hr [L K U R]. split; [by rewrite Ht| | |by rewrite Hr].
  - intros p Hp Hf. destruct (K p Hp Hf) as (e & He & ?). exists e. by rewrite Ht.
  - intros j Hj. destruct (U j Hj) as (e & He & ?). exists e. by rewrite Ht.
Qed.

(** One step of the initialisation of process 0, on [H : readying ...]. *)
Ltac ready_step H Hl :=
  ready H Hl; apply wp_bind; eapply readying_step;
    [exact H|solve [respects]|solve [respects]|solve [respects]
    |first [by eapply total_task_set|by eapply total_fd_set
           |apply wp_returns, wp_bind; eapply wp_aget; [eassumption|];
            first [by eapply wp_task_set|by apply wp_put]]|];
  match type of H with readying _ _ _ _ ?k => clear dependent k end;
  let k' := fresh "k" in intros _ k' H.

Lemma wp_task0_pid m f k (rest : K unit) (Q : unit → kstate → Prop) X :
  readying 0 no_pids m f k → (∀ k', readying 1 one_pid m f k' → wp rest k' Q X) →
  wp ((let! p := get PidCounter in put PidCounter (s32 (p + 1));; task_set t_pid 0 p);; rest) k Q X.
Proof.
  intros H HQ. ready H (eq_refl (zlen no_pids)). destruct H as (Hc & Em & Ef). apply wp_bind. eapply wp_mono;
    [apply (wp_wlp_and _ _ (λ _ k', fs k' = f) (λ _ k', cold 1 one_pid k' ∧ mm k' = m) X X)| |by intros ? []].
  - apply wp_bind, wp_get, wp_bind, wp_put. by eapply wp_task_set.
  - eapply wlp_cold_pid; [exact Hc|]. intros k' Hk' Em'. by rewrite Em', Em.
  - intros _ k' [Ef' [Hc' Em']]. by apply HQ.
Qed.

Lemma wp_task0_numbers pids m f k (rest : K unit) (Q : unit → kstate → Prop) X :
  zlen pids = NR_TASKS → readying 1 pids m f k → (∀ k', readying 1 pids m f k' → wp rest k' Q X) →
  wp (task_set t_quantum 0 60;;
      task_set t_cpu_tics 0 0;;
      (let! t := aget Task 0 in task_set t_remaining 0 (quantum t));;
      task_set t_transitions 0 1;;
      (let! t := aget Task 0 in put Left4current (quantum t));; rest) k Q X.
Proof. intros Hl H HQ. do 5 ready_step H Hl. by apply HQ. Qed.

Lemma wp_task0_devices pids m f k (rest : K unit) (Q : unit → kstate → Prop) X :
  zlen pids = NR_TASKS → readying 1 pids m f k → fs_room f →
  (∀ k' f', readying 1 pids m f' k' → wp rest k' Q X) →
  wp (zoom FS open_devices;; fd_set 0 0 (Some 0);; fd_set 0 1 (Some 1);; fd_set 0 2 (Some 1);; rest) k Q X.
Proof.
  intros Hl (Hc & Em & Ef) Hf HQ. apply wp_bind, wp_zoom. rewrite <-Ef in Hf. apply wp_open_devices; [exact Hf|].
  intros f'. assert (readying 1 pids m f' (update FS f' k)) as H.
  { split_and!; [|done|done]. eapply quiet_cold; [|exact Hc]. split; [done|]. intros Hs. split; apply Hs. }
  revert H. generalize (update FS f' k). intros k1 H. do 3 ready_step H Hl. by eapply HQ.
Qed.

(** The last step, that puts process 0 in the run queue, and the invariant of
    the queues. *)
Lemma wp_task0_queue m f k (Q : unit → kstate → Prop) X :
  readying 1 one_pid m f k → (∀ k', kinv k' → mm k' = m → fs k' = f → Q () k') →
  wp (zoom Lists (list_add (RunListP 0) RunqueueP)) k Q X.
Proof.
  intros (Hc & Em & Ef) HQ. apply wp_zoom. eapply wp_list_add_task; [apply (co_queues _ _ _ Hc)|done|done|
    intros; apply not_in_no_tasks|].
  intros h Hok. by apply HQ; [apply cold_task0| |].
Qed.

Lemma wp_init_task0 ta k (Q : unit → kstate → Prop) X :
  cold 0 no_pids k → free_from NUM_PAG_KERNEL (mm k) → zlen (pagusr_table (mm k)) = TOTAL_PAGES →
  kernel_mapped ta (mm k) → fs_room (fs k) →
  (∀ k', kinv k' → laid_out ta (ram (mm k)) (mm k') → Q () k') →
  wp init_task0 k Q X.
Proof.
  intros Hk Hf Hl Hker Hfs HQ. unfold init_task0.
  apply wp_bind, wp_zoom, wp_initialize_P0_frames; [done|]. intros m1 Ha1 Ht1 Hr1. simpl in Ht1, Hr1.
  apply wp_bind, wp_zoom. eapply (wp_set_user_pages ta); [simpl; by rewrite Ht1| |exact Ha1|].
  { intros p Hp Hp'. destruct (Hker p Hp Hp') as (e & He & ?). exists e. simpl. by rewrite Ht1. }
  intros m2 Hl2 Hk2 Hu2 Ha2 Hr2. apply wp_bind, wp_zoom, wp_put.
  set (m3 := set_stale ∅ m2). simpl in Hr2.
  assert (laid_out ta (ram (mm k)) m3) as Hlay.
  { split; [exact Hl2|exact Hk2|exact Hu2|]. simpl. by rewrite Hr2, Hr1. }
  assert (alloc_at 304 m3) as Ha3 by exact Ha2.
  match goal with |- wp _ ?s _ _ => change s with (set_mm m3 k) end.
  assert (readying 0 no_pids m3 (fs k) (set_mm m3 k)) as H3.
  { split_and!; [|done|done]. apply cold_shape_mm; [done|apply Ha2|exact Hl2]. }
  clearbody m3. clear m1 m2 Ha1 Ht1 Hr1 Hl2 Hk2 Hu2 Ha2 Hr2.
  assert (zlen one_pid = NR_TASKS) as Hlen by done.
  eapply wp_task0_pid; [exact H3|]. intros k4 H4. eapply wp_task0_numbers; [exact Hlen|exact H4|].
  intros k5 H5. apply wp_bind. eapply wp_task0_frames; [exact Hlen|exact H5|exact Ha3|].
  intros m6 k6 Ht6 Hr6 H6. pose proof (laid_out_table _ _ _ _ Ht6 Hr6 Hlay) as Hlay6.
  apply wp_bind_assoc, wp_bind. eapply wp_task0_arrays; [exact Hlen|exact H6|]. intros k7 H7.
  eapply wp_task0_devices; [exact Hlen|exact H7|exact Hfs|]. intros k8 f8 H8.
  eapply wp_task0_queue; [exact H8|]. intros k9 Hinv Em _. apply HQ; [exact Hinv|by rewrite Em].
Qed.

(** ** The rest of the kernel's initialisation. *)

Lemma wp_printc_total c s (Q : unit → io_state → Prop) X : (∀ s', Q () s') → wp (printc c) s Q X.
Proof.
  intros HQ. unfold printc. apply wp_bind. case_bool_decide.
  - by repeat wp_step.
  - repeat wp_step. case_bool_decide; repeat wp_step; [|apply HQ].
    case_bool_decide; repeat wp_step; apply HQ.
Qed.

Lemma wp_printk_total l s (Q : unit → io_state → Prop) X : (∀ s', Q () s') → wp (printk l) s Q X.
Proof.
  intros HQ. revert s. induction l as [|c l IH]; intros s; simpl; [by apply wp_ret|].
  case_bool_decide; [by apply wp_ret|]. apply wp_bind, wp_printc_total. exact IH.
Qed.

Lemma wp_init_sched k (Q : unit → kstate → Prop) X :
  pristine k → (∀ k', readying 0 no_pids (mm k) (fs k) k' → Q () k') → wp init_sched k Q X.
Proof.
  intros [Hl Hsem Hlen Hcur Hs] HQ. eapply wp_mono;
    [apply (wp_wlp_and _ _ (λ _ k', fs k' = fs k) (λ _ k', cold 0 no_pids k' ∧ mm k' = mm k) X X)| |by intros ? []].
  - unfold init_sched. apply wp_bind_assoc, wp_bind, wp_init_queues; [done|done|]. intros h Hok. repeat wp_step.
    apply (wp_for_range (λ _ k', zlen (task k') = NR_TASKS ∧ fs k' = fs k)); [done|done| |naive_solver].
    intros i k' Hi [Hl' Hf']. destruct (zlookup_range (task k') i) as [v Hv]; [lia|].
    eapply wp_task_set; [exact Hv|]. simpl. by rewrite zlen_zinsert.
  - eapply wlp_init_sched; [done..|]. by intros k' Hk' Em.
  - intros [] k' [Ef [Hc Em]]. by apply HQ.
Qed.

Lemma wp_init_keyboard n pids m f k (Q : unit → kstate → Prop) X :
  readying n pids m f k → (∀ k', readying n pids m f k' → Q () k') → wp init_keyboard k Q X.
Proof.
  intros Hk HQ. eapply readying_step; [exact Hk| | | | |intros []; exact HQ].
  - unfold init_keyboard. respects.
  - unfold init_keyboard. respects; by apply respects_put.
  - unfold init_keyboard. respects; by apply respects_put.
  - apply wp_returns. unfold init_keyboard. by repeat wp_step.
Qed.

Lemma wp_init_fs n pids m k (Q : unit → kstate → Prop) X :
  readying n pids m fs_bss k → (∀ k' f, fs_room f → readying n pids m f k' → Q () k') →
  wp (zoom FS init_filesystem) k Q X.
Proof.
  intros (Hc & Em & Ef) HQ. destruct fresh_fs_exists as [f Hf]. apply wp_zoom.
  change (view FS k) with (fs k). rewrite Ef. eapply wp_Ret; [exact (ff_init _ Hf)|].
  apply (HQ (update FS f k) f).
  - pose proof (ff_fdt _ Hf) as H1. pose proof (ff_refs _ Hf) as H2. split.
    + rewrite <-(zlen_fmap refs), H1. done.
    + rewrite <-(zlen_fmap n_refs), H2. done.
  - split_and!; [|done|done]. eapply quiet_cold; [|exact Hc]. split; [done|]. intros Hs. split; apply Hs.
Qed.

(** From [init_mm] to [init_task0], as [main] calls them. *)
Lemma wp_init_kernel ta tb c g i t k (rest : M machine unit) (Q : unit → machine → Prop) X :
  linked ta → pristine k → fs k = fs_bss → zlen (dir_pages (mm k)) = TOTAL_PAGES →
  (∀ k', kinv k' → laid_out ta (ram (mm k)) (mm k') → wp rest (MkMachine c g i t k') Q X) →
  wp (zoom Kernel (zoom MM (init_mm ta tb));; zoom Kernel init_sched;; zoom Kernel init_keyboard;;
      zoom Kernel (zoom FS init_filesystem);; zoom Kernel init_task0;; rest) (MkMachine c g i t k) Q X.
Proof.
  intros Hta Hp Hf Hd HQ. pose proof (pr_shape _ Hp) as Hs.
  apply wp_bind, wp_zoom, wp_zoom, wp_init_mm; [done|apply Hs|apply Hs|done|]. intros m1 L1 K1 F1 R1.
  assert (pristine (update MM m1 k)) as Hp1.
  { destruct Hp. split; try done. split; simpl; [apply F1|exact L1|apply Hs]. }
  apply wp_bind, wp_zoom, wp_init_sched; [exact Hp1|]. simpl. rewrite Hf. intros k2 H2.
  apply wp_bind, wp_zoom. eapply wp_init_keyboard; [exact H2|]. intros k3 H3.
  apply wp_bind, wp_zoom. eapply wp_init_fs; [exact H3|]. intros k4 f4 Hf4 (Hc & Em & Ef).
  apply wp_bind, wp_zoom. simpl. eapply (wp_init_task0 ta); rewrite ?Em, ?Ef; try done.
  intros k5 Hinv Hlay. apply HQ; [exact Hinv|]. simpl in R1. by rewrite <-R1.
Qed.
