(* ===== verification/StartProps.v ===== *)
(** * From the image [build] writes to the first instruction of the user program. *)
From stdpp Require Import functions.
From S2P Require Import Prelude KList Mm Utils Io Fs KState Sched.
From S2P Require Import Devices Interrupt Queues Quiet Boot Start StartFacts.
From S2P Require Import EntryProps Build BuildProps.

(** ** Addresses. *)

Lemma phys_kernel ta r m a :
  laid_out ta r m → 0 ≤ a < L_USER_START → task_free ta (a / PAGE_SIZE) → phys_of m a = Some a.
Proof.
  intros Hm Ha Hf. pose proof (Z.div_mod a PAGE_SIZE ltac:(done)) as E.
  pose proof (Z.mod_pos_bound a PAGE_SIZE ltac:(done)) as Hr.
  rewrite E. rewrite (maps_phys m (a / PAGE_SIZE) (a / PAGE_SIZE)); [f_equal; lia| |done].
  apply (lo_kernel _ _ _ Hm); [|done]. unfold NUM_PAG_KERNEL, L_USER_START, PAGE_SIZE in *. split.
  - apply Z.div_pos; lia.
  - apply Z.div_lt_upper_bound; lia.
Qed.

(** The physical address of byte [j] of the user region. *)
Definition user_phys (j : Z) : Z := user_frame (j / PAGE_SIZE) * PAGE_SIZE + j mod PAGE_SIZE.
Definition USER_SIZE : Z := (NUM_PAG_CODE + NUM_PAG_DATA) * PAGE_SIZE.

Lemma phys_user ta r m j :
  laid_out ta r m → 0 ≤ j < USER_SIZE → phys_of m (L_USER_START + j) = Some (user_phys j).
Proof.
  intros Hm Hj. pose proof (Z.div_mod j PAGE_SIZE ltac:(done)) as E.
  pose proof (Z.mod_pos_bound j PAGE_SIZE ltac:(done)) as Hr.
  replace (L_USER_START + j) with (PAGE_SIZE * (NUM_PAG_KERNEL + j / PAGE_SIZE) + j mod PAGE_SIZE)
    by (unfold L_USER_START, NUM_PAG_KERNEL, PAGE_SIZE in *; lia).
  apply maps_phys; [|done]. apply (lo_user _ _ _ Hm). unfold USER_SIZE, PAGE_SIZE, NUM_PAG_CODE, NUM_PAG_DATA in *.
  split; [apply Z.div_pos; lia|apply Z.div_lt_upper_bound; lia].
Qed.

Lemma user_phys_above j : 0 ≤ j → L_USER_START ≤ user_phys j.
Proof.
  intros Hj. pose proof (Z.mod_pos_bound j PAGE_SIZE ltac:(done)). pose proof (Z.div_pos j PAGE_SIZE Hj ltac:(done)).
  unfold user_phys, user_frame, L_USER_START, NUM_PAG_KERNEL, NUM_PAG_CODE, PAGE_SIZE in *. case_bool_decide; lia.
Qed.

Lemma user_phys_inj i j : 0 ≤ i → 0 ≤ j → user_phys i = user_phys j → i = j.
Proof.
  intros Hi Hj. pose proof (Z.mod_pos_bound j PAGE_SIZE ltac:(done)). pose proof (Z.div_pos j PAGE_SIZE Hj ltac:(done)).
  pose proof (Z.mod_pos_bound i PAGE_SIZE ltac:(done)). pose proof (Z.div_pos i PAGE_SIZE Hi ltac:(done)).
  pose proof (Z.div_mod i PAGE_SIZE ltac:(done)). pose proof (Z.div_mod j PAGE_SIZE ltac:(done)).
  unfold user_phys, user_frame, NUM_PAG_KERNEL, NUM_PAG_CODE, PAGE_SIZE in *. do 2 case_bool_decide; lia.
Qed.

(** Pages away from the task structures, below their first page or beyond the last. *)
Lemma task_free_below ta a : linked ta → 0 ≤ a → a + PAGE_SIZE ≤ ta → task_free ta (a / PAGE_SIZE).
Proof.
  intros Hta Ha Hlt i Hi. destruct (task_page_range ta i Hta Hi) as [-> _].
  assert (a / PAGE_SIZE < (ta + SIZEOF_PROTECTED_TASK * i) / PAGE_SIZE); [|lia].
  apply Z.div_lt_upper_bound; [done|]. pose proof (Z.div_mod (ta + SIZEOF_PROTECTED_TASK * i) PAGE_SIZE ltac:(done)).
  pose proof (Z.mod_pos_bound (ta + SIZEOF_PROTECTED_TASK * i) PAGE_SIZE ltac:(done)).
  unfold SIZEOF_PROTECTED_TASK, PAGE_SIZE in *. lia.
Qed.

Lemma task_free_above ta a : linked ta → ta + SIZEOF_PROTECTED_TASK * NR_TASKS ≤ a → task_free ta (a / PAGE_SIZE).
Proof.
  intros Hta Hle i Hi. destruct (task_page_range ta i Hta Hi) as [-> _].
  assert ((ta + SIZEOF_PROTECTED_TASK * i) / PAGE_SIZE < a / PAGE_SIZE); [|lia].
  apply Z.div_lt_upper_bound; [done|]. pose proof (Z.div_mod a PAGE_SIZE ltac:(done)).
  pose proof (Z.mod_pos_bound a PAGE_SIZE ltac:(done)).
  unfold SIZEOF_PROTECTED_TASK, PAGE_SIZE, NR_TASKS in *. lia.
Qed.

(** ** Words of memory. *)

Lemma wp_load_dword addr m b0 b1 b2 b3 (Q : Z → mm_state → Prop) X :
  byte_at m addr = Some b0 → byte_at m (addr + 1) = Some b1 → byte_at m (addr + 2) = Some b2 →
  byte_at m (addr + 3) = Some b3 → Q (b0 + 256 * b1 + 65536 * b2 + 16777216 * b3) m →
  wp (load_dword addr) m Q X.
Proof.
  intros H0 H1 H2 H3 HQ. unfold load_dword.
  apply wp_bind. eapply wp_load_byte; [exact H0|]. apply wp_bind. eapply wp_load_byte; [exact H1|].
  apply wp_bind. eapply wp_load_byte; [exact H2|]. apply wp_bind. eapply wp_load_byte; [exact H3|]. by apply wp_ret.
Qed.

(** The user region but for the [n] bytes from offset [p] on. *)
Lemma wp_store_dword ta r m p v (Q : unit → mm_state → Prop) X :
  laid_out ta r m → 0 ≤ p → p + 4 ≤ USER_SIZE →
  (∀ r', laid_out ta r' (set_ram r' m) → (∀ j, 0 ≤ j < p → r' !! user_phys j = r !! user_phys j) → Q () (set_ram r' m)) →
  wp (store_dword (L_USER_START + p) v) m Q X.
Proof.
  intros Hm Hp Hle HQ. unfold store_dword.
  apply (wp_for_range (λ i m', ∃ r', m' = set_ram r' m ∧ ∀ j, 0 ≤ j < p → r' !! user_phys j = r !! user_phys j)).
  - done.
  - exists r. split; [|done]. rewrite <-(lo_ram _ _ _ Hm). by destruct m.
  - intros i m' Hi (r' & -> & Hr'). eapply wp_store_byte.
    { rewrite phys_of_set_ram. replace (L_USER_START + p + i) with (L_USER_START + (p + i)) by lia.
      eapply phys_user; [exact Hm|lia]. }
    eexists. split; [done|]. intros j Hj. simpl. rewrite lookup_insert_ne; [by apply Hr'|].
    intros E%user_phys_inj; lia.
  - intros m' (r' & -> & Hr'). apply HQ; [|done]. destruct Hm. by split.
Qed.

(** ** The image in memory. *)

(** [bootsect.S] loads what follows the boot sector at [KERNEL_START]. *)
Definition boot_loads (out : list Z) (r : gmap Z Z) : gmap Z Z := map_seqZ KERNEL_START (drop 512 out) ∪ r.

Lemma boot_loads_lookup out r j b :
  0 ≤ j → zlookup out (512 + j) = Some b → boot_loads out r !! (KERNEL_START + j) = Some b.
Proof.
  intros Hj Hb. unfold boot_loads. apply lookup_union_Some_l, lookup_map_seqZ_Some. split; [lia|].
  rewrite lookup_drop. unfold zlookup in Hb. rewrite decide_True in Hb by lia. rewrite <-Hb. f_equal. lia.
Qed.

(** What [main] finds: the sizes of the system and of the user program, and the
    program after the system, with the task structures inside the system. *)
Record image_at (ta sys : Z) (user : list Z) (r : gmap Z Z) : Prop := {
  im_task : KERNEL_START + PAGE_SIZE ≤ ta ∧ ta + SIZEOF_PROTECTED_TASK * NR_TASKS ≤ KERNEL_START + sys;
  im_fits : KERNEL_START + sys + zlen user ≤ L_USER_START;
  im_user_fits : zlen user ≤ USER_SIZE - 4;
  im_sys : ∃ b0 b1 b2 b3, sys = b0 + 256 * b1 + 65536 * b2 + 16777216 * b3 ∧
    r !! KERNEL_START = Some b0 ∧ r !! (KERNEL_START + 1) = Some b1 ∧
    r !! (KERNEL_START + 2) = Some b2 ∧ r !! (KERNEL_START + 3) = Some b3;
  im_usr : ∃ b0 b1 b2 b3, zlen user = b0 + 256 * b1 + 65536 * b2 + 16777216 * b3 ∧
    r !! (KERNEL_START + 4) = Some b0 ∧ r !! (KERNEL_START + 5) = Some b1 ∧
    r !! (KERNEL_START + 6) = Some b2 ∧ r !! (KERNEL_START + 7) = Some b3;
  im_user : ∀ j b, zlookup user j = Some b → r !! (KERNEL_START + sys + j) = Some b;
}.

Lemma image_linked ta sys user r : image_at ta sys user r → linked ta.
Proof.
  intros [[H1 H2] H3 _ _ _ _]. unfold linked, KERNEL_START, PAGE_SIZE in *.
  assert (0 ≤ zlen user) by (unfold zlen; lia). lia.
Qed.

Lemma byte_kernel ta r m a : laid_out ta r m → linked ta → 0 ≤ a < L_USER_START → task_free ta (a / PAGE_SIZE) →
  byte_at m a = Some (default 0 (r !! a)).
Proof.
  intros Hm Hta Ha Hf. unfold byte_at. rewrite (phys_kernel ta r) by done. simpl. unfold ram_byte.
  by rewrite (lo_ram _ _ _ Hm).
Qed.

(** A byte of the first page of the system. *)
Lemma byte_head ta r m i :
  linked ta → KERNEL_START + PAGE_SIZE ≤ ta → laid_out ta r m → 0 ≤ i < PAGE_SIZE →
  byte_at m (KERNEL_START + i) = Some (default 0 (r !! (KERNEL_START + i))).
Proof.
  intros Hta Ht Hm Hi. apply (byte_kernel ta r); try done; [unfold KERNEL_START, L_USER_START, PAGE_SIZE in *; lia|].
  replace ((KERNEL_START + i) / PAGE_SIZE) with (KERNEL_START / PAGE_SIZE).
  - by apply task_free_below.
  - change KERNEL_START with (16 * PAGE_SIZE). rewrite Z.div_mul, Z.add_comm, Z.div_add by done.
    by rewrite Z.div_small.
Qed.

(** ** The copy of the user program. *)

Lemma wp_copy_user ta sys user k r (Q : unit → kstate → Prop) X :
  image_at ta sys user r → laid_out ta r (mm k) →
  (∀ r', laid_out ta r' (mm (set_mm (set_ram r' (mm k)) k)) →
     (∀ j b, zlookup user j = Some b → default 0 (r' !! user_phys j) = b) →
     Q () (set_mm (set_ram r' (mm k)) k)) →
  wp copy_user k Q X.
Proof.
  intros Him Hm HQ. pose proof (image_linked _ _ _ _ Him) as Hta. pose proof Him as [[Ht1 Ht2] Hfit Hufit Hsys Husr Hu].
  assert (0 ≤ zlen user) as Hz by (unfold zlen; lia).
  destruct Hsys as (b0 & b1 & b2 & b3 & Esys & S0 & S1 & S2 & S3).
  destruct Husr as (c0 & c1 & c2 & c3 & Eusr & U0 & U1 & U2 & U3).
  assert (∀ i b, 0 ≤ i < 16 → r !! (KERNEL_START + i) = Some b → byte_at (mm k) (KERNEL_START + i) = Some b) as Hhead.
  { intros i b Hi Hb. rewrite (byte_head ta r), Hb; try done. unfold PAGE_SIZE. lia. }
  unfold copy_user. apply wp_bind, wp_zoom. eapply wp_load_dword;
    [exact (Hhead 0 b0 ltac:(lia) S0)|exact (Hhead 1 b1 ltac:(lia) S1)|exact (Hhead 2 b2 ltac:(lia) S2)|
     exact (Hhead 3 b3 ltac:(lia) S3)|]. rewrite <-Esys.
  apply wp_bind, wp_zoom. eapply wp_load_dword;
    [exact (Hhead 4 c0 ltac:(lia) U0)|exact (Hhead 5 c1 ltac:(lia) U1)|exact (Hhead 6 c2 ltac:(lia) U2)|
     exact (Hhead 7 c3 ltac:(lia) U3)|]. rewrite <-Eusr.
  unfold KERNEL_START, L_USER_START, SIZEOF_PROTECTED_TASK, NR_TASKS, PAGE_SIZE in Ht1, Ht2, Hfit.
  rewrite u32_small by (unfold KERNEL_START; lia). rewrite s32_small by (unfold INT_MIN, INT_MAX; lia).
  apply wp_zoom. simpl.
  apply (wp_copy_memory _ _ _ _ (λ i, KERNEL_START + sys + i) user_phys).
  - done.
  - intros i Hi. eapply phys_kernel; [exact Hm|unfold KERNEL_START, L_USER_START; lia|].
    apply task_free_above; [done|]. unfold KERNEL_START, SIZEOF_PROTECTED_TASK, NR_TASKS. lia.
  - intros i Hi. eapply phys_user; [exact Hm|]. lia.
  - intros i j Hi Hj. pose proof (user_phys_above j). unfold L_USER_START, KERNEL_START in *. lia.
  - intros i j Hi Hj. apply user_phys_inj; lia.
  - intros r' Hc Hother. apply HQ.
    + destruct Hm. by split.
    + intros j b Hj. pose proof (zlookup_Some_range _ _ _ Hj) as Hr. pose proof (Hc j Hr) as E.
      unfold ram_byte in E. simpl in E. rewrite E, (lo_ram _ _ _ Hm). by rewrite (Hu j b Hj).
Qed.

Lemma wp_unbind {S A B} (m : M S A) (k : A → M S B) s Q X :
  wp (bind m k) s Q X → wp m s (λ a s', wp (k a) s' Q X) X.
Proof. unfold wp, bind. by destruct (m s). Qed.

(** ** The tables and the registers. *)

Definition descriptor_base (d : Descriptor) : Z := lowBase d + 65536 * midBase d + 16777216 * highBase d.

Lemma base_decodes a : 0 ≤ a < 2 ^ 32 → lowWord a + 65536 * midByte a + 16777216 * highByte a = a.
Proof.
  intros Ha. unfold lowWord, midByte, highByte, u16, u8, wrap_u.
  change 0xFFFF with (Z.ones 16). change 0xFF with (Z.ones 8).
  rewrite !Z.land_ones, !Z.mod_mod, !Z.shiftr_div_pow2 by lia.
  change (2 ^ 24) with (2 ^ 16 * 2 ^ 8). rewrite <-Z.div_div by lia.
  rewrite (Z.mod_small (a / 2 ^ 16 / 2 ^ 8)).
  - pose proof (Z.div_mod a (2 ^ 16)). pose proof (Z.div_mod (a / 2 ^ 16) (2 ^ 8)). lia.
  - split; [apply Z.div_pos; [apply Z.div_pos|]; lia|].
    apply Z.div_lt_upper_bound; [lia|]. apply Z.div_lt_upper_bound; lia.
Qed.

(** The table of descriptors with the task state segment, busy. *)
Definition final_gdt (tss_addr : Z) : list Descriptor :=
  take 6 bootsect_gdt ++ [MkDescriptor 104 (lowWord tss_addr) (midByte tss_addr) 0x8b 0 (highByte tss_addr)].

Lemma final_gdt_dpl a : dpl (final_gdt a) USER_DS = 3 ∧ dpl (final_gdt a) KERNEL_DS = 0.
Proof. done. Qed.

(** The processor runs the first instruction of the user program, with the
    privileges of a user, the interrupts enabled and the tables of the kernel. *)
Record in_user_mode (idt_addr tss_addr clock keyboard syscall : Z) (m : machine) : Prop := {
  um_code : c_cs (cpu m) = USER_CS ∧ c_eip (cpu m) = L_USER_START;
  um_stack : c_ss (cpu m) = USER_DS ∧ c_esp (cpu m) = USER_ESP;
  um_data : c_ds (cpu m) = USER_DS ∧ c_es (cpu m) = USER_DS ∧ c_fs (cpu m) = 0 ∧ c_gs (cpu m) = 0;
  um_int : Z.testbit (c_eflags (cpu m)) 9 = true ∧ pic_mask (cpu m) = 0xfc;
  um_gdtr : reg_base (c_gdtr (cpu m)) = GDT_START;
  um_tss : c_tr (cpu m) = KERNEL_TSS ∧
    ∃ d, zlookup (gdt m) (Z.shiftr KERNEL_TSS 3) = Some d ∧ descriptor_base d = tss_addr;
  um_idtr : c_idtr (cpu m) = MkRegister (8 * IDT_ENTRIES - 1) idt_addr;
  um_idt : zlookup (idt m) 32 = Some (gate clock 0) ∧ zlookup (idt m) 33 = Some (gate keyboard 0) ∧
    zlookup (idt m) 128 = Some (gate syscall 3);
  um_inv : kinv (kernel m);
}.

Lemma wp_return_gate ta r c a i t k (Q : unit → machine → Prop) X :
  linked ta → KERNEL_START + PAGE_SIZE ≤ ta → laid_out ta r (mm k) → c_fs c = KERNEL_DS → c_gs c = KERNEL_DS →
  (∀ r', laid_out ta r' (set_ram r' (mm k)) →
     (∀ j, 0 ≤ j < USER_SIZE - 4 → r' !! user_phys j = r !! user_phys j) →
     Q () (MkMachine (set_c_data USER_DS USER_DS 0 0 (set_c_stack USER_DS USER_ESP (set_c_code USER_CS L_USER_START c)))
       (final_gdt a) i t (set_mm (set_ram r' (mm k)) k))) →
  wp (return_gate USER_DS USER_DS USER_ESP USER_CS L_USER_START) (MkMachine c (final_gdt a) i t k) Q X.
Proof.
  intros Hta Ht Hm Hfs Hgs HQ. unfold return_gate. apply wp_bind, wp_modify, wp_bind, wp_bind, wp_zoom, wp_zoom. simpl.
  eapply wp_load_dword.
  { exact (byte_head ta r (mm k) 8 Hta Ht Hm ltac:(done)). }
  { exact (byte_head ta r (mm k) 9 Hta Ht Hm ltac:(done)). }
  { exact (byte_head ta r (mm k) 10 Hta Ht Hm ltac:(done)). }
  { exact (byte_head ta r (mm k) 11 Hta Ht Hm ltac:(done)). }
  apply wp_zoom, wp_zoom. change (u32 (USER_ESP + 12)) with (L_USER_START + (USER_SIZE - 4)). simpl.
  eapply wp_store_dword; [exact Hm|done|done|]. intros r' Hm' Hr'.
  do 2 apply wp_bind, wp_modify. apply wp_bind, wp_get, wp_modify. simpl.
  rewrite Hfs, Hgs. exact (HQ r' Hm' Hr').
Qed.

Lemma pristine_io v k : pristine k → pristine (set_io v k).
Proof. intros [? ? ? ? []]. by split; [..|split]. Qed.
Lemma pristine_esp0 v k : pristine k → pristine (set_sched (set_esp0 v (sched k)) k).
Proof. intros [? ? ? ? []]. by split; [..|split]. Qed.
Lemma kinv_io v k : kinv k → kinv (set_io v k).
Proof. apply quiet_kinv. split; [done|]. intros []. by split. Qed.
Lemma kinv_tics v k : kinv k → kinv (set_sched (set_tics v (sched k)) k).
Proof. apply quiet_kinv. split; [done|]. intros []. by split. Qed.
Lemma kinv_ram r k : kinv k → kinv (set_mm (set_ram r (mm k)) k).
Proof. apply quiet_kinv. split; [done|]. intros []. by split. Qed.

(** The kernel in memory, before its first instruction. *)
Record ready_to_start (ta : Z) (r : gmap Z Z) (k : kstate) : Prop := {
  rs_pristine : pristine k;
  rs_fs : fs k = fs_bss;
  rs_dir : zlen (dir_pages (mm k)) = TOTAL_PAGES;
  rs_ram : ram (mm k) = r;
  rs_task : task_addr (sched k) = ta;
}.

Section Main.
Context (handler : Z → Z) (clock keyboard syscall idt_addr tss_addr tb : Z).

Lemma wp_setIdt_reg c g i t k (Q : unit → machine → Prop) X :
  zlen i = IDT_ENTRIES →
  (∀ i', zlookup i' 32 = Some (gate clock 0) → zlookup i' 33 = Some (gate keyboard 0) →
     zlookup i' 128 = Some (gate syscall 3) →
     Q () (MkMachine (set_c_idtr (MkRegister (8 * IDT_ENTRIES - 1) idt_addr) c) g i' t k)) →
  wp (setIdt_reg handler clock keyboard syscall idt_addr) (MkMachine c g i t k) Q X.
Proof using.
  intros Hi HQ. unfold setIdt_reg. apply wp_bind, wp_zoom.
  eapply wp_mono; [by apply (wp_setIdt handler clock keyboard syscall)| |done].
  intros _ i' [_ Hd]. apply wp_modify. apply HQ; [exact (Hd 32)|exact (Hd 33)|exact (Hd 128)].
Qed.

(** The part of [main] before the kernel proper. *)
Lemma wp_setGdt c i t k (Q : unit → machine → Prop) X :
  (∀ g, g = take 6 bootsect_gdt ++ [MkDescriptor 104 (lowWord tss_addr) (midByte tss_addr) 0x89 0 (highByte tss_addr)] →
     Q () (MkMachine (set_c_gdtr (MkRegister 2048 GDT_START) c) g i t k)) →
  wp (setGdt tss_addr) (MkMachine c bootsect_gdt i t k) Q X.
Proof using.
  intros HQ. unfold setGdt. do 3 (apply wp_bind; eapply wp_amodify; [reflexivity|]). apply wp_modify. by apply HQ.
Qed.

Lemma wp_setTSS_all c g i t k (Q : unit → machine → Prop) X :
  g = take 6 bootsect_gdt ++ [MkDescriptor 104 (lowWord tss_addr) (midByte tss_addr) 0x89 0 (highByte tss_addr)] →
  (∀ t' e, Q () (MkMachine (set_c_tr KERNEL_TSS c) (final_gdt tss_addr) i t' (set_sched (set_esp0 e (sched k)) k))) →
  wp setTSS_all (MkMachine c g i t k) Q X.
Proof using.
  intros -> HQ. unfold setTSS_all, setTSS. apply wp_bind, wp_zoom, wp_modify, wp_bind, wp_put.
  unfold set_task_reg. apply wp_bind. eapply wp_amodify; [reflexivity|]. apply wp_modify. apply HQ.
Qed.

Lemma wp_seg_regs c g i t k (rest : M machine unit) (Q : unit → machine → Prop) X :
  (∀ c', c_fs c' = KERNEL_DS → c_gs c' = KERNEL_DS → wp rest (MkMachine c' g i t k) Q X) →
  wp (set_eflags;; (let! s := get Kernel in
        set_seg_regs KERNEL_DS KERNEL_DS (stack_end (task_addr (sched s)) 0));; rest) (MkMachine c g i t k) Q X.
Proof using.
  intros HQ. apply wp_bind, wp_modify, wp_bind, wp_bind, wp_get. unfold set_seg_regs.
  do 2 apply wp_bind, wp_modify. apply wp_modify. by apply HQ.
Qed.

Lemma wp_message l c g i t k (rest : M machine unit) (Q : unit → machine → Prop) X :
  (∀ io', wp rest (MkMachine c g i t (set_io io' k)) Q X) →
  wp (zoom Kernel (zoom IO (printk l));; rest) (MkMachine c g i t k) Q X.
Proof using. intros HQ. apply wp_bind, wp_zoom, wp_zoom, wp_printk_total. exact HQ. Qed.

(** The part of [main] after the kernel proper. *)
Lemma wp_enter ta sys user r c i t k (Q : unit → machine → Prop) X :
  image_at ta sys user r → kinv k → laid_out ta r (mm k) →
  c_fs c = KERNEL_DS → c_gs c = KERNEL_DS → c_tr c = KERNEL_TSS → reg_base (c_gdtr c) = GDT_START →
  c_idtr c = MkRegister (8 * IDT_ENTRIES - 1) idt_addr → 0 ≤ tss_addr < 2 ^ 32 →
  zlookup i 32 = Some (gate clock 0) ∧ zlookup i 33 = Some (gate keyboard 0) ∧ zlookup i 128 = Some (gate syscall 3) →
  (∀ m, in_user_mode idt_addr tss_addr clock keyboard syscall m →
     (∀ j, 0 ≤ j < zlen user → byte_at (mm (kernel m)) (L_USER_START + j) = zlookup user j) → Q () m) →
  wp (zoom Kernel copy_user;; zoom Kernel iniTics;; enable_int;;
      zoom Kernel (zoom IO (printk (chars "Entering user mode..." ++ newline)));;
      return_gate USER_DS USER_DS USER_ESP USER_CS L_USER_START) (MkMachine c (final_gdt tss_addr) i t k) Q X.
Proof using.
  intros Him Hinv Hlay Hfs Hgs Htr Hgd Hid Htss Hidt HQ. pose proof (image_linked _ _ _ _ Him) as Hlink.
  apply wp_bind, wp_zoom. eapply wp_copy_user; [exact Him|exact Hlay|]. intros r1 Hlay1 Huser.
  apply wp_bind, wp_zoom, wp_put, wp_bind. unfold enable_int, delay.
  apply wp_bind, wp_modify, wp_bind, wp_ret, wp_modify.
  pose (k2 := set_sched (set_tics (-1) (sched k)) (set_mm (set_ram r1 (mm k)) k)).
  pose (c2 := set_c_eflags (Z.lor (c_eflags c) 0x200) (set_pic_mask 0xfc c)).
  match goal with |- wp _ ?s _ _ => change s with (MkMachine c2 (final_gdt tss_addr) i t k2) end.
  apply wp_message. intros io'. eapply (wp_return_gate ta r1); [done|apply Him|exact Hlay1|done|done|].
  intros r2 Hlay2 Hkeep. apply HQ.
  - split; simpl; try done.
    + split; [|done]. change (Z.testbit (Z.lor (c_eflags c) 0x200) 9 = true). rewrite Z.lor_spec. apply orb_true_r.
    + split; [done|]. eexists. split; [reflexivity|]. by apply base_decodes.
    + apply (kinv_ram r2 (set_io io' k2)), kinv_io, (kinv_tics (-1) (set_mm (set_ram r1 (mm k)) k)). by apply kinv_ram.
  - intros j Hj. pose proof (im_user_fits _ _ _ _ Him) as Hfit.
    unfold byte_at. simpl. rewrite (phys_user ta r2) by (exact Hlay2 || lia). simpl. unfold ram_byte. simpl.
    rewrite Hkeep by lia. destruct (zlookup_range user j Hj) as [b Hb]. by rewrite (Huser j b Hb).
Qed.

Lemma wp_main ta sys user r c i t k (Q : unit → machine → Prop) X :
  image_at ta sys user r → ready_to_start ta r k → zlen i = IDT_ENTRIES → 0 ≤ tss_addr < 2 ^ 32 →
  (∀ m, in_user_mode idt_addr tss_addr clock keyboard syscall m →
     (∀ j, 0 ≤ j < zlen user → byte_at (mm (kernel m)) (L_USER_START + j) = zlookup user j) → Q () m) →
  wp (main handler clock keyboard syscall idt_addr tss_addr tb) (MkMachine c bootsect_gdt i t k) Q X.
Proof using.
  intros Him [Hp Hf Hd Hr Hta] Hi Htss HQ. pose proof (image_linked _ _ _ _ Him) as Hlink.
  unfold main. apply wp_seg_regs. intros c1 Hfs Hgs. apply wp_message. intros io1.
  apply wp_bind, wp_setGdt. intros g Hg. apply wp_bind, wp_setIdt_reg; [exact Hi|]. intros i' I1 I2 I3.
  apply wp_bind, wp_setTSS_all; [exact Hg|]. intros t' e. apply wp_bind, wp_bind, wp_get, wp_unbind.
  match goal with |- context [task_addr ?x] => change (task_addr x) with (task_addr (sched k)); rewrite Hta end.
  eapply (wp_init_kernel ta); [exact Hlink| |exact Hf|exact Hd|].
  { by apply pristine_esp0, pristine_io. }
  intros k' Hinv Hlay. eapply wp_enter; try done. simpl in Hlay. by rewrite Hr in Hlay.
Qed.
End Main.

(** ** From the image to user mode. *)

(** The machine when the boot sector jumps to [main]: the image is loaded, the
    static storage of the kernel is zero, the registers are arbitrary. *)
Definition loaded_machine (c : cpu_state) (ta : Z) (r : gmap Z Z) : machine :=
  MkMachine c bootsect_gdt (replicate (Z.to_nat IDT_ENTRIES) (MkGate 0 0 0 0)) tss_bss
    (set_mm (set_ram r mm_bss) (kstate_bss ta)).

Lemma loaded_ready ta r : ready_to_start ta r (set_mm (set_ram r mm_bss) (kstate_bss ta)).
Proof.
  destruct (kstate_bss_pristine ta) as [? ? ? ? []]. split; try done.
Qed.

(** The four bytes of the word [i] of the loaded image. *)
Lemma loaded_word out r i v : 0 ≤ i → 516 + 4 * i ≤ zlen out → word_at out (128 + i) = v →
  let w := boot_loads out r in
  ∃ b0 b1 b2 b3, v = b0 + 256 * b1 + 65536 * b2 + 16777216 * b3 ∧
    w !! (KERNEL_START + 4 * i) = Some b0 ∧ w !! (KERNEL_START + (4 * i + 1)) = Some b1 ∧
    w !! (KERNEL_START + (4 * i + 2)) = Some b2 ∧ w !! (KERNEL_START + (4 * i + 3)) = Some b3.
Proof.
  intros Hi Hle <-. cbv zeta. unfold word_at.
  destruct (zlookup_range out (512 + 4 * i)) as [b0 E0]; [lia|].
  destruct (zlookup_range out (512 + (4 * i + 1))) as [b1 E1]; [lia|].
  destruct (zlookup_range out (512 + (4 * i + 2))) as [b2 E2]; [lia|].
  destruct (zlookup_range out (512 + (4 * i + 3))) as [b3 E3]; [lia|].
  exists b0, b1, b2, b3.
  replace (4 * (128 + i) + 0) with (512 + 4 * i) by lia.
  replace (4 * (128 + i) + 1) with (512 + (4 * i + 1)) by lia.
  replace (4 * (128 + i) + 2) with (512 + (4 * i + 2)) by lia.
  replace (4 * (128 + i) + 3) with (512 + (4 * i + 3)) by lia.
  rewrite E0, E1, E2, E3. split; [done|]. split_and!; apply boot_loads_lookup; (done || lia).
Qed.

Lemma image_loaded ta s system user r :
  zlen s = 512 → KERNEL_START + PAGE_SIZE ≤ ta →
  ta + SIZEOF_PROTECTED_TASK * NR_TASKS ≤ KERNEL_START + zlen system →
  KERNEL_START + zlen system + zlen user ≤ L_USER_START → zlen user ≤ USER_SIZE - 4 →
  image_at ta (zlen system) user (boot_loads (image s system user) r).
Proof.
  intros Hs Ht1 Ht2 Hfit Hufit. pose proof (Zle_0_nat (length user)) as Hu.
  assert (12 ≤ zlen system ∧ zlen system < 2 ^ 24 ∧ zlen user < 2 ^ 24) as (Hsys & Hsys' & Husr).
  { unfold zlen, KERNEL_START, PAGE_SIZE, SIZEOF_PROTECTED_TASK, NR_TASKS, L_USER_START in *. lia. }
  destruct (image_lookup s system user Hs Hsys) as [HL HI].
  destruct (image_numbers s system user Hs Hsys Hsys' Husr) as (W1 & W2 & _).
  split; [done|done|done| | |].
  - apply (loaded_word (image s system user) r 0); [done|unfold zlen in *; lia|exact W1].
  - apply (loaded_word (image s system user) r 1); [done|unfold zlen in *; lia|exact W2].
  - intros j b Hj. pose proof (zlookup_Some_range _ _ _ Hj) as Hr.
    rewrite <-Z.add_assoc. apply boot_loads_lookup; [lia|].
    assert (zlen (sector s) = 512) as Hsec by (unfold sector; by rewrite !zlen_zinsert).
    rewrite HI, !bool_decide_false, zlookup_app3, !bool_decide_false by lia. rewrite <-Hj. f_equal. lia.
Qed.

(** C30: The image [build] writes boots: loaded at [KERNEL_START], on a machine
    with any registers and any other memory, [main] always arrives at the first
    instruction of the user program, in user mode, with interrupts enabled,
    interrupt and segment tables in place and the queues of the kernel well
    formed; and the user program is in memory, byte for byte, where it was linked
    to run, behind the pages of process 0.  The system has to contain the task
    structures, beyond its first page; system and user program have to fit below
    the user region, and the program in it. *)
Theorem image_boots h s system user c ta r tb idt_addr tss_addr handler clock keyboard syscall :
  boot_file h s → KERNEL_START + PAGE_SIZE ≤ ta →
  ta + SIZEOF_PROTECTED_TASK * NR_TASKS ≤ KERNEL_START + zlen system →
  KERNEL_START + zlen system + zlen user ≤ L_USER_START → zlen user ≤ USER_SIZE - 4 →
  0 ≤ tss_addr < 2 ^ 32 →
  returns (build good_host 4 (Some (h ++ s)) (Some system) (Some user)) build_bss (λ _ st,
    returns (main handler clock keyboard syscall idt_addr tss_addr tb)
      (loaded_machine c ta (boot_loads (output st) r)) (λ _ m,
        in_user_mode idt_addr tss_addr clock keyboard syscall m ∧
        ∀ j, 0 ≤ j < zlen user → byte_at (mm (kernel m)) (L_USER_START + j) = zlookup user j)).
Proof.
  intros Hb Ht1 Ht2 Hfit Hufit Htss. apply wp_returns. eapply wp_build; [done| |].
  { unfold KERNEL_START, L_USER_START in *. lia. }
  intros st ->. apply wp_returns. eapply (wp_main _ _ _ _ _ _ _ ta); [by apply image_loaded; [apply Hb|..]
    |apply loaded_ready|done|exact Htss|]. by split.
Qed.

(** A kernel of 90000 bytes, its task structures from the second page on, and a
    program of three bytes. *)
Definition demo_cpu : cpu_state := MkCpu 0 (MkRegister 0 0) (MkRegister 0 0) 0 0 0 0 0 0 0 0 0 0 0.
Definition demo_system : list Z := replicate (Z.to_nat 90000) 0.

Lemma image_boots_witness :
  returns (build good_host 4 (Some (demo_header ++ demo_sector)) (Some demo_system) (Some [65; 66; 67])) build_bss (λ _ st,
    returns (main (λ v, 0x12000 + v) 0x13000 0x13100 0x13200 0x14000 0x15000 0x16000)
      (loaded_machine demo_cpu 0x11000 (boot_loads (output st) ∅)) (λ _ m,
        in_user_mode 0x14000 0x15000 0x13000 0x13100 0x13200 m ∧
        ∀ j, 0 ≤ j < zlen [65; 66; 67] → byte_at (mm (kernel m)) (L_USER_START + j) = zlookup [65; 66; 67] j)).
Proof.
  assert (zlen demo_system = 90000) as Hl by (unfold zlen, demo_system; rewrite length_replicate; lia).
  apply image_boots.
  - split; [reflexivity|reflexivity| |reflexivity|split; reflexivity]. repeat constructor.
  - unfold KERNEL_START, PAGE_SIZE. lia.
  - rewrite Hl. unfold KERNEL_START, SIZEOF_PROTECTED_TASK, NR_TASKS. lia.
  - rewrite Hl. unfold KERNEL_START, L_USER_START, zlen. simpl. lia.
  - unfold zlen, USER_SIZE, NUM_PAG_CODE, NUM_PAG_DATA, PAGE_SIZE. simpl. lia.
  - lia.
Defined.
