(* ===== verification/Framed.v ===== *)
(** * Invariants that look at the frames, the open files and the descriptors
    only: every routine that leaves these alone keeps them. *)
From stdpp Require Import functions.
From S2P Require Import Prelude KList Mm Utils Io Fs KState Sched.
From S2P Require Import Sem Devices Sys Interrupt Queues Quiet KernelInv Boot Kernel.

(** ** The file system: an open file that names a file goes on doing so. *)

Record fs_typed (s : fs_state) : Prop := {
  ft_fdt : zlen (fdt s) = MAX_OPEN_FILES;
  ft_dir : zlen (dir s) = MAX_FILES;
  ft_dev : ∀ o v d, zlookup (fdt s) o = Some v → logic_dev v = Some d → 0 ≤ d < MAX_FILES;
}.

Definition names_file (s : fs_state) (o : Z) : Prop :=
  ∃ v d, zlookup (fdt s) o = Some v ∧ logic_dev v = Some d.

Definition grows (s s' : fs_state) : Prop :=
  fs_typed s → fs_typed s' ∧ ∀ o, names_file s o → names_file s' o.
#[export] Instance grows_preorder : PreOrder grows.
Proof.
  split; [by intros s|]. intros s1 s2 s3 H12 H23 H1. destruct (H12 H1) as [H2 N2].
  destruct (H23 H2) as [H3 N3]. auto.
Qed.

(** Changes that do not touch the table of open files. *)
Lemma grows_other s s' : fdt s' = fdt s → zlen (dir s') = zlen (dir s) → grows s s'.
Proof.
  intros Ef Ed [Hf Hd Hv]. unfold names_file. rewrite Ef.
  split; [split; by rewrite ?Ef, ?Ed|done].
Qed.

Lemma grows_fdt s o v v' :
  zlookup (fdt s) o = Some v → (∀ d, logic_dev v = Some d → is_Some (logic_dev v')) →
  (∀ d, logic_dev v' = Some d → logic_dev v = Some d ∨ 0 ≤ d < MAX_FILES) →
  grows s (set_fdt (zinsert o v' (fdt s)) s).
Proof.
  intros Ho Hdef Hrange [Hf Hd Hv]. pose proof (zlookup_Some_range _ _ _ Ho). split; [split; simpl|].
  - by rewrite zlen_zinsert.
  - done.
  - intros o' w d. rewrite zlookup_zinsert by done. case_decide; [|by apply Hv].
    intros [= <-] [E|]%Hrange; [by eapply Hv|done].
  - intros o' (w & d & Hw & Hdw). unfold names_file. simpl. setoid_rewrite zlookup_zinsert; [|done].
    case_decide; [subst|by eauto]. simplify_eq. destruct (Hdef _ Hdw) as [d' ?]. eauto.
Qed.

Definition keeps_dev {A} (setter : A → virtual → virtual) : Prop :=
  ∀ a v, logic_dev (setter a v) = logic_dev v.

Lemma grows_fdt_set {A} (setter : A → virtual → virtual) i a :
  keeps_dev setter → respects grows (fdt_set setter i a).
Proof.
  intros Hk. apply respects_amodify. intros s v Hv. eapply grows_fdt; [exact Hv|..]; intros d; rewrite Hk; eauto.
Qed.
Lemma grows_set_dev i d : 0 ≤ d < MAX_FILES → respects grows (fdt_set with_logic_dev i (Some d)).
Proof.
  intros Hd. apply respects_amodify. intros s v Hv. eapply grows_fdt; [exact Hv|..]; simpl; [done|].
  intros d' [= <-]. auto.
Qed.
Lemma grows_dir_set {A} (setter : A → file → file) i a : respects grows (dir_set setter i a).
Proof. apply respects_amodify. intros s f _. apply grows_other; simpl; by rewrite ?zlen_zinsert. Qed.
Lemma grows_op_set {A} (setter : A → file_operations → file_operations) i a :
  respects grows (op_set setter i a).
Proof. apply respects_amodify. intros s f _. apply grows_other; simpl; by rewrite ?zlen_zinsert. Qed.
Lemma grows_Fat_aset i a : respects grows (aset Fat i a).
Proof. apply respects_aset. intros s b _. by apply grows_other. Qed.
Lemma grows_Disk_aset i a : respects grows (aset Disk i a).
Proof. apply respects_aset. intros s b _. by apply grows_other. Qed.
Lemma grows_put_Ffb b : respects grows (put Ffb b).
Proof. apply respects_put. intros s. by apply grows_other. Qed.
Lemma keeps_dev_refs : keeps_dev with_refs. Proof. done. Qed.
Lemma keeps_dev_mode : keeps_dev with_access_mode. Proof. done. Qed.
Lemma keeps_dev_offset : keeps_dev with_offset. Proof. done. Qed.
#[export] Hint Resolve grows_fdt_set grows_dir_set grows_op_set grows_Fat_aset grows_Disk_aset
  grows_put_Ffb keeps_dev_refs keeps_dev_mode keeps_dev_offset : respects.

Lemma grows_name_set i j c : respects grows (name_set i j c).
Proof. unfold name_set. respects. Qed.
Lemma grows_disk_set b j c : respects grows (disk_set b j c).
Proof. unfold disk_set. respects. Qed.
Lemma grows_disk_get b j : respects grows (disk_get b j).
Proof. unfold disk_get. respects. Qed.
Lemma grows_balloc n : respects grows (balloc n).
Proof. unfold balloc. respects. Qed.
Lemma grows_chain_end b : respects grows (chain_end b).
Proof. unfold chain_end. respects. Qed.
Lemma grows_add_block b n : respects grows (add_block b n).
Proof. unfold add_block. respects. Qed.
Lemma grows_free_entry : respects grows free_entry.
Proof. unfold free_entry. respects. Qed.
#[export] Hint Resolve grows_name_set grows_disk_set grows_disk_get grows_balloc grows_chain_end
  grows_add_block grows_free_entry : respects.
Lemma grows_sys_release_file e : respects grows (sys_release_file e).
Proof. unfold sys_release_file, freeb. respects. Qed.
#[export] Hint Resolve grows_sys_release_file : respects.

(** ** The class of these invariants. *)

(** What a task is to them. *)
Definition task_core (v : task_struct) : Z * list Z * list (option Z) := (pid v, ph_pages v, file_descriptors v).
Definition core (k : kstate) : list Z * fs_state * list (Z * list Z * list (option Z)) :=
  (phys_mem (mm k), fs k, task_core <$> task k).

Definition close_fd (j : Z) (v : task_struct) : task_struct :=
  t_file_descriptors (zinsert j None (file_descriptors v)) v.

Class framed (I : kstate → Prop) : Prop := {
  fr_core : ∀ k k', core k' = core k → I k → I k';
  fr_files : ∀ k s, grows (fs k) s → I k → I (set_fs s k);
  fr_close : ∀ k i j v, zlookup (task k) i = Some v → I k → I (set_task (zinsert i (close_fd j v) (task k)) k);
}.

(** *** Memory traffic: neither the table of frames nor the entries of the data
    pages of the running process. *)

Definition data_pages (m : mm_state) : list (option Z) :=
  (λ j, zlookup (pagusr_table m) (PAG_LOG_INIT_DATA_P0 + j)) <$> seqZ 0 NUM_PAG_DATA.
Definition mm_core (m : mm_state) : list Z * list (option Z) := (phys_mem m, data_pages m).
(** Those and the pages whose translations may be out of date. *)
Definition mm_still (m : mm_state) : list Z * list (option Z) * gset Z := (mm_core m, stale m).

Class blind {T} (f : mm_state → T) : Prop := bl_ram : ∀ m X, f (set_ram X m) = f m.
#[export] Instance phys_blind : blind phys_mem. Proof. done. Qed.
#[export] Instance core_blind : blind mm_core. Proof. done. Qed.
#[export] Instance still_blind : blind mm_still. Proof. done. Qed.

Lemma phys_set_cr3 : respects (agree phys_mem) set_cr3.
Proof. by apply respects_put. Qed.
Lemma core_set_cr3 : respects (agree mm_core) set_cr3.
Proof. by apply respects_put. Qed.

Section Traffic.
Context {T : Type} (f : mm_state → T) `{!blind f}.

Lemma blind_load_byte a : respects (agree f) (load_byte a).
Proof using Type. unfold load_byte, translate. respects. Qed.
Lemma blind_store_byte a b : respects (agree f) (store_byte a b).
Proof using All.
  unfold store_byte, translate. respects. apply respects_modify. intros m. apply bl_ram.
Qed.
Lemma blind_access_ok l ty a n : respects (agree f) (access_ok l ty a n).
Proof using Type. unfold access_ok, translate. respects. Qed.
Lemma blind_copy_memory from to n :
  respects (agree f) (copy_data (λ k, load_byte (from + k)) (λ k, store_byte (to + k)) n).
Proof using All. apply respects_copy_data; [apply _|..]; intros; [apply blind_load_byte|apply blind_store_byte]. Qed.
End Traffic.
#[export] Hint Resolve phys_set_cr3 core_set_cr3 blind_load_byte blind_store_byte blind_access_ok blind_copy_memory : respects.
#[export] Hint Extern 0 (blind _) => apply _ : respects.

#[export] Hint Resolve agree_phys_set_entry : respects.
Lemma phys_set_ss_pag p f : respects (agree phys_mem) (set_ss_pag p f).
Proof. unfold set_ss_pag. respects. Qed.
Lemma phys_del_ss_pag p : respects (agree phys_mem) (del_ss_pag p).
Proof. unfold del_ss_pag. respects. Qed.

(** A page that is not a data page of the running process. *)
Definition elsewhere (p : Z) : Prop := ¬ (PAG_LOG_INIT_DATA_P0 ≤ p < PAG_LOG_INIT_DATA_P0 + NUM_PAG_DATA).
Lemma data_pages_entry m p e X :
  elsewhere p → data_pages (set_stale X (set_pagusr_table (zinsert p e (pagusr_table m)) m)) = data_pages m.
Proof.
  intros Hp. apply list_fmap_ext. intros i j Hj%list_elem_of_lookup_2%elem_of_seqZ. simpl.
  apply zlookup_zinsert_ne. unfold elsewhere in Hp. lia.
Qed.
Lemma core_set_entry p f : elsewhere p → respects (agree mm_core) (set_entry p f).
Proof.
  intros Hp. unfold set_entry. apply respects_bind; [apply _| |].
  - apply respects_amodify. intros m e He. unfold agree, mm_core. simpl. f_equal.
    apply (data_pages_entry m p _ (stale m) Hp).
  - intros _. by apply respects_modify.
Qed.
#[export] Hint Resolve core_set_entry : respects.
Lemma core_set_ss_pag p f : elsewhere p → respects (agree mm_core) (set_ss_pag p f).
Proof. intros Hp. unfold set_ss_pag. respects. Qed.
Lemma core_del_ss_pag p : elsewhere p → respects (agree mm_core) (del_ss_pag p).
Proof. intros Hp. unfold del_ss_pag. respects. Qed.
#[export] Hint Resolve phys_set_ss_pag phys_del_ss_pag core_set_ss_pag core_del_ss_pag : respects.
#[export] Hint Extern 1 (elsewhere _) => unfold elsewhere, PAG_LOG_INIT_DATA_P0, NUM_PAG_DATA in *; lia : respects.

(** Stores to a task outside the core. *)
Definition keeps {A T} (view : task_struct → T) (setter : A → task_struct → task_struct) : Prop :=
  ∀ a v, view (setter a v) = view v.

Lemma tasks_zinsert {T} (view : task_struct → T) l i v w :
  zlookup l i = Some v → view w = view v → view <$> zinsert i w l = view <$> l.
Proof. intros Hv E. rewrite zinsert_fmap, E. apply zinsert_id. by rewrite zlookup_fmap, Hv. Qed.

Section Framed.
Context (I : kstate → Prop) `{!framed I}.

Lemma framed_put {T} (l : lens kstate T) t : (∀ k t, core (update l t k) = core k) → preserves I (put l t).
Proof using All. intros H. apply preserves_put. intros k. by apply fr_core. Qed.
Lemma framed_modify {T} (l : lens kstate T) f : (∀ k t, core (update l t k) = core k) → preserves I (modify l f).
Proof using All. intros H. apply preserves_modify. intros k t. by apply fr_core. Qed.
Lemma framed_task_set {A} (setter : A → task_struct → task_struct) i a :
  keeps task_core setter → preserves I (task_set setter i a).
Proof using All.
  intros Hk. apply preserves_amodify. intros k v HI Hv. eapply fr_core; [|done].
  unfold core. simpl. by erewrite tasks_zinsert.
Qed.
Lemma framed_MM {A} (m : M mm_state A) : respects (agree phys_mem) m → preserves I (zoom MM m).
Proof using All.
  intros Hm. apply (preserves_respects _ (λ k k', core k' = core k)); [intros; by eapply fr_core|].
  eapply respects_zoom; [|exact Hm]. intros k m' E. unfold core. simpl. by rewrite E.
Qed.
End Framed.
#[export] Hint Resolve framed_task_set : preserves.
#[export] Hint Extern 0 (framed _) => solve [assumption | apply _] : preserves.
#[export] Hint Extern 2 (preserves _ (put _ _)) => apply framed_put; [solve [assumption | apply _]|intros [] ?; done] : preserves.
#[export] Hint Extern 2 (preserves _ (modify _ _)) => apply framed_modify; [solve [assumption | apply _]|intros [] ?; done] : preserves.
#[export] Hint Extern 4 (preserves _ (zoom MM _)) => apply framed_MM; [solve [assumption | apply _]|respects] : preserves.
#[export] Hint Extern 1 (keeps _ _) => intros ? ?; done : preserves.

Lemma framed_task_switch I `{!framed I} t : preserves I (task_switch t).
Proof. unfold task_switch, EOI. preserves. Qed.

(** Routines over the memory of the user. *)
Section Copy.
Context {S : Type} (I : S → Prop) (rd : Z → M S Z) (wr : Z → Z → M S unit).
Context (Hrd : ∀ i, preserves I (rd i)) (Hwr : ∀ i b, preserves I (wr i b)).

Lemma preserves_copy_data n : preserves I (copy_data rd wr n).
Proof using All. unfold copy_data, copy_dword. preserves; auto. Qed.
Lemma preserves_copy_from_user n : preserves I (copy_from_user rd wr n).
Proof using All. unfold copy_from_user. preserves; apply preserves_copy_data. Qed.
Lemma preserves_copy_to_user n : preserves I (copy_to_user rd wr n).
Proof using All. unfold copy_to_user. preserves; apply preserves_copy_data. Qed.
Lemma preserves_strlen : preserves I (strlen rd).
Proof using Hrd. unfold strlen. preserves; auto. Qed.
Lemma preserves_strcmp (rd2 : Z → M S Z) : (∀ i, preserves I (rd2 i)) → preserves I (strcmp rd rd2).
Proof using Hrd. intros Hrd2. unfold strcmp. preserves; auto. Qed.
End Copy.

(** Automatic arrays. *)
Definition under {S T} (I : S → Prop) (p : S * T) : Prop := I p.1.
Lemma preserves_with_local {S T A} (I : S → Prop) (l0 : T) (m : M (S * T) A) :
  preserves (under I) m → preserves I (with_local l0 m).
Proof.
  intros Hm s Hs. specialize (Hm (s, l0) Hs). unfold wlp, with_local in *. by destruct (m (s, l0)) as [? []|[]|[]| |].
Qed.
Lemma under_Global {S T A} (I : S → Prop) (m : M S A) : preserves I m → preserves (@under S T I) (zoom Global m).
Proof.
  intros Hm [s l] Hs. apply wlp_zoom. eapply wlp_mono; [by apply Hm|done|done].
Qed.
Lemma under_Local {S T A} (I : S → Prop) (m : M T A) : preserves (@under S T I) (zoom Local_ m).
Proof. by apply preserves_zoom. Qed.
Lemma under_Local_aset {S T} (I : S → Prop) i (c : T) : preserves (@under S (list T) I) (aset Local_ i c).
Proof. by apply preserves_aset. Qed.
#[export] Hint Resolve under_Local under_Local_aset : preserves.
#[export] Hint Extern 2 (preserves (under _) (zoom Global _)) => apply under_Global; preserves : preserves.
#[export] Hint Extern 2 (preserves _ (with_local _ _)) => apply preserves_with_local; preserves : preserves.
#[export] Hint Extern 2 (preserves _ (copy_data _ _ _)) => apply preserves_copy_data; intros; preserves : preserves.
#[export] Hint Extern 2 (preserves _ (copy_from_user _ _ _)) => apply preserves_copy_from_user; intros; preserves : preserves.
#[export] Hint Extern 2 (preserves _ (copy_to_user _ _ _)) => apply preserves_copy_to_user; intros; preserves : preserves.
#[export] Hint Extern 2 (preserves _ (strlen _)) => apply preserves_strlen; intros; preserves : preserves.
#[export] Hint Extern 2 (preserves _ (strcmp _ _)) => apply preserves_strcmp; intros; preserves : preserves.

(** The weaker class of those that look at the running process as well: its data
    pages, what is stale of the TLB, the rest of its slice and the quanta.  A
    context switch and the copy of the keyboard are theirs, the clock and
    [sys_nice] are not. *)
Definition task_time (v : task_struct) : Z * Z := (pid v, quantum v).
Definition running_core (k : kstate) :=
  (core k, (data_pages (mm k), stale (mm k)), cur (sched k), left4current (sched k), task_time <$> task k).

Class durable (I : kstate → Prop) : Prop := {
  dr_core : ∀ k k', running_core k' = running_core k → I k → I k';
  dr_files : ∀ k s, grows (fs k) s → I k → I (set_fs s k);
  dr_close : ∀ k i j v, zlookup (task k) i = Some v → I k → I (set_task (zinsert i (close_fd j v) (task k)) k);
  dr_slice : ∀ k i v, zlookup (task k) i = Some v → I k → I (update Left4current (quantum v) k);
  dr_over : ∀ k, I k → I (update Left4current 0 k);
  dr_switch : ∀ t, preserves I (task_switch t);
  dr_copy : ∀ t n, preserves I (copy_from_circ_buffer t n);
}.
Lemma framed_copy_from_circ_buffer I `{!framed I} t n : preserves I (copy_from_circ_buffer t n).
Proof. unfold copy_from_circ_buffer, map_after, current, ustore. preserves. Qed.
#[export] Instance framed_durable I : framed I → durable I.
Proof.
  intros H. split; [|apply H|apply H|..].
  - intros k k' E. apply fr_core. exact (f_equal (λ c, c.1.1.1.1) E).
  - intros k i v _. by apply fr_core.
  - intros k. by apply fr_core.
  - apply framed_task_switch, _.
  - apply framed_copy_from_circ_buffer, _.
Qed.
#[export] Hint Extern 0 (durable _) => solve [assumption | apply _] : preserves.
#[export] Hint Resolve dr_switch dr_copy : preserves.

Lemma durable_zoom I `{!durable I} {T A} (l : lens kstate T) (m : M T A) :
  (∀ k t, running_core (update l t k) = running_core k) → preserves I (zoom l m).
Proof. intros H. apply preserves_zoom. intros k t. by apply dr_core. Qed.
Lemma durable_put I `{!durable I} {T} (l : lens kstate T) t :
  (∀ k t, running_core (update l t k) = running_core k) → preserves I (put l t).
Proof. intros H. apply preserves_put. intros k. by apply dr_core. Qed.
Lemma durable_modify I `{!durable I} {T} (l : lens kstate T) f :
  (∀ k, running_core (update l (f (view l k)) k) = running_core k) → preserves I (modify l f).
Proof. intros H k Hk. apply wp_wlp, wp_modify, (dr_core k); [apply H|done]. Qed.
Lemma durable_Circular I `{!durable I} i c : preserves I (aset Circular i c).
Proof. apply preserves_aset. intros k t. by apply dr_core. Qed.
Lemma durable_sem_set I `{!durable I} {A} (setter : A → semaphore → semaphore) i a : preserves I (sem_set setter i a).
Proof. apply preserves_amodify. intros k s Hk _. by apply (dr_core k). Qed.
Lemma durable_slice I `{!durable I} i : preserves I (let! t := aget Task i in put Left4current (quantum t)).
Proof.
  intros k Hk. apply wlp_bind, wlp_aget. intros v Hv. apply wp_wlp, wp_put. by eapply dr_slice.
Qed.
Lemma durable_over I `{!durable I} : preserves I (put Left4current 0).
Proof. apply preserves_put. apply dr_over. Qed.
Lemma durable_FS I `{!durable I} {A} (m : M fs_state A) : respects grows m → preserves I (zoom FS m).
Proof.
  intros Hm. apply (preserves_respects _ (λ k k', ∃ s, k' = set_fs s k ∧ grows (fs k) s)).
  - intros k k' (s & -> & Hg). by apply dr_files.
  - eapply respects_zoom; [|exact Hm]. intros k f Hg. by exists f.
Qed.
Lemma durable_MM I `{!durable I} {A} (m : M mm_state A) : respects (agree mm_still) m → preserves I (zoom MM m).
Proof.
  intros Hm. apply (preserves_respects _ (λ k k', running_core k' = running_core k)); [intros; by eapply dr_core|].
  eapply respects_zoom; [|exact Hm]. intros k m' E. unfold running_core, core. simpl.
  rewrite (f_equal (λ c, c.1.1) E : phys_mem m' = _), (f_equal (λ c, c.1.2) E : data_pages m' = _).
  by rewrite (f_equal snd E : stale m' = _).
Qed.

Lemma durable_task_set I `{!durable I} {A} (setter : A → task_struct → task_struct) i a :
  keeps task_core setter → keeps task_time setter → preserves I (task_set setter i a).
Proof.
  intros Hc Ht. apply preserves_amodify. intros k v HI Hv. eapply dr_core; [|done].
  unfold running_core, core. simpl. by erewrite !tasks_zinsert.
Qed.
Lemma durable_owned_sems_set I `{!durable I} i j v : preserves I (owned_sems_set i j v).
Proof. unfold owned_sems_set. repeat preserves_step. by apply durable_task_set. Qed.

Lemma durable_fd_close I `{!durable I} i j : preserves I (fd_set i j None).
Proof.
  intros k Hk. apply wlp_bind, wlp_aget. intros v Hv. simpl in Hv.
  apply wlp_bind, wlp_of_option. intros _ _. apply wlp_amodify. intros v' Hv'. simpl in Hv'. simplify_eq.
  by apply dr_close.
Qed.

#[export] Hint Resolve durable_Circular durable_sem_set durable_slice durable_over durable_task_set durable_owned_sems_set
  durable_fd_close : preserves.
#[export] Hint Extern 3 (preserves _ (zoom FS _)) => apply durable_FS; [solve [assumption | apply _]|respects] : preserves.
#[export] Hint Extern 3 (preserves _ (zoom MM _)) => apply durable_MM; [solve [assumption | apply _]|respects] : preserves.
#[export] Hint Extern 4 (preserves _ (zoom _ _)) => apply durable_zoom; [solve [assumption | apply _]|intros [] ?; done] : preserves.
#[export] Hint Extern 1 (preserves _ (put _ _)) => apply durable_put; [solve [assumption | apply _]|intros [] ?; done] : preserves.
#[export] Hint Extern 1 (preserves _ (modify _ _)) => apply durable_modify; [solve [assumption | apply _]|intros []; done] : preserves.

Lemma durable_current I `{!durable I} : preserves I current.
Proof. apply preserves_get. Qed.
Lemma durable_cur_task I `{!durable I} : preserves I cur_task.
Proof. unfold cur_task, current. preserves. Qed.
Lemma durable_uload I `{!durable I} a : preserves I (uload a).
Proof. unfold uload. preserves. Qed.
Lemma durable_ustore I `{!durable I} a b : preserves I (ustore a b).
Proof. unfold ustore. preserves. Qed.
Lemma durable_access_ok I `{!durable I} ty a n : preserves I (access_ok_k ty a n).
Proof. unfold access_ok_k. preserves. Qed.
Lemma durable_to_task I `{!durable I} l : preserves I (list_head_to_task_struct l).
Proof. destruct l as [[]|]; apply preserves_ret || apply preserves_fault. Qed.
#[export] Hint Resolve durable_current durable_cur_task durable_uload durable_ustore durable_access_ok
  durable_to_task : preserves.

(** ** The routines. *)

Lemma durable_schedule I `{!durable I} b : preserves I (schedule b).
Proof. unfold schedule. preserves. Qed.
Lemma durable_EOI I `{!durable I} : preserves I EOI.
Proof. unfold EOI. preserves. Qed.
Lemma durable_SAVE_ALL I `{!durable I} eax : preserves I (SAVE_ALL eax).
Proof. unfold SAVE_ALL. preserves. Qed.
Lemma durable_sem_valid I `{!durable I} n : preserves I (sem_valid n).
Proof. unfold sem_valid. preserves. Qed.
Lemma durable_sem_wake I `{!durable I} n r : preserves I (sem_wake n r).
Proof. unfold sem_wake. preserves. Qed.
#[export] Hint Resolve durable_schedule durable_EOI durable_SAVE_ALL durable_sem_valid durable_sem_wake : preserves.
Lemma durable_sys_sem_init I `{!durable I} n v : preserves I (sys_sem_init n v).
Proof. unfold sys_sem_init. preserves. Qed.
Lemma durable_sys_sem_wait I `{!durable I} n : preserves I (sys_sem_wait n).
Proof. unfold sys_sem_wait. preserves. Qed.
Lemma durable_sys_sem_signal I `{!durable I} n : preserves I (sys_sem_signal n).
Proof. unfold sys_sem_signal. preserves. Qed.
Lemma durable_sys_sem_destroy I `{!durable I} n : preserves I (sys_sem_destroy n).
Proof. unfold sys_sem_destroy. preserves. Qed.
#[export] Hint Resolve durable_sys_sem_init durable_sys_sem_wait durable_sys_sem_signal
  durable_sys_sem_destroy : preserves.

Lemma durable_block_into_kbd I `{!durable I} t : preserves I (block_into_kbd t).
Proof. unfold block_into_kbd. preserves. Qed.
Lemma durable_unblock I `{!durable I} t : preserves I (unblock_and_enqueque t).
Proof. unfold unblock_and_enqueque. preserves. Qed.
Lemma durable_step_circ_buffer I `{!durable I} : preserves I step_circ_buffer.
Proof. unfold step_circ_buffer. preserves. Qed.
#[export] Hint Resolve durable_block_into_kbd durable_unblock durable_step_circ_buffer : preserves.
Lemma durable_sys_read_keyboard I `{!durable I} fd b n : preserves I (sys_read_keyboard fd b n).
Proof. unfold sys_read_keyboard. preserves. Qed.
Lemma durable_keyboard_routine I `{!durable I} code : preserves I (keyboard_routine code).
Proof. unfold keyboard_routine. preserves. Qed.
Lemma durable_clock_display I `{!durable I} : preserves I clock_display.
Proof. unfold clock_display. preserves. Qed.
#[export] Hint Resolve durable_sys_read_keyboard durable_keyboard_routine durable_clock_display : preserves.

(** *** Files. *)

Lemma durable_write_file I `{!durable I} b o d n : preserves I (write_file FS (λ i, uload (b + i)) o d n).
Proof. unfold write_file, write_file_step. preserves. Qed.
Lemma durable_read_file I `{!durable I} b o d n : preserves I (read_file FS (λ i c, ustore (b + i) c) o d n).
Proof. unfold read_file, read_file_step. preserves. Qed.
Lemma durable_open_file_of I `{!durable I} fd : preserves I (open_file_of fd).
Proof. unfold open_file_of. preserves. Qed.
Lemma durable_logic_dev_of I `{!durable I} o : preserves I (logic_dev_of o).
Proof. unfold logic_dev_of. preserves. Qed.
Lemma durable_fd_lookup I `{!durable I} fd : preserves I (fd_lookup fd).
Proof. unfold fd_lookup. preserves. Qed.
Lemma durable_sys_write_console I `{!durable I} fd b n : preserves I (sys_write_console fd b n).
Proof. unfold sys_write_console. preserves. Qed.
#[export] Hint Resolve durable_write_file durable_read_file durable_open_file_of durable_logic_dev_of
  durable_fd_lookup durable_sys_write_console : preserves.
Lemma durable_sys_write I `{!durable I} fd b n : preserves I (sys_write fd b n).
Proof. unfold sys_write, call_write_dev, sys_write_file. preserves. Qed.
Lemma durable_sys_read I `{!durable I} fd b n : preserves I (sys_read fd b n).
Proof. unfold sys_read, call_read_dev, sys_read_file. preserves. Qed.
Lemma durable_sys_close I `{!durable I} fd : preserves I (sys_close fd).
Proof. unfold sys_close, call_no_routine. preserves. Qed.
Lemma durable_lookup_path I `{!durable I} p : preserves I (lookup_path p).
Proof. unfold lookup_path. preserves. Qed.
Lemma durable_create_file I `{!durable I} p : preserves I (create_file FS (λ k, uload (p + k))).
Proof. unfold create_file. preserves. Qed.
#[export] Hint Resolve durable_lookup_path durable_create_file : preserves.
Lemma durable_sys_unlink I `{!durable I} p : preserves I (sys_unlink p).
Proof. unfold sys_unlink, call_release_dev. preserves. Qed.
Lemma durable_open_select I `{!durable I} p e f : preserves I (open_select p e f).
Proof. unfold open_select. preserves. Qed.
Lemma durable_deref_file I `{!durable I} p : preserves I (deref_file p).
Proof. unfold deref_file. preserves. Qed.
Lemma durable_call_no_routine I `{!durable I} r : preserves I (call_no_routine r).
Proof. unfold call_no_routine. preserves. Qed.
Lemma durable_sys_get_stats I `{!durable I} p a : preserves I (sys_get_stats p a).
Proof. unfold sys_get_stats. preserves. Qed.
#[export] Hint Resolve durable_sys_write durable_sys_read durable_sys_close durable_sys_unlink
  durable_open_select durable_deref_file durable_call_no_routine durable_sys_get_stats : preserves.
Lemma framed_sys_nice I `{!framed I} n : preserves I (sys_nice n).
Proof. unfold sys_nice, current. preserves. Qed.
Lemma durable_fork_share_fd I `{!durable I} child i : preserves I (fork_share_fd child i).
Proof. unfold fork_share_fd. preserves. Qed.
Lemma durable_srch_free_task I `{!durable I} : preserves I srch_free_task.
Proof. unfold srch_free_task. preserves. Qed.
Lemma framed_clock_interrupt I `{!framed I} eax : preserves I (clock_interrupt eax).
Proof. unfold clock_interrupt, clock_routine. preserves. Qed.
Lemma durable_keyboard_interrupt I `{!durable I} eax code : preserves I (keyboard_interrupt eax code).
Proof. unfold keyboard_interrupt. preserves. Qed.
#[export] Hint Resolve framed_sys_nice durable_fork_share_fd durable_srch_free_task framed_clock_interrupt
  durable_keyboard_interrupt : preserves.

(** ** From the routines to the steps of the kernel. *)

(** [m] keeps [I] where the queues satisfy [P]. *)
Definition kept_if {A} (I : kstate → Prop) (P : qview → Prop) (m : K A) : Prop :=
  ∀ k, kinv k → P (qview_of k) → I k → wlp m k (λ _, I) I.

Section KeptIf.
Context (I : kstate → Prop) (P : qview → Prop).

Lemma preserves_kept_if {A} (m : K A) : preserves I m → kept_if I P m.
Proof using Type. intros Hm k _ _. apply Hm. Qed.

(** After an action that leaves the queues alone. *)
Lemma kept_prefix {A B} (m : K A) (f : A → K B) :
  respects quiet m → preserves I m → (∀ a, kept_if I P (f a)) → kept_if I P (bind m f).
Proof using Type.
  intros Hq Hm Hf k Hk HP Hi. apply wlp_bind. specialize (Hq k). specialize (Hm k Hi). unfold wlp at 1 in Hm. unfold wlp at 1.
  destruct (m k) as [a k'|k'| | |]; try done. pose proof Hq as [Ev _].
  apply Hf; [by eapply quiet_kinv|by rewrite Ev|done].
Qed.
Lemma kept_then {A B} (m : K A) (f : A → K B) :
  kept_if I P m → (∀ a, preserves I (f a)) → kept_if I P (bind m f).
Proof using Type.
  intros Hm Hf k Hk HP Hi. apply wlp_bind. eapply wlp_mono; [by apply Hm| |done]. intros a k'. apply Hf.
Qed.
Lemma kept_if_if {A} (b : bool) (m m' : K A) : kept_if I P m → kept_if I P m' → kept_if I P (if b then m else m').
Proof using Type. by destruct b. Qed.
End KeptIf.

(** What it takes beyond [durable] for every step to keep an invariant. *)
Record stays (I : kstate → Prop) : Prop := {
  sy_durable : durable I;
  sy_nice : ∀ q, preserves I (sys_nice (s32 q));
  sy_dup : ∀ fd, preserves I (sys_dup fd);
  sy_open : ∀ path flags, preserves I (sys_open path flags);
  sy_exit : kept_if I ready sys_exit;
  sy_fork : kept_if I ready sys_fork;
  sy_clock : ∀ eax, kept_if I (λ _, True) (clock_interrupt eax);
}.

Section Stays.
Context (I : kstate → Prop) (HI : stays I).
#[local] Instance stays_durable : durable I := sy_durable _ HI.

Lemma kept_system_call_handler void eax ebx ecx edx : kept_if I ready (system_call_handler void eax ebx ecx edx).
Proof using HI.
  unfold system_call_handler. apply kept_prefix; [respects|preserves|intros _].
  apply kept_if_if; [apply preserves_kept_if; preserves|]. apply kept_then; [|intros a; preserves].
  unfold sys_call_table. apply kept_if_if; [apply kept_then; [apply HI|intros a; preserves]|].
  apply kept_if_if; [apply HI|]. apply preserves_kept_if. unfold sys_getpid, sys_ni_syscall.
  pose proof (sy_nice _ HI). pose proof (sy_dup _ HI). pose proof (sy_open _ HI). preserves.
Qed.

Lemma kept_page_fault_handler eax : kept_if I ready (page_fault_handler eax).
Proof using HI.
  unfold page_fault_handler, page_fault_routine.
  do 5 (apply kept_prefix; [solve [respects]|preserves|intros ?]).
  apply kept_if_if; [apply HI|apply preserves_kept_if; preserves].
Qed.

Lemma stays_kstep k k' : kinv k → I k → kstep k k' → I k'.
Proof using HI.
  intros Hk Hi Hstep. revert Hk Hi.
  destruct Hstep as [void eax ebx ecx edx k k' Hr He|eax k k' He|eax code k k' He|eax k k' Hr He|
    addr b k k' He]; intros Hk Hi; eapply wlp_ends; try exact He.
  - by apply kept_system_call_handler.
  - by apply (sy_clock _ HI).
  - by apply durable_keyboard_interrupt; [apply _|].
  - by apply kept_page_fault_handler.
  - by apply durable_ustore; [apply _|].
Qed.

Lemma stays_star k k' : kinv k → I k → star kstep k k' → I k'.
Proof using HI.
  intros Hk Hi Hsteps. apply (star_invariant kstep (λ k, kinv k ∧ I k)) in Hsteps as H; [by apply H| |done].
  intros s s' [Hs Hp] Hstep. split; [by eapply kinv_kstep|by eapply stays_kstep].
Qed.
End Stays.
