(* ===== verification/Timing.v ===== *)
(** * The slice and the quanta: in every state the kernel reaches they are
    [int]s that are not negative, and the quantum of a live process is positive. *)
From stdpp Require Import functions.
From S2P Require Import Prelude KList Mm Utils Io Fs KState Sched.
From S2P Require Import Sem Devices Sys Interrupt Queues SchedFacts Quiet KernelInv Boot Kernel Framed.

Definition times (k : kstate) : list (Z * Z) := task_time <$> task k.

(** [who t p]: the quantum of task [t], which has the pid [p], is positive. *)
Record timed (who : Z → Z → Prop) (k : kstate) : Prop := {
  tm_left : 0 ≤ left4current (sched k) ≤ INT_MAX;
  tm_quanta : ∀ t p n, zlookup (times k) t = Some (p, n) → 0 ≤ n ≤ INT_MAX ∧ (who t p → 0 < n);
}.

(** The live tasks, of the first [n]; those, and the tasks [l]. *)
Definition live (n t p : Z) : Prop := t < n ∧ p ≠ -1.
Definition live_or (l : list Z) (t p : Z) : Prop := live NR_TASKS t p ∨ t ∈ l.
Abbreviation paced := (timed (live NR_TASKS)).

Lemma times_lookup k t v : zlookup (task k) t = Some v → zlookup (times k) t = Some (pid v, quantum v).
Proof. intros Hv. unfold times. by rewrite zlookup_fmap, Hv. Qed.

Lemma timed_weaken (who who' : Z → Z → Prop) k :
  (∀ t p n, zlookup (times k) t = Some (p, n) → who' t p → who t p) → timed who k → timed who' k.
Proof. intros Hw [Hl Hq]. split; [done|]. intros t p n Ht. destruct (Hq t p n Ht). eauto. Qed.

Lemma timed_same who k k' :
  times k' = times k → 0 ≤ left4current (sched k') ≤ INT_MAX → timed who k → timed who k'.
Proof. intros E Hl [_ Hq]. split; [done|]. by rewrite E. Qed.

Lemma timed_quantum who k t v : zlookup (task k) t = Some v → timed who k → 0 ≤ quantum v ≤ INT_MAX.
Proof. intros Hv%times_lookup Hk. by destruct (tm_quanta _ _ Hk _ _ _ Hv). Qed.

(** A task changes. *)
Lemma timed_set_task (who who' : Z → Z → Prop) k i w :
  (∀ t p, t ≠ i → who' t p → who t p) → 0 ≤ quantum w ≤ INT_MAX → (who' i (pid w) → 0 < quantum w) →
  timed who k → timed who' (set_task (zinsert i w (task k)) k).
Proof.
  intros Hw Hb Hp [Hl Hq]. split; [done|]. intros t p n. unfold times. simpl. rewrite zinsert_fmap.
  intros [[<- [= -> ->]]|[Hne Ht]]%zlookup_zinsert_Some; [done|]. destruct (Hq _ _ _ Ht) as [Hn Hpos]. eauto.
Qed.

(** Stores the quantum does not depend on. *)
Lemma timed_task_set who {A} (setter : A → task_struct → task_struct) i a :
  keeps task_time setter → preserves (timed who) (task_set setter i a).
Proof.
  intros Hk. apply preserves_amodify. intros k v Hty Hv. apply (timed_same _ k); [|apply Hty|done].
  unfold times. simpl. by erewrite tasks_zinsert.
Qed.
Lemma timed_MM who {A} (m : M mm_state A) : preserves (timed who) (zoom MM m).
Proof. apply preserves_zoom. intros k s Hk. apply (timed_same _ k); [done|apply Hk|done]. Qed.
Lemma timed_slice who i : preserves (timed who) (let! t := aget Task i in put Left4current (quantum t)).
Proof.
  intros k Hk. apply wlp_bind, wlp_aget. intros v Hv. apply wp_wlp, wp_put.
  apply (timed_same _ k); [done|exact (timed_quantum _ _ _ _ Hv Hk)|done].
Qed.
Lemma timed_put who {T} (l : lens kstate T) t :
  (∀ k, (left4current (sched (update l t k)), times (update l t k)) = (left4current (sched k), times k)) →
  preserves (timed who) (put l t).
Proof.
  intros H. apply preserves_put. intros k Hk. specialize (H k). injection H as H1 H2.
  apply (timed_same _ k); [done|rewrite H1; apply Hk|done].
Qed.
Lemma timed_esp0 who f : preserves (timed who) (modify Sched (λ s, set_esp0 (f s) s)).
Proof. intros k Hk. apply (timed_same _ k); [done|apply Hk|done]. Qed.
Lemma timed_task_switch who t : preserves (timed who) (task_switch t).
Proof.
  unfold task_switch, EOI.
  repeat first
    [ apply timed_slice | apply timed_esp0 | apply timed_MM | apply timed_task_set; intros ? ?; done
    | apply timed_put; intros []; done | preserves_step ].
Qed.

#[export] Hint Resolve timed_task_set timed_MM : preserves.
Lemma timed_copy_from_circ_buffer who t n : preserves (timed who) (copy_from_circ_buffer t n).
Proof. unfold copy_from_circ_buffer, map_after, current, ustore. preserves. Qed.

#[export] Instance timed_durable who : durable (timed who).
Proof.
  split.
  - intros k k' E Hk. apply (timed_same _ k); [exact (f_equal snd E)| |done].
    replace (left4current (sched k')) with (left4current (sched k)) by exact (eq_sym (f_equal (λ c, c.1.2) E)).
    apply Hk.
  - intros k s _ Hk. apply (timed_same _ k); [done|apply Hk|done].
  - intros k i j v Hv Hk. eapply timed_set_task; [eauto|exact (timed_quantum _ _ _ _ Hv Hk)| |done].
    by destruct (tm_quanta _ _ Hk _ _ _ (times_lookup _ _ _ Hv)).
  - intros k i v Hv Hk. apply (timed_same _ k); [done|by eapply timed_quantum|done].
  - intros k Hk. by apply (timed_same _ k).
  - apply timed_task_switch.
  - apply timed_copy_from_circ_buffer.
Qed.

Lemma timed_fd_set who i j p : preserves (timed who) (fd_set i j p).
Proof. unfold fd_set. repeat preserves_step. by apply timed_task_set. Qed.
Lemma timed_ph_pages_set who i j f : preserves (timed who) (ph_pages_set i j f).
Proof. unfold ph_pages_set. repeat preserves_step. by apply timed_task_set. Qed.
Lemma timed_FS who {A} (m : M fs_state A) : preserves (timed who) (zoom FS m).
Proof. apply preserves_zoom. intros k s Hk. apply (timed_same _ k); [done|apply Hk|done]. Qed.
#[export] Hint Resolve timed_fd_set timed_ph_pages_set timed_FS : preserves.

(** A pid, for a task whose quantum is positive anyway, or no pid. *)
Lemma timed_set_pid who i p :
  (∀ p', who i p → who i p') → preserves (timed who) (task_set t_pid i p).
Proof.
  intros Hw. apply preserves_amodify. intros k v Hk Hv. eapply timed_set_task; [eauto|exact (timed_quantum _ _ _ _ Hv Hk)| |done].
  intros Hp. destruct (tm_quanta _ _ Hk _ _ _ (times_lookup _ _ _ Hv)) as [_ Hpos]. by apply Hpos, Hw.
Qed.
Lemma live_dead n t : ¬ live n t (-1).
Proof. by intros [_ ?]. Qed.
Lemma live_or_dead l t p : live_or l t (-1) → live_or l t p.
Proof. intros [[]%live_dead|?]. by right. Qed.
Lemma live_or_held l t q p : t ∈ l → live_or l t q → live_or l t p.
Proof. by right. Qed.
#[export] Hint Extern 2 (preserves (timed (live _)) (task_set t_pid _ (-1))) =>
  apply timed_set_pid; intros ? []%live_dead : preserves.

Lemma timed_sys_exit : preserves paced sys_exit.
Proof. unfold sys_exit. preserves. Qed.
#[export] Hint Resolve timed_sys_exit : preserves.

Lemma timed_sys_nice who q : q ≤ INT_MAX → preserves (timed who) (sys_nice q).
Proof.
  intros Hq k Hk. unfold sys_nice, current. apply wlp_bind, wlp_ret. simpl. case_bool_decide; [|by apply wlp_ret].
  apply wlp_bind, wlp_aget. intros t _. apply wlp_bind, wlp_amodify. intros v Hv. apply wlp_ret.
  eapply timed_set_task; [eauto|simpl; lia|simpl; lia|done].
Qed.

(** ** [sys_fork]: the child starts with the quantum of its parent. *)

Section Fork.
Context (parent child : Z).
Abbreviation family := (timed (live_or [parent; child])).

Lemma timed_copied_quantum : preserves family (let! t := aget Task parent in task_set t_quantum child (quantum t)).
Proof.
  intros k Hk. apply wlp_bind, wlp_aget. intros t Ht. simpl in Ht. apply wlp_amodify. intros v Hv.
  destruct (tm_quanta _ _ Hk _ _ _ (times_lookup _ _ _ Ht)) as [Hb Hpos].
  eapply timed_set_task; [eauto|done| |done]. intros _. apply Hpos. right. set_solver.
Qed.
Lemma timed_child_pid p : preserves family (task_set t_pid child p).
Proof. apply timed_set_pid. intros p' _. right. set_solver. Qed.
End Fork.
#[export] Hint Resolve timed_copied_quantum timed_child_pid : preserves.

Lemma timed_free_frames who frames : preserves (timed who) (free_frames frames).
Proof. induction frames as [|f frames IH]; simpl; preserves. Qed.
#[export] Hint Resolve timed_free_frames : preserves.
Lemma timed_fork_alloc who parent : preserves (timed who) (fork_alloc parent).
Proof. unfold fork_alloc. preserves. Qed.
Lemma timed_fork_copy_page who child frames j : preserves (timed who) (fork_copy_page child frames j).
Proof. unfold fork_copy_page. preserves. Qed.
#[export] Hint Resolve timed_fork_alloc timed_fork_copy_page : preserves.

(** The current process is alive. *)
Definition alive (k : kstate) : Prop := ∃ p, zlookup (pid <$> task k) (cur (sched k)) = Some p ∧ p ≠ -1.

Lemma timed_copy_task k parent v child :
  paced k → zlookup (task k) parent = Some v → 0 < quantum v →
  wlp (copy_task parent child) k (λ _, timed (live_or [parent; child])) (timed (live_or [parent; child])).
Proof.
  intros Hk Hv Hpos. unfold copy_task. apply wlp_bind, wlp_aget. intros t Ht. simpl in Ht. simplify_eq.
  apply wlp_bind, wlp_aset. intros _.
  match goal with |- wlp ?m ?s _ _ => assert (timed (live_or [parent; child]) s) as Hs;
    [|enough (preserves (timed (live_or [parent; child])) m) as H by exact (H _ Hs); preserves] end.
  eapply (timed_set_task (live_or [parent])); [|by eapply timed_quantum|done|].
  - intros t p Hne [Hl|Ht%elem_of_cons]; [by left|]. right. set_solver.
  - split; [apply Hk|]. intros t p n Ht. destruct (tm_quanta _ _ Hk _ _ _ Ht) as [Hn Hp]. split; [done|].
    intros [?| ->%list_elem_of_singleton]; [by apply Hp|]. apply times_lookup in Hv. by simplify_eq.
Qed.

Lemma timed_sys_fork k : kinv k → alive k → paced k → wlp sys_fork k (λ _, paced) paced.
Proof.
  intros [Hs [q Hq]] (p & Hpid & Hp) Hk. destruct (qinv_current _ _ Hq) as [v Hv].
  rewrite zlookup_fmap, Hv in Hpid. injection Hpid as <-. unfold sys_fork, current.
  apply wlp_bind, wp_wlp, (wp_srch_free_task k q); [done| |].
  2: { intros _. rewrite bool_decide_true by done. by apply wlp_ret. }
  intros child w Hw _ _. pose proof (task_lookup_range _ _ _ _ Hq Hw) as Hr. rewrite bool_decide_false by lia.
  apply wlp_bind, wlp_ret. simpl. set (I := timed (live_or [cur (sched k); child])).
  assert (∀ k', I k' → paced k') as Hweak by (intros k'; apply timed_weaken; by left).
  apply wlp_bind. eapply wlp_mono; [eapply timed_copy_task; [done|exact Hv|]| |exact Hweak].
  { destruct (tm_quanta _ _ Hk _ _ _ (times_lookup _ _ _ Hv)) as [_ H]. apply H. split; [|done].
    by eapply task_lookup_range. }
  intros [] k' Hk'. apply (wlp_mono _ _ (λ _, I) _ I); [|intros _; exact Hweak|exact Hweak]. cbv beta.
  match goal with |- wlp ?m _ _ _ => enough (preserves I m) as H by by apply H end.
  unfold I. clear. preserves.
Qed.

(** ** Every step. *)

Lemma timed_nice who q : preserves (timed who) (sys_nice (s32 q)).
Proof. apply timed_sys_nice. pose proof (s32_range q). lia. Qed.
Lemma timed_sys_dup who fd : preserves (timed who) (sys_dup fd).
Proof. unfold sys_dup. preserves. Qed.
Lemma timed_sys_open who path flags : preserves (timed who) (sys_open path flags).
Proof. unfold sys_open. preserves. Qed.
#[export] Hint Resolve timed_nice timed_sys_dup timed_sys_open : preserves.

Lemma timed_clock_interrupt eax k :
  kinv k → paced k → wlp (clock_interrupt eax) k (λ _, paced) paced.
Proof.
  intros [Hs [q Hq]] Hk. destruct (qinv_current _ _ Hq) as [v Hv]. apply wp_wlp.
  assert (times (ticked eax v k) = times k) as Et by by eapply tasks_zinsert.
  assert (0 ≤ quantum v ≤ INT_MAX) as Hn by by eapply timed_quantum.
  eapply wp_clock_interrupt; [done|done|exact Hv|..].
  - intros k1 k' Hgo (E & _ & _ & _ & _ & _ & _ & _ & El) _. pose proof (tm_left _ _ Hk) as Hl.
    assert (times k1 = times k ∧ 0 ≤ left4current (sched k1) ≤ INT_MAX) as [E1 Hl1].
    { destruct Hgo as [Hpos|t _ _]; simpl in *; [split; [done|]; rewrite s32_small in * by (unfold INT_MIN, INT_MAX in *; lia); lia|].
      split; [|done]. rewrite <-Et. eapply tasks_zinsert; [exact (ticked_lookup eax v k Hv)|done]. }
    apply (timed_same _ k); [|by rewrite El|done]. unfold times in *. by rewrite E.
  - intros h' t rest k' _ _ _ [w m' Hw _ _ ->] _ _ _. change (zlookup (task (ticked eax v k)) t = Some w) in Hw.
    pose proof (times_lookup _ _ _ Hw) as Hw'. rewrite Et in Hw'. destruct (tm_quanta _ _ Hk _ _ _ Hw') as [Hb _].
    apply (timed_same _ k); [|exact Hb|done]. rewrite <-Et. by eapply (tasks_zinsert _ (task (ticked eax v k))).
Qed.

Lemma paced_stays : stays paced.
Proof.
  split; [apply _|intros *; preserves..| | |].
  - apply preserves_kept_if, timed_sys_exit.
  - intros k Hk [(p & Hpid & Hpos) _] Hp. apply timed_sys_fork; [done| |done]. exists p. split; [done|lia].
  - intros eax k Hk _. by apply timed_clock_interrupt.
Qed.

(** ** The boot. *)

Lemma timed_set_quantum (who who' : Z → Z → Prop) i n k (Q : unit → kstate → Prop) X :
  0 < n ≤ INT_MAX → (∀ t p, t ≠ i → who' t p → who t p) → timed who k →
  (∀ k', timed who' k' → Q () k') → wlp (task_set t_quantum i n) k Q X.
Proof.
  intros Hn Hw Hk HQ. apply wlp_amodify. intros v Hv. apply HQ. eapply timed_set_task; [done|simpl; lia|simpl; lia|done].
Qed.

(** A step of the initialisation. *)
Lemma wlp_kept {A B} I (m : K A) (f : A → K B) k (Q : B → kstate → Prop) :
  preserves I m → I k → (∀ a k', I k' → wlp (f a) k' Q (λ _, True)) → wlp (bind m f) k Q (λ _, True).
Proof. intros Hm Hk HQ. apply wlp_bind. eapply wlp_mono; [by apply Hm|exact HQ|done]. Qed.

(** The tasks have no pid when the scheduler is ready. *)
Lemma timed_init_sched k (Q : unit → kstate → Prop) :
  timed (live 0) k → (∀ k', paced k' → Q () k') → wlp init_sched k Q (λ _, True).
Proof.
  intros Hk HQ. unfold init_sched.
  do 4 (eapply wlp_kept; [|exact Hk|clear k Hk; intros _ k Hk]; [preserves|]).
  eapply (wlp_for_range (λ i, timed (live i))); [done|done| |exact HQ].
  intros i k' _ Hk'. apply wlp_amodify. intros v Hv. eapply timed_set_task; [|exact (timed_quantum _ _ _ _ Hv Hk')|by intros []%live_dead|done].
  intros t p Hne [??]. split; [lia|done].
Qed.

Lemma timed_init_task0 k (Q : unit → kstate → Prop) :
  paced k → (∀ k', paced k' → Q () k') → wlp init_task0 k Q (λ _, True).
Proof.
  intros Hk HQ. unfold init_task0. do 3 (eapply wlp_kept; [|exact Hk|clear k Hk; intros _ k Hk]; [preserves|]).
  set (others := λ t p, t ≠ 0 ∧ live NR_TASKS t p). assert (timed others k) as Hk' by (eapply timed_weaken; [|done]; by intros ? ? ? _ []).
  eapply wlp_kept; [|exact Hk'|clear k Hk Hk'; intros _ k Hk].
  { repeat preserves_step; [preserves|]. apply timed_set_pid. by intros ? []. }
  apply wlp_bind. eapply timed_set_quantum; [|  |exact Hk|]; [done|by unfold others|]. clear k Hk. intros k Hk.
  match goal with |- wlp ?m _ _ _ => enough (preserves paced m) as H end.
  { eapply wlp_mono; [by apply H|intros []; apply HQ|done]. }
  preserves.
Qed.

Lemma timed_boot ta tb k : boot tb (kstate_bss ta) = Ret () k → paced k.
Proof.
  intros E. apply (wlp_Ret (boot tb) (kstate_bss ta) () k (λ _, paced) (λ _, True)); [|exact E]. clear E.
  assert (timed (live 0) (kstate_bss ta)) as H0.
  { split; [done|]. intros t p n Ht. pose proof (zlookup_Some_range _ _ _ Ht) as Hr.
    unfold times in Ht. rewrite zlookup_fmap in Ht. destruct (zlookup (task (kstate_bss ta)) t) as [v|] eqn:Hv; [|done].
    apply zlookup_elem, elem_of_replicate in Hv as [-> _]. injection Ht as <- <-. split; [done|]. intros [??]. lia. }
  generalize dependent (kstate_bss ta). intros k0 Hk0. unfold boot, setTSS.
  do 3 (eapply wlp_kept; [|exact Hk0|clear k0 Hk0; intros ? k0 Hk0]; [preserves|]).
  apply wlp_bind, timed_init_sched; [done|]. clear k0 Hk0. intros k0 Hk0.
  do 2 (eapply wlp_kept; [|exact Hk0|clear k0 Hk0; intros ? k0 Hk0]; [unfold init_keyboard; preserves|]).
  apply wlp_bind, timed_init_task0; [done|]. clear k0 Hk0. intros k0 Hk0.
  assert (preserves paced iniTics) as H by (unfold iniTics; preserves).
  eapply wlp_mono; [by apply H|done|done].
Qed.

Lemma paced_reachable ta tb k : reachable ta tb k → kinv k ∧ paced k.
Proof.
  intros (k0 & Hboot & Hsteps). pose proof (kinv_boot _ _ _ Hboot) as Hk0. split.
  - exact (star_invariant kstep kinv kinv_kstep k0 k Hsteps Hk0).
  - exact (stays_star _ paced_stays _ _ Hk0 (timed_boot _ _ _ Hboot) Hsteps).
Qed.
