(* ===== verification/RoundRobin.v ===== *)
(** * Round robin: how long a runnable process waits while processes compute. *)
From stdpp Require Import functions.
From S2P Require Import Prelude KList Mm KState Sched Devices Interrupt.
From S2P Require Import Queues SchedFacts Quiet KernelInv Boot Kernel States Framed Timing.

(** Processes compute: [n] ticks of the clock, and between them the running
    process stores to its memory. *)
Inductive computing (k : kstate) : Z → kstate → Prop :=
| computing_none : computing k 0 k
| computing_tick n eax k1 k2 : computing k n k1 → ends (clock_interrupt eax) k1 k2 → computing k (n + 1) k2
| computing_store n addr b k1 k2 : computing k n k1 → ends (ustore addr b) k1 k2 → computing k n k2.

(** The quanta of the tasks, and the ticks of a sequence of whole slices. *)
Definition quanta (k : kstate) : list Z := quantum <$> task k.
Definition slices (qs l : list Z) : Z := foldr (λ t n, default 0 (zlookup qs t) + n) 0 l.

(** The ticks until the process behind [l], in the queue after the running one,
    is resumed. *)
Definition waiting (k : kstate) (l : list Z) : Z := Z.max 1 (left4current (sched k)) + slices (quanta k) l.

(** The running process is alive, the slice and the quanta of the runnable
    processes are [int]s, and the quanta are positive, as [sys_nice] sees to. *)
Record running (qs : list Z) (k : kstate) (q : node → list Z) : Prop := {
  rn_shape : shape k;
  rn_inv : qinv (qview_of k) q;
  rn_alive : ∃ v, zlookup (task k) (cur (sched k)) = Some v ∧ pid v ≠ -1;
  rn_quanta : quanta k = qs;
  rn_left : INT_MIN < left4current (sched k) ≤ INT_MAX;
  rn_positive : ∀ t, t ∈ q Runqueue → ∃ n, zlookup qs t = Some n ∧ 0 < n ≤ INT_MAX;
}.

(** [t] has [n] ticks to wait, behind the processes [l]. *)
Inductive waits (qs : list Z) (t n : Z) (k : kstate) : Prop :=
| waits_behind q l l' : running qs k q → without (cur (sched k)) (q Runqueue) = l ++ t :: l' →
    n = waiting k l → waits qs t n k.

(** It runs. *)
Inductive its_turn (qs : list Z) (t : Z) (k : kstate) : Prop :=
| turn q : running qs k q → cur (sched k) = t → its_turn qs t k.

Lemma slices_nonneg qs l :
  (∀ t, t ∈ l → ∃ n, zlookup qs t = Some n ∧ 0 < n ≤ INT_MAX) → 0 ≤ slices qs l.
Proof.
  induction l as [|x l IH]; intros H; simpl; [done|].
  destruct (H x) as (n & -> & ?); [set_solver|]. simpl. specialize (IH ltac:(set_solver)). lia.
Qed.

Lemma quanta_zinsert k t v w :
  zlookup (task k) t = Some v → quantum w = quantum v → quantum <$> zinsert t w (task k) = quanta k.
Proof.
  intros Hv Hw. unfold quanta. rewrite zinsert_fmap, Hw. apply zinsert_id. by rewrite zlookup_fmap, Hv.
Qed.

Lemma quanta_ticked eax v k : zlookup (task k) (cur (sched k)) = Some v → quanta (ticked eax v k) = quanta k.
Proof. intros Hv. by apply (quanta_zinsert k _ v). Qed.

(** A store keeps what scheduling depends on. *)
Lemma ends_ustore addr b k k' : ends (ustore addr b) k k' → ∃ m, k' = set_mm m k ∧ quiet k k'.
Proof.
  intros He. pose proof (quiet_ustore addr b k) as Hq. unfold ends, ustore, zoom in *.
  destruct (store_byte addr b (view MM k)) as [a m|m|m| |]; destruct He as [[a' He]|He]; try done.
  injection He as <- <-. by exists m.
Qed.

Lemma running_store qs k q m : running qs k q → quiet k (set_mm m k) → running qs (set_mm m k) q.
Proof. intros [] [E Hs]. split; [by apply Hs|by rewrite E|done..]. Qed.

(** One tick of a process that waits. *)
Section Tick.
Context (eax : Z) (qs : list Z) (k : kstate) (q : node → list Z) (v : task_struct).
Context (Hrun : running qs k q) (Hv : zlookup (task k) (cur (sched k)) = Some v) (Hpid : pid v ≠ -1).

Lemma left_less : s32 (left4current (sched k) - 1) = left4current (sched k) - 1.
Proof using Hrun. apply s32_small. pose proof (rn_left _ _ _ Hrun). lia. Qed.

(** Within its slice the running process goes on. *)
Lemma tick_within k1 k' :
  1 < left4current (sched k) → goes_on eax v q k k1 → same_but_display k1 k' →
  running qs k' q ∧ cur (sched k') = cur (sched k) ∧ left4current (sched k') = left4current (sched k) - 1.
Proof using Hrun Hv Hpid.
  intros Hleft Hgo Hsame. pose proof left_less as El. pose proof (goes_on_view _ _ _ _ _ Hv Hgo) as Hview.
  pose proof (goes_on_shape _ _ _ _ _ Hv (rn_shape _ _ _ Hrun) Hgo) as Hs1.
  destruct Hgo as [_|x Hle _]; [|rewrite El in Hle; lia]. pose proof (same_but_display_quiet _ _ Hsame) as [Ev Es].
  destruct Hsame as (Et & _ & _ & _ & _ & _ & Ec & _ & El').
  rewrite El', Ec. simpl. rewrite El. split; [|done]. split.
  - by apply Es.
  - rewrite Ev, Hview. apply Hrun.
  - rewrite Et, Ec. exists (tick_task eax v). split; [exact (ticked_lookup eax v k Hv)|done].
  - unfold quanta. rewrite Et. fold (quanta (ticked eax v k)). rewrite quanta_ticked by done. apply Hrun.
  - rewrite El'. simpl. rewrite El. pose proof (rn_left _ _ _ Hrun). unfold INT_MIN in *. lia.
  - apply Hrun.
Qed.

(** The run queue after the switch. *)
Lemma rotated_runqueue :
  rotated k q v Runqueue = without (cur (sched k)) (q Runqueue) ++ [cur (sched k)].
Proof using Hpid. unfold rotated. rewrite bool_decide_false by done. unfold qmove. by rewrite !fn_lookup_insert. Qed.

Lemma tick_switch h' t rest k' :
  rotated k q v Runqueue = t :: rest → resumed t (update ItIsInt 1 (set_lists h' (ticked eax v k))) k' →
  qinv (qview_of k') (rotated k q v) → shape k' →
  running qs k' (rotated k q v) ∧ cur (sched k') = t ∧ zlookup qs t = Some (left4current (sched k')).
Proof using Hrun Hv Hpid.
  intros Hrot Hres Hq Hs. assert (t ∈ rotated k q v Runqueue) as Ht by (rewrite Hrot; set_solver).
  destruct (qi_alive _ _ Hq _ _ Ht) as (p & Hp & Hpos & _).
  assert (∀ x, x ∈ rotated k q v Runqueue → x ∈ q Runqueue) as Hsub.
  { intros x. rewrite rotated_runqueue, elem_of_app, elem_of_without, list_elem_of_singleton.
    intros [[_ ?]| ->]; [done|]. eapply current_runnable; [apply Hrun|done|done]. }
  destruct Hres as [w m' Hw _ _ ->]. change (zlookup (task (ticked eax v k)) t = Some w) in Hw. pose proof (zlookup_Some_range _ _ _ Hw) as Hr.
  simpl in Hp. rewrite zlookup_fmap, zlookup_zinsert_eq in Hp by exact Hr. injection Hp as Hp.
  assert (quanta (ticked eax v k) = qs) as Eq by (rewrite quanta_ticked by done; apply Hrun).
  assert (zlookup qs t = Some (quantum w)) as Hqt.
  { rewrite <-Eq. unfold quanta. by rewrite zlookup_fmap, Hw. }
  split; [|done]. split; try done.
  - exists (resume_task w). split; [|simpl; lia]. simpl. apply zlookup_zinsert_eq. exact Hr.
  - rewrite <-Eq. exact (quanta_zinsert (ticked eax v k) t w (resume_task w) Hw eq_refl).
  - destruct (rn_positive _ _ _ Hrun t (Hsub _ Ht)) as (n & Hn & ?). simplify_eq/=. unfold INT_MIN, INT_MAX in *. lia.
  - intros x Hx. by apply (rn_positive _ _ _ Hrun), Hsub.
Qed.
End Tick.

(** Those ahead are runnable. *)
Section Ahead.
Context (qs : list Z) (k : kstate) (q : node → list Z) (t : Z) (l l' : list Z).
Context (Hrun : running qs k q) (Hq : without (cur (sched k)) (q Runqueue) = l ++ t :: l').

Lemma ahead_runnable x : x ∈ t :: l → x ≠ cur (sched k) ∧ x ∈ q Runqueue.
Proof using Hq. clear Hrun. intros Hx. apply elem_of_without. rewrite Hq. set_solver. Qed.

Lemma ahead_slices l1 : l1 ⊆ l → 0 ≤ slices qs l1.
Proof using Hq Hrun.
  intros Hl. apply slices_nonneg. intros x Hx. apply (rn_positive _ _ _ Hrun), ahead_runnable. set_solver.
Qed.
End Ahead.

Lemma waits_pos qs t n k : waits qs t n k → 0 < n.
Proof.
  intros [q l l' Hrun Hq ->]. unfold waiting. rewrite (rn_quanta _ _ _ Hrun).
  pose proof (ahead_slices _ _ _ _ _ _ Hrun Hq l ltac:(done)). lia.
Qed.

Lemma waits_cur qs t n k : waits qs t n k → cur (sched k) ≠ t.
Proof. intros [q l l' _ Hq _] E. destruct (ahead_runnable _ _ _ _ _ Hq t); [set_solver|done]. Qed.

(** A tick always ends, and brings the process one tick nearer to its turn. *)
Definition nearer (qs : list Z) (t n : Z) (k' : kstate) : Prop :=
  if bool_decide (n = 1) then its_turn qs t k' else waits qs t (n - 1) k'.

Lemma wp_tick_waits eax qs t n k :
  waits qs t n k → wp (clock_interrupt eax) k (λ _, nearer qs t n) (nearer qs t n).
Proof.
  intros Hw. pose proof (waits_cur _ _ _ _ Hw) as Hne. destruct Hw as [q l l' Hrun Hq ->].
  pose proof (rn_alive _ _ _ Hrun) as (v & Hv & Hpid). pose proof (left_less _ _ _ Hrun) as El.
  destruct (ahead_runnable _ _ _ _ _ Hq t) as [_ Ht]; [set_solver|].
  assert (∀ x, q Runqueue ≠ [x]) as Hmany.
  { intros x E. pose proof (current_runnable _ _ _ (rn_inv _ _ _ Hrun) Hv Hpid) as Hc. rewrite E in Hc, Ht. set_solver. }
  eapply wp_clock_interrupt; [apply Hrun|apply Hrun|exact Hv|..]; unfold nearer, waiting.
  - intros k1 k' Hgo Hsame _. assert (1 < left4current (sched k)) as Hleft.
    { destruct Hgo as [Hl|x _ E]; [lia|]. by destruct (Hmany x). }
    destruct (tick_within eax qs k q v Hrun Hv Hpid k1 k' Hleft Hgo Hsame) as (Hrun' & Ec & El').
    pose proof (ahead_slices _ _ _ _ _ _ Hrun Hq l ltac:(done)) as Hl. rewrite <-(rn_quanta _ _ _ Hrun) in Hl.
    rewrite bool_decide_false by lia. apply (waits_behind _ _ _ _ q l l'); [done|by rewrite Ec|].
    unfold waiting. rewrite El', (rn_quanta _ _ _ Hrun'), (rn_quanta _ _ _ Hrun). lia.
  - intros h' x rest k' Hle _ Hrot Hres Hq' Hs' _.
    destruct (tick_switch eax qs k q v Hrun Hv Hpid h' x rest k' Hrot Hres Hq' Hs') as (Hrun' & Ec & Hx).
    assert (Z.max 1 (left4current (sched k)) = 1) as -> by lia. rewrite (rn_quanta _ _ _ Hrun).
    rewrite (rotated_runqueue k q v Hpid), Hq in Hrot. destruct l as [|y l]; simpl in Hrot; injection Hrot as <- Hrest.
    + rewrite bool_decide_true by done. by eapply turn.
    + destruct (rn_positive _ _ _ Hrun y) as (n & Hn & Hpos); [apply (ahead_runnable _ _ _ _ _ Hq); set_solver|].
      pose proof (ahead_slices _ _ _ _ _ _ Hrun Hq l ltac:(set_solver)) as Hl.
      simpl. rewrite Hn. simpl. assert (left4current (sched k') = n) as El' by congruence.
      rewrite bool_decide_false by lia. eapply (waits_behind _ _ _ _ _ l); [exact Hrun'| |].
      * rewrite Ec, (rotated_runqueue k q v Hpid), Hq. simpl.
        rewrite (without_head y); [by rewrite <-app_assoc|].
        pose proof (queues_ok_NoDup _ _ _ Runqueue (qi_ok _ _ (rn_inv _ _ _ Hrun'))) as Hnd.
        rewrite (rotated_runqueue k q v Hpid), Hq in Hnd. exact Hnd.
      * unfold waiting. rewrite El', (rn_quanta _ _ _ Hrun'). lia.
Qed.

Lemma wp_ends {A} (m : K A) k (Q : A → kstate → Prop) X :
  wp m k Q X → ∃ k', ends m k k' ∧ ((∃ a, Q a k') ∨ X k').
Proof.
  unfold wp, ends. intros H. destruct (m k) as [a k'|k'| | |]; try done; exists k'.
  - split; left; by exists a.
  - split; by right.
Qed.

Lemma wp_ends_all {A} (m : K A) k k' (P : kstate → Prop) : wp m k (λ _, P) P → ends m k k' → P k'.
Proof. intros H%wp_wlp. by apply wlp_ends. Qed.

Lemma running_tick eax qs k q : running qs k q → ∃ k', ends (clock_interrupt eax) k k'.
Proof.
  intros Hrun. destruct (rn_alive _ _ _ Hrun) as (v & Hv & _).
  destruct (wp_ends (clock_interrupt eax) k (λ _ _, True) (λ _, True)) as (k' & He & _); [|by exists k'].
  by eapply wp_clock_interrupt; [apply Hrun|apply Hrun|exact Hv|..].
Qed.

(** After [n] of the [w] ticks. *)
Lemma computing_waits qs t w k n k' :
  waits qs t w k → computing k n k' → 0 ≤ n ∧ (n < w → waits qs t (w - n) k') ∧ (n = w → its_turn qs t k').
Proof.
  intros Hw Hc. pose proof (waits_pos _ _ _ _ Hw) as Hpos.
  induction Hc as [|n eax k1 k2 _ (Hn & IH & _) He|n addr b k1 k2 _ (Hn & IH & IHt) He].
  - split; [done|]. split; [by rewrite Z.sub_0_r|lia].
  - split; [lia|]. destruct (decide (n < w)) as [Hlt|]; [|lia].
    pose proof (wp_ends_all _ _ _ _ (wp_tick_waits eax _ _ _ _ (IH Hlt)) He) as H. unfold nearer in H. split.
    + intros Hlt'. rewrite bool_decide_false in H by lia. by replace (w - (n + 1)) with (w - n - 1) by lia.
    + intros E. by rewrite bool_decide_true in H by lia.
  - destruct (ends_ustore _ _ _ _ He) as (m & -> & Hq). split; [done|]. split.
    + intros Hlt. destruct (IH Hlt) as [q l l' Hrun Hwo Em]. eapply (waits_behind _ _ _ _ q); [by apply running_store|done|done].
    + intros E. destruct (IHt E) as [q Hrun Hcur]. eapply turn; [by apply running_store|done].
Qed.

Lemma waits_computing qs t w k n : waits qs t w k → 0 ≤ n ≤ w → ∃ k', computing k n k'.
Proof.
  intros Hw Hn. rewrite <-(Z2Nat.id n) by lia. assert (Z.to_nat n ≤ Z.to_nat w)%nat as Hle by lia. clear Hn.
  induction (Z.to_nat n) as [|m IH]; [by exists k; constructor|]. destruct IH as [k1 Hc]; [lia|].
  destruct (computing_waits _ _ _ _ _ _ Hw Hc) as (_ & Hb & _). destruct (Hb ltac:(lia)) as [q l l' Hrun _ _].
  destruct (running_tick 0 _ _ _ Hrun) as [k2 He]. exists k2. rewrite Nat2Z.inj_succ. by eapply computing_tick.
Qed.

(** In a state the kernel reaches, with a live process running. *)
Lemma reachable_running ta tb k q :
  reachable ta tb k → alive k → qinv (qview_of k) q → running (quanta k) k q.
Proof.
  intros [[Hs _] Hp]%paced_reachable (p & Hpid & Hne) Hq. pose proof (tm_left _ _ Hp) as Hl.
  split; [done|done| |done|unfold INT_MIN; lia|].
  - destruct (qinv_current _ _ Hq) as [v Hv]. exists v. split; [done|].
    rewrite zlookup_fmap, Hv in Hpid. by injection Hpid as ->.
  - intros t Ht. pose proof (ok_range _ _ _ (qi_ok _ _ Hq) _ _ Ht) as Hr.
    destruct (qi_alive _ _ Hq _ _ Ht) as (pt & Hpt & Hpos & _). simpl in Hpt. rewrite zlookup_fmap in Hpt.
    destruct (zlookup (task k) t) as [w|] eqn:Hw; [|done]. injection Hpt as <-.
    destruct (tm_quanta _ _ Hp _ _ _ (times_lookup _ _ _ Hw)) as [Hb Hlive].
    exists (quantum w). unfold quanta. rewrite zlookup_fmap, Hw. split; [done|].
    assert (0 < quantum w) by (apply Hlive; split; lia). lia.
Qed.

(** C8: Round robin.  In every state the kernel reaches - through system calls and
    page faults of live processes while a pid is left, interrupts and stores - with
    a live process running, while processes compute a runnable process waits exactly for the rest of the running slice and one
    quantum of each process ahead of it in the run queue: it runs after that many
    ticks of the clock, not before, and no tick on the way fails. *)
Theorem round_robin ta tb k q t l l' n k' :
  reachable ta tb k → alive k → qinv (qview_of k) q → without (cur (sched k)) (q Runqueue) = l ++ t :: l' →
  computing k n k' → n ≤ waiting k l →
  (cur (sched k') = t ↔ n = waiting k l) ∧ ∀ eax, ∃ k'', ends (clock_interrupt eax) k' k''.
Proof.
  intros Hreach Ha Hinv Hq Hc Hn. pose proof (reachable_running _ _ _ _ Hreach Ha Hinv) as Hrun.
  assert (waits (quanta k) t (waiting k l) k) as Hw by by eapply waits_behind.
  destruct (computing_waits _ _ _ _ _ _ Hw Hc) as (_ & Hb & Ht).
  destruct (decide (n = waiting k l)) as [E|E].
  - destruct (Ht E) as [q' Hrun' Hcur]. split; [done|]. intros eax. by eapply running_tick.
  - pose proof (Hb ltac:(lia)) as H. split.
    + pose proof (waits_cur _ _ _ _ H). by split.
    + destruct H as [q' ? ? Hrun' _ _]. intros eax. by eapply running_tick.
Qed.

(** Process 0 forks, and goes on. *)
Definition forked_check (k : kstate) : bool :=
  bool_decide (pid <$> task k = 0 :: 1 :: replicate 8 (-1)) && bool_decide (cur (sched k) = 0) &&
  bool_decide (left4current (sched k) = 60) && bool_decide (init <$> sem k = replicate 26 0) &&
  match list_empty KeyboardQueueP (lists k) with Ret b _ => b | _ => false end.
Lemma fork_runs :
  match boot boot_table_addr (kstate_bss boot_task_addr) with
  | Ret _ k => match system_call_handler 0 2 0 0 0 k with Ret _ k' => forked_check k' | _ => false end
  | _ => false
  end = true.
Proof. vm_cast_no_check (eq_refl true). Qed.

Lemma forked :
  ∃ k q, reachable boot_task_addr boot_table_addr k ∧ alive k ∧ qinv (qview_of k) q ∧
    cur (sched k) = 0 ∧ left4current (sched k) = 60 ∧ without 0 (q Runqueue) = [1].
Proof.
  destruct booted as (k0 & q0 & H0). pose proof fork_runs as H. rewrite (so_boot _ _ H0) in H.
  destruct (system_call_handler 0 2 0 0 0 k0) as [[] k| | | |] eqn:E; [|discriminate H..].
  unfold forked_check in H. rewrite !andb_true_iff, !bool_decide_eq_true in H.
  destruct H as [[[[Hpids Hcur] Hleft] Hsems] Hkbd].
  assert (reachable boot_task_addr boot_table_addr k) as Hr.
  { exists k0. split; [exact (so_boot _ _ H0)|]. eapply star_step; [constructor|].
    apply (step_system_call 0 2 0 0 0); [|left; by exists ()]. split; simpl.
    - exists 0. by rewrite (so_pids _ _ H0), (so_cur _ _ H0).
    - by rewrite (so_counter _ _ H0). }
  clear E H0 k0 q0. destruct (paced_reachable _ _ _ Hr) as [[_ [q Hq]] _]. pose proof (qi_ok _ _ Hq) as Hok.
  assert (∀ t p, zlookup (pid <$> task k) t = Some p → 0 ≤ p → t = 0 ∨ t = 1) as Hlive.
  { rewrite Hpids. intros t p Ht Hp. pose proof (zlookup_Some_range _ _ _ Ht) as Hr'.
    unfold zlookup in Ht. rewrite decide_True in Ht by lia. destruct (Z.to_nat t) as [|[|n]] eqn:En; [lia..|].
    change (replicate 8 (-1) !! n = Some p) in Ht. apply lookup_replicate in Ht as [-> _]. lia. }
  assert (q KeyboardQueue = []) as Hk.
  { assert (wp (list_empty KeyboardQueueP) (lists k) (λ b _, b = bool_decide (q KeyboardQueue = [])) (λ _, False)) as He
      by by apply (wp_list_empty_head (active (sem k)) q).
    unfold wp in He. destruct (list_empty KeyboardQueueP (lists k)) as [[] ?| | | |]; try done.
    by apply (bool_decide_eq_true_1 _ (eq_sym He)). }
  assert (1 ∈ q Runqueue) as H1.
  { destruct (proj1 (qi_live _ _ Hq 1 1 ltac:(simpl; by rewrite Hpids)) ltac:(done)) as [hd Hhd].
    pose proof (ok_live _ _ _ Hok _ _ Hhd) as Hact. destruct hd as [| |i|]; [done|rewrite Hk in Hhd; by destruct (not_elem_of_nil 1)| |done].
    exfalso. simpl in Hact. rewrite <-zlookup_fmap, Hsems in Hact.
    by apply zlookup_elem, (elem_of_replicate 26) in Hact as [? _]. }
  exists k, q. split; [exact Hr|]. split; [exists 0; by rewrite Hcur, Hpids|]. do 3 (split; [done|]).
  apply only_one; [apply NoDup_filter, (queues_ok_NoDup _ _ _ _ Hok)|by apply elem_of_without|].
  intros t [Hne Ht]%elem_of_without. destruct (qi_alive _ _ Hq _ _ Ht) as (p & Hp & Hpos & _).
  by destruct (Hlive _ _ Hp Hpos).
Qed.

Lemma computing_star k n k' : computing k n k' → star kstep k k'.
Proof.
  induction 1 as [|n eax k1 k2 _ IH He|n addr b k1 k2 _ IH He]; [constructor|..]; (eapply star_step; [exact IH|]).
  - by eapply step_clock.
  - by eapply step_user.
Qed.

(** The child runs, 60 ticks later. *)
Lemma child_runs :
  ∃ k v, reachable boot_task_addr boot_table_addr k ∧ cur (sched k) = 1 ∧ zlookup (task k) 1 = Some v ∧ pid v ≠ -1.
Proof.
  destruct forked as (k & q & Hr & Ha & Hq & Hcur & Hleft & Hrun). rewrite <-Hcur in Hrun.
  assert (waits (quanta k) 1 60 k) as Hw.
  { eapply (waits_behind _ _ _ _ q [] []); [by eapply reachable_running|exact Hrun|]. unfold waiting. by rewrite Hleft. }
  destruct (waits_computing _ 1 60 k 60 Hw) as [k' Hk']; [done|].
  destruct (computing_waits _ _ _ _ _ _ Hw Hk') as (_ & _ & Hturn). destruct (Hturn eq_refl) as [q' Hrun' Hc].
  destruct (rn_alive _ _ _ Hrun') as (v & Hv & Hp). rewrite Hc in Hv. exists k', v. split; [|done].
  destruct Hr as (k0 & Hboot & Hsteps). exists k0. split; [done|]. eapply star_trans; [exact Hsteps|by eapply computing_star].
Qed.

(** Process 0 has the processor for the 60 ticks of its slice; then it is the
    turn of its child. *)
Lemma round_robin_witness :
  ∃ k k', reachable boot_task_addr boot_table_addr k ∧ cur (sched k) = 0 ∧ computing k 60 k' ∧ cur (sched k') = 1.
Proof.
  destruct forked as (k & q & Hr & Ha & Hq & Hcur & Hleft & Hrun). rewrite <-Hcur in Hrun.
  assert (waiting k [] = 60) as Hw by (unfold waiting; by rewrite Hleft).
  destruct (waits_computing (quanta k) 1 60 k 60) as [k' Hk'].
  { eapply (waits_behind _ _ _ _ q [] []); [by eapply reachable_running|exact Hrun|done]. } { done. }
  exists k, k'. split; [exact Hr|]. split; [exact Hcur|]. split; [exact Hk'|].
  apply (round_robin _ _ k q 1 [] [] 60 k' Hr Ha Hq Hrun Hk'); rewrite Hw; done.
Defined.
