(* ===== verification/Frames.v ===== *)
(** * The frames of the processes: no two processes share one, and each has its
    own until it exits. *)
From stdpp Require Import functions.
From S2P Require Import Prelude KList Mm Utils Io Fs KState Sched.
From S2P Require Import Sem Devices Sys Interrupt Queues SchedFacts Quiet KernelInv ForkFacts Boot.
From S2P Require Import FsFacts FsOps Kernel States Framed.

(** ** Ownership. *)

(** The frames in use, and the pid and the frames of each task. *)
Abbreviation frame_view := (list Z * list (Z * list Z))%type.
Definition task_frames (v : task_struct) : Z * list Z := (pid v, ph_pages v).
Definition frames_of (k : kstate) : frame_view := (phys_mem (mm k), task_frames <$> task k).

(** A live process has frames [alloc_frame] gives, marked as used, each once, and
    none of another live process.  The frames [spare], behind the data pages of
    process 0 at boot, are in use and no live process records them. *)
Record frames_ok (spare : list Z) (F : frame_view) : Prop := {
  fk_used : ∀ t p l f, zlookup F.2 t = Some (p, l) → p ≠ -1 → f ∈ l →
    is_alloc_candidate f ∧ zlookup F.1 f = Some USED_FRAME;
  fk_nodup : ∀ t p l, zlookup F.2 t = Some (p, l) → p ≠ -1 → NoDup l;
  fk_disjoint : ∀ t t' p p' l l' f, t ≠ t' → zlookup F.2 t = Some (p, l) → zlookup F.2 t' = Some (p', l') →
    p ≠ -1 → p' ≠ -1 → f ∈ l → f ∉ l';
  fk_spare : ∀ f, f ∈ spare → zlookup F.1 f = Some USED_FRAME ∧
    ∀ t p l, zlookup F.2 t = Some (p, l) → p ≠ -1 → f ∉ l;
}.

(** A property of the frames, of a state. *)
Definition seen (P : frame_view → Prop) (k : kstate) : Prop := P (frames_of k).

Section Changes.
Context (spare phys : list Z) (ts : list (Z * list Z)) (t p : Z) (l : list Z).
Abbreviation frames_ok := (frames_ok spare).

(** A process dies. *)
Lemma frames_ok_dead : frames_ok (phys, ts) → frames_ok (phys, zinsert t (-1, l) ts).
Proof.
  intros H. assert (∀ t' p' l', zlookup (zinsert t (-1, l) ts) t' = Some (p', l') → p' ≠ -1 → zlookup ts t' = Some (p', l')) as Hold.
  { intros t' p' l' [[_ [= -> _]]|[_ ?]]%zlookup_zinsert_Some; done. }
  split; simpl.
  - intros t' p' l' f Ht Hp. apply (fk_used _ _ H t' p' l'); [by apply Hold|done].
  - intros t' p' l' Ht Hp. apply (fk_nodup _ _ H t' p' l'); [by apply Hold|done].
  - intros t1 t2 p1 p2 l1 l2 f Hne H1 H2 Hp1 Hp2. apply (fk_disjoint _ _ H t1 t2 p1 p2); [done| | |done|done]; by apply Hold.
  - intros f Hf. destruct (fk_spare _ _ H f Hf) as [Hu Hout]. split; [done|]. intros t' p' l' Ht Hp. by eapply Hout, Hp; apply Hold.
Qed.

(** Its frames, which no other process has, become free. *)
Lemma frames_ok_freed phys' :
  frames_ok (phys, ts) → zlookup ts t = Some (p, l) → p ≠ -1 →
  (∀ f, f ∉ l → zlookup phys' f = zlookup phys f) → frames_ok (phys', zinsert t (-1, l) ts).
Proof.
  intros H Ht Hp Hphys. destruct (frames_ok_dead H) as [Hu Hn Hd Hsp]. split; simpl in *; [|done|done|].
  2: { intros f Hf. destruct (fk_spare _ _ H f Hf) as [Hfu Hout]. split; [|by apply Hsp]. rewrite Hphys; [done|by eapply Hout]. }
  intros t' p' l' f Ht' Hp' Hf. rewrite Hphys; [by eapply Hu|].
  apply zlookup_zinsert_Some in Ht' as [[_ [= -> _]]|[Hne Ht']]; [done|]. by apply (fk_disjoint _ _ H t' t p' p l' l).
Qed.

(** A process is born in a free task with frames that were free. *)
Lemma frames_ok_born frames p' :
  frames_ok (phys, ts) → zlookup ts t = Some (-1, l) → fresh phys frames →
  frames_ok (mark frames phys, zinsert t (p', frames) ts).
Proof.
  intros H Ht Hfr. pose proof (zlookup_Some_range _ _ _ Ht) as Hr.
  assert (∀ t' q l' f, zlookup ts t' = Some (q, l') → q ≠ -1 → f ∈ l' → f ∉ frames) as Hother.
  { intros t' q l' f Ht' Hq Hf Hin. destruct (fresh_free _ _ _ Hfr Hin) as [_ Hfree].
    destruct (fk_used _ _ H _ _ _ _ Ht' Hq Hf) as [_ Hused]. simpl in Hused. by rewrite Hfree in Hused. }
  split; simpl.
  - intros t' q l' f [[_ [= -> ->]]|[_ Ht']]%zlookup_zinsert_Some Hq Hf; rewrite mark_lookup by done.
    + rewrite decide_True by done. by destruct (fresh_free _ _ _ Hfr Hf).
    + rewrite decide_False by by eapply Hother. by eapply (fk_used _ _ H).
  - intros t' q l' [[_ [= -> ->]]|[_ Ht']]%zlookup_zinsert_Some Hq; [by eapply fresh_nodup|by eapply (fk_nodup _ _ H)].
  - intros t1 t2 q1 q2 l1 l2 f Hne [[<- [= -> ->]]|[_ H1]]%zlookup_zinsert_Some
      [[<- [= -> ->]]|[_ H2]]%zlookup_zinsert_Some Hq1 Hq2 Hf; [done| | |by eapply (fk_disjoint _ _ H t1 t2)].
    + intros Hf2. by eapply Hother.
    + by eapply Hother.
  - intros f Hf. destruct (fk_spare _ _ H f Hf) as [Hu Hout]. simpl in Hu, Hout.
    assert (f ∉ frames) as Hn by (intros Hin; destruct (fresh_free _ _ _ Hfr Hin) as [_ Hfree]; by rewrite Hfree in Hu).
    split; [by rewrite mark_lookup, decide_False by done|].
    intros t' q l' [[_ [= -> ->]]|[_ Ht']]%zlookup_zinsert_Some Hq; [done|by eapply Hout].
Qed.
End Changes.

(** ** What leaves the frames alone. *)

Lemma frames_core k k' : core k' = core k → frames_of k' = frames_of k.
Proof.
  intros E. pose proof (f_equal (λ c, (c.1.1, fst <$> c.2)) E) as H. unfold core in H. simpl in H.
  rewrite <-!list_fmap_compose in H. exact H.
Qed.

Lemma frames_zinsert k i v w :
  zlookup (task k) i = Some v → task_frames w = task_frames v →
  frames_of (set_task (zinsert i w (task k)) k) = frames_of k.
Proof.
  intros Hv E. unfold frames_of. simpl. rewrite zinsert_fmap, E. f_equal. apply zinsert_id. by rewrite zlookup_fmap, Hv.
Qed.

#[export] Instance seen_framed P : framed (seen P).
Proof.
  split.
  - intros k k' E. unfold seen. by rewrite (frames_core _ _ E).
  - done.
  - intros k i j v Hv. unfold seen. by erewrite frames_zinsert.
Qed.

Lemma seen_FS P {A} (m : M fs_state A) : preserves (seen P) (zoom FS m).
Proof. by apply preserves_zoom. Qed.
Lemma seen_fd_set P i j p : preserves (seen P) (fd_set i j p).
Proof.
  unfold fd_set. apply preserves_bind; [apply preserves_aget|]. intros v0.
  apply preserves_bind; [apply preserves_of_option|]. intros _.
  apply preserves_amodify. intros k v Hk Hv. unfold seen. by erewrite frames_zinsert.
Qed.
#[export] Hint Resolve seen_FS seen_fd_set : preserves.

Lemma seen_sys_dup P fd : preserves (seen P) (sys_dup fd).
Proof. unfold sys_dup. preserves. Qed.
Lemma seen_sys_open P path flags : preserves (seen P) (sys_open path flags).
Proof. unfold sys_open. preserves. Qed.
#[export] Hint Resolve seen_sys_dup seen_sys_open : preserves.

(** ** [sys_exit]. *)

Section Isolated.
Context (spare : list Z).
Abbreviation isolated := (seen (frames_ok spare)).

Lemma frames_lookup k t v : zlookup (task k) t = Some v → zlookup (frames_of k).2 t = Some (pid v, ph_pages v).
Proof. intros Hv. simpl. by rewrite zlookup_fmap, Hv. Qed.

Lemma frames_set_task k t w :
  frames_of (set_task (zinsert t w (task k)) k) = ((frames_of k).1, zinsert t (task_frames w) (frames_of k).2).
Proof. unfold frames_of. simpl. by rewrite zinsert_fmap. Qed.

Lemma seen_same (P : frame_view → Prop) k k' : frames_of k' = frames_of k → seen P k → seen P k'.
Proof. unfold seen. by intros ->. Qed.

(** An action that leaves the frames alone, in a chain. *)
Lemma wlp_unseen {A} (m : K A) k (Q : A → kstate → Prop) (X : kstate → Prop) :
  (∀ P, preserves (seen P) m) →
  (∀ a k', frames_of k' = frames_of k → Q a k') → (∀ k', frames_of k' = frames_of k → X k') → wlp m k Q X.
Proof. intros Hm HQ HX. eapply wlp_mono; [by apply (Hm (λ F, F = frames_of k))|..]; [intros a k'; apply HQ|apply HX]. Qed.

(** The frames [l] of the process [t], which died, are given back. *)
Lemma wlp_release_frames k t l phys ts (Q : unit → kstate → Prop) X :
  frames_of k = (phys, zinsert t (-1, l) ts) → 0 ≤ t < zlen ts → Forall is_alloc_candidate l →
  (∀ k' phys', frames_of k' = (phys', zinsert t (-1, l) ts) → (∀ f, f ∉ l → zlookup phys' f = zlookup phys f) → Q () k') →
  wlp (for_range 0 NUM_PAG_DATA (λ i,
    let! v := aget Task t in
    let! f := of_option (zlookup (ph_pages v) i) in
    zoom MM (free_frame f))) k Q X.
Proof.
  intros Hk Ht Hl HQ.
  apply (wlp_for_range (λ _ k', ∃ phys', frames_of k' = (phys', zinsert t (-1, l) ts) ∧
    ∀ f, f ∉ l → zlookup phys' f = zlookup phys f)); [done|by exists phys| |].
  2: { intros k' (phys' & Hk' & Hp). by eapply HQ. }
  intros i k' _ (phys' & Hk' & Hp). apply wlp_bind, wlp_aget. intros v Hv%frames_lookup.
  apply wlp_bind, wlp_of_option. intros f Hf%zlookup_elem. rewrite Hk' in Hv. simpl in Hv.
  rewrite zlookup_zinsert_eq in Hv by done. injection Hv as Hpid Hpages. rewrite <-Hpages in Hf.
  apply wlp_zoom, wlp_aset. intros _. exists (zinsert (u32 f) FREE_FRAME phys'). injection Hk' as E1 E2. split.
  - unfold frames_of. simpl. rewrite E1, <-E2. done.
  - intros g Hg. rewrite <-(Hp g Hg). apply zlookup_zinsert_ne. intros <-. apply Hg.
    rewrite Forall_forall in Hl. destruct (Hl f Hf) as [Hr _]. unfold NUM_PAG_KERNEL, TOTAL_PAGES in Hr.
    by rewrite u32_small by lia.
Qed.

Lemma isolated_sys_exit k :
  isolated k → ready (qview_of k) → wlp sys_exit k (λ _, isolated) isolated.
Proof.
  intros Hk Hr. destruct (ready_current _ Hr) as (v & Hv & Hp). unfold sys_exit, current.
  apply wlp_bind, wlp_ret. simpl. apply wlp_bind, wlp_aget. intros v' Hv'. simpl in Hv'. simplify_eq.
  case_bool_decide; [|by apply wlp_ret].
  pose proof (frames_lookup _ _ _ Hv) as Hl. set (t := cur (sched k)) in *. set (l := ph_pages v) in *.
  assert (pid v ≠ -1) as Hne by lia. assert (Forall is_alloc_candidate l) as Hcand.
  { apply Forall_forall. intros f Hf. by destruct (fk_used _ _ Hk _ _ _ _ Hl Hne Hf). }
  assert (0 ≤ t < zlen (frames_of k).2) as Ht by by eapply zlookup_Some_range.
  apply wlp_bind, wlp_unseen; [intros P; preserves| |intros k' E; by eapply seen_same].
  intros [] k1 E1. apply wlp_bind, wlp_amodify. intros v1 Hv1. simpl in Hv1.
  pose proof (frames_lookup _ _ _ Hv1) as Hl1. rewrite E1, Hl in Hl1. injection Hl1 as _ Hpages.
  set (k2 := update Task _ k1). assert (frames_of k2 = ((frames_of k).1, zinsert t (-1, l) (frames_of k).2)) as E2.
  { unfold k2. simpl. rewrite (frames_set_task k1), E1. unfold task_frames. simpl. by rewrite <-Hpages. }
  clearbody k2.
  cbv beta. apply wlp_bind, wlp_unseen; [intros P; preserves| |].
  2: { intros k' E. unfold seen. rewrite E, E2. by apply frames_ok_dead. }
  intros [] k3 E3. rewrite <-E3 in E2. apply wlp_bind. eapply wlp_release_frames; [exact E2|exact Ht|exact Hcand|].
  intros k4 phys' E4 Hphys. assert (isolated k4) as H4.
  { unfold seen. rewrite E4. by eapply frames_ok_freed. }
  assert (preserves isolated (put Left4current 0;; schedule 0)) as Hrest by preserves. by apply Hrest.
Qed.

(** ** [sys_fork]. *)

(** The child starts as a copy of the parent. *)
Lemma wlp_copied_task k parent child (Q : unit → kstate → Prop) X :
  (∀ t h, zlookup (task k) parent = Some t → Q () (set_lists h (set_task (zinsert child t (task k)) k))) →
  wlp (copy_task parent child) k Q X.
Proof.
  intros HQ. unfold copy_task. apply wlp_bind, wlp_aget. intros t Ht. simpl in Ht. apply wlp_bind, wlp_aset. intros _.
  apply wlp_bind, wlp_zoom. unfold wlp, load, RunListP. simpl. destruct (lists k !! RunList parent) as [c|]; [|done].
  unfold zoom, store, bind, load. simpl. destruct (lists k !! RunList child) as [c'|]; [|done]. by apply HQ.
Qed.

(** Memory traffic. *)
Lemma wlp_traffic {A} (m : M mm_state A) k (Q : A → kstate → Prop) X :
  respects (agree phys_mem) m → (∀ a k', frames_of k' = frames_of k → Q a k') → wlp (zoom MM m) k Q X.
Proof.
  intros Hm HQ. apply wlp_zoom. eapply wlp_respects; [exact Hm|]. intros a m' E. apply HQ.
  unfold frames_of. simpl. by rewrite E.
Qed.

(** The child has the first [j] of its frames; the rest are those of the parent. *)
Definition endowed (phys : list Z) (ts : list (Z * list Z)) (child : Z) (frames : list Z) (j : Z) (F : frame_view) : Prop :=
  F.1 = phys ∧ ∃ p l, F.2 = zinsert child (p, l) ts ∧ zlen l = NUM_PAG_DATA ∧
    ∀ i f, 0 ≤ i < j → zlookup frames i = Some f → zlookup l i = Some f.

Section Child.
Context (phys : list Z) (ts : list (Z * list Z)) (child : Z) (frames : list Z).
Context (Hchild : 0 ≤ child < zlen ts).

Lemma wlp_endow k j f (Q : unit → kstate → Prop) X :
  seen (endowed phys ts child frames j) k → 0 ≤ j < NUM_PAG_DATA → zlookup frames j = Some f →
  (∀ k', seen (endowed phys ts child frames (j + 1)) k' → Q () k') → wlp (ph_pages_set child j f) k Q X.
Proof using Hchild.
  intros (Hphys & p & l & Hts & Hlen & Hl) Hj Hf HQ. unfold ph_pages_set.
  apply wlp_bind, wlp_aget. intros v Hv%frames_lookup. rewrite Hts, zlookup_zinsert_eq in Hv by done. injection Hv as -> ->.
  apply wlp_bind, wlp_of_option. intros _ _. apply wlp_amodify. intros w Hw. apply HQ.
  simpl. pose proof (frames_set_task k child (t_ph_pages (zinsert j f (ph_pages v)) w)) as E.
  unfold seen. rewrite E. split; [done|]. exists (pid w), (zinsert j f (ph_pages v)). split; [|split].
  - simpl in Hts |- *. by rewrite Hts, zinsert_zinsert_eq.
  - by rewrite zlen_zinsert.
  - intros i g Hi Hg. rewrite zlookup_zinsert by lia. case_decide as Eij; [congruence|]. apply Hl; [lia|done].
Qed.

Lemma wlp_copy_pages k (Q : unit → kstate → Prop) X :
  seen (endowed phys ts child frames 0) k → zlen frames = NUM_PAG_DATA →
  (∀ k' p, frames_of k' = (phys, zinsert child (p, frames) ts) → Q () k') →
  wlp (for_range 0 (NUM_PAG_DATA `min` (zlen frames + 1)) (fork_copy_page child frames)) k Q X.
Proof using Hchild.
  intros Hk Hlen HQ. rewrite Hlen. change (NUM_PAG_DATA `min` (NUM_PAG_DATA + 1)) with NUM_PAG_DATA.
  apply (wlp_for_range (λ j, seen (endowed phys ts child frames j))); [done|done| |].
  - intros j k1 Hj H1. unfold fork_copy_page. apply wlp_bind, wlp_of_option. intros f Hf. cbv zeta.
    apply wlp_bind, wlp_traffic; [respects|]. intros _ k2 E2. apply (seen_same _ _ _ E2) in H1.
    apply wlp_bind, wlp_traffic; [respects|]. intros _ k3 E3. apply (seen_same _ _ _ E3) in H1.
    apply wlp_bind. eapply wlp_endow; [exact H1|done|done|]. intros k4 H4.
    apply wlp_traffic; [respects|]. intros _ k5 E5. by apply (seen_same _ _ _ E5) in H4.
  - intros k1 (Hphys & p & l & Hts & Hl & Hall). apply (HQ k1 p). rewrite (surjective_pairing (frames_of k1)), Hphys, Hts.
    do 3 f_equal. apply (zlookup_ext l frames); [congruence|]. intros i Hi.
    destruct (zlookup_range frames i) as [f Hf]; [lia|]. rewrite Hf. apply Hall; [lia|done].
Qed.
End Child.

(** The child is complete but for its other members. *)
Definition born (phys : list Z) (ts : list (Z * list Z)) (child : Z) (frames : list Z) (F : frame_view) : Prop :=
  ∃ p, F = (mark frames phys, zinsert child (p, frames) ts).

Lemma born_pid phys ts child frames p : preserves (seen (born phys ts child frames)) (task_set t_pid child p).
Proof.
  apply preserves_amodify. intros k v [q Hk] Hv. exists p.
  pose proof (frames_lookup _ _ _ Hv) as Hl. rewrite Hk in Hl. pose proof (zlookup_Some_range _ _ _ Hl) as Hr.
  simpl in Hl, Hr. rewrite zlen_zinsert in Hr. rewrite zlookup_zinsert_eq in Hl by done. injection Hl as _ Hpages.
  change (frames_of (set_task (zinsert child (t_pid p v) (task k)) k) = (mark frames phys, zinsert child (p, frames) ts)).
  rewrite frames_set_task, Hk. simpl. rewrite zinsert_zinsert_eq. unfold task_frames. simpl. by rewrite <-Hpages.
Qed.
#[local] Hint Resolve born_pid : preserves.

Lemma isolated_sys_fork k : kinv k → isolated k → wlp sys_fork k (λ _, isolated) isolated.
Proof.
  intros [Hs [q Hq]] Hk. unfold sys_fork, current. apply wlp_bind, wp_wlp, (wp_srch_free_task k q); [done| |].
  2: { intros _. rewrite bool_decide_true by done. by apply wlp_ret. }
  intros child v Hv Hpid _. pose proof (task_lookup_range _ _ _ _ Hq Hv) as Hr. rewrite bool_decide_false by lia.
  assert (pid v = -1) as Hdead.
  { pose proof (frames_lookup _ _ _ Hv) as Hl. destruct (qi_pid _ _ Hq child (pid v)) as [?|?]; [|done|lia].
    simpl. by rewrite zlookup_fmap, Hv. }
  pose proof (frames_lookup _ _ _ Hv) as Hl. rewrite Hdead in Hl. pose proof (zlookup_Some_range _ _ _ Hl) as Hc.
  apply wlp_bind, wlp_ret. simpl. apply wlp_bind, wlp_copied_task. intros t h Ht.
  pose proof (sh_task _ Hs _ _ Ht) as Hts. set (k1 := set_lists h _).
  assert (frames_of k1 = ((frames_of k).1, zinsert child (task_frames t) (frames_of k).2)) as E1 by apply frames_set_task.
  assert (shape k1) as Hs1 by by eapply shape_set_lists, shape_set_task.
  destruct (zlookup_range (task k1) (cur (sched k))) as [w Hw].
  { simpl. rewrite zlen_zinsert. by eapply zlookup_Some_range. }
  apply wlp_bind, wp_wlp. apply (wp_fork_alloc k1 (cur (sched k)) w); [done|done| |].
  - intros _. apply wlp_bind, wlp_amodify. intros u Hu. apply wlp_ret. simpl in Hu |- *.
    change (isolated (set_task (zinsert child (t_pid (-1) u) (task k1)) k1)).
    unfold seen. rewrite frames_set_task, E1. simpl. rewrite zinsert_zinsert_eq. by apply frames_ok_dead.
  - intros frames Hlen Hfr _. apply wlp_bind.
    eapply (wlp_copy_pages (mark frames (frames_of k).1) (frames_of k).2 child frames); [done| |done|].
    + unfold seen. split; [done|]. exists (pid t), (ph_pages t). split; [|split; [apply Hts|lia]].
      change (frames_of (with_phys (mark frames (phys_mem (mm k1))) k1)).2 with (frames_of k1).2. by rewrite E1.
    + intros k2 p E2. set (B := seen (born (frames_of k).1 (frames_of k).2 child frames)).
      assert (B k2) as Hborn by by exists p.
      assert (∀ k', B k' → isolated k') as Hiso.
      { intros k' [p' E]. unfold seen. rewrite E. by eapply frames_ok_born. }
      apply (wlp_mono _ _ (λ _, B) _ B); [|intros _; exact Hiso|exact Hiso]. cbv beta.
      match goal with |- wlp ?m _ _ _ => enough (preserves B m) as H by by apply H end.
      unfold B. clear. preserves.
Qed.

(** ** Every step. *)

Lemma isolated_stays : stays isolated.
Proof using Type.
  split; [apply _|intros q; preserves..| | |].
  - intros k _ Hr Hi. by apply isolated_sys_exit.
  - intros k Hk _ Hi. by apply isolated_sys_fork.
  - intros eax. apply preserves_kept_if. preserves.
Qed.
End Isolated.
Abbreviation isolated spare := (seen (frames_ok spare)).

(** ** The boot. *)

(** The frames of process 0, one after the other; [pids] are those of the tasks. *)
Lemma wlp_task0_frames k (Q : unit → kstate → Prop) X :
  shape k → 0 < zlen (task k) → even_free_from 304 (mm k) →
  (∀ k' frames p, fresh (frames_of k).1 frames →
     frames_of k' = (mark frames (frames_of k).1, zinsert 0 (p, frames) (frames_of k).2) → Q () k') →
  wlp (for_range 0 NUM_PAG_DATA (λ i, let! f := zoom MM alloc_frame in ph_pages_set 0 i f)) k Q X.
Proof.
  intros Hs Hlen Hfree HQ. destruct (zlookup_range (task k) 0) as [v Hv]; [lia|].
  pose proof (frames_lookup _ _ _ Hv) as Hl. assert (0 ≤ 0 < zlen (frames_of k).2) as Hr by by eapply zlookup_Some_range.
  destruct (frames_of k) as [phys ts] eqn:Ek. simpl in Hl, Hr |- *.
  apply (wlp_for_range (λ i k', ∃ frames, zlen frames = i ∧ fresh phys frames ∧
    even_free_from (304 + 2 * i) (mm k') ∧ seen (endowed (mark frames phys) ts 0 frames i) k')); [done| | |].
  - exists []. split; [done|]. split; [done|]. split; [done|]. split; [by rewrite Ek|].
    exists (pid v), (ph_pages v). rewrite Ek. split; [simpl; by rewrite zinsert_id|]. split; [|intros; lia].
    apply (sh_task _ Hs _ _ Hv).
  - intros i k1 Hi (frames & Hlenf & Hfr & Hev & [Hphys (p & l & Hts & Hlenl & Hall)]). unfold NUM_PAG_DATA in Hi.
    apply wlp_bind, wp_wlp, wp_zoom. eapply wp_alloc_from; [exact Hev| | |].
    { exists (152 + i). lia. } { unfold NUM_PAG_KERNEL, TOTAL_PAGES. lia. }
    intros f Hc _ Hf m' Hev'. simpl in Hphys, Hf. rewrite Hphys in Hf.
    apply (wlp_endow (mark (frames ++ [f]) phys) ts 0 (frames ++ [f]) Hr _ i f); [|done| |].
    + split; [simpl; by rewrite Hphys, mark_snoc|]. exists p, l. split; [exact Hts|]. split; [exact Hlenl|].
      intros j g Hj Hg. apply Hall; [done|]. by rewrite zlookup_snoc, decide_False in Hg by lia.
    + by rewrite zlookup_snoc, decide_True by lia.
    + intros k2 H2. exists (frames ++ [f]). split; [|split; [by apply fresh_snoc|split; [|done]]].
      { unfold zlen in *. rewrite length_app. simpl. lia. }
      destruct H2 as [Hphys2 _]. replace (304 + 2 * (i + 1)) with (304 + 2 * i + 2) by lia.
      apply (free_phys _ m'); [|done]. simpl in Hphys2 |- *. by rewrite Hphys2, Hphys, mark_snoc.
  - intros k1 (frames & Hlenf & Hfr & _ & [Hphys (p & l & Hts & Hlenl & Hall)]). apply (HQ k1 frames p Hfr).
    rewrite (surjective_pairing (frames_of k1)), Hphys, Hts. do 3 f_equal.
    apply (zlookup_ext l frames); [congruence|]. intros i Hi.
    destruct (zlookup_range frames i) as [f Hf]; [done|]. rewrite Hf. apply Hall; [lia|done].
Qed.

(** Until the first context switch, the data pages of process 0 are mapped to
    the frames [spare]. *)
Definition spare_pages (spare : list Z) (k : kstate) : Prop :=
  cur (sched k) = 0 ∧ data_pages (mm k) = (λ f, Some (user_pte f)) <$> spare.

Lemma data_pages_mapped l m :
  zlen l = NUM_PAG_DATA →
  (∀ j f, zlookup l j = Some f → zlookup (pagusr_table m) (PAG_LOG_INIT_DATA_P0 + j) = Some (user_pte f)) →
  data_pages m = (λ f, Some (user_pte f)) <$> l.
Proof.
  intros Hl Hm. apply list_eq. intros n. unfold data_pages. rewrite !list_lookup_fmap.
  destruct (decide (Z.of_nat n < NUM_PAG_DATA)) as [Hn|Hn].
  - destruct (zlookup_range l (Z.of_nat n)) as [f Hf]; [lia|].
    pose proof (Hm _ _ Hf) as E. rewrite zlookup_nat in Hf. rewrite lookup_seqZ_lt, Z.add_0_l, Hf by lia.
    change (Some (zlookup (pagusr_table m) (PAG_LOG_INIT_DATA_P0 + Z.of_nat n)) = Some (Some (user_pte f))). by rewrite E.
  - rewrite lookup_seqZ_ge by lia. rewrite (lookup_ge_None_2 l); [done|]. unfold zlen in Hl. lia.
Qed.

Lemma spare_pages_mapped l k :
  cur (sched k) = 0 → zlen l = NUM_PAG_DATA → spare_mapped l (mm k) → spare_pages l k.
Proof. intros Hc Hl Hsp. split; [done|]. apply data_pages_mapped; [done|apply Hsp]. Qed.

(** The rest of the boot, for process 0. *)
Section Spare.
Context (l : list Z).

Lemma spare_zoom {T A} (L : lens kstate T) (m : M T A) :
  (∀ k t, (cur (sched (update L t k)), data_pages (mm (update L t k))) = (cur (sched k), data_pages (mm k))) →
  preserves (spare_pages l) (zoom L m).
Proof using Type.
  intros H. apply preserves_zoom. intros k t. destruct (proj1 (pair_equal_spec _ _ _ _) (H k t)) as [E1 E2].
  unfold spare_pages. by rewrite E1, E2.
Qed.
Lemma spare_task_set {A} (setter : A → task_struct → task_struct) i a :
  preserves (spare_pages l) (task_set setter i a).
Proof using Type. by apply preserves_amodify. Qed.
Lemma spare_alloc_frame : preserves (spare_pages l) (zoom MM alloc_frame).
Proof using Type.
  apply (preserves_respects _ (λ k k', cur (sched k') = cur (sched k) ∧ data_pages (mm k') = data_pages (mm k))).
  { intros k k' [Ec Ed]. unfold spare_pages. by rewrite Ec, Ed. }
  eapply (respects_zoom _ (agree data_pages)); [by intros k m E|]. unfold alloc_frame. respects. by apply respects_aset.
Qed.
End Spare.

Lemma wlp_boot_isolated tb k :
  pristine k → wlp (boot tb) k (λ _ k', ∃ l, isolated l k' ∧ spare_pages l k') (λ _, True).
Proof.
  intros Hp. apply wlp_boot_start; [done|]. clear k Hp. intros k Hk Hf. unfold init_task0.
  apply wlp_bind, wlp_task0_start; [done|done|]. clear k Hk Hf. intros l k Hk Hf Hl Hsp.
  pose proof Hk as [Hs (Hcur & _ & _ & Hpids) _].
  assert (0 < zlen (task k)) as Hlen by by rewrite <-(zlen_fmap pid), Hpids.
  assert (preserves (isolated l) iniTics) as Hi by (unfold iniTics; preserves).
  assert (preserves (spare_pages l) iniTics) as Ht by by apply preserves_put.
  eapply wlp_mono; [apply (wlp_both _ _ (λ _, isolated l) (λ _, spare_pages l) (isolated l) (spare_pages l))| |done].
  - apply wlp_bind. eapply wlp_task0_frames; [done|done|done|]. intros k1 frames p Hfr E1.
    assert (isolated l k1) as H1.
    { unfold seen. rewrite E1. rewrite <-(zinsert_zinsert_eq _ 0 (p, frames) (-1, [])).
      apply (frames_ok_born _ _ _ _ []); [|apply zlookup_zinsert_eq; simpl; rewrite zlen_fmap; lia|done].
      assert (∀ t q ps, zlookup (zinsert 0 (-1, []) (frames_of k).2) t = Some (q, ps) → q = -1) as Hdead.
      { intros t q ps [[_ [= -> _]]|[Hne Ht']]%zlookup_zinsert_Some; [done|]. simpl in Ht'. rewrite zlookup_fmap in Ht'.
        assert (zlookup (pid <$> task k) t = Some q) as Hq by by (unfold task_frames in Ht'; rewrite zlookup_fmap; destruct (zlookup (task k) t); simplify_eq/=).
        rewrite Hpids, zlookup_zinsert_ne in Hq by done. by apply zlookup_elem, elem_of_replicate in Hq as [-> _]. }
      split; simpl; [intros *; intros; exfalso; naive_solver..|].
      intros f Hin. split; [by apply (sp_used _ _ Hsp)|]. intros t q ps Ht' Hq. by rewrite (Hdead _ _ _ Ht') in Hq. }
    match goal with |- wlp ?m _ _ _ => enough (preserves (isolated l) m) as H by by apply H end. clear. preserves.
  - match goal with |- wlp ?m _ _ _ => enough (preserves (spare_pages l) m) as H by by apply H, spare_pages_mapped end.
    clear. repeat first [apply spare_alloc_frame | apply spare_task_set | apply spare_zoom; by intros [] ? | preserves_step].
    all: unfold ph_pages_set, owned_sems_set, fd_set; repeat first [apply spare_task_set | preserves_step].
  - intros u k2 [H1 H2]. eapply wlp_mono; [apply (wlp_both _ _ _ _ _ _ (Hi _ H1) (Ht _ H2))| |done].
    intros _ k3 [? ?]. by exists l.
Qed.

(** The frames of boot are nobody's from then on. *)
Lemma isolated_boot ta tb k : boot tb (kstate_bss ta) = Ret () k → ∃ l, isolated l k ∧ spare_pages l k.
Proof.
  intros E. exact (wlp_Ret _ _ _ _ (λ _ k', ∃ l, isolated l k' ∧ spare_pages l k') _
    (wlp_boot_isolated tb _ (kstate_bss_pristine ta)) E).
Qed.

(** C5: Memory isolation.  In every state the kernel reaches - through system calls
    and page faults of live processes while a pid is left, interrupts and stores -
    the frames a live process records are distinct frames beyond the kernel, marked as used - so
    that [alloc_frame] does not hand them out - and no other live process has any
    of them. *)
Theorem processes_isolated ta tb k t v f :
  reachable ta tb k → zlookup (task k) t = Some v → pid v ≠ -1 → f ∈ ph_pages v →
  NUM_PAG_KERNEL ≤ f < TOTAL_PAGES ∧ zlookup (phys_mem (mm k)) f = Some USED_FRAME ∧ NoDup (ph_pages v) ∧
  ∀ t' v', t' ≠ t → zlookup (task k) t' = Some v' → pid v' ≠ -1 → f ∉ ph_pages v'.
Proof.
  intros (k0 & Hboot & Hsteps) Hv Hp Hf.
  destruct (isolated_boot _ _ _ Hboot) as (l & Hl & _).
  pose proof (stays_star _ (isolated_stays l) _ _ (kinv_boot _ _ _ Hboot) Hl Hsteps) as H.
  apply frames_lookup in Hv. destruct (fk_used _ _ H _ _ _ _ Hv Hp Hf) as [[Hr _] Hu].
  split; [done|]. split; [done|]. split; [by eapply (fk_nodup _ _ H)|].
  intros t' v' Hne Hv'%frames_lookup Hp'. by apply (fk_disjoint _ _ H t t' (pid v) (pid v') (ph_pages v) (ph_pages v') f).
Qed.

(** The first frame of process 0 after boot. *)
Lemma processes_isolated_witness :
  ∃ k v, reachable boot_task_addr boot_table_addr k ∧ zlookup (task k) 0 = Some v ∧ 304 ∈ ph_pages v ∧
  (NUM_PAG_KERNEL ≤ 304 < TOTAL_PAGES ∧ zlookup (phys_mem (mm k)) 304 = Some USED_FRAME ∧ NoDup (ph_pages v) ∧
   ∀ t' v', t' ≠ 0 → zlookup (task k) t' = Some v' → pid v' ≠ -1 → 304 ∉ ph_pages v').
Proof.
  destruct booted as (k & q & H). destruct (solo_task _ _ H) as (v & Hv & Hp & Hpages & _). rewrite (so_cur _ _ H) in Hv.
  assert (reachable boot_task_addr boot_table_addr k) as Hr by (exists k; split; [exact (so_boot _ _ H)|constructor]).
  assert (304 ∈ ph_pages v) as Hf by (rewrite Hpages; by apply (bool_decide_unpack _)).
  exists k, v. split; [exact Hr|]. split; [exact Hv|]. split; [exact Hf|].
  apply (processes_isolated _ _ k 0 v 304 Hr Hv); [by rewrite Hp|exact Hf].
Defined.
