(* ===== verification/Confine.v ===== *)
(** * The memory a process sees: in every state the kernel reaches, the data pages
    of the running process are mapped to its own frames. *)
From stdpp Require Import functions.
From S2P Require Import Prelude KList Mm Utils Io Fs KState Sched.
From S2P Require Import Sem Devices Sys Interrupt Queues SchedFacts Quiet KernelInv ForkFacts Boot.
From S2P Require Import Kernel States Framed Frames.

(** ** What is looked at: the entries of the data pages, the running process, and
    the frames every task records. *)
Abbreviation home := (list (option Z) * Z * list (list Z))%type.
Definition home_of (k : kstate) : home := (data_pages (mm k), cur (sched k), ph_pages <$> task k).
Definition viewed (P : home → Prop) (k : kstate) : Prop := P (home_of k).

Definition ptes (frames : list Z) : list (option Z) := (λ f, Some (user_pte f)) <$> frames.
Definition recorded (ps : list Z) : Prop := zlen ps = NUM_PAG_DATA ∧ Forall (λ f, 0 ≤ f < TOTAL_PAGES) ps.

(** The frames behind the data pages: those of the running process, or [spare]
    while process 0 has been running since boot. *)
Record home_ok (spare : list Z) (H : home) : Prop := {
  ho_pages : ∀ t ps, zlookup H.2 t = Some ps → recorded ps;
  ho_map : (H.1.2 = 0 ∧ H.1.1 = ptes spare) ∨ ∃ ps, zlookup H.2 H.1.2 = Some ps ∧ H.1.1 = ptes ps;
}.
Abbreviation at_home spare := (viewed (home_ok spare)).

Section Viewed.
Context (P : home → Prop).

Lemma viewed_same k k' : home_of k' = home_of k → viewed P k → viewed P k'.
Proof using Type. unfold viewed. by intros ->. Qed.
Lemma viewed_task_set {A} (setter : A → task_struct → task_struct) i a :
  keeps ph_pages setter → preserves (viewed P) (task_set setter i a).
Proof using Type.
  intros Hk. apply preserves_amodify. intros k v HP Hv. eapply viewed_same; [|exact HP].
  unfold home_of. simpl. by erewrite tasks_zinsert.
Qed.
Lemma viewed_fd_set i j p : preserves (viewed P) (fd_set i j p).
Proof using Type. unfold fd_set. repeat preserves_step. by apply viewed_task_set. Qed.
Lemma viewed_owned_sems_set i j v : preserves (viewed P) (owned_sems_set i j v).
Proof using Type. unfold owned_sems_set. repeat preserves_step. by apply viewed_task_set. Qed.
Lemma viewed_zoom {T A} (L : lens kstate T) (m : M T A) :
  (∀ k t, home_of (update L t k) = home_of k) → preserves (viewed P) (zoom L m).
Proof using Type. intros H. apply preserves_zoom. intros k t Hk. apply (viewed_same k); [apply H|done]. Qed.
Lemma viewed_put {T} (L : lens kstate T) t :
  (∀ k, home_of (update L t k) = home_of k) → preserves (viewed P) (put L t).
Proof using Type. intros H. apply preserves_put. intros k Hk. apply (viewed_same k); [apply H|done]. Qed.
Lemma viewed_modify {T} (L : lens kstate T) f :
  (∀ k, home_of (update L (f (view L k)) k) = home_of k) → preserves (viewed P) (modify L f).
Proof using Type. intros H k Hk. apply wp_wlp, wp_modify, (viewed_same k); [apply H|done]. Qed.
Lemma viewed_pages {A} (m : M mm_state A) : respects (agree data_pages) m → preserves (viewed P) (zoom MM m).
Proof using Type.
  intros Hm. apply (preserves_respects _ (λ k k', home_of k' = home_of k)); [intros k k' E Hk; by apply (viewed_same k)|].
  eapply respects_zoom; [|exact Hm]. intros k m' E. unfold home_of. simpl. by rewrite E.
Qed.
Lemma viewed_MM {A} (m : M mm_state A) : respects (agree mm_core) m → preserves (viewed P) (zoom MM m).
Proof using Type.
  intros Hm. apply (preserves_respects _ (λ k k', home_of k' = home_of k)); [intros k k' E Hk; by apply (viewed_same k)|].
  eapply respects_zoom; [|exact Hm]. intros k m' E. unfold home_of. simpl. by rewrite (f_equal snd E : data_pages m' = _).
Qed.
Lemma viewed_alloc_frame : preserves (viewed P) (zoom MM alloc_frame).
Proof using Type. apply viewed_pages. unfold alloc_frame. respects. by apply respects_aset. Qed.
Lemma viewed_free_frame f : preserves (viewed P) (zoom MM (free_frame f)).
Proof using Type. apply viewed_pages. unfold free_frame. by apply respects_aset. Qed.
End Viewed.
#[export] Hint Resolve viewed_task_set viewed_fd_set viewed_owned_sems_set viewed_alloc_frame viewed_free_frame : preserves.
#[export] Hint Extern 3 (preserves (viewed _) (zoom MM _)) => apply viewed_MM; respects : preserves.
#[export] Hint Extern 4 (preserves (viewed _) (zoom _ _)) => apply viewed_zoom; intros [] ?; done : preserves.
#[export] Hint Extern 1 (preserves (viewed _) (put _ _)) => apply viewed_put; intros []; done : preserves.
#[export] Hint Extern 1 (preserves (viewed _) (modify _ _)) => apply viewed_modify; intros []; done : preserves.

Lemma viewed_copy_from_circ_buffer P t n : preserves (viewed P) (copy_from_circ_buffer t n).
Proof. unfold copy_from_circ_buffer, map_after, current, ustore. preserves. Qed.

(** ** A context switch brings the frames of the process it resumes. *)

Lemma wlp_set_ss_pag p f m (Q : unit → mm_state → Prop) X :
  (∀ m', 0 ≤ p < zlen (pagusr_table m) → pagusr_table m' = zinsert p (user_pte f) (pagusr_table m) → Q () m') →
  wlp (set_ss_pag p f) m Q X.
Proof.
  intros HQ. destruct (decide (0 ≤ p < zlen (pagusr_table m))) as [Hp|Hp].
  - apply wp_wlp, wp_set_ss_pag; [done|]. by apply HQ.
  - apply wlp_bind, wlp_bind, wlp_amodify. intros e He%zlookup_Some_range. by destruct Hp.
Qed.

Section Switch.
Context (spare : list Z).

(** The first [i] data pages are mapped to the frames of task [t]. *)
Definition switching (t : Z) (tasks : list (list Z)) (i : Z) (k : kstate) : Prop :=
  0 ≤ i ∧ (ph_pages <$> task k) = tasks ∧ (0 < i → is_Some (zlookup tasks t)) ∧
  ∀ ps j f, zlookup tasks t = Some ps → 0 ≤ j < i → zlookup ps j = Some f →
    zlookup (pagusr_table (mm k)) (PAG_LOG_INIT_DATA_P0 + j) = Some (user_pte f).

Lemma wlp_switch_pages t k (Q : unit → kstate → Prop) X :
  (∀ u ps, zlookup (ph_pages <$> task k) u = Some ps → recorded ps) →
  (∀ k' ps, ph_pages <$> task k' = ph_pages <$> task k → zlookup (ph_pages <$> task k) t = Some ps →
     data_pages (mm k') = ptes ps → Q () k') →
  wlp (loop (Datatypes.S (Z.to_nat NUM_PAG_DATA)) (λ i,
    if bool_decide (i < NUM_PAG_DATA) then
      let! v := aget Task t in
      let! f := of_option (zlookup (ph_pages v) i) in
      if bool_decide (f ≠ -1) then
        zoom MM (set_ss_pag (PAG_LOG_INIT_DATA_P0 + i) (u32 f));; ret (inl (i + 1))
      else ret (inr ())
    else ret (inr ())) 0) k Q X.
Proof using Type.
  intros Hrec HQ. apply (wlp_loop (switching t (ph_pages <$> task k))).
  { split; [done|]. split; [done|]. split; [done|]. intros. lia. }
  intros i k1 (Hi & Ht & Hsome & Hmap). case_bool_decide as Hlt.
  - apply wlp_bind, wlp_aget. intros v Hv. apply wlp_bind, wlp_of_option. intros f Hf.
    assert (zlookup (ph_pages <$> task k) t = Some (ph_pages v)) as Hps by (rewrite <-Ht, zlookup_fmap; simpl in Hv; by rewrite Hv).
    destruct (Hrec _ _ Hps) as [Hlen HF]. pose proof (zlookup_elem _ _ _ Hf) as Hin.
    rewrite Forall_forall in HF. apply HF in Hin. unfold TOTAL_PAGES in Hin. rewrite bool_decide_true by lia.
    rewrite u32_small by lia. apply wlp_bind, wlp_zoom, wlp_set_ss_pag. intros m' Hr Em. apply wlp_ret.
    split; [lia|]. split; [done|]. split; [by rewrite Hps|]. intros ps j g Hps' Hj Hg. simplify_eq. simpl. rewrite Em.
    destruct (decide (j = i)) as [->|Hne]; [simplify_eq; by apply zlookup_zinsert_eq|].
    rewrite zlookup_zinsert_ne by lia. apply (Hmap (ph_pages v)); [done|lia|done].
  - apply wlp_ret. destruct Hsome as [ps Hps]; [unfold NUM_PAG_DATA in *; lia|]. apply (HQ k1 ps); [done|done|].
    destruct (Hrec _ _ Hps) as [Hlen _]. apply data_pages_mapped; [done|]. intros j f Hf.
    apply (Hmap ps); [done|apply zlookup_Some_range in Hf; lia|done].
Qed.

Lemma home_task_switch t : preserves (at_home spare) (task_switch t).
Proof using Type.
  unfold task_switch. do 4 (apply preserves_bind; [preserves|intros _]).
  intros k Hk. apply wlp_bind, wlp_switch_pages; [apply Hk|]. intros k1 ps Ht Hps Hmap.
  apply wlp_bind, wlp_zoom, wp_wlp, wp_put. apply wlp_bind, wp_wlp, wp_put.
  match goal with |- wlp ?m ?s _ _ => assert (at_home spare s) as Hs;
    [|enough (preserves (at_home spare) m) as H by exact (H _ Hs); unfold EOI; preserves] end.
  split; simpl; rewrite Ht; [apply Hk|]. right. by exists ps.
Qed.
End Switch.

#[export] Instance home_durable spare : durable (at_home spare).
Proof.
  split.
  - intros k k' E. apply viewed_same. unfold home_of. unfold running_core, core in E.
    pose proof (f_equal (λ c, (λ x, x.1.2) <$> c.1.1.1.1.2) E) as Ep. simpl in Ep. rewrite <-!list_fmap_compose in Ep.
    pose proof (f_equal (λ c, c.1.1.1.2) E) as Ed. pose proof (f_equal (λ c, c.1.1.2) E) as Ec. simpl in Ed, Ec.
    rewrite (f_equal fst Ed : data_pages (mm k') = _), Ec. f_equal. exact Ep.
  - intros k s _. by apply viewed_same.
  - intros k i j v Hv. apply viewed_same. unfold home_of. simpl. by erewrite tasks_zinsert.
  - intros k i v _. by apply viewed_same.
  - intros k. by apply viewed_same.
  - apply home_task_switch.
  - apply viewed_copy_from_circ_buffer.
Qed.

(** ** The other routines. *)

Lemma home_sys_exit spare : preserves (at_home spare) sys_exit.
Proof. unfold sys_exit. preserves. Qed.
Lemma home_sys_nice spare q : preserves (at_home spare) (sys_nice q).
Proof. unfold sys_nice. preserves. Qed.
Lemma home_sys_dup spare fd : preserves (at_home spare) (sys_dup fd).
Proof. unfold sys_dup. preserves. Qed.
Lemma home_sys_open spare path flags : preserves (at_home spare) (sys_open path flags).
Proof. unfold sys_open. preserves. Qed.
Lemma home_clock_interrupt spare eax : preserves (at_home spare) (clock_interrupt eax).
Proof. unfold clock_interrupt, clock_routine. preserves. Qed.
#[export] Hint Resolve home_sys_exit home_sys_nice home_sys_dup home_sys_open home_clock_interrupt : preserves.

(** [sys_fork] changes the frames of the child, which does not run. *)
Definition family (spare : list Z) (parent : Z) (H : home) : Prop := home_ok spare H ∧ H.1.2 = parent.

Lemma home_set_task spare parent k i v w :
  i ≠ parent → zlookup (task k) i = Some v → recorded (ph_pages w) →
  viewed (family spare parent) k → viewed (family spare parent) (set_task (zinsert i w (task k)) k).
Proof.
  intros Hne Hv Hw [[Hp Hm] Hc]. simpl in Hc, Hm. pose proof (zlookup_Some_range _ _ _ Hv) as Hr.
  split; [|done]. unfold home_of. simpl. rewrite zinsert_fmap. split; simpl.
  - intros t ps [[_ ->]|[_ Ht]]%zlookup_zinsert_Some; [done|by apply (Hp t)].
  - destruct Hm as [?|(ps & Hps & E)]; [by left|right]. exists ps. split; [|done].
    rewrite zlookup_zinsert_ne by congruence. done.
Qed.

Lemma family_ph_pages_set spare parent child j f :
  child ≠ parent → 0 ≤ f < TOTAL_PAGES → preserves (viewed (family spare parent)) (ph_pages_set child j f).
Proof.
  intros Hne Hf k Hk. unfold ph_pages_set. apply wlp_bind, wlp_aget. intros v Hv. simpl in Hv.
  apply wlp_bind, wlp_of_option. intros _ _. apply wlp_amodify. intros w Hw. simpl in Hw. simplify_eq.
  eapply home_set_task; [done|exact Hv| |done]. simpl. destruct Hk as [[Hp _] _].
  destruct (Hp child (ph_pages v)) as [Hl HF]; [simpl; by rewrite zlookup_fmap, Hv|].
  split; [by rewrite zlen_zinsert|]. rewrite Forall_forall in HF |- *.
  intros g Hg%zlookup_of_elem. destruct Hg as [n [[_ ->]|[_ Hg]]%zlookup_zinsert_Some]; [done|].
  by apply HF, (zlookup_elem _ n).
Qed.

Lemma viewed_free_frames P frames : preserves (viewed P) (free_frames frames).
Proof. induction frames as [|f frames IH]; simpl; preserves. Qed.
#[export] Hint Resolve viewed_free_frames : preserves.
Lemma viewed_fork_alloc P parent : preserves (viewed P) (fork_alloc parent).
Proof. unfold fork_alloc. preserves. Qed.
Lemma viewed_fork_share_fd P child i : preserves (viewed P) (fork_share_fd child i).
Proof. unfold fork_share_fd. preserves. Qed.
#[export] Hint Resolve viewed_fork_share_fd : preserves.

Lemma family_fork_copy_page spare parent child frames j :
  child ≠ parent → Forall (λ f, 0 ≤ f < TOTAL_PAGES) frames → 0 ≤ j < NUM_PAG_DATA →
  preserves (viewed (family spare parent)) (fork_copy_page child frames j).
Proof.
  intros Hne HF Hj k Hk. unfold fork_copy_page. apply wlp_bind, wlp_of_option. intros f Hf%zlookup_elem.
  rewrite Forall_forall in HF. apply HF in Hf. cbv zeta.
  match goal with |- wlp ?m ?s _ _ => enough (preserves (viewed (family spare parent)) m) as H by exact (H _ Hk) end.
  pose proof (family_ph_pages_set spare parent child j f Hne Hf). preserves.
Qed.

Lemma home_sys_fork spare k : kinv k → ready (qview_of k) → at_home spare k → wlp sys_fork k (λ _, at_home spare) (at_home spare).
Proof.
  intros [Hs [q Hq]] Hr Hk. destruct (ready_current _ Hr) as (v & Hv & Hpid). unfold sys_fork, current.
  apply wlp_bind, wp_wlp, (wp_srch_free_task k q); [done| |].
  2: { intros _. rewrite bool_decide_true by done. by apply wlp_ret. }
  intros child w Hw Hdead _. pose proof (task_lookup_range _ _ _ _ Hq Hw) as Hrange. rewrite bool_decide_false by lia.
  apply wlp_bind, wlp_ret. simpl. set (parent := cur (sched k)) in *.
  assert (child ≠ parent) as Hne by (intros ->; simplify_eq; lia).
  apply wlp_bind, wlp_copied_task. intros t h Ht. simplify_eq. set (k1 := set_lists h _).
  assert (shape k1) as Hs1 by (eapply shape_set_lists, shape_set_task; [done|exact Hw|by eapply sh_task]).
  set (I := viewed (family spare parent)). assert (I k1) as H1.
  { apply (home_set_task spare parent (set_lists h k) child w v Hne Hw); [|by split].
    split; [apply (sh_task _ Hs _ _ Hv)|]. apply (sh_task _ Hs _ _ Hv). }
  assert (∀ k', I k' → at_home spare k') as Hweak by by intros k' [? _].
  set (R := λ (r : option (list Z)) (_ : kstate), from_option (Forall (λ f, 0 ≤ f < TOTAL_PAGES)) True r).
  apply wlp_bind, (wlp_mono _ _ (λ r s, R r s ∧ I s) _ (λ s, True ∧ I s)); [| |by intros k' [_ ?%Hweak]].
  { apply wlp_both; [by apply wlp_fork_alloc; [done|intros r k' _ ?]|by apply viewed_fork_alloc]. }
  intros r k2 [HF H2]. simpl in HF.
  apply (wlp_mono _ _ (λ _, I) _ I); [|intros _; exact Hweak|exact Hweak]. cbv beta.
  match goal with |- wlp ?m _ _ _ => enough (preserves I m) as H by by apply H end. unfold I. clear -HF Hne.
  destruct r as [frames|]; [|preserves]. simpl in HF. pose proof (family_fork_copy_page spare parent child frames) as Hcopy.
  preserves. apply Hcopy; [done|done|lia].
Qed.

(** ** Every step. *)

Lemma home_stays spare : stays (at_home spare).
Proof.
  split; [apply _|intros *; preserves..| | |].
  - apply preserves_kept_if. preserves.
  - intros k Hk Hr Hi. by apply home_sys_fork.
  - intros eax. apply preserves_kept_if. preserves.
Qed.

Lemma home_boot k spare : kinv k → spare_pages spare k → at_home spare k.
Proof.
  intros [Hs _] Hsp. split; [|by left]. simpl. intros t ps Hps. rewrite zlookup_fmap in Hps.
  destruct (zlookup (task k) t) as [v|] eqn:Hv; [|done]. injection Hps as <-.
  destruct (sh_task _ Hs _ _ Hv). by split.
Qed.

(** In every reachable state the data pages of the running process, when it is
    alive, are mapped to 20 frames in use that no other live process records. *)
Lemma reachable_home ta tb k :
  reachable ta tb k → kinv k ∧ ∃ spare, isolated spare k ∧ at_home spare k.
Proof.
  intros (k0 & Hboot & Hsteps). pose proof (kinv_boot _ _ _ Hboot) as Hk0.
  destruct (isolated_boot _ _ _ Hboot) as (spare & Hiso & Hsp). split.
  - exact (star_invariant kstep kinv kinv_kstep k0 k Hsteps Hk0).
  - exists spare. split; [exact (stays_star _ (isolated_stays spare) _ _ Hk0 Hiso Hsteps)|].
    exact (stays_star _ (home_stays spare) _ _ Hk0 (home_boot _ _ Hk0 Hsp) Hsteps).
Qed.
