(* ===== verification/Flushed.v ===== *)
(** * The TLB: in every state the kernel reaches it has been flushed since an entry
    of the page table was last changed. *)
From stdpp Require Import functions.
From S2P Require Import Prelude KList Mm Utils Io Fs KState Sched.
From S2P Require Import Sem Devices Sys Interrupt Queues SchedFacts Quiet KernelInv ForkFacts Boot.
From S2P Require Import Kernel Framed.

(** An invariant of the memory component, of the kernel. *)
Definition on_mm (P : mm_state → Prop) (k : kstate) : Prop := P (mm k).

Section OnMm.
Context (P : mm_state → Prop).

Lemma on_mm_same k k' : mm k' = mm k → on_mm P k → on_mm P k'.
Proof using Type. unfold on_mm. by intros ->. Qed.
Lemma on_mm_MM {A} (m : M mm_state A) : preserves P m → preserves (on_mm P) (zoom MM m).
Proof using Type. intros Hm k Hk. apply wlp_zoom. eapply wlp_mono; [by apply Hm|done|done]. Qed.
Lemma on_mm_zoom {T A} (L : lens kstate T) (m : M T A) :
  (∀ k t, mm (update L t k) = mm k) → preserves (on_mm P) (zoom L m).
Proof using Type. intros H. apply preserves_zoom. intros k t. by apply on_mm_same. Qed.
Lemma on_mm_put {T} (L : lens kstate T) t : (∀ k, mm (update L t k) = mm k) → preserves (on_mm P) (put L t).
Proof using Type. intros H. apply preserves_put. intros k. by apply on_mm_same. Qed.
Lemma on_mm_modify {T} (L : lens kstate T) f : (∀ k t, mm (update L t k) = mm k) → preserves (on_mm P) (modify L f).
Proof using Type. intros H. apply preserves_modify. intros k t. by apply on_mm_same. Qed.
Lemma on_mm_aset {T} (L : lens kstate (list T)) i a :
  (∀ k t, mm (update L t k) = mm k) → preserves (on_mm P) (aset L i a).
Proof using Type. intros H. apply preserves_aset. intros k t. by apply on_mm_same. Qed.
Lemma on_mm_amodify {T} (L : lens kstate (list T)) i f :
  (∀ k t, mm (update L t k) = mm k) → preserves (on_mm P) (amodify L i f).
Proof using Type. intros H. apply preserves_amodify. intros k t Hk _. by apply (on_mm_same k). Qed.
Lemma on_mm_task_set {A} (setter : A → task_struct → task_struct) i a : preserves (on_mm P) (task_set setter i a).
Proof using Type. by apply on_mm_amodify. Qed.
Lemma on_mm_fd_set i j p : preserves (on_mm P) (fd_set i j p).
Proof using Type. unfold fd_set. repeat preserves_step. apply on_mm_task_set. Qed.
Lemma on_mm_owned_sems_set i j v : preserves (on_mm P) (owned_sems_set i j v).
Proof using Type. unfold owned_sems_set. repeat preserves_step. apply on_mm_task_set. Qed.
Lemma on_mm_ph_pages_set i j f : preserves (on_mm P) (ph_pages_set i j f).
Proof using Type. unfold ph_pages_set. repeat preserves_step. apply on_mm_task_set. Qed.
End OnMm.
#[export] Hint Resolve on_mm_task_set on_mm_fd_set on_mm_owned_sems_set on_mm_ph_pages_set : preserves.
#[export] Hint Extern 4 (preserves (on_mm _) (zoom _ _)) => apply on_mm_zoom; intros [] ?; done : preserves.
#[export] Hint Extern 1 (preserves (on_mm _) (put _ _)) => apply on_mm_put; intros []; done : preserves.
#[export] Hint Extern 1 (preserves (on_mm _) (modify _ _)) => apply on_mm_modify; intros [] ?; done : preserves.
#[export] Hint Extern 1 (preserves (on_mm _) (aset _ _ _)) => apply on_mm_aset; intros [] ?; done : preserves.
#[export] Hint Extern 1 (preserves (on_mm _) (amodify _ _ _)) => apply on_mm_amodify; intros [] ?; done : preserves.

Definition unstale (m : mm_state) : Prop := stale m = ∅.
Abbreviation flushed := (on_mm unstale).

Lemma flushed_MM {A} (m : M mm_state A) : respects (agree stale) m → preserves flushed (zoom MM m).
Proof.
  intros Hm. apply on_mm_MM, (preserves_respects _ (agree stale)); [unfold unstale, agree; by intros m1 m2 ->|exact Hm].
Qed.
#[export] Instance stale_blind : blind stale. Proof. done. Qed.

Lemma stale_alloc_frame : respects (agree stale) alloc_frame.
Proof. unfold alloc_frame. respects. by apply respects_aset. Qed.
Lemma stale_free_frame f : respects (agree stale) (free_frame f).
Proof. unfold free_frame. by apply respects_aset. Qed.
#[export] Hint Resolve stale_alloc_frame stale_free_frame : respects.
#[export] Hint Extern 3 (preserves flushed (zoom MM _)) => apply flushed_MM; respects : preserves.

(** ** Routines that change the page table, and flush it. *)

(** [m] leaves the TLB flushed whatever its state was. *)
Definition flushes {A} (m : K A) : Prop := ∀ k, wlp m k (λ _, flushed) flushed.

Lemma flushes_preserves {A} (m : K A) : flushes m → preserves flushed m.
Proof. intros Hm k _. apply Hm. Qed.
Lemma flushes_after {A B} (m : K A) (f : A → K B) : respects anything m → (∀ a, flushes (f a)) → flushes (bind m f).
Proof. intros Hm Hf k. apply wlp_bind. eapply (wlp_respects anything); [done|]. intros a k' _. apply Hf. Qed.
Lemma flushes_here {B} (f : unit → K B) : preserves flushed (f ()) → flushes (bind (zoom MM set_cr3) f).
Proof. intros Hf k. apply wlp_bind, wlp_zoom, wp_wlp, wp_put. by apply Hf. Qed.

Lemma runs_MM {A} (m : M mm_state A) : respects mm_len m → respects anything (zoom MM m).
Proof. by apply respects_zoom. Qed.
Lemma runs_zoom {S T A} (L : lens S T) (m : M T A) : respects anything m → respects anything (zoom L m).
Proof. by apply respects_zoom. Qed.
Lemma runs_modify_any {S T} (L : lens S T) f : respects anything (modify L f).
Proof. by apply respects_modify. Qed.
Lemma runs_task_set {A} (setter : A → task_struct → task_struct) i a : respects anything (task_set setter i a).
Proof. by apply respects_amodify. Qed.
Lemma runs_with_local {S T A} (l0 : T) (m : M (S * T) A) : respects anything m → respects anything (with_local l0 m).
Proof. intros Hm s. specialize (Hm (s, l0)). unfold with_local. by destruct (m (s, l0)) as [? []|[]|[]| |]. Qed.
#[local] Hint Resolve runs_MM runs_task_set runs_modify_any runs_with_local : respects.

Lemma flushed_task_switch t : preserves flushed (task_switch t).
Proof.
  apply flushes_preserves. unfold task_switch. do 4 (apply flushes_after; [respects|intros _]).
  apply flushes_after; [respects|intros _]. apply flushes_here. unfold EOI. preserves.
Qed.

Lemma runs_map_after t : respects anything (map_after t).
Proof. unfold map_after. respects. Qed.
Lemma runs_ustore a b : respects anything (ustore a b).
Proof. unfold ustore. respects. Qed.
#[local] Hint Resolve runs_map_after runs_ustore : respects.
#[local] Hint Extern 4 (respects anything (zoom _ _)) => apply runs_zoom; respects : respects.
#[local] Hint Extern 2 (respects anything (copy_to_user _ _ _)) =>
  apply respects_copy_to_user; [apply _|intros; respects..] : respects.

Lemma flushed_copy_from_circ_buffer t n : preserves flushed (copy_from_circ_buffer t n).
Proof.
  apply flushes_preserves. unfold copy_from_circ_buffer, current.
  apply flushes_after; [respects|intros _]. apply flushes_after; [respects|intros _].
  apply flushes_after; [apply runs_with_local; respects|intros _].
  apply flushes_after; [respects|intros _]. apply flushes_here. preserves.
Qed.

#[export] Instance flushed_durable : durable flushed.
Proof.
  split.
  - intros k k' E Hk. unfold on_mm, unstale. by rewrite (f_equal (λ c, c.1.1.1.2.2) E : stale (mm k') = _).
  - intros k s _. by apply on_mm_same.
  - intros k i j v _. by apply on_mm_same.
  - intros k i v _. by apply on_mm_same.
  - intros k. by apply on_mm_same.
  - apply flushed_task_switch.
  - apply flushed_copy_from_circ_buffer.
Qed.

(** ** The other routines. *)

Lemma flushed_sys_exit : preserves flushed sys_exit.
Proof. unfold sys_exit. preserves. Qed.
Lemma flushed_sys_nice q : preserves flushed (sys_nice q).
Proof. unfold sys_nice. preserves. Qed.
Lemma flushed_sys_dup fd : preserves flushed (sys_dup fd).
Proof. unfold sys_dup. preserves. Qed.
Lemma flushed_sys_open path flags : preserves flushed (sys_open path flags).
Proof. unfold sys_open. preserves. Qed.
Lemma flushed_clock_interrupt eax : preserves flushed (clock_interrupt eax).
Proof. unfold clock_interrupt, clock_routine. preserves. Qed.
#[export] Hint Resolve flushed_sys_exit flushed_sys_nice flushed_sys_dup flushed_sys_open flushed_clock_interrupt : preserves.

Lemma flushed_free_frames frames : preserves flushed (free_frames frames).
Proof. induction frames as [|f frames IH]; simpl; preserves. Qed.
#[export] Hint Resolve flushed_free_frames : preserves.
Lemma flushed_fork_alloc parent : preserves flushed (fork_alloc parent).
Proof. unfold fork_alloc. preserves. Qed.
Lemma flushed_copy_task parent child : preserves flushed (copy_task parent child).
Proof. unfold copy_task. preserves. Qed.
Lemma runs_fork_copy_page child frames j : respects anything (fork_copy_page child frames j).
Proof. unfold fork_copy_page, ph_pages_set. respects. Qed.
#[export] Hint Resolve flushed_fork_alloc flushed_copy_task : preserves.
#[local] Hint Resolve runs_fork_copy_page : respects.

Lemma flushed_sys_fork : preserves flushed sys_fork.
Proof.
  unfold sys_fork, current.
  apply preserves_bind; [preserves|intros child]. case_bool_decide; [preserves|].
  do 3 (apply preserves_bind; [preserves|intros ?]).
  match goal with |- preserves _ (match ?r with _ => _ end) => destruct r as [frames|] end; [|preserves].
  apply flushes_preserves, flushes_after; [respects|intros _]. apply flushes_here. preserves.
Qed.

(** ** Every step. *)

Lemma flushed_stays : stays flushed.
Proof.
  split; [apply _|intros *; preserves..| | |].
  - apply preserves_kept_if. preserves.
  - apply preserves_kept_if, flushed_sys_fork.
  - intros eax. apply preserves_kept_if. preserves.
Qed.

Lemma flushes_then {A B} (m : K A) (f : A → K B) : flushes m → (∀ a, preserves flushed (f a)) → flushes (bind m f).
Proof. intros Hm Hf k. apply wlp_bind. eapply wlp_mono; [apply Hm|intros a k'; apply Hf|done]. Qed.

Lemma flushes_init_task0 : flushes init_task0.
Proof.
  unfold init_task0. apply flushes_after; [apply runs_MM; unfold initialize_P0_frames; respects|intros _].
  apply flushes_after; [apply runs_MM; unfold set_user_pages; respects|intros _]. apply flushes_here. preserves.
Qed.

Lemma runs_store p g : respects anything (store p g).
Proof. destruct p as [n|]; intros h; unfold store, load, bind; [by destruct (h !! n)|done]. Qed.
Lemma runs_INIT_LIST_HEAD p : respects anything (INIT_LIST_HEAD p).
Proof. apply respects_bind; [apply _|apply runs_store|intros _; apply runs_store]. Qed.

Lemma flushes_boot tb : flushes (boot tb).
Proof.
  unfold boot, setTSS. apply flushes_after; [respects|intros s]. apply flushes_after; [respects|intros _].
  apply flushes_after; [apply runs_MM; unfold init_mm, init_table_pages, init_frames, init_dir_pages; respects;
    (by apply respects_aset) || by apply respects_amodify|intros _].
  apply flushes_after; [unfold init_sched; respects; apply runs_zoom, runs_INIT_LIST_HEAD|intros _].
  apply flushes_after; [unfold init_keyboard; respects|intros _]. apply flushes_after; [apply runs_zoom, runs_init_filesystem|intros _].
  apply flushes_then; [apply flushes_init_task0|intros _]. unfold iniTics. preserves.
Qed.

Lemma flushes_Ret {A} (m : K A) k a k' : flushes m → m k = Ret a k' → flushed k'.
Proof. intros H E. specialize (H k). unfold wlp in H. by rewrite E in H. Qed.

Lemma flushed_reachable ta tb k : reachable ta tb k → flushed k.
Proof.
  intros (k0 & Hboot & Hsteps). pose proof (flushes_Ret _ _ _ _ (flushes_boot tb) Hboot) as H0.
  exact (stays_star _ flushed_stays _ _ (kinv_boot _ _ _ Hboot) H0 Hsteps).
Qed.
