(* ===== verification/Typed.v ===== *)
(** * The types of the file descriptors: what a descriptor points to, and that
    every entry into the kernel keeps it so. *)
From stdpp Require Import functions.
From S2P Require Import Prelude KList Mm Utils Io Fs KState Sched.
From S2P Require Import Sem Devices Sys Interrupt Queues Quiet KernelInv Kernel Framed.

(** ** Typing.

    An open file that is in use names an entry of the directory; a descriptor
    of a process is null or names such an open file. *)

Definition fds_of (k : kstate) : list (list (option Z)) := file_descriptors <$> task k.
Definition fds_typed (fds : list (list (option Z))) (s : fs_state) : Prop :=
  ∀ t l i o, zlookup fds t = Some l → zlookup l i = Some (Some o) → names_file s o.

Definition typed (k : kstate) : Prop := fs_typed (fs k) ∧ fds_typed (fds_of k) (fs k).

Lemma typed_descriptor k t w i o :
  typed k → zlookup (task k) t = Some w → zlookup (file_descriptors w) i = Some (Some o) →
  ∃ v d f, zlookup (fdt (fs k)) o = Some v ∧ logic_dev v = Some d ∧ zlookup (dir (fs k)) d = Some f.
Proof.
  intros [Hs Hk] Hw Hi. destruct (Hk t (file_descriptors w) i o) as (v & d & Hv & Hd); [|done|].
  - unfold fds_of. by rewrite zlookup_fmap, Hw.
  - destruct (zlookup_range (dir (fs k)) d) as [f Hf].
    { rewrite (ft_dir _ Hs). by eapply ft_dev. }
    by exists v, d, f.
Qed.

Lemma typed_same k k' : fds_of k' = fds_of k → fs k' = fs k → typed k → typed k'.
Proof. unfold typed. by intros -> ->. Qed.

(** ** Stores. *)

Lemma typed_zoom {T A} (l : lens kstate T) (m : M T A) :
  (∀ k t, fds_of (update l t k) = fds_of k ∧ fs (update l t k) = fs k) → preserves typed (zoom l m).
Proof. intros H. apply preserves_zoom. intros k t. by apply typed_same; apply H. Qed.

Lemma typed_files k s : grows (fs k) s → typed k → typed (set_fs s k).
Proof.
  intros Hg [Hs Hf]. destruct (Hg Hs) as [Hs' Hn]. split; [done|].
  intros t l i o Hl Hi. eapply Hn, Hf; [exact Hl|exact Hi].
Qed.

(** Stores to a task that leave its descriptors. *)
Definition keeps_fds {A} (setter : A → task_struct → task_struct) : Prop :=
  ∀ a v, file_descriptors (setter a v) = file_descriptors v.

Lemma typed_set_fds k i v w :
  zlookup (task k) i = Some v → typed k →
  (∀ j o, zlookup (file_descriptors w) j = Some (Some o) → names_file (fs k) o) →
  typed (set_task (zinsert i w (task k)) k).
Proof.
  intros Hv [Hs Hf] Hw. split; [done|]. pose proof (zlookup_Some_range _ _ _ Hv) as Hr. intros t l j o.
  unfold fds_of. simpl. rewrite zinsert_fmap, zlookup_zinsert by by rewrite zlen_fmap.
  case_decide; [intros [= <-]; apply Hw|]. apply Hf.
Qed.

Lemma typed_fds k i v j o :
  zlookup (task k) i = Some v → typed k → zlookup (file_descriptors v) j = Some (Some o) → names_file (fs k) o.
Proof. intros Hv [_ Hf]. apply Hf with (t := i). unfold fds_of. by rewrite zlookup_fmap, Hv. Qed.

Lemma typed_task_set {A} (setter : A → task_struct → task_struct) i a :
  keeps_fds setter → preserves typed (task_set setter i a).
Proof.
  intros Hk. apply preserves_amodify. intros k v Hty Hv. eapply typed_set_fds; [done|done|].
  rewrite Hk. intros j o. by eapply typed_fds.
Qed.
Lemma typed_ph_pages_set i j v : preserves typed (ph_pages_set i j v).
Proof. unfold ph_pages_set. repeat preserves_step. by apply typed_task_set. Qed.

(** A descriptor is closed, or opened on what names a file. *)
Lemma typed_store_fd k i j p v :
  zlookup (task k) i = Some v → typed k → (∀ o, p = Some o → names_file (fs k) o) →
  typed (set_task (zinsert i (t_file_descriptors (zinsert j p (file_descriptors v)) v) (task k)) k).
Proof.
  intros Hv Hk Hp. eapply typed_set_fds; [exact Hv|done|]. simpl.
  intros j' o [[_ E]|[_ Ho]]%zlookup_zinsert_Some; [by apply Hp|by eapply typed_fds].
Qed.

#[export] Instance typed_framed : framed typed.
Proof.
  split.
  - intros k k' E. apply typed_same; [|by injection E].
    pose proof (f_equal (λ c, snd <$> c.2) E) as Ef. unfold core in Ef. simpl in Ef.
    by rewrite <-!list_fmap_compose in Ef.
  - apply typed_files.
  - intros k i j v Hv Hk. by apply typed_store_fd.
Qed.

Lemma wlp_fd_set k i j p (Q : unit → kstate → Prop) X :
  typed k → (∀ o, p = Some o → names_file (fs k) o) →
  (∀ k', typed k' → fs k' = fs k → Q () k') → wlp (fd_set i j p) k Q X.
Proof.
  intros Hk Hp HQ. apply wlp_bind, wlp_aget. intros v Hv. simpl in Hv.
  apply wlp_bind, wlp_of_option. intros _ _. apply wlp_amodify. intros v' Hv'. simpl in Hv'. simplify_eq.
  apply HQ; [|done]. by apply typed_store_fd.
Qed.

#[export] Hint Resolve typed_task_set typed_ph_pages_set : preserves.
#[export] Hint Extern 5 (preserves typed (zoom MM _)) => apply typed_zoom; intros [] ?; done : preserves.
#[export] Hint Extern 1 (keeps_fds _) => intros ? ?; done : preserves.

(** ** System calls on descriptors. *)

(** [m], on typed states, only looks. *)
Lemma wlp_looks {A} (m : K A) k (Q : A → kstate → Prop) X :
  respects eq m → (∀ a, Q a k) → wlp m k Q X.
Proof. intros Hm HQ. eapply wlp_respects; [exact Hm|]. by intros a k' <-. Qed.

Lemma looks_search_fds (l : list (option Z)) :
  respects (@eq kstate) (search_range 0 MAX_FDS (λ i,
    let! p := of_option (zlookup l i) in ret (bool_decide (p ≠ None)))).
Proof. respects. Qed.

Lemma typed_sys_dup fd : preserves typed (sys_dup fd).
Proof.
  intros k Hk. unfold sys_dup, fd_lookup, cur_task, current. apply wlp_bind, wlp_ret. simpl.
  apply wlp_bind, wlp_bind, wlp_bind, wlp_ret. simpl. apply wlp_aget. intros v Hv. simpl in Hv.
  destruct (bool_decide (fd < 0) || _); [by apply wlp_ret|]. apply wlp_of_option. intros [o|] Ho; [|by apply wlp_ret].
  apply wlp_bind, wlp_aget. intros v' Hv'. apply wlp_bind, (wlp_looks _ _ _ _ (looks_search_fds _)). intros n.
  case_bool_decide; [by apply wlp_ret|]. apply wlp_bind, wlp_fd_set; [done| |].
  { intros o' [= <-]. exact (typed_fds _ _ _ _ _ Hv Hk Ho). }
  intros k' Hk' _. revert k' Hk'. change (preserves typed (let! v := zoom FS (aget Fdt o) in
    zoom FS (fdt_set with_refs o (s32 (refs v + 1)));;
    let! d := of_option (logic_dev v) in
    let! f := zoom FS (aget Dir d) in
    zoom FS (dir_set with_n_refs d (s32 (n_refs f + 1)));;
    ret n)). preserves.
Qed.

(** The open file is filled in before the descriptor points to it. *)
Definition fill_entry (fdt_entry flags d : Z) : M fs_state unit :=
  fdt_set with_refs fdt_entry 1;;
  fdt_set with_access_mode fdt_entry flags;;
  fdt_set with_offset fdt_entry 0;;
  fdt_set with_logic_dev fdt_entry (Some d);;
  let! f := aget Dir d in
  dir_set with_n_refs d (s32 (n_refs f + 1)).

Lemma grows_fill_entry e flags d : 0 ≤ d < MAX_FILES → respects grows (fill_entry e flags d).
Proof. intros Hd. unfold fill_entry. respects. by apply grows_set_dev. Qed.

Lemma wlp_fill_entry s e flags d :
  wlp (fill_entry e flags d) s (λ _ s', names_file s' e) (λ _, False).
Proof.
  unfold fill_entry. do 3 (apply wlp_bind, wlp_amodify; intros ? _).
  apply wlp_bind, wlp_amodify. intros v Hv. apply wlp_bind, wlp_aget. intros f Hf.
  apply wlp_amodify. intros f' Hf'. exists (with_logic_dev (Some d) v), d. split; [|done].
  simpl. apply zlookup_zinsert_eq. by eapply zlookup_Some_range.
Qed.

Lemma typed_open_entry k e d flags proc fd :
  typed k → 0 ≤ d < MAX_FILES →
  wlp (zoom FS (fill_entry e flags d);; fd_set proc fd (Some e);; ret fd) k (λ _, typed) typed.
Proof.
  intros Hk Hd. apply wlp_bind.
  pose proof ((durable_FS typed) _ (grows_fill_entry e flags d Hd) k Hk) as Hty.
  assert (wlp (zoom FS (fill_entry e flags d)) k (λ _ k', names_file (fs k') e) typed) as Hnm.
  { apply wlp_zoom. eapply wlp_mono; [apply wlp_fill_entry|done|done]. }
  unfold wlp in *. destruct (zoom FS _ k) as [[] k'|k'| | |]; try done.
  apply wlp_bind, wlp_fd_set; [done|by intros o [= <-]|]. intros k2 Hk2 _. by apply wlp_ret.
Qed.

Lemma typed_open_tail d e flags proc fd :
  preserves typed (
    let! f := zoom FS (aget Dir d) in
    call_no_routine (sys_open_dev (operations f));;
    if bool_decide (access_mode_allow f ≠ O_RDWR) && bool_decide (flags ≠ access_mode_allow f)
    then ret (- EACCES)
    else zoom FS (fill_entry e flags d);; fd_set proc fd (Some e);; ret fd).
Proof.
  intros k Hk. apply wlp_bind, wlp_zoom, wlp_aget. intros f Hf. simpl in Hf.
  assert (0 ≤ d < MAX_FILES) as Hd.
  { pose proof (zlookup_Some_range _ _ _ Hf). by rewrite <-(ft_dir _ (proj1 Hk)). }
  replace (update FS (view FS k) k) with k by by destruct k.
  apply wlp_bind. eapply wlp_mono; [by apply (durable_call_no_routine typed)| |done]. intros [] k1 Hk1.
  destruct (_ && _); [by apply wlp_ret|]. by apply typed_open_entry.
Qed.

#[local] Hint Extern 0 (preserves typed (bind (zoom FS (aget Dir ?d)) _)) =>
  exact (typed_open_tail d _ _ _ _) : preserves.
Lemma typed_sys_open path flags : preserves typed (sys_open path flags).
Proof. unfold sys_open. preserves. Qed.

(** ** Processes. *)

Lemma typed_sys_exit : preserves typed sys_exit.
Proof. unfold sys_exit. preserves. Qed.
Lemma typed_copy_task parent child : preserves typed (copy_task parent child).
Proof.
  intros k Hk. apply wlp_bind, wlp_aget. intros t Ht. apply wlp_bind, wlp_aset. intros Hr. simpl in Ht, Hr |- *.
  destruct (zlookup_range _ _ Hr) as [v Hv].
  assert (typed (set_task (zinsert child t (task k)) k)) as Hk1.
  { eapply typed_set_fds; [exact Hv|done|]. intros j o. by eapply typed_fds. }
  revert Hk1. generalize (set_task (zinsert child t (task k)) k) as k1.
  change (preserves typed (let! c := zoom Lists (load (RunListP parent)) in
    zoom Lists (store (RunListP child) (λ _, c)))). preserves.
Qed.
Lemma typed_free_frames frames : preserves typed (free_frames frames).
Proof. induction frames as [|f frames IH]; simpl; preserves. Qed.
#[export] Hint Resolve typed_sys_dup typed_sys_open typed_copy_task typed_free_frames : preserves.
Lemma typed_fork_alloc parent : preserves typed (fork_alloc parent).
Proof. unfold fork_alloc. preserves. Qed.
Lemma typed_fork_copy_page child frames j : preserves typed (fork_copy_page child frames j).
Proof. unfold fork_copy_page. preserves. Qed.
#[export] Hint Resolve typed_sys_exit typed_fork_alloc typed_fork_copy_page : preserves.
Lemma typed_sys_fork : preserves typed sys_fork.
Proof. unfold sys_fork. preserves. Qed.
#[export] Hint Resolve typed_sys_fork : preserves.

(** ** Every step. *)

Lemma typed_stays : stays typed.
Proof. split; [apply _|intros *; preserves..| | |]; intros *; apply preserves_kept_if; preserves. Qed.

(** ** The boot. *)

(** Before the file system is initialised nobody has a descriptor. *)
Definition cold_files (k : kstate) : Prop :=
  fds_of k = replicate (Z.to_nat NR_TASKS) (replicate (Z.to_nat MAX_FDS) None) ∧ fs k = fs_bss.

Lemma cold_zoom {T A} (l : lens kstate T) (m : M T A) :
  (∀ k t, fds_of (update l t k) = fds_of k ∧ fs (update l t k) = fs k) → preserves cold_files (zoom l m).
Proof. intros H. apply preserves_zoom. intros k t [E1 E2]. destruct (H k t). split; congruence. Qed.
Lemma cold_put {T} (l : lens kstate T) t :
  (∀ k t, fds_of (update l t k) = fds_of k ∧ fs (update l t k) = fs k) → preserves cold_files (put l t).
Proof. intros H. apply preserves_put. intros k [E1 E2]. destruct (H k t). split; congruence. Qed.
Lemma cold_modify {T} (l : lens kstate T) f :
  (∀ k t, fds_of (update l t k) = fds_of k ∧ fs (update l t k) = fs k) → preserves cold_files (modify l f).
Proof. intros H. apply preserves_modify. intros k t [E1 E2]. destruct (H k t). split; congruence. Qed.
Lemma cold_task_set {A} (setter : A → task_struct → task_struct) i a :
  keeps_fds setter → preserves cold_files (task_set setter i a).
Proof.
  intros Hk. apply preserves_amodify. intros k v [E1 E2] Hv. simpl in Hv. split; [|done]. rewrite <-E1.
  unfold fds_of. simpl. rewrite zinsert_fmap, Hk. apply zinsert_id. by rewrite zlookup_fmap, Hv.
Qed.
#[local] Hint Resolve cold_task_set : preserves.
#[local] Hint Extern 3 (preserves cold_files (zoom _ _)) => apply cold_zoom; intros [] ?; done : preserves.
#[local] Hint Extern 1 (preserves cold_files (put _ _)) => apply cold_put; intros [] ?; done : preserves.
#[local] Hint Extern 1 (preserves cold_files (modify _ _)) => apply cold_modify; intros [] ?; done : preserves.

Definition typed_check (s : fs_state) : bool :=
  bool_decide (zlen (fdt s) = MAX_OPEN_FILES) && bool_decide (zlen (dir s) = MAX_FILES) &&
  forallb (λ v, bool_decide (logic_dev v = None)) (fdt s).

Lemma init_typed : match init_filesystem fs_bss with Ret _ s => typed_check s | _ => false end = true.
Proof. by vm_compute. Qed.

Lemma no_fds t l i o :
  zlookup (replicate (Z.to_nat NR_TASKS) (replicate (Z.to_nat MAX_FDS) (@None Z))) t = Some l →
  zlookup l i = Some (Some o) → False.
Proof.
  intros Hl%zlookup_elem Ho. apply elem_of_replicate in Hl as [-> _].
  apply zlookup_elem, elem_of_replicate in Ho as [? _]. done.
Qed.

Lemma wp_init_files k (Q : unit → kstate → Prop) X :
  cold_files k → (∀ k', typed k' → Q () k') → wp (zoom FS init_filesystem) k Q X.
Proof.
  intros [Ef Es] HQ. apply wp_zoom. simpl. rewrite Es. pose proof init_typed as H. unfold wp.
  destruct (init_filesystem fs_bss) as [[] s| | | |]; try discriminate H.
  unfold typed_check in H. rewrite !andb_true_iff, !bool_decide_eq_true, forallb_forall in H.
  destruct H as [[H1 H2] H3]. apply HQ. split; [split; [exact H1|exact H2|]|].
  - intros o v d Hv Hd. specialize (H3 v). rewrite bool_decide_eq_true, Hd in H3.
    discriminate H3. by apply zlookup_elem, list_elem_of_In in Hv.
  - intros t l i o Hl Hi. exfalso. change (zlookup (fds_of k) t = Some l) in Hl. rewrite Ef in Hl. by eapply no_fds.
Qed.

(** The descriptors of process 0: the keyboard, and the screen twice. *)
Definition open_devices : M fs_state unit :=
  fdt_set with_refs 0 1;;
  fdt_set with_access_mode 0 O_RDONLY;;
  fdt_set with_offset 0 0;;
  fdt_set with_logic_dev 0 (Some 0);;
  dir_set with_n_refs 0 1;;
  fdt_set with_refs 1 1;;
  fdt_set with_access_mode 1 O_WRONLY;;
  fdt_set with_offset 1 0;;
  fdt_set with_logic_dev 1 (Some 1);;
  dir_set with_n_refs 1 1.

Lemma grows_open_devices : respects grows open_devices.
Proof. unfold open_devices. respects; by apply grows_set_dev. Qed.

Lemma wlp_open_devices s :
  wlp open_devices s (λ _ s', names_file s' 0 ∧ names_file s' 1) (λ _, False).
Proof.
  unfold open_devices. do 3 (apply wlp_bind, wlp_amodify; intros ? _).
  apply wlp_bind, wlp_amodify. intros v Hv. apply wlp_bind, wlp_amodify. intros f _.
  do 3 (apply wlp_bind, wlp_amodify; intros ? _).
  apply wlp_bind, wlp_amodify. intros v' Hv'. apply wlp_amodify. intros f' _. split.
  - exists (with_logic_dev (Some 0) v), 0. split; [|done]. simpl.
    do 4 rewrite zlookup_zinsert_ne by done. apply zlookup_zinsert_eq. by eapply zlookup_Some_range.
  - exists (with_logic_dev (Some 1) v'), 1. split; [|done]. apply zlookup_zinsert_eq. by eapply zlookup_Some_range.
Qed.

Lemma typed_init_task0 : preserves typed init_task0.
Proof.
  unfold init_task0. do 12 (apply preserves_bind; [solve [preserves]|intros _]).
  intros k Hk. apply wlp_bind.
  pose proof ((durable_FS typed) _ grows_open_devices k Hk) as Hty.
  assert (wlp (zoom FS open_devices) k (λ _ k', names_file (fs k') 0 ∧ names_file (fs k') 1) typed) as Hnm.
  { apply wlp_zoom. eapply wlp_mono; [apply wlp_open_devices|done|done]. }
  change (zoom FS (bind _ _)) with (zoom FS open_devices).
  unfold wlp in Hty, Hnm |- *. destruct (zoom FS open_devices k) as [[] k'|k'| | |]; try done.
  destruct Hnm as [H0 H1]. clear k Hk.
  apply wlp_bind, wlp_fd_set; [done|by intros o [= <-]|]. intros k1 Hk1 E1. rewrite <-E1 in H1.
  apply wlp_bind, wlp_fd_set; [done|by intros o [= <-]|]. intros k2 Hk2 E2. rewrite <-E2 in H1.
  apply wlp_bind, wlp_fd_set; [done|by intros o [= <-]|]. intros k3 Hk3 _. revert k3 Hk3.
  change (preserves typed (zoom Lists (list_add (RunListP 0) RunqueueP))). preserves.
Qed.

Lemma wlp_after {A B} (I : kstate → Prop) (m : K A) (f : A → K B) k (Q : B → kstate → Prop) :
  preserves I m → I k → (∀ a k', I k' → wlp (f a) k' Q (λ _, True)) → wlp (bind m f) k Q (λ _, True).
Proof. intros Hm Hk Hf. apply wlp_bind. eapply wlp_mono; [by apply Hm|exact Hf|done]. Qed.

Lemma cold_bss ta : cold_files (kstate_bss ta).
Proof. split; [|done]. unfold fds_of. exact (fmap_replicate file_descriptors _ task_bss). Qed.

Lemma wlp_boot_typed tb k : cold_files k → wlp (boot tb) k (λ _, typed) (λ _, True).
Proof.
  intros Hk. unfold boot, setTSS, init_sched, init_keyboard. apply wlp_bind, wlp_ret; cbv beta.
  apply (wlp_after cold_files); [preserves|done|]. intros _ k1 Hk1.
  apply (wlp_after cold_files); [preserves|done|]. intros _ k2 Hk2.
  apply (wlp_after cold_files); [preserves|done|]. intros _ k3 Hk3.
  apply (wlp_after cold_files); [preserves|done|]. intros _ k4 Hk4.
  apply wlp_bind, wp_wlp, wp_init_files; [done|]. intros k5 Hk5.
  apply (wlp_after typed); [apply typed_init_task0|exact Hk5|]. intros _ k6 Hk6.
  eapply (wlp_mono _ _ (λ _, typed) _ typed); [|done|done].
  assert (preserves typed iniTics) as Htics by (unfold iniTics; preserves). by apply Htics.
Qed.

Lemma typed_boot ta tb k : boot tb (kstate_bss ta) = Ret () k → typed k.
Proof. exact (wlp_Ret _ _ _ _ (λ _, typed) (λ _, True) (wlp_boot_typed tb _ (cold_bss ta))). Qed.
