(* ===== verification/FdFacts.v ===== *)
(** * File descriptors: [sys_dup], [sys_close] and [sys_open] of a typed state. *)
From stdpp Require Import functions.
From S2P Require Import Prelude Mm Utils Fs KState Sched Devices Sys Queues.
From S2P Require Import FsFacts FsOps UtilsFacts FileFacts CreateFacts ReadFacts Framed Typed.

(** The open file behind a descriptor; none out of the table. *)
Definition descriptor (t : task_struct) (fd : Z) : option Z := mjoin (zlookup (file_descriptors t) fd).

Definition set_descriptor (fd : Z) (p : option Z) (t : task_struct) : task_struct :=
  t_file_descriptors (zinsert fd p (file_descriptors t)) t.

(** The lowest descriptor that is null. *)
Definition first_free_fd (t : task_struct) (n : Z) : Prop :=
  0 ≤ n < MAX_FDS ∧ descriptor t n = None ∧ ∀ j, 0 ≤ j < n → descriptor t j ≠ None.
Definition no_free_fd (t : task_struct) : Prop := ∀ j, 0 ≤ j < MAX_FDS → descriptor t j ≠ None.

(** The file system with [n] more references to [o], of [d]. *)
Definition referenced (n o : Z) (v : virtual) (d : Z) (f : file) (s : fs_state) : fs_state :=
  MkFs (fat s) (ffb s) (disk s) (zinsert d (with_n_refs (s32 (n_refs f + n)) f) (dir s))
    (zinsert o (with_refs (s32 (refs v + n)) v) (fdt s)).

(** [o], an open file, is [v], of the entry [d], which is [f]. *)
Record opened (s : fs_state) (o : Z) (v : virtual) (d : Z) (f : file) : Prop := {
  op_open : zlookup (fdt s) o = Some v;
  op_dev : logic_dev v = Some d;
  op_file : zlookup (dir s) d = Some f;
}.

Section Descriptors.
Context (k : kstate) (t : task_struct).
Context (Hty : typed k) (Ht : zlookup (task k) (cur (sched k)) = Some t).
Context (Hlen : zlen (file_descriptors t) = MAX_FDS).

Lemma descriptor_lookup fd : 0 ≤ fd < MAX_FDS → zlookup (file_descriptors t) fd = Some (descriptor t fd).
Proof using Hlen.
  intros Hfd. unfold descriptor. destruct (zlookup_range (file_descriptors t) fd) as [p Hp]; [lia|]. by rewrite Hp.
Qed.

Lemma descriptor_out fd : ¬ (0 ≤ fd < MAX_FDS) → descriptor t fd = None.
Proof using Hlen. intros Hfd. unfold descriptor. by rewrite zlookup_None by lia. Qed.

Lemma descriptor_opened fd o : descriptor t fd = Some o → ∃ v d f, opened (fs k) o v d f.
Proof using Hty Ht Hlen.
  intros Ho. assert (0 ≤ fd < MAX_FDS) as Hfd.
  { apply dec_stable. intros H. by rewrite descriptor_out in Ho. }
  pose proof (descriptor_lookup fd Hfd) as Hl. rewrite Ho in Hl.
  destruct (typed_descriptor _ _ _ _ _ Hty Ht Hl) as (v & d & f & ? & ? & ?). by exists v, d, f.
Qed.

Lemma wp_fd_lookup fd (Q : option Z → kstate → Prop) X :
  Q (descriptor t fd) k → wp (fd_lookup fd) k Q X.
Proof using Ht Hlen.
  intros HQ. unfold fd_lookup, cur_task, current. apply wp_bind, wp_bind, wp_get. eapply wp_aget; [exact Ht|].
  destruct (decide (0 ≤ fd < MAX_FDS)) as [Hfd|Hfd].
  - rewrite !bool_decide_false by lia. simpl. eapply wp_of_option; [by apply descriptor_lookup|done].
  - assert (bool_decide (fd < 0) || bool_decide (MAX_FDS ≤ fd) = true) as ->.
    { rewrite orb_true_iff, !bool_decide_eq_true. lia. }
    apply wp_ret. by rewrite <-(descriptor_out fd).
Qed.

Lemma wp_search_fds (Q : Z → kstate → Prop) X :
  (∀ n, first_free_fd t n → Q n k) → (no_free_fd t → Q MAX_FDS k) →
  wp (search_range 0 MAX_FDS (λ i,
    let! p := of_option (zlookup (file_descriptors t) i) in ret (bool_decide (p ≠ None)))) k Q X.
Proof using Hlen.
  intros Hfree Hnone. apply (wp_search_range (λ i, bool_decide (descriptor t i ≠ None))); [done| |].
  - intros i Hi _. apply wp_bind. eapply wp_of_option; [by apply descriptor_lookup|]. by apply wp_ret.
  - intros n Hn Hpre Hstop. assert (∀ j, 0 ≤ j < n → descriptor t j ≠ None) as Hj.
    { intros j Hj. specialize (Hpre j Hj). by apply bool_decide_eq_true in Hpre. }
    destruct (decide (n = MAX_FDS)) as [->|]; [by apply Hnone|]. apply Hfree. split; [lia|]. split; [|done].
    specialize (Hstop ltac:(lia)). apply bool_decide_eq_false in Hstop. by apply dec_stable.
Qed.

Lemma wp_fd_set fd p (Q : unit → kstate → Prop) X :
  0 ≤ fd < MAX_FDS →
  Q () (set_task (zinsert (cur (sched k)) (set_descriptor fd p t) (task k)) k) →
  wp (fd_set (cur (sched k)) fd p) k Q X.
Proof using Ht Hlen.
  intros Hfd HQ. unfold fd_set. apply wp_bind. eapply wp_aget; [exact Ht|].
  apply wp_bind. eapply wp_of_option; [by apply descriptor_lookup|]. by eapply wp_task_set.
Qed.
End Descriptors.

(** ** [sys_dup] and [sys_close]. *)

Inductive dup_post (k : kstate) (t : task_struct) (fd : Z) : Z → kstate → Prop :=
| dup_bad : descriptor t fd = None → dup_post k t fd (- EBADF) k
| dup_full o : descriptor t fd = Some o → no_free_fd t → dup_post k t fd (- EMFILE) k
| dup_done o v d f n :
    descriptor t fd = Some o → opened (fs k) o v d f → first_free_fd t n →
    dup_post k t fd n (set_fs (referenced 1 o v d f (fs k))
      (set_task (zinsert (cur (sched k)) (set_descriptor n (Some o) t) (task k)) k)).

Lemma wp_sys_dup k t fd (Q : Z → kstate → Prop) X :
  typed k → zlookup (task k) (cur (sched k)) = Some t → zlen (file_descriptors t) = MAX_FDS →
  (∀ r k', dup_post k t fd r k' → Q r k') → wp (sys_dup fd) k Q X.
Proof.
  intros Hty Ht Hlen HQ. unfold sys_dup, current. apply wp_bind, wp_get.
  apply wp_bind, (wp_fd_lookup k t Ht Hlen). destruct (descriptor t fd) as [o|] eqn:Ho; [|by apply wp_ret, HQ, dup_bad].
  destruct (descriptor_opened k t Hty Ht Hlen _ _ Ho) as (v & d & f & Hop). pose proof Hop as [Hv Hd Hf].
  apply wp_bind. eapply wp_aget; [exact Ht|]. apply wp_bind, wp_search_fds; [exact Hlen| |].
  2: { intros Hno. rewrite bool_decide_true by done. by eapply wp_ret, HQ, dup_full. }
  intros n Hn. pose proof Hn as [Hr _]. rewrite bool_decide_false by lia.
  apply wp_bind. apply (wp_fd_set k t); [done|done|done|].
  apply wp_bind. apply wp_fs_aget with (a := v); [exact Hv|].
  apply wp_bind, wp_zoom. eapply wp_fdt_set; [exact Hv|].
  apply wp_bind. eapply wp_of_option; [exact Hd|]. apply wp_bind. apply wp_fs_aget with (a := f); [exact Hf|].
  apply wp_bind, wp_zoom. eapply wp_dir_set; [exact Hf|]. apply wp_ret, HQ.
  exact (dup_done k t fd o v d f n Ho Hop Hn).
Qed.

Inductive close_post (k : kstate) (t : task_struct) (fd : Z) : Z → kstate → Prop :=
| close_bad : descriptor t fd = None → close_post k t fd (- EBADF) k
| close_done o v d f :
    descriptor t fd = Some o → opened (fs k) o v d f →
    close_post k t fd 0 (set_fs (referenced (-1) o v d f (fs k))
      (set_task (zinsert (cur (sched k)) (set_descriptor fd None t) (task k)) k)).

Lemma wp_sys_close k t fd (Q : Z → kstate → Prop) X :
  typed k → zlookup (task k) (cur (sched k)) = Some t → zlen (file_descriptors t) = MAX_FDS →
  (∀ r k', close_post k t fd r k' → Q r k') → wp (sys_close fd) k Q X.
Proof.
  intros Hty Ht Hlen HQ. unfold sys_close, current. apply wp_bind, wp_get.
  apply wp_bind, (wp_fd_lookup k t Ht Hlen). destruct (descriptor t fd) as [o|] eqn:Ho; [|by apply wp_ret, HQ, close_bad].
  destruct (descriptor_opened k t Hty Ht Hlen _ _ Ho) as (v & d & f & Hop). pose proof Hop as [Hv Hd Hf].
  assert (0 ≤ fd < MAX_FDS) as Hfd.
  { apply dec_stable. intros H. by rewrite (descriptor_out t Hlen) in Ho. }
  apply wp_bind. apply wp_fs_aget with (a := v); [exact Hv|]. apply wp_bind. eapply wp_of_option; [exact Hd|].
  apply wp_bind. apply wp_fs_aget with (a := f); [exact Hf|].
  assert (call_no_routine (sys_close_dev (operations f)) = ret ()) as ->.
  { unfold call_no_routine. by destruct (sys_close_dev (operations f)) as [[]|]. }
  apply wp_bind, wp_ret. apply wp_bind, wp_zoom. eapply wp_fdt_set; [exact Hv|].
  apply wp_bind, wp_zoom. eapply wp_dir_set; [exact Hf|]. apply wp_bind.
  match goal with |- wp _ ?s _ _ => pose (k1 := s) end.
  apply (wp_fd_set k1 t); [done|done|done|]. apply wp_ret, HQ.
  exact (close_done k t fd o v d f Ho Hop).
Qed.
