(* ===== verification/ReachProps.v ===== *)
(** * Theorems about every state the kernel reaches: a process stores to memory of
    its own only, and [sys_fork] is never undefined. *)
From stdpp Require Import functions.
From S2P Require Import Prelude KList Mm Utils Io Fs KState Sched.
From S2P Require Import Sem Devices Sys Interrupt Queues SchedFacts SemFacts Quiet KernelInv ExitFacts ForkFacts Boot.
From S2P Require Import Kernel States Framed Timing RoundRobin Frames Confine Flushed Typed FdFacts.

Lemma data_page_entry m frames j f :
  data_pages m = ptes frames → zlookup frames j = Some f →
  zlookup (pagusr_table m) (PAG_LOG_INIT_DATA_P0 + j) = Some (user_pte f).
Proof.
  intros E Hf. pose proof (zlookup_Some_range _ _ _ Hf) as Hr.
  assert (zlen frames = NUM_PAG_DATA) as Hl.
  { apply (f_equal zlen) in E. unfold ptes, data_pages in E. rewrite !zlen_fmap in E. by rewrite <-E. }
  apply (f_equal (λ l, l !! Z.to_nat j)) in E. unfold ptes, data_pages in E. rewrite !list_lookup_fmap in E.
  rewrite lookup_seqZ_lt in E by lia. rewrite <-(Z2Nat.id j) in Hf by lia. rewrite zlookup_nat in Hf. rewrite Hf in E.
  rewrite Z.add_0_l, Z2Nat.id in E by lia. injection E as E. exact E.
Qed.

(** The frames behind the data pages of the running process: in use, and of no
    other live process; they are those it records, unless it is process 0. *)
Record mine (k : kstate) (v : task_struct) (frames : list Z) : Prop := {
  mi_len : zlen frames = NUM_PAG_DATA;
  mi_pages : ∀ j f, zlookup frames j = Some f → zlookup (pagusr_table (mm k)) (PAG_LOG_INIT_DATA_P0 + j) = Some (user_pte f);
  mi_used : ∀ f, f ∈ frames → 0 ≤ f < TOTAL_PAGES ∧ zlookup (phys_mem (mm k)) f = Some USED_FRAME;
  mi_others : ∀ f t' v', f ∈ frames → t' ≠ cur (sched k) → zlookup (task k) t' = Some v' → pid v' ≠ -1 → f ∉ ph_pages v';
  mi_recorded : cur (sched k) ≠ 0 → frames = ph_pages v;
}.

(** What holds of every reachable state. *)
Record sound (spare : list Z) (k : kstate) : Prop := {
  so_kinv : kinv k;
  so_isolated : isolated spare k;
  so_home : at_home spare k;
  so_typed : typed k;
  so_flushed : flushed k;
}.

Lemma reachable_sound ta tb k : reachable ta tb k → ∃ spare, sound spare k.
Proof.
  intros Hr. destruct (reachable_home _ _ _ Hr) as (Hk & spare & Hiso & Hhome). exists spare. split; [done|done|done| |].
  - destruct Hr as (k0 & Hboot & Hsteps).
    exact (stays_star _ typed_stays _ _ (kinv_boot _ _ _ Hboot) (typed_boot _ _ _ Hboot) Hsteps).
  - by eapply flushed_reachable.
Qed.

Lemma sound_mine spare k v :
  sound spare k → zlookup (task k) (cur (sched k)) = Some v → pid v ≠ -1 → ∃ frames, mine k v frames.
Proof.
  intros [[Hs _] Hiso [Hrec Hmap] _ _] Hv Hp. unfold viewed in Hmap. simpl in Hmap.
  pose proof (sh_mem _ Hs) as Hphys.
  assert (∀ frames, data_pages (mm k) = ptes frames → zlen frames = NUM_PAG_DATA) as Hlen.
  { intros frames E. apply (f_equal zlen) in E. unfold ptes, data_pages in E. rewrite !zlen_fmap in E. by rewrite <-E. }
  destruct Hmap as [[Hc E]|(ps & Hps & E)].
  - exists spare. split; [by apply Hlen|intros *; by eapply data_page_entry| | |done].
    + intros f Hf. destruct (fk_spare _ _ Hiso f Hf) as [Hu _]. split; [|exact Hu].
      apply zlookup_Some_range in Hu. simpl in Hu. lia.
    + intros f t' v' Hf _ Hv'%frames_lookup Hp'. destruct (fk_spare _ _ Hiso f Hf) as [_ Hout]. by eapply Hout.
  - rewrite zlookup_fmap, Hv in Hps. injection Hps as <-. apply frames_lookup in Hv.
    exists (ph_pages v). split; [by apply Hlen|intros *; by eapply data_page_entry| | |done].
    + intros f Hf. destruct (fk_used _ _ Hiso _ _ _ _ Hv Hp Hf) as [_ Hu]. split; [|exact Hu].
      apply zlookup_Some_range in Hu. simpl in Hu. lia.
    + intros f t' v' Hf Hne Hv'%frames_lookup Hp'. eapply (fk_disjoint _ _ Hiso (cur (sched k)) t'); [congruence|exact Hv|exact Hv'|done|done|done].
Qed.

Lemma ustore_at k addr pa b :
  phys_of (mm k) addr = Some pa → ustore addr b k = Ret () (set_mm (set_ram (<[pa := b]> (ram (mm k))) (mm k)) k).
Proof.
  intros Hpa. assert (wp (ustore addr b) k (λ u s, u = () ∧ s = set_mm (set_ram (<[pa := b]> (ram (mm k))) (mm k)) k) (λ _, False)) as Hw.
  { unfold ustore. apply wp_zoom. eapply wp_store_byte; [exact Hpa|done]. }
  unfold wp in Hw. destruct (ustore addr b k); try done. by destruct Hw as [-> ->].
Qed.

(** The entry of the page lets the user store to it. *)
Definition user_writable (m : mm_state) (addr : Z) : Prop :=
  ∃ e, zlookup (pagusr_table m) (Z.shiftr addr 12) = Some e ∧ present e = 1 ∧ rw e = 1 ∧ user e = 1.

Lemma user_page m addr f :
  zlookup (pagusr_table m) (addr / PAGE_SIZE) = Some (user_pte f) → 0 ≤ f < TOTAL_PAGES →
  user_writable m addr ∧ phys_of m addr = Some (f * PAGE_SIZE + addr mod PAGE_SIZE).
Proof.
  intros He Hf. assert (0 ≤ addr mod PAGE_SIZE < PAGE_SIZE) as Ho by by apply Z.mod_pos_bound.
  assert (addr = PAGE_SIZE * (addr / PAGE_SIZE) + addr mod PAGE_SIZE) as Ea by by apply Z.div_mod.
  split.
  - exists (user_pte f). split; [rewrite Ea, shiftr_page by done; exact He|].
    split; [apply user_pte_present|]. split; [apply user_pte_rw|apply user_pte_user].
  - rewrite Ea at 1. apply phys_of_user_page; [exact He|unfold TOTAL_PAGES in Hf; lia|done].
Qed.

(** C2: Memory protection.  In every state the kernel reaches - through system calls
    and page faults of live processes while a pid is left, interrupts and stores -
    no translation of the
    TLB is out of date and the page table lets the running process store to every
    address of its data region; the store changes one byte, of a frame that is in
    use and that no other live process records - and that the process records
    itself, unless it is process 0 - and is read back. *)
Theorem memory_protection ta tb k v addr b :
  reachable ta tb k → zlookup (task k) (cur (sched k)) = Some v → pid v ≠ -1 →
  PAGE_SIZE * PAG_LOG_INIT_DATA_P0 ≤ addr < PAGE_SIZE * (PAG_LOG_INIT_DATA_P0 + NUM_PAG_DATA) →
  stale (mm k) = ∅ ∧ user_writable (mm k) addr ∧
  ∃ f o, let k' := set_mm (set_ram (<[f * PAGE_SIZE + o := b]> (ram (mm k))) (mm k)) k in
    ustore addr b k = Ret () k' ∧ uload addr k' = Ret b k' ∧ 0 ≤ o < PAGE_SIZE ∧
    zlookup (phys_mem (mm k)) f = Some USED_FRAME ∧ (cur (sched k) ≠ 0 → f ∈ ph_pages v) ∧
    ∀ t' v', t' ≠ cur (sched k) → zlookup (task k) t' = Some v' → pid v' ≠ -1 → f ∉ ph_pages v'.
Proof.
  intros [spare Hr]%reachable_sound Hv Hp Ha. destruct (sound_mine _ _ _ Hr Hv Hp) as [frames H]. unfold PAGE_SIZE in Ha.
  set (j := addr / PAGE_SIZE - PAG_LOG_INIT_DATA_P0). set (o := addr mod PAGE_SIZE).
  assert (0 ≤ o < PAGE_SIZE) as Ho by by apply Z.mod_pos_bound.
  assert (addr = PAGE_SIZE * (PAG_LOG_INIT_DATA_P0 + j) + o) as Eaddr.
  { unfold j, o. rewrite Zplus_minus. apply Z.div_mod. done. }
  assert (0 ≤ j < NUM_PAG_DATA) as Hj by (unfold PAGE_SIZE in *; lia).
  destruct (zlookup_range frames j) as [f Hf]; [rewrite (mi_len _ _ _ H); exact Hj|].
  pose proof (zlookup_elem _ _ _ Hf) as Hin. destruct (mi_used _ _ _ H f Hin) as [Hfr Hu].
  destruct (user_page (mm k) addr f) as [Hw Hpa]; [|done|].
  { replace (addr / PAGE_SIZE) with (PAG_LOG_INIT_DATA_P0 + j) by (unfold j; lia). by apply (mi_pages _ _ _ H). }
  split; [exact (so_flushed _ _ Hr)|]. split; [exact Hw|].
  exists f, o. split; [|split; [|split; [done|split; [done|split]]]].
  - by apply ustore_at.
  - set (k' := set_mm _ k). assert (wp (uload addr) k' (λ c s, c = b ∧ s = k') (λ _, False)) as Hl.
    { unfold uload. apply wp_zoom. eapply (wp_load_byte _ _ b); [|done]. unfold byte_at, k'. simpl.
      rewrite phys_of_set_ram, Hpa. simpl. unfold ram_byte. simpl. by rewrite lookup_insert_eq. }
    unfold wp in Hl. destruct (uload addr k'); try done. by destruct Hl as [-> ->].
  - intros Hc. by rewrite <-(mi_recorded _ _ _ H Hc).
  - intros t' v'. by apply (mi_others _ _ _ H).
Qed.

(** The child of process 0 stores to the start of its data. *)
Lemma memory_protection_witness :
  ∃ k v, reachable boot_task_addr boot_table_addr k ∧ cur (sched k) = 1 ∧
  stale (mm k) = ∅ ∧ user_writable (mm k) (PAGE_SIZE * PAG_LOG_INIT_DATA_P0) ∧
  ∃ f o, let k' := set_mm (set_ram (<[f * PAGE_SIZE + o := 7]> (ram (mm k))) (mm k)) k in
    ustore (PAGE_SIZE * PAG_LOG_INIT_DATA_P0) 7 k = Ret () k' ∧ uload (PAGE_SIZE * PAG_LOG_INIT_DATA_P0) k' = Ret 7 k' ∧
    0 ≤ o < PAGE_SIZE ∧ zlookup (phys_mem (mm k)) f = Some USED_FRAME ∧ (cur (sched k) ≠ 0 → f ∈ ph_pages v) ∧
    ∀ t' v', t' ≠ cur (sched k) → zlookup (task k) t' = Some v' → pid v' ≠ -1 → f ∉ ph_pages v'.
Proof.
  destruct child_runs as (k & v & Hr & Hc & Hv & Hp). exists k, v. split; [exact Hr|]. split; [exact Hc|].
  rewrite <-Hc in Hv. apply (memory_protection _ _ k v (PAGE_SIZE * PAG_LOG_INIT_DATA_P0) 7 Hr Hv Hp).
  split; [apply Z.le_refl|reflexivity].
Defined.

(** ** [sys_fork]. *)

Lemma mine_address_space k v frames : mine k v frames → address_space (λ j, default 0 (zlookup frames j)) (mm k).
Proof.
  intros H. assert (∀ j, 0 ≤ j < NUM_PAG_DATA → ∃ f, zlookup frames j = Some f ∧ f ∈ frames) as Hlook.
  { intros j Hj. destruct (zlookup_range frames j) as [f Hf]; [by rewrite (mi_len _ _ _ H)|].
    exists f. split; [done|]. by eapply zlookup_elem. }
  split; intros j Hj; destruct (Hlook j Hj) as (f & Hf & Hin); rewrite Hf; simpl.
  - by apply (mi_pages _ _ _ H).
  - destruct (mi_used _ _ _ H f Hin) as [Hr _]. unfold TOTAL_PAGES in Hr. lia.
  - destruct (mi_used _ _ _ H f Hin) as [_ ->]. done.
Qed.

Lemma typed_valid_fds k t v : typed k → zlookup (task k) t = Some v → valid_fds (fs k) (file_descriptors v).
Proof.
  intros Hty Hv o [i Hi]%zlookup_of_elem. destruct (typed_descriptor _ _ _ _ _ Hty Hv Hi) as (w & d & f & Hw & Hd & Hf).
  exists w, d. split; [done|]. split; [done|]. by eapply zlookup_Some_range.
Qed.

Lemma sound_fork spare k :
  sound spare k → ready (qview_of k) →
  ∃ v q frames, zlookup (task k) (cur (sched k)) = Some v ∧ qinv (qview_of k) q ∧ mine k v frames ∧
    wp sys_fork k (fork_post k q v (λ j, default 0 (zlookup frames j))) (λ _, False).
Proof.
  intros H Hready. destruct (ready_current _ Hready) as (v & Hv & Hp). destruct (so_kinv _ _ H) as [Hs [q Hq]].
  destruct (sound_mine _ _ _ H Hv) as [frames Hm]; [lia|].
  exists v, q, frames. split; [done|]. split; [done|]. split; [done|].
  eapply wp_sys_fork; [done|done|done|done|apply Hready|eapply typed_valid_fds; [apply H|done]|by eapply mine_address_space|done].
Qed.

(** C9: In every state the kernel reaches, with a live process running and a pid
    left to give, [sys_fork] returns.  It fails with EAGAIN when no task is free,
    changing nothing, and when fewer than 20 frames are left, having given back
    those it took; only then.  Otherwise the first free task becomes the child: it
    gets the next pid, the first 20 free frames with the contents of the pages the
    parent sees, 0 as the result of its own call, no semaphores, the open files of the
    parent with one more reference each, and the end of the run queue; the
    parent gets the pid of the child, and its own pages are untouched. *)
Theorem sys_fork_correct ta tb k :
  reachable ta tb k → ready (qview_of k) →
  ∃ v q frames, zlookup (task k) (cur (sched k)) = Some v ∧ qinv (qview_of k) q ∧ mine k v frames ∧
    returns sys_fork k (fork_post k q v (λ j, default 0 (zlookup frames j))).
Proof.
  intros [spare H]%reachable_sound Hready. destruct (sound_fork _ _ H Hready) as (v & q & frames & Hv & Hq & Hm & Hw).
  exists v, q, frames. split; [done|]. split; [done|]. split; [done|]. by apply wp_returns.
Qed.

(** The first [fork] of process 0. *)
Lemma sys_fork_correct_witness :
  ∃ k, reachable boot_task_addr boot_table_addr k ∧
  ∃ v q frames, zlookup (task k) (cur (sched k)) = Some v ∧ qinv (qview_of k) q ∧ mine k v frames ∧
    returns sys_fork k (fork_post k q v (λ j, default 0 (zlookup frames j))).
Proof.
  destruct booted as (k & q & H).
  assert (reachable boot_task_addr boot_table_addr k) as Hr by (exists k; split; [exact (so_boot _ _ H)|constructor]).
  exists k. split; [exact Hr|]. apply (sys_fork_correct _ _ k Hr). split; simpl.
  - exists 0. rewrite (so_pids _ _ H), (so_cur _ _ H). split; [reflexivity|apply Z.le_refl].
  - rewrite (so_counter _ _ H). reflexivity.
Defined.

(** ** Progress. *)

(** An action comes to its end: it returns, or it resumes another process. *)
Definition finishes {A} (m : K A) (k : kstate) : Prop := wp m k (λ _ _, True) (λ _, True).

Lemma finishes_bind {A B} (m : K A) (f : A → K B) k (P : A → kstate → Prop) :
  finishes m k → wlp m k P (λ _, True) → (∀ a k', P a k' → finishes (f a) k') → finishes (bind m f) k.
Proof.
  unfold finishes. intros Hm HP Hf. apply wp_bind. unfold wp at 1 in Hm. unfold wlp in HP. unfold wp at 1.
  destruct (m k) as [a k'| | | |]; auto.
Qed.

Lemma finishes_ends {A} (m : K A) k : finishes m k → ∃ k', ends m k k'.
Proof. intros (k' & He & _)%wp_ends. by exists k'. Qed.

(** The calls that follow a pointer of the user. *)
Definition user_pointers : list Z := [3; 4; 5; 10; 35].

Lemma finishes_sys_call_table spare void nr ebx ecx edx k :
  sound spare k → ready (qview_of k) → nr ∉ user_pointers → finishes (sys_call_table void nr ebx ecx edx) k.
Proof.
  intros H Hr Hnr. destruct (ready_current _ Hr) as (v & Hv & Hp). pose proof (so_kinv _ _ H) as [Hs [q Hq]].
  pose proof (ts_fds _ (sh_task _ Hs _ _ Hv)) as Hfds. unfold finishes, sys_call_table, user_pointers in *.
  rewrite !not_elem_of_cons in Hnr. destruct Hnr as (H3 & H4 & H5 & H10 & H35 & _).
  repeat (case_bool_decide; [try done|]).
  - apply wp_bind. eapply wp_sys_exit; [done..| | |]; intros; by try apply wp_ret.
  - destruct (sound_fork _ _ H Hr) as (v' & q' & frames & _ & _ & _ & Hw). eapply wp_mono; [exact Hw|done|done].
  - eapply wp_sys_close; [apply H|exact Hv|exact Hfds|done].
  - unfold sys_getpid, cur_task, KState.current. repeat wp_step. by eapply wp_aget.
  - eapply wp_sys_sem_init; [done|done|apply u32_range|done].
  - eapply wp_sys_sem_wait; [done|done|exact Hv|lia|done|done].
  - by eapply wp_sys_sem_signal.
  - by eapply wp_sys_sem_destroy.
  - unfold sys_nice, KState.current. repeat wp_step. case_bool_decide; [|by apply wp_ret].
    wp_step. eapply wp_aget; [exact Hv|]. wp_step. by eapply wp_task_set.
  - eapply wp_sys_dup; [apply H|exact Hv|exact Hfds|done].
  - by apply wp_ret.
Qed.

(** The result is stored in the registers of the running process. *)
Lemma finishes_result f k : kinv k → finishes (let! c := KState.current in task_set t_saved_eax c f) k.
Proof.
  intros [_ [q Hq]]. destruct (qinv_current _ _ Hq) as [v Hv]. unfold finishes, KState.current. wp_step. by eapply wp_task_set.
Qed.

Lemma sound_SAVE_ALL spare eax k : sound spare k → wlp (SAVE_ALL eax) k (λ _, sound spare) (λ _, True).
Proof.
  intros [Hk Hi Hh Ht Hf]. pose proof (quiet_SAVE_ALL eax k) as Hq.
  pose proof (durable_SAVE_ALL (isolated spare) eax k Hi) as Hi'. pose proof (durable_SAVE_ALL (at_home spare) eax k Hh) as Hh'.
  pose proof (durable_SAVE_ALL typed eax k Ht) as Ht'. pose proof (durable_SAVE_ALL flushed eax k Hf) as Hf'. unfold wlp in *. destruct (SAVE_ALL eax k); try done.
  split; [by eapply quiet_kinv|done..].
Qed.

(** C3: Progress.  In every state the kernel reaches, with a live process running
    and a pid left to give, every system call that follows no pointer of the user
    comes to its end, whatever its number and its arguments: it returns to the
    process or resumes another one, and never faults, halts or loops. *)
Theorem system_calls_finish ta tb k void eax ebx ecx edx :
  reachable ta tb k → ready (qview_of k) → eax ∉ user_pointers →
  ∃ k', ends (system_call_handler void eax ebx ecx edx) k k'.
Proof.
  intros [spare H]%reachable_sound Hr Hnr. pose proof (so_kinv _ _ H) as [Hs [q Hq]]. destruct (qinv_current _ _ Hq) as [v Hv].
  apply finishes_ends. unfold system_call_handler.
  eapply (finishes_bind _ _ _ (λ _ k', sound spare k' ∧ ready (qview_of k'))).
  - unfold finishes, SAVE_ALL, KState.current. wp_step. by eapply wp_task_set.
  - eapply wlp_mono; [apply wlp_both; [by apply (sound_SAVE_ALL spare eax)|apply (wlp_respects quiet _ _ (λ _ k', quiet k k') (λ _, True)); [respects|done]]| |done].
    intros _ k' [? [Ev _]]. by rewrite Ev.
  - intros _ k1 [H1 Hr1]. case_match; [apply finishes_result, H1|].
    eapply (finishes_bind _ _ _ (λ _, kinv)); [by eapply finishes_sys_call_table| |intros r k2 Hk2; by apply finishes_result].
    eapply wlp_mono; [apply safe_sys_call_table; [apply H1|done]|done|done].
Qed.

(** [sem_wait] on semaphore 3, by process 0. *)
Lemma system_calls_finish_witness :
  ∃ k, reachable boot_task_addr boot_table_addr k ∧ ∃ k', ends (system_call_handler 0 22 3 0 0) k k'.
Proof.
  destruct booted as (k & q & H).
  assert (reachable boot_task_addr boot_table_addr k) as Hr by (exists k; split; [exact (so_boot _ _ H)|constructor]).
  exists k. split; [exact Hr|]. apply (system_calls_finish _ _ k 0 22 3 0 0 Hr).
  - split; simpl.
    + exists 0. rewrite (so_pids _ _ H), (so_cur _ _ H). split; [reflexivity|apply Z.le_refl].
    + rewrite (so_counter _ _ H). reflexivity.
  - by apply (bool_decide_unpack _).
Defined.
