(* ===== verification/Window.v ===== *)
(** * What a read from the keyboard leaves behind: 20 pages of the reader, which the
    processes that run after it can write. *)
From stdpp Require Import functions.
From S2P Require Import Prelude KList Mm Utils Io Fs KState Sched.
From S2P Require Import Sem Devices Sys Interrupt Queues SchedFacts SemFacts Quiet KernelInv Boot.
From S2P Require Import Kernel States EntryProps KeyFacts KeyServe.
From S2P Require Import Framed Timing RoundRobin Frames Confine Flushed Typed ReachProps.

(** The pages of the window are mapped to the frames [ps]. *)
Definition shows (ps : list Z) (m : mm_state) : Prop :=
  ∀ j f, zlookup ps j = Some f → zlookup (pagusr_table m) (WINDOW + j) = Some (user_pte f).

Section Shows.
Context (ps : list Z).
Abbreviation shown := (on_mm (shows ps)).

Lemma shows_set_entry p f : p < WINDOW → preserves (shows ps) (set_entry p f).
Proof using Type.
  intros Hp. unfold set_entry. apply preserves_bind; [|intros _; by apply preserves_modify].
  apply preserves_amodify. intros m e Hm He j g Hg. simpl. pose proof (zlookup_Some_range _ _ _ Hg).
  rewrite zlookup_zinsert_ne by lia. by apply Hm.
Qed.
Lemma shows_set_ss_pag p f : p < WINDOW → preserves (shows ps) (set_ss_pag p f).
Proof using Type. intros Hp. unfold set_ss_pag. repeat (apply preserves_bind; [by apply shows_set_entry|intros _]). by apply shows_set_entry. Qed.
Lemma shows_set_cr3 : preserves (shows ps) set_cr3.
Proof using Type. by apply preserves_put. Qed.

Lemma shown_task_switch t : preserves shown (task_switch t).
Proof using Type.
  unfold task_switch. do 4 (apply preserves_bind; [preserves|intros _]). apply preserves_bind; [|intros _].
  - apply preserves_loop. intros i. case_bool_decide as Hi; [|preserves].
    apply preserves_bind; [preserves|intros v]. apply preserves_bind; [preserves|intros f]. case_bool_decide; [|preserves].
    apply preserves_bind; [|intros _; preserves]. apply on_mm_MM, shows_set_ss_pag. unfold WINDOW. lia.
  - apply preserves_bind; [apply on_mm_MM, shows_set_cr3|intros _]. unfold EOI. preserves.
Qed.
#[local] Hint Resolve shown_task_switch : preserves.

End Shows.

(** Task [t] is the process [p] on the frames [ps]. *)
Definition resident (t p : Z) (ps : list Z) (k : kstate) : Prop :=
  ∃ v, zlookup (task k) t = Some v ∧ pid v = p ∧ ph_pages v = ps.

#[export] Instance resident_framed t p ps : framed (resident t p ps).
Proof.
  split.
  - intros k k' E (v & Hv & Hp & Hps). apply (f_equal (λ c, zlookup c.2 t)) in E. unfold core in E. simpl in E.
    rewrite !zlookup_fmap, Hv in E. destruct (zlookup (task k') t) as [w|] eqn:Hw; [|done].
    injection E as E1 E2 _. exists w. by rewrite E1, E2.
  - intros k s _ (v & Hv & Hp). by exists v.
  - intros k i j v Hv (w & Hw & Hp & Hps). pose proof (zlookup_Some_range _ _ _ Hv). unfold resident. simpl.
    rewrite zlookup_zinsert by done. case_decide; [subst|by exists w]. simplify_eq. by eexists.
Qed.



(** ** A run of two processes. *)










