(* ===== verification/OpenFacts.v ===== *)
(** * [sys_open] of a typed state with a well formed file system. *)
From stdpp Require Import functions.
From S2P Require Import Prelude Mm Utils Fs KState Sched Devices Sys Queues.
From S2P Require Import FsFacts FsOps UtilsFacts FileFacts CreateFacts ReadFacts Framed Typed FdFacts.

(** The first entry of the table of open files without references. *)
Definition free_slot (s : fs_state) (e : Z) : Prop :=
  (∃ v, zlookup (fdt s) e = Some v ∧ refs v ≤ 0) ∧
  ∀ j v, zlookup (fdt s) j = Some v → j < e → 0 < refs v.
Definition no_free_slot (s : fs_state) : Prop := ∀ j v, zlookup (fdt s) j = Some v → 0 < refs v.

(** The first entry of the directory with a name, or none. *)
Definition found (nm : Z → list Z) (l : list Z) (e : Z) : Prop :=
  0 ≤ e < MAX_FILES ∧ nm e = l ∧ ∀ j, 0 ≤ j < e → nm j ≠ l.
Definition absent (nm : Z → list Z) (l : list Z) : Prop := ∀ j, 0 ≤ j < MAX_FILES → nm j ≠ l.

(** What is left of the flags as the mode of the open file. *)
Definition mode_existing (flags : Z) : Z := if bool_decide (O_CREAT ≤ flags) then flags - O_CREAT else flags.
Definition mode_created (flags : Z) : Z :=
  (if bool_decide (O_EXCL ≤ flags) then flags - O_EXCL else flags) - O_CREAT.

Definition allows (f : file) (mode : Z) : Prop := access_mode_allow f = O_RDWR ∨ mode = access_mode_allow f.
#[export] Instance allows_dec f mode : Decision (allows f mode).
Proof. unfold allows. apply _. Defined.

(** The slot [e] is an open file of entry [d], which is [f]. *)
Definition slotted (e mode d : Z) (f : file) (s : fs_state) : fs_state :=
  MkFs (fat s) (ffb s) (disk s) (zinsert d (with_n_refs (s32 (n_refs f + 1)) f) (dir s))
    (zinsert e (Virtual mode 1 0 (Some d)) (fdt s)).
Definition open_state (k : kstate) (t : task_struct) (n e mode d : Z) (f : file) (s : fs_state) : kstate :=
  set_fs (slotted e mode d f s)
    (set_task (zinsert (cur (sched k)) (set_descriptor n (Some e) t) (task k)) k).

(** The arguments are good, and there is room for one more open file. *)
Record open_ready (k : kstate) (t : task_struct) (l : list Z) (flags e n : Z) : Prop := {
  or_length : zlen l ≤ MAX_NAME_LENGTH;
  or_slot : free_slot (fs k) e;
  or_fd : first_free_fd t n;
  or_flags : 0 ≤ flags ≤ ALL_FLAGS;
}.

Inductive open_post (k : kstate) (t : task_struct) (free : list Z) (nm : Z → list Z) (l : list Z) (flags : Z)
  : Z → kstate → Prop :=
| open_long : MAX_NAME_LENGTH < zlen l → open_post k t free nm l flags (- ENAMETOOLONG) k
| open_no_slot : zlen l ≤ MAX_NAME_LENGTH → no_free_slot (fs k) → open_post k t free nm l flags (- ENFILE) k
| open_no_fd e : zlen l ≤ MAX_NAME_LENGTH → free_slot (fs k) e → no_free_fd t →
    open_post k t free nm l flags (- EMFILE) k
| open_bad_flags e n : zlen l ≤ MAX_NAME_LENGTH → free_slot (fs k) e → first_free_fd t n →
    ¬ (0 ≤ flags ≤ ALL_FLAGS) → open_post k t free nm l flags (- EINVAL) k
| open_absent e n : open_ready k t l flags e n → absent nm l → flags < O_CREAT →
    open_post k t free nm l flags (- ENOENT) k
| open_exclusive e n d : open_ready k t l flags e n → found nm l d → Z.lor O_EXCL O_CREAT ≤ flags →
    open_post k t free nm l flags (- EEXIST) k
| open_denied e n d f : open_ready k t l flags e n → found nm l d → flags < Z.lor O_EXCL O_CREAT →
    zlookup (dir (fs k)) d = Some f → ¬ allows f (mode_existing flags) →
    open_post k t free nm l flags (- EACCES) k
| open_existing e n d f : open_ready k t l flags e n → found nm l d → flags < Z.lor O_EXCL O_CREAT →
    zlookup (dir (fs k)) d = Some f → allows f (mode_existing flags) →
    open_post k t free nm l flags n (open_state k t n e (mode_existing flags) d f (fs k))
| open_new e n i f b free' : open_ready k t l flags e n → absent nm l → O_CREAT ≤ flags →
    first_unused (fs k) i f → free = b :: free' →
    open_post k t free nm l flags n
      (open_state k t n e (mode_created flags) i (new_file l b f) (created free l i b f (fs k))).

(** What a creation needs. *)
Definition creatable (k : kstate) (free : list Z) (l : list Z) : Prop :=
  zlen l < MAX_NAME_LENGTH ∧ free ≠ [] ∧ ∃ i f, first_unused (fs k) i f.

(** A call that comes to a creation it cannot make. *)
Definition hopeless (k : kstate) (t : task_struct) (free : list Z) (nm : Z → list Z) (l : list Z) (flags : Z) : Prop :=
  (∃ e n, open_ready k t l flags e n) ∧ absent nm l ∧ O_CREAT ≤ flags ∧ ¬ creatable k free l.

(** The directory has an unused entry, or the search runs past its end. *)
Definition all_used (s : fs_state) : Prop := ∀ j g, zlookup (dir s) j = Some g → n_refs g ≠ -1.

Lemma unused_or_full s : (∃ i f, first_unused s i f) ∨ all_used s.
Proof.
  destruct (list_find (λ f, n_refs f = -1) (dir s)) as [[i f]|] eqn:E.
  - apply list_find_Some in E as (Hi & Hf & Hpre). left. exists (Z.of_nat i), f.
    split; [by rewrite zlookup_nat|]. split; [done|]. intros j g Hj Hlt.
    pose proof (zlookup_Some_range _ _ _ Hj). unfold zlookup in Hj. rewrite decide_True in Hj by lia.
    apply (Hpre (Z.to_nat j)); [done|lia].
  - apply list_find_None in E. rewrite Forall_forall in E. right. intros j g Hj. apply E. by eapply zlookup_elem.
Qed.

Lemma all_used_none s i f : all_used s → ¬ first_unused s i f.
Proof. intros Hall (Hi & Hf & _). by apply (Hall i f). Qed.
Lemma creatable_or_not k free l : creatable k free l ∨ ¬ creatable k free l.
Proof.
  unfold creatable. destruct (decide (zlen l < MAX_NAME_LENGTH)); [|by right; intros []].
  destruct (decide (free = [])); [by right; intros (_ & [] & _)|].
  destruct (unused_or_full (fs k)) as [?|Hall]; [by left|]. right. intros (_ & _ & i & f & Hu). by eapply all_used_none.
Qed.

Lemma free_entry_faults s : zlen (dir s) = MAX_FILES → all_used s → free_entry s = Fault.
Proof.
  intros Hlen Hall. unfold free_entry.
  match goal with |- loop _ ?b _ _ = _ => set (body := b) end.
  assert (body MAX_FILES s = Fault) as Hend.
  { unfold body, aget, bind, get. simpl. by rewrite zlookup_None by lia. }
  assert (∀ i, 0 ≤ i < MAX_FILES → body i s = Ret (inl (i + 1)) s) as Hstep.
  { intros i Hi. destruct (zlookup_range (dir s) i) as [g Hg]; [lia|].
    unfold body, aget, bind, get. simpl. rewrite Hg. simpl. rewrite !bool_decide_true; [done|lia|by eapply Hall]. }
  assert (∀ fuel i, 0 ≤ i ≤ MAX_FILES → MAX_FILES - i < Z.of_nat fuel → loop fuel body i s = Fault) as Hloop.
  { clearbody body. induction fuel as [|fuel IH]; intros i Hi Hf; [lia|].
    change (bind (body i) (λ r, match r with inl a => loop fuel body a | inr b => ret b end) s = Fault). unfold bind.
    destruct (decide (i = MAX_FILES)) as [->|]; [by rewrite Hend|]. rewrite Hstep by lia. apply IH; lia. }
  apply Hloop; unfold MAX_FILES; lia.
Qed.

Lemma create_file_faults {S} (L : lens S fs_state) rd s :
  zlen (dir (view L s)) = MAX_FILES → all_used (view L s) → create_file L rd s = Fault.
Proof. intros Hlen Hall. unfold create_file, bind, zoom. by rewrite free_entry_faults. Qed.

Lemma check_address_0 addr size : check_address addr size ≠ 1 → check_address addr size = 0.
Proof. unfold check_address. by destruct (_ || _). Qed.

(** A computation that meets undefined behaviour after [m]. *)
Lemma bind_faults {S A B} (m : M S A) (f : A → M S B) s :
  wp m s (λ a s', f a s' = Fault) (λ _, False) → bind m f s = Fault.
Proof. unfold wp, bind. by destruct (m s). Qed.

Section Open.
Context (k : kstate) (t : task_struct) (free : list Z) (own : Z → list Z) (nm : Z → list Z).
Context (path : Z) (l : list Z) (flags : Z).
Context (Hok : fs_ok (fs k) free own) (Hnm : named (fs k) nm) (Hty : typed k).
Context (Ht : zlookup (task k) (cur (sched k)) = Some t) (Hlen : zlen (file_descriptors t) = MAX_FDS).
Context (Hpath : check_address path 1 = 1) (Hs : user_string k path l).

Lemma wp_search_slot (Q : Z → kstate → Prop) X :
  (∀ e, 0 ≤ e < MAX_OPEN_FILES → free_slot (fs k) e → Q e k) → (no_free_slot (fs k) → Q MAX_OPEN_FILES k) →
  wp (search_range 0 MAX_OPEN_FILES (λ i,
    let! v := zoom FS (aget Fdt i) in ret (bool_decide (refs v > 0)))) k Q X.
Proof using Hty.
  intros Hfree Hnone. pose proof (ft_fdt _ (proj1 Hty)) as Hf.
  pose (p := λ i, match zlookup (fdt (fs k)) i with Some v => bool_decide (refs v > 0) | None => true end).
  assert (∀ i v, zlookup (fdt (fs k)) i = Some v → p i = bool_decide (refs v > 0)) as Hp by (unfold p; by intros i v ->).
  apply (wp_search_range p); [done| |].
  - intros i Hi _. destruct (zlookup_range (fdt (fs k)) i) as [v Hv]; [lia|].
    apply wp_bind. apply wp_fs_aget with (a := v); [exact Hv|]. apply wp_ret. by rewrite (Hp _ _ Hv).
  - intros e He Hpre Hstop. assert (∀ j v, zlookup (fdt (fs k)) j = Some v → j < e → 0 < refs v) as Hj.
    { intros j v Hv Hj. pose proof (zlookup_Some_range _ _ _ Hv). specialize (Hpre j ltac:(lia)).
      rewrite (Hp _ _ Hv) in Hpre. apply bool_decide_eq_true in Hpre. lia. }
    destruct (decide (e = MAX_OPEN_FILES)) as [->|Hne].
    + apply Hnone. intros j v Hv. eapply Hj; [exact Hv|]. pose proof (zlookup_Some_range _ _ _ Hv). lia.
    + apply Hfree; [lia|]. split; [|done]. destruct (zlookup_range (fdt (fs k)) e) as [v Hv]; [lia|].
      exists v. split; [done|]. specialize (Hstop ltac:(lia)). rewrite (Hp _ _ Hv) in Hstop.
      apply bool_decide_eq_false in Hstop. lia.
Qed.

Lemma path_not_null : path ≠ 0.
Proof using Hpath. clear -Hpath. intros ->. by vm_compute in Hpath. Qed.

(** The end of the call, in a state [k1] whose tasks are those of [k]. *)
Lemma wp_open_tail s n e mode d f (Q : Z → kstate → Prop) X :
  0 ≤ e < zlen (fdt s) → 0 ≤ n < MAX_FDS → zlookup (dir s) d = Some f →
  (¬ allows f mode → Q (- EACCES) (set_fs s k)) →
  (allows f mode → Q n (open_state k t n e mode d f s)) →
  wp (let! f := zoom FS (aget Dir d) in
      call_no_routine (sys_open_dev (operations f));;
      if bool_decide (access_mode_allow f ≠ O_RDWR) && bool_decide (mode ≠ access_mode_allow f)
      then ret (- EACCES)
      else zoom FS (fill_entry e mode d);; fd_set (cur (sched k)) n (Some e);; ret n) (set_fs s k) Q X.
Proof using Ht Hlen.
  intros He Hn Hf Hno Hyes. apply wp_bind. apply wp_fs_aget with (a := f); [exact Hf|].
  assert (call_no_routine (sys_open_dev (operations f)) = ret ()) as ->.
  { unfold call_no_routine. by destruct (sys_open_dev (operations f)) as [[]|]. }
  apply wp_bind, wp_ret.
  assert (bool_decide (access_mode_allow f ≠ O_RDWR) && bool_decide (mode ≠ access_mode_allow f) =
    negb (bool_decide (allows f mode))) as ->.
  { unfold allows. repeat case_bool_decide; simpl; tauto. }
  case_bool_decide as Ha; simpl negb; cbv iota; [|by apply wp_ret, Hno].
  destruct (zlookup_range _ _ He) as [v Hv]. apply wp_bind, wp_zoom. unfold fill_entry.
  assert (∀ w, zlookup (zinsert e w (fdt s)) e = Some w) as Hw by (intros; by apply zlookup_zinsert_eq).
  apply wp_bind. eapply wp_fdt_set; [exact Hv|]. apply wp_bind. eapply wp_fdt_set; [apply Hw|].
  simpl. rewrite zinsert_zinsert_eq.
  apply wp_bind. eapply wp_fdt_set; [apply Hw|]. simpl. rewrite zinsert_zinsert_eq.
  apply wp_bind. eapply wp_fdt_set; [apply Hw|]. simpl. rewrite zinsert_zinsert_eq.
  apply wp_bind. eapply wp_aget; [exact Hf|]. eapply wp_dir_set; [exact Hf|]. apply wp_bind.
  match goal with |- wp _ ?s1 _ _ => pose (k1 := s1) end.
  apply (wp_fd_set k1 t); [exact Ht|done|done|]. apply wp_ret. exact (Hyes Ha).
Qed.

Lemma wp_open_lookup (Q : Z → kstate → Prop) X :
  (∀ d, found nm l d → Q d k) → (absent nm l → Q MAX_FILES k) → wp (lookup_path path) k Q X.
Proof using Hok Hnm Hs.
  intros Hfound Habsent. eapply wp_lookup_path; [apply Hok|done|done|]. intros d Hd Hpre Hd'.
  destruct (decide (d = MAX_FILES)) as [->|]; [by apply Habsent|]. apply Hfound. split; [lia|].
  split; [apply Hd'; lia|done].
Qed.

Lemma wp_sys_open (Q : Z → kstate → Prop) X :
  ¬ hopeless k t free nm l flags →
  (∀ r k', open_post k t free nm l flags r k' → Q r k') →
  wp (sys_open path flags) k Q X.
Proof using All.
  intros Hcr HQ. pose proof (ft_fdt _ (proj1 Hty)) as Hfl.
  unfold sys_open, current. apply wp_bind, wp_get. rewrite Hpath, bool_decide_false by done.
  rewrite bool_decide_false by apply path_not_null.
  apply wp_bind. eapply wp_user_strlen; [exact Hs|]. case_bool_decide as Hlong; [by apply wp_ret, HQ, open_long; lia|].
  apply wp_bind, wp_search_slot.
  2: { intros Hno. rewrite bool_decide_true by done. apply wp_ret, HQ, open_no_slot; [lia|done]. }
  intros e He Hslot. rewrite bool_decide_false by lia. apply wp_bind. eapply wp_aget; [exact Ht|].
  apply wp_bind, wp_search_fds; [exact Hlen| |].
  2: { intros Hno. rewrite bool_decide_true by done. apply wp_ret, HQ. eapply open_no_fd; [lia|exact Hslot|exact Hno]. }
  intros n Hfd. pose proof Hfd as [Hn _]. rewrite bool_decide_false by lia.
  destruct (decide (0 ≤ flags ≤ ALL_FLAGS)) as [Hfl'|Hfl'].
  2: { assert (bool_decide (flags < 0) || bool_decide (flags > ALL_FLAGS) = true) as ->.
       { rewrite orb_true_iff, !bool_decide_eq_true. lia. }
       apply wp_ret, HQ. eapply open_bad_flags; [lia|done..]. }
  rewrite !bool_decide_false by lia. cbn [orb].
  assert (open_ready k t l flags e n) as Hready by (split; [lia|done..]).
  apply wp_bind, wp_open_lookup.
  - intros d Hd. pose proof Hd as (Hr & _). unfold open_select. rewrite bool_decide_false by lia.
    case_bool_decide as Hex; [apply wp_bind, wp_ret, wp_ret, HQ; by eapply open_exclusive|].
    apply wp_bind, wp_ret, wp_bind, wp_ret.
    destruct (zlookup_range (dir (fs k)) d) as [f Hf]; [by rewrite (fo_dir _ _ _ Hok)|].
    assert (set_fs (fs k) k = k) as Ek by by destruct k.
    match goal with |- wp ?m _ ?P ?Y => enough (wp m (set_fs (fs k) k) P Y) as H by by rewrite Ek in H end.
    change (if bool_decide (O_CREAT ≤ flags) then flags - O_CREAT else flags) with (mode_existing flags).
    apply (wp_open_tail (fs k) n e _ d f); [by rewrite Hfl|done|done| |].
    + intros Hno. rewrite Ek. apply HQ. eapply open_denied; [done|done|lia|done|done].
    + intros Hyes. apply HQ. eapply open_existing; [done|done|lia|done|done].
  - intros Habs. unfold open_select. rewrite bool_decide_true by done.
    case_bool_decide as Hcreat; [apply wp_bind, wp_ret, wp_ret, HQ; by eapply open_absent|].
    assert (creatable k free l) as (Hl & Hfree & i & f & Hu).
    { destruct (creatable_or_not k free l) as [?|Hno]; [done|]. destruct Hcr.
      split; [by exists e, n|]. split; [done|]. split; [lia|done]. }
    apply wp_bind, wp_bind.
    eapply wp_create_file; [exact Hok|exact Hu|exact Hs|].
    intros p k1 [?|? ?|b free' _ Ef]; [lia|done|]. apply wp_ret, wp_bind, wp_ret.
    destruct Hu as (Hi & Hu'). apply (wp_open_tail _ n e _ i (new_file l b f)); [change (0 ≤ e < zlen (fdt (fs k))); by rewrite Hfl|done| | |].
    + simpl. apply zlookup_zinsert_eq. eauto with arrays.
    + intros Hno. exfalso. apply Hno. by left.
    + intros _. apply HQ. eapply open_new; [done|done|lia|by split|done].
Qed.

(** The error codes of [create_file] are dereferenced. *)
Lemma sys_open_faults : hopeless k t free nm l flags → sys_open path flags k = Fault.
Proof using All.
  intros ((e & n & [Hl Hslot Hfd Hfl]) & Habs & Hcreat & Hbad). unfold sys_open, current. apply bind_faults, wp_get.
  rewrite Hpath, bool_decide_false by done. rewrite bool_decide_false by apply path_not_null.
  apply bind_faults. eapply wp_user_strlen; [exact Hs|]. rewrite bool_decide_false by lia.
  apply bind_faults, wp_search_slot.
  2: { intros Hno. destruct Hslot as [(v & Hv & Hr) _]. specialize (Hno _ _ Hv). lia. }
  intros e' He' _. rewrite bool_decide_false by lia. apply bind_faults. eapply wp_aget; [exact Ht|].
  apply bind_faults, wp_search_fds; [exact Hlen| |].
  2: { intros Hno. destruct Hfd as (Hn & Hd & _). by destruct (Hno n Hn). }
  intros n' [Hn' _]. rewrite (bool_decide_false (n' = MAX_FDS)) by lia.
  rewrite !bool_decide_false by lia. cbn [orb]. apply bind_faults, wp_open_lookup.
  { intros d (Hd & En & _). by destruct (Habs d Hd). }
  intros _. unfold open_select. rewrite bool_decide_true by done. rewrite bool_decide_false by lia.
  destruct (unused_or_full (fs k)) as [(i & f & Hu)|Hall].
  - apply bind_faults, wp_bind. eapply wp_create_file; [exact Hok|exact Hu|exact Hs|].
    intros p k1 [?|? ?|b free' Hshort Ef]; [by apply wp_ret..|]. destruct Hbad. split; [done|].
    split; [by rewrite Ef|by exists i, f].
  - pose proof (create_file_faults FS (λ j, uload (path + j)) k (fo_dir _ _ _ Hok) Hall) as E.
    unfold bind. by rewrite E.
Qed.
End Open.
