(* ===== verification/FileSession.v ===== *)
(** * The life of a file: created, written, closed, opened again and read
    through the system calls on descriptors. *)
From stdpp Require Import functions.
From S2P Require Import Prelude Mm Utils Fs KState Sched Devices Sys Queues.
From S2P Require Import FsFacts FsOps UtilsFacts FileFacts CreateFacts WriteFacts ReadFacts FsProps.
From S2P Require Import FileProps Framed Typed FdFacts OpenFacts.

(** Counting references changes nothing for the blocks. *)
Lemma fs_ok_refs s free own d f r op :
  fs_ok s free own → zlookup (dir s) d = Some f → r ≠ -1 ∨ ¬ regular f →
  fs_ok (MkFs (fat s) (ffb s) (disk s) (zinsert d (with_n_refs r f) (dir s)) op) free own.
Proof.
  intros Hok Hf Hr. pose proof (zlookup_Some_range _ _ _ Hf) as Hd.
  assert (∀ i g, zlookup (zinsert d (with_n_refs r f) (dir s)) i = Some g →
    zlookup (dir s) i = Some g ∨ g = with_n_refs r f ∧ i = d) as Hg.
  { intros i g. rewrite zlookup_zinsert by done. case_decide; [|by left]. intros [= <-]. by right. }
  split; simpl; try apply Hok.
  - rewrite zlen_zinsert. apply Hok.
  - intros i g [Hi|[-> ->]]%Hg; [by apply (fo_names _ _ _ Hok i)|by apply (fo_names _ _ _ Hok d f)].
  - intros i g [Hi|[-> ->]]%Hg Hreg; [by apply (fo_file _ _ _ Hok)|].
    destruct (fo_file _ _ _ Hok _ _ Hf Hreg). by split.
  - intros i Hi. apply (fo_other _ _ _ Hok). intros g Hgi. destruct (decide (i = d)) as [->|Hne].
    + simplify_eq. apply (Hi (with_n_refs r f)). by apply zlookup_zinsert_eq.
    + apply Hi. by rewrite zlookup_zinsert_ne.
  - intros i g [Hi|[-> ->]]%Hg Hn; [by eapply (fo_unused _ _ _ Hok)|]. simpl in Hn. by destruct Hr.
Qed.

Lemma named_refs s nm d f r op :
  named s nm → zlookup (dir s) d = Some f →
  named (MkFs (fat s) (ffb s) (disk s) (zinsert d (with_n_refs r f) (dir s)) op) nm.
Proof.
  intros Hn Hf i g. simpl. rewrite zlookup_zinsert by eauto with arrays. case_decide; [|by apply Hn].
  intros [= <-]. subst. by apply (Hn i f).
Qed.

(** The access check passes. *)
Definition accessible (k : kstate) (type addr size : Z) : Prop :=
  access_ok (union_addr (task_addr (sched k)) (cur (sched k))) type addr size (mm k) = Ret 1 (mm k).

Lemma wp_accessible k type addr size (Q : Z → kstate → Prop) X :
  accessible k type addr size → Q 1 k → wp (access_ok_k type addr size) k Q X.
Proof.
  intros Ha HQ. unfold access_ok_k. apply wp_bind, wp_get, wp_zoom. unfold wp.
  change (view MM k) with (mm k). change (cur (view Sched k)) with (cur (sched k)).
  change (task_addr (view Sched k)) with (task_addr (sched k)). rewrite Ha.
  by replace (update MM (mm k) k) with k by (by destruct k).
Qed.

(** Descriptor [fd] of the running process [t] is the open file [o] of a
    regular file, with the routines of one. *)
Record open_regular (k : kstate) (t : task_struct) (fd o : Z) (v : virtual) (d : Z) (f : file) : Prop := {
  og_task : zlookup (task k) (cur (sched k)) = Some t;
  og_fd : descriptor t fd = Some o;
  og_open : opened (fs k) o v d f;
  og_routines : operations f = file_routines;
}.

Lemma open_regular_on k t fd o v d f : open_regular k t fd o v d f → open_on k fd o v d f.
Proof.
  intros [Ht Hfd [Hv Hd Hf] Hr]. split; [|done|done|done|by unfold regular; rewrite Hr].
  exists t. split; [done|]. unfold descriptor in Hfd. by destruct (zlookup _ fd) as [[]|]; simplify_eq/=.
Qed.

Section Calls.
Context (k : kstate) (t : task_struct) (fd o : Z) (v : virtual) (d : Z) (f : file).
Context (Ho : open_regular k t fd o v d f) (Hlen : zlen (file_descriptors t) = MAX_FDS).

Lemma descriptor_range : 0 ≤ fd < MAX_FDS.
Proof using Ho Hlen.
  apply dec_stable. intros H. pose proof (og_fd _ _ _ _ _ _ _ Ho) as E. by rewrite (descriptor_out t Hlen) in E.
Qed.

(** [sys_write] on such a descriptor is [sys_write_file]. *)
Lemma wp_sys_write_regular buf n (Q : Z → kstate → Prop) X :
  access_mode v ≠ O_RDONLY → 0 ≤ n ≤ MAX_TRANSFER → accessible k 1 buf n →
  wp (sys_write_file fd buf n) k Q X → wp (sys_write fd buf n) k Q X.
Proof using Ho Hlen.
  intros Hm Hn Ha HQ. pose proof descriptor_range as Hfd. pose proof Ho as [Ht Hd [Hv Hl Hf] Hr].
  unfold sys_write, cur_task, current. apply wp_bind, wp_bind, wp_get. eapply wp_aget; [exact Ht|].
  rewrite !bool_decide_false by lia. cbn [orb]. apply wp_bind.
  eapply wp_of_option; [by apply descriptor_lookup|]. rewrite Hd. cbv beta iota.
  apply wp_bind. apply wp_fs_aget with (a := v); [exact Hv|]. rewrite bool_decide_false by done.
  apply wp_bind, wp_accessible; [done|]. simpl. apply wp_bind. eapply wp_of_option; [exact Hl|].
  apply wp_bind. apply wp_fs_aget with (a := f); [exact Hf|]. by rewrite Hr.
Qed.

(** [sys_read] notes the request first. *)
Definition requesting (buf n : Z) : kstate :=
  set_task (zinsert (cur (sched k)) (t_buffer buf (t_req_size n t)) (task k)) k.

Lemma wp_sys_read_regular buf n (Q : Z → kstate → Prop) X :
  access_mode v ≠ O_WRONLY → 0 ≤ n ≤ MAX_TRANSFER → accessible k 0 buf n →
  wp (sys_read_file fd buf n) (requesting buf n) Q X → wp (sys_read fd buf n) k Q X.
Proof using Ho Hlen.
  intros Hm Hn Ha HQ. pose proof descriptor_range as Hfd. pose proof Ho as [Ht Hd [Hv Hl Hf] Hr].
  unfold sys_read, current. apply wp_bind, wp_get, wp_bind. eapply wp_aget; [exact Ht|].
  rewrite !bool_decide_false by lia. cbn [orb]. apply wp_bind.
  eapply wp_of_option; [by apply descriptor_lookup|]. rewrite Hd. cbv beta iota.
  apply wp_bind. apply wp_fs_aget with (a := v); [exact Hv|]. rewrite bool_decide_false by done.
  apply wp_bind, wp_accessible; [done|]. simpl. apply wp_bind. eapply wp_task_set; [exact Ht|].
  apply wp_bind. eapply wp_task_set; [apply zlookup_zinsert_eq; by eapply zlookup_Some_range|].
  simpl. rewrite zinsert_zinsert_eq. apply wp_bind. eapply wp_of_option; [exact Hl|].
  apply wp_bind. apply wp_fs_aget with (a := f); [exact Hf|]. by rewrite Hr.
Qed.
End Calls.

(** ** A file through a session.

    [k], reached from [k0] without touching memory or switching context: [t]
    runs, and the entry [d] of name [l] is the regular file [f]. *)
Record session (k0 k : kstate) (t : task_struct) (free : list Z) (own : Z → list Z) (l : list Z)
    (d : Z) (f : file) : Prop := {
  se_mm : mm k = mm k0;
  se_sched : sched k = sched k0;
  se_ok : fs_ok (fs k) free own;
  se_typed : typed k;
  se_named : ∃ nm, named (fs k) nm ∧ found nm l d;
  se_task : zlookup (task k) (cur (sched k)) = Some t;
  se_len : zlen (file_descriptors t) = MAX_FDS;
  se_file : zlookup (dir (fs k)) d = Some f;
  se_routines : operations f = file_routines;
  se_allow : access_mode_allow f = O_RDWR;
}.

(** Its open file, [fd] of [t]. *)
Definition on_session (k : kstate) (t : task_struct) (fd o : Z) (v : virtual) (d : Z) : Prop :=
  descriptor t fd = Some o ∧ zlookup (fdt (fs k)) o = Some v ∧ logic_dev v = Some d.

Lemma session_regular k0 k t free own l d f fd o v :
  session k0 k t free own l d f → on_session k t fd o v d → open_regular k t fd o v d f.
Proof. intros [] (? & ? & ?). by split. Qed.

(** A call keeps the types as well. *)
Lemma wp_typed {A} (m : K A) k (Q : A → kstate → Prop) X :
  preserves typed m → typed k → wp m k (λ a k', typed k' → Q a k') X → wp m k Q X.
Proof.
  intros Hm Hk HQ. eapply wp_mono; [apply (wp_wlp_and _ _ _ _ _ _ HQ (Hm k Hk))|..].
  - intros a k' [H Hk']. by apply H.
  - by intros k' [H _].
Qed.

Lemma contents_refs s own d f r op :
  zlookup (dir s) d = Some f →
  contents (MkFs (fat s) (ffb s) (disk s) (zinsert d (with_n_refs r f) (dir s)) op) own d = contents s own d.
Proof.
  intros Hf. unfold contents. simpl. rewrite zlookup_zinsert_eq by by eapply zlookup_Some_range. by rewrite Hf.
Qed.

Lemma zlen_set_descriptor fd p t : zlen (file_descriptors (set_descriptor fd p t)) = zlen (file_descriptors t).
Proof. apply zlen_zinsert. Qed.

Lemma descriptor_set fd p t n :
  0 ≤ fd < zlen (file_descriptors t) →
  descriptor (set_descriptor fd p t) n = if decide (fd = n) then p else descriptor t n.
Proof.
  intros Hfd. unfold descriptor, set_descriptor. simpl. rewrite zlookup_zinsert by done. by case_decide.
Qed.

Lemma user_string_mm k k' path l : mm k' = mm k → user_string k path l → user_string k' path l.
Proof. unfold user_string, user_bytes. by intros ->. Qed.

(** Opening an entry keeps everything but its count of references. *)
Lemma open_state_session k0 k t free own nm l n e mode d f s :
  mm k = mm k0 → sched k = sched k0 → fs_ok s free own → named s nm → found nm l d →
  zlookup (task k) (cur (sched k)) = Some t → zlen (file_descriptors t) = MAX_FDS →
  zlookup (dir s) d = Some f → operations f = file_routines → access_mode_allow f = O_RDWR →
  0 ≤ n_refs f < INT_MAX → 0 ≤ n < MAX_FDS → 0 ≤ e < zlen (fdt s) →
  let k1 := open_state k t n e mode d f s in
  let t1 := set_descriptor n (Some e) t in
  let f1 := with_n_refs (n_refs f + 1) f in
  typed k1 → session k0 k1 t1 free own l d f1 ∧ on_session k1 t1 n e (Virtual mode 1 0 (Some d)) d ∧
    contents (fs k1) own d = contents s own d.
Proof.
  intros Em Es Hok Hnm Hfound Ht Hlen Hf Hops Hallow Hrefs Hn He k1 t1 f1 Hty.
  assert (s32 (n_refs f + 1) = n_refs f + 1) as Er by (apply s32_small; unfold INT_MIN, INT_MAX in *; lia).
  unfold k1, open_state, slotted. rewrite Er. split; [|split].
  - split; simpl; try done.
    + apply fs_ok_refs; [done|done|left; lia].
    + rewrite <-Er. exact Hty.
    + exists nm. split; [by apply named_refs|done].
    + apply zlookup_zinsert_eq. by eapply zlookup_Some_range.
    + by rewrite zlen_zinsert.
    + apply zlookup_zinsert_eq. by eapply zlookup_Some_range.
  - split; [|split; [|done]].
    + unfold t1. rewrite descriptor_set by lia. by rewrite decide_True.
    + simpl. by apply zlookup_zinsert_eq.
  - by apply contents_refs.
Qed.

(** ** The calls of a session. *)

Definition FOR_UPDATE : Z := Z.lor O_CREAT O_RDWR.

(** The name of a file that was created. *)
Lemma created_named s nm free l i b f :
  named s nm → zlookup (dir s) i = Some f → zlen (name f) = MAX_NAME_LENGTH → printable_chars l → zlen l < MAX_NAME_LENGTH →
  named (created free l i b f s) (<[i := l]> nm).
Proof.
  intros Hnm Hi Hname Hl Hlen j g. simpl. rewrite zlookup_zinsert by eauto with arrays. case_decide as E.
  - intros [= <-]. subst j. rewrite fn_lookup_insert. by apply new_file_name.
  - intros Hg. rewrite fn_lookup_insert_ne by congruence. by apply Hnm.
Qed.

Lemma created_found nm l i : absent nm l → 0 ≤ i < MAX_FILES → found (<[i := l]> nm) l i.
Proof.
  intros Habs Hi. split; [done|]. split; [by rewrite fn_lookup_insert|].
  intros j Hj. rewrite fn_lookup_insert_ne by lia. apply Habs. lia.
Qed.

(** Creation. *)
Lemma wp_open_for_update k t free own nm path l (Q : Z → kstate → Prop) X :
  fs_ok (fs k) free own → named (fs k) nm → typed k →
  zlookup (task k) (cur (sched k)) = Some t → zlen (file_descriptors t) = MAX_FDS →
  check_address path 1 = 1 → user_string k path l → absent nm l → creatable k free l →
  ¬ no_free_slot (fs k) → ¬ no_free_fd t →
  (∀ n e i f b free', free_slot (fs k) e → first_free_fd t n → first_unused (fs k) i f → free = b :: free' →
     let k' := open_state k t n e O_RDWR i (new_file l b f) (created free l i b f (fs k)) in typed k' → Q n k') →
  wp (sys_open path FOR_UPDATE) k Q X.
Proof.
  intros Hok Hnm Hty Ht Hlen Hpath Hs Habs Hcr Hslot Hfd HQ.
  apply wp_typed; [apply typed_sys_open|done|].
  eapply (wp_sys_open k t free own nm path l FOR_UPDATE); try done; [by intros (_ & _ & _ & [])|].
  intros r k1 Hpost Hty1. pose proof Hcr as (Hl & _).
  destruct Hpost as [?|? ?|? ? ? ?|? ? ? ? ? Hbad|? ? ? ? Hlt|? ? d' ? Hd|? ? d' ? ? Hd|? ? d' ? ? Hd|
    e n i f b free' [_ Hse Hnfd _] _ _ Hu Efree]; try done; try lia.
  all: try (destruct Hd as (Hr & En & _); by destruct (Habs _ Hr)).
  { exfalso. apply Hbad. by vm_compute. }
  by eapply HQ.
Qed.

(** The new file is empty. *)
Lemma wp_session_create k t free own nm path l (Q : Z → kstate → Prop) X :
  fs_ok (fs k) free own → named (fs k) nm → typed k →
  zlookup (task k) (cur (sched k)) = Some t → zlen (file_descriptors t) = MAX_FDS →
  check_address path 1 = 1 → user_string k path l → absent nm l → creatable k free l →
  ¬ no_free_slot (fs k) → ¬ no_free_fd t →
  (∀ n k1 t1 free1 own1 d f1 e, session k k1 t1 free1 own1 l d f1 →
     on_session k1 t1 n e (Virtual O_RDWR 1 0 (Some d)) d → contents (fs k1) own1 d = [] →
     size f1 = 0 → n_refs f1 = 1 → Q n k1) →
  wp (sys_open path FOR_UPDATE) k Q X.
Proof.
  intros Hok Hnm Hty Ht Hlen Hpath Hs Habs Hcr Hslot Hfd HQ. eapply wp_open_for_update; try done.
  intros n e i f b free' [(ve & Hve & _) _] [Hn _] Hu Efree. cbv zeta. intros Hty1. pose proof Hcr as (Hl & _).
  pose proof Hu as (Hi & _). pose proof (zlookup_Some_range _ _ _ Hi) as Hr. destruct Hs as (Hpr & _).
  set (s := created free l i b f (fs k)) in *.
  assert (fs_ok s free' (<[i := [b]]> own)) as Hok' by (unfold s; subst free; by apply created_ok).
  assert (zlookup (dir s) i = Some (new_file l b f)) as Hf' by by apply zlookup_zinsert_eq.
  destruct (open_state_session k k t free' (<[i := [b]]> own) (<[i := l]> nm) l n e O_RDWR i (new_file l b f) s)
    as (Hse & Hon & Hcont); try done.
  { eapply created_named; [done..| |done|done]. by eapply (fo_names _ _ _ Hok). }
  { apply created_found; [done|]. by rewrite <-(fo_dir _ _ _ Hok). }
  { by eapply zlookup_Some_range. }
  eapply HQ; [exact Hse|exact Hon| |done|done].
  rewrite Hcont. unfold contents. by rewrite Hf'.
Qed.

(** Writing an empty file. *)
Lemma wp_session_write k0 k t free own l d f fd o v buf n src (Q : Z → kstate → Prop) X :
  session k0 k t free own l d f → on_session k t fd o v d → access_mode v ≠ O_RDONLY →
  offset v = 0 → size f = 0 → contents (fs k) own d = [] →
  0 ≤ n ≤ MAX_TRANSFER → accessible k 1 buf n → user_bytes k buf n src →
  (∀ r m k' free' own' f', session k0 k' t free' own' l d f' →
     on_session k' t fd o (with_offset m v) d → contents (fs k') own' d = src <$> seqZ 0 m →
     size f' = m → n_refs f' = n_refs f → (r = n ∧ m = n ∨ r = - ENOSPC ∧ 0 ≤ m < n) → Q r k') →
  wp (sys_write fd buf n) k Q X.
Proof.
  intros Hse Hon Hmode Hoff Hsz Hemp Hn Hacc Hb HQ.
  pose proof (session_regular _ _ _ _ _ _ _ _ _ _ _ Hse Hon) as Hreg.
  apply wp_typed; [apply durable_sys_write, _|apply Hse|].
  eapply wp_sys_write_regular; [exact Hreg|apply Hse|done|done|done|].
  eapply wp_sys_write_file; [apply Hse|by eapply open_regular_on|congruence|lia|exact Hb|].
  assert (∀ r m s' free' own', 0 ≤ m → appending (fs k) own d o f v src m s' free' own' →
    (r = n ∧ m = n ∨ r = - ENOSPC ∧ 0 ≤ m < n) → typed (set_fs s' k) → Q r (set_fs s' k)) as Hdone.
  { intros r m s' free' own' Hm Ha Hr Hty'. destruct (ap_file _ _ _ _ _ _ _ _ _ _ _ Ha) as [nb Hf'].
    destruct Hse as [? ? Hok ? (nm & Hnm & Hfound) ? ? Hf ? ?]. destruct Hon as (Hd & Hv & Hl).
    rewrite Hsz in Hf'. simpl in Hf'. 
    apply (HQ r m _ free' own' (with_size m (with_n_blocks nb f))); try done.
    - split; try done; [apply Ha|]. exists nm. split; [|done]. intros i g Hg. destruct (decide (i = d)) as [->|Hi].
      + simpl in Hg. rewrite Hf' in Hg. injection Hg as <-. exact (Hnm _ _ Hf).
      + apply Hnm. by rewrite <-(ap_dir _ _ _ _ _ _ _ _ _ _ _ Ha).
    - split; [done|]. split; [|done]. simpl. rewrite (ap_open _ _ _ _ _ _ _ _ _ _ _ Ha), Hsz. done.
    - simpl. by rewrite (appending_contents _ _ _ _ _ _ _ _ _ _ _ Ha Hm Hf ltac:(lia)), Hemp. }
  intros r k' Hpost Hty'. destruct Hpost as [s' free' own' Ha|m s' own' Hm Ha _].
  - eapply (Hdone n n); [lia|exact Ha|by left|done].
  - eapply (Hdone _ m); [lia|exact Ha|by right|done].
Qed.

(** Closing the only descriptor of the file. *)
Lemma wp_session_close k0 k t free own l d f fd o v (Q : Z → kstate → Prop) X :
  session k0 k t free own l d f → on_session k t fd o v d → refs v = 1 → n_refs f = 1 →
  (∀ k', session k0 k' (set_descriptor fd None t) free own l d (with_n_refs 0 f) →
     contents (fs k') own d = contents (fs k) own d → ¬ no_free_slot (fs k') → Q 0 k') →
  wp (sys_close fd) k Q X.
Proof.
  intros Hse (Hd & Hv & Hl) Hrefs Hnrefs HQ. apply wp_typed; [apply durable_sys_close, _|apply Hse|].
  eapply wp_sys_close; [apply Hse|apply Hse|apply Hse|]. intros r k' Hpost Hty'.
  destruct Hpost as [Hbad|o' v' d' f' Ho' [Hv' Hd' Hf']]; [congruence|]. pose proof (se_file _ _ _ _ _ _ _ _ Hse) as Hf.
  assert (o' = o) as -> by congruence. assert (v' = v) as -> by congruence. assert (d' = d) as -> by congruence.
  assert (f' = f) as -> by congruence.
  unfold referenced in *. rewrite Hnrefs, Hrefs in *. change (s32 (1 + -1)) with 0 in *.
  apply HQ.
  - destruct Hse as [? ? Hok ? (nm & Hnm & Hfound) Ht ? _ ? ?]. split; simpl; try done.
    + apply fs_ok_refs; [done|done|by left].
    + exists nm. split; [by apply named_refs|done].
    + apply zlookup_zinsert_eq. by eapply zlookup_Some_range.
    + by rewrite zlen_zinsert.
    + apply zlookup_zinsert_eq. by eapply zlookup_Some_range.
  - simpl. by apply contents_refs.
  - intros Hno. specialize (Hno o (with_refs 0 v)). simpl in Hno.
    rewrite zlookup_zinsert_eq in Hno by (by eapply zlookup_Some_range). specialize (Hno eq_refl). lia.
Qed.

(** Opening it again, to read. *)
Lemma wp_session_reopen k0 k t free own l d f path (Q : Z → kstate → Prop) X :
  session k0 k t free own l d f → check_address path 1 = 1 → user_string k0 path l → zlen l < MAX_NAME_LENGTH →
  ¬ no_free_slot (fs k) → ¬ no_free_fd t → n_refs f = 0 →
  (∀ n k1 e, session k0 k1 (set_descriptor n (Some e) t) free own l d (with_n_refs 1 f) →
     on_session k1 (set_descriptor n (Some e) t) n e (Virtual O_RDONLY 1 0 (Some d)) d →
     contents (fs k1) own d = contents (fs k) own d → Q n k1) →
  wp (sys_open path O_RDONLY) k Q X.
Proof.
  intros Hse Hpath Hs Hl Hslot Hfd Hnrefs HQ. pose proof Hse as [Em Es Hok Hty (nm & Hnm & Hfound) Ht Hlen Hf Hops Hallow].
  apply wp_typed; [apply typed_sys_open|done|].
  eapply (wp_sys_open k t free own nm path l O_RDONLY); try done.
  { by eapply user_string_mm. }
  { by intros (_ & _ & ? & _). }
  intros r k1 Hpost Hty1.
  assert (∀ d', found nm l d' → d' = d) as Huniq.
  { intros d' (Hr' & En' & Hpre'). destruct Hfound as (Hr & En & Hpre).
    destruct (Z.lt_trichotomy d d') as [H|[H|H]]; [|done|].
    - by destruct (Hpre' d); [lia|].
    - by destruct (Hpre d'); [lia|]. }
  destruct Hpost as [?|? ?|? ? ? ?|? ? ? ? ? Hbad|? ? ? Habs ?|? ? ? ? Hlt|? ? d' f' ? Hd ? Hf' Hno|
    e n d' f' [_ [Hsl _] Hnfd _] Hd _ Hf' Hyes|? ? ? ? ? ? ? ? Hlt]; try done; try lia.
  - exfalso. apply Hbad. by vm_compute.
  - destruct Hfound as (Hr & En & _). by destruct (Habs d Hr).
  - exfalso. rewrite (Huniq _ Hd) in Hf'. assert (f' = f) as -> by congruence. apply Hno. by left.
  - rewrite (Huniq _ Hd) in *. assert (f' = f) as -> by congruence. clear Huniq.
    destruct Hsl as (ve & Hve & _). destruct Hnfd as [Hn _]. change (mode_existing O_RDONLY) with O_RDONLY in *.
    destruct (open_state_session k0 k t free own nm l n e O_RDONLY d f (fs k)) as (Hse' & Hon & Hcont); try done.
    { unfold INT_MAX. lia. } { by eapply zlookup_Some_range. }
    rewrite Hnrefs in Hse'. by apply (HQ n _ e).
Qed.

Lemma lookup_src (src : Z → Z) m j : 0 ≤ j < m → zlookup (src <$> seqZ 0 m) j = Some (src j).
Proof.
  intros Hj. rewrite zlookup_fmap. unfold zlookup. rewrite decide_True by lia.
  rewrite lookup_seqZ_lt by lia. simpl. by rewrite Z2Nat.id by lia.
Qed.

(** Reading it from the start. *)
Lemma wp_session_read k0 k t free own l d f fd o v buf n m src pd (Q : Z → kstate → Prop) X :
  session k0 k t free own l d f → on_session k t fd o v d → access_mode v ≠ O_WRONLY →
  offset v = 0 → size f = m → contents (fs k) own d = src <$> seqZ 0 m → 0 ≤ m ≤ n → n ≤ MAX_TRANSFER →
  accessible k 0 buf n →
  (∀ i, 0 ≤ i < n → phys_of (mm k0) (buf + i) = Some (pd i)) →
  (∀ i j, 0 ≤ i < n → 0 ≤ j < n → pd i = pd j → i = j) →
  (∀ k', (∀ j, 0 ≤ j < m → byte_at (mm k') (buf + j) = Some (src j)) →
     (∀ pa, (∀ j, 0 ≤ j < m → pa ≠ pd j) → ram_byte (mm k') pa = ram_byte (mm k0) pa) → Q m k') →
  wp (sys_read fd buf n) k Q X.
Proof.
  intros Hse Hon Hmode Hoff Hsz Hcont Hm Hn Hacc Hpd Hinj HQ.
  pose proof (session_regular _ _ _ _ _ _ _ _ _ _ _ Hse Hon) as Hreg.
  eapply wp_sys_read_regular; [exact Hreg|apply Hse|done|lia|done|].
  set (k1 := requesting k t buf n). pose proof Hse as [Em Es Hok _ _ Ht _ Hf _ _].
  assert (open_on k1 fd o v d f) as Ho.
  { destruct (open_regular_on _ _ _ _ _ _ _ Hreg) as [(t' & Ht' & Hfd) Hv Hl Hf' Hr]. split; try done.
    exists (t_buffer buf (t_req_size n t)). split.
    - apply zlookup_zinsert_eq. by eapply zlookup_Some_range.
    - simpl. rewrite Ht in Ht'. by injection Ht' as ->. }
  eapply (wp_sys_read_file k1 free own fd o v d f buf n pd); try done; [lia|lia| |].
  { intros i Hi. change (mm k1) with (mm k). rewrite Em. by apply Hpd. }
  assert (read_count (offset v) n (size f) = m) as ->.
  { unfold read_count. rewrite Hoff, Hsz. rewrite bool_decide_false by lia. lia. }
  intros k' Hrd. apply HQ.
  - intros j Hj. rewrite (reading_bytes _ _ _ _ _ f _ buf _ j _ Hrd Hf); [|lia|lia| |done].
    + rewrite Hoff. change (contents (fs k1) own d) with (contents (fs k) own d). rewrite Hcont. by apply lookup_src.
    + change (mm k1) with (mm k). rewrite Em. apply Hpd. lia.
  - destruct Hrd as (rm & _ & _ & Hun). intros pa Hpa. rewrite (Hun pa Hpa). change (mm k1) with (mm k). by rewrite Em.
Qed.
