(* ===== verification/FdProps.v ===== *)
(** * Properties of the file descriptors: their types, the system calls on
    them, a whole session with a file. *)
From stdpp Require Import functions.
From S2P Require Import Prelude Mm Utils Fs KState Sched Devices Sys Interrupt Queues.
From S2P Require Import KernelInv Boot Kernel States FsFacts FsOps UtilsFacts FileFacts CreateFacts WriteFacts ReadFacts.
From S2P Require Import FsProps FileProps Framed Typed FdFacts OpenFacts FileSession.

(** ** The booted system, with some bytes in the first data page: the path "n"
    and, 16 bytes further, three characters. *)

Definition user_path : Z := 264 * 4096.
Definition user_text : Z := 264 * 4096 + 16.
Definition user_buffer : Z := 265 * 4096.
Definition user_ram : gmap Z Z :=
  {[ 264 * 4096 := 110; 264 * 4096 + 16 := 65; 264 * 4096 + 17 := 66; 264 * 4096 + 18 := 67 ]}.
Definition with_user_ram (k : kstate) : kstate := set_mm (set_ram user_ram (mm k)) k.

Definition passes {S} (o : outcome S Z) : bool := match o with Ret r _ => bool_decide (r = 1) | _ => false end.
Definition user_check (k : kstate) : bool :=
  name_check (fs k) first_names && bool_decide (refs <$> take 3 (fdt (fs k)) = [1; 1; 0]) &&
  bool_decide (n_refs <$> take 3 (dir (fs k)) = [1; 1; -1]) &&
  bool_decide (logic_dev <$> take 2 (fdt (fs k)) = [Some 0; Some 1]) &&
  passes (access_ok (union_addr (task_addr (sched k)) 0) 1 user_text 3 (set_ram user_ram (mm k))) &&
  passes (access_ok (union_addr (task_addr (sched k)) 0) 0 user_buffer 3 (set_ram user_ram (mm k))).

Lemma user_runs :
  match boot boot_table_addr (kstate_bss boot_task_addr) with
  | Ret _ k => user_check k | _ => false end = true.
Proof. by vm_compute. Qed.

Lemma looks_access_ok loc type addr size : respects eq (access_ok loc type addr size).
Proof. unfold access_ok. respects. Qed.

Lemma passes_accessible k type addr size :
  passes (access_ok (union_addr (task_addr (sched k)) (cur (sched k))) type addr size (mm k)) = true →
  accessible k type addr size.
Proof.
  unfold accessible. pose proof (looks_access_ok (union_addr (task_addr (sched k)) (cur (sched k))) type addr size (mm k)) as H.
  destruct (access_ok _ type addr size (mm k)) as [r m| | | |]; try done. simpl in *. intros ->%bool_decide_eq_true. by rewrite <-H.
Qed.

Record user_ready (k : kstate) (t : task_struct) : Prop := {
  ur_typed : typed k;
  ur_shape : shape k;
  ur_fs : fs_ok (fs k) all_blocks no_blocks;
  ur_named : named (fs k) first_names;
  ur_task : zlookup (task k) (cur (sched k)) = Some t;
  ur_fds : file_descriptors t = boot_fds;
  ur_refs : refs <$> take 3 (fdt (fs k)) = [1; 1; 0];
  ur_nrefs : n_refs <$> take 3 (dir (fs k)) = [1; 1; -1];
  ur_devs : logic_dev <$> take 2 (fdt (fs k)) = [Some 0; Some 1];
  ur_path : user_string k user_path [110];
  ur_text : user_bytes k user_text 3 (λ i, 65 + i);
  ur_write : accessible k 1 user_text 3;
  ur_read : accessible k 0 user_buffer 3;
  ur_page : ∀ a, 0 ≤ a < PAGE_SIZE → phys_of (mm k) (264 * 4096 + a) = Some (264 * 4096 + a);
  ur_buffer : ∀ i, 0 ≤ i < 3 → phys_of (mm k) (user_buffer + i) = Some (266 * 4096 + i);
}.

Lemma page_phys m p f a :
  zlookup (pagusr_table m) p = Some (user_pte f) → 0 ≤ f < 2 ^ 20 → 0 ≤ a < PAGE_SIZE →
  phys_of (set_ram user_ram m) (PAGE_SIZE * p + a) = Some (f * PAGE_SIZE + a).
Proof. intros Hp Hf Ha. rewrite phys_of_set_ram. by apply phys_of_user_page. Qed.

Lemma user_state : ∃ k t, user_ready k t.
Proof.
  destruct booted as (k & q & H). pose proof user_runs as Hc. rewrite (so_boot _ _ H) in Hc.
  unfold user_check in Hc. rewrite !andb_true_iff, !bool_decide_eq_true in Hc. destruct Hc as [[[[[Hn Hr] Hd] Hl] Hw] Hrd].
  destruct (qinv_lookup_task _ _ 0 (so_inv _ _ H)) as [t Ht]; [done|].
  assert (∀ j, 0 ≤ j < NUM_PAG_DATA → zlookup (pagusr_table (mm k)) (PAG_LOG_INIT_DATA_P0 + j) = Some (user_pte (boot_frame j))) as Hpg.
  { intros j Hj. pose proof (so_mapped _ _ H j Hj) as E. unfold page_check in E.
    rewrite andb_true_iff, !bool_decide_eq_true in E. by destruct E. }
  assert (∀ a, 0 ≤ a < PAGE_SIZE → phys_of (set_ram user_ram (mm k)) (264 * 4096 + a) = Some (264 * 4096 + a)) as H0.
  { intros a Ha. exact (page_phys (mm k) 264 264 a (Hpg 0 ltac:(done)) ltac:(done) Ha). }
  assert (∀ a, 0 ≤ a < PAGE_SIZE → phys_of (set_ram user_ram (mm k)) (265 * 4096 + a) = Some (266 * 4096 + a)) as H1.
  { intros a Ha. exact (page_phys (mm k) 265 266 a (Hpg 1 ltac:(done)) ltac:(done) Ha). }
  exists (with_user_ram k), t. pose proof (so_shape _ _ H) as Hs. split.
  - apply (typed_same k); [done|done|]. exact (typed_boot _ _ _ (so_boot _ _ H)).
  - destruct Hs. by split.
  - apply H.
  - by apply name_check_ok.
  - simpl. by rewrite (so_cur _ _ H).
  - pose proof (so_fds _ _ H) as E. destruct (task k) as [|w ws]; [done|].
    change (zlookup (w :: ws) 0) with (Some w) in Ht. injection Ht as <-. by injection E.
  - done.
  - done.
  - done.
  - split; [by repeat constructor|]. split; [done|]. intros i Hi. unfold byte_at. simpl.
    assert (i = 0 ∨ i = 1) as [-> | ->] by (unfold zlen in Hi; simpl in Hi; lia); unfold user_path; rewrite H0 by done; vm_compute; reflexivity.
  - intros i Hi. unfold byte_at, user_text. simpl.
    assert (i = 0 ∨ i = 1 ∨ i = 2) as [-> | [-> | ->]] by lia; rewrite <-Z.add_assoc, H0 by done; vm_compute; reflexivity.
  - apply passes_accessible. change (sched (with_user_ram k)) with (sched k).
    change (mm (with_user_ram k)) with (set_ram user_ram (mm k)). rewrite (so_cur _ _ H). exact Hw.
  - apply passes_accessible. change (sched (with_user_ram k)) with (sched k).
    change (mm (with_user_ram k)) with (set_ram user_ram (mm k)). rewrite (so_cur _ _ H). exact Hrd.
  - exact H0.
  - intros i Hi. simpl. apply H1. unfold PAGE_SIZE. lia.
Qed.

(** What the hypotheses of the theorems need of it. *)
Section Ready.
Context (k : kstate) (t : task_struct) (H : user_ready k t).

Lemma ready_len : zlen (file_descriptors t) = MAX_FDS.
Proof using H. by rewrite (ur_fds _ _ H). Qed.

Lemma ready_slot : free_slot (fs k) 2.
Proof using H.
  pose proof (ur_refs _ _ H) as E. destruct (fdt (fs k)) as [|v0 [|v1 [|v2 l]]] eqn:El; try done.
  injection E as E0 E1 E2. unfold free_slot. rewrite El. split.
  - exists v2. split; [done|lia].
  - intros j v Hj Hlt. pose proof (zlookup_Some_range _ _ _ Hj).
    assert (j = 0 ∨ j = 1) as [-> | ->] by lia; injection Hj as <-; lia.
Qed.

Lemma ready_fd : first_free_fd t 3.
Proof using H.
  unfold first_free_fd, descriptor. rewrite (ur_fds _ _ H). split_and!; [done|done|done|].
  intros j Hj. assert (j = 0 ∨ j = 1 ∨ j = 2) as [-> | [-> | ->]] by lia; by vm_compute.
Qed.

Lemma ready_unused : ∃ f, first_unused (fs k) 2 f.
Proof using H.
  pose proof (ur_nrefs _ _ H) as E. destruct (dir (fs k)) as [|f0 [|f1 [|f2 l]]] eqn:El; try done.
  injection E as E0 E1 E2. exists f2. unfold first_unused. rewrite El. split_and!; [done|lia|].
  intros j g Hj Hlt. pose proof (zlookup_Some_range _ _ _ Hj).
  assert (j = 0 ∨ j = 1) as [-> | ->] by lia; injection Hj as <-; lia.
Qed.

Lemma ready_absent : absent first_names [110].
Proof using. intros j _. unfold first_names. do 2 (case_decide; [by vm_compute|]). done. Qed.

Lemma ready_creatable : creatable k all_blocks [110].
Proof using H. split; [done|]. split; [by vm_compute|]. destruct ready_unused as [f Hf]. by exists 2, f. Qed.

Lemma ready_has_slot : ¬ no_free_slot (fs k).
Proof using H. intros Hno. destruct ready_slot as [(v & Hv & Hr) _]. specialize (Hno _ _ Hv). lia. Qed.

Lemma ready_has_fd : ¬ no_free_fd t.
Proof using H. intros Hno. destruct ready_fd as (Hr & Hd & _). by destruct (Hno 3). Qed.

(** Standard output, also standard error. *)
Lemma ready_output : ∃ v f, opened (fs k) 1 v 1 f ∧ refs v = 1 ∧ 0 < n_refs f ≤ INT_MAX.
Proof using H.
  pose proof (ur_refs _ _ H) as Er. pose proof (ur_nrefs _ _ H) as En. pose proof (ur_devs _ _ H) as Ed.
  destruct (fdt (fs k)) as [|v0 [|v1 l]] eqn:Ef; try done. destruct (dir (fs k)) as [|f0 [|f1 l']] eqn:Ed'; try done.
  injection Er as _ Er _. injection En as _ En _. injection Ed as _ Ed. exists v1, f1. split.
  - split; [by rewrite Ef|done|by rewrite Ed'].
  - unfold INT_MAX. lia.
Qed.

Lemma ready_low j w : zlookup (fdt (fs k)) j = Some w → j < 2 → 0 < refs w.
Proof using H. intros Hj Hlt. by eapply (proj2 ready_slot). Qed.
End Ready.

(** ** The last reference to an open file goes. *)
Definition closed_state (k : kstate) (t : task_struct) (fd o : Z) (v : virtual) (d : Z) (f : file) : kstate :=
  set_fs (MkFs (fat (fs k)) (ffb (fs k)) (disk (fs k)) (zinsert d (with_n_refs (n_refs f - 1) f) (dir (fs k)))
      (zinsert o (with_refs 0 v) (fdt (fs k))))
    (set_task (zinsert (cur (sched k)) (set_descriptor fd None t) (task k)) k).

Lemma wp_close_last k t fd o v d f (Q : Z → kstate → Prop) X :
  typed k → zlookup (task k) (cur (sched k)) = Some t → zlen (file_descriptors t) = MAX_FDS →
  descriptor t fd = Some o → opened (fs k) o v d f → refs v = 1 → 0 < n_refs f ≤ INT_MAX →
  (typed (closed_state k t fd o v d f) → Q 0 (closed_state k t fd o v d f)) → wp (sys_close fd) k Q X.
Proof.
  intros Hty Ht Hlen Hfd [Hv Hd Hf] Hrefs Hnrefs HQ. apply wp_typed; [apply durable_sys_close, _|done|].
  eapply wp_sys_close; [done..|]. intros r k' Hpost Hty'.
  destruct Hpost as [Hbad|o' v' d' f' Ho' [Hv' Hd' Hf']]; [congruence|].
  assert (o' = o) as -> by congruence. assert (v' = v) as -> by congruence. assert (d' = d) as -> by congruence.
  assert (f' = f) as -> by congruence. unfold referenced in *. rewrite Hrefs in *. change (s32 (1 + -1)) with 0 in *.
  assert (s32 (n_refs f + -1) = n_refs f - 1) as E by (rewrite s32_small; unfold INT_MIN, INT_MAX in *; lia).
  rewrite E in *. by apply HQ.
Qed.

Section Closed.
Context (k : kstate) (t : task_struct) (fd o : Z) (v : virtual) (d : Z) (f : file).
Context (Hop : opened (fs k) o v d f) (Hnrefs : 0 < n_refs f ≤ INT_MAX).
Local Abbreviation k1 := (closed_state k t fd o v d f).

Lemma closed_slot :
  (∀ j w, zlookup (fdt (fs k)) j = Some w → j < o → 0 < refs w) → free_slot (fs k1) o.
Proof using Hop.
  intros Hlow. pose proof (zlookup_Some_range _ _ _ (op_open _ _ _ _ _ Hop)) as Hr. split.
  - exists (with_refs 0 v). split; [by apply zlookup_zinsert_eq|done].
  - intros j w. simpl. rewrite zlookup_zinsert by done. case_decide; [lia|]. by apply Hlow.
Qed.

Lemma closed_creatable free l : creatable k free l → creatable k1 free l.
Proof using Hop Hnrefs.
  intros (Hl & Hfree & i & g & Hi & Hg & Hpre). pose proof (op_file _ _ _ _ _ Hop) as Hf.
  pose proof (zlookup_Some_range _ _ _ Hf) as Hr. split; [done|]. split; [done|]. exists i, g.
  assert (d ≠ i) as Hne by (intros ->; simplify_eq; lia).
  split; [simpl; by rewrite zlookup_zinsert_ne|]. split; [done|].
  intros j h. simpl. rewrite zlookup_zinsert by done. case_decide; [|by apply Hpre].
  intros [= <-] _. simpl. lia.
Qed.
End Closed.

Lemma free_slot_unique s e e' : free_slot s e → free_slot s e' → e = e'.
Proof.
  intros [(v & Hv & Hr) Hlt] [(v' & Hv' & Hr') Hlt'].
  destruct (Z.lt_trichotomy e e') as [H|[H|H]]; [|done|].
  - specialize (Hlt' _ _ Hv H). lia.
  - specialize (Hlt _ _ Hv' H). lia.
Qed.

(** ** The theorems. *)

(** C4: In every state the kernel reaches, whatever live processes do while a pid is
    left to give, a descriptor of a process, alive or not, is null or names an open file that names an entry
    of the directory: the system calls on descriptors never follow a null or a
    dangling pointer. *)
Theorem reachable_descriptors_typed ta tb k t w i o :
  reachable ta tb k → zlookup (task k) t = Some w → zlookup (file_descriptors w) i = Some (Some o) →
  ∃ v d f, zlookup (fdt (fs k)) o = Some v ∧ logic_dev v = Some d ∧ zlookup (dir (fs k)) d = Some f.
Proof.
  intros (k0 & Hboot & Hsteps). apply typed_descriptor.
  exact (stays_star _ typed_stays _ _ (kinv_boot _ _ _ Hboot) (typed_boot _ _ _ Hboot) Hsteps).
Qed.

(** Standard output of process 0 after a tick of the clock. *)
Lemma reachable_descriptors_typed_witness :
  ∃ k, reachable boot_task_addr boot_table_addr k ∧ ∃ w, zlookup (task k) 0 = Some w ∧
  zlookup (file_descriptors w) 1 = Some (Some 1) ∧
  ∃ v d f, zlookup (fdt (fs k)) 1 = Some v ∧ logic_dev v = Some d ∧ zlookup (dir (fs k)) d = Some f.
Proof.
  destruct booted as (k & q & H). exists k.
  assert (reachable boot_task_addr boot_table_addr k) as Hr by (exists k; split; [exact (so_boot _ _ H)|constructor]).
  split; [exact Hr|]. destruct (qinv_lookup_task _ _ 0 (so_inv _ _ H)) as [w Hw]; [done|]. exists w. split; [exact Hw|].
  assert (zlookup (file_descriptors w) 1 = Some (Some 1)) as Hfd.
  { pose proof (so_fds _ _ H) as E. destruct (task k) as [|w' ws]; [done|].
    change (zlookup (w' :: ws) 0) with (Some w') in Hw. injection Hw as <-. injection E as ->. done. }
  split; [exact Hfd|]. exact (reachable_descriptors_typed _ _ k 0 w 1 1 Hr Hw Hfd).
Defined.

(** [sys_dup] always returns.  A descriptor out of range or closed gives
    EBADF, a full table EMFILE, and else the lowest closed descriptor, now the
    same open file, which has one reference more, and so has its entry in the
    directory; nothing else changes. *)
Theorem sys_dup_correct k t fd :
  typed k → zlookup (task k) (cur (sched k)) = Some t → zlen (file_descriptors t) = MAX_FDS →
  returns (sys_dup fd) k (λ r k', dup_post k t fd r k' ∧ typed k').
Proof.
  intros Hty Ht Hlen. apply wp_returns, wp_typed; [apply typed_sys_dup|done|].
  eapply wp_sys_dup; [done..|]. by split.
Qed.

Lemma sys_dup_correct_witness :
  ∃ k t, user_ready k t ∧ returns (sys_dup 0) k (λ r k', dup_post k t 0 r k' ∧ typed k').
Proof.
  destruct user_state as (k & t & H). exists k, t. split; [exact H|].
  apply sys_dup_correct; [apply H|apply H|exact (ready_len k t H)].
Defined.

(** C32: [sys_close] always returns.  A descriptor out of range or closed gives
    EBADF; else it is closed, the open file and its entry in the directory lose a
    reference each, and nothing else changes. *)
Theorem sys_close_correct k t fd :
  typed k → zlookup (task k) (cur (sched k)) = Some t → zlen (file_descriptors t) = MAX_FDS →
  returns (sys_close fd) k (λ r k', close_post k t fd r k' ∧ typed k').
Proof.
  intros Hty Ht Hlen. apply wp_returns, wp_typed; [apply durable_sys_close, _|done|].
  eapply wp_sys_close; [done..|]. by split.
Qed.

Lemma sys_close_correct_witness :
  ∃ k t, user_ready k t ∧ returns (sys_close 1) k (λ r k', close_post k t 1 r k' ∧ typed k').
Proof.
  destruct user_state as (k & t & H). exists k, t. split; [exact H|].
  apply sys_close_correct; [apply H|apply H|exact (ready_len k t H)].
Defined.







(** C33: An open file with one reference and two descriptors, as boot leaves
    standard output and standard error, is taken over when one of them is closed
    and a file is created: the other descriptor, still open, is now the new file. *)
Theorem shared_descriptor_taken_over k t free own nm path l fd fd' o v d f :
  fs_ok (fs k) free own → named (fs k) nm → typed k →
  zlookup (task k) (cur (sched k)) = Some t → zlen (file_descriptors t) = MAX_FDS →
  check_address path 1 = 1 → user_string k path l → absent nm l → creatable k free l →
  descriptor t fd = Some o → descriptor t fd' = Some o → fd ≠ fd' → opened (fs k) o v d f →
  refs v = 1 → 0 < n_refs f ≤ INT_MAX → (∀ j w, zlookup (fdt (fs k)) j = Some w → j < o → 0 < refs w) →
  returns (sys_close fd;; sys_open path FOR_UPDATE) k (λ r k',
    ∃ t' i nm', zlookup (task k') (cur (sched k')) = Some t' ∧ descriptor t' r = Some o ∧
      descriptor t' fd' = Some o ∧ zlookup (fdt (fs k')) o = Some (Virtual O_RDWR 1 0 (Some i)) ∧
      named (fs k') nm' ∧ found nm' l i).
Proof.
  intros Hok Hnm Hty Ht Hlen Hpath Hs Habs Hcr Hfd Hfd' Hne Hop Hrefs Hnrefs Hlow.
  apply wp_returns, wp_bind. eapply wp_close_last; [exact Hty|exact Ht|exact Hlen|exact Hfd|exact Hop|exact Hrefs|exact Hnrefs|].
  set (k1 := closed_state k t fd o v d f). intros Hty1.
  assert (0 ≤ fd < zlen (file_descriptors t)) as Hr.
  { apply dec_stable. intros E. by rewrite descriptor_out in Hfd by (lia || done). }
  pose proof Hop as [Hv Hdev Hf]. pose proof (zlookup_Some_range _ _ _ Hv) as Hvr.
  assert (free_slot (fs k1) o) as Hslot by by apply closed_slot.
  assert (fs_ok (fs k1) free own) as Hok1 by (apply fs_ok_refs; [done|done|left; lia]).
  assert (named (fs k1) nm) as Hnm1 by by apply named_refs.
  apply (wp_open_for_update k1 (set_descriptor fd None t) free own nm path l).
  - done.
  - done.
  - done.
  - apply zlookup_zinsert_eq. by eapply zlookup_Some_range.
  - by rewrite zlen_set_descriptor.
  - done.
  - by apply (user_string_mm k).
  - done.
  - by apply closed_creatable.
  - intros Hno. destruct Hslot as [(w & Hw & Hw0) _]. specialize (Hno _ _ Hw). lia.
  - intros Hno. apply (Hno fd); [lia|]. rewrite descriptor_set by done. by rewrite decide_True.
  - intros n e i g b free' He Hn Hu Efree. cbv zeta. intros _.
    assert (e = o) as -> by by eapply free_slot_unique.
    destruct Hn as (Hn & Hnone & _). pose proof Hu as (Hi & _). pose proof (zlookup_Some_range _ _ _ Hi) as Hir.
    assert (n ≠ fd') as Hnf.
    { intros ->. rewrite descriptor_set, decide_False in Hnone by done. congruence. }
    exists (set_descriptor n (Some o) (set_descriptor fd None t)), i, (<[i := l]> nm). split_and!.
    + apply zlookup_zinsert_eq. simpl. rewrite zlen_zinsert. by eapply zlookup_Some_range.
    + rewrite descriptor_set by (rewrite zlen_set_descriptor, Hlen; done). by rewrite decide_True.
    + rewrite descriptor_set by (rewrite zlen_set_descriptor, Hlen; done). rewrite decide_False by done.
      rewrite descriptor_set by done. by rewrite decide_False.
    + simpl. apply zlookup_zinsert_eq. by rewrite zlen_zinsert.
    + apply named_refs; [|by apply zlookup_zinsert_eq].
      destruct Hs as (Hpr & _), Hcr as (Hl & _).
      eapply created_named; [done|exact Hi|by eapply (fo_names _ _ _ Hok1)|done|done].
    + apply created_found; [done|]. simpl in Hir. rewrite zlen_zinsert, (fo_dir _ _ _ Hok) in Hir. done.
Qed.

Lemma shared_descriptor_taken_over_witness :
  ∃ k t, user_ready k t ∧ returns (sys_close 1;; sys_open user_path FOR_UPDATE) k (λ r k',
    ∃ t' i nm', zlookup (task k') (cur (sched k')) = Some t' ∧ descriptor t' r = Some 1 ∧
      descriptor t' 2 = Some 1 ∧ zlookup (fdt (fs k')) 1 = Some (Virtual O_RDWR 1 0 (Some i)) ∧
      named (fs k') nm' ∧ found nm' [110] i).
Proof.
  destruct user_state as (k & t & H). exists k, t. split; [exact H|].
  destruct (ready_output k t H) as (v & f & Hop & Hr & Hn).
  apply (shared_descriptor_taken_over k t all_blocks no_blocks first_names user_path [110] 1 2 1 v 1 f).
  - exact (ur_fs _ _ H).
  - exact (ur_named _ _ H).
  - exact (ur_typed _ _ H).
  - exact (ur_task _ _ H).
  - exact (ready_len k t H).
  - by vm_compute.
  - exact (ur_path _ _ H).
  - exact ready_absent.
  - exact (ready_creatable k t H).
  - unfold descriptor. by rewrite (ur_fds _ _ H).
  - unfold descriptor. by rewrite (ur_fds _ _ H).
  - done.
  - exact Hop.
  - exact Hr.
  - exact Hn.
  - intros j w Hj Hlt. apply (ready_low k t H j w Hj). lia.
Defined.

(** ** A program that keeps bytes in a file. *)
Definition file_session (path src n dst : Z) : K (list Z) :=
  let! fd := sys_open path FOR_UPDATE in
  let! w := sys_write fd src n in
  let! c := sys_close fd in
  let! fd2 := sys_open path O_RDONLY in
  let! r := sys_read fd2 dst n in
  ret [fd; w; c; fd2; r].

Lemma accessible_same k k' type addr size :
  mm k' = mm k → sched k' = sched k → accessible k type addr size → accessible k' type addr size.
Proof. unfold accessible. by intros -> ->. Qed.

Lemma user_bytes_same k k' buf n f : mm k' = mm k → user_bytes k buf n f → user_bytes k' buf n f.
Proof. unfold user_bytes. by intros ->. Qed.

(** C13: A program that creates a file, writes [n] bytes, closes it, opens it to
    read and reads [n] bytes always goes through: it reads back exactly what was
    written, all of it or as much as the disk had room for, which the result of
    the write tells; no other byte of memory changes. *)
Theorem file_session_roundtrip k t free own nm path l buf n src dst pd :
  fs_ok (fs k) free own → named (fs k) nm → typed k →
  zlookup (task k) (cur (sched k)) = Some t → zlen (file_descriptors t) = MAX_FDS →
  check_address path 1 = 1 → user_string k path l → absent nm l → creatable k free l →
  ¬ no_free_slot (fs k) → ¬ no_free_fd t → 0 ≤ n ≤ MAX_TRANSFER →
  accessible k 1 buf n → user_bytes k buf n src → accessible k 0 dst n →
  (∀ i, 0 ≤ i < n → phys_of (mm k) (dst + i) = Some (pd i)) →
  (∀ i j, 0 ≤ i < n → 0 ≤ j < n → pd i = pd j → i = j) →
  returns (file_session path buf n dst) k (λ rs k', ∃ fd w fd2 m,
    rs = [fd; w; 0; fd2; m] ∧ (w = n ∧ m = n ∨ w = - ENOSPC ∧ 0 ≤ m < n) ∧
    (∀ j, 0 ≤ j < m → byte_at (mm k') (dst + j) = Some (src j)) ∧
    (∀ pa, (∀ j, 0 ≤ j < m → pa ≠ pd j) → ram_byte (mm k') pa = ram_byte (mm k) pa)).
Proof.
  intros Hok Hnm Hty Ht Hlen Hpath Hs Habs Hcr Hslot Hfd Hn Hacc Hb Hacc' Hpd Hinj.
  pose proof Hcr as (Hl & _). apply wp_returns, wp_bind. eapply wp_session_create; try done.
  intros fd k1 t1 free1 own1 d f1 e Hse1 Hon1 Hc1 Hsz1 Href1.
  apply wp_bind. eapply (wp_session_write k k1); [exact Hse1|exact Hon1|done|done|done|done|done| | |].
  { eapply accessible_same; [apply Hse1|apply Hse1|done]. }
  { eapply user_bytes_same; [apply Hse1|done]. }
  intros w m k2 free2 own2 f2 Hse2 Hon2 Hc2 Hsz2 Href2 Hwm.
  apply wp_bind. eapply (wp_session_close k k2); [exact Hse2|exact Hon2|done|by rewrite Href2|].
  intros k3 Hse3 Hc3 Hslot3. apply wp_bind.
  eapply (wp_session_reopen k k3); [exact Hse3|done|done|done|done| |done|].
  { pose proof (descriptor_range _ _ _ _ _ _ _ (session_regular _ _ _ _ _ _ _ _ _ _ _ Hse2 Hon2)
      (se_len _ _ _ _ _ _ _ _ Hse2)) as Hr.
    intros Hno. apply (Hno fd Hr). rewrite descriptor_set by by rewrite (se_len _ _ _ _ _ _ _ _ Hse2). by rewrite decide_True. }
  intros fd2 k4 e2 Hse4 Hon4 Hc4. apply wp_bind.
  eapply (wp_session_read k k4 _ _ _ _ _ _ _ _ _ _ n m src pd); [exact Hse4|exact Hon4|done|done|exact Hsz2| | | | |done|done|].
  - by rewrite Hc4, Hc3.
  - lia.
  - lia.
  - eapply accessible_same; [apply Hse4|apply Hse4|done].
  - intros k5 Hbytes Hrest. apply wp_ret. by exists fd, w, fd2, m.
Qed.

Lemma file_session_roundtrip_witness :
  ∃ k t, user_ready k t ∧ returns (file_session user_path user_text 3 user_buffer) k (λ rs k', ∃ fd w fd2 m,
    rs = [fd; w; 0; fd2; m] ∧ (w = 3 ∧ m = 3 ∨ w = - ENOSPC ∧ 0 ≤ m < 3) ∧
    (∀ j, 0 ≤ j < m → byte_at (mm k') (user_buffer + j) = Some (65 + j)) ∧
    (∀ pa, (∀ j, 0 ≤ j < m → pa ≠ 266 * 4096 + j) → ram_byte (mm k') pa = ram_byte (mm k) pa)).
Proof.
  destruct user_state as (k & t & H). exists k, t. split; [exact H|].
  apply (file_session_roundtrip k t all_blocks no_blocks first_names user_path [110] user_text 3 (λ i, 65 + i)
    user_buffer (λ i, 266 * 4096 + i)).
  - exact (ur_fs _ _ H).
  - exact (ur_named _ _ H).
  - exact (ur_typed _ _ H).
  - exact (ur_task _ _ H).
  - exact (ready_len k t H).
  - by vm_compute.
  - exact (ur_path _ _ H).
  - exact ready_absent.
  - exact (ready_creatable k t H).
  - exact (ready_has_slot k t H).
  - exact (ready_has_fd k t H).
  - by vm_compute.
  - exact (ur_write _ _ H).
  - exact (ur_text _ _ H).
  - exact (ur_read _ _ H).
  - exact (ur_buffer _ _ H).
  - intros i j _ _ E. lia.
Defined.
